(* ===== verification/_CoqProject ===== *)
-Q . S2P
Prelude.v
GoStrings.v
GoRuntime.v
Api.v
World.v
Concrete.v
Rounding.v
Env.v
Logic.v
VolumeConfig.v
VolumeAttachment.v
Volume.v
KNode.v
PersistentVolume.v
Services.v
Iscsi.v
Maya.v
Attachments.v
Mounts.v
Controller.v
NodeSvc.v
Server.v
Identity.v
Protocol.v
Threads.v
Store.v
ControllerSpec.v
ExpandSpec.v
SnapshotSpec.v
AttachSpec.v
StageSpec.v
Lifecycle.v
Rely.v
Claims.v
VolumeLife.v
Attached.v
NodeSpec.v
PublishSpec.v
GrowSpec.v
IscsiSpec.v
DriverSpec.v
HelperSpec.v
