(* ===== verification/Prelude.v ===== *)
(** * Verification of the OpenEBS cStor CSI driver

    The program (src/) is a CSI driver: a process that is started either as a
    controller or as a node plugin and serves gRPC requests of Kubernetes. This
    development translates its Go code function by function into programs over
    external actions, and proves what the functions promise.

    ** The program and its parts

    [cmd/main.go] builds a driver ([pkg/driver/service.go]) and starts its gRPC
    server ([pkg/utils/server.go]). The controller service
    ([pkg/driver/controller.go]) creates, deletes, expands and snapshots volumes:
    a volume is a CStorVolumeConfig (CVC, the claim of [pkg/utils/maya.go]) that
    an operator outside this repository turns into a CStorVolume (CV). The node
    service ([pkg/driver/node.go]) records a volume on its node as a
    CStorVolumeAttachment (CVA, [pkg/utils/kubernetes.go]), logs in to its iSCSI
    target ([pkg/iscsi]), formats and mounts it. A goroutine remounts lost mounts,
    and cleanup goroutines detach attachments that are marked for deletion
    ([pkg/utils/utils.go]). The handlers and goroutines of a node share two maps,
    TransitionVolList and ReqMountList, under one mutex.

    ** Files and the code they model

    Foundations:
    - [Prelude]: scope, tactics, 64-bit integers, Go's map-copying loop;
    - [GoStrings]: the functions of Go's [strings], [strconv] and [filepath];
    - [GoRuntime]: error values, programs as trees of actions, [defer], [range],
      their execution [run] and the program logic [wp];
    - [Api], [World]: the objects of the APIs, and the actions with which the
      program reaches outside ([ApiLib] holds the pure third-party functions);
    - [Logic]: kinds of actions, machines (environments with a guard and a
      transition relation), and the rules of opening a Kubernetes client;
    - [Rely]: rely and guarantee for a state many programs share;
    - [Concrete]: one instance of all parameters, for the witnesses.

    Components, each a Module named after the Go package or file:
    - [Rounding] (pkg/utils/rounding.go), [Env] (pkg/env, pkg/kubernetes/client);
    - [VolumeConfig], [VolumeAttachment], [Volume] (pkg/cstor/volumeconfig,
      volumeattachment, volume): builders, filtered lists, clients;
    - [KNode], [PersistentVolume], [Services] (pkg/kubernetes: node,
      persistentvolumeclaim, persistentvolume, namespace, service);
    - [Iscsi] (pkg/iscsi), [Maya] (pkg/utils/maya.go), [Attachments]
      (pkg/utils/kubernetes.go, pkg/cstor/snapshot), [Mounts]
      (pkg/utils/utils.go, mount.go);
    - [Controller] (pkg/driver/controller*.go, pkg/payload), [NodeSvc]
      (pkg/driver/node*.go), [Server] (pkg/utils/server.go and logGRPC),
      [Identity] (pkg/version, pkg/driver/identity.go and service.go, pkg/config,
      cmd/main.go).

    A Go function of type [A] is a program [go A]: a finite tree whose nodes are
    actions and whose leaves are the ways to end, return, panic or [os.Exit]. A
    result [(v, error)] is a pair of options where both parts can be observed, and
    [res A], a sum, where only one is meaningful. A nil pointer is [None], and
    reading through it ([deref]) panics. Structs are records, a pointer a
    function edits in place is passed and returned, map iteration order is an
    answer of the environment ([RangeMap]).

    ** What the theorems show

    - The node's concurrency ([Protocol], [Threads]): every handler, monitor round,
      remount goroutine and start-up cleanup goroutine follows an ownership
      protocol for the entries of TransitionVolList; so, for any number of
      goroutines under any interleaving, one volume is worked on by one goroutine
      at a time, the list is changed under the lock, and it is empty when all have
      returned ([quiescent]).
    - The objects of the cluster: the type of attachments ([Attached]) is an
      invariant of all the plugins of all nodes, and the type of claims ([Claims])
      of all the replicas of the controller, running against one API server with
      whatever else keeps it; a controller changes nothing of a claim but its size
      and its mark for deletion. What overlapping requests break is shown too:
      an expansion can take back the size another was granted.
    - The life of a volume on a node ([Lifecycle]): staging, publishing,
      unpublishing and unstaging compose and lead back to the node as it was;
      staging a volume that is staged condemns its attachment.
    - The life of a volume in the control plane ([VolumeLife]): creating it, creating
      it again, expanding and deleting it compose and lead back to the claims as
      they were; what holds of the handlers on [Store]'s API server carries over to
      this one by refinement ([wp_refine]).
    - The controller against an API server ([Store], [ControllerSpec],
      [ExpandSpec]): CreateVolume and DeleteVolume refine abstract operations on
      the set of claims, errors and retries included; a resize never shrinks
      a claim and leaves every other field alone.
    - Snapshots ([SnapshotSpec]): creation refines an abstract set of snapshots,
      and the ID returned takes deletion back to that snapshot.
    - The node's order of steps ([AttachSpec], [StageSpec], [PublishSpec], [GrowSpec],
      [NodeSpec], [IscsiSpec]): a volume is attached to one node at a time, it is
      recorded before it is connected and mounted only when connected, it is logged
      out of only when nothing is mounted from it; the commands that grow it; the
      bounds of all waits; the exact outcome of a monitor scan; what the file of a
      disk keeps of it.
    - The process ([DriverSpec]): the order in which a driver cleans up, starts
      its monitor and serves; the configuration the flags give; the cleanup itself;
      endpoints; the interceptor.
    - Helpers ([Rounding], [VolumeConfig], [HelperSpec]): size arithmetic with
      its overflow, a builder that does what its calls say or fails, the source of a configuration,
      filtered lists, collections.

    ** How the theorems are stated

    [wp (mspec M) p s Q] says: run against the machine [M] from state [s], the
    program [p] only performs actions the machine's guard permits in the state
    they meet, and however the machine answers, it ends with [Q]. As programs
    are finite trees, this is total: there is no run that goes on for
    ever. The guards hold the safety properties, the postconditions the functional
    ones. A theorem about [run] speaks of one deterministic environment.

    ** Bounds

    There is no fuel but the program's own: the waits make 7 polls of a volume's
    status and 6 dials, the cleanup 5 listings, the wait for a device path as
    many looks as its caller asks for. [ByteCount] divides by 1024 until the
    number is below it; 64 rounds do for 64-bit numbers ([ByteCount_total]).
    [MonitorMounts], the one endless loop, is modelled for any number of ticks.

    ** What is assumed

    - [Host]: the environment variables do not change; a call that opens a
      client returns a client or an error. On a host that is not [flaky] the
      configuration calls succeed.
    - [Owner.answers]: an attachment of this node that is read without an error is
      named after its volume (beside an error the pointer may be anything), and
      either no attachment listed for this node is marked for deletion, or the
      monitor does not run and the updates of the start-up cleanup are answered
      with the attachment of the volume updated (beside an error, too: a failed
      update that is answered with an empty object leaves the volume in the list,
      see the findings). The first part is needed: a cleanup during service enters a volume in the list
      without looking whether it is there, and [Pool.cleanup_overtakes] exhibits the
      interleaving in which it and a handler work on one volume.
    - [Claims.merging]: a merge patch between two claims that differ in their size
      changes nothing else of the claim it is merged into.
    - The machines of the other theorems state their answers in their [reacts] or
      [next] relation, and the theorems about single functions of third-party
      libraries (quantities, JSON merge patches) name them as hypotheses, each
      with a concrete instance among the witnesses.

    ** Not modelled, and why

    - Parsing of the command line (cobra) in cmd/main.go; what cobra makes of the
      arguments is the argument of [Main.main].
    - The text of a JSON document: encoding and decoding are actions on the fields.
    - Kubernetes, gRPC, mount-utils, go-iscsi, the analytics client: their calls
      are actions or parameters of [ApiLib]. That the analytics client may call the
      version getter the driver has registered, which panics on a short commit, is
      not represented: the getter is registered ([AnalyticsRegister]) and modelled
      ([Version.GetVersionDetails]), and never run. Log lines are left out where they
      compute nothing.
    - Data races on the shared maps are not represented: a map access is one
      atomic step.
    - Deadlines and cancellation by the [context] argument, which the code passes
      on and never reads. *)

From stdpp Require Export base tactics option list strings gmap fin_maps.
From Stdlib Require Export ZArith Lia.

(** ** Scope and notations of the development *)

Declare Scope go_scope.
Delimit Scope go_scope with go.

(** ** Tactics shared by the components *)

(** Split every conjunction, existential and pair among the hypotheses. *)
Ltac destruct_and_all :=
  repeat match goal with
  | H : _ ∧ _ |- _ => destruct H
  | H : ∃ _, _ |- _ => destruct H
  | H : _ * _ |- _ => destruct H
  | H : unit |- _ => destruct H
  end.

(** ** Integers: Go's [int64] *)

Definition int64_min : Z := -9223372036854775808.
Definition int64_max : Z := 9223372036854775807.
Definition is_int64 (z : Z) : Prop := (int64_min ≤ z ≤ int64_max)%Z.

(** Two's-complement wrap-around of a 64-bit signed integer. *)
Definition wrap64 (z : Z) : Z := ((z - int64_min) mod 2 ^ 64 + int64_min)%Z.

Global Instance is_int64_dec z : Decision (is_int64 z).
Proof. unfold is_int64. apply _. Defined.

Lemma wrap64_small z : is_int64 z → wrap64 z = z.
Proof.
  unfold wrap64, is_int64, int64_min, int64_max. intros.
  rewrite Z.mod_small by lia. lia.
Qed.

Lemma wrap64_range z : is_int64 (wrap64 z).
Proof.
  unfold wrap64, is_int64, int64_min, int64_max.
  pose proof (Z.mod_pos_bound (z - -9223372036854775808) (2 ^ 64) ltac:(lia)). lia.
Qed.

(** ** Maps: the Go loop [for k, v := range src { dst[k] = v }] *)

Definition range_assign {V} (src dst : gmap string V) : gmap string V :=
  map_fold (λ k v acc, <[k := v]> acc) dst src.

Lemma range_assign_union {V} (src dst : gmap string V) :
  range_assign src dst = src ∪ dst.
Proof.
  unfold range_assign.
  induction src as [|k v m Hk Hfold IH] using map_first_key_ind.
  - by rewrite map_fold_empty, (left_id_L ∅ (∪)).
  - rewrite map_fold_insert_first_key by done.
    by rewrite IH, insert_union_l.
Qed.

Lemma range_assign_empty {V} (src : gmap string V) : range_assign src ∅ = src.
Proof. rewrite range_assign_union. by rewrite (right_id_L ∅ (∪)). Qed.

(** ** Lists *)

Lemma list_find_head {A} (P : A → Prop) `{∀ x, Decision (P x)} (l : list A) x rest :
  filter P l = x :: rest → ∃ pre post, l = pre ++ x :: post ∧ P x ∧ Forall (λ y, ¬ P y) pre.
Proof.
  induction l as [|y l IH]; simpl; [done|].
  rewrite filter_cons. destruct (decide (P y)) as [Hy|Hy].
  - intros [= -> _]. by exists [], l.
  - intros Hf. destruct (IH Hf) as (pre & post & -> & Hx & Hpre).
    exists (y :: pre), post. split_and!; [done..|]. by constructor.
Qed.

(** ** The hint database of the development *)

Create HintDb csi.
#[export] Hint Resolve wrap64_range : csi.
#[export] Hint Rewrite @range_assign_union @range_assign_empty : csi.

(** ** Lists: the loops that copy and filter a slice *)

Lemma foldl_filter_acc {A} (f : A → bool) (l acc : list A) :
  foldl (λ acc x, if f x then acc ++ [x] else acc) acc l = acc ++ filter (λ x, f x = true) l.
Proof.
  revert acc. induction l as [|x l IH]; intros acc; simpl; [by rewrite app_nil_r|].
  rewrite IH, filter_cons. destruct (f x) eqn:E.
  - rewrite decide_True by done. by rewrite <- (assoc_L (++)).
  - by rewrite decide_False by done.
Qed.

Lemma foldl_filter {A} (f : A → bool) (l : list A) :
  foldl (λ acc x, if f x then acc ++ [x] else acc) [] l = filter (λ x, f x = true) l.
Proof. exact (foldl_filter_acc f l []). Qed.

Lemma foldl_snoc {A} (l acc : list A) : foldl (λ acc x, acc ++ [x]) acc l = acc ++ l.
Proof.
  revert acc. induction l as [|x l IH]; intros acc; simpl; [by rewrite app_nil_r|].
  by rewrite IH, <- (assoc_L (++)).
Qed.

Lemma filter_all {A} (f : A → bool) (l : list A) :
  (∀ x, f x = true) → filter (λ x, f x = true) l = l.
Proof. intros H. induction l as [|x l IH]; [done|]. rewrite filter_cons_True by apply H. by rewrite IH. Qed.
