(* ===== verification/GoStrings.v ===== *)
(** * The Go standard-library string functions the driver uses

    [strings.Contains], [HasPrefix], [HasSuffix], [Split] on a one-byte
    separator, [SplitN(_, sep, 2)], [Join], [Fields], [TrimSpace], [ToLower],
    [strconv.Itoa], [Atoi]/[ParseInt(_, 10, 64)] and [ParseBool], on byte strings.
    The blanks and the letters of [TrimSpace], [Fields] and [ToLower] are the
    ASCII ones (the identifiers, paths and tool outputs of the driver are ASCII). *)

From S2P Require Export Prelude.
From Stdlib Require Import Ascii.

Module Str.

Fixpoint HasPrefix (s p : string) {struct p} : bool :=
  match p, s with
  | EmptyString, _ => true
  | String c p', String d s' => bool_decide (c = d) && HasPrefix s' p'
  | String _ _, EmptyString => false
  end.

Fixpoint HasSuffix (s q : string) : bool :=
  bool_decide (s = q) ||
  match s with EmptyString => false | String _ s' => HasSuffix s' q end.

Fixpoint Contains (s sub : string) : bool :=
  HasPrefix s sub ||
  match s with EmptyString => false | String _ s' => Contains s' sub end.

(** [strings.Split(s, sep)] for a separator of one byte: never an empty list. *)
Fixpoint Split (s : string) (sep : ascii) : list string :=
  match s with
  | EmptyString => [EmptyString]
  | String c s' =>
      if bool_decide (c = sep) then EmptyString :: Split s' sep
      else match Split s' sep with
           | [] => [String c EmptyString]
           | h :: t => String c h :: t
           end
  end.

Fixpoint drop (n : nat) (s : string) : string :=
  match n, s with
  | S n', String _ s' => drop n' s'
  | _, _ => s
  end.

(** [strings.SplitN(s, sep, 2)]: cut at the first occurrence of [sep]. *)
Fixpoint SplitN2 (s sep : string) : list string :=
  if HasPrefix s sep then [EmptyString; drop (String.length sep) s]
  else match s with
       | EmptyString => [EmptyString]
       | String c s' =>
           match SplitN2 s' sep with
           | h :: t => String c h :: t
           | [] => [String c EmptyString]
           end
       end.

Fixpoint Join (l : list string) (sep : string) : string :=
  match l with
  | [] => EmptyString
  | [x] => x
  | x :: t => x +:+ sep +:+ Join t sep
  end.

Definition is_space (c : ascii) : bool :=
  let n := nat_of_ascii c in ((9 <=? n) && (n <=? 13) || (n =? 32))%nat.

Fixpoint trim_left (s : string) : string :=
  match s with
  | String c s' => if is_space c then trim_left s' else s
  | EmptyString => EmptyString
  end.

Fixpoint trim_right (s : string) : string :=
  match s with
  | EmptyString => EmptyString
  | String c s' =>
      match trim_right s' with
      | EmptyString => if is_space c then EmptyString else String c EmptyString
      | t => String c t
      end
  end.

Definition TrimSpace (s : string) : string := trim_right (trim_left s).

(** [strings.Fields]: the maximal runs of non-blank bytes; [cur] is the run
    being read. *)
Fixpoint fields_go (s cur : string) : list string :=
  let flush := if bool_decide (cur = EmptyString) then [] else [cur] in
  match s with
  | EmptyString => flush
  | String c s' =>
      if is_space c then flush ++ fields_go s' EmptyString
      else fields_go s' (cur +:+ String c EmptyString)
  end.
Definition Fields (s : string) : list string := fields_go s EmptyString.

Definition lower (c : ascii) : ascii :=
  let n := nat_of_ascii c in
  if ((65 <=? n) && (n <=? 90))%nat then ascii_of_nat (n + 32) else c.
Fixpoint ToLower (s : string) : string :=
  match s with
  | EmptyString => EmptyString
  | String c s' => String (lower c) (ToLower s')
  end.

(** ** Decimal numbers *)

Definition digit (d : Z) : ascii := ascii_of_nat (48 + Z.to_nat d).

(** The digits of [n], most significant first, before the suffix [acc]. *)
Fixpoint digits_go (fuel : nat) (n : Z) (acc : string) : string :=
  match fuel with
  | 0 => acc
  | S fuel' =>
      let acc' := String (digit (n mod 10)) acc in
      if (n <? 10)%Z then acc' else digits_go fuel' (n / 10) acc'
  end.

(** [strconv.Itoa], [strconv.FormatInt(_, 10)] and [%d]; 20 digits hold
    every 64-bit integer. *)
Definition Itoa (z : Z) : string :=
  if (z <? 0)%Z then String "-"%char (digits_go 20 (- z) EmptyString)
  else digits_go 20 z EmptyString.

Definition digit_val (c : ascii) : option Z :=
  let n := Z.of_nat (nat_of_ascii c) in
  if ((48 <=? n) && (n <=? 57))%Z then Some (n - 48)%Z else None.

Fixpoint parse_digits (s : string) (acc : Z) : option Z :=
  match s with
  | EmptyString => Some acc
  | String c s' => d ← digit_val c; parse_digits s' (acc * 10 + d)%Z
  end.

Definition parse_uint (s : string) : option Z :=
  match s with EmptyString => None | _ => parse_digits s 0 end.

(** [strconv.ParseInt(s, 10, 64)] and, on 64-bit platforms, [strconv.Atoi]:
    [None] for a syntax or a range error. *)
Definition ParseInt (s : string) : option Z :=
  z ← match s with
      | String "-" s' => Z.opp <$> parse_uint s'
      | String "+" s' => parse_uint s'
      | _ => parse_uint s
      end;
  if decide (is_int64 z) then Some z else None.
Definition Atoi : string → option Z := ParseInt.

(** [strconv.ParseBool]: [None] for a syntax error. *)
Definition ParseBool (s : string) : option bool :=
  if decide (s ∈ ["1"; "t"; "T"; "TRUE"; "true"; "True"]) then Some true
  else if decide (s ∈ ["0"; "f"; "F"; "FALSE"; "false"; "False"]) then Some false
  else None.

(** [path/filepath] on Unix.  [Clean]: drop empty and "." elements, let ".."
    eat the element before it (at the root it disappears). *)
Fixpoint clean_go (rooted : bool) (elems out : list string) : list string :=
  match elems with
  | [] => out
  | e :: elems' =>
      if bool_decide (e = "") || bool_decide (e = ".") then clean_go rooted elems' out
      else if bool_decide (e = "..") then
        match out with
        | last :: out' =>
            if bool_decide (last = "..") then clean_go rooted elems' (".." :: out)
            else clean_go rooted elems' out'
        | [] => clean_go rooted elems' (if rooted then [] else [".."])
        end
      else clean_go rooted elems' (e :: out)
  end.
Definition path_Clean (p : string) : string :=
  let rooted := HasPrefix p "/" in
  let body := Join (rev (clean_go rooted (Split p "/"%char) [])) "/" in
  if rooted then "/" +:+ body
  else if bool_decide (body = "") then "." else body.

(** [path.Join]: the elements that are not empty, cleaned. *)
Definition path_Join (elems : list string) : string :=
  match List.filter (λ e, negb (bool_decide (e = ""))) elems with
  | [] => ""
  | l => path_Clean (Join l "/")
  end.

Example path_Join_examples :
  map path_Join [["/mnt"; "v.json"]; [""; "v.json"]; ["/mnt/"; "../v.json"]; [""; ""]] =
  ["/mnt/v.json"; "v.json"; "/v.json"; ""].
Proof. reflexivity. Qed.

(** [filepath.Dir]: the path up to its last separator, cleaned. *)
Definition path_Dir (p : string) : string :=
  match rev (Split p "/"%char) with
  | [] | [_] => "."
  | _ :: front => path_Clean (Join (rev ("" :: front)) "/")
  end.

Example path_Dir_examples :
  map path_Dir ["/a/b/c"; "/a/b/"; "a"; "/a"; "a/../../b/c"; "/../x/y"] =
  ["/a/b"; "/a/b"; "."; "/"; "../b"; "/x"].
Proof. reflexivity. Qed.

(** ** Lemmas *)

Lemma Split_not_nil s sep : Split s sep ≠ [].
Proof.
  destruct s; simpl; [done|]. case_bool_decide; [done|]. by destruct (Split s sep).
Qed.

Lemma Split_fresh s sep :
  Contains s (String sep EmptyString) = false → Split s sep = [s].
Proof.
  induction s as [|c s IH]; simpl; [done|].
  rewrite andb_true_r. case_bool_decide as Hc; [done|]. simpl. intros H.
  rewrite bool_decide_false by congruence. by rewrite IH.
Qed.

Lemma Split_app_sep a b sep :
  Contains a (String sep EmptyString) = false →
  Split (a +:+ String sep b) sep = a :: Split b sep.
Proof.
  induction a as [|c a IH]; simpl.
  - by rewrite bool_decide_true.
  - rewrite andb_true_r. case_bool_decide as Hc; [done|]. simpl. intros H.
    rewrite bool_decide_false by congruence. by rewrite IH.
Qed.

(** [Join] undoes [Split]. *)
Lemma Join_Split s sep : Join (Split s sep) (String sep EmptyString) = s.
Proof.
  induction s as [|c s IH]; simpl; [done|].
  pose proof (Split_not_nil s sep) as Hnn.
  case_bool_decide as Hc.
  - subst. destruct (Split s sep) as [|h t]; [done|]. simpl in *. by rewrite IH.
  - destruct (Split s sep) as [|h t]; [done|].
    destruct t as [|h' t]; simpl in *; by rewrite <- IH.
Qed.

Lemma HasPrefix_app p s : HasPrefix (p +:+ s) p = true.
Proof. induction p as [|c p IH]; simpl; [done|]. by rewrite bool_decide_true. Qed.

Lemma HasPrefix_spec s p : HasPrefix s p = true ↔ ∃ t, s = p +:+ t.
Proof.
  split; [|intros [t ->]; apply HasPrefix_app].
  revert s. induction p as [|c p IH]; intros [|d s]; simpl; eauto; [done|].
  intros [->%bool_decide_eq_true Hp]%andb_prop.
  destruct (IH _ Hp) as [t ->]. by exists t.
Qed.

Lemma Contains_spec s sub : Contains s sub = true ↔ ∃ a b, s = a +:+ sub +:+ b.
Proof.
  split.
  - induction s as [|c s IH]; simpl; rewrite orb_true_iff, HasPrefix_spec.
    + intros [[t ->]|?]; [by exists "", t|done].
    + intros [[t ->]|H]; [by exists "", t|].
      destruct (IH H) as (a & b & ->). by exists (String c a), b.
  - intros (a & b & ->). induction a as [|c a IH]; simpl.
    + destruct (sub +:+ b) eqn:E; simpl; rewrite <- ?E, HasPrefix_app; done.
    + by rewrite IH, orb_true_r.
Qed.

Lemma digit_val_digit d : (0 ≤ d < 10)%Z → digit_val (digit d) = Some d.
Proof.
  intros Hd. unfold digit_val, digit. rewrite nat_ascii_embedding by lia.
  rewrite Nat2Z.inj_add, Z2Nat.id by lia.
  destruct (Z.leb_spec 48 (Z.of_nat 48 + d)); [|lia].
  destruct (Z.leb_spec (Z.of_nat 48 + d) 57); [|lia]. simpl. f_equal. lia.
Qed.

Lemma parse_digits_go fuel n acc a :
  (0 ≤ n < 10 ^ Z.of_nat fuel)%Z →
  ∃ k, (0 ≤ k)%Z ∧ parse_digits (digits_go fuel n acc) a = parse_digits acc (a * 10 ^ k + n)%Z.
Proof.
  revert n acc. induction fuel as [|fuel IH]; intros n acc Hn.
  - exists 0%Z. simpl in *. split; [lia|]. f_equal. lia.
  - rewrite Nat2Z.inj_succ, Z.pow_succ_r in Hn by lia. cbn [digits_go].
    pose proof (Z.mod_pos_bound n 10 ltac:(lia)).
    destruct (Z.ltb_spec n 10).
    + exists 1%Z. split; [lia|]. cbn [parse_digits]. rewrite digit_val_digit by lia.
      cbn [mbind option_bind]. f_equal. rewrite Z.mod_small by lia. lia.
    + destruct (IH (n / 10)%Z (String (digit (n mod 10)) acc)) as (k & Hk & ->).
      { split; [apply Z.div_pos; lia|]. apply Z.div_lt_upper_bound; lia. }
      exists (k + 1)%Z. split; [lia|]. cbn [parse_digits]. rewrite digit_val_digit by lia.
      cbn [mbind option_bind]. f_equal.
      rewrite Z.pow_add_r by lia. pose proof (Z.div_mod n 10). lia.
Qed.

Lemma digits_go_head fuel n acc :
  (0 < fuel)%nat → (0 ≤ n)%Z →
  ∃ d s, (0 ≤ d < 10)%Z ∧ digits_go fuel n acc = String (digit d) s.
Proof.
  revert n acc. induction fuel as [|fuel IH]; intros n acc Hf Hn; [lia|]. cbn [digits_go].
  pose proof (Z.mod_pos_bound n 10 ltac:(lia)).
  destruct (Z.ltb_spec n 10); [by exists (n mod 10)%Z, acc|].
  destruct fuel as [|fuel]; [by exists (n mod 10)%Z, acc|].
  apply IH; [lia|]. apply Z.div_pos; lia.
Qed.

Lemma digit_not_sign d s :
  (0 ≤ d < 10)%Z →
  match String (digit d) s with
  | String "-" s' => Z.opp <$> parse_uint s'
  | String "+" s' => parse_uint s'
  | _ => parse_uint (String (digit d) s)
  end = parse_digits (String (digit d) s) 0.
Proof.
  intros Hd. assert (d = 0 ∨ d = 1 ∨ d = 2 ∨ d = 3 ∨ d = 4 ∨ d = 5 ∨ d = 6 ∨ d = 7
    ∨ d = 8 ∨ d = 9)%Z as Hc by lia.
  repeat destruct Hc as [->|Hc]; try reflexivity. by subst.
Qed.

Lemma parse_digits_Itoa n :
  (0 ≤ n < 10 ^ 20)%Z → parse_digits (digits_go 20 n EmptyString) 0 = Some n.
Proof.
  intros Hn. destruct (parse_digits_go 20 n EmptyString 0) as (k & _ & ->); done.
Qed.

(** Printing an [int64] in decimal and parsing it back gives the integer. *)
Lemma ParseInt_Itoa z : is_int64 z → ParseInt (Itoa z) = Some z.
Proof.
  intros Hz. assert (Hz' := Hz). unfold is_int64, int64_min, int64_max in Hz'.
  unfold Itoa, ParseInt. destruct (Z.ltb_spec z 0).
  - destruct (digits_go_head 20 (- z) EmptyString) as (d & s & Hd & E); [lia..|].
    pose proof (parse_digits_Itoa (- z) ltac:(lia)) as Hp. rewrite E in *.
    unfold parse_uint. rewrite Hp. simpl. rewrite Z.opp_involutive. by rewrite decide_True.
  - destruct (digits_go_head 20 z EmptyString) as (d & s & Hd & E); [lia..|].
    pose proof (parse_digits_Itoa z ltac:(lia)) as Hp. rewrite E in *.
    rewrite digit_not_sign, Hp by done. simpl. by rewrite decide_True.
Qed.

Lemma Itoa_inj x y : is_int64 x → is_int64 y → Itoa x = Itoa y → x = y.
Proof.
  intros Hx Hy E. apply (f_equal ParseInt) in E. rewrite !ParseInt_Itoa in E by done.
  congruence.
Qed.

End Str.

#[export] Hint Resolve Str.Split_not_nil : csi.
