(* ===== verification/GoRuntime.v ===== *)
(** * The Go runtime as the driver uses it

    Error values with their chain of causes, and programs: a program is a
    tree of external actions (calls into Kubernetes, the operating system,
    iscsiadm, the mutex, ...) whose leaves are the ways a Go function can end
    (return, panic, [os.Exit]).  Every loop of the driver but the monitor's
    endless one is a structurally recursive function, so a program is a finite
    tree: termination for every behaviour of the environment is part of its type.

    [wp] is the program logic: a weakest precondition that threads a state of
    the reader's choice through the actions.  [run] executes a program against
    a concrete environment, for the witnesses. *)

From S2P Require Export Prelude GoStrings.
Local Open Scope go_scope.

(** ** Error values *)

(** gRPC status codes ([google.golang.org/grpc/codes]) used by the driver. *)
Inductive code := InvalidArgument | Internal | NotFound | Unavailable | Unimplemented.

(** What the [os] package can be asked about an error. *)
Inductive oskind := ENotExist | EExist | EOther.

(** An argument of a format string.  Texts of wrapped errors are kept as the
    errors themselves: nothing in the driver reads a rendered message. *)
Inductive arg :=
  | AStr (s : string) | AInt (z : Z) | AStrs (l : list string)
  | AErr (e : error) | AErrs (l : list error)
with error :=
  | Errorf (fmt : string) (args : list arg)            (* errors.New, fmt.Errorf, errors.Errorf *)
  | Wrapf (e : error) (fmt : string) (args : list arg) (* pkg/errors.Wrapf: keeps its cause *)
  | Status (c : code) (fmt : string) (args : list arg) (* status.Error, status.Errorf *)
  | OsErr (k : oskind) (msg : string)                  (* an error of package os *)
  | ExitErr (status : Z) (msg : string)                (* utilexec.ExitError *)
  | ExtErr (msg : string).                             (* an error of third-party code *)

(** [os.IsNotExist] and [os.IsExist]; they do not look through wrappers. *)
Definition os_IsNotExist (e : error) : bool :=
  match e with OsErr ENotExist _ => true | _ => false end.
Definition os_IsExist (e : error) : bool :=
  match e with OsErr EExist _ => true | _ => false end.

(** A result [(v, error)] of which exactly one part is meaningful. *)
Abbreviation res A := (A + error)%type.
(** A result [error]: [None] is [nil]. *)
Abbreviation err := (option error).

(** ** Programs *)

Section prog.
Context {action : Type} {result : action → Type}.

Inductive prog (A : Type) : Type :=
  | Ret (a : A)
  | Panic (msg : string)                (* a Go run-time panic *)
  | Exit (status : Z)                   (* os.Exit: deferred calls do not run *)
  | Act (a : action) (k : result a → prog A).
Global Arguments Ret {A} a.
Global Arguments Panic {A} msg.
Global Arguments Exit {A} status.
Global Arguments Act {A} a k.

Fixpoint bind {A B} (p : prog A) (f : A → prog B) : prog B :=
  match p with
  | Ret a => f a
  | Panic m => Panic m
  | Exit c => Exit c
  | Act a k => Act a (λ r, bind (k r) f)
  end.

Global Instance prog_ret : MRet prog := @Ret.
Global Instance prog_bind : MBind prog := λ A B f p, bind p f.

(** A single external action. *)
Definition do (a : action) : prog (result a) := Act a Ret.

(** [defer d()]: [d] runs when the function returns and when it panics. *)
Fixpoint defer {A} (d : prog ()) (p : prog A) : prog A :=
  match p with
  | Ret a => bind d (λ _, Ret a)
  | Panic m => bind d (λ _, Panic m)
  | Exit c => Exit c
  | Act a k => Act a (λ r, defer d (k r))
  end.

(** [for _, x := range l { ... }] with a body that may leave the function
    early: [inl b] is [return b], [inr s] goes on with loop state [s]. *)
Fixpoint range {X S B} (l : list X) (s : S) (body : X → S → prog (B + S)) : prog (B + S) :=
  match l with
  | [] => Ret (inr s)
  | x :: l' =>
      bind (body x s) (λ o, match o with
                            | inl b => Ret (inl b)
                            | inr s' => range l' s' body
                            end)
  end.

(** How a run of a program ends. *)
Inductive outcome (A : Type) : Type :=
  | ORet (a : A) | OPanic (msg : string) | OExit (status : Z).
Global Arguments ORet {A} a.
Global Arguments OPanic {A} msg.
Global Arguments OExit {A} status.

(** An external action together with the environment's answer. *)
Definition event : Type := { a : action & result a }.
Definition ev (a : action) (r : result a) : event := existT a r.

(** *** Execution against a concrete environment *)

Section run.
Context {W : Type} (env : ∀ a : action, W → result a * W).

Fixpoint run {A} (p : prog A) (w : W) : outcome A * list event * W :=
  match p with
  | Ret a => (ORet a, [], w)
  | Panic m => (OPanic m, [], w)
  | Exit c => (OExit c, [], w)
  | Act a k =>
      let '(r, w1) := env a w in
      let '(o, tr, w2) := run (k r) w1 in
      (o, ev a r :: tr, w2)
  end.

Lemma run_bind {A B} (p : prog A) (f : A → prog B) w :
  run (bind p f) w =
    let '(o, tr, w1) := run p w in
    match o with
    | ORet a => let '(o2, tr2, w2) := run (f a) w1 in (o2, tr ++ tr2, w2)
    | OPanic m => (OPanic m, tr, w1)
    | OExit c => (OExit c, tr, w1)
    end.
Proof.
  revert w. induction p as [a|m|c|a k IH]; intros w; simpl; [|done..|].
  - by destruct (run (f a) w) as [[??]?].
  - destruct (env a w) as [r w1]. rewrite IH. destruct (run (k r) w1) as [[[x|m|c] tr] w2]; [|done..].
    by destruct (run (f x) w2) as [[??]?].
Qed.
End run.

(** *** Weakest preconditions *)

Section wp.
Context {S : Type}.
(** The specification of one action in state [s]: what must hold before it
    and what the postcondition may rely on after it. *)
Context (spec : ∀ a : action, S → (result a → S → Prop) → Prop).

Fixpoint wp {A} (p : prog A) (s : S) (Q : outcome A → S → Prop) : Prop :=
  match p with
  | Ret a => Q (ORet a) s
  | Panic m => Q (OPanic m) s
  | Exit c => Q (OExit c) s
  | Act a k => spec a s (λ r s', wp (k r) s' Q)
  end.

(** Specifications are monotone in the postcondition. *)
Class MonoSpec : Prop :=
  spec_mono : ∀ a s (Q Q' : result a → S → Prop),
    (∀ r s', Q r s' → Q' r s') → spec a s Q → spec a s Q'.

(** What a continuation [f] makes of an outcome. *)
Definition then_ {A B} (f : A → prog B) (Q : outcome B → S → Prop) :
    outcome A → S → Prop := λ o s,
  match o with
  | ORet a => wp (f a) s Q
  | OPanic m => Q (OPanic m) s
  | OExit c => Q (OExit c) s
  end.

(** What a deferred call makes of an outcome. *)
Definition then_defer {A} (d : prog ()) (Q : outcome A → S → Prop) :
    outcome A → S → Prop := λ o s,
  match o with
  | ORet a => wp (bind d (λ _, Ret a)) s Q
  | OPanic m => wp (bind d (λ _, Panic m)) s Q
  | OExit c => Q (OExit c) s
  end.

Context `{!MonoSpec}.

Lemma wp_mono {A} (p : prog A) s (Q Q' : outcome A → S → Prop) :
  (∀ o s', Q o s' → Q' o s') → wp p s Q → wp p s Q'.
Proof.
  intros HQ. revert s. induction p as [a|m|c|a k IH]; intros s; simpl; [apply HQ..|].
  apply spec_mono. intros r s'. apply IH.
Qed.

Lemma wp_bind {A B} (p : prog A) (f : A → prog B) s Q :
  wp p s (then_ f Q) → wp (bind p f) s Q.
Proof.
  revert s. induction p as [a|m|c|a k IH]; intros s; simpl; [done..|].
  apply spec_mono. intros r s'. apply IH.
Qed.

Lemma wp_defer {A} (d : prog ()) (p : prog A) s Q :
  wp p s (then_defer d Q) → wp (defer d p) s Q.
Proof.
  revert s. induction p as [a|m|c|a k IH]; intros s; simpl; [done..|].
  apply spec_mono. intros r s'. apply IH.
Qed.

(** Loops: an invariant [I] on the loop state and the logic's state, and a
    postcondition [R] of an early return. *)
Lemma wp_range {X T B} (l : list X) (t : T) (body : X → T → prog (B + T))
    (I : T → S → Prop) (Q : outcome (B + T) → S → Prop) s :
  I t s →
  (∀ x t s, x ∈ l → I t s →
     wp (body x t) s (λ o s', match o with
                              | ORet (inl b) => Q (ORet (inl b)) s'
                              | ORet (inr t') => I t' s'
                              | OPanic m => Q (OPanic m) s'
                              | OExit c => Q (OExit c) s'
                              end)) →
  (∀ t s, I t s → Q (ORet (inr t)) s) →
  wp (range l t body) s Q.
Proof.
  intros HI Hbody Hend. revert t s HI.
  induction l as [|x l IH]; intros t s HI; simpl; [by apply Hend|].
  apply wp_bind. eapply wp_mono; [|apply Hbody; [left|done]].
  intros [[b|t']|m|c] s'; simpl; try done.
  apply IH. intros y t2 s2 Hy. apply Hbody. by right.
Qed.
End wp.

(** The deterministic specification: one environment, one run. *)
Definition det {W} (env : ∀ a : action, W → result a * W) (a : action) (w : W)
    (Q : result a → W → Prop) : Prop := Q (env a w).1 (env a w).2.

Global Instance det_mono {W} (env : ∀ a : action, W → result a * W) : MonoSpec (det env).
Proof. intros a w Q Q' HQ. apply HQ. Qed.

Lemma wp_det {A W} (env : ∀ a : action, W → result a * W) (p : prog A) w Q :
  wp (det env) p w Q ↔ let '(o, _, w') := run env p w in Q o w'.
Proof.
  revert w. induction p as [a|m|c|a k IH]; intros w; simpl; [done..|].
  unfold det. destruct (env a w) as [r w1]. simpl. rewrite IH.
  by destruct (run env (k r) w1) as [[??]?].
Qed.

(** The demonic specification over traces: the environment answers as it
    likes, within [legal]. *)
Section demonic.
Context (legal : ∀ a : action, result a → Prop).

Definition any (a : action) (tr : list event) (Q : result a → list event → Prop) : Prop :=
  ∀ r, legal a r → Q r (tr ++ [ev a r]).

Global Instance any_mono : MonoSpec any.
Proof. intros a tr Q Q' HQ H r Hr. apply HQ, H, Hr. Qed.

Global Instance wp_any_proper {A} (p : prog A) tr :
  Proper (pointwise_relation _ (pointwise_relation _ impl) ==> impl) (wp any p tr).
Proof. intros Q Q' HQ H. eapply wp_mono; [apply _| |exact H]. intros o s'. apply HQ. Qed.

(** Every run in a legal environment satisfies what [wp any] promises. *)
Lemma wp_any_run {A W} (env : ∀ a : action, W → result a * W) (p : prog A) w tr Q :
  (∀ a w, legal a (env a w).1) →
  wp any p tr Q →
  let '(o, tr', _) := run env p w in Q o (tr ++ tr').
Proof.
  intros Henv. revert w tr. induction p as [a|m|c|a k IH]; intros w tr; simpl;
    [by rewrite (right_id_L [] (++))..|].
  intros H. specialize (Henv a w). destruct (env a w) as [r w1]. simpl in *.
  specialize (IH r w1 _ (H r Henv)).
  destruct (run env (k r) w1) as [[o tr'] w2].
  by rewrite <- (assoc_L (++)) in IH.
Qed.
End demonic.
End prog.

Global Arguments prog {action} result A.
Global Arguments MonoSpec {action result S} spec.
Global Arguments event {action} result.

(** Opening of sequencing, deferred calls and weakening in a [wp] goal. *)
Ltac mono := try match goal with |- MonoSpec _ => apply _ end.
Ltac wp_bind := eapply wp_bind; mono.
Ltac wp_defer := eapply wp_defer; mono.
Ltac wp_mono := eapply wp_mono; mono.
Ltac wp_range I := eapply (wp_range _ _ _ _ I); mono.
