(* ===== verification/Api.v ===== *)
(** * Data of the third-party APIs

    The objects of the OpenEBS and Kubernetes APIs and the messages of the CSI
    protocol, as records of the fields the driver reads or writes, each with its
    Go zero value and field setters.  Maps and slices whose [nil]-ness the driver
    can observe are options.  [ApiLib] collects the pure functions and
    constants of those libraries that the driver calls; nothing is assumed
    of them here. *)

From S2P Require Export Prelude GoStrings GoRuntime.

(** ** Pure third-party functions and constants *)

Class ApiLib := {
  quantity : Type;                                (* resource.Quantity *)
  zeroQty : quantity;                             (* its zero value *)
  ParseQuantity : string → quantity * option error;
  QtyCmp : quantity → quantity → Z;               (* Quantity.Cmp: -1, 0 or 1 *)
  QtyString : quantity → string;
  QtyMilliValue : quantity → Z;
  FmtQuantity : quantity → string;                (* what %v prints *)
  FmtResourceList : option (gmap string quantity) → string;
  IsNotFound : error → bool;                      (* apimachinery errors.IsNotFound *)
  restConfig : Type;                              (* rest.Config *)
  clientset : Type;                               (* OpenEBS versioned.Clientset *)
  kclientset : Type;                              (* kubernetes.Clientset *)
  dynamicClient : Type;                           (* dynamic.DynamicClient *)
  ResourceStorage : string;                       (* corev1.ResourceStorage *)
  NodeReadyCondition : string;                    (* corev1.NodeReady *)
  ConditionTrue : string;                         (* corev1.ConditionTrue *)
  HostPathDirectoryOrCreate : string;             (* corev1.HostPathDirectoryOrCreate *)
  NodeSelectorOpIn : string;                      (* corev1.NodeSelectorOpIn *)
  CVCPhasePending : string;                       (* apisv1.CStorVolumeConfigPhasePending *)
  CVStatusHealthy : string;
  CVStatusInit : string;
  CVStatusOffline : string;
  CVStatusDegraded : string;
  VolumeProvision : string;                       (* analytics.VolumeProvision *)
  VolumeDeprovision : string;                     (* analytics.VolumeDeprovision *)
  CommandStatusResponse : string → string;        (* json: the "response" field of a document *)
  UnmarshalSecret : string → option (gmap string string) (* json: an object of strings *)
}.

Section objects.
Context {L : ApiLib}.

(** corev1.ResourceList: a map from resource names to quantities. *)
Definition ResourceList : Type := option (gmap string quantity).

(** [m[k]] on a possibly nil map of quantities. *)
Definition rl_get (m : ResourceList) (k : string) : quantity :=
  match m with Some m' => default zeroQty (m' !! k) | None => zeroQty end.

(** [m[k]] on a possibly nil map of strings. *)
Definition smap_get (m : option (gmap string string)) (k : string) : string :=
  match m with Some m' => default "" (m' !! k) | None => "" end.

(** metav1.OwnerReference *)
Record OwnerReference := MkOwnerReference {
  or_APIVersion : string;
  or_Kind : string;
  or_OwnerName : string;
  or_OwnerUID : string
}.
Definition or_zero : OwnerReference := MkOwnerReference "" "" "" "".
Definition or_set_APIVersion (x : string) (o : OwnerReference) : OwnerReference :=
  MkOwnerReference x (or_Kind o) (or_OwnerName o) (or_OwnerUID o).
Definition or_set_Kind (x : string) (o : OwnerReference) : OwnerReference :=
  MkOwnerReference (or_APIVersion o) x (or_OwnerName o) (or_OwnerUID o).
Definition or_set_OwnerName (x : string) (o : OwnerReference) : OwnerReference :=
  MkOwnerReference (or_APIVersion o) (or_Kind o) x (or_OwnerUID o).
Definition or_set_OwnerUID (x : string) (o : OwnerReference) : OwnerReference :=
  MkOwnerReference (or_APIVersion o) (or_Kind o) (or_OwnerName o) x.

(** metav1.ObjectMeta *)
Record ObjectMeta := MkObjectMeta {
  om_Name : string;
  om_GenerateName : string;
  om_Namespace : string;
  om_UID : string;
  om_Annotations : option (gmap string string);
  om_Labels : option (gmap string string);
  om_Finalizers : option (list string);
  om_OwnerReferences : list OwnerReference;
  om_DeletionTimestamp : option Z
}.
Definition om_zero : ObjectMeta := MkObjectMeta "" "" "" "" None None None [] None.
Definition om_set_Name (x : string) (o : ObjectMeta) : ObjectMeta :=
  MkObjectMeta x (om_GenerateName o) (om_Namespace o) (om_UID o) (om_Annotations o) (om_Labels o) (om_Finalizers o) (om_OwnerReferences o) (om_DeletionTimestamp o).
Definition om_set_GenerateName (x : string) (o : ObjectMeta) : ObjectMeta :=
  MkObjectMeta (om_Name o) x (om_Namespace o) (om_UID o) (om_Annotations o) (om_Labels o) (om_Finalizers o) (om_OwnerReferences o) (om_DeletionTimestamp o).
Definition om_set_Namespace (x : string) (o : ObjectMeta) : ObjectMeta :=
  MkObjectMeta (om_Name o) (om_GenerateName o) x (om_UID o) (om_Annotations o) (om_Labels o) (om_Finalizers o) (om_OwnerReferences o) (om_DeletionTimestamp o).
Definition om_set_UID (x : string) (o : ObjectMeta) : ObjectMeta :=
  MkObjectMeta (om_Name o) (om_GenerateName o) (om_Namespace o) x (om_Annotations o) (om_Labels o) (om_Finalizers o) (om_OwnerReferences o) (om_DeletionTimestamp o).
Definition om_set_Annotations (x : option (gmap string string)) (o : ObjectMeta) : ObjectMeta :=
  MkObjectMeta (om_Name o) (om_GenerateName o) (om_Namespace o) (om_UID o) x (om_Labels o) (om_Finalizers o) (om_OwnerReferences o) (om_DeletionTimestamp o).
Definition om_set_Labels (x : option (gmap string string)) (o : ObjectMeta) : ObjectMeta :=
  MkObjectMeta (om_Name o) (om_GenerateName o) (om_Namespace o) (om_UID o) (om_Annotations o) x (om_Finalizers o) (om_OwnerReferences o) (om_DeletionTimestamp o).
Definition om_set_Finalizers (x : option (list string)) (o : ObjectMeta) : ObjectMeta :=
  MkObjectMeta (om_Name o) (om_GenerateName o) (om_Namespace o) (om_UID o) (om_Annotations o) (om_Labels o) x (om_OwnerReferences o) (om_DeletionTimestamp o).
Definition om_set_OwnerReferences (x : list OwnerReference) (o : ObjectMeta) : ObjectMeta :=
  MkObjectMeta (om_Name o) (om_GenerateName o) (om_Namespace o) (om_UID o) (om_Annotations o) (om_Labels o) (om_Finalizers o) x (om_DeletionTimestamp o).
Definition om_set_DeletionTimestamp (x : option Z) (o : ObjectMeta) : ObjectMeta :=
  MkObjectMeta (om_Name o) (om_GenerateName o) (om_Namespace o) (om_UID o) (om_Annotations o) (om_Labels o) (om_Finalizers o) (om_OwnerReferences o) x.

(** CStorVolumeConfig: Spec.Capacity, Spec.CStorVolumeSource, Spec.Provision, Publish.NodeID,
    Status.Phase, Status.Capacity, Status.Conditions and VersionDetails *)
Record CStorVolumeConfig := MkCStorVolumeConfig {
  cvc_Meta : ObjectMeta;
  cvc_Capacity : ResourceList;
  cvc_Source : string;
  cvc_ProvisionCapacity : ResourceList;
  cvc_ReplicaCount : Z;
  cvc_NodeID : string;
  cvc_Phase : string;
  cvc_StatusCapacity : ResourceList;
  cvc_Conditions : list string;
  cvc_VersionCurrent : string;
  cvc_VersionDesired : string;
  cvc_DependentsUpgraded : bool
}.
Definition cvc_zero : CStorVolumeConfig := MkCStorVolumeConfig om_zero None "" None (0%Z) "" "" None [] "" "" false.
Definition cvc_set_Meta (x : ObjectMeta) (o : CStorVolumeConfig) : CStorVolumeConfig :=
  MkCStorVolumeConfig x (cvc_Capacity o) (cvc_Source o) (cvc_ProvisionCapacity o) (cvc_ReplicaCount o) (cvc_NodeID o) (cvc_Phase o) (cvc_StatusCapacity o) (cvc_Conditions o) (cvc_VersionCurrent o) (cvc_VersionDesired o) (cvc_DependentsUpgraded o).
Definition cvc_set_Capacity (x : ResourceList) (o : CStorVolumeConfig) : CStorVolumeConfig :=
  MkCStorVolumeConfig (cvc_Meta o) x (cvc_Source o) (cvc_ProvisionCapacity o) (cvc_ReplicaCount o) (cvc_NodeID o) (cvc_Phase o) (cvc_StatusCapacity o) (cvc_Conditions o) (cvc_VersionCurrent o) (cvc_VersionDesired o) (cvc_DependentsUpgraded o).
Definition cvc_set_Source (x : string) (o : CStorVolumeConfig) : CStorVolumeConfig :=
  MkCStorVolumeConfig (cvc_Meta o) (cvc_Capacity o) x (cvc_ProvisionCapacity o) (cvc_ReplicaCount o) (cvc_NodeID o) (cvc_Phase o) (cvc_StatusCapacity o) (cvc_Conditions o) (cvc_VersionCurrent o) (cvc_VersionDesired o) (cvc_DependentsUpgraded o).
Definition cvc_set_ProvisionCapacity (x : ResourceList) (o : CStorVolumeConfig) : CStorVolumeConfig :=
  MkCStorVolumeConfig (cvc_Meta o) (cvc_Capacity o) (cvc_Source o) x (cvc_ReplicaCount o) (cvc_NodeID o) (cvc_Phase o) (cvc_StatusCapacity o) (cvc_Conditions o) (cvc_VersionCurrent o) (cvc_VersionDesired o) (cvc_DependentsUpgraded o).
Definition cvc_set_ReplicaCount (x : Z) (o : CStorVolumeConfig) : CStorVolumeConfig :=
  MkCStorVolumeConfig (cvc_Meta o) (cvc_Capacity o) (cvc_Source o) (cvc_ProvisionCapacity o) x (cvc_NodeID o) (cvc_Phase o) (cvc_StatusCapacity o) (cvc_Conditions o) (cvc_VersionCurrent o) (cvc_VersionDesired o) (cvc_DependentsUpgraded o).
Definition cvc_set_NodeID (x : string) (o : CStorVolumeConfig) : CStorVolumeConfig :=
  MkCStorVolumeConfig (cvc_Meta o) (cvc_Capacity o) (cvc_Source o) (cvc_ProvisionCapacity o) (cvc_ReplicaCount o) x (cvc_Phase o) (cvc_StatusCapacity o) (cvc_Conditions o) (cvc_VersionCurrent o) (cvc_VersionDesired o) (cvc_DependentsUpgraded o).
Definition cvc_set_Phase (x : string) (o : CStorVolumeConfig) : CStorVolumeConfig :=
  MkCStorVolumeConfig (cvc_Meta o) (cvc_Capacity o) (cvc_Source o) (cvc_ProvisionCapacity o) (cvc_ReplicaCount o) (cvc_NodeID o) x (cvc_StatusCapacity o) (cvc_Conditions o) (cvc_VersionCurrent o) (cvc_VersionDesired o) (cvc_DependentsUpgraded o).
Definition cvc_set_StatusCapacity (x : ResourceList) (o : CStorVolumeConfig) : CStorVolumeConfig :=
  MkCStorVolumeConfig (cvc_Meta o) (cvc_Capacity o) (cvc_Source o) (cvc_ProvisionCapacity o) (cvc_ReplicaCount o) (cvc_NodeID o) (cvc_Phase o) x (cvc_Conditions o) (cvc_VersionCurrent o) (cvc_VersionDesired o) (cvc_DependentsUpgraded o).
Definition cvc_set_Conditions (x : list string) (o : CStorVolumeConfig) : CStorVolumeConfig :=
  MkCStorVolumeConfig (cvc_Meta o) (cvc_Capacity o) (cvc_Source o) (cvc_ProvisionCapacity o) (cvc_ReplicaCount o) (cvc_NodeID o) (cvc_Phase o) (cvc_StatusCapacity o) x (cvc_VersionCurrent o) (cvc_VersionDesired o) (cvc_DependentsUpgraded o).
Definition cvc_set_VersionCurrent (x : string) (o : CStorVolumeConfig) : CStorVolumeConfig :=
  MkCStorVolumeConfig (cvc_Meta o) (cvc_Capacity o) (cvc_Source o) (cvc_ProvisionCapacity o) (cvc_ReplicaCount o) (cvc_NodeID o) (cvc_Phase o) (cvc_StatusCapacity o) (cvc_Conditions o) x (cvc_VersionDesired o) (cvc_DependentsUpgraded o).
Definition cvc_set_VersionDesired (x : string) (o : CStorVolumeConfig) : CStorVolumeConfig :=
  MkCStorVolumeConfig (cvc_Meta o) (cvc_Capacity o) (cvc_Source o) (cvc_ProvisionCapacity o) (cvc_ReplicaCount o) (cvc_NodeID o) (cvc_Phase o) (cvc_StatusCapacity o) (cvc_Conditions o) (cvc_VersionCurrent o) x (cvc_DependentsUpgraded o).
Definition cvc_set_DependentsUpgraded (x : bool) (o : CStorVolumeConfig) : CStorVolumeConfig :=
  MkCStorVolumeConfig (cvc_Meta o) (cvc_Capacity o) (cvc_Source o) (cvc_ProvisionCapacity o) (cvc_ReplicaCount o) (cvc_NodeID o) (cvc_Phase o) (cvc_StatusCapacity o) (cvc_Conditions o) (cvc_VersionCurrent o) (cvc_VersionDesired o) x.

(** CStorVolume: Spec and Status *)
Record CStorVolume := MkCStorVolume {
  cv_Meta : ObjectMeta;
  cv_TargetIP : string;
  cv_SpecCapacity : quantity;
  cv_Iqn : string;
  cv_TargetPort : string;
  cv_TargetPortal : string;
  cv_ReplicationFactor : Z;
  cv_ConsistencyFactor : Z;
  cv_Phase : string;
  cv_StatusCapacity : quantity
}.
Definition cv_zero : CStorVolume := MkCStorVolume om_zero "" zeroQty "" "" "" (0%Z) (0%Z) "" zeroQty.
Definition cv_set_Meta (x : ObjectMeta) (o : CStorVolume) : CStorVolume :=
  MkCStorVolume x (cv_TargetIP o) (cv_SpecCapacity o) (cv_Iqn o) (cv_TargetPort o) (cv_TargetPortal o) (cv_ReplicationFactor o) (cv_ConsistencyFactor o) (cv_Phase o) (cv_StatusCapacity o).
Definition cv_set_TargetIP (x : string) (o : CStorVolume) : CStorVolume :=
  MkCStorVolume (cv_Meta o) x (cv_SpecCapacity o) (cv_Iqn o) (cv_TargetPort o) (cv_TargetPortal o) (cv_ReplicationFactor o) (cv_ConsistencyFactor o) (cv_Phase o) (cv_StatusCapacity o).
Definition cv_set_SpecCapacity (x : quantity) (o : CStorVolume) : CStorVolume :=
  MkCStorVolume (cv_Meta o) (cv_TargetIP o) x (cv_Iqn o) (cv_TargetPort o) (cv_TargetPortal o) (cv_ReplicationFactor o) (cv_ConsistencyFactor o) (cv_Phase o) (cv_StatusCapacity o).
Definition cv_set_Iqn (x : string) (o : CStorVolume) : CStorVolume :=
  MkCStorVolume (cv_Meta o) (cv_TargetIP o) (cv_SpecCapacity o) x (cv_TargetPort o) (cv_TargetPortal o) (cv_ReplicationFactor o) (cv_ConsistencyFactor o) (cv_Phase o) (cv_StatusCapacity o).
Definition cv_set_TargetPort (x : string) (o : CStorVolume) : CStorVolume :=
  MkCStorVolume (cv_Meta o) (cv_TargetIP o) (cv_SpecCapacity o) (cv_Iqn o) x (cv_TargetPortal o) (cv_ReplicationFactor o) (cv_ConsistencyFactor o) (cv_Phase o) (cv_StatusCapacity o).
Definition cv_set_TargetPortal (x : string) (o : CStorVolume) : CStorVolume :=
  MkCStorVolume (cv_Meta o) (cv_TargetIP o) (cv_SpecCapacity o) (cv_Iqn o) (cv_TargetPort o) x (cv_ReplicationFactor o) (cv_ConsistencyFactor o) (cv_Phase o) (cv_StatusCapacity o).
Definition cv_set_ReplicationFactor (x : Z) (o : CStorVolume) : CStorVolume :=
  MkCStorVolume (cv_Meta o) (cv_TargetIP o) (cv_SpecCapacity o) (cv_Iqn o) (cv_TargetPort o) (cv_TargetPortal o) x (cv_ConsistencyFactor o) (cv_Phase o) (cv_StatusCapacity o).
Definition cv_set_ConsistencyFactor (x : Z) (o : CStorVolume) : CStorVolume :=
  MkCStorVolume (cv_Meta o) (cv_TargetIP o) (cv_SpecCapacity o) (cv_Iqn o) (cv_TargetPort o) (cv_TargetPortal o) (cv_ReplicationFactor o) x (cv_Phase o) (cv_StatusCapacity o).
Definition cv_set_Phase (x : string) (o : CStorVolume) : CStorVolume :=
  MkCStorVolume (cv_Meta o) (cv_TargetIP o) (cv_SpecCapacity o) (cv_Iqn o) (cv_TargetPort o) (cv_TargetPortal o) (cv_ReplicationFactor o) (cv_ConsistencyFactor o) x (cv_StatusCapacity o).
Definition cv_set_StatusCapacity (x : quantity) (o : CStorVolume) : CStorVolume :=
  MkCStorVolume (cv_Meta o) (cv_TargetIP o) (cv_SpecCapacity o) (cv_Iqn o) (cv_TargetPort o) (cv_TargetPortal o) (cv_ReplicationFactor o) (cv_ConsistencyFactor o) (cv_Phase o) x.

(** CStorVolumeAttachment: Spec.Volume and Spec.ISCSI *)
Record CStorVolumeAttachment := MkCStorVolumeAttachment {
  cva_Meta : ObjectMeta;
  cva_VolName : string;
  cva_AccessType : string;
  cva_Capacity : string;
  cva_FSType : string;
  cva_ReadOnly : bool;
  cva_StagingTargetPath : string;
  cva_TargetPath : string;
  cva_DevicePath : string;
  cva_MountOptions : option (list string);
  cva_OwnerNodeID : string;
  cva_Iqn : string;
  cva_TargetPortal : string;
  cva_IscsiInterface : string;
  cva_Lun : string
}.
Definition cva_zero : CStorVolumeAttachment := MkCStorVolumeAttachment om_zero "" "" "" "" false "" "" "" None "" "" "" "" "".
Definition cva_set_Meta (x : ObjectMeta) (o : CStorVolumeAttachment) : CStorVolumeAttachment :=
  MkCStorVolumeAttachment x (cva_VolName o) (cva_AccessType o) (cva_Capacity o) (cva_FSType o) (cva_ReadOnly o) (cva_StagingTargetPath o) (cva_TargetPath o) (cva_DevicePath o) (cva_MountOptions o) (cva_OwnerNodeID o) (cva_Iqn o) (cva_TargetPortal o) (cva_IscsiInterface o) (cva_Lun o).
Definition cva_set_VolName (x : string) (o : CStorVolumeAttachment) : CStorVolumeAttachment :=
  MkCStorVolumeAttachment (cva_Meta o) x (cva_AccessType o) (cva_Capacity o) (cva_FSType o) (cva_ReadOnly o) (cva_StagingTargetPath o) (cva_TargetPath o) (cva_DevicePath o) (cva_MountOptions o) (cva_OwnerNodeID o) (cva_Iqn o) (cva_TargetPortal o) (cva_IscsiInterface o) (cva_Lun o).
Definition cva_set_AccessType (x : string) (o : CStorVolumeAttachment) : CStorVolumeAttachment :=
  MkCStorVolumeAttachment (cva_Meta o) (cva_VolName o) x (cva_Capacity o) (cva_FSType o) (cva_ReadOnly o) (cva_StagingTargetPath o) (cva_TargetPath o) (cva_DevicePath o) (cva_MountOptions o) (cva_OwnerNodeID o) (cva_Iqn o) (cva_TargetPortal o) (cva_IscsiInterface o) (cva_Lun o).
Definition cva_set_Capacity (x : string) (o : CStorVolumeAttachment) : CStorVolumeAttachment :=
  MkCStorVolumeAttachment (cva_Meta o) (cva_VolName o) (cva_AccessType o) x (cva_FSType o) (cva_ReadOnly o) (cva_StagingTargetPath o) (cva_TargetPath o) (cva_DevicePath o) (cva_MountOptions o) (cva_OwnerNodeID o) (cva_Iqn o) (cva_TargetPortal o) (cva_IscsiInterface o) (cva_Lun o).
Definition cva_set_FSType (x : string) (o : CStorVolumeAttachment) : CStorVolumeAttachment :=
  MkCStorVolumeAttachment (cva_Meta o) (cva_VolName o) (cva_AccessType o) (cva_Capacity o) x (cva_ReadOnly o) (cva_StagingTargetPath o) (cva_TargetPath o) (cva_DevicePath o) (cva_MountOptions o) (cva_OwnerNodeID o) (cva_Iqn o) (cva_TargetPortal o) (cva_IscsiInterface o) (cva_Lun o).
Definition cva_set_ReadOnly (x : bool) (o : CStorVolumeAttachment) : CStorVolumeAttachment :=
  MkCStorVolumeAttachment (cva_Meta o) (cva_VolName o) (cva_AccessType o) (cva_Capacity o) (cva_FSType o) x (cva_StagingTargetPath o) (cva_TargetPath o) (cva_DevicePath o) (cva_MountOptions o) (cva_OwnerNodeID o) (cva_Iqn o) (cva_TargetPortal o) (cva_IscsiInterface o) (cva_Lun o).
Definition cva_set_StagingTargetPath (x : string) (o : CStorVolumeAttachment) : CStorVolumeAttachment :=
  MkCStorVolumeAttachment (cva_Meta o) (cva_VolName o) (cva_AccessType o) (cva_Capacity o) (cva_FSType o) (cva_ReadOnly o) x (cva_TargetPath o) (cva_DevicePath o) (cva_MountOptions o) (cva_OwnerNodeID o) (cva_Iqn o) (cva_TargetPortal o) (cva_IscsiInterface o) (cva_Lun o).
Definition cva_set_TargetPath (x : string) (o : CStorVolumeAttachment) : CStorVolumeAttachment :=
  MkCStorVolumeAttachment (cva_Meta o) (cva_VolName o) (cva_AccessType o) (cva_Capacity o) (cva_FSType o) (cva_ReadOnly o) (cva_StagingTargetPath o) x (cva_DevicePath o) (cva_MountOptions o) (cva_OwnerNodeID o) (cva_Iqn o) (cva_TargetPortal o) (cva_IscsiInterface o) (cva_Lun o).
Definition cva_set_DevicePath (x : string) (o : CStorVolumeAttachment) : CStorVolumeAttachment :=
  MkCStorVolumeAttachment (cva_Meta o) (cva_VolName o) (cva_AccessType o) (cva_Capacity o) (cva_FSType o) (cva_ReadOnly o) (cva_StagingTargetPath o) (cva_TargetPath o) x (cva_MountOptions o) (cva_OwnerNodeID o) (cva_Iqn o) (cva_TargetPortal o) (cva_IscsiInterface o) (cva_Lun o).
Definition cva_set_MountOptions (x : option (list string)) (o : CStorVolumeAttachment) : CStorVolumeAttachment :=
  MkCStorVolumeAttachment (cva_Meta o) (cva_VolName o) (cva_AccessType o) (cva_Capacity o) (cva_FSType o) (cva_ReadOnly o) (cva_StagingTargetPath o) (cva_TargetPath o) (cva_DevicePath o) x (cva_OwnerNodeID o) (cva_Iqn o) (cva_TargetPortal o) (cva_IscsiInterface o) (cva_Lun o).
Definition cva_set_OwnerNodeID (x : string) (o : CStorVolumeAttachment) : CStorVolumeAttachment :=
  MkCStorVolumeAttachment (cva_Meta o) (cva_VolName o) (cva_AccessType o) (cva_Capacity o) (cva_FSType o) (cva_ReadOnly o) (cva_StagingTargetPath o) (cva_TargetPath o) (cva_DevicePath o) (cva_MountOptions o) x (cva_Iqn o) (cva_TargetPortal o) (cva_IscsiInterface o) (cva_Lun o).
Definition cva_set_Iqn (x : string) (o : CStorVolumeAttachment) : CStorVolumeAttachment :=
  MkCStorVolumeAttachment (cva_Meta o) (cva_VolName o) (cva_AccessType o) (cva_Capacity o) (cva_FSType o) (cva_ReadOnly o) (cva_StagingTargetPath o) (cva_TargetPath o) (cva_DevicePath o) (cva_MountOptions o) (cva_OwnerNodeID o) x (cva_TargetPortal o) (cva_IscsiInterface o) (cva_Lun o).
Definition cva_set_TargetPortal (x : string) (o : CStorVolumeAttachment) : CStorVolumeAttachment :=
  MkCStorVolumeAttachment (cva_Meta o) (cva_VolName o) (cva_AccessType o) (cva_Capacity o) (cva_FSType o) (cva_ReadOnly o) (cva_StagingTargetPath o) (cva_TargetPath o) (cva_DevicePath o) (cva_MountOptions o) (cva_OwnerNodeID o) (cva_Iqn o) x (cva_IscsiInterface o) (cva_Lun o).
Definition cva_set_IscsiInterface (x : string) (o : CStorVolumeAttachment) : CStorVolumeAttachment :=
  MkCStorVolumeAttachment (cva_Meta o) (cva_VolName o) (cva_AccessType o) (cva_Capacity o) (cva_FSType o) (cva_ReadOnly o) (cva_StagingTargetPath o) (cva_TargetPath o) (cva_DevicePath o) (cva_MountOptions o) (cva_OwnerNodeID o) (cva_Iqn o) (cva_TargetPortal o) x (cva_Lun o).
Definition cva_set_Lun (x : string) (o : CStorVolumeAttachment) : CStorVolumeAttachment :=
  MkCStorVolumeAttachment (cva_Meta o) (cva_VolName o) (cva_AccessType o) (cva_Capacity o) (cva_FSType o) (cva_ReadOnly o) (cva_StagingTargetPath o) (cva_TargetPath o) (cva_DevicePath o) (cva_MountOptions o) (cva_OwnerNodeID o) (cva_Iqn o) (cva_TargetPortal o) (cva_IscsiInterface o) x.

(** corev1.NodeCondition *)
Record NodeCondition := MkNodeCondition {
  nc_Type : string;
  nc_Status : string;
  nc_Reason : string
}.
Definition nc_zero : NodeCondition := MkNodeCondition "" "" "".
Definition nc_set_Type (x : string) (o : NodeCondition) : NodeCondition :=
  MkNodeCondition x (nc_Status o) (nc_Reason o).
Definition nc_set_Status (x : string) (o : NodeCondition) : NodeCondition :=
  MkNodeCondition (nc_Type o) x (nc_Reason o).
Definition nc_set_Reason (x : string) (o : NodeCondition) : NodeCondition :=
  MkNodeCondition (nc_Type o) (nc_Status o) x.

(** corev1.Node *)
Record Node := MkNode {
  node_Meta : ObjectMeta;
  node_Conditions : list NodeCondition;
  node_OSImage : string;
  node_KernelVersion : string
}.
Definition node_zero : Node := MkNode om_zero [] "" "".
Definition node_set_Meta (x : ObjectMeta) (o : Node) : Node :=
  MkNode x (node_Conditions o) (node_OSImage o) (node_KernelVersion o).
Definition node_set_Conditions (x : list NodeCondition) (o : Node) : Node :=
  MkNode (node_Meta o) x (node_OSImage o) (node_KernelVersion o).
Definition node_set_OSImage (x : string) (o : Node) : Node :=
  MkNode (node_Meta o) (node_Conditions o) x (node_KernelVersion o).
Definition node_set_KernelVersion (x : string) (o : Node) : Node :=
  MkNode (node_Meta o) (node_Conditions o) (node_OSImage o) x.

(** corev1.PersistentVolumeClaim *)
Record PersistentVolumeClaim := MkPersistentVolumeClaim {
  pvc_Meta : ObjectMeta
}.
Definition pvc_zero : PersistentVolumeClaim := MkPersistentVolumeClaim om_zero.
Definition pvc_set_Meta (x : ObjectMeta) (o : PersistentVolumeClaim) : PersistentVolumeClaim :=
  MkPersistentVolumeClaim x.

(** corev1.HostPathVolumeSource, the only volume source the driver sets *)
Record HostPathVolumeSource := MkHostPath { hp_Path : string; hp_Type : option string }.

(** corev1.NodeSelectorRequirement; a VolumeNodeAffinity is its required terms,
    each a list of match expressions *)
Record NodeSelectorRequirement := MkNodeSelector {
  sel_Key : string; sel_Operator : string; sel_Values : list string
}.
Abbreviation NodeAffinity := (list (list NodeSelectorRequirement)).

(** corev1.PersistentVolume *)
Record PersistentVolume := MkPersistentVolume {
  pv_Meta : ObjectMeta;
  pv_ReclaimPolicy : string;
  pv_VolumeMode : option string;
  pv_AccessModes : list string;
  pv_Capacity : ResourceList;
  pv_HostPath : option HostPathVolumeSource;
  pv_NodeAffinity : option NodeAffinity
}.
Definition pv_zero : PersistentVolume := MkPersistentVolume om_zero "" None [] None None None.
Definition pv_set_Meta (x : ObjectMeta) (o : PersistentVolume) : PersistentVolume :=
  MkPersistentVolume x (pv_ReclaimPolicy o) (pv_VolumeMode o) (pv_AccessModes o) (pv_Capacity o) (pv_HostPath o) (pv_NodeAffinity o).
Definition pv_set_ReclaimPolicy (x : string) (o : PersistentVolume) : PersistentVolume :=
  MkPersistentVolume (pv_Meta o) x (pv_VolumeMode o) (pv_AccessModes o) (pv_Capacity o) (pv_HostPath o) (pv_NodeAffinity o).
Definition pv_set_VolumeMode (x : option string) (o : PersistentVolume) : PersistentVolume :=
  MkPersistentVolume (pv_Meta o) (pv_ReclaimPolicy o) x (pv_AccessModes o) (pv_Capacity o) (pv_HostPath o) (pv_NodeAffinity o).
Definition pv_set_AccessModes (x : list string) (o : PersistentVolume) : PersistentVolume :=
  MkPersistentVolume (pv_Meta o) (pv_ReclaimPolicy o) (pv_VolumeMode o) x (pv_Capacity o) (pv_HostPath o) (pv_NodeAffinity o).
Definition pv_set_Capacity (x : ResourceList) (o : PersistentVolume) : PersistentVolume :=
  MkPersistentVolume (pv_Meta o) (pv_ReclaimPolicy o) (pv_VolumeMode o) (pv_AccessModes o) x (pv_HostPath o) (pv_NodeAffinity o).
Definition pv_set_HostPath (x : option HostPathVolumeSource) (o : PersistentVolume) : PersistentVolume :=
  MkPersistentVolume (pv_Meta o) (pv_ReclaimPolicy o) (pv_VolumeMode o) (pv_AccessModes o) (pv_Capacity o) x (pv_NodeAffinity o).
Definition pv_set_NodeAffinity (x : option NodeAffinity) (o : PersistentVolume) : PersistentVolume :=
  MkPersistentVolume (pv_Meta o) (pv_ReclaimPolicy o) (pv_VolumeMode o) (pv_AccessModes o) (pv_Capacity o) (pv_HostPath o) x.

(** corev1.Namespace and corev1.Service: only their metadata is read *)
Record Namespace := MkNamespace { ns_Meta : ObjectMeta }.
Record Service := MkService { svc_Meta : ObjectMeta }.

(** The documents the clients serialise for their raw reads; [None] is a nil
    pointer *)
Inductive document :=
  | DCvc (o : option CStorVolumeConfig) | DCv (o : option CStorVolume)
  | DCva (o : option CStorVolumeAttachment)
  | DSvc (o : option Service) | DSvcList (o : option (list Service)).

(** The CSI services a gRPC server can offer. *)
Inductive service := IdentityService | ControllerService | NodeService.

(** mount.MountPoint *)
Record MountPoint := MkMountPoint {
  mp_Device : string;
  mp_Path : string;
  mp_Type : string;
  mp_Opts : list string
}.
Definition mp_zero : MountPoint := MkMountPoint "" "" "" [].
Definition mp_set_Device (x : string) (o : MountPoint) : MountPoint :=
  MkMountPoint x (mp_Path o) (mp_Type o) (mp_Opts o).
Definition mp_set_Path (x : string) (o : MountPoint) : MountPoint :=
  MkMountPoint (mp_Device o) x (mp_Type o) (mp_Opts o).
Definition mp_set_Type (x : string) (o : MountPoint) : MountPoint :=
  MkMountPoint (mp_Device o) (mp_Path o) x (mp_Opts o).
Definition mp_set_Opts (x : list string) (o : MountPoint) : MountPoint :=
  MkMountPoint (mp_Device o) (mp_Path o) (mp_Type o) x.

End objects.

(** apis.CStorVolumeAttachmentStatus *)
Inductive CVAStatus :=
  | Uninitialized | ResizeInProgress | MountUnderProgress | Mounted
  | UnmountUnderProgress | Unmounted | RemountUnderProgress
  | WaitingForCVCBound | WaitingForVolumeToBeReady.

Global Instance CVAStatus_eq_dec : EqDecision CVAStatus.
Proof. solve_decision. Defined.

(** The texts of the status constants. *)
Class StatusNames := { statusString : CVAStatus → string }.

(** ** Messages of the CSI protocol *)

(** csi.VolumeCapability_AccessMode_Mode; protobuf enums carry any 32-bit value. *)
Inductive AccessMode :=
  | UNKNOWN | SINGLE_NODE_WRITER | SINGLE_NODE_READER_ONLY | MULTI_NODE_READER_ONLY
  | MULTI_NODE_SINGLE_WRITER | MULTI_NODE_MULTI_WRITER | SINGLE_NODE_SINGLE_WRITER
  | SINGLE_NODE_MULTI_WRITER | OTHER_MODE (n : Z).

Global Instance AccessMode_eq_dec : EqDecision AccessMode.
Proof. solve_decision. Defined.

(** csi.VolumeCapability_MountVolume *)
Record MountVolume := { FsType : string; MountFlags : list string }.

(** The oneof [VolumeCapability.AccessType]; the payload pointer may be nil. *)
Inductive AccessType := ATNone | ATBlock | ATMount (m : option MountVolume).

(** csi.VolumeCapability *)
Record VolumeCapability := { vc_AccessType : AccessType; vc_AccessMode : option AccessMode }.

(** The nil-safe getters generated by protobuf. *)
Definition GetAccessType (c : option VolumeCapability) : AccessType :=
  match c with Some c => vc_AccessType c | None => ATNone end.
Definition GetMount (c : option VolumeCapability) : option MountVolume :=
  match GetAccessType c with ATMount m => m | _ => None end.
Definition GetFsType (m : option MountVolume) : string :=
  match m with Some m => FsType m | None => "" end.
Definition GetMountFlags (m : option MountVolume) : list string :=
  match m with Some m => MountFlags m | None => [] end.

(** csi.ControllerServiceCapability_RPC_Type and csi.NodeServiceCapability_RPC_Type *)
Inductive ControllerCap :=
  | CC_UNKNOWN | CREATE_DELETE_VOLUME | PUBLISH_UNPUBLISH_VOLUME | LIST_VOLUMES
  | CC_GET_CAPACITY | CREATE_DELETE_SNAPSHOT | LIST_SNAPSHOTS | CLONE_VOLUME
  | PUBLISH_READONLY | EXPAND_VOLUME | LIST_VOLUMES_PUBLISHED_NODES
  | CC_VOLUME_CONDITION | GET_VOLUME | CC_SINGLE_NODE_MULTI_WRITER.
Global Instance ControllerCap_eq_dec : EqDecision ControllerCap.
Proof. solve_decision. Defined.

(** The generated name tables of the protocol's enumerations. *)
Class CsiNames := {
  VolumeCapability_AccessMode_Mode_name : AccessMode → string;
  ControllerCap_String : ControllerCap → string
}.

Inductive NodeCap :=
  | NC_UNKNOWN | STAGE_UNSTAGE_VOLUME | GET_VOLUME_STATS | NC_EXPAND_VOLUME
  | NC_VOLUME_CONDITION | NC_SINGLE_NODE_MULTI_WRITER | NC_VOLUME_MOUNT_GROUP.
Global Instance NodeCap_eq_dec : EqDecision NodeCap.
Proof. solve_decision. Defined.

(** csi.PluginCapability_Service_Type *)
Inductive PluginService := PS_UNKNOWN | CONTROLLER_SERVICE | VOLUME_ACCESSIBILITY_CONSTRAINTS.

(** csi.Topology and csi.TopologyRequirement *)
Record Topology := { Segments : gmap string string }.
Record TopologyRequirement := { Requisite : list Topology; Preferred : list Topology }.

(** csi.VolumeContentSource: the snapshot variant carries the snapshot ID. *)
Inductive VolumeContentSource := VCSNone | VCSSnapshot (id : option string) | VCSVolume (id : option string).

(** csi.CapacityRange *)
Record CapacityRange := { RequiredBytes : Z; LimitBytes : Z }.

Record CreateVolumeRequest := {
  cvr_Name : string;
  cvr_CapacityRange : option CapacityRange;
  cvr_VolumeCapabilities : option (list VolumeCapability);
  cvr_Parameters : gmap string string;
  cvr_VolumeContentSource : option VolumeContentSource;
  cvr_AccessibilityRequirements : option TopologyRequirement
}.

(** csi.VolumeCondition and csi.Volume *)
Record VolumeCondition := { Abnormal : bool; Message : string }.
Record Volume := {
  CapacityBytes : Z; VolumeId : string;
  VolumeContext : gmap string string; ContentSource : option VolumeContentSource
}.

Record ControllerExpandVolumeResponse := { cer_CapacityBytes : Z; cer_NodeExpansionRequired : bool }.

(** csi.Snapshot; the creation time is (seconds, nanoseconds). *)
Record Snapshot := {
  SizeBytes : Z; SnapshotId : string; SourceVolumeId : string;
  CreationTime : option (Z * Z); ReadyToUse : bool
}.

Record NodeStageVolumeRequest := {
  nsr_VolumeId : string; nsr_StagingTargetPath : string;
  nsr_VolumeCapability : option VolumeCapability
}.
Record NodeUnstageVolumeRequest := { nur_VolumeId : string; nur_StagingTargetPath : string }.
Record NodePublishVolumeRequest := {
  npr_VolumeId : string; npr_StagingTargetPath : string; npr_TargetPath : string;
  npr_VolumeCapability : option VolumeCapability; npr_Readonly : bool;
  npr_VolumeContext : gmap string string
}.
Record NodeUnpublishVolumeRequest := { nupr_VolumeId : string; nupr_TargetPath : string }.
Record NodeExpandVolumeRequest := {
  ner_VolumeId : string; ner_VolumePath : string; ner_CapacityRange : option CapacityRange
}.
Record NodeGetVolumeStatsRequest := { nvs_VolumeId : string; nvs_VolumePath : string }.

(** csi.VolumeUsage *)
Inductive UsageUnit := BYTES | INODES.
Record VolumeUsage := { Available : Z; Total : Z; Used : Z; Unit : UsageUnit }.

(** unix.Statfs_t *)
Record Statfs_t := { Bavail : Z; Blocks : Z; Bfree : Z; Bsize : Z; Files : Z; Ffree : Z }.

(** GetRequiredBytes on a possibly nil capacity range. *)
Definition GetRequiredBytes (c : option CapacityRange) : Z :=
  match c with Some c => RequiredBytes c | None => 0%Z end.

