(* ===== verification/World.v ===== *)
(** * External actions of the driver

    One constructor of [action] per call that leaves the program: Kubernetes
    typed clients, kubeconfig loading, the mount library, the operating system,
    iscsiadm and the other tools run through [exec], gRPC to the cStor target
    and the gRPC server of the process, analytics, the clock — and per access to the state shared by the
    goroutines of a node driver: the mutex [TransitionVolListLock], the maps
    [TransitionVolList] and [ReqMountList], and the start of a goroutine.
    [result] is the type of the environment's answer; a pair of options is
    Go's [(pointer, error)].  Logging is not an action, except that a log
    line reading a shared map is, and that the interceptor of the gRPC server,
    whose purpose is logging, performs [LogLine]s. *)

From S2P Require Export Api.

(** The csi-lib-iscsi connector (one target). *)
Record Connector := {
  con_VolumeName : string; con_Iqn : string; con_Portal : string;
  con_Lun : Z; con_Interface : string; con_DoDiscovery : bool
}.

(** An analytics event (google-analytics-4 usage builder). *)
Record AnalyticsEvent := {
  ae_CommonBuild : string; ae_VolumeName : string; ae_VolumeClaimName : string;
  ae_Action : string; ae_Category : string; ae_Capacity : string
}.

(** The JSON document of an iSCSI disk, and what a decoder found of one. *)
Record DiskDoc := MkDiskDoc {
  doc_Portals : list string; doc_Iqn : string; doc_Iface : string;
  doc_InitiatorName : string; doc_VolName : string
}.
Record DiskFields := MkDiskFields {
  fld_Portals : option (list string); fld_Iqn : option string; fld_Iface : option string;
  fld_InitiatorName : option string; fld_VolName : option string
}.

Section world.
Context {L : ApiLib}.

Inductive action : Type :=
  (* process environment and clock *)
  | LookupEnv (k : string) | Setenv (k v : string)
  | Sleep (seconds : Z) | Now
  | RangeMap (m : gmap string string)  (* the unspecified order of a Go map iteration *)
  (* kubeconfig and clientsets *)
  | InClusterConfig | BuildConfigFromFlags (master path : string)
  | NewForConfig (c : restConfig) | KNewForConfig (c : restConfig)
  | DynNewForConfig (c : restConfig) | ServerVersion (cli : kclientset)
  | JsonMarshal (d : document)
  (* OpenEBS typed clients *)
  | CvcGet (cli : clientset) (ns name : string)
  | CvcList (cli : clientset) (ns selector : string)
  | CvcDelete (cli : clientset) (ns name : string) (foreground : bool)
  | CvcCreate (cli : clientset) (ns : string) (o : CStorVolumeConfig)
  | CvcUpdate (cli : clientset) (ns : string) (o : CStorVolumeConfig)
  | JsonMarshalCvc (o : CStorVolumeConfig) | TwoWayMergePatch (oldData newData : string)
  | CvcPatch (cli : clientset) (ns name patch : string) (subresources : list string)
  | CvGet (cli : clientset) (ns name : string)
  | CvList (cli : clientset) (ns selector : string)
  | CvDelete (cli : clientset) (ns name : string) (foreground : bool)
  | CvCreate (cli : clientset) (ns : string) (o : CStorVolume)
  | CvaGet (cli : clientset) (ns name : string)
  | CvaList (cli : clientset) (ns selector : string)
  | CvaDelete (cli : clientset) (ns name : string) (foreground : bool)
  | CvaCreate (cli : clientset) (ns : string) (o : CStorVolumeAttachment)
  | CvaUpdate (cli : clientset) (ns : string) (o : CStorVolumeAttachment)
  (* Kubernetes typed clients *)
  | NodeGet (cli : kclientset) (name : string)
  | NodeList (cli : kclientset) (limit : Z)
  | PvcGet (cli : kclientset) (ns name : string)
  | PvcList (cli : kclientset) (ns opts : string)
  | PvcDelete (cli : kclientset) (ns name opts : string)
  | PvcDeleteCollection (cli : kclientset) (ns listOpts opts : string)
  | PvcCreate (cli : kclientset) (ns : string) (o : PersistentVolumeClaim)
  | PvcUpdate (cli : kclientset) (ns : string) (o : PersistentVolumeClaim)
  | PvGet (cli : kclientset) (name : string)
  | PvList (cli : kclientset) (opts : string)
  | PvDelete (cli : kclientset) (name opts : string)
  | PvDeleteCollection (cli : kclientset) (listOpts opts : string)
  | PvCreate (cli : kclientset) (o : option PersistentVolume)
  | NsGet (cli : kclientset) (name : string)
  | NsDelete (cli : kclientset) (name opts : string)
  | NsCreate (cli : kclientset) (o : Namespace)
  | SvcGet (cli : kclientset) (ns name : string)
  | SvcList (cli : kclientset) (ns opts : string)
  | SvcDelete (cli : kclientset) (ns name opts : string) (foreground : bool)
  (* operating system *)
  | OsStat (path : string) | Glob (pattern : string)
  | MkdirAll (path : string) (mode : Z) | Chmod (path : string) (mode : Z)
  | OsRemove (path : string) | RemoveAll (path : string)
  | OpenFileCreate (path : string) (mode : Z)
  | UnixStat (path : string) | Statfs (path : string)
  | NetDial (network addr : string) | NetListen (network addr : string)
  | ReadFile (path : string) | CmdOutput (cmd : string) (args : list string)
  | OsCreate (path : string) | OsOpen (path : string) | CloseFile (path : string)
  | EncodeDisk (path : string) (d : DiskDoc) | DecodeDisk (path : string)
  (* k8s.io/utils/mount, path and exec; k8s volume device util *)
  | MountList | MountAt (source target fstype : string) (options : list string)
  | FormatAndMount (source target fstype : string) (options : list string)
  | Unmount (target : string)
  | IsLikelyNotMountPoint (path : string)
  | MountPathExists (path : string) | UtilPathExists (path : string)
  | GetDeviceNameFromMount (path : string)
  | Exec (cmd : string) (args : list string)
  | FindMultipathDevice (path : string)
  (* csi-lib-iscsi, cStor target, analytics *)
  | IscsiConnect (c : Connector)
  | SnapDial (addr : string)
  | SnapCreate (addr : string) (version : Z) (volume snapname : string)
  | SnapDelete (addr : string) (version : Z) (volume snapname : string)
  | AnalyticsSend (e : AnalyticsEvent) | AnalyticsRegister | AnalyticsInstall (application : string)
  (* the gRPC server of the process; [ServeGrpc] returns when the server stops *)
  | ServeGrpc (network addr : string) (services : list service)
  | StopGrpc (graceful : bool)
  | WgAdd | WgWait
  | NewUUID | LogLine (fmt : string) (args : list arg)
  (* state shared between goroutines *)
  | Lock | Unlock
  | TvlGet (vol : string) | TvlSet (vol : string) (s : CVAStatus) | TvlDelete (vol : string)
  | RmlSet (vol : string) (s : CVAStatus) | RmlDelete (vol : string)
  | GoCleanup (vol : CStorVolumeAttachment)
  | GoRemount (stagingPathExists targetPathExists : bool) (vol : CStorVolumeAttachment)
  | GoMonitor | GoServe (endpoint : string) (services : list service) | GoPing (application : string).

Definition result (a : action) : Type :=
  match a with
  | LookupEnv _ => option string
  | Setenv _ _ => err
  | Sleep _ => ()
  | RangeMap _ => list (string * string)
  | Now => Z
  | InClusterConfig | BuildConfigFromFlags _ _ => option restConfig * err
  | NewForConfig _ => option clientset * err
  | KNewForConfig _ => option kclientset * err
  | DynNewForConfig _ => option dynamicClient * err
  | ServerVersion _ => option string * err
  | JsonMarshal _ => res string
  | CvcGet _ _ _ | CvcCreate _ _ _ | CvcUpdate _ _ _ | CvcPatch _ _ _ _ _ =>
      option CStorVolumeConfig * err
  | CvcList _ _ _ => option (list CStorVolumeConfig) * err
  | JsonMarshalCvc _ | TwoWayMergePatch _ _ => res string
  | CvcDelete _ _ _ _ | CvDelete _ _ _ _ | CvaDelete _ _ _ _ => err
  | CvGet _ _ _ | CvCreate _ _ _ => option CStorVolume * err
  | CvList _ _ _ => option (list CStorVolume) * err
  | CvaGet _ _ _ | CvaCreate _ _ _ | CvaUpdate _ _ _ => option CStorVolumeAttachment * err
  | CvaList _ _ _ => option (list CStorVolumeAttachment) * err
  | NodeGet _ _ => option Node * err
  | NodeList _ _ => option (list Node) * err
  | PvcGet _ _ _ | PvcCreate _ _ _ | PvcUpdate _ _ _ => option PersistentVolumeClaim * err
  | PvcList _ _ _ => option (list PersistentVolumeClaim) * err
  | PvcDelete _ _ _ _ | PvcDeleteCollection _ _ _ _ => err
  | PvGet _ _ | PvCreate _ _ => option PersistentVolume * err
  | PvList _ _ => option (list PersistentVolume) * err
  | PvDelete _ _ _ | PvDeleteCollection _ _ _ | NsDelete _ _ _ | SvcDelete _ _ _ _ _ => err
  | NsGet _ _ | NsCreate _ _ => option Namespace * err
  | SvcGet _ _ _ => option Service * err
  | SvcList _ _ _ => option (list Service) * err
  | OsStat _ => err
  | Glob _ => option (list string) * err
  | MkdirAll _ _ | Chmod _ _ | OsRemove _ | RemoveAll _ | OpenFileCreate _ _ => err
  | UnixStat _ => Z * err
  | Statfs _ => Statfs_t * err
  | NetDial _ _ | NetListen _ _ => err
  | ReadFile _ | CmdOutput _ _ => string * err
  | OsCreate _ | OsOpen _ | EncodeDisk _ _ => err
  | CloseFile _ => ()
  | DecodeDisk _ => DiskFields * err
  | MountList => list MountPoint * err
  | MountAt _ _ _ _ | FormatAndMount _ _ _ _ | Unmount _ => err
  | IsLikelyNotMountPoint _ | MountPathExists _ | UtilPathExists _ => bool * err
  | GetDeviceNameFromMount _ => string * Z * err
  | Exec _ _ => string * err
  | FindMultipathDevice _ => string
  | IscsiConnect _ => string * err
  | SnapDial _ => err
  | SnapCreate _ _ _ _ | SnapDelete _ _ _ _ => option string * err
  | AnalyticsSend _ | AnalyticsRegister | AnalyticsInstall _ => ()
  | ServeGrpc _ _ _ | StopGrpc _ | WgAdd | WgWait | LogLine _ _ => ()
  | NewUUID => string
  | Lock | Unlock => ()
  | TvlGet _ => option CVAStatus
  | TvlSet _ _ | TvlDelete _ | RmlSet _ _ | RmlDelete _ => ()
  | GoCleanup _ | GoRemount _ _ _ | GoMonitor | GoServe _ _ | GoPing _ => ()
  end.

(** The answer of an environment in which every call succeeds and every
    object is the zero value; the witnesses override it where they need to. *)
Definition default_result `{!Inhabited restConfig, !Inhabited clientset, !Inhabited kclientset,
    !Inhabited dynamicClient}
    (a : action) : result a :=
  match a with
  | LookupEnv _ => None
  | Setenv _ _ => None
  | Sleep _ => tt
  | RangeMap m => map_to_list m
  | Now => 0%Z
  | InClusterConfig | BuildConfigFromFlags _ _ => (Some inhabitant, None)
  | NewForConfig _ => (Some inhabitant, None)
  | KNewForConfig _ => (Some inhabitant, None)
  | DynNewForConfig _ => (Some inhabitant, None)
  | ServerVersion _ => (Some "", None)
  | JsonMarshal _ => inl ""
  | CvcGet _ _ _ | CvcCreate _ _ _ | CvcUpdate _ _ _ | CvcPatch _ _ _ _ _ =>
      (Some cvc_zero, None)
  | CvcList _ _ _ => (Some [], None)
  | JsonMarshalCvc _ | TwoWayMergePatch _ _ => inl ""
  | CvcDelete _ _ _ _ | CvDelete _ _ _ _ | CvaDelete _ _ _ _ => None
  | CvGet _ _ _ | CvCreate _ _ _ => (Some cv_zero, None)
  | CvList _ _ _ => (Some [], None)
  | CvaGet _ _ _ | CvaCreate _ _ _ | CvaUpdate _ _ _ => (Some cva_zero, None)
  | CvaList _ _ _ => (Some [], None)
  | NodeGet _ _ => (Some node_zero, None)
  | NodeList _ _ => (Some [], None)
  | PvcGet _ _ _ | PvcCreate _ _ _ | PvcUpdate _ _ _ => (Some pvc_zero, None)
  | PvcList _ _ _ => (Some [], None)
  | PvcDelete _ _ _ _ | PvcDeleteCollection _ _ _ _ => None
  | PvGet _ _ | PvCreate _ _ => (Some pv_zero, None)
  | PvList _ _ => (Some [], None)
  | PvDelete _ _ _ | PvDeleteCollection _ _ _ | NsDelete _ _ _ | SvcDelete _ _ _ _ _ => None
  | NsGet _ _ | NsCreate _ _ => (Some (MkNamespace om_zero), None)
  | SvcGet _ _ _ => (Some (MkService om_zero), None)
  | SvcList _ _ _ => (Some [], None)
  | OsStat _ => None
  | Glob _ => (None, None)
  | MkdirAll _ _ | Chmod _ _ | OsRemove _ | RemoveAll _ | OpenFileCreate _ _ => None
  | UnixStat _ => (0%Z, None)
  | Statfs _ => (Build_Statfs_t 0 0 0 0 0 0, None)
  | NetDial _ _ | NetListen _ _ => None
  | ReadFile _ | CmdOutput _ _ => ("", None)
  | OsCreate _ | OsOpen _ | EncodeDisk _ _ => None
  | CloseFile _ => tt
  | DecodeDisk _ => (MkDiskFields None None None None None, None)
  | MountList => ([], None)
  | MountAt _ _ _ _ | FormatAndMount _ _ _ _ | Unmount _ => None
  | IsLikelyNotMountPoint _ | MountPathExists _ | UtilPathExists _ => (true, None)
  | GetDeviceNameFromMount _ => ("", 0%Z, None)
  | Exec _ _ => ("", None)
  | FindMultipathDevice _ => ""
  | IscsiConnect _ => ("", None)
  | SnapDial _ => None
  | SnapCreate _ _ _ _ | SnapDelete _ _ _ _ => (None, None)
  | AnalyticsSend _ | AnalyticsRegister | AnalyticsInstall _ => tt
  | ServeGrpc _ _ _ | StopGrpc _ | WgAdd | WgWait | LogLine _ _ => tt
  | NewUUID => ""
  | Lock | Unlock => tt
  | TvlGet _ => None
  | TvlSet _ _ | TvlDelete _ | RmlSet _ _ | RmlDelete _ => tt
  | GoCleanup _ | GoRemount _ _ _ | GoMonitor | GoServe _ _ | GoPing _ => tt
  end.

End world.

(** Programs of the driver, and the program that performs one action. *)
Abbreviation go A := (prog result A).
Abbreviation sys a := (Act (result := result) a Ret).

(** [if err != nil { return ..., e }] for the two shapes of results. *)
Definition fail {L : ApiLib} {A} (e : error) : go (res A) := mret (inr e).
Definition ok {L : ApiLib} {A} (a : A) : go (res A) := mret (inl a).

(** [x, err := p; if err != nil { return ..., err }]: go on with [x]. *)
Definition try {L : ApiLib} {A B} (p : go (res A)) (f : A → go (res B)) : go (res B) :=
  r ← p; match r with inl a => f a | inr e => fail e end.

(** The same for a call that returns only an [error]. *)
Definition try_ {L : ApiLib} {B} (p : go err) (f : go (res B)) : go (res B) :=
  e ← p; match e with None => f | Some e => fail e end.

(** The same when the failure is reported as another error. *)
Definition try_as {L : ApiLib} {A B} (wrap : error → error) (p : go (res A))
    (f : A → go (res B)) : go (res B) :=
  r ← p; match r with inl a => f a | inr e => fail (wrap e) end.
Definition try_as_ {L : ApiLib} {B} (wrap : error → error) (p : go err)
    (f : go (res B)) : go (res B) :=
  e ← p; match e with None => f | Some e => fail (wrap e) end.

(** [return nil, status.Error(codes.Internal, err.Error())] *)
Definition internal (e : error) : error := Status Internal "%s" [AErr e].

(** Dereference of a pointer that may be nil. *)
Definition deref {L : ApiLib} {A} (p : option A) : go A :=
  match p with
  | Some a => mret a
  | None => Panic "runtime error: invalid memory address or nil pointer dereference"
  end.

(** [Getenv] is the empty string for an unset variable. *)
Definition os_Getenv {L : ApiLib} (k : string) : go string :=
  v ← sys (LookupEnv k); mret (default "" v).
