(* ===== verification/Concrete.v ===== *)
(** * A concrete control plane for the examples

    One instance of every parameter of the model, on which the theorems'
    hypotheses are evaluated: quantities are numbers of bytes, "5Gi" is the
    only syntax they have, and there is one clientset. *)

From S2P Require Export World.
From Stdlib Require Import Ascii.
Local Open Scope go_scope.

Module Concrete.

(** The error with which the API server says that an object does not exist. *)
Definition notFound : error := ExtErr "not found".

(** "<n>Gi" *)
Definition parseGi (s : string) : Z * option error :=
  match Str.Split s "G"%char with
  | [n; "i"] =>
      match Str.ParseInt n with
      | Some n => ((n * 1024 * 1024 * 1024)%Z, None)
      | None => (0%Z, Some (ExtErr "quantity"))
      end
  | _ => (0%Z, Some (ExtErr "quantity"))
  end.

#[export] Instance L0 : ApiLib := {|
  quantity := Z; zeroQty := 0%Z; ParseQuantity := parseGi;
  QtyCmp := λ x y, match (x ?= y)%Z with Lt => -1 | Eq => 0 | Gt => 1 end%Z;
  QtyString := Str.Itoa; QtyMilliValue := λ x, (x * 1000)%Z;
  FmtQuantity := Str.Itoa;
  FmtResourceList := λ _, "";
  IsNotFound := λ e, match e with ExtErr "not found" => true | _ => false end;
  restConfig := (); clientset := (); kclientset := (); dynamicClient := ();
  ResourceStorage := "storage"; NodeReadyCondition := "Ready"; ConditionTrue := "True";
  HostPathDirectoryOrCreate := "DirectoryOrCreate"; NodeSelectorOpIn := "In";
  CVCPhasePending := "Pending"; CVStatusHealthy := "Healthy"; CVStatusInit := "Init";
  CVStatusOffline := "Offline"; CVStatusDegraded := "Degraded";
  VolumeProvision := "volume-provision"; VolumeDeprovision := "volume-deprovision";
  CommandStatusResponse := λ s, s;
  UnmarshalSecret := λ _, None
|}.

#[export] Instance N0 : CsiNames := {|
  VolumeCapability_AccessMode_Mode_name := λ m,
    match m with SINGLE_NODE_WRITER => "SINGLE_NODE_WRITER" | _ => "OTHER" end;
  ControllerCap_String := λ c,
    match c with CREATE_DELETE_VOLUME => "CREATE_DELETE_VOLUME" | _ => "OTHER" end
|}.

#[export] Instance T0 : StatusNames := {|
  statusString := λ s, match s with Uninitialized => "Uninitialized" | _ => "Busy" end
|}.

(** A control plane without objects: reads find nothing, writes succeed. *)
Definition quiet (a : action) : result a :=
  match a with
  | CvcGet _ _ _ => (None, Some notFound)
  | CvGet _ _ _ => (None, Some notFound)
  | CvaGet _ _ _ => (None, Some notFound)
  | NodeGet _ _ => (None, Some notFound)
  | PvcGet _ _ _ => (None, Some notFound)
  | IsLikelyNotMountPoint _ => (false, None)
  | a => default_result a
  end.

Definition quiet_env {W} (a : action) (w : W) : result a * W := (quiet a, w).

End Concrete.
