(* ===== verification/Rounding.v ===== *)
(** * Volume sizes: src/pkg/utils/rounding.go

    Go's [/] and [%] on [int64] truncate towards zero ([Z.quot], [Z.rem]);
    products wrap around at 64 bits.  [ByteCount] works on [uint64]. *)

From S2P Require Export Prelude GoStrings GoRuntime.
Local Open Scope Z_scope.

Module Rounding.

Definition unit : Z := 1024.
Definition GiB : Z := 1024 * 1024 * 1024.

(** roundUpSize *)
Definition roundUpSize (volumeSizeBytes allocationUnitBytes : Z) : Z :=
  let roundedUp := Z.quot volumeSizeBytes allocationUnitBytes in
  if 0 <? Z.rem volumeSizeBytes allocationUnitBytes
  then wrap64 (roundedUp + 1) else roundedUp.

(** RoundUpBytes *)
Definition RoundUpBytes (volumeSizeBytes : Z) : Z :=
  wrap64 (roundUpSize volumeSizeBytes GiB * GiB).

(** RoundUpGiB *)
Definition RoundUpGiB (volumeSizeBytes : Z) : Z := roundUpSize volumeSizeBytes GiB.

(** BytesToGiB *)
Definition BytesToGiB (volumeSizeBytes : Z) : Z := Z.quot volumeSizeBytes GiB.

(** GiBToBytes *)
Definition GiBToBytes (volumeSizeGiB : Z) : Z := wrap64 (volumeSizeGiB * GiB).

(** Wrap-around of a 64-bit unsigned integer. *)
Definition wrapu64 (z : Z) : Z := z mod 2 ^ 64.

(** The loop of ByteCount: [val], [div] and [index]; each round divides [val]
    by 1024, so 64 rounds are enough for any [uint64]. *)
Fixpoint byteCountLoop (fuel : nat) (val div : Z) (index : nat) : Z * nat :=
  match fuel with
  | O => (div, index)
  | S fuel' =>
      if unit <=? val
      then byteCountLoop fuel' (val / unit) (wrapu64 (div * unit)) (S index)
      else (div, index)
  end.

(** ["KMGTPE"[index]]: [None] is Go's index-out-of-range panic. *)
Definition suffix (index : nat) : option string :=
  (["K"; "M"; "G"; "T"; "P"; "E"] : list string) !! index.

(** ByteCount *)
Definition ByteCount (b : Z) : option string :=
  if b <? unit then Some (Str.Itoa b +:+ "B")
  else let '(div, index) := byteCountLoop 64 (b / unit) unit 0 in
       c ← suffix index; Some (Str.Itoa (b / div) +:+ c +:+ "i").

(** ** Rounding up *)

Lemma roundUpSize_nonneg s u :
  0 ≤ s → s ≤ int64_max → 1 < u → roundUpSize s u = (s + u - 1) / u.
Proof.
  intros Hs Hmax Hu. unfold roundUpSize.
  rewrite Z.quot_div_nonneg, Z.rem_mod_nonneg by lia.
  pose proof (Z.mod_pos_bound s u ltac:(lia)) as Hb.
  pose proof (Z.div_mod s u ltac:(lia)) as Hd.
  assert (s / u ≤ s) by (apply Z.div_le_upper_bound; nia).
  assert (0 ≤ s / u) by (apply Z.div_pos; lia).
  destruct (Z.ltb_spec 0 (s mod u)).
  - assert (s / u < s) by (apply Z.div_lt; nia).
    rewrite wrap64_small by (unfold is_int64, int64_min; lia).
    apply (Z.div_unique _ _ _ (s mod u - 1)); [left; lia|]. nia.
  - apply (Z.div_unique _ _ _ (u - 1)); [left; lia|]. nia.
Qed.

(** The result brackets the size. *)
Lemma RoundUpGiB_bracket s :
  0 ≤ s ≤ int64_max → (RoundUpGiB s - 1) * GiB < s ≤ RoundUpGiB s * GiB.
Proof.
  intros [Hs Hmax]. unfold RoundUpGiB. rewrite roundUpSize_nonneg by (unfold GiB; lia).
  pose proof (Z.div_mod (s + GiB - 1) GiB ltac:(unfold GiB; lia)).
  pose proof (Z.mod_pos_bound (s + GiB - 1) GiB ltac:(unfold GiB; lia)). lia.
Qed.

Lemma RoundUpGiB_bounds s :
  0 ≤ s ≤ int64_max → 0 ≤ RoundUpGiB s ≤ 2 ^ 33.
Proof.
  intros H. pose proof (RoundUpGiB_bracket s H). unfold GiB, int64_max in *. nia.
Qed.

(** RoundUpGiB gives the least number of GiB that holds the requested bytes,
    for every non-negative 64-bit size, and never overflows; so a larger
    request never gets a smaller volume. *)
Theorem RoundUpGiB_least s :
  0 ≤ s ≤ int64_max →
  is_int64 (RoundUpGiB s) ∧ (∀ n, s ≤ n * GiB ↔ RoundUpGiB s ≤ n) ∧
  ∀ t, s ≤ t ≤ int64_max → RoundUpGiB s ≤ RoundUpGiB t.
Proof.
  intros H. pose proof (RoundUpGiB_bounds s H). pose proof (RoundUpGiB_bracket s H).
  unfold is_int64, int64_min, int64_max in *. split; [lia|]. split.
  - intros n. unfold GiB in *. nia.
  - intros t Ht. pose proof (RoundUpGiB_bracket t). unfold GiB, int64_max in *. nia.
Qed.

(** C33: RoundUpBytes rounds up to a multiple of GiB exactly on the sizes up to
    [2^63 - 2^30]; on every larger [int64] the product overflows to [-2^63]. *)
Theorem RoundUpBytes_spec s :
  0 ≤ s ≤ int64_max →
  if s <=? 2 ^ 63 - GiB
  then s ≤ RoundUpBytes s < s + GiB ∧ RoundUpBytes s mod GiB = 0
  else RoundUpBytes s = int64_min.
Proof.
  intros H. pose proof (RoundUpGiB_bracket s H) as Hl. unfold RoundUpBytes.
  change (roundUpSize s GiB) with (RoundUpGiB s). unfold GiB, int64_max in *.
  destruct (Z.leb_spec s (2 ^ 63 - 1024 * 1024 * 1024)).
  - assert (RoundUpGiB s ≤ 2 ^ 33 - 1) by nia.
    rewrite wrap64_small by (unfold is_int64, int64_min, int64_max; nia).
    split; [lia|]. by rewrite Z.mod_mul.
  - assert (RoundUpGiB s = 2 ^ 33) as -> by nia. reflexivity.
Qed.

(** A size given in whole GiB survives the conversion to bytes and back,
    rounded up or down, for every size whose bytes fit 64 bits. *)
Theorem GiB_roundtrip g :
  0 ≤ g < 2 ^ 33 → BytesToGiB (GiBToBytes g) = g ∧ RoundUpGiB (GiBToBytes g) = g.
Proof.
  intros H. unfold BytesToGiB, GiBToBytes.
  rewrite wrap64_small by (unfold GiB, is_int64, int64_min, int64_max; lia). split.
  - apply Z.quot_mul. unfold GiB. lia.
  - pose proof (RoundUpGiB_bracket (g * GiB)) as Hl. unfold GiB, int64_max in *. lia.
Qed.

(** ** ByteCount *)

(** The loop stops within its fuel with a divisor [1024^(index+1)] that
    brings [b] into [1, 1024). *)
Lemma byteCountLoop_spec fuel b k :
  0 ≤ b < 2 ^ 64 → 1024 ^ Z.of_nat (S k) ≤ b →
  b < 1024 ^ (Z.of_nat (S k) + Z.of_nat fuel) →
  ∃ n, byteCountLoop fuel (b / 1024 ^ Z.of_nat (S k)) (1024 ^ Z.of_nat (S k)) k
         = (1024 ^ Z.of_nat (S n), n)
       ∧ 1024 ^ Z.of_nat (S n) ≤ b < 1024 ^ Z.of_nat (S (S n)).
Proof.
  revert k. induction fuel as [|fuel IH]; intros k Hb Hk Hf.
  { rewrite Z.add_0_r in Hf. lia. }
  cbn [byteCountLoop]. unfold unit.
  assert (0 < 1024 ^ Z.of_nat (S k)) by (apply Z.pow_pos_nonneg; lia).
  assert (1024 ^ Z.of_nat (S (S k)) = 1024 * 1024 ^ Z.of_nat (S k)) as Hpow.
  { rewrite (Nat2Z.inj_succ (S k)), Z.pow_succ_r by lia. done. }
  destruct (Z.leb_spec 1024 (b / 1024 ^ Z.of_nat (S k))) as [Hge|Hlt].
  - assert (1024 ^ Z.of_nat (S (S k)) ≤ b).
    { rewrite Hpow. pose proof (Z.mul_div_le b (1024 ^ Z.of_nat (S k)) ltac:(lia)). nia. }
    rewrite Z.div_div by lia.
    replace (1024 ^ Z.of_nat (S k) * 1024) with (1024 ^ Z.of_nat (S (S k))) by lia.
    unfold wrapu64. rewrite Z.mod_small by lia.
    apply IH; [done|done|].
    replace (Z.of_nat (S (S k)) + Z.of_nat fuel) with (Z.of_nat (S k) + Z.of_nat (S fuel)) by lia.
    done.
  - exists k. split; [done|]. split; [done|]. rewrite Hpow.
    pose proof (Z.mod_pos_bound b (1024 ^ Z.of_nat (S k)) ltac:(lia)).
    pose proof (Z.div_mod b (1024 ^ Z.of_nat (S k)) ltac:(lia)). nia.
Qed.

(** ByteCount never indexes past the end of its unit letters and prints the number of whole units
    of the largest unit that fits, a number between 1 and 1023. *)
Theorem ByteCount_total b :
  0 ≤ b < 2 ^ 64 →
  ∃ q s, ByteCount b = Some (Str.Itoa q +:+ s) ∧ 0 ≤ q < 1024 ∧
    ((s = "B" ∧ q = b) ∨
     ∃ n c, suffix n = Some c ∧ s = c +:+ "i" ∧ 1 ≤ q ∧
       q = b / 1024 ^ Z.of_nat (S n)).
Proof.
  intros Hb. unfold ByteCount, unit. destruct (Z.ltb_spec b 1024) as [Hlt|Hge].
  { exists b, "B". split_and!; [done|lia|lia|]. by left. }
  destruct (byteCountLoop_spec 64 b 0) as (n & Hn & Hlo & Hhi); [lia|simpl; lia| |].
  { replace (Z.of_nat 1 + Z.of_nat 64) with 65 by lia. lia. }
  change (1024 ^ Z.of_nat 1) with 1024 in Hn. unfold unit in Hn. rewrite Hn.
  assert (n < 6)%nat as Hn6.
  { destruct (decide (n < 6)%nat); [done|]. exfalso.
    assert (1024 ^ 7 ≤ 1024 ^ Z.of_nat (S n)) by (apply Z.pow_le_mono_r; lia). lia. }
  destruct (suffix n) as [c|] eqn:Hc.
  2:{ unfold suffix in Hc. apply lookup_ge_None in Hc. simpl in Hc. lia. }
  assert (0 < 1024 ^ Z.of_nat (S n)) by (apply Z.pow_pos_nonneg; lia).
  assert (1 ≤ b / 1024 ^ Z.of_nat (S n)) by (apply Z.div_le_lower_bound; lia).
  assert (b / 1024 ^ Z.of_nat (S n) < 1024).
  { apply Z.div_lt_upper_bound; [done|].
    rewrite (Nat2Z.inj_succ (S n)), Z.pow_succ_r in Hhi by lia. lia. }
  exists (b / 1024 ^ Z.of_nat (S n)), (c +:+ "i"). split_and!; [done|lia|lia|].
  right. by exists n, c.
Qed.

(** ** Examples *)

Lemma RoundUpGiB_least_witness :
  is_int64 (RoundUpGiB 3000000000) ∧ (∀ n, 3000000000 ≤ n * GiB ↔ RoundUpGiB 3000000000 ≤ n) ∧
  ∀ t, 3000000000 ≤ t ≤ int64_max → RoundUpGiB 3000000000 ≤ RoundUpGiB t.
Proof. apply (RoundUpGiB_least 3000000000). split; vm_compute; discriminate. Defined.

Lemma RoundUpBytes_spec_witness :
  3000000000 ≤ RoundUpBytes 3000000000 < 3000000000 + GiB ∧ RoundUpBytes 3000000000 mod GiB = 0.
Proof. apply (RoundUpBytes_spec 3000000000). split; vm_compute; discriminate. Defined.

Lemma GiB_roundtrip_witness : BytesToGiB (GiBToBytes 5) = 5 ∧ RoundUpGiB (GiBToBytes 5) = 5.
Proof. apply (GiB_roundtrip 5). split; [vm_compute; discriminate|reflexivity]. Defined.

Lemma ByteCount_total_witness :
  ∃ q s, ByteCount 1572864 = Some (Str.Itoa q +:+ s) ∧ 0 ≤ q < 1024 ∧
    ((s = "B" ∧ q = 1572864) ∨
     ∃ n c, suffix n = Some c ∧ s = c +:+ "i" ∧ 1 ≤ q ∧
       q = 1572864 / 1024 ^ Z.of_nat (S n)).
Proof. apply (ByteCount_total 1572864). split; [vm_compute; discriminate|reflexivity]. Defined.

Example RoundUpBytes_overflow : RoundUpBytes (2 ^ 63 - 1) = - 2 ^ 63.
Proof. reflexivity. Qed.
Example ByteCount_ex : ByteCount 1572864 = Some "1Mi" ∧ ByteCount (2 ^ 64 - 1) = Some "15Ei".
Proof. by vm_compute. Qed.

End Rounding.
