(* ===== verification/Env.v ===== *)
(** * Environment and kubeconfig: src/pkg/env/env.go and
    src/pkg/kubernetes/client/client.go

    The typed function fields of [Client] are parameters of the record, so that
    the precedence between the in-cluster configuration, the environment and a
    kubeconfig path is proved for every choice of them. *)

From S2P Require Export Concrete.
Local Open Scope go_scope.

Module Env.
Section env.
Context {L : ApiLib}.

(** The keys the binary knows, and the abstractions of the environment *)
Definition ENVKey : Type := string.
Definition KubeConfig : string := "OPENEBS_IO_KUBE_CONFIG".
Definition KubeMaster : string := "OPENEBS_IO_K8S_MASTER".
Definition OpenEBSEnableAnalytics : string := "OPENEBS_IO_ENABLE_ANALYTICS".
Definition OpenEBSPingPeriod : string := "OPENEBS_IO_ANALYTICS_PING_INTERVAL".
Definition OpenEBSVersion : string := "OPENEBS_IO_VERSION".
Definition OpenEBSNamespaceKey : string := "OPENEBS_NAMESPACE".
Definition OpenEBSMayaPodName : string := "OPENEBS_MAYA_POD_NAME".
Definition OpenEBSServiceAccount : string := "OPENEBS_SERVICE_ACCOUNT".

Definition EnvironmentSetter : Type := ENVKey → string → go err.
Definition EnvironmentGetter : Type := ENVKey → go string.
Definition EnvironmentLookup : Type := ENVKey → go (string * bool).

(** getEnv *)
Definition getEnv (envKey : string) : go string :=
  v ← os_Getenv envKey; mret (Str.TrimSpace v).

(** lookupEnv: the value and whether the variable is present *)
Definition lookupEnv (envKey : string) : go (string * bool) :=
  v ← sys (LookupEnv envKey);
  mret (Str.TrimSpace (default "" v), bool_decide (is_Some v)).

(** Set, Get, Lookup *)
Definition Set_ : EnvironmentSetter := λ envKey value, sys (Setenv envKey value).
Definition Get : EnvironmentGetter := λ envKey, getEnv envKey.
Definition Lookup : EnvironmentLookup := λ envKey, lookupEnv envKey.

(** GetOrDefault *)
Definition GetOrDefault (e defaultValue : string) : go string :=
  envValue ← Get e;
  if bool_decide (String.length envValue = 0) then mret defaultValue else mret envValue.

(** Truthy: a value that [strconv.ParseBool] rejects counts as false *)
Definition Truthy (envKey : string) : go bool :=
  '(v, found) ← Lookup envKey;
  if negb found then mret false
  else mret (default false (Str.ParseBool v)).

(** LookupOrFalse *)
Definition LookupOrFalse (envKey : string) : go string :=
  '(val, present) ← Lookup envKey;
  if negb present then mret "false" else mret (Str.TrimSpace val).

End env.
End Env.

Module KClient.
Section client.
Context {L : ApiLib}.

(** The types of the functions that tests replace *)
Definition getInClusterConfigFunc : Type := go (option restConfig * err).
Definition buildConfigFromFlagsFunc : Type := string → string → go (option restConfig * err).
Definition getKubeMasterIPFunc : Type := Env.ENVKey → go string.
Definition getKubeConfigPathFunc : Type := Env.ENVKey → go string.
Definition getKubernetesDynamicClientFunc : Type := restConfig → go (option dynamicClient * err).
Definition getKubernetesClientsetFunc : Type := restConfig → go (option kclientset * err).

(** Client: two flags and the functions that tests replace; [None] is a nil
    function field. *)
Record Client := MkClient {
  IsInCluster : bool;
  KubeConfigPath : string;
  getInClusterConfig : option getInClusterConfigFunc;
  buildConfigFromFlags : option buildConfigFromFlagsFunc;
  getKubernetesClientset : option getKubernetesClientsetFunc;
  getKubernetesDynamicClient : option getKubernetesDynamicClientFunc;
  getKubeMasterIP : option getKubeMasterIPFunc;
  getKubeConfigPath : option getKubeConfigPathFunc
}.

Definition OptionFunc : Type := Client → Client.

Definition emptyClient : Client := MkClient false "" None None None None None None.

(** [InCluster] and [WithKubeConfigPath] *)
Definition InCluster : OptionFunc := λ c,
  MkClient true (KubeConfigPath c) (getInClusterConfig c) (buildConfigFromFlags c)
    (getKubernetesClientset c) (getKubernetesDynamicClient c) (getKubeMasterIP c) (getKubeConfigPath c).
Definition WithKubeConfigPath (kubeConfigPath : string) : OptionFunc := λ c,
  MkClient (IsInCluster c) kubeConfigPath (getInClusterConfig c) (buildConfigFromFlags c)
    (getKubernetesClientset c) (getKubernetesDynamicClient c) (getKubeMasterIP c) (getKubeConfigPath c).

(** withDefaults *)
Definition withDefaults (c : Client) : Client :=
  MkClient (IsInCluster c) (KubeConfigPath c)
    (Some (default (sys InClusterConfig) (getInClusterConfig c)))
    (Some (default (λ m p, sys (BuildConfigFromFlags m p)) (buildConfigFromFlags c)))
    (Some (default (λ cfg, sys (KNewForConfig cfg)) (getKubernetesClientset c)))
    (Some (default (λ cfg, sys (DynNewForConfig cfg)) (getKubernetesDynamicClient c)))
    (Some (default Env.Get (getKubeMasterIP c)))
    (Some (default Env.Get (getKubeConfigPath c))).

(** New *)
Definition New (opts : list OptionFunc) : Client :=
  withDefaults (foldl (λ c o, o c) emptyClient opts).

(** A call of a function field: a nil function panics. *)
Definition call {A} (f : option A) : go A :=
  match f with
  | Some f => mret f
  | None => Panic "runtime error: invalid memory address or nil pointer dereference"
  end.

(** getConfigFromENV *)
Definition getConfigFromENV (c : Client) : go (option restConfig * err) :=
  getM ← call (getKubeMasterIP c); k8sMaster ← getM Env.KubeMaster;
  getP ← call (getKubeConfigPath c); kubeConfig ← getP Env.KubeConfig;
  if bool_decide (Str.TrimSpace k8sMaster = "") && bool_decide (Str.TrimSpace kubeConfig = "")
  then mret (None, Some (Errorf
    "failed to get kubernetes config: missing ENV: atleast one should be set: {%s} or {%s}"
    [AStr Env.KubeMaster; AStr Env.KubeConfig]))
  else build ← call (buildConfigFromFlags c); build k8sMaster kubeConfig.

(** Config: the in-cluster flag, then the environment, then in-cluster; the
    second environment variable is read only when the first is blank. *)
Definition Config (c : Client) : go (option restConfig * err) :=
  if IsInCluster c then getIn ← call (getInClusterConfig c); getIn
  else
    getM ← call (getKubeMasterIP c); m ← getM Env.KubeMaster;
    envSet ← (if negb (bool_decide (Str.TrimSpace m = "")) then mret true
              else getP ← call (getKubeConfigPath c); p ← getP Env.KubeConfig;
                   mret (negb (bool_decide (Str.TrimSpace p = ""))));
    if envSet : bool then getConfigFromENV c
    else getIn ← call (getInClusterConfig c); getIn.

(** ConfigForPath *)
Definition ConfigForPath (c : Client) (kubeConfigPath : string) : go (option restConfig * err) :=
  build ← call (buildConfigFromFlags c); build "" kubeConfigPath.

(** GetConfigForPathOrDirect *)
Definition GetConfigForPathOrDirect (c : Client) : go (option restConfig * err) :=
  if negb (bool_decide (KubeConfigPath c = "")) then ConfigForPath c (KubeConfigPath c)
  else Config c.

(** GetConfig *)
Definition GetConfig (c : option Client) : go (option restConfig * err) :=
  match c with
  | None => mret (None, Some (Errorf
      "failed to get kubernetes config: nil client was provided" []))
  | Some c => GetConfigForPathOrDirect c
  end.

(** GetConfigFunc: what [GetConfig] implements *)
Definition GetConfigFunc : Type := option Client → go (option restConfig * err).

(** Clientset *)
Definition Clientset (c : Client) : go (option kclientset * err) :=
  '(config, e) ← GetConfigForPathOrDirect c;
  match e with
  | Some e => mret (None, Some (Wrapf e
      "failed to get kubernetes clientset: failed to get kubernetes config: IsInCluster {%t}: KubeConfigPath {%s}"
      [AStr (if IsInCluster c then "true" else "false"); AStr (KubeConfigPath c)]))
  | None => mk ← call (getKubernetesClientset c); config ← deref config; mk config
  end.

(** Dynamic *)
Definition Dynamic (c : Client) : go (option dynamicClient * err) :=
  '(config, e) ← GetConfigForPathOrDirect c;
  match e with
  | Some e => mret (None, Some (Wrapf e "failed to get dynamic client" []))
  | None => mk ← call (getKubernetesDynamicClient c); config ← deref config; mk config
  end.

(** getClusterConfig *)
Definition getClusterConfig (kubeconfig : string) : go (option restConfig * err) :=
  if negb (bool_decide (kubeconfig = "")) then sys (BuildConfigFromFlags "" kubeconfig)
  else sys InClusterConfig.

(** GetServerVersion; its second test of [err] can never succeed *)
Definition GetServerVersion : go (option string * err) :=
  '(cfg, e) ← getClusterConfig "";
  match e with
  | Some e => mret (None, Some (Wrapf e "error building kubeconfig" []))
  | None =>
      cfg ← deref cfg;
      '(kubeClient, e) ← sys (KNewForConfig cfg);
      match e with
      | Some e => mret (None, Some (Wrapf e "error building kubernetes clientset" []))
      | None => kubeClient ← deref kubeClient; sys (ServerVersion kubeClient)
      end
  end.

(** The default way to an OpenEBS clientset ([defaultGetClientset] of the
    packages under pkg/cstor) and its kubeconfig-path variant. *)
Definition defaultGetClientset : go (option clientset * err) :=
  '(config, e) ← GetConfig (Some (New []));
  match e with
  | Some e => mret (None, Some e)
  | None => config ← deref config; sys (NewForConfig config)
  end.
Definition defaultGetClientsetForPath (kubeConfigPath : string) : go (option clientset * err) :=
  '(config, e) ← GetConfig (Some (New [WithKubeConfigPath kubeConfigPath]));
  match e with
  | Some e => mret (None, Some e)
  | None => config ← deref config; sys (NewForConfig config)
  end.

(** ** The precedence of configuration sources *)

(** The specification: a kubeconfig path given to the client wins; then the
    in-cluster flag; then the two environment variables; in-cluster last. *)
Definition configSource (path : string) (inCluster : bool) (master conf : string) :
    go (option restConfig * err) :=
  if negb (bool_decide (path = "")) then sys (BuildConfigFromFlags "" path)
  else if inCluster then sys InClusterConfig
  else if negb (bool_decide (master = "")) || negb (bool_decide (conf = ""))
  then sys (BuildConfigFromFlags master conf)
  else sys InClusterConfig.

(** The options the driver passes to [New]. *)
Definition clientOpts (inCluster : bool) (path : string) : list OptionFunc :=
  (if inCluster then [InCluster] else []) ++ [WithKubeConfigPath path].

(** What an environment variable holds, trimmed. *)
Definition trimmed (env : string → option string) (k : string) : string :=
  Str.TrimSpace (default "" (env k)).

End client.

Lemma TrimSpace_left_idem s : Str.trim_left (Str.trim_left s) = Str.trim_left s.
Proof.
  induction s as [|c s IH]; simpl; [done|].
  destruct (Str.is_space c) eqn:E; [done|]. simpl. by rewrite E.
Qed.

Lemma trim_right_idem s : Str.trim_right (Str.trim_right s) = Str.trim_right s.
Proof.
  induction s as [|c s IH]; simpl; [done|].
  destruct (Str.trim_right s) as [|d t] eqn:E.
  - destruct (Str.is_space c) eqn:Ec; simpl; [done|]. by rewrite Ec.
  - change (Str.trim_right (String c (String d t))) with
      (match Str.trim_right (String d t) with
       | EmptyString => if Str.is_space c then EmptyString else String c EmptyString
       | t => String c t end).
    by rewrite IH.
Qed.

Lemma trim_left_right s : Str.trim_left s = s → Str.trim_left (Str.trim_right s) = Str.trim_right s.
Proof.
  destruct s as [|c s]; simpl; [done|]. destruct (Str.is_space c) eqn:E.
  - intros H. exfalso. assert (∀ s, String.length (Str.trim_left s) ≤ String.length s) as Hl.
    { clear. induction s as [|d s IH]; simpl; [lia|]. destruct (Str.is_space d); simpl; lia. }
    specialize (Hl s). rewrite H in Hl. simpl in Hl. lia.
  - intros _. destruct (Str.trim_right s); simpl; by rewrite E.
Qed.

Lemma TrimSpace_idem s : Str.TrimSpace (Str.TrimSpace s) = Str.TrimSpace s.
Proof.
  unfold Str.TrimSpace. rewrite trim_left_right by apply TrimSpace_left_idem.
  apply trim_right_idem.
Qed.

Section proofs.
Context {L : ApiLib} {S : Type} (spec : ∀ a, S → (result a → S → Prop) → Prop).
Context `{!MonoSpec spec} (env : string → option string).
Hypothesis spec_env : ∀ k s Q, Q (env k) s → spec (LookupEnv k) s Q.

Lemma wp_EnvGet k s Q : Q (ORet (trimmed env k)) s → wp spec (Env.Get k) s Q.
Proof. intros H. simpl. by apply spec_env. Qed.

Lemma trimmed_idem k : Str.TrimSpace (trimmed env k) = trimmed env k.
Proof. apply TrimSpace_idem. Qed.

(** The client loads its configuration from the source the specification
    names, and from no other, in every stable environment. *)
Lemma wp_GetConfig_source inCluster path s Q :
  wp spec (configSource path inCluster (trimmed env Env.KubeMaster)
             (trimmed env Env.KubeConfig)) s Q →
  wp spec (GetConfig (Some (New (clientOpts inCluster path)))) s Q.
Proof using All.
  unfold GetConfig, GetConfigForPathOrDirect, configSource. intros H.
  replace (KubeConfigPath _) with path by by destruct inCluster.
  destruct (negb (bool_decide (path = ""))) eqn:Hp; [by destruct inCluster|].
  unfold Config. destruct inCluster; [done|]. simpl.
  apply spec_env. fold (trimmed env Env.KubeMaster).
  rewrite trimmed_idem.
  destruct (negb (bool_decide (trimmed env Env.KubeMaster = ""))) eqn:Hm; simpl in *.
  - do 2 (apply spec_env; fold (trimmed env Env.KubeMaster); fold (trimmed env Env.KubeConfig)).
    rewrite trimmed_idem. apply negb_true_iff in Hm. by rewrite Hm.
  - apply spec_env; fold (trimmed env Env.KubeConfig). rewrite trimmed_idem.
    destruct (negb (bool_decide (trimmed env Env.KubeConfig = ""))) eqn:Hc; simpl in *; [|done].
    do 2 (apply spec_env; fold (trimmed env Env.KubeMaster); fold (trimmed env Env.KubeConfig)).
    rewrite !trimmed_idem. apply negb_true_iff in Hc. by rewrite Hc, andb_false_r.
Qed.
End proofs.
End KClient.
