(* ===== verification/Logic.v ===== *)
(** * The program logic of the development

    Kinds of external actions and programs that perform only some of them;
    machines (the environments against which handlers are verified, as a
    guard on actions and a relation giving the answers and the next state); and
    the rule by which every Kubernetes client of the driver is opened: reading
    the configuration changes nothing and yields a clientset or an error. *)

From S2P Require Export Env.
Local Open Scope go_scope.

(** ** Kinds of actions *)

Inductive kind :=
  | KConfig      (* environment variables, kubeconfig, clientsets *)
  | KClock       (* sleeping, the clock, the order of a map *)
  | KRead        (* reads of Kubernetes objects *)
  | KPatch       (* computing a patch *)
  | KWrite       (* changes of Kubernetes objects *)
  | KLook        (* reads of the node: mounts, paths, devices, dialling *)
  | KDisk        (* changes of the node: mounts, directories, sessions, tools
                    (blockdev only measures: it counts as a read) *)
  | KSnap        (* commands to the cStor target *)
  | KEvent       (* analytics *)
  | KLock | KList | KSpawn
  | KServe       (* the gRPC server, the wait group and the interceptor's log *)
  .

Global Instance kind_eq_dec : EqDecision kind.
Proof. solve_decision. Defined.

Definition kind_of {L : ApiLib} (a : action) : kind :=
  match a with
  | LookupEnv _ | Setenv _ _ | InClusterConfig | BuildConfigFromFlags _ _
  | NewForConfig _ | KNewForConfig _ | DynNewForConfig _ => KConfig
  | Sleep _ | Now | RangeMap _ | NewUUID => KClock
  | CvcGet _ _ _ | CvcList _ _ _ | CvGet _ _ _ | CvList _ _ _ | CvaGet _ _ _
  | CvaList _ _ _ | NodeGet _ _ | NodeList _ _ | PvcGet _ _ _ | PvcList _ _ _
  | PvGet _ _ | PvList _ _ | NsGet _ _ | SvcGet _ _ _ | SvcList _ _ _ | ServerVersion _ => KRead
  | JsonMarshalCvc _ | TwoWayMergePatch _ _ | JsonMarshal _ => KPatch
  | CvcDelete _ _ _ _ | CvcCreate _ _ _ | CvcUpdate _ _ _ | CvcPatch _ _ _ _ _
  | CvDelete _ _ _ _ | CvCreate _ _ _ | CvaDelete _ _ _ _ | CvaCreate _ _ _
  | CvaUpdate _ _ _ | PvcDelete _ _ _ _ | PvcDeleteCollection _ _ _ _
  | PvcCreate _ _ _ | PvcUpdate _ _ _ | PvDelete _ _ _ | PvDeleteCollection _ _ _ | PvCreate _ _
  | NsDelete _ _ _ | NsCreate _ _ | SvcDelete _ _ _ _ _ => KWrite
  | OsStat _ | Glob _ | UnixStat _ | Statfs _ | NetDial _ _ | NetListen _ _ | MountList
  | IsLikelyNotMountPoint _ | MountPathExists _ | UtilPathExists _
  | GetDeviceNameFromMount _ | FindMultipathDevice _ | ReadFile _ | CmdOutput _ _
  | OsOpen _ | DecodeDisk _ | CloseFile _ => KLook
  | MkdirAll _ _ | Chmod _ _ | OsRemove _ | RemoveAll _ | OpenFileCreate _ _
  | OsCreate _ | EncodeDisk _ _
  | MountAt _ _ _ _ | FormatAndMount _ _ _ _ | Unmount _ | IscsiConnect _ => KDisk
  | Exec cmd _ => if String.eqb cmd "blockdev" then KLook else KDisk
  | SnapDial _ | SnapCreate _ _ _ _ | SnapDelete _ _ _ _ => KSnap
  | AnalyticsSend _ | AnalyticsRegister | AnalyticsInstall _ => KEvent
  | ServeGrpc _ _ _ | StopGrpc _ | WgAdd | WgWait | LogLine _ _ => KServe
  | Lock | Unlock => KLock
  | TvlGet _ | TvlSet _ _ | TvlDelete _ | RmlSet _ _ | RmlDelete _ => KList
  | GoCleanup _ | GoRemount _ _ _ | GoMonitor | GoServe _ _ | GoPing _ => KSpawn
  end.

(** ** Programs that perform only actions of a class *)

Section only.
Context {L : ApiLib} (P : action → Prop).

Fixpoint only {A} (p : go A) : Prop :=
  match p with
  | Ret _ | Panic _ | Exit _ => True
  | Act a k => P a ∧ ∀ r, only (k r)
  end.

Lemma only_bind {A B} (p : go A) (f : A → go B) :
  only p → (∀ a, only (f a)) → only (bind p f).
Proof. intros Hp Hf. induction p as [a|m|c|a k IH]; simpl in *; [by auto|done..|].
  destruct Hp as [? Hk]. split; [done|]. intros r. by apply IH.
Qed.

Lemma only_defer {A} (d : go ()) (p : go A) : only d → only p → only (defer d p).
Proof.
  intros Hd Hp. induction p as [a|m|c|a k IH]; simpl in *.
  - by apply only_bind.
  - by apply only_bind.
  - done.
  - destruct Hp as [? Hk]. split; [done|]. intros r. by apply IH.
Qed.

Lemma only_range {X T B} (l : list X) (body : X → T → go (B + T)) t :
  (∀ x t, only (body x t)) → only (range l t body).
Proof.
  intros Hb. revert t. induction l as [|x l IH]; intros t; simpl; [done|].
  apply only_bind; [apply Hb|]. intros [b|t']; [done|apply IH].
Qed.

Lemma only_deref {A} (o : option A) : only (deref o).
Proof. by destruct o. Qed.

Lemma only_call {A} (o : option A) : only (KClient.call o).
Proof. by destruct o. Qed.
End only.

Lemma only_impl {L : ApiLib} (P P' : action → Prop) {A} (p : go A) :
  (∀ a, P a → P' a) → only P p → only P' p.
Proof. intros HP. induction p as [a|m|c|a k IH]; simpl; [done..|].
  intros [Ha Hk]. split; [by apply HP|]. intros r. by apply IH.
Qed.

(** Actions whose kind is in a list. *)
Definition kinds {L : ApiLib} (l : list kind) (a : action) : Prop := kind_of a ∈ l.

Definition subkinds (l l' : list kind) : bool := forallb (λ k, bool_decide (k ∈ l')) l.

Lemma only_sub {L : ApiLib} l l' {A} (p : go A) :
  only (kinds l) p → subkinds l l' = true → only (kinds l') p.
Proof.
  intros Hp Hl. eapply only_impl; [|exact Hp]. unfold kinds. intros a Ha.
  unfold subkinds in Hl. rewrite forallb_forall in Hl.
  specialize (Hl (kind_of a)). rewrite <- list_elem_of_In in Hl.
  specialize (Hl Ha). by apply bool_decide_eq_true in Hl.
Qed.

(** [only_by H]: use [H : only (kinds l) p] for a larger list. *)
Ltac only_by H := eapply only_sub; [apply H|reflexivity].

(** An action whose kind is not in the list. *)
Ltac no_kind H := exfalso; refine (bool_decide_eq_false_1 _ _ H); reflexivity.

(** Goals [kinds l a] for a given action. *)
Ltac solve_kind := unfold kinds; simpl; solve [repeat constructor].

(** [solve_only]: walk through a program; recursive calls and components are
    closed by the hints of the database [only]. *)
Create HintDb only.
#[export] Hint Resolve only_deref only_call : only.
Ltac solve_only_step :=
  match goal with
  | |- only _ (mret _) => exact I
  | |- only _ (Ret _) => exact I
  | |- only _ (Panic _) => exact I
  | |- only _ (Exit _) => exact I
  | |- only _ (fail _) => exact I
  | |- only _ (ok _) => exact I
  | |- True => exact I
  | |- _ ∧ _ => split; [solve_kind|intros]
  | |- only _ (Act _ Ret) => split; [solve_kind|intros; exact I]
  | |- only _ (Act _ _) => split; [solve_kind|intros]
  | |- only _ (try _ _) => apply only_bind; [|intros [?|?]]
  | |- only _ (bind _ _) => apply only_bind; [|intros]
  | |- only _ (mbind _ _) => apply only_bind; [|intros]
  | |- only _ (defer _ _) => apply only_defer
  | |- only _ (range _ _ _) => apply only_range; intros
  | |- only _ (let _ := _ in _) => cbv zeta
  | |- only _ _ => solve [eauto 2 with only nocore]
  | |- only _ (match ?x with _ => _ end) => destruct x
  end.
Ltac solve_only := intros; repeat solve_only_step.

(** ** Machines *)

Section machine.
Context {L : ApiLib}.

(** An environment: what it demands of an action, and the answers and next
    states it may give. *)
Record machine (S : Type) := Machine {
  guard : S → action → Prop;
  next : S → ∀ a : action, result a → S → Prop
}.
Global Arguments Machine {S} _ _.
Global Arguments guard {S} _ _ _.
Global Arguments next {S} _ _ _ _ _.

Definition mspec {S} (M : machine S) (a : action) (s : S) (Q : result a → S → Prop) : Prop :=
  guard M s a ∧ ∀ r s', next M s a r s' → Q r s'.

Global Instance mspec_mono {S} (M : machine S) : MonoSpec (mspec M).
Proof. intros a s Q Q' HQ [Hg H]. split; [done|]. eauto. Qed.

(** A machine that, in the states of [I], allows the actions of a class and
    does not react to them. *)
Class Neutral {S} (M : machine S) (P : action → Prop) (I : S → Prop) : Prop :=
  neutral : ∀ a s, P a → I s → guard M s a ∧ ∀ r s', next M s a r s' → s' = s.

Lemma wp_only {S} (M : machine S) P I `{!Neutral M P I} {A} (p : go A) s Q :
  only P p → I s → (∀ o, Q o s) → wp (mspec M) p s Q.
Proof.
  intros Hp Hs HQ. induction p as [a|m|c|a k IH]; simpl in *; [done..|].
  destruct Hp as [Ha Hk]. destruct (neutral a s Ha Hs) as [Hg Hn]. split; [done|].
  intros r s' Hr. rewrite (Hn _ _ Hr). by apply IH.
Qed.

(** Refinement: a machine that permits what [M] permits, and answers there only
    as [M] may, keeps what was proved against [M]. *)
Lemma wp_refine {S} (M M' : machine S) {A} (p : go A) s Q :
  (∀ s a, guard M s a → guard M' s a ∧ ∀ r s', next M' s a r s' → next M s a r s') →
  wp (mspec M) p s Q → wp (mspec M') p s Q.
Proof.
  intros HM. revert s. induction p as [a|m|c|a k IH]; intros s; simpl; [done..|].
  intros [Hg Hk]. destruct (HM s a Hg) as [Hg' Hn]. split; [done|]. auto.
Qed.

(** Adequacy: a run whose environment behaves as the machine allows. *)
Lemma wp_machine_run {S} (M : machine S) {A} (env : ∀ a, S → result a * S) (p : go A) s Q :
  (∀ a s, guard M s a → next M s a (env a s).1 (env a s).2) →
  wp (mspec M) p s Q →
  let '(o, _, s') := run env p s in Q o s'.
Proof.
  intros Henv. revert s. induction p as [a|m|c|a k IH]; intros s; simpl; [done..|].
  intros [Hg H]. specialize (Henv a s Hg). destruct (env a s) as [r s1]. simpl in *.
  specialize (IH r s1 (H r s1 Henv)). by destruct (run env (k r) s1) as [[o tr] s2].
Qed.

(** ** Configuration *)

(** A host: its environment variables, and whether calls to the control plane
    may fail for no reason of the caller's. *)
Record Host := MkHost { flaky : bool; environ : string → option string }.

(** An error that no wrapping turns into the API server's "not found". *)
Definition hard (e : error) : Prop :=
  ∀ l, IsNotFound (foldl (λ e '(fmt, args), Wrapf e fmt args) e l) = false.

(** An error of a host whose calls may fail: not an answer of the server. *)
Definition broken (h : Host) (e : error) : Prop := flaky h = true ∧ hard e.

Lemma broken_wrap h e fmt args : broken h e → broken h (Wrapf e fmt args).
Proof. intros [Hf He]. split; [done|]. intros l. exact (He ((fmt, args) :: l)). Qed.

Lemma broken_flaky h e : broken h e → flaky h = true.
Proof. by intros [? _]. Qed.

Lemma broken_not_found h e : broken h e → IsNotFound e = false.
Proof. intros [_ He]. exact (He []). Qed.

(** Answers of the configuration calls: the host's variables, and a pointer or
    an error. *)
Definition sane (h : Host) (a : action) : result a → Prop :=
  match a with
  | LookupEnv k => λ r, r = environ h k
  | InClusterConfig | BuildConfigFromFlags _ _ | NewForConfig _ | KNewForConfig _ | DynNewForConfig _ =>
      λ r, match r.2 with None => is_Some r.1 | Some e => broken h e end
  | _ => λ _, True
  end.

(** A specification under which the configuration can be read at any time. *)
Class ConfigFree (h : Host) {S} (spec : ∀ a, S → (result a → S → Prop) → Prop) : Prop :=
  config_free : ∀ a s Q, kind_of a = KConfig → (∀ r, sane h a r → Q r s) → spec a s Q.

Lemma spec_weaken {S} (spec : ∀ a, S → (result a → S → Prop) → Prop) `{!MonoSpec spec} a s
    (Q Q' : result a → S → Prop) :
  spec a s Q → (∀ r s', Q r s' → Q' r s') → spec a s Q'.
Proof. intros H HQ. by eapply spec_mono. Qed.

Section config.
Context (h : Host) {S : Type} (spec : ∀ a, S → (result a → S → Prop) → Prop).
Context `{!MonoSpec spec, !ConfigFree h spec}.

Lemma spec_env k s (Q : option string → S → Prop) :
  Q (environ h k) s → spec (LookupEnv k) s Q.
Proof using All. intros H. apply config_free; [done|]. by intros r ->. Qed.

(** Truthy reads one variable. *)
Definition truthy (v : option string) : bool :=
  match v with
  | Some v => default false (Str.ParseBool (Str.TrimSpace v))
  | None => false
  end.

Lemma wp_Truthy k s Q : Q (ORet (truthy (environ h k))) s → wp spec (Env.Truthy k) s Q.
Proof using All.
  intros H. simpl. apply spec_env. by destruct (environ h k).
Qed.

(** The outcomes of opening a configuration or a clientset. *)
Definition opened {C} (Q : outcome (option C * err) → S → Prop) (s : S) : Prop :=
  (∀ c, Q (ORet (Some c, None)) s) ∧ (∀ o e, broken h e → Q (ORet (o, Some e)) s).

Lemma opened_sane {C} (Q : outcome (option C * err) → S → Prop) s (r : option C * err) :
  opened Q s → match r.2 with None => is_Some r.1 | Some e => broken h e end →
  Q (ORet r) s.
Proof. destruct r as [o [e|]]; simpl; intros [H1 H2]; [by auto|]. intros [c ->]. apply H1. Qed.

(** The configuration of the clients the driver builds. *)
Lemma wp_GetConfig inCluster path s Q :
  opened Q s → wp spec (KClient.GetConfig (Some (KClient.New (KClient.clientOpts inCluster path)))) s Q.
Proof using All.
  intros H. apply (KClient.wp_GetConfig_source spec (environ h)); [apply spec_env|].
  unfold KClient.configSource.
  repeat case_match; simpl; (apply config_free; [done|]); intros r Hr; by apply opened_sane.
Qed.

Lemma New_nil : KClient.New (L := L) [] = KClient.New (KClient.clientOpts false "").
Proof. done. Qed.

Lemma wp_defaultGetClientset s Q : opened Q s → wp spec KClient.defaultGetClientset s Q.
Proof using All.
  intros H. unfold KClient.defaultGetClientset. rewrite New_nil. wp_bind.
  apply wp_GetConfig. destruct H as [H1 H2]. split; simpl.
  - intros c. apply config_free; [done|]. intros r Hr. by apply opened_sane.
  - intros o e Hb. apply H2. first [done | by apply broken_wrap].
Qed.

Lemma wp_kGetClientset s Q : opened Q s → wp spec (KClient.Clientset (KClient.New [])) s Q.
Proof using All.
  intros H. unfold KClient.Clientset.
  change (KClient.GetConfigForPathOrDirect (KClient.New [])) with
    (KClient.GetConfig (Some (KClient.New (KClient.clientOpts false "")))).
  wp_bind. apply wp_GetConfig. destruct H as [H1 H2]. split; simpl.
  - intros c. apply config_free; [done|]. intros r Hr. by apply opened_sane.
  - intros o e Hb. apply H2. first [done | by apply broken_wrap].
Qed.

End config.
End machine.

(** Run from [s] in the environment [M], [p] does only what [M] permits and ends
    with [Q]. *)
Notation "⟪ s ⟫ p 'under' M ⟪ Q ⟫" := (wp (mspec M) p s Q)
  (at level 20, s at level 200, p at level 200, M at level 200, Q at level 200) : go_scope.

(** [wp_use H]: apply a rule whose instances are found by resolution. *)
Ltac wp_use H :=
  eapply H;
  lazymatch goal with
  | |- MonoSpec _ => apply _
  | |- ConfigFree _ _ => apply _
  | _ => idtac
  end.

(** [wp_ret v]: a program that is the value [v], followed by more. *)
Ltac wp_ret v :=
  lazymatch goal with |- wp _ _ ?s ?Q => change (Q (ORet v) s) end; cbn [then_].

(** [solve_client]: the same with everything unfolded, for the leaves. *)
Ltac solve_client :=
  repeat match goal with
  | |- True => exact I
  | |- _ ∧ _ => split; [solve_kind|]
  | |- ∀ _, _ => intros ?
  | _ => progress simpl
  | |- context [deref ?x] => destruct x
  | |- context [match ?x with _ => _ end] => destruct x
  end.

Lemma only_GetConfig {L : ApiLib} inCluster path :
  only (kinds [KConfig]) (KClient.GetConfig (Some (KClient.New (KClient.clientOpts inCluster path)))).
Proof. unfold KClient.GetConfig. destruct inCluster, path; solve_client. Qed.

Lemma only_defaultGetClientset {L : ApiLib} : only (kinds [KConfig]) KClient.defaultGetClientset.
Proof.
  unfold KClient.defaultGetClientset. rewrite New_nil.
  apply only_bind; [apply only_GetConfig|]. solve_client.
Qed.

Lemma only_kClientset {L : ApiLib} : only (kinds [KConfig]) (KClient.Clientset (KClient.New [])).
Proof.
  unfold KClient.Clientset.
  change (KClient.GetConfigForPathOrDirect (KClient.New [])) with
    (KClient.GetConfig (Some (KClient.New (KClient.clientOpts false "")))).
  apply only_bind; [apply only_GetConfig|]. solve_client.
Qed.

Lemma only_Truthy {L : ApiLib} k : only (kinds [KConfig]) (Env.Truthy k).
Proof. unfold Env.Truthy. solve_client. Qed.
#[export] Hint Extern 0 (only _ (Env.Truthy _)) => only_by only_Truthy : only.
