(* ===== verification/VolumeConfig.v ===== *)
(** * CStorVolumeConfig: src/pkg/cstor/volumeconfig

    The builder (build.go), the filtering list builder (config.go) and the
    Kubernetes client (kubernetes.go, utils.go) of the claim resource through
    which the controller service asks the cStor operator for a volume.

    A [Builder] holds the object under construction and the errors met so
    far; each [With...] returns the builder it was called on, so a chain of
    calls is a composition of functions. *)

From S2P Require Export Logic.
Local Open Scope go_scope.

Module Cvc.
Section cvc.
Context {L : ApiLib}.

(** ** Builder *)

Record Builder := MkBuilder { object : CStorVolumeConfig; errs : list error }.

(** NewBuilder, BuildFrom *)
Definition NewBuilder : Builder := MkBuilder cvc_zero [].
Definition BuildFrom (cvc : option CStorVolumeConfig) : Builder :=
  match cvc with
  | None => MkBuilder cvc_zero
      [Errorf "failed to build cstorvolumeclaim object: nil cvc" []]
  | Some cvc => MkBuilder cvc []
  end.

(** [b.errs = append(b.errs, ...); return b] *)
Definition add_err (e : error) (b : Builder) : Builder := MkBuilder (object b) (errs b ++ [e]).
(** [b.cvc.object.F = ...; return b] *)
Definition upd (f : CStorVolumeConfig → CStorVolumeConfig) (b : Builder) : Builder :=
  MkBuilder (f (object b)) (errs b).
Definition updMeta (f : ObjectMeta → ObjectMeta) : Builder → Builder :=
  upd (λ o, cvc_set_Meta (f (cvc_Meta o)) o).

Definition missing (what : string) : error :=
  Errorf ("failed to build cstorvolumeclaim object: " +:+ what) [].

(** WithName *)
Definition WithName (name : string) (b : Builder) : Builder :=
  if bool_decide (name = "") then add_err (missing "missing name") b
  else updMeta (om_set_Name name) b.

(** WithGenerateName *)
Definition WithGenerateName (name : string) (b : Builder) : Builder :=
  if bool_decide (name = "") then add_err (missing "missing generateName") b
  else updMeta (om_set_GenerateName name) b.

(** WithNamespace, of the builder *)
Definition BWithNamespace (ns : string) (b : Builder) : Builder :=
  if bool_decide (ns = "") then add_err (missing "missing namespace") b
  else updMeta (om_set_Namespace ns) b.

(** WithStatusPhase *)
Definition WithStatusPhase (phase : string) (b : Builder) : Builder :=
  if bool_decide (phase = "") then add_err (missing "missing phase") b
  else upd (cvc_set_Phase phase) b.

(** WithStatusConditions, WithStatusConditionsNew *)
Definition WithStatusConditions (conditions : list string) (b : Builder) : Builder :=
  if bool_decide (conditions = []) then add_err (missing "missing conditions") b
  else upd (λ o, cvc_set_Conditions (cvc_Conditions o ++ conditions) o) b.
Definition WithStatusConditionsNew (conditions : list string) (b : Builder) : Builder :=
  if bool_decide (conditions = []) then add_err (missing "missing conditions") b
  else upd (cvc_set_Conditions conditions) b.

(** WithAnnotationsNew: a copy of the given map *)
Definition WithAnnotationsNew (annotations : gmap string string) (b : Builder) : Builder :=
  if bool_decide (annotations = ∅) then add_err (missing "no new annotations") b
  else updMeta (om_set_Annotations (Some (range_assign annotations ∅))) b.

(** WithAnnotations *)
Definition WithAnnotations (annotations : gmap string string) (b : Builder) : Builder :=
  if bool_decide (annotations = ∅) then add_err (missing "missing annotations") b
  else match om_Annotations (cvc_Meta (object b)) with
       | None => WithAnnotationsNew annotations b
       | Some old => updMeta (om_set_Annotations (Some (range_assign annotations old))) b
       end.

(** WithLabelsNew *)
Definition WithLabelsNew (labels : gmap string string) (b : Builder) : Builder :=
  if bool_decide (labels = ∅) then add_err (missing "no new labels") b
  else updMeta (om_set_Labels (Some (range_assign labels ∅))) b.

(** WithLabels *)
Definition WithLabels (labels : gmap string string) (b : Builder) : Builder :=
  if bool_decide (labels = ∅) then add_err (missing "missing labels") b
  else match om_Labels (cvc_Meta (object b)) with
       | None => WithLabelsNew labels b
       | Some old => updMeta (om_set_Labels (Some (range_assign labels old))) b
       end.

(** WithFinalizersNew *)
Definition WithFinalizersNew (finalizers : list string) (b : Builder) : Builder :=
  if bool_decide (finalizers = []) then add_err (missing "no new finalizers") b
  else updMeta (om_set_Finalizers (Some finalizers)) b.

(** WithFinalizers *)
Definition WithFinalizers (finalizers : list string) (b : Builder) : Builder :=
  if bool_decide (finalizers = []) then add_err (missing "missing finalizers") b
  else match om_Finalizers (cvc_Meta (object b)) with
       | None => WithFinalizersNew finalizers b
       | Some old => updMeta (om_set_Finalizers (Some (old ++ finalizers))) b
       end.

(** WithCapacityQty, WithProvisionCapacityQty *)
Definition WithCapacityQty (resCapacity : quantity) (b : Builder) : Builder :=
  upd (cvc_set_Capacity (Some {[ResourceStorage := resCapacity]})) b.
Definition WithProvisionCapacityQty (resCapacity : quantity) (b : Builder) : Builder :=
  upd (cvc_set_ProvisionCapacity (Some {[ResourceStorage := resCapacity]})) b.

(** WithCapacity *)
Definition WithCapacity (capacity : string) (b : Builder) : Builder :=
  match ParseQuantity capacity with
  | (_, Some e) => add_err (Wrapf e
      "failed to build CStorVolumeConfig object: failed to parse capacity {%s}" [AStr capacity]) b
  | (resCapacity, None) => WithCapacityQty resCapacity b
  end.

(** WithSource *)
Definition WithSource (volumeSource : string) (b : Builder) : Builder :=
  upd (cvc_set_Source volumeSource) b.

(** WithReplicaCount; the cause stands for strconv's *NumError *)
Definition WithReplicaCount (count : string) (b : Builder) : Builder :=
  match Str.Atoi count with
  | None => add_err (Wrapf (Errorf "strconv.Atoi: parsing %q" [AStr count])
      "failed to build cstorvolumeclaim object {%s}" [AStr count]) b
  | Some replicaCount => upd (cvc_set_ReplicaCount replicaCount) b
  end.

(** WithNodeID *)
Definition WithNodeID (nodeID : string) (b : Builder) : Builder :=
  if bool_decide (nodeID = "")
  then add_err (Errorf "failed to build cstorvolumeconfig object: missing nodeID" []) b
  else upd (cvc_set_NodeID nodeID) b.

(** WithNewVersion *)
Definition WithNewVersion (version : string) (b : Builder) : Builder :=
  if bool_decide (version = "")
  then add_err (Errorf "failed to build cstorvolume object: version can't be empty" []) b
  else upd (λ o, cvc_set_VersionDesired version (cvc_set_VersionCurrent version o)) b.

(** WithDependentsUpgraded *)
Definition WithDependentsUpgraded (b : Builder) : Builder := upd (cvc_set_DependentsUpgraded true) b.

(** Build *)
Definition Build (b : Builder) : res CStorVolumeConfig :=
  match errs b with
  | [] => inl (object b)
  | _ :: _ => inr (Errorf "%+v" [AErrs (errs b)])
  end.

(** ** Lists with filters *)

(** Predicate, PredicateList.all; the wrapped objects of a list are never nil *)
Definition Predicate : Type := CStorVolumeConfig → bool.
Definition PredicateList : Type := list Predicate.
Definition CStorVolumeConfigList : Type := list CStorVolumeConfig.
Fixpoint all (l : PredicateList) (c : CStorVolumeConfig) : bool :=
  match l with
  | [] => true
  | check :: l' => if negb (check c) then false else all l' c
  end.

Record ListBuilder := MkListBuilder { items : CStorVolumeConfigList; filters : PredicateList }.

(** NewForAPIObject: the wrapper of an object pointer *)
Definition NewForAPIObject (obj : option CStorVolumeConfig) : option CStorVolumeConfig := obj.

(** NewListBuilder, WithAPIList, WithFilter, List, Len *)
Definition NewListBuilder : ListBuilder := MkListBuilder [] [].
Definition WithAPIList (l : option (list CStorVolumeConfig)) (b : ListBuilder) : ListBuilder :=
  match l with
  | None => b
  | Some l => MkListBuilder (foldl (λ acc c, acc ++ [c]) (items b) l) (filters b)
  end.
Definition WithFilter (pred : list Predicate) (b : ListBuilder) : ListBuilder :=
  MkListBuilder (items b) (filters b ++ pred).
Definition ListOf (b : ListBuilder) : list CStorVolumeConfig :=
  match filters b with
  | [] => items b
  | _ :: _ =>
      foldl (λ acc cv, if all (filters b) cv then acc ++ [cv] else acc) [] (items b)
  end.
Definition Len (l : list CStorVolumeConfig) : nat := length l.

(** ** Kubernetes client of the package *)

(** The typed function fields; [option clientset] is the clientset pointer. *)
Definition getFn : Type := option clientset → string → string → go (option CStorVolumeConfig * err).
Definition listFn : Type := option clientset → string → string → go (option (list CStorVolumeConfig) * err).
Definition delFn : Type := option clientset → string → string → go err.
Definition createFn : Type := option clientset → CStorVolumeConfig → string → go (option CStorVolumeConfig * err).
Definition updateFn : Type := option clientset → CStorVolumeConfig → string → go (option CStorVolumeConfig * err).
Definition patchFn : Type :=
  option clientset → CStorVolumeConfig → CStorVolumeConfig → list string → go (option CStorVolumeConfig * err).

Definition getClientsetFn : Type := go (option clientset * err).
Definition getClientsetForPathFn : Type := string → go (option clientset * err).

Record Kubeclient := MkKubeclient {
  clientset_ : option clientset;
  kubeConfigPath : string;
  namespace : string;
  getClientset : option getClientsetFn;
  getClientsetForPath : option getClientsetForPathFn;
  get_ : option getFn;
  list_ : option listFn;
  del_ : option delFn;
  create_ : option createFn;
  update_ : option updateFn;
  patch_ : option patchFn
}.
Definition emptyKubeclient : Kubeclient :=
  MkKubeclient None "" "" None None None None None None None None.
Definition KubeclientBuildOption : Type := Kubeclient → Kubeclient.

(** WithClientSet, WithNamespace (option and method), WithKubeConfigPath *)
Definition WithClientSet (c : clientset) : KubeclientBuildOption := λ k,
  MkKubeclient (Some c) (kubeConfigPath k) (namespace k) (getClientset k) (getClientsetForPath k) (get_ k) (list_ k) (del_ k) (create_ k) (update_ k) (patch_ k).
Definition WithNamespaceOption (ns : string) : KubeclientBuildOption := λ k,
  MkKubeclient (clientset_ k) (kubeConfigPath k) ns (getClientset k) (getClientsetForPath k) (get_ k) (list_ k) (del_ k) (create_ k) (update_ k) (patch_ k).
Definition WithNamespace (k : Kubeclient) (ns : string) : Kubeclient :=
  MkKubeclient (clientset_ k) (kubeConfigPath k) ns (getClientset k) (getClientsetForPath k) (get_ k) (list_ k) (del_ k) (create_ k) (update_ k) (patch_ k).
Definition WithKubeConfigPath (path : string) : KubeclientBuildOption := λ k,
  MkKubeclient (clientset_ k) path (namespace k) (getClientset k) (getClientsetForPath k) (get_ k) (list_ k) (del_ k) (create_ k) (update_ k) (patch_ k).

(** The default implementations: one typed-client call each; deletions ask
    for foreground propagation. *)
Definition defaultGet : getFn := λ cli name ns, c ← deref cli; sys (CvcGet c ns name).
Definition defaultList : listFn := λ cli ns opts, c ← deref cli; sys (CvcList c ns opts).
Definition defaultDel : delFn := λ cli name ns, c ← deref cli; sys (CvcDelete c ns name true).
Definition defaultCreate : createFn := λ cli o ns, c ← deref cli; sys (CvcCreate c ns o).
Definition defaultUpdate : updateFn := λ cli o ns, c ← deref cli; sys (CvcUpdate c ns o).

(** CVCKey *)
Definition CVCKey (cvc : CStorVolumeConfig) : string :=
  om_Namespace (cvc_Meta cvc) +:+ "/" +:+ om_Name (cvc_Meta cvc).

(** getPatchData: the two-way merge patch, computed by apimachinery *)
Definition getPatchData (oldObj newObj : CStorVolumeConfig) : go (res string) :=
  r ← sys (JsonMarshalCvc oldObj);
  match r with
  | inr e => fail (Errorf "marshal old object failed: %v" [AErr e])
  | inl oldData =>
    r ← sys (JsonMarshalCvc newObj);
    match r with
    | inr e => fail (Errorf "mashal new object failed: %v" [AErr e])
    | inl newData =>
      r ← sys (TwoWayMergePatch oldData newData);
      match r with
      | inr e => fail (Errorf "CreateTwoWayMergePatch failed: %v" [AErr e])
      | inl patchBytes => ok patchBytes
      end
    end
  end.

(** defaultPatch *)
Definition defaultPatch : patchFn := λ cli oldCVC newCVC subresources,
  r ← getPatchData oldCVC newCVC;
  match r with
  | inr e => mret (None, Some (Errorf
      "can't patch CVC %s as generate path data failed: %v" [AStr (CVCKey oldCVC); AErr e]))
  | inl patchBytes =>
      c ← deref cli;
      '(updatedCVC, updateErr) ←
        sys (CvcPatch c (om_Namespace (cvc_Meta oldCVC)) (om_Name (cvc_Meta oldCVC))
              patchBytes subresources);
      match updateErr with
      | Some e => mret (None, Some (Errorf
          "can't patch status of  CVC %s with %v" [AStr (CVCKey oldCVC); AErr e]))
      | None => mret (updatedCVC, None)
      end
  end.

(** withDefaults: fill the nil function fields *)
Definition withDefaults (k : Kubeclient) : Kubeclient :=
  MkKubeclient (clientset_ k)
    (kubeConfigPath k)
    (namespace k)
    (Some (default KClient.defaultGetClientset (getClientset k)))
    (Some (default KClient.defaultGetClientsetForPath (getClientsetForPath k)))
    (Some (default defaultGet (get_ k)))
    (Some (default defaultList (list_ k)))
    (Some (default defaultDel (del_ k)))
    (Some (default defaultCreate (create_ k)))
    (Some (default defaultUpdate (update_ k)))
    (Some (default defaultPatch (patch_ k))).

(** NewKubeclient *)
Definition NewKubeclient (opts : list KubeclientBuildOption) : Kubeclient :=
  withDefaults (foldl (λ k o, o k) emptyKubeclient opts).

(** getClientsetForPathOrDirect *)
Definition getClientsetForPathOrDirect (k : Kubeclient) : go (option clientset * err) :=
  if negb (bool_decide (kubeConfigPath k = ""))
  then f ← KClient.call (getClientsetForPath k); f (kubeConfigPath k)
  else f ← KClient.call (getClientset k); f.

(** Caching of the clientset pointer in the receiver. *)
Definition cache (k : Kubeclient) (c : option clientset) : Kubeclient :=
  MkKubeclient c (kubeConfigPath k) (namespace k) (getClientset k) (getClientsetForPath k) (get_ k) (list_ k) (del_ k) (create_ k) (update_ k) (patch_ k).

(** getClientOrCached: the receiver afterwards and the result *)
Definition getClientOrCached (k : Kubeclient) : go (Kubeclient * (option clientset * err)) :=
  match clientset_ k with
  | Some _ => mret (k, (clientset_ k, None))
  | None =>
      '(c, e) ← getClientsetForPathOrDirect k;
      match e with
      | Some e => mret (k, (None, Some (Wrapf e "failed to get clientset" [])))
      | None => mret (cache k c, (c, None))
      end
  end.

(** Get *)
Definition Get (k : Kubeclient) (name : string) : go (Kubeclient * (option CStorVolumeConfig * err)) :=
  if bool_decide (name = "") then mret (k, (None, Some (Errorf "failed to get cstorvolumeclaim: missing cvc name" [])))
  else '(k, (cli, e)) ← getClientOrCached k;
  match e with
  | Some e => mret (k, (None, Some (Wrapf e "failed to get cstorvolumeclaim {%s} in namespace {%s}" [AStr name; AStr (namespace k)])))
  | None => f ← KClient.call (get_ k); r ← f cli name (namespace k); mret (k, r)
  end.

(** GetRaw *)
Definition GetRaw (k : Kubeclient) (name : string) : go (Kubeclient * res string) :=
  if bool_decide (name = "") then mret (k, inr (Errorf "failed to get raw cstorvolumeclaim: missing cvc name" []))
  else
  '(k, (o, e)) ← Get k name;
  match e with
  | Some e => mret (k, inr (Wrapf e "failed to get cstorvolumeclaim {%s} in namespace {%s}"
      [AStr name; AStr (namespace k)]))
  | None => r ← sys (JsonMarshal (DCvc o)); mret (k, r)
  end.

(** List *)
Definition List (k : Kubeclient) (opts : string) : go (Kubeclient * (option (list CStorVolumeConfig) * err)) :=
  '(k, (cli, e)) ← getClientOrCached k;
  match e with
  | Some e => mret (k, (None, Some (Wrapf e "failed to list cstorvolumeclaims in namespace {%s}" [AStr (namespace k)])))
  | None => f ← KClient.call (list_ k); r ← f cli (namespace k) opts; mret (k, r)
  end.

(** Delete *)
Definition Delete (k : Kubeclient) (name : string) : go (Kubeclient * err) :=
  if bool_decide (name = "") then mret (k, Some (Errorf "failed to delete cstorvolumeclaim: missing cvc name" []))
  else '(k, (cli, e)) ← getClientOrCached k;
  match e with
  | Some e => mret (k, Some (Wrapf e "failed to delete cstorvolumeclaim {%s} in namespace {%s}" [AStr name; AStr (namespace k)]))
  | None => f ← KClient.call (del_ k); r ← f cli name (namespace k); mret (k, r)
  end.

(** Create *)
Definition Create (k : Kubeclient) (o : option CStorVolumeConfig) : go (Kubeclient * (option CStorVolumeConfig * err)) :=
  match o with
  | None => mret (k, (None, Some (Errorf "failed to create cstovolumeclaim: nil cvc object" [])))
  | Some o =>
    '(k, (cli, e)) ← getClientOrCached k;
    match e with
    | Some e => mret (k, (None, Some (Wrapf e "failed to create cvc {%s} in namespace {%s}"
        [AStr (om_Name (cvc_Meta o)); AStr (namespace k)])))
    | None => f ← KClient.call (create_ k); r ← f cli o (namespace k); mret (k, r)
    end
  end.

(** Update *)
Definition Update (k : Kubeclient) (o : option CStorVolumeConfig) : go (Kubeclient * (option CStorVolumeConfig * err)) :=
  match o with
  | None => mret (k, (None, Some (Errorf "failed to update cstorvolumeclaim: nil cvc object" [])))
  | Some o =>
    '(k, (cli, e)) ← getClientOrCached k;
    match e with
    | Some e => mret (k, (None, Some (Wrapf e "failed to update cstorvolumeclaim {%s} in namespace {%s}"
        [AStr (om_Name (cvc_Meta o)); AStr (om_Namespace (cvc_Meta o))])))
    | None => f ← KClient.call (update_ k); r ← f cli o (namespace k); mret (k, r)
    end
  end.

(** Patch *)
Definition Patch (k : Kubeclient) (oldCVC newCVC : option CStorVolumeConfig)
    (subresources : list string) : go (Kubeclient * (option CStorVolumeConfig * err)) :=
  match oldCVC, newCVC with
  | Some oldCVC, Some newCVC =>
    '(k, (cli, e)) ← getClientOrCached k;
    match e with
    | Some e => mret (k, (None, Some (Wrapf e "failed to update cstorvolumeclaim {%s} in namespace {%s}"
        [AStr (om_Name (cvc_Meta newCVC)); AStr (om_Namespace (cvc_Meta newCVC))])))
    | None => f ← KClient.call (patch_ k); r ← f cli oldCVC newCVC subresources; mret (k, r)
    end
  | _, _ => mret (k, (None, Some (Errorf "failed to update cstorvolumeclaim: nil cvc object" [])))
  end.

(** [NewKubeclient().WithNamespace(ns)], as the callers use it *)
Definition client (ns : string) : Kubeclient := WithNamespace (NewKubeclient []) ns.

(** ** What the builder guarantees *)

Definition failed (b : Builder) : bool := match errs b with [] => false | _ :: _ => true end.

Lemma failed_add_err e b : failed (add_err e b) = true.
Proof. unfold failed. simpl. by destruct (errs b). Qed.

Lemma Build_inl b o : Build b = inl o ↔ failed b = false ∧ o = object b.
Proof. unfold Build, failed. destruct (errs b); naive_solver. Qed.

(** The steps the controller uses: when they record an error and what they
    set. *)
Lemma failed_WithName n b : failed (WithName n b) = bool_decide (n = "") || failed b.
Proof. unfold WithName. case_bool_decide; simpl; [apply failed_add_err|done]. Qed.
Lemma failed_BWithNamespace n b : failed (BWithNamespace n b) = bool_decide (n = "") || failed b.
Proof. unfold BWithNamespace. case_bool_decide; simpl; [apply failed_add_err|done]. Qed.
Lemma failed_WithAnnotations m b : failed (WithAnnotations m b) = bool_decide (m = ∅) || failed b.
Proof.
  unfold WithAnnotations, WithAnnotationsNew.
  case_bool_decide; simpl; [apply failed_add_err|by case_match].
Qed.
Lemma failed_WithLabelsNew m b : failed (WithLabelsNew m b) = bool_decide (m = ∅) || failed b.
Proof. unfold WithLabelsNew. case_bool_decide; simpl; [apply failed_add_err|done]. Qed.
Lemma failed_WithNodeID n b : failed (WithNodeID n b) = bool_decide (n = "") || failed b.
Proof. unfold WithNodeID. case_bool_decide; simpl; [apply failed_add_err|done]. Qed.
Lemma failed_WithStatusPhase n b : failed (WithStatusPhase n b) = bool_decide (n = "") || failed b.
Proof. unfold WithStatusPhase. case_bool_decide; simpl; [apply failed_add_err|done]. Qed.
Lemma failed_WithReplicaCount c b :
  failed (WithReplicaCount c b) = bool_decide (Str.Atoi c = None) || failed b.
Proof. unfold WithReplicaCount. destruct (Str.Atoi c); simpl; [done|apply failed_add_err]. Qed.

(** The calls a chain on a builder is made of. *)
Inductive setting :=
  | SName (name : string) | SGenerateName (name : string) | SNamespace (ns : string)
  | SStatusPhase (phase : string)
  | SStatusConditions (conditions : list string) | SStatusConditionsNew (conditions : list string)
  | SAnnotations (m : gmap string string) | SAnnotationsNew (m : gmap string string)
  | SLabels (m : gmap string string) | SLabelsNew (m : gmap string string)
  | SFinalizers (l : list string) | SFinalizersNew (l : list string)
  | SCapacity (capacity : string) | SCapacityQty (q : quantity) | SProvisionCapacityQty (q : quantity)
  | SSource (source : string) | SReplicaCount (count : string) | SNodeID (nodeID : string)
  | SNewVersion (version : string) | SDependentsUpgraded.

Definition set_ (c : setting) : Builder → Builder :=
  match c with
  | SName n => WithName n | SGenerateName n => WithGenerateName n | SNamespace n => BWithNamespace n
  | SStatusPhase p => WithStatusPhase p
  | SStatusConditions l => WithStatusConditions l | SStatusConditionsNew l => WithStatusConditionsNew l
  | SAnnotations m => WithAnnotations m | SAnnotationsNew m => WithAnnotationsNew m
  | SLabels m => WithLabels m | SLabelsNew m => WithLabelsNew m
  | SFinalizers l => WithFinalizers l | SFinalizersNew l => WithFinalizersNew l
  | SCapacity q => WithCapacity q | SCapacityQty q => WithCapacityQty q
  | SProvisionCapacityQty q => WithProvisionCapacityQty q
  | SSource x => WithSource x | SReplicaCount x => WithReplicaCount x | SNodeID x => WithNodeID x
  | SNewVersion x => WithNewVersion x | SDependentsUpgraded => WithDependentsUpgraded
  end.
Definition chain (calls : list setting) (b : Builder) : Builder := foldl (λ b c, set_ c b) b calls.

(** What a call accepts: names, phases, identifiers and versions that are not
    empty, maps and lists with something in them, a quantity that parses, a
    decimal count. *)
Definition acceptable (c : setting) : Prop :=
  match c with
  | SName x | SGenerateName x | SNamespace x | SStatusPhase x | SNodeID x | SNewVersion x => x ≠ ""
  | SStatusConditions l | SStatusConditionsNew l | SFinalizers l | SFinalizersNew l => l ≠ []
  | SAnnotations m | SAnnotationsNew m | SLabels m | SLabelsNew m => m ≠ ∅
  | SCapacity q => (ParseQuantity q).2 = None
  | SReplicaCount n => is_Some (Str.Atoi n)
  | SCapacityQty _ | SProvisionCapacityQty _ | SSource _ | SDependentsUpgraded => True
  end.

(** What it then makes of the object: a field is set; conditions, annotations,
    labels and finalizers are added to those there, the given value of a key
    winning, or with "New" replaced. *)
Definition effect (c : setting) (o : CStorVolumeConfig) : CStorVolumeConfig :=
  let m := cvc_Meta o in
  match c with
  | SName x => cvc_set_Meta (om_set_Name x m) o
  | SGenerateName x => cvc_set_Meta (om_set_GenerateName x m) o
  | SNamespace x => cvc_set_Meta (om_set_Namespace x m) o
  | SStatusPhase x => cvc_set_Phase x o
  | SStatusConditions l => cvc_set_Conditions (cvc_Conditions o ++ l) o
  | SStatusConditionsNew l => cvc_set_Conditions l o
  | SAnnotations a => cvc_set_Meta (om_set_Annotations (Some (a ∪ default ∅ (om_Annotations m))) m) o
  | SAnnotationsNew a => cvc_set_Meta (om_set_Annotations (Some a) m) o
  | SLabels a => cvc_set_Meta (om_set_Labels (Some (a ∪ default ∅ (om_Labels m))) m) o
  | SLabelsNew a => cvc_set_Meta (om_set_Labels (Some a) m) o
  | SFinalizers l => cvc_set_Meta (om_set_Finalizers (Some (default [] (om_Finalizers m) ++ l)) m) o
  | SFinalizersNew l => cvc_set_Meta (om_set_Finalizers (Some l) m) o
  | SCapacity x => cvc_set_Capacity (Some {[ResourceStorage := (ParseQuantity x).1]}) o
  | SCapacityQty q => cvc_set_Capacity (Some {[ResourceStorage := q]}) o
  | SProvisionCapacityQty q => cvc_set_ProvisionCapacity (Some {[ResourceStorage := q]}) o
  | SSource x => cvc_set_Source x o
  | SReplicaCount x => cvc_set_ReplicaCount (default 0%Z (Str.Atoi x)) o
  | SNodeID x => cvc_set_NodeID x o
  | SNewVersion x => cvc_set_VersionDesired x (cvc_set_VersionCurrent x o)
  | SDependentsUpgraded => cvc_set_DependentsUpgraded true o
  end.

(** One call: it has its effect, or it records an error and nothing else. *)
Lemma set_spec c b :
  (acceptable c ∧ set_ c b = MkBuilder (effect c (object b)) (errs b)) ∨
  (¬ acceptable c ∧ ∃ e, set_ c b = add_err e b).
Proof.
  destruct c; simpl;
    unfold WithName, WithGenerateName, BWithNamespace, WithStatusPhase, WithCapacity, WithSource,
      WithReplicaCount, WithNodeID, WithNewVersion, WithAnnotations, WithAnnotationsNew, WithLabels,
      WithLabelsNew, WithFinalizers, WithFinalizersNew, WithStatusConditions,
      WithStatusConditionsNew, WithCapacityQty, WithProvisionCapacityQty, WithDependentsUpgraded,
      updMeta, upd;
    try (case_bool_decide as Hbad; [by right; split; [intros []|eexists]|]); try (by left).
  1, 3: left; split; [done|]; rewrite <- range_assign_union; by case_match.
  1, 2: left; split; [done|]; by rewrite range_assign_empty.
  - left; split; [done|]. by case_match.
  - destruct (ParseQuantity capacity) as [q [e|]]; [right; split; [done|by eexists]|by left].
  - destruct (Str.Atoi count) as [n|]; [left; by split; [eexists|]|].
    right; split; [by intros [? ?]|by eexists].
Qed.

(** An error stays. *)
Lemma chain_failed calls b : failed b = true → failed (chain calls b) = true.
Proof.
  revert b. induction calls as [|c calls IH]; intros b Hb; [done|]. apply IH.
  destruct (set_spec c b) as [[_ ->]|[_ [e ->]]]; [exact Hb|apply failed_add_err].
Qed.

Lemma chain_spec calls b :
  (Forall acceptable calls ∧
     chain calls b = MkBuilder (foldl (λ o c, effect c o) (object b) calls) (errs b)) ∨
  (¬ Forall acceptable calls ∧ failed (chain calls b) = true).
Proof.
  revert b. induction calls as [|c calls IH]; intros b; [left; by destruct b|].
  change (chain (c :: calls) b) with (chain calls (set_ c b)). rewrite Forall_cons. cbn [foldl].
  destruct (set_spec c b) as [[Hc ->]|[Hc [e ->]]].
  - destruct (IH (MkBuilder (effect c (object b)) (errs b))) as [[? ->]|[? ?]]; [by left|].
    right. split; [by intros [_ ?]|done].
  - right. split; [by intros [? _]|]. apply chain_failed, failed_add_err.
Qed.

(** C32: a chain of calls on a CStorVolumeConfig builder, started from an object or
    (NewBuilder) from the empty one, builds an object if and only if there was an
    object to start from and every call was given what it accepts; the object is
    then the first one with the effects of the calls in their order, and so no
    error of a call is lost and no setting either. *)
Theorem builder_no_error_lost start calls o :
  NewBuilder = BuildFrom (Some cvc_zero) ∧
  (Build (chain calls (BuildFrom start)) = inl o ↔
   ∃ o0, start = Some o0 ∧ Forall acceptable calls ∧ o = foldl (λ o c, effect c o) o0 calls).
Proof.
  split; [done|]. rewrite Build_inl. destruct start as [o0|]; cbn [BuildFrom].
  - destruct (chain_spec calls (MkBuilder o0 [])) as [[Hok ->]|[Hno ->]]; [|naive_solver].
    split; [intros [_ ->]; by exists o0|]. by intros (? & [= <-] & _ & ->).
  - rewrite chain_failed by done. naive_solver.
Qed.

(** ** Rules for the client's operations

    An operation reads the configuration and performs one typed-client call,
    or fails before it. *)

Section rules.
Context (h : Host) {S : Type} (spec : ∀ a, S → (result a → S → Prop) → Prop).
Context `{!MonoSpec spec, !ConfigFree h spec}.

Lemma wp_cvcgetClientOrCached ns s (Q : outcome (Kubeclient * (option clientset * err)) → S → Prop) :
  (∀ c, Q (ORet (cache (client ns) (Some c), (Some c, None))) s) →
  (∀ e, broken h e → Q (ORet (client ns, (None, Some e))) s) →
  wp spec (getClientOrCached (client ns)) s Q.
Proof using All.
  intros H1 H2. unfold getClientOrCached.
  rewrite (eq_refl : clientset_ (client ns) = None).
  change (getClientsetForPathOrDirect (client ns)) with KClient.defaultGetClientset.
  wp_bind. apply (wp_defaultGetClientset h spec). split.
  - intros c. apply H1.
  - intros o e Hb. apply H2. first [done | by apply broken_wrap].
Qed.

Lemma wp_cvcGet ns name s Q :
  (name = "" → ∀ k e, Q (ORet (k, (None, Some e))) s) →
  (∀ k e, broken h e → Q (ORet (k, (None, Some e))) s) →
  (name ≠ "" → ∀ c, spec (CvcGet c ns name) s (λ r s', ∀ k, Q (ORet (k, r)) s')) →
  wp spec (Get (client ns) name) s Q.
Proof using All.
  intros H0 H1 H2. unfold Get. case_bool_decide as Hn; [by apply H0|].
  wp_bind. apply wp_cvcgetClientOrCached; simpl; [|by eauto using broken_wrap].
  intros c. eapply (spec_weaken spec); [by apply H2|]. eauto.
Qed.

Lemma wp_cvcList ns opts s Q :
  (∀ k e, broken h e → Q (ORet (k, (None, Some e))) s) →
  (∀ c, spec (CvcList c ns opts) s (λ r s', ∀ k, Q (ORet (k, r)) s')) →
  wp spec (List (client ns) opts) s Q.
Proof using All.
  intros H1 H2. unfold List.
  wp_bind. apply wp_cvcgetClientOrCached; simpl; [|by eauto using broken_wrap].
  intros c. eapply (spec_weaken spec); [by apply H2|]. eauto.
Qed.

Lemma wp_cvcDelete ns name s Q :
  (name = "" → ∀ k e, Q (ORet (k, Some e)) s) →
  (∀ k e, broken h e → Q (ORet (k, Some e)) s) →
  (name ≠ "" → ∀ c, spec (CvcDelete c ns name true) s (λ r s', ∀ k, Q (ORet (k, r)) s')) →
  wp spec (Delete (client ns) name) s Q.
Proof using All.
  intros H0 H1 H2. unfold Delete. case_bool_decide as Hn; [by apply H0|].
  wp_bind. apply wp_cvcgetClientOrCached; simpl; [|by eauto using broken_wrap].
  intros c. eapply (spec_weaken spec); [by apply H2|]. eauto.
Qed.

Lemma wp_cvcCreate ns (o : CStorVolumeConfig) s Q :
  (∀ k e, broken h e → Q (ORet (k, (None, Some e))) s) →
  (∀ c, spec (CvcCreate c ns o) s (λ r s', ∀ k, Q (ORet (k, r)) s')) →
  wp spec (Create (client ns) (Some o)) s Q.
Proof using All.
  intros H1 H2. unfold Create.
  wp_bind. apply wp_cvcgetClientOrCached; simpl; [|by eauto using broken_wrap].
  intros c. eapply (spec_weaken spec); [by apply H2|]. eauto.
Qed.

Lemma wp_cvcUpdate ns (o : CStorVolumeConfig) s Q :
  (∀ k e, broken h e → Q (ORet (k, (None, Some e))) s) →
  (∀ c, spec (CvcUpdate c ns o) s (λ r s', ∀ k, Q (ORet (k, r)) s')) →
  wp spec (Update (client ns) (Some o)) s Q.
Proof using All.
  intros H1 H2. unfold Update.
  wp_bind. apply wp_cvcgetClientOrCached; simpl; [|by eauto using broken_wrap].
  intros c. eapply (spec_weaken spec); [by apply H2|]. eauto.
Qed.

End rules.

#[local] Arguments defaultGet /.
#[local] Arguments defaultList /.
#[local] Arguments defaultDel /.
#[local] Arguments defaultCreate /.
#[local] Arguments defaultUpdate /.

Lemma only_cvcGet ns name : only (kinds [KConfig; KRead]) (Get (client ns) name).
Proof. unfold Get. solve_client. Qed.

Lemma only_cvcList ns opts : only (kinds [KConfig; KRead]) (List (client ns) opts).
Proof. unfold List. solve_client. Qed.

Lemma only_cvcDelete ns name : only (kinds [KConfig; KWrite]) (Delete (client ns) name).
Proof. unfold Delete. solve_client. Qed.

Lemma only_cvcCreate ns (o : CStorVolumeConfig) : only (kinds [KConfig; KWrite]) (Create (client ns) (Some o)).
Proof. unfold Create. solve_client. Qed.

Lemma only_cvcUpdate ns (o : CStorVolumeConfig) : only (kinds [KConfig; KWrite]) (Update (client ns) (Some o)).
Proof. unfold Update. solve_client. Qed.

#[local] Arguments defaultPatch /.
Lemma only_cvcPatch ns oldCVC newCVC sub :
  only (kinds [KConfig; KPatch; KWrite]) (Patch (client ns) oldCVC newCVC sub).
Proof. unfold Patch. solve_client. Qed.

End cvc.

End Cvc.
#[export] Hint Extern 0 (only _ (Cvc.Patch (Cvc.client _) _ _ _)) => only_by Cvc.only_cvcPatch : only.
#[export] Hint Extern 0 (only _ (Cvc.Get (Cvc.client _) _)) => only_by Cvc.only_cvcGet : only.
#[export] Hint Extern 0 (only _ (Cvc.List (Cvc.client _) _)) => only_by Cvc.only_cvcList : only.
#[export] Hint Extern 0 (only _ (Cvc.Delete (Cvc.client _) _)) => only_by Cvc.only_cvcDelete : only.
#[export] Hint Extern 0 (only _ (Cvc.Create (Cvc.client _) _)) => only_by Cvc.only_cvcCreate : only.
#[export] Hint Extern 0 (only _ (Cvc.Update (Cvc.client _) _)) => only_by Cvc.only_cvcUpdate : only.
