(* ===== verification/VolumeAttachment.v ===== *)
(** * CStorVolumeAttachment: src/pkg/cstor/volumeattachment

    The builder (build.go), the predicates and the filtering list builder
    (volume.go, buildlist.go) and the Kubernetes client (kubernetes.go) of
    the resource by which the node service records that a volume is staged
    on a node.  [BuildFrom] edits the object it is given in place: after
    it, the caller's object is the builder's object. *)

From S2P Require Export Logic.
Local Open Scope go_scope.

Module Cva.
Section cva.
Context {L : ApiLib}.

(** ** Builder *)

Record Builder := MkBuilder { volume : CStorVolumeAttachment; errs : list error }.

(** NewBuilder, BuildFrom *)
Definition NewBuilder : Builder := MkBuilder cva_zero [].
Definition BuildFrom (volume : option CStorVolumeAttachment) : Builder :=
  match volume with
  | None => MkBuilder cva_zero [Errorf "failed to build volume object: nil volume" []]
  | Some volume => MkBuilder volume []
  end.

Definition add_err (e : error) (b : Builder) : Builder := MkBuilder (volume b) (errs b ++ [e]).
Definition upd (f : CStorVolumeAttachment → CStorVolumeAttachment) (b : Builder) : Builder :=
  MkBuilder (f (volume b)) (errs b).
Definition updMeta (f : ObjectMeta → ObjectMeta) : Builder → Builder :=
  upd (λ o, cva_set_Meta (f (cva_Meta o)) o).

Definition missing (what : string) : error :=
  Errorf ("failed to build csi volume object: " +:+ what) [].

(** The shape shared by the setters of mandatory text fields: an empty value
    is an error and leaves the object alone. *)
Definition setText (what : string) (set : string → CStorVolumeAttachment → CStorVolumeAttachment)
    (v : string) (b : Builder) : Builder :=
  if bool_decide (v = "") then add_err (missing what) b else upd (set v) b.

(** WithNamespace, WithName *)
Definition BWithNamespace : string → Builder → Builder :=
  setText "missing namespace" (λ v o, cva_set_Meta (om_set_Namespace v (cva_Meta o)) o).
Definition WithName : string → Builder → Builder :=
  setText "missing name" (λ v o, cva_set_Meta (om_set_Name v (cva_Meta o)) o).

(** WithVolName, WithAccessType, WithCapacity *)
Definition WithVolName : string → Builder → Builder := setText "missing volume name" cva_set_VolName.
Definition WithAccessType : string → Builder → Builder := setText "missing accessType" cva_set_AccessType.
Definition WithCapacity : string → Builder → Builder := setText "missing capacity" cva_set_Capacity.

(** WithFSType: mandatory for mount access only *)
Definition WithFSType (fstype : string) (b : Builder) : Builder :=
  if bool_decide (fstype = "") && bool_decide (cva_AccessType (volume b) = "mount")
  then add_err (missing "missing fstype") b
  else upd (cva_set_FSType fstype) b.

(** WithStagingTargetPath *)
Definition WithStagingTargetPath : string → Builder → Builder :=
  setText "missing mountPath" cva_set_StagingTargetPath.

(** WithMountOptionsNew, WithMountOptions: optional, no error when empty *)
Definition WithMountOptionsNew (mountOptions : list string) (b : Builder) : Builder :=
  if bool_decide (mountOptions = []) then b
  else upd (cva_set_MountOptions (Some mountOptions)) b.
Definition WithMountOptions (mountOptions : list string) (b : Builder) : Builder :=
  if bool_decide (mountOptions = []) then b
  else match cva_MountOptions (volume b) with
       | None => WithMountOptionsNew mountOptions b
       | Some old => upd (cva_set_MountOptions (Some (old ++ mountOptions))) b
       end.

(** WithDevicePath, WithOwnerNodeID, WithIQN, WithTargetPortal,
    WithIscsiInterface, WithLun, WithReadOnly *)
Definition WithDevicePath : string → Builder → Builder := setText "missing devicePath" cva_set_DevicePath.
Definition WithOwnerNodeID : string → Builder → Builder := setText "missing ownerNodeID" cva_set_OwnerNodeID.
Definition WithIQN : string → Builder → Builder := setText "missing IQN" cva_set_Iqn.
Definition WithTargetPortal : string → Builder → Builder := setText "missing targetPortal" cva_set_TargetPortal.
Definition WithIscsiInterface : string → Builder → Builder :=
  setText "missing iscsiInterface" cva_set_IscsiInterface.
Definition WithLun : string → Builder → Builder := setText "missing lun" cva_set_Lun.
Definition WithReadOnly (readOnly : bool) : Builder → Builder := upd (cva_set_ReadOnly readOnly).

(** WithLabelsNew *)
Definition WithLabelsNew (labels : gmap string string) (b : Builder) : Builder :=
  if bool_decide (labels = ∅) then add_err (missing "no new labels") b
  else updMeta (om_set_Labels (Some (range_assign labels ∅))) b.

(** WithLabels *)
Definition WithLabels (labels : gmap string string) (b : Builder) : Builder :=
  if bool_decide (labels = ∅) then add_err (missing "missing labels") b
  else match om_Labels (cva_Meta (volume b)) with
       | None => WithLabelsNew labels b
       | Some old => updMeta (om_set_Labels (Some (range_assign labels old))) b
       end.

(** Build *)
Definition Build (b : Builder) : res CStorVolumeAttachment :=
  match errs b with
  | [] => inl (volume b)
  | _ :: _ => inr (Errorf "%+v" [AErrs (errs b)])
  end.

(** ** Predicates and filtered lists *)

(** A wrapper holds an API object pointer, which may be nil. *)
Definition Predicate : Type := option CStorVolumeAttachment → bool.
Definition predicateList : Type := list Predicate.
Definition CStorVolumeAttachmentList : Type := list CStorVolumeAttachment.

(** From, GetAPIObject, and IsNil, the method and the predicate *)
Definition From (vol : option CStorVolumeAttachment) : option CStorVolumeAttachment := vol.
Definition GetAPIObject (p : option CStorVolumeAttachment) : option CStorVolumeAttachment := p.
Definition isNil (p : option CStorVolumeAttachment) : bool :=
  match p with None => true | Some _ => false end.
Definition IsNil : Predicate := λ p, isNil p.

(** The labels of the object *)
Definition labels_of (p : option CStorVolumeAttachment) : gmap string string :=
  match p with Some o => default ∅ (om_Labels (cva_Meta o)) | None => ∅ end.

(** HasLabel, the method and the predicate, and HasLabels *)
Definition hasLabel (p : option CStorVolumeAttachment) (key value : string) : bool :=
  match labels_of p !! key with
  | Some val => bool_decide (val = value)
  | None => false
  end.
Definition HasLabel (key value : string) : Predicate := λ p, hasLabel p key value.
Definition HasLabels (keyValuePair : gmap string string) : Predicate := λ p,
  map_fold (λ key value acc, acc && hasLabel p key value) true keyValuePair.

(** predicateList.all *)
Fixpoint all (l : predicateList) (p : option CStorVolumeAttachment) : bool :=
  match l with
  | [] => true
  | pred :: l' => if negb (pred p) then false else all l' p
  end.

Record ListBuilder := MkListBuilder { items : CStorVolumeAttachmentList; filters : predicateList }.

(** NewListBuilder, ListBuilderFrom, WithFilter, List, Len *)
Definition NewListBuilder : ListBuilder := MkListBuilder [] [].
Definition ListBuilderFrom (vols : list CStorVolumeAttachment) : ListBuilder :=
  match vols with
  | [] => NewListBuilder
  | _ :: _ => MkListBuilder ([] ++ vols) []
  end.
Definition WithFilter (pred : list Predicate) (b : ListBuilder) : ListBuilder :=
  MkListBuilder (items b) (filters b ++ pred).
Definition ListOf (b : ListBuilder) : list CStorVolumeAttachment :=
  match filters b with
  | [] => items b
  | _ :: _ =>
      foldl (λ acc vol, if all (filters b) (From (Some vol)) then acc ++ [vol] else acc) [] (items b)
  end.
Definition Len (l : list CStorVolumeAttachment) : nat := length l.

(** ** Kubernetes client of the package *)

(** The typed function fields; [option clientset] is the clientset pointer. *)
Definition getFn : Type := option clientset → string → string → go (option CStorVolumeAttachment * err).
Definition listFn : Type := option clientset → string → string → go (option (list CStorVolumeAttachment) * err).
Definition delFn : Type := option clientset → string → string → go err.
Definition createFn : Type := option clientset → CStorVolumeAttachment → string → go (option CStorVolumeAttachment * err).
Definition updateFn : Type := option clientset → CStorVolumeAttachment → string → go (option CStorVolumeAttachment * err).

Definition getClientsetFn : Type := go (option clientset * err).
Definition getClientsetForPathFn : Type := string → go (option clientset * err).

Record Kubeclient := MkKubeclient {
  clientset_ : option clientset;
  kubeConfigPath : string;
  namespace : string;
  getClientset : option getClientsetFn;
  getClientsetForPath : option getClientsetForPathFn;
  get_ : option getFn;
  list_ : option listFn;
  del_ : option delFn;
  create_ : option createFn;
  update_ : option updateFn
}.
Definition emptyKubeclient : Kubeclient :=
  MkKubeclient None "" "" None None None None None None None.
Definition KubeclientBuildOption : Type := Kubeclient → Kubeclient.

(** WithClientSet, WithNamespace (option and method), WithKubeConfigPath *)
Definition WithClientSet (c : clientset) : KubeclientBuildOption := λ k,
  MkKubeclient (Some c) (kubeConfigPath k) (namespace k) (getClientset k) (getClientsetForPath k) (get_ k) (list_ k) (del_ k) (create_ k) (update_ k).
Definition WithNamespaceOption (ns : string) : KubeclientBuildOption := λ k,
  MkKubeclient (clientset_ k) (kubeConfigPath k) ns (getClientset k) (getClientsetForPath k) (get_ k) (list_ k) (del_ k) (create_ k) (update_ k).
Definition WithNamespace (k : Kubeclient) (ns : string) : Kubeclient :=
  MkKubeclient (clientset_ k) (kubeConfigPath k) ns (getClientset k) (getClientsetForPath k) (get_ k) (list_ k) (del_ k) (create_ k) (update_ k).
Definition WithKubeConfigPath (path : string) : KubeclientBuildOption := λ k,
  MkKubeclient (clientset_ k) path (namespace k) (getClientset k) (getClientsetForPath k) (get_ k) (list_ k) (del_ k) (create_ k) (update_ k).

(** The default ways to a clientset, the same in every package under pkg/cstor *)
Definition defaultGetClientset : getClientsetFn := KClient.defaultGetClientset.
Definition defaultGetClientsetForPath : getClientsetForPathFn := KClient.defaultGetClientsetForPath.

(** The default implementations: one typed-client call each; deletions ask
    for foreground propagation. *)
Definition defaultGet : getFn := λ cli name ns, c ← deref cli; sys (CvaGet c ns name).
Definition defaultList : listFn := λ cli ns opts, c ← deref cli; sys (CvaList c ns opts).
Definition defaultDel : delFn := λ cli name ns, c ← deref cli; sys (CvaDelete c ns name true).
Definition defaultCreate : createFn := λ cli o ns, c ← deref cli; sys (CvaCreate c ns o).
Definition defaultUpdate : updateFn := λ cli o ns, c ← deref cli; sys (CvaUpdate c ns o).

(** withDefaults: fill the nil function fields *)
Definition withDefaults (k : Kubeclient) : Kubeclient :=
  MkKubeclient (clientset_ k)
    (kubeConfigPath k)
    (namespace k)
    (Some (default defaultGetClientset (getClientset k)))
    (Some (default defaultGetClientsetForPath (getClientsetForPath k)))
    (Some (default defaultGet (get_ k)))
    (Some (default defaultList (list_ k)))
    (Some (default defaultDel (del_ k)))
    (Some (default defaultCreate (create_ k)))
    (Some (default defaultUpdate (update_ k))).

(** NewKubeclient *)
Definition NewKubeclient (opts : list KubeclientBuildOption) : Kubeclient :=
  withDefaults (foldl (λ k o, o k) emptyKubeclient opts).

(** getClientsetForPathOrDirect *)
Definition getClientsetForPathOrDirect (k : Kubeclient) : go (option clientset * err) :=
  if negb (bool_decide (kubeConfigPath k = ""))
  then f ← KClient.call (getClientsetForPath k); f (kubeConfigPath k)
  else f ← KClient.call (getClientset k); f.

(** Caching of the clientset pointer in the receiver. *)
Definition cache (k : Kubeclient) (c : option clientset) : Kubeclient :=
  MkKubeclient c (kubeConfigPath k) (namespace k) (getClientset k) (getClientsetForPath k) (get_ k) (list_ k) (del_ k) (create_ k) (update_ k).

(** getClientOrCached: the receiver afterwards and the result *)
Definition getClientOrCached (k : Kubeclient) : go (Kubeclient * (option clientset * err)) :=
  match clientset_ k with
  | Some _ => mret (k, (clientset_ k, None))
  | None =>
      '(c, e) ← getClientsetForPathOrDirect k;
      match e with
      | Some e => mret (k, (None, Some (Wrapf e "failed to get clientset" [])))
      | None => mret (cache k c, (c, None))
      end
  end.

(** Get *)
Definition Get (k : Kubeclient) (name : string) : go (Kubeclient * (option CStorVolumeAttachment * err)) :=
  if bool_decide (name = "") then mret (k, (None, Some (Errorf "failed to get csi volume: missing csi volume name" [])))
  else '(k, (cli, e)) ← getClientOrCached k;
  match e with
  | Some e => mret (k, (None, Some (Wrapf e "failed to get csi volume {%s} in namespace {%s}" [AStr name; AStr (namespace k)])))
  | None => f ← KClient.call (get_ k); r ← f cli name (namespace k); mret (k, r)
  end.

(** GetRaw *)
Definition GetRaw (k : Kubeclient) (name : string) : go (Kubeclient * res string) :=
  if bool_decide (name = "") then mret (k, inr (Errorf "failed to get raw csi volume: missing vol name" []))
  else
  '(k, (o, e)) ← Get k name;
  match e with
  | Some e => mret (k, inr (Wrapf e "failed to get csi volume {%s} in namespace {%s}"
      [AStr name; AStr (namespace k)]))
  | None => r ← sys (JsonMarshal (DCva o)); mret (k, r)
  end.

(** List *)
Definition List (k : Kubeclient) (opts : string) : go (Kubeclient * (option (list CStorVolumeAttachment) * err)) :=
  '(k, (cli, e)) ← getClientOrCached k;
  match e with
  | Some e => mret (k, (None, Some (Wrapf e "failed to list csi volumes in namespace {%s}" [AStr (namespace k)])))
  | None => f ← KClient.call (list_ k); r ← f cli (namespace k) opts; mret (k, r)
  end.

(** Delete *)
Definition Delete (k : Kubeclient) (name : string) : go (Kubeclient * err) :=
  if bool_decide (name = "") then mret (k, Some (Errorf "failed to delete csivolume: missing vol name" []))
  else '(k, (cli, e)) ← getClientOrCached k;
  match e with
  | Some e => mret (k, Some (Wrapf e "failed to delete csivolume {%s} in namespace {%s}" [AStr name; AStr (namespace k)]))
  | None => f ← KClient.call (del_ k); r ← f cli name (namespace k); mret (k, r)
  end.

(** Create *)
Definition Create (k : Kubeclient) (o : option CStorVolumeAttachment) : go (Kubeclient * (option CStorVolumeAttachment * err)) :=
  match o with
  | None => mret (k, (None, Some (Errorf "failed to create csivolume: nil vol object" [])))
  | Some o =>
    '(k, (cli, e)) ← getClientOrCached k;
    match e with
    | Some e => mret (k, (None, Some (Wrapf e "failed to create csi volume {%s} in namespace {%s}"
        [AStr (om_Name (cva_Meta o)); AStr (namespace k)])))
    | None => f ← KClient.call (create_ k); r ← f cli o (namespace k); mret (k, r)
    end
  end.

(** Update *)
Definition Update (k : Kubeclient) (o : option CStorVolumeAttachment) : go (Kubeclient * (option CStorVolumeAttachment * err)) :=
  match o with
  | None => mret (k, (None, Some (Errorf "failed to update csivolume: nil vol object" [])))
  | Some o =>
    '(k, (cli, e)) ← getClientOrCached k;
    match e with
    | Some e => mret (k, (None, Some (Wrapf e "failed to update csivolume {%s} in namespace {%s}"
        [AStr (om_Name (cva_Meta o)); AStr (om_Namespace (cva_Meta o))])))
    | None => f ← KClient.call (update_ k); r ← f cli o (namespace k); mret (k, r)
    end
  end.

(** [NewKubeclient().WithNamespace(ns)], as the callers use it *)
Definition client (ns : string) : Kubeclient := WithNamespace (NewKubeclient []) ns.

(** ** Rules for the client's operations

    An operation reads the configuration and performs one typed-client call,
    or fails before it. *)

Section rules.
Context (h : Host) {S : Type} (spec : ∀ a, S → (result a → S → Prop) → Prop).
Context `{!MonoSpec spec, !ConfigFree h spec}.

Lemma wp_cvagetClientOrCached ns s (Q : outcome (Kubeclient * (option clientset * err)) → S → Prop) :
  (∀ c, Q (ORet (cache (client ns) (Some c), (Some c, None))) s) →
  (∀ e, broken h e → Q (ORet (client ns, (None, Some e))) s) →
  wp spec (getClientOrCached (client ns)) s Q.
Proof using All.
  intros H1 H2. unfold getClientOrCached.
  rewrite (eq_refl : clientset_ (client ns) = None).
  change (getClientsetForPathOrDirect (client ns)) with KClient.defaultGetClientset.
  wp_bind. apply (wp_defaultGetClientset h spec). split.
  - intros c. apply H1.
  - intros o e Hb. apply H2. first [done | by apply broken_wrap].
Qed.

Lemma wp_cvaGet ns name s Q :
  (name = "" → ∀ k e, Q (ORet (k, (None, Some e))) s) →
  (∀ k e, broken h e → Q (ORet (k, (None, Some e))) s) →
  (name ≠ "" → ∀ c, spec (CvaGet c ns name) s (λ r s', ∀ k, Q (ORet (k, r)) s')) →
  wp spec (Get (client ns) name) s Q.
Proof using All.
  intros H0 H1 H2. unfold Get. case_bool_decide as Hn; [by apply H0|].
  wp_bind. apply wp_cvagetClientOrCached; simpl; [|by eauto using broken_wrap].
  intros c. eapply (spec_weaken spec); [by apply H2|]. eauto.
Qed.

Lemma wp_cvaList ns opts s Q :
  (∀ k e, broken h e → Q (ORet (k, (None, Some e))) s) →
  (∀ c, spec (CvaList c ns opts) s (λ r s', ∀ k, Q (ORet (k, r)) s')) →
  wp spec (List (client ns) opts) s Q.
Proof using All.
  intros H1 H2. unfold List.
  wp_bind. apply wp_cvagetClientOrCached; simpl; [|by eauto using broken_wrap].
  intros c. eapply (spec_weaken spec); [by apply H2|]. eauto.
Qed.

Lemma wp_cvaDelete ns name s Q :
  (name = "" → ∀ k e, Q (ORet (k, Some e)) s) →
  (∀ k e, broken h e → Q (ORet (k, Some e)) s) →
  (name ≠ "" → ∀ c, spec (CvaDelete c ns name true) s (λ r s', ∀ k, Q (ORet (k, r)) s')) →
  wp spec (Delete (client ns) name) s Q.
Proof using All.
  intros H0 H1 H2. unfold Delete. case_bool_decide as Hn; [by apply H0|].
  wp_bind. apply wp_cvagetClientOrCached; simpl; [|by eauto using broken_wrap].
  intros c. eapply (spec_weaken spec); [by apply H2|]. eauto.
Qed.

Lemma wp_cvaCreate ns (o : CStorVolumeAttachment) s Q :
  (∀ k e, broken h e → Q (ORet (k, (None, Some e))) s) →
  (∀ c, spec (CvaCreate c ns o) s (λ r s', ∀ k, Q (ORet (k, r)) s')) →
  wp spec (Create (client ns) (Some o)) s Q.
Proof using All.
  intros H1 H2. unfold Create.
  wp_bind. apply wp_cvagetClientOrCached; simpl; [|by eauto using broken_wrap].
  intros c. eapply (spec_weaken spec); [by apply H2|]. eauto.
Qed.

Lemma wp_cvaUpdate ns (o : CStorVolumeAttachment) s Q :
  (∀ k e, broken h e → Q (ORet (k, (None, Some e))) s) →
  (∀ c, spec (CvaUpdate c ns o) s (λ r s', ∀ k, Q (ORet (k, r)) s')) →
  wp spec (Update (client ns) (Some o)) s Q.
Proof using All.
  intros H1 H2. unfold Update.
  wp_bind. apply wp_cvagetClientOrCached; simpl; [|by eauto using broken_wrap].
  intros c. eapply (spec_weaken spec); [by apply H2|]. eauto.
Qed.

End rules.

#[local] Arguments defaultGet /.
#[local] Arguments defaultList /.
#[local] Arguments defaultDel /.
#[local] Arguments defaultCreate /.
#[local] Arguments defaultUpdate /.

Lemma only_cvaGet ns name : only (kinds [KConfig; KRead]) (Get (client ns) name).
Proof. unfold Get. solve_client. Qed.

Lemma only_cvaList ns opts : only (kinds [KConfig; KRead]) (List (client ns) opts).
Proof. unfold List. solve_client. Qed.

Lemma only_cvaDelete ns name : only (kinds [KConfig; KWrite]) (Delete (client ns) name).
Proof. unfold Delete. solve_client. Qed.

Lemma only_cvaCreate ns (o : CStorVolumeAttachment) : only (kinds [KConfig; KWrite]) (Create (client ns) (Some o)).
Proof. unfold Create. solve_client. Qed.

Lemma only_cvaUpdate ns (o : CStorVolumeAttachment) : only (kinds [KConfig; KWrite]) (Update (client ns) (Some o)).
Proof. unfold Update. solve_client. Qed.

End cva.
End Cva.
#[export] Hint Extern 0 (only _ (Cva.Get (Cva.client _) _)) => only_by Cva.only_cvaGet : only.
#[export] Hint Extern 0 (only _ (Cva.List (Cva.client _) _)) => only_by Cva.only_cvaList : only.
#[export] Hint Extern 0 (only _ (Cva.Delete (Cva.client _) _)) => only_by Cva.only_cvaDelete : only.
#[export] Hint Extern 0 (only _ (Cva.Create (Cva.client _) _)) => only_by Cva.only_cvaCreate : only.
#[export] Hint Extern 0 (only _ (Cva.Update (Cva.client _) _)) => only_by Cva.only_cvaUpdate : only.
