(* ===== verification/Volume.v ===== *)
(** * CStorVolume: src/pkg/cstor/volume

    The builder (build.go), the filtering list builder (cstorvolume.go) and the
    Kubernetes client (kubernetes.go) of the resource that describes the
    running volume: its iSCSI target and its health. *)

From S2P Require Export Logic.
Local Open Scope go_scope.

Module Cv.
Section cv.
Context {L : ApiLib}.

(** ** Builder *)

Record Builder := MkBuilder { cstorvolume : CStorVolume; errs : list error }.

(** NewBuilder *)
Definition NewBuilder : Builder := MkBuilder cv_zero [].

Definition add_err (e : error) (b : Builder) : Builder := MkBuilder (cstorvolume b) (errs b ++ [e]).
Definition upd (f : CStorVolume → CStorVolume) (b : Builder) : Builder :=
  MkBuilder (f (cstorvolume b)) (errs b).
Definition updMeta (f : ObjectMeta → ObjectMeta) : Builder → Builder :=
  upd (λ o, cv_set_Meta (f (cv_Meta o)) o).

Definition missing (what : string) : error :=
  Errorf ("failed to build cstorvolume object: " +:+ what) [].

(** The shape shared by the setters of mandatory text fields. *)
Definition setText (what : string) (set : string → CStorVolume → CStorVolume)
    (v : string) (b : Builder) : Builder :=
  if bool_decide (String.length v = 0) then add_err (missing what) b else upd (set v) b.

(** WithName, WithGenerateName, WithNamespace *)
Definition WithName : string → Builder → Builder :=
  setText "missing name" (λ v o, cv_set_Meta (om_set_Name v (cv_Meta o)) o).
Definition WithGenerateName : string → Builder → Builder :=
  setText "missing generateName" (λ v o, cv_set_Meta (om_set_GenerateName v (cv_Meta o)) o).
Definition BWithNamespace : string → Builder → Builder :=
  setText "missing namespace" (λ v o, cv_set_Meta (om_set_Namespace v (cv_Meta o)) o).

(** WithAnnotationsNew, WithAnnotations *)
Definition WithAnnotationsNew (annotations : gmap string string) (b : Builder) : Builder :=
  if bool_decide (annotations = ∅) then add_err (missing "no new annotations") b
  else updMeta (om_set_Annotations (Some (range_assign annotations ∅))) b.
Definition WithAnnotations (annotations : gmap string string) (b : Builder) : Builder :=
  if bool_decide (annotations = ∅) then add_err (missing "missing annotations") b
  else match om_Annotations (cv_Meta (cstorvolume b)) with
       | None => WithAnnotationsNew annotations b
       | Some old => updMeta (om_set_Annotations (Some (range_assign annotations old))) b
       end.

(** WithLabelsNew, WithLabels *)
Definition WithLabelsNew (labels : gmap string string) (b : Builder) : Builder :=
  if bool_decide (labels = ∅) then add_err (missing "no new labels") b
  else updMeta (om_set_Labels (Some (range_assign labels ∅))) b.
Definition WithLabels (labels : gmap string string) (b : Builder) : Builder :=
  if bool_decide (labels = ∅) then add_err (missing "missing labels") b
  else match om_Labels (cv_Meta (cstorvolume b)) with
       | None => WithLabelsNew labels b
       | Some old => updMeta (om_set_Labels (Some (range_assign labels old))) b
       end.

(** WithTargetIP *)
Definition WithTargetIP : string → Builder → Builder := setText "missing targetip" cv_set_TargetIP.

(** WithCapacity: a capacity that does not parse records its error, and the
    field is still overwritten with whatever the parser returned *)
Definition WithCapacity (capacity : string) (b : Builder) : Builder :=
  if bool_decide (String.length capacity = 0) then add_err (missing "missing capacity") b
  else let '(capacityQnt, e) := ParseQuantity capacity in
       upd (cv_set_SpecCapacity capacityQnt)
         match e with
         | Some e => add_err (Wrapf e
             "failed to build cstorvolume object: failed to parse capacity {%s}" [AStr capacity]) b
         | None => b
         end.

(** WithIQN, WithTargetPort, WithTargetPortal *)
Definition WithIQN : string → Builder → Builder := setText "missing iqn" cv_set_Iqn.
Definition WithTargetPort : string → Builder → Builder := setText "missing targetport" cv_set_TargetPort.
Definition WithTargetPortal : string → Builder → Builder :=
  setText "missing targetportal" cv_set_TargetPortal.

(** WithReplicationFactor, WithConsistencyFactor *)
Definition WithReplicationFactor (replicationfactor : Z) (b : Builder) : Builder :=
  if bool_decide (replicationfactor ≤ 0)%Z
  then add_err (Errorf "failed to build cstorvolume object: invalid replicationfactor {%d}"
         [AInt replicationfactor]) b
  else upd (cv_set_ReplicationFactor replicationfactor) b.
Definition WithConsistencyFactor (consistencyfactor : Z) (b : Builder) : Builder :=
  if bool_decide (consistencyfactor ≤ 0)%Z
  then add_err (Errorf "failed to build cstorvolume object: invalid consistencyfactor {%d}"
         [AInt consistencyfactor]) b
  else upd (cv_set_ConsistencyFactor consistencyfactor) b.

(** Build *)
Definition Build (b : Builder) : res CStorVolume :=
  match errs b with
  | [] => inl (cstorvolume b)
  | _ :: _ => inr (Errorf "%+v" [AErrs (errs b)])
  end.

(** ** Lists with filters *)

(** The wrapped objects of a list are never nil. *)
Definition Predicate : Type := CStorVolume → bool.
Definition PredicateList : Type := list Predicate.
Definition CStorVolumeList : Type := list CStorVolume.

(** IsHealthy, the method and the predicate *)
Definition isHealthy (p : CStorVolume) : bool := bool_decide (cv_Phase p = "Healthy").
Definition IsHealthy : Predicate := λ p, isHealthy p.

(** PredicateList.all *)
Fixpoint all (l : PredicateList) (c : CStorVolume) : bool :=
  match l with
  | [] => true
  | check :: l' => if negb (check c) then false else all l' c
  end.

Record ListBuilder := MkListBuilder { items : CStorVolumeList; filters : PredicateList }.

(** NewForAPIObject: the wrapper of an object pointer *)
Definition NewForAPIObject (obj : option CStorVolume) : option CStorVolume := obj.

(** NewListBuilder, WithAPIList, WithFilter, List, Len *)
Definition NewListBuilder : ListBuilder := MkListBuilder [] [].
Definition WithAPIList (l : option (list CStorVolume)) (b : ListBuilder) : ListBuilder :=
  match l with
  | None => b
  | Some l => MkListBuilder (foldl (λ acc c, acc ++ [c]) (items b) l) (filters b)
  end.
Definition WithFilter (pred : list Predicate) (b : ListBuilder) : ListBuilder :=
  MkListBuilder (items b) (filters b ++ pred).
Definition ListOf (b : ListBuilder) : list CStorVolume :=
  match filters b with
  | [] => items b
  | _ :: _ =>
      foldl (λ acc cv, if all (filters b) cv then acc ++ [cv] else acc) [] (items b)
  end.
Definition Len (l : list CStorVolume) : nat := length l.

(** ** Kubernetes client of the package *)

(** The typed function fields; [option clientset] is the clientset pointer. *)
Definition getFn : Type := option clientset → string → string → go (option CStorVolume * err).
Definition listFn : Type := option clientset → string → string → go (option (list CStorVolume) * err).
Definition delFn : Type := option clientset → string → string → go err.
Definition createFn : Type := option clientset → CStorVolume → string → go (option CStorVolume * err).

Definition getClientsetFn : Type := go (option clientset * err).
Definition getClientsetForPathFn : Type := string → go (option clientset * err).

Record Kubeclient := MkKubeclient {
  clientset_ : option clientset;
  kubeConfigPath : string;
  namespace : string;
  getClientset : option getClientsetFn;
  getClientsetForPath : option getClientsetForPathFn;
  get_ : option getFn;
  list_ : option listFn;
  del_ : option delFn;
  create_ : option createFn
}.
Definition emptyKubeclient : Kubeclient :=
  MkKubeclient None "" "" None None None None None None.
Definition KubeclientBuildOption : Type := Kubeclient → Kubeclient.

(** WithClientSet, WithNamespace (option and method), WithKubeConfigPath *)
Definition WithClientSet (c : clientset) : KubeclientBuildOption := λ k,
  MkKubeclient (Some c) (kubeConfigPath k) (namespace k) (getClientset k) (getClientsetForPath k) (get_ k) (list_ k) (del_ k) (create_ k).
Definition WithNamespaceOption (ns : string) : KubeclientBuildOption := λ k,
  MkKubeclient (clientset_ k) (kubeConfigPath k) ns (getClientset k) (getClientsetForPath k) (get_ k) (list_ k) (del_ k) (create_ k).
Definition WithNamespace (k : Kubeclient) (ns : string) : Kubeclient :=
  MkKubeclient (clientset_ k) (kubeConfigPath k) ns (getClientset k) (getClientsetForPath k) (get_ k) (list_ k) (del_ k) (create_ k).
Definition WithKubeConfigPath (path : string) : KubeclientBuildOption := λ k,
  MkKubeclient (clientset_ k) path (namespace k) (getClientset k) (getClientsetForPath k) (get_ k) (list_ k) (del_ k) (create_ k).

(** The default ways to a clientset, the same in every package under pkg/cstor *)
Definition defaultGetClientset : getClientsetFn := KClient.defaultGetClientset.
Definition defaultGetClientsetForPath : getClientsetForPathFn := KClient.defaultGetClientsetForPath.

(** The default implementations: one typed-client call each; deletions ask
    for foreground propagation. *)
Definition defaultGet : getFn := λ cli name ns, c ← deref cli; sys (CvGet c ns name).
Definition defaultList : listFn := λ cli ns opts, c ← deref cli; sys (CvList c ns opts).
Definition defaultDel : delFn := λ cli name ns, c ← deref cli; sys (CvDelete c ns name true).
Definition defaultCreate : createFn := λ cli o ns, c ← deref cli; sys (CvCreate c ns o).

(** withDefaults: fill the nil function fields *)
Definition withDefaults (k : Kubeclient) : Kubeclient :=
  MkKubeclient (clientset_ k)
    (kubeConfigPath k)
    (namespace k)
    (Some (default defaultGetClientset (getClientset k)))
    (Some (default defaultGetClientsetForPath (getClientsetForPath k)))
    (Some (default defaultGet (get_ k)))
    (Some (default defaultList (list_ k)))
    (Some (default defaultDel (del_ k)))
    (Some (default defaultCreate (create_ k))).

(** NewKubeclient *)
Definition NewKubeclient (opts : list KubeclientBuildOption) : Kubeclient :=
  withDefaults (foldl (λ k o, o k) emptyKubeclient opts).

(** getClientsetForPathOrDirect *)
Definition getClientsetForPathOrDirect (k : Kubeclient) : go (option clientset * err) :=
  if negb (bool_decide (kubeConfigPath k = ""))
  then f ← KClient.call (getClientsetForPath k); f (kubeConfigPath k)
  else f ← KClient.call (getClientset k); f.

(** Caching of the clientset pointer in the receiver. *)
Definition cache (k : Kubeclient) (c : option clientset) : Kubeclient :=
  MkKubeclient c (kubeConfigPath k) (namespace k) (getClientset k) (getClientsetForPath k) (get_ k) (list_ k) (del_ k) (create_ k).

(** getClientOrCached: the receiver afterwards and the result *)
Definition getClientOrCached (k : Kubeclient) : go (Kubeclient * (option clientset * err)) :=
  match clientset_ k with
  | Some _ => mret (k, (clientset_ k, None))
  | None =>
      '(c, e) ← getClientsetForPathOrDirect k;
      match e with
      | Some e => mret (k, (None, Some (e)))
      | None => mret (cache k c, (c, None))
      end
  end.

(** Get *)
Definition Get (k : Kubeclient) (name : string) : go (Kubeclient * (option CStorVolume * err)) :=
  if bool_decide (name = "") then mret (k, (None, Some (Errorf "failed to get cstorvolume: name can't be empty" [])))
  else '(k, (cli, e)) ← getClientOrCached k;
  match e with
  | Some e => mret (k, (None, Some (e)))
  | None => f ← KClient.call (get_ k); r ← f cli name (namespace k); mret (k, r)
  end.

(** GetRaw *)
Definition GetRaw (k : Kubeclient) (name : string) : go (Kubeclient * res string) :=
  '(k, (o, e)) ← Get k name;
  match e with
  | Some e => mret (k, inr e)
  | None => r ← sys (JsonMarshal (DCv o)); mret (k, r)
  end.

(** List *)
Definition List (k : Kubeclient) (opts : string) : go (Kubeclient * (option (list CStorVolume) * err)) :=
  '(k, (cli, e)) ← getClientOrCached k;
  match e with
  | Some e => mret (k, (None, Some (e)))
  | None => f ← KClient.call (list_ k); r ← f cli (namespace k) opts; mret (k, r)
  end.

(** Delete *)
Definition Delete (k : Kubeclient) (name : string) : go (Kubeclient * err) :=
  '(k, (cli, e)) ← getClientOrCached k;
  match e with
  | Some e => mret (k, Some (e))
  | None => f ← KClient.call (del_ k); r ← f cli name (namespace k); mret (k, r)
  end.

(** Create *)
Definition Create (k : Kubeclient) (o : option CStorVolume) : go (Kubeclient * (option CStorVolume * err)) :=
  match o with
  | None => mret (k, (None, Some (Errorf "failed to create cstorvolume: nil cstorvolume object" [])))
  | Some o =>
    '(k, (cli, e)) ← getClientOrCached k;
    match e with
    | Some e => mret (k, (None, Some (e)))
    | None => f ← KClient.call (create_ k); r ← f cli o (namespace k); mret (k, r)
    end
  end.

(** [NewKubeclient().WithNamespace(ns)], as the callers use it *)
Definition client (ns : string) : Kubeclient := WithNamespace (NewKubeclient []) ns.

(** ** Rules for the client's operations

    An operation reads the configuration and performs one typed-client call,
    or fails before it. *)

Section rules.
Context (h : Host) {S : Type} (spec : ∀ a, S → (result a → S → Prop) → Prop).
Context `{!MonoSpec spec, !ConfigFree h spec}.

Lemma wp_cvgetClientOrCached ns s (Q : outcome (Kubeclient * (option clientset * err)) → S → Prop) :
  (∀ c, Q (ORet (cache (client ns) (Some c), (Some c, None))) s) →
  (∀ e, broken h e → Q (ORet (client ns, (None, Some e))) s) →
  wp spec (getClientOrCached (client ns)) s Q.
Proof using All.
  intros H1 H2. unfold getClientOrCached.
  rewrite (eq_refl : clientset_ (client ns) = None).
  change (getClientsetForPathOrDirect (client ns)) with KClient.defaultGetClientset.
  wp_bind. apply (wp_defaultGetClientset h spec). split.
  - intros c. apply H1.
  - intros o e Hb. apply H2. first [done | by apply broken_wrap].
Qed.

Lemma wp_cvGet ns name s Q :
  (name = "" → ∀ k e, Q (ORet (k, (None, Some e))) s) →
  (∀ k e, broken h e → Q (ORet (k, (None, Some e))) s) →
  (name ≠ "" → ∀ c, spec (CvGet c ns name) s (λ r s', ∀ k, Q (ORet (k, r)) s')) →
  wp spec (Get (client ns) name) s Q.
Proof using All.
  intros H0 H1 H2. unfold Get. case_bool_decide as Hn; [by apply H0|].
  wp_bind. apply wp_cvgetClientOrCached; simpl; [|by eauto using broken_wrap].
  intros c. eapply (spec_weaken spec); [by apply H2|]. eauto.
Qed.

Lemma wp_cvList ns opts s Q :
  (∀ k e, broken h e → Q (ORet (k, (None, Some e))) s) →
  (∀ c, spec (CvList c ns opts) s (λ r s', ∀ k, Q (ORet (k, r)) s')) →
  wp spec (List (client ns) opts) s Q.
Proof using All.
  intros H1 H2. unfold List.
  wp_bind. apply wp_cvgetClientOrCached; simpl; [|by eauto using broken_wrap].
  intros c. eapply (spec_weaken spec); [by apply H2|]. eauto.
Qed.

Lemma wp_cvDelete ns name s Q :
  (∀ k e, broken h e → Q (ORet (k, Some e)) s) →
  (∀ c, spec (CvDelete c ns name true) s (λ r s', ∀ k, Q (ORet (k, r)) s')) →
  wp spec (Delete (client ns) name) s Q.
Proof using All.
  intros H1 H2. unfold Delete.
  wp_bind. apply wp_cvgetClientOrCached; simpl; [|by eauto using broken_wrap].
  intros c. eapply (spec_weaken spec); [by apply H2|]. eauto.
Qed.

Lemma wp_cvCreate ns (o : CStorVolume) s Q :
  (∀ k e, broken h e → Q (ORet (k, (None, Some e))) s) →
  (∀ c, spec (CvCreate c ns o) s (λ r s', ∀ k, Q (ORet (k, r)) s')) →
  wp spec (Create (client ns) (Some o)) s Q.
Proof using All.
  intros H1 H2. unfold Create.
  wp_bind. apply wp_cvgetClientOrCached; simpl; [|by eauto using broken_wrap].
  intros c. eapply (spec_weaken spec); [by apply H2|]. eauto.
Qed.

End rules.

#[local] Arguments defaultGet /.
#[local] Arguments defaultList /.
#[local] Arguments defaultDel /.
#[local] Arguments defaultCreate /.

Lemma only_cvGet ns name : only (kinds [KConfig; KRead]) (Get (client ns) name).
Proof. unfold Get. solve_client. Qed.

Lemma only_cvList ns opts : only (kinds [KConfig; KRead]) (List (client ns) opts).
Proof. unfold List. solve_client. Qed.

Lemma only_cvDelete ns name : only (kinds [KConfig; KWrite]) (Delete (client ns) name).
Proof. unfold Delete. solve_client. Qed.

Lemma only_cvCreate ns (o : CStorVolume) : only (kinds [KConfig; KWrite]) (Create (client ns) (Some o)).
Proof. unfold Create. solve_client. Qed.

End cv.
End Cv.
#[export] Hint Extern 0 (only _ (Cv.Get (Cv.client _) _)) => only_by Cv.only_cvGet : only.
#[export] Hint Extern 0 (only _ (Cv.List (Cv.client _) _)) => only_by Cv.only_cvList : only.
#[export] Hint Extern 0 (only _ (Cv.Delete (Cv.client _) _)) => only_by Cv.only_cvDelete : only.
#[export] Hint Extern 0 (only _ (Cv.Create (Cv.client _) _)) => only_by Cv.only_cvCreate : only.
