(* ===== verification/KNode.v ===== *)
(** * Kubernetes nodes and claims: src/pkg/kubernetes/node and
    src/pkg/kubernetes/persistentvolumeclaim

    The node client with its readiness check and its filtering list builder,
    and the client of PersistentVolumeClaims. *)

From S2P Require Export Logic.
Local Open Scope go_scope.

(** The default clientset fields of both packages. *)
Definition kGetClientset {L : ApiLib} : go (option kclientset * err) :=
  KClient.Clientset (KClient.New []).
Definition kGetClientsetForPath {L : ApiLib} (path : string) : go (option kclientset * err) :=
  KClient.Clientset (KClient.New [KClient.WithKubeConfigPath path]).

Module KNode.
Section node.
Context {L : ApiLib}.

Definition getClientsetFn : Type := go (option kclientset * err).
Definition getClientsetForPathFn : Type := string → go (option kclientset * err).
Definition listFn : Type := option kclientset → Z → go (option (list Node) * err).
Definition getFn : Type := option kclientset → string → go (option Node * err).

Record Kubeclient := MkKubeclient {
  clientset_ : option kclientset;
  kubeConfigPath : string;
  getClientset : option getClientsetFn;
  getClientsetForPath : option getClientsetForPathFn;
  list_ : option listFn;
  get_ : option getFn
}.
Definition emptyKubeclient : Kubeclient := MkKubeclient None "" None None None None.
Definition KubeClientBuildOption : Type := Kubeclient → Kubeclient.

(** withDefaults; list options are reduced to their limit *)
Definition withDefaults (k : Kubeclient) : Kubeclient :=
  MkKubeclient (clientset_ k) (kubeConfigPath k)
    (Some (default kGetClientset (getClientset k)))
    (Some (default kGetClientsetForPath (getClientsetForPath k)))
    (Some (default (λ cli limit, c ← deref cli; sys (NodeList c limit)) (list_ k)))
    (Some (default (λ cli name, c ← deref cli; sys (NodeGet c name)) (get_ k))).

(** WithKubeConfigPath *)
Definition WithKubeConfigPath (path : string) : KubeClientBuildOption := λ k,
  MkKubeclient (clientset_ k) path (getClientset k) (getClientsetForPath k) (list_ k) (get_ k).

(** NewKubeClient *)
Definition NewKubeClient (opts : list KubeClientBuildOption) : Kubeclient :=
  withDefaults (foldl (λ k o, o k) emptyKubeclient opts).

(** getClientsetForPathOrDirect *)
Definition getClientsetForPathOrDirect (k : Kubeclient) : go (option kclientset * err) :=
  if negb (bool_decide (kubeConfigPath k = ""))
  then f ← KClient.call (getClientsetForPath k); f (kubeConfigPath k)
  else f ← KClient.call (getClientset k); f.

(** getClientsetOrCached *)
Definition getClientsetOrCached (k : Kubeclient) : go (Kubeclient * (option kclientset * err)) :=
  match clientset_ k with
  | Some _ => mret (k, (clientset_ k, None))
  | None =>
      '(cs, e) ← getClientsetForPathOrDirect k;
      match e with
      | Some e => mret (k, (None, Some (Wrapf e "failed to get clientset" [])))
      | None =>
          mret (MkKubeclient cs (kubeConfigPath k) (getClientset k) (getClientsetForPath k)
                  (list_ k) (get_ k), (cs, None))
      end
  end.

(** Get *)
Definition Get (k : Kubeclient) (name : string) : go (Kubeclient * (option Node * err)) :=
  if bool_decide (String.length name = 0)
  then mret (k, (None, Some (Errorf "failed to get node: missing node name" [])))
  else '(k, (cli, e)) ← getClientsetOrCached k;
  match e with
  | Some e => mret (k, (None, Some (Wrapf e
      "failed to get node {%s}: failed to get clientset" [AStr name])))
  | None => f ← KClient.call (get_ k); r ← f cli name; mret (k, r)
  end.

(** List *)
Definition List (k : Kubeclient) (limit : Z) : go (Kubeclient * (option (list Node) * err)) :=
  '(k, (cli, e)) ← getClientsetOrCached k;
  match e with
  | Some e => mret (k, (None, Some (Wrapf e "failed to list nodes" [])))
  | None => f ← KClient.call (list_ k); r ← f cli limit; mret (k, r)
  end.

(** NumberOfNodes *)
Definition NumberOfNodes : go (Z * err) :=
  '(_, (nodes, e)) ← List (NewKubeClient []) 0;
  match e with
  | Some e => mret (0%Z, Some (Wrapf e "failed to get the number of nodes" []))
  | None => nodes ← deref nodes; mret (Z.of_nat (length nodes), None)
  end.

(** GetOSAndKernelVersion: [firstNode.Items[0]] panics on an empty list *)
Definition GetOSAndKernelVersion : go (string * err) :=
  '(_, (firstNode, e)) ← List (NewKubeClient []) 1;
  match e with
  | Some e => mret ("unknown, unknown", Some (Wrapf e "failed to get the os kernel/arch" []))
  | None =>
      nodes ← deref firstNode;
      match nodes with
      | [] => Panic "runtime error: index out of range"
      | n :: _ => mret (node_OSImage n +:+ ", " +:+ node_KernelVersion n, None)
      end
  end.

(** The loop of IsNodeReady over the node's conditions *)
Fixpoint readyLoop (conds : list NodeCondition) : bool :=
  match conds with
  | [] => false
  | cond :: conds' =>
      if bool_decide (nc_Type cond = NodeReadyCondition)
         && bool_decide (nc_Status cond = ConditionTrue)
      then true else readyLoop conds'
  end.

(** IsNodeReady *)
Definition IsNodeReady (nodeName : string) : go (bool * err) :=
  '(_, (node, e)) ← Get (NewKubeClient []) nodeName;
  match e with
  | Some e => mret (false, Some e)
  | None => node ← deref node; mret (readyLoop (node_Conditions node), None)
  end.

(** ** node.go: wrapped lists with filters *)

Definition kubeletReady : string := "KubeletReady".
Definition Predicate : Type := Node → bool.
Definition predicateList : Type := list Predicate.

(** predicateList.all *)
Fixpoint all (l : predicateList) (n : Node) : bool :=
  match l with
  | [] => true
  | pred :: l' => if negb (pred n) then false else all l' n
  end.

(** IsReady: the loop over the conditions, the method and the predicate *)
Fixpoint isReadyLoop (conds : list NodeCondition) : bool :=
  match conds with
  | [] => false
  | cond :: conds' =>
      if bool_decide (nc_Reason cond = kubeletReady)
         && bool_decide (nc_Type cond = NodeReadyCondition)
      then true else isReadyLoop conds'
  end.
Definition isReady (n : Node) : bool := isReadyLoop (node_Conditions n).
Definition IsReady : Predicate := λ n, isReady n.

(** ListBuilder; [None] is a nil slice of filters *)
Record ListBuilder := MkListBuilder { items : list Node; filters : option predicateList }.

(** NewListBuilder, WithAPIObject, WithObject, WithAPIList, WithFilter *)
Definition NewListBuilder : ListBuilder := MkListBuilder [] None.
Definition WithObject (nodes : list Node) (b : ListBuilder) : ListBuilder :=
  MkListBuilder (items b ++ nodes) (filters b).
Definition WithAPIObject (nodes : list Node) (b : ListBuilder) : ListBuilder :=
  MkListBuilder (foldl (λ acc n, acc ++ [n]) (items b) nodes) (filters b).
Definition WithAPIList (nodes : option (list Node)) (b : ListBuilder) : ListBuilder :=
  match nodes with None => b | Some nodes => WithAPIObject nodes b end.
Definition WithFilter (pred : list Predicate) (b : ListBuilder) : ListBuilder :=
  MkListBuilder (items b)
    (match filters b, pred with
     | None, [] => None
     | f, _ => Some (default [] f ++ pred)
     end).

(** List, ToAPIList, Len; the test of [List] is [nil && len == 0] *)
Definition ListOf (b : ListBuilder) : list Node :=
  if match filters b with None => true | Some _ => false end
     && bool_decide (length (default [] (filters b)) = 0)
  then items b
  else foldl (λ acc n, if all (default [] (filters b)) n then acc ++ [n] else acc) [] (items b).
Definition ToAPIList (l : list Node) : list Node := foldl (λ acc n, acc ++ [n]) [] l.
Definition Len (l : list Node) : nat := length l.

(** ** Rules for the client's operations

    An operation reads the configuration and performs one typed-client call,
    or fails before it. *)

Section rules.
Context (h : Host) {S : Type} (spec : ∀ a, S → (result a → S → Prop) → Prop).
Context `{!MonoSpec spec, !ConfigFree h spec}.

Lemma wp_nodegetClientsetOrCached s (Q : outcome (Kubeclient * (option kclientset * err)) → S → Prop) :
  (∀ c, Q (ORet (MkKubeclient (Some c) (kubeConfigPath (NewKubeClient [])) (getClientset (NewKubeClient [])) (getClientsetForPath (NewKubeClient [])) (list_ (NewKubeClient [])) (get_ (NewKubeClient [])), (Some c, None))) s) →
  (∀ e, broken h e → Q (ORet (NewKubeClient [], (None, Some e))) s) →
  wp spec (getClientsetOrCached (NewKubeClient [])) s Q.
Proof using All.
  intros H1 H2. unfold getClientsetOrCached.
  rewrite (eq_refl : clientset_ (NewKubeClient []) = None).
  change (getClientsetForPathOrDirect (NewKubeClient [])) with (KClient.Clientset (KClient.New [])).
  wp_bind. apply (wp_kGetClientset h spec). split.
  - intros c. apply H1.
  - intros o e Hb. apply H2. first [done | by apply broken_wrap].
Qed.

Lemma wp_nodeGet name s Q :
  (String.length name = 0 → ∀ k e, Q (ORet (k, (None, Some e))) s) →
  (∀ k e, broken h e → Q (ORet (k, (None, Some e))) s) →
  (String.length name ≠ 0 → ∀ c, spec (NodeGet c name) s (λ r s', ∀ k, Q (ORet (k, r)) s')) →
  wp spec (Get (NewKubeClient []) name) s Q.
Proof using All.
  intros H0 H1 H2. unfold Get. case_bool_decide as Hn; [by apply H0|].
  wp_bind. apply wp_nodegetClientsetOrCached; simpl; [|by eauto using broken_wrap].
  intros c. eapply (spec_weaken spec); [by apply H2|]. eauto.
Qed.

Lemma wp_nodeList limit s Q :
  (∀ k e, broken h e → Q (ORet (k, (None, Some e))) s) →
  (∀ c, spec (NodeList c limit) s (λ r s', ∀ k, Q (ORet (k, r)) s')) →
  wp spec (List (NewKubeClient []) limit) s Q.
Proof using All.
  intros H1 H2. unfold List.
  wp_bind. apply wp_nodegetClientsetOrCached; simpl; [|by eauto using broken_wrap].
  intros c. eapply (spec_weaken spec); [by apply H2|]. eauto.
Qed.

End rules.


Lemma only_nodeGet name : only (kinds [KConfig; KRead]) (Get (NewKubeClient []) name).
Proof. unfold Get. solve_client. Qed.

Lemma only_nodeList limit : only (kinds [KConfig; KRead]) (List (NewKubeClient []) limit).
Proof. unfold List. solve_client. Qed.

Lemma only_IsNodeReady nodeName : only (kinds [KConfig; KRead]) (IsNodeReady nodeName).
Proof.
  unfold IsNodeReady. apply only_bind; [apply only_nodeGet|].
  intros [k [node e]]. solve_only.
Qed.

End node.
End KNode.
#[export] Hint Extern 0 (only _ (KNode.IsNodeReady _)) => only_by KNode.only_IsNodeReady : only.
#[export] Hint Extern 0 (only _ (KNode.Get (KNode.NewKubeClient []) _)) => only_by KNode.only_nodeGet : only.
#[export] Hint Extern 0 (only _ (KNode.List (KNode.NewKubeClient []) _)) => only_by KNode.only_nodeList : only.

Module Pvc.
Section pvc.
Context {L : ApiLib}.

Definition getClientsetFn : Type := go (option kclientset * err).
Definition getClientsetForPathFn : Type := string → go (option kclientset * err).
Definition getFn : Type := option kclientset → string → string → go (option PersistentVolumeClaim * err).
Definition listFn : Type := option kclientset → string → string → go (option (list PersistentVolumeClaim) * err).
Definition deleteFn : Type := option kclientset → string → string → option string → go err.
Definition deleteCollectionFn : Type := option kclientset → string → string → option string → go err.
Definition createFn : Type :=
  option kclientset → string → PersistentVolumeClaim → go (option PersistentVolumeClaim * err).

Definition updateFn : Type :=
  option kclientset → string → PersistentVolumeClaim → go (option PersistentVolumeClaim * err).

(** Delete options are passed by pointer and dereferenced by the default
    functions. *)
Record Kubeclient := MkKubeclient {
  clientset_ : option kclientset;
  namespace : string;
  kubeConfigPath : string;
  getClientset : option getClientsetFn;
  getClientsetForPath : option getClientsetForPathFn;
  list_ : option listFn;
  get_ : option getFn;
  create_ : option createFn;
  update_ : option updateFn;
  del_ : option deleteFn;
  delCollection_ : option deleteCollectionFn
}.
Definition emptyKubeclient : Kubeclient :=
  MkKubeclient None "" "" None None None None None None None None.
Definition KubeclientBuildOption : Type := Kubeclient → Kubeclient.

(** withDefaults *)
Definition withDefaults (k : Kubeclient) : Kubeclient :=
  MkKubeclient (clientset_ k) (namespace k) (kubeConfigPath k)
    (Some (default kGetClientset (getClientset k)))
    (Some (default kGetClientsetForPath (getClientsetForPath k)))
    (Some (default (λ cli ns opts, c ← deref cli; sys (PvcList c ns opts)) (list_ k)))
    (Some (default (λ cli name ns, c ← deref cli; sys (PvcGet c ns name)) (get_ k)))
    (Some (default (λ cli ns pvc, c ← deref cli; sys (PvcCreate c ns pvc)) (create_ k)))
    (Some (default (λ cli ns pvc, c ← deref cli; sys (PvcUpdate c ns pvc)) (update_ k)))
    (Some (default (λ cli ns name opts, c ← deref cli; o ← deref opts; sys (PvcDelete c ns name o)) (del_ k)))
    (Some (default (λ cli ns listOpts opts, c ← deref cli;
                      o ← deref opts; sys (PvcDeleteCollection c ns listOpts o)) (delCollection_ k))).

(** WithClientSet, WithKubeConfigPath, WithNamespace, NewKubeClient *)
Definition WithClientSet (c : kclientset) : KubeclientBuildOption := λ k,
  MkKubeclient (Some c) (namespace k) (kubeConfigPath k) (getClientset k) (getClientsetForPath k)
    (list_ k) (get_ k) (create_ k) (update_ k) (del_ k) (delCollection_ k).
Definition WithKubeConfigPath (path : string) : KubeclientBuildOption := λ k,
  MkKubeclient (clientset_ k) (namespace k) path (getClientset k) (getClientsetForPath k)
    (list_ k) (get_ k) (create_ k) (update_ k) (del_ k) (delCollection_ k).
Definition WithNamespace (k : Kubeclient) (ns : string) : Kubeclient :=
  MkKubeclient (clientset_ k) ns (kubeConfigPath k) (getClientset k) (getClientsetForPath k)
    (list_ k) (get_ k) (create_ k) (update_ k) (del_ k) (delCollection_ k).
Definition NewKubeClient (opts : list KubeclientBuildOption) : Kubeclient :=
  withDefaults (foldl (λ k o, o k) emptyKubeclient opts).

(** getClientsetForPathOrDirect, getClientsetOrCached *)
Definition getClientsetForPathOrDirect (k : Kubeclient) : go (option kclientset * err) :=
  if negb (bool_decide (kubeConfigPath k = ""))
  then f ← KClient.call (getClientsetForPath k); f (kubeConfigPath k)
  else f ← KClient.call (getClientset k); f.
Definition getClientsetOrCached (k : Kubeclient) : go (Kubeclient * (option kclientset * err)) :=
  match clientset_ k with
  | Some _ => mret (k, (clientset_ k, None))
  | None =>
      '(cs, e) ← getClientsetForPathOrDirect k;
      match e with
      | Some e => mret (k, (None, Some (Wrapf e "failed to get clientset" [])))
      | None =>
          mret (MkKubeclient cs (namespace k) (kubeConfigPath k) (getClientset k)
                  (getClientsetForPath k) (list_ k) (get_ k) (create_ k) (update_ k) (del_ k)
                  (delCollection_ k), (cs, None))
      end
  end.

(** Get, List, Delete, Create, Update *)
Definition Get (k : Kubeclient) (name : string) : go (Kubeclient * (option PersistentVolumeClaim * err)) :=
  if bool_decide (Str.TrimSpace name = "")
  then mret (k, (None, Some (Errorf "failed to get pvc: missing pvc name" [])))
  else '(k, (cli, e)) ← getClientsetOrCached k;
  match e with
  | Some e => mret (k, (None, Some (Wrapf e "failed to get pvc {%s}" [AStr name])))
  | None => f ← KClient.call (get_ k); r ← f cli name (namespace k); mret (k, r)
  end.
Definition List (k : Kubeclient) (opts : string) :
    go (Kubeclient * (option (list PersistentVolumeClaim) * err)) :=
  '(k, (cli, e)) ← getClientsetOrCached k;
  match e with
  | Some e => mret (k, (None, Some (Wrapf e "failed to list pvc listoptions: '%v'" [AStr opts])))
  | None => f ← KClient.call (list_ k); r ← f cli (namespace k) opts; mret (k, r)
  end.
Definition Delete (k : Kubeclient) (name : string) (deleteOpts : option string) :
    go (Kubeclient * err) :=
  if bool_decide (Str.TrimSpace name = "")
  then mret (k, Some (Errorf "failed to delete pvc: missing pvc name" []))
  else '(k, (cli, e)) ← getClientsetOrCached k;
  match e with
  | Some e => mret (k, Some (Wrapf e "failed to delete pvc {%s}" [AStr name]))
  | None => f ← KClient.call (del_ k); r ← f cli (namespace k) name deleteOpts; mret (k, r)
  end.
Definition Create (k : Kubeclient) (pvc : option PersistentVolumeClaim) :
    go (Kubeclient * (option PersistentVolumeClaim * err)) :=
  match pvc with
  | None => mret (k, (None, Some (Errorf "failed to create pvc: nil pvc object" [])))
  | Some pvc =>
    '(k, (cli, e)) ← getClientsetOrCached k;
    match e with
    | Some e => mret (k, (None, Some (Wrapf e "failed to create pvc {%s} in namespace {%s}"
        [AStr (om_Name (pvc_Meta pvc)); AStr (om_Namespace (pvc_Meta pvc))])))
    | None => f ← KClient.call (create_ k); r ← f cli (namespace k) pvc; mret (k, r)
    end
  end.
Definition Update (k : Kubeclient) (pvc : option PersistentVolumeClaim) :
    go (Kubeclient * (option PersistentVolumeClaim * err)) :=
  match pvc with
  | None => mret (k, (None, Some (Errorf "failed to update pvc: nil pvc object" [])))
  | Some pvc =>
    '(k, (cli, e)) ← getClientsetOrCached k;
    match e with
    | Some e => mret (k, (None, Some (Wrapf e "failed to update pvc {%s} in namespace {%s}"
        [AStr (om_Name (pvc_Meta pvc)); AStr (om_Namespace (pvc_Meta pvc))])))
    | None => f ← KClient.call (update_ k); r ← f cli (namespace k) pvc; mret (k, r)
    end
  end.

(** CreateCollection: stops at the first failure; the receiver's cached
    clientset is used from the second item on *)
Fixpoint createLoop (k : Kubeclient) (todo newlist : list PersistentVolumeClaim) :
    go (Kubeclient * (option (list PersistentVolumeClaim) * err)) :=
  match todo with
  | [] => mret (k, (Some newlist, None))
  | item :: todo' =>
      '(k, (obj, e)) ← Create k (Some item);
      match e with
      | Some e => mret (k, (None, Some e))
      | None => obj ← deref obj; createLoop k todo' (newlist ++ [obj])
      end
  end.
Definition CreateCollection (k : Kubeclient) (l : option (list PersistentVolumeClaim)) :
    go (Kubeclient * (option (list PersistentVolumeClaim) * err)) :=
  match l with
  | None | Some [] => mret (k, (None, Some (Errorf
      "failed to create list of pvcs: nil pvc list provided" [])))
  | Some items => createLoop k items []
  end.

(** DeleteCollection *)
Definition DeleteCollection (k : Kubeclient) (listOpts : string) (deleteOpts : option string) :
    go (Kubeclient * err) :=
  '(k, (cli, e)) ← getClientsetOrCached k;
  match e with
  | Some e => mret (k, Some (Wrapf e "failed to delete the collection of pvcs" []))
  | None => f ← KClient.call (delCollection_ k);
            r ← f cli (namespace k) listOpts deleteOpts; mret (k, r)
  end.

(** [NewKubeClient().WithNamespace(ns)] *)
Definition client (ns : string) : Kubeclient := WithNamespace (NewKubeClient []) ns.

Lemma wp_pvcGet (h : Host) {S} (spec : ∀ a, S → (result a → S → Prop) → Prop)
    `{!MonoSpec spec, !ConfigFree h spec} ns name s Q :
  (Str.TrimSpace name = "" → ∀ k e, Q (ORet (k, (None, Some e))) s) →
  (∀ k e, broken h e → Q (ORet (k, (None, Some e))) s) →
  (Str.TrimSpace name ≠ "" → ∀ c, spec (PvcGet c ns name) s (λ r s', ∀ k, Q (ORet (k, r)) s')) →
  wp spec (Get (client ns) name) s Q.
Proof.
  intros H0 H1 H2. unfold Get. case_bool_decide as Hn; [by apply H0|].
  unfold getClientsetOrCached. rewrite (eq_refl : clientset_ (client ns) = None).
  change (getClientsetForPathOrDirect (client ns)) with (KClient.Clientset (KClient.New [])).
  wp_bind. wp_bind. apply (wp_kGetClientset h spec). split; simpl; [|by eauto using broken_wrap].
  intros c. eapply (spec_weaken spec); [by apply H2|]. eauto.
Qed.

Lemma only_pvcGet ns name : only (kinds [KConfig; KRead]) (Get (client ns) name).
Proof. unfold Get. solve_client. Qed.

End pvc.
End Pvc.
#[export] Hint Extern 0 (only _ (Pvc.Get _ _)) => only_by Pvc.only_pvcGet : only.
