(* ===== verification/PersistentVolume.v ===== *)
(** * PersistentVolumes: src/pkg/kubernetes/persistentvolume

    The builder (build.go), the wrapper with its predicates
    (persistentvolume.go), the filtering list builder (buildlist.go) and the
    Kubernetes client (kubernetes.go).  A wrapper holds an object pointer, which
    may be nil: reading through it may panic. *)

From S2P Require Export KNode.
Local Open Scope go_scope.

Module Pv.
Section pv.
Context {L : ApiLib}.

(** ** Builder *)

Record Builder := MkBuilder { object : PersistentVolume; errs : list error }.

Definition NewBuilder : Builder := MkBuilder pv_zero [].

Definition add_err (e : error) (b : Builder) : Builder := MkBuilder (object b) (errs b ++ [e]).
Definition upd (f : PersistentVolume → PersistentVolume) (b : Builder) : Builder :=
  MkBuilder (f (object b)) (errs b).
Definition missing (what : string) : error := Errorf ("failed to build PV object: " +:+ what) [].

(** WithName, WithAnnotations, WithLabels *)
Definition WithName (name : string) (b : Builder) : Builder :=
  if bool_decide (String.length name = 0) then add_err (missing "missing PV name") b
  else upd (λ o, pv_set_Meta (om_set_Name name (pv_Meta o)) o) b.
Definition WithAnnotations (annotations : gmap string string) (b : Builder) : Builder :=
  if bool_decide (annotations = ∅) then add_err (missing "missing annotations") b
  else upd (λ o, pv_set_Meta (om_set_Annotations (Some annotations) (pv_Meta o)) o) b.
Definition WithLabels (labels : gmap string string) (b : Builder) : Builder :=
  if bool_decide (labels = ∅) then add_err (missing "missing labels") b
  else upd (λ o, pv_set_Meta (om_set_Labels (Some labels) (pv_Meta o)) o) b.

(** WithReclaimPolicy, WithVolumeMode, WithAccessModes *)
Definition WithReclaimPolicy (reclaimPolicy : string) : Builder → Builder :=
  upd (pv_set_ReclaimPolicy reclaimPolicy).
Definition WithVolumeMode (volumeMode : string) : Builder → Builder :=
  upd (pv_set_VolumeMode (Some volumeMode)).
Definition WithAccessModes (accessMode : list string) (b : Builder) : Builder :=
  if bool_decide (length accessMode = 0) then add_err (missing "missing accessmodes") b
  else upd (pv_set_AccessModes accessMode) b.

(** WithCapacityQty, WithCapacity *)
Definition WithCapacityQty (resCapacity : quantity) : Builder → Builder :=
  upd (pv_set_Capacity (Some {[ResourceStorage := resCapacity]})).
Definition WithCapacity (capacity : string) (b : Builder) : Builder :=
  match ParseQuantity capacity with
  | (_, Some e) => add_err (Wrapf e
      "failed to build PV object: failed to parse capacity {%s}" [AStr capacity]) b
  | (resCapacity, None) => WithCapacityQty resCapacity b
  end.

(** WithHostDirectory *)
Definition WithHostDirectory (path : string) (b : Builder) : Builder :=
  if bool_decide (String.length path = 0) then add_err (missing "missing PV path") b
  else upd (pv_set_HostPath (Some (MkHostPath path (Some HostPathDirectoryOrCreate)))) b.

(** WithNodeAffinity *)
Definition WithNodeAffinity (nodeName : string) (b : Builder) : Builder :=
  if bool_decide (String.length nodeName = 0) then add_err (missing "missing PV node name") b
  else upd (pv_set_NodeAffinity (Some [[MkNodeSelector "kubernetes.io/hostname"
              NodeSelectorOpIn [nodeName]]])) b.

(** Build *)
Definition Build (b : Builder) : res PersistentVolume :=
  match errs b with
  | [] => inl (object b)
  | _ :: _ => inr (Errorf "%+v" [AErrs (errs b)])
  end.

(** ** Wrappers and predicates *)

Definition PV : Type := option PersistentVolume.
Definition pvBuildOption : Type := PV → PV.

(** NewForAPIObject *)
Definition NewForAPIObject (obj : option PersistentVolume) (opts : list pvBuildOption) : PV :=
  foldl (λ p o, o p) obj opts.

Definition Predicate : Type := PV → go bool.

(** IsNil, ContainsName: the name is read through the pointer *)
Definition IsNil : Predicate := λ p, mret (match p with None => true | Some _ => false end).
Definition ContainsName (name : string) : Predicate := λ p,
  o ← deref p; mret (Str.Contains (om_Name (pv_Meta o)) name).

(** PredicateList and its all *)
Definition PredicateList : Type := list Predicate.
Fixpoint all (l : PredicateList) (p : PV) : go bool :=
  match l with
  | [] => mret true
  | pred :: l' => b ← pred p; if negb b then mret false else all l' p
  end.

(** PVList: Len, ToAPIList *)
Definition PVList : Type := list PV.
Definition Len (p : PVList) : nat := length p.
Fixpoint toAPILoop (items : PVList) (acc : list PersistentVolume) : go (list PersistentVolume) :=
  match items with
  | [] => mret acc
  | pv :: items' => o ← deref pv; toAPILoop items' (acc ++ [o])
  end.
Definition ToAPIList (p : PVList) : go (list PersistentVolume) := toAPILoop p [].

(** ** List builder *)

Record ListBuilder := MkListBuilder {
  list_ : option PVList; filters : PredicateList; lerrs : list error
}.

(** NewListBuilder, ListBuilderForAPIObjects, ListBuilderForObjects, WithFilter *)
Definition NewListBuilder : ListBuilder := MkListBuilder (Some []) [] [].
Definition ListBuilderForAPIObjects (pvs : option (list PersistentVolume)) : ListBuilder :=
  match pvs with
  | None => MkListBuilder (Some []) [] [Errorf "failed to build pv list: missing api list" []]
  | Some pvs => MkListBuilder (Some (foldl (λ acc pv, acc ++ [Some pv]) [] pvs)) [] []
  end.
Definition ListBuilderForObjects (pvs : option PVList) : ListBuilder :=
  match pvs with
  | None => MkListBuilder None [] [Errorf "failed to build pv list: missing object list" []]
  | Some pvs => MkListBuilder (Some pvs) [] []
  end.
Definition WithFilter (pred : list Predicate) (b : ListBuilder) : ListBuilder :=
  MkListBuilder (list_ b) (filters b ++ pred) (lerrs b).

(** The filtering loop of List *)
Fixpoint filterLoop (fs : list Predicate) (items acc : PVList) : go PVList :=
  match items with
  | [] => mret acc
  | pv :: items' => b ← all fs pv; filterLoop fs items' (if b : bool then acc ++ [pv] else acc)
  end.

(** List: the pointer to the list, or the errors of the builder *)
Definition ListOf (b : ListBuilder) : go (res (option PVList)) :=
  match lerrs b with
  | _ :: _ => fail (Errorf "failed to list pv: %+v" [AErrs (lerrs b)])
  | [] =>
      match filters b with
      | [] => ok (list_ b)
      | _ :: _ => items ← deref (list_ b); l ← filterLoop (filters b) items []; ok (Some l)
      end
  end.

(** Len and APIList of a list builder *)
Definition BLen (b : ListBuilder) : go (res nat) :=
  try (ListOf b) (λ l, items ← deref l; ok (Len items)).
Definition APIList (b : ListBuilder) : go (res (list PersistentVolume)) :=
  try (ListOf b) (λ l, items ← deref l; pvs ← ToAPIList items; ok pvs).

(** ** Kubernetes client *)

Definition getClientsetFn : Type := go (option kclientset * err).
Definition getClientsetForPathFn : Type := string → go (option kclientset * err).
Definition getFn : Type := option kclientset → string → go (option PersistentVolume * err).
Definition listFn : Type := option kclientset → string → go (option (list PersistentVolume) * err).
Definition deleteFn : Type := option kclientset → string → option string → go err.
Definition deleteCollectionFn : Type := option kclientset → string → option string → go err.
Definition createFn : Type :=
  option kclientset → option PersistentVolume → go (option PersistentVolume * err).

Record Kubeclient := MkKubeclient {
  clientset_ : option kclientset;
  kubeConfigPath : string;
  getClientset : option getClientsetFn;
  getClientsetForPath : option getClientsetForPathFn;
  klist : option listFn;
  get_ : option getFn;
  create_ : option createFn;
  del_ : option deleteFn;
  delCollection_ : option deleteCollectionFn
}.
Definition emptyKubeclient : Kubeclient :=
  MkKubeclient None "" None None None None None None None.
Definition KubeclientBuildOption : Type := Kubeclient → Kubeclient.

(** withDefaults *)
Definition withDefaults (k : Kubeclient) : Kubeclient :=
  MkKubeclient (clientset_ k) (kubeConfigPath k)
    (Some (default kGetClientset (getClientset k)))
    (Some (default kGetClientsetForPath (getClientsetForPath k)))
    (Some (default (λ cli opts, c ← deref cli; sys (PvList c opts)) (klist k)))
    (Some (default (λ cli name, c ← deref cli; sys (PvGet c name)) (get_ k)))
    (Some (default (λ cli pv, c ← deref cli; sys (PvCreate c pv)) (create_ k)))
    (Some (default (λ cli name opts, c ← deref cli; o ← deref opts; sys (PvDelete c name o)) (del_ k)))
    (Some (default (λ cli listOpts opts, c ← deref cli; o ← deref opts;
                      sys (PvDeleteCollection c listOpts o)) (delCollection_ k))).

(** WithClientSet, WithKubeConfigPath, NewKubeClient *)
Definition WithClientSet (c : option kclientset) : KubeclientBuildOption := λ k,
  MkKubeclient c (kubeConfigPath k) (getClientset k) (getClientsetForPath k) (klist k) (get_ k)
    (create_ k) (del_ k) (delCollection_ k).
Definition WithKubeConfigPath (path : string) : KubeclientBuildOption := λ k,
  MkKubeclient (clientset_ k) path (getClientset k) (getClientsetForPath k) (klist k) (get_ k)
    (create_ k) (del_ k) (delCollection_ k).
Definition NewKubeClient (opts : list KubeclientBuildOption) : Kubeclient :=
  withDefaults (foldl (λ k o, o k) emptyKubeclient opts).

(** getClientsetForPathOrDirect, getClientsetOrCached *)
Definition getClientsetForPathOrDirect (k : Kubeclient) : go (option kclientset * err) :=
  if negb (bool_decide (kubeConfigPath k = ""))
  then f ← KClient.call (getClientsetForPath k); f (kubeConfigPath k)
  else f ← KClient.call (getClientset k); f.
Definition getClientsetOrCached (k : Kubeclient) : go (Kubeclient * (option kclientset * err)) :=
  match clientset_ k with
  | Some _ => mret (k, (clientset_ k, None))
  | None =>
      '(cs, e) ← getClientsetForPathOrDirect k;
      match e with
      | Some e => mret (k, (None, Some (Wrapf e "failed to get clientset" [])))
      | None => mret (WithClientSet cs k, (cs, None))
      end
  end.

(** Get, List, Delete *)
Definition Get (k : Kubeclient) (name : string) : go (Kubeclient * (option PersistentVolume * err)) :=
  if bool_decide (Str.TrimSpace name = "")
  then mret (k, (None, Some (Errorf "failed to get pv: missing pv name" [])))
  else '(k, (cli, e)) ← getClientsetOrCached k;
  match e with
  | Some e => mret (k, (None, Some (Wrapf e "failed to get pv {%s}" [AStr name])))
  | None => f ← KClient.call (get_ k); r ← f cli name; mret (k, r)
  end.
Definition List (k : Kubeclient) (opts : string) :
    go (Kubeclient * (option (list PersistentVolume) * err)) :=
  '(k, (cli, e)) ← getClientsetOrCached k;
  match e with
  | Some e => mret (k, (None, Some (Wrapf e "failed to list pv listoptions: '%v'" [AStr opts])))
  | None => f ← KClient.call (klist k); r ← f cli opts; mret (k, r)
  end.
Definition Delete (k : Kubeclient) (name : string) (deleteOpts : option string) :
    go (Kubeclient * err) :=
  if bool_decide (Str.TrimSpace name = "")
  then mret (k, Some (Errorf "failed to delete pvc: missing pv name" []))
  else '(k, (cli, e)) ← getClientsetOrCached k;
  match e with
  | Some e => mret (k, Some (Wrapf e "failed to delete pv {%s}" [AStr name]))
  | None => f ← KClient.call (del_ k); r ← f cli name deleteOpts; mret (k, r)
  end.

(** Create: the object's name is read only to report a missing clientset *)
Definition Create (k : Kubeclient) (pv : option PersistentVolume) :
    go (Kubeclient * (option PersistentVolume * err)) :=
  '(k, (cli, e)) ← getClientsetOrCached k;
  match e with
  | Some e => o ← deref pv;
              mret (k, (None, Some (Wrapf e "failed to create pv: %s" [AStr (om_Name (pv_Meta o))])))
  | None => f ← KClient.call (create_ k); r ← f cli pv; mret (k, r)
  end.

(** DeleteCollection *)
Definition DeleteCollection (k : Kubeclient) (listOpts : string) (deleteOpts : option string) :
    go (Kubeclient * err) :=
  '(k, (cli, e)) ← getClientsetOrCached k;
  match e with
  | Some e => mret (k, Some (Wrapf e "failed to delete the collection of pvs" []))
  | None => f ← KClient.call (delCollection_ k); r ← f cli listOpts deleteOpts; mret (k, r)
  end.

End pv.
End Pv.
