(* ===== verification/Services.v ===== *)
(** * Namespaces and services: src/pkg/kubernetes/namespace and
    src/pkg/kubernetes/service

    The Kubernetes clients of both packages.  The service client takes its
    configuration from [Config] alone, never from a kubeconfig path. *)

From S2P Require Export KNode.
Local Open Scope go_scope.

(** ** Namespaces *)

Module Ns.
Section ns.
Context {L : ApiLib}.

Definition getClientsetFn : Type := go (option kclientset * err).
Definition getClientsetForPathFn : Type := string → go (option kclientset * err).
Definition getFn : Type := option kclientset → string → go (option Namespace * err).
Definition createFn : Type := option kclientset → Namespace → go (option Namespace * err).
Definition deleteFn : Type := option kclientset → string → option string → go err.

Record Kubeclient := MkKubeclient {
  clientset_ : option kclientset;
  kubeConfigPath : string;
  getClientset : option getClientsetFn;
  getClientsetForPath : option getClientsetForPathFn;
  get_ : option getFn;
  create_ : option createFn;
  del_ : option deleteFn
}.
Definition emptyKubeclient : Kubeclient := MkKubeclient None "" None None None None None.
Definition KubeclientBuildOption : Type := Kubeclient → Kubeclient.

(** withDefaults *)
Definition withDefaults (k : Kubeclient) : Kubeclient :=
  MkKubeclient (clientset_ k) (kubeConfigPath k)
    (Some (default kGetClientset (getClientset k)))
    (Some (default kGetClientsetForPath (getClientsetForPath k)))
    (Some (default (λ cli name, c ← deref cli; sys (NsGet c name)) (get_ k)))
    (Some (default (λ cli o, c ← deref cli; sys (NsCreate c o)) (create_ k)))
    (Some (default (λ cli name opts, c ← deref cli; o ← deref opts; sys (NsDelete c name o)) (del_ k))).

(** WithClientSet, WithKubeConfigPath, NewKubeClient *)
Definition WithClientSet (c : option kclientset) : KubeclientBuildOption := λ k,
  MkKubeclient c (kubeConfigPath k) (getClientset k) (getClientsetForPath k) (get_ k) (create_ k)
    (del_ k).
Definition WithKubeConfigPath (path : string) : KubeclientBuildOption := λ k,
  MkKubeclient (clientset_ k) path (getClientset k) (getClientsetForPath k) (get_ k) (create_ k)
    (del_ k).
Definition NewKubeClient (opts : list KubeclientBuildOption) : Kubeclient :=
  withDefaults (foldl (λ k o, o k) emptyKubeclient opts).

(** getClientsetForPathOrDirect, getClientsetOrCached *)
Definition getClientsetForPathOrDirect (k : Kubeclient) : go (option kclientset * err) :=
  if negb (bool_decide (kubeConfigPath k = ""))
  then f ← KClient.call (getClientsetForPath k); f (kubeConfigPath k)
  else f ← KClient.call (getClientset k); f.
Definition getClientsetOrCached (k : Kubeclient) : go (Kubeclient * (option kclientset * err)) :=
  match clientset_ k with
  | Some _ => mret (k, (clientset_ k, None))
  | None =>
      '(cs, e) ← getClientsetForPathOrDirect k;
      match e with
      | Some e => mret (k, (None, Some (Wrapf e "failed to get clientset" [])))
      | None => mret (WithClientSet cs k, (cs, None))
      end
  end.

(** Get, Delete, Create *)
Definition Get (k : Kubeclient) (name : string) : go (Kubeclient * (option Namespace * err)) :=
  if bool_decide (Str.TrimSpace name = "")
  then mret (k, (None, Some (Errorf "failed to get namespace: missing namespace name" [])))
  else '(k, (cli, e)) ← getClientsetOrCached k;
  match e with
  | Some e => mret (k, (None, Some (Wrapf e "failed to get namespace {%s}" [AStr name])))
  | None => f ← KClient.call (get_ k); r ← f cli name; mret (k, r)
  end.
Definition Delete (k : Kubeclient) (name : string) (deleteOpts : option string) :
    go (Kubeclient * err) :=
  if bool_decide (Str.TrimSpace name = "")
  then mret (k, Some (Errorf "failed to delete namespace: missing namespace name" []))
  else '(k, (cli, e)) ← getClientsetOrCached k;
  match e with
  | Some e => mret (k, Some (Wrapf e "failed to delete namespace {%s}" [AStr name]))
  | None => f ← KClient.call (del_ k); r ← f cli name deleteOpts; mret (k, r)
  end.
Definition Create (k : Kubeclient) (namespace : option Namespace) :
    go (Kubeclient * (option Namespace * err)) :=
  match namespace with
  | None => mret (k, (None, Some (Errorf "failed to create namespace: nil namespace object" [])))
  | Some namespace =>
    '(k, (cli, e)) ← getClientsetOrCached k;
    match e with
    | Some e => mret (k, (None, Some (Wrapf e "failed to create namespace {%s}"
        [AStr (om_Name (ns_Meta namespace))])))
    | None => f ← KClient.call (create_ k); r ← f cli namespace; mret (k, r)
    end
  end.

End ns.
End Ns.

(** ** Services *)

Module Svc.
Section svc.
Context {L : ApiLib}.

Definition getClientsetFn : Type := go (option kclientset * err).
Definition getFn : Type := option kclientset → string → string → go (option Service * err).
Definition listFn : Type := option kclientset → string → string → go (option (list Service) * err).
Definition delFn : Type := option kclientset → string → string → option string → go err.

Record Kubeclient := MkKubeclient {
  clientset_ : option kclientset;
  namespace : string;
  getClientset : option getClientsetFn;
  list_ : option listFn;
  get_ : option getFn;
  del_ : option delFn
}.
Definition emptyKubeclient : Kubeclient := MkKubeclient None "" None None None None.
Definition KubeclientBuildOption : Type := Kubeclient → Kubeclient.

(** The default clientset of the package *)
Definition defaultClientset : getClientsetFn :=
  '(config, e) ← KClient.Config (KClient.New []);
  match e with
  | Some e => mret (None, Some e)
  | None => config ← deref config; sys (KNewForConfig config)
  end.

(** withDefaults; deletions ask for foreground propagation *)
Definition withDefaults (k : Kubeclient) : Kubeclient :=
  MkKubeclient (clientset_ k) (namespace k)
    (Some (default defaultClientset (getClientset k)))
    (Some (default (λ cli ns opts, c ← deref cli; sys (SvcList c ns opts)) (list_ k)))
    (Some (default (λ cli name ns, c ← deref cli; sys (SvcGet c ns name)) (get_ k)))
    (Some (default (λ cli name ns opts, o ← deref opts; c ← deref cli;
                      sys (SvcDelete c ns name o true)) (del_ k))).

(** WithClientset, WithNamespace (option and method), NewKubeclient *)
Definition WithClientset (c : option kclientset) : KubeclientBuildOption := λ k,
  MkKubeclient c (namespace k) (getClientset k) (list_ k) (get_ k) (del_ k).
Definition WithNamespaceOption (ns : string) : KubeclientBuildOption := λ k,
  MkKubeclient (clientset_ k) ns (getClientset k) (list_ k) (get_ k) (del_ k).
Definition WithNamespace (k : Kubeclient) (ns : string) : Kubeclient :=
  MkKubeclient (clientset_ k) ns (getClientset k) (list_ k) (get_ k) (del_ k).
Definition NewKubeclient (opts : list KubeclientBuildOption) : Kubeclient :=
  withDefaults (foldl (λ k o, o k) emptyKubeclient opts).

(** getClientOrCached *)
Definition getClientOrCached (k : Kubeclient) : go (Kubeclient * (option kclientset * err)) :=
  match clientset_ k with
  | Some _ => mret (k, (clientset_ k, None))
  | None =>
      f ← KClient.call (getClientset k); '(c, e) ← f;
      match e with
      | Some e => mret (k, (None, Some e))
      | None => mret (WithClientset c k, (c, None))
      end
  end.

(** Get, GetRaw, List, ListRaw, Delete *)
Definition Get (k : Kubeclient) (name : string) : go (Kubeclient * (option Service * err)) :=
  '(k, (cli, e)) ← getClientOrCached k;
  match e with
  | Some e => mret (k, (None, Some e))
  | None => f ← KClient.call (get_ k); r ← f cli name (namespace k); mret (k, r)
  end.
Definition GetRaw (k : Kubeclient) (name : string) : go (Kubeclient * res string) :=
  '(k, (svc, e)) ← Get k name;
  match e with
  | Some e => mret (k, inr e)
  | None => r ← sys (JsonMarshal (DSvc svc)); mret (k, r)
  end.
Definition List (k : Kubeclient) (opts : string) :
    go (Kubeclient * (option (list Service) * err)) :=
  '(k, (cli, e)) ← getClientOrCached k;
  match e with
  | Some e => mret (k, (None, Some e))
  | None => f ← KClient.call (list_ k); r ← f cli (namespace k) opts; mret (k, r)
  end.
Definition ListRaw (k : Kubeclient) (opts : string) : go (Kubeclient * res string) :=
  '(k, (svcList, e)) ← List k opts;
  match e with
  | Some e => mret (k, inr e)
  | None => r ← sys (JsonMarshal (DSvcList svcList)); mret (k, r)
  end.
Definition Delete (k : Kubeclient) (name : string) (options : option string) :
    go (Kubeclient * err) :=
  '(k, (cli, e)) ← getClientOrCached k;
  match e with
  | Some e => mret (k, Some e)
  | None => f ← KClient.call (del_ k); r ← f cli name (namespace k) options; mret (k, r)
  end.

End svc.
End Svc.
