(* ===== verification/Iscsi.v ===== *)
(** * iSCSI: src/pkg/iscsi

    Attaching, detaching and growing the disk of a volume with iscsiadm and
    the filesystem tools (iscsi_util.go, mount.go), and the description of a disk
    built from an attachment or from a publish request (iscsi.go,
    iscsi_extra_utils.go). *)

From S2P Require Export Logic.
Local Open Scope go_scope.

Module Iscsi.
Section iscsi.
Context {L : ApiLib}.

(** ** iscsi.go and iscsi_extra_utils.go *)

(** portalMounter *)
Definition portalMounter (portal : string) : string :=
  if negb (Str.Contains portal ":") then portal +:+ ":3260" else portal.

(** parseSecret *)
Definition parseSecret (secretParams : string) : option (gmap string string) :=
  UnmarshalSecret secretParams.

Record iscsiDisk := MkDisk {
  Portals : list string; Iqn : string; lun : string; Iface : string;
  chapDiscovery : bool; chapSession : bool; secret : option (gmap string string);
  InitiatorName : string; VolName : string
}.

(** iscsiDiskMounter *)
Record iscsiDiskMounter := MkMounter {
  disk : iscsiDisk; readOnly : bool; fsType : string;
  mountOptions : list string; targetPath : string
}.

(** getISCSIInfo *)
Definition getISCSIInfo (vol : CStorVolumeAttachment) : res iscsiDisk :=
  let portal := portalMounter (cva_TargetPortal vol) in
  inl (MkDisk [portal] (cva_Iqn vol) (cva_Lun vol) (cva_IscsiInterface vol)
         false false None "" (cva_VolName vol)).

(** getISCSIInfoFromPV *)
Definition getISCSIInfoFromPV (req : NodePublishVolumeRequest) : res iscsiDisk :=
  let ctx k := default "" (npr_VolumeContext req !! k) in
  let tp := ctx "targetPortal" in let iqn := ctx "iqn" in let lun := ctx "lun" in
  if bool_decide (tp = "") || bool_decide (iqn = "") || bool_decide (lun = "")
  then inr (Errorf "iSCSI target information is missing" [])
  else
    let secret := parseSecret (ctx "secret") in
    let portal := portalMounter tp in
    inl (MkDisk [portal] iqn lun (ctx "iscsiInterface")
           (bool_decide (ctx "discoveryCHAPAuth" = "true"))
           (bool_decide (ctx "sessionCHAPAuth" = "true"))
           secret (ctx "initiatorName") (npr_VolumeId req)).

(** getISCSIDiskUnmounter *)
Definition getISCSIDiskUnmounter (req : NodeUnpublishVolumeRequest) : iscsiDisk :=
  MkDisk [] "" "" "" false false None "" (nupr_VolumeId req).

(** ** iscsi_util.go: pure helpers *)

Definition exit_ISCSI_ERR_SESS_NOT_FOUND : Z := 2.
Definition exit_ISCSI_ERR_NO_OBJS_FOUND : Z := 21.

Definition chapSt : list string :=
  ["discovery.sendtargets.auth.username"; "discovery.sendtargets.auth.password";
   "discovery.sendtargets.auth.username_in"; "discovery.sendtargets.auth.password_in"].
Definition chapSess : list string :=
  ["node.session.auth.username"; "node.session.auth.password";
   "node.session.auth.username_in"; "node.session.auth.password_in"].

(** ignoreExitCodes *)
Definition ignoreExitCodes (e : err) (ignored : list Z) : err :=
  match e with
  | Some (ExitErr st _) => if bool_decide (st ∈ ignored) then None else e
  | _ => e
  end.

Definition newline : Ascii.ascii := Ascii.ascii_of_nat 10.

(** The regular expression of [ifaceTransportNameRe], "iface.transport_name = " and the rest of the line, at the start of the
    text: the group, when it matches. *)
Definition matchTransport (s : string) : option string :=
  if Str.HasPrefix s "iface" then
    match Str.drop 5 s with
    | String c s' =>
        if bool_decide (c ≠ newline) && Str.HasPrefix s' "transport_name = " then
          match Str.Split (Str.drop 17 s') newline with
          | group :: _ :: _ => Some group
          | _ => None
          end
        else None
    | EmptyString => None
    end
  else None.

(** FindStringSubmatch: the leftmost match. *)
Fixpoint findTransport (s : string) : option string :=
  match matchTransport s with
  | Some g => Some g
  | None => match s with EmptyString => None | String _ s' => findTransport s' end
  end.

(** extractTransportname *)
Definition extractTransportname (ifaceOutput : string) : string :=
  match findTransport ifaceOutput with
  | None => ""
  | Some iscsiTransport =>
      if bool_decide (iscsiTransport = "<empty>") then "tcp" else iscsiTransport
  end.

(** removeDuplicate: the loop writes kept values into the slice it ranges over *)
Fixpoint removeDuplicateLoop (idxs : list nat) (s : list string) (m : gset string) :
    list string * gset string :=
  match idxs with
  | [] => (s, m)
  | i :: idxs' =>
      match s !! i with
      | Some v =>
          if negb (bool_decide (v = "")) && negb (bool_decide (v ∈ m))
          then removeDuplicateLoop idxs' (<[size m := v]> s) ({[v]} ∪ m)
          else removeDuplicateLoop idxs' s m
      | None => removeDuplicateLoop idxs' s m
      end
  end.
Definition removeDuplicate (s : list string) : list string :=
  let '(s', m) := removeDuplicateLoop (seq 0 (length s)) s ∅ in take (size m) s'.

(** parseIscsiadmShow *)
Fixpoint parseShowLoop (lines : list string) (params : gmap string string) :
    res (gmap string string) :=
  match lines with
  | [] => inl params
  | line :: lines' =>
      if negb (Str.HasPrefix line "iface.") || Str.Contains line "<empty>"
      then parseShowLoop lines' params
      else
        let iface := Str.Fields line in
        match iface with
        | [key; eq; val] =>
            if bool_decide (eq = "=") then
              if bool_decide (key = "iface.iscsi_ifacename") then parseShowLoop lines' params
              else parseShowLoop lines' (<[key := val]> params)
            else inr (Errorf "Error: invalid iface setting: %v" [AStrs iface])
        | _ => inr (Errorf "Error: invalid iface setting: %v" [AStrs iface])
        end
  end.
Definition parseIscsiadmShow (output : string) : res (gmap string string) :=
  parseShowLoop (Str.Split output newline) ∅.

(** ** iscsi_util.go: iscsiadm *)

Definition secret_get (d : iscsiDisk) (k : string) : string := smap_get (secret d) k.

(** The loops over the CHAP keys: each non-empty secret is one update. *)
Fixpoint updateKeys (d : iscsiDisk) (keys : list string) (cmd : string → string → list string)
    (failure : string) : go err :=
  match keys with
  | [] => mret None
  | k :: keys' =>
      let v := secret_get d k in
      if bool_decide (0 < String.length v) then
        '(out, e) ← sys (Exec "iscsiadm" (cmd k v));
        match e with
        | Some _ => mret (Some (Errorf failure [AStr k; AStr v; AStr out]))
        | None => updateKeys d keys' cmd failure
        end
      else updateKeys d keys' cmd failure
  end.

(** updateISCSIDiscoverydb *)
Definition updateISCSIDiscoverydb (d : iscsiDisk) (tp : string) : go err :=
  if negb (chapDiscovery d) then mret None
  else
    let cmd k v := ["-m"; "discoverydb"; "-t"; "sendtargets"; "-p"; tp; "-I"; Iface d;
                    "-o"; "update"; "-n"; k; "-v"; v] in
    '(out, e) ← sys (Exec "iscsiadm" (cmd "discovery.sendtargets.auth.authmethod" "CHAP"));
    match e with
    | Some _ => mret (Some (Errorf
        "iscsi: failed to update discoverydb with CHAP, output: %v" [AStr out]))
    | None => updateKeys d chapSt cmd
        "iscsi: failed to update discoverydb key %q with value %q error: %v"
    end.

(** updateISCSINode *)
Definition updateISCSINode (d : iscsiDisk) (tp : string) : go err :=
  if negb (chapSession d) then mret None
  else
    let cmd k v := ["-m"; "node"; "-p"; tp; "-T"; Iqn d; "-I"; Iface d;
                    "-o"; "update"; "-n"; k; "-v"; v] in
    '(out, e) ← sys (Exec "iscsiadm" (cmd "node.session.auth.authmethod" "CHAP"));
    match e with
    | Some _ => mret (Some (Errorf
        "iscsi: failed to update node with CHAP, output: %v" [AStr out]))
    | None => updateKeys d chapSess cmd
        "iscsi: failed to update node session key %q with value %q error: %v"
    end.

(** StatFunc and GlobFunc: of the file's information only the error is used *)
Definition StatFunc : Type := string → go err.
Definition GlobFunc : Type := string → go (option (list string) * err).

(** waitForPathToExistInternal: the pointed-to device path afterwards and the
    verdict.  [n] iterations are left. *)
Section wait.
Context (osStat : StatFunc) (filepathGlob : GlobFunc).

Fixpoint waitLoop (n : nat) (devicePath deviceTransport : string) : go (string * bool) :=
  match n with
  | 0 => mret (devicePath, false)
  | S n' =>
      '(devicePath, e) ←
        (if bool_decide (deviceTransport = "tcp")
         then e ← osStat devicePath; mret (devicePath, e)
         else '(fpath, _) ← filepathGlob devicePath;
              match fpath with
              | None => mret (devicePath, Some (OsErr ENotExist "file does not exist"))
              | Some [] => Panic "runtime error: index out of range"
              | Some (p :: _) => mret (p, None)
              end);
      match e with
      | None => mret (devicePath, true)
      | Some e =>
          if negb (os_IsNotExist e) then mret (devicePath, false)
          else match n' with
               | 0 => mret (devicePath, false)
               | S _ => _ ← sys (Sleep 1); waitLoop n' devicePath deviceTransport
               end
      end
  end.

Definition waitForPathToExistInternal (devicePath : option string) (maxRetries : nat)
    (deviceTransport : string) : go (option string * bool) :=
  match devicePath with
  | None => mret (None, false)
  | Some devicePath =>
      '(p, b) ← waitLoop maxRetries devicePath deviceTransport; mret (Some p, b)
  end.
End wait.

(** waitForPathToExist *)
Definition waitForPathToExist (devicePath : string) (maxRetries : nat)
    (deviceTransport : string) : go (string * bool) :=
  '(p, b) ← waitForPathToExistInternal (λ p, sys (OsStat p)) (λ p, sys (Glob p))
      (Some devicePath) maxRetries deviceTransport;
  mret (default devicePath p, b).

(** encoding/json sees the exported fields of [iscsiDisk] only: what it writes
    of a disk, and a disk after the fields found in a document were set. *)
Definition exported (d : iscsiDisk) : DiskDoc :=
  MkDiskDoc (Portals d) (Iqn d) (Iface d) (InitiatorName d) (VolName d).
Definition decoded (f : DiskFields) (d : iscsiDisk) : iscsiDisk :=
  MkDisk (default (Portals d) (fld_Portals f)) (default (Iqn d) (fld_Iqn f)) (lun d)
    (default (Iface d) (fld_Iface f)) (chapDiscovery d) (chapSession d) (secret d)
    (default (InitiatorName d) (fld_InitiatorName f)) (default (VolName d) (fld_VolName f)).

(** persistISCSI, and loadISCSI with the disk it was given as it leaves it *)
Definition persistISCSI (conf : iscsiDisk) (mnt : string) : go err :=
  let file := Str.path_Join [mnt; VolName conf +:+ ".json"] in
  e ← sys (OsCreate file);
  match e with
  | Some e => mret (Some (Errorf "iscsi: create %s err %s" [AStr file; AErr e]))
  | None =>
      defer (sys (CloseFile file))
        (e ← sys (EncodeDisk file (exported conf));
         match e with
         | Some e => mret (Some (Errorf "iscsi: encode err: %v" [AErr e]))
         | None => mret None
         end)
  end.
Definition loadISCSI (conf : iscsiDisk) (mnt : string) : go (iscsiDisk * err) :=
  let file := Str.path_Join [mnt; VolName conf +:+ ".json"] in
  e ← sys (OsOpen file);
  match e with
  | Some e => mret (conf, Some (Errorf "iscsi: open %s err %s" [AStr file; AErr e]))
  | None =>
      defer (sys (CloseFile file))
        ('(f, e) ← sys (DecodeDisk file);
         match e with
         | Some e => mret (decoded f conf, Some (Errorf "iscsi: decode err: %v" [AErr e]))
         | None => mret (decoded f conf, None)
         end)
  end.

(** The update loop of cloneIface, in the order the map iteration gives *)
Fixpoint cloneUpdates (d : iscsiDisk) (newIface out : string) (params : list (string * string)) :
    go err :=
  match params with
  | [] => mret None
  | (key, val) :: params' =>
      '(_, e) ← sys (Exec "iscsiadm" ["-m"; "iface"; "-I"; newIface;
                                     "-o"; "update"; "-n"; key; "-v"; val]);
      match e with
      | None => cloneUpdates d newIface out params'
      | Some e =>
          _ ← sys (Exec "iscsiadm" ["-m"; "iface"; "-I"; newIface; "-o"; "delete"]);
          mret (Some (Errorf
            "iscsi: failed to update iface records: %s (%v). iface(%s) will be used"
            [AStr out; AErr e; AStr (Iface d)]))
      end
  end.

(** cloneIface *)
Definition cloneIface (d : iscsiDisk) (newIface : string) : go err :=
  '(out, e) ← sys (Exec "iscsiadm" ["-m"; "iface"; "-I"; Iface d; "-o"; "show"]);
  match e with
  | Some e => mret (Some (Errorf "iscsi: failed to show iface records: %s (%v)" [AStr out; AErr e]))
  | None =>
    match parseIscsiadmShow out with
    | inr e => mret (Some (Errorf "iscsi: failed to parse iface records: %s (%v)" [AStr out; AErr e]))
    | inl params =>
        let params := <["iface.initiatorname" := InitiatorName d]> params in
        '(out, e) ← sys (Exec "iscsiadm" ["-m"; "iface"; "-I"; newIface; "-o"; "new"]);
        match e with
        | Some e => mret (Some (Errorf "iscsi: failed to create new iface: %s (%v)" [AStr out; AErr e]))
        | None => order ← sys (RangeMap params); cloneUpdates d newIface out order
        end
    end
  end.

(** ** iscsi_util.go: attaching a disk *)

(** The state of AttachDisk's loop over the portals. *)
Record attachState := MkAttach { devicePaths : list string; lastErr : err }.

(** The body of that loop: rescan, look for the device, else discover, update
    the databases, log in and wait for the device.  [inl] is an early return. *)
Definition attachPortal (d : iscsiDisk) (iscsiTransport tp : string) (st : attachState) :
    go (string * err + attachState) :=
  _ ← sys (Exec "iscsiadm" ["-m"; "node"; "-p"; tp; "-T"; Iqn d; "-R"]);
  if bool_decide (iscsiTransport = "")
  then mret (inl ("", Some (Errorf "Could not parse iface file for %s" [AStr (Iface d)])))
  else
    let devicePath :=
      if bool_decide (iscsiTransport = "tcp")
      then Str.Join ["/dev/disk/by-path/ip"; tp; "iscsi"; Iqn d; "lun"; lun d] "-"
      else Str.Join ["/dev/disk/by-path/pci"; "*"; "ip"; tp; "iscsi"; Iqn d; "lun"; lun d] "-" in
    let skip e := mret (inr (MkAttach (devicePaths st) (Some e))) in
    '(devicePath, found) ← waitForPathToExist devicePath 1 iscsiTransport;
    if found : bool then mret (inr (MkAttach (devicePaths st ++ [devicePath]) (lastErr st)))
    else
      _ ← sys (Exec "iscsiadm" ["-m"; "discoverydb"; "-t"; "sendtargets"; "-p"; tp;
                               "-I"; Iface d; "-o"; "new"]);
      e ← updateISCSIDiscoverydb d tp;
      match e with
      | Some e => skip (Errorf "iscsi: failed to update discoverydb to portal %s error: %v"
                          [AStr tp; AErr e])
      | None =>
      '(out, e) ← sys (Exec "iscsiadm" ["-m"; "discoverydb"; "-t"; "sendtargets"; "-p"; tp;
                                       "-I"; Iface d; "--discover"]);
      match e with
      | Some e =>
          _ ← sys (Exec "iscsiadm" ["-m"; "discoverydb"; "-t"; "sendtargets"; "-p"; tp;
                                   "-I"; Iface d; "-o"; "delete"]);
          skip (Errorf "iscsi: failed to sendtargets to portal %s output: %s, err %v"
                  [AStr tp; AStr out; AErr e])
      | None =>
      e ← updateISCSINode d tp;
      match e with
      | Some e => skip (Errorf "iscsi: failed to update iscsi node to portal %s error: %v"
                          [AStr tp; AErr e])
      | None =>
      '(out, e) ← sys (Exec "iscsiadm" ["-m"; "node"; "-p"; tp; "-T"; Iqn d; "-I"; Iface d; "--login"]);
      match e with
      | Some e =>
          _ ← sys (Exec "iscsiadm" ["-m"; "node"; "-p"; tp; "-I"; Iface d; "-T"; Iqn d;
                                   "-o"; "delete"]);
          skip (Errorf "iscsi: failed to attach disk: Error: %s (%v)" [AStr out; AErr e])
      | None =>
      '(devicePath, found) ← waitForPathToExist devicePath 10 iscsiTransport;
      if found : bool then mret (inr (MkAttach (devicePaths st ++ [devicePath]) (lastErr st)))
      else skip (Errorf "Could not attach disk: Timeout after 10s" [])
      end end end end.

(** The search for a multipath device: the first path that has one wins. *)
Fixpoint findMultipath (paths : list string) (devicePath : string) : go string :=
  match paths with
  | [] => mret devicePath
  | path :: paths' =>
      if bool_decide (path = "") then findMultipath paths' devicePath
      else
        mappedDevicePath ← sys (FindMultipathDevice path);
        if negb (bool_decide (mappedDevicePath = "")) then mret mappedDevicePath
        else findMultipath paths' devicePath
  end.

(** The interface the disk uses: a clone of the configured one when an
    initiator name is given. *)
Definition attachIface (d : iscsiDisk) : go (iscsiDisk * err) :=
  if negb (bool_decide (InitiatorName d = "")) then
    match Portals d with
    | [] => Panic "runtime error: index out of range"
    | p0 :: _ =>
        let newIface := p0 +:+ ":" +:+ VolName d in
        e ← cloneIface d newIface;
        match e with
        | Some e => mret (d, Some e)
        | None => mret (MkDisk (Portals d) (Iqn d) (lun d) newIface (chapDiscovery d)
                          (chapSession d) (secret d) (InitiatorName d) (VolName d), None)
        end
    end
  else mret (d, None).

(** The part of AttachDisk after the loop: pick a path and mount it. *)
Definition attachMount (b : iscsiDiskMounter) (d : iscsiDisk) (st : attachState) :
    go (string * err) :=
  match devicePaths st with
  | [] =>
      _ ← sys (Exec "iscsiadm" ["-m"; "iface"; "-I"; Iface d; "-o"; "delete"]);
      mret ("", Some (Errorf "failed to get any path for iscsi disk, last err seen:%v"
                        (match lastErr st with Some e => [AErr e] | None => [] end)))
  | devicePath :: _ =>
      let mntPath := targetPath b in
      '(notMnt, e) ← sys (IsLikelyNotMountPoint mntPath);
      match (match e with Some e0 => if os_IsNotExist e0 then None else Some e0 | None => None end) with
      | Some e => mret ("", Some (Errorf "Heuristic determination of mount point failed:%v" [AErr e]))
      | None =>
          if negb notMnt then mret ("", None)
          else
            devicePath ← findMultipath (devicePaths st) devicePath;
            let options := [if readOnly b then "ro" else "rw"] ++ mountOptions b in
            e ← sys (FormatAndMount devicePath mntPath (fsType b) options);
            mret (devicePath, e)
      end
  end.

(** AttachDisk *)
Definition AttachDisk (b : iscsiDiskMounter) : go (string * err) :=
  let d := disk b in
  '(out, e) ← sys (Exec "iscsiadm" ["-m"; "iface"; "-I"; Iface d; "-o"; "show"]);
  match e with
  | Some e => mret ("", Some e)
  | None =>
      let iscsiTransport := extractTransportname out in
      '(d, e) ← attachIface d;
      match e with
      | Some e => mret ("", Some e)
      | None =>
          r ← range (Portals d) (MkAttach [] None) (attachPortal d iscsiTransport);
          match r with
          | inl ret => mret ret
          | inr st => attachMount b d st
          end
      end
  end.

(** ** iscsi_util.go: detaching a disk *)

(** The loop of detachISCSIDisk over the portals: log out, then delete the
    node record; both tolerate "no such session" and "no such record". *)
Fixpoint detachPortals (portals : list string) (iqn iface : string) (found : bool) : go err :=
  match portals with
  | [] => mret None
  | portal :: portals' =>
      let ifaceArgs := if found then ["-I"; iface] else [] in
      let logoutArgs := ["-m"; "node"; "-p"; portal; "-T"; iqn; "--logout"] ++ ifaceArgs in
      let deleteArgs := ["-m"; "node"; "-p"; portal; "-T"; iqn; "-o"; "delete"] ++ ifaceArgs in
      let ignored := [exit_ISCSI_ERR_NO_OBJS_FOUND; exit_ISCSI_ERR_SESS_NOT_FOUND] in
      '(_, e) ← sys (Exec "iscsiadm" logoutArgs);
      match ignoreExitCodes e ignored with
      | Some e => mret (Some e)
      | None =>
          '(_, e) ← sys (Exec "iscsiadm" deleteArgs);
          match ignoreExitCodes e ignored with
          | Some e => mret (Some e)
          | None => detachPortals portals' iqn iface found
          end
      end
  end.

(** detachISCSIDisk *)
Definition detachISCSIDisk (portals : list string) (iqn iface volName initiatorName : string)
    (found : bool) : go err :=
  e ← detachPortals portals iqn iface found;
  match e with
  | Some e => mret (Some e)
  | None =>
      if negb (bool_decide (initiatorName = "")) && found then
        match portals with
        | [] => Panic "runtime error: index out of range"
        | p0 :: _ =>
            if bool_decide (iface = p0 +:+ ":" +:+ volName) then
              '(_, e) ← sys (Exec "iscsiadm" ["-m"; "iface"; "-I"; iface; "-o"; "delete"]);
              mret (ignoreExitCodes e [exit_ISCSI_ERR_NO_OBJS_FOUND; exit_ISCSI_ERR_SESS_NOT_FOUND])
            else mret None
        end
      else mret None
  end.

(** The tail of DetachDisk, once nothing is mounted on the path. *)
Definition detachLogout (d : iscsiDisk) (targetPath : string) : go err :=
  let portals := removeDuplicate (Portals d) in
  if bool_decide (length portals = 0)
  then mret (Some (Errorf
    "iscsi detach disk: failed to detach iscsi disk. Couldn't get connected portals from configurations" []))
  else
    e ← detachISCSIDisk portals (Iqn d) (Iface d) (VolName d) (InitiatorName d) true;
    match e with
    | Some e => mret (Some (Errorf
        "failed to finish detachISCSIDisk operation of volume %s, err: %v" [AStr (VolName d); AErr e]))
    | None => sys (RemoveAll targetPath)
    end.

(** DetachDisk *)
Definition DetachDisk (d : iscsiDisk) (targetPath : string) : go err :=
  '(pathExists, pathErr) ← sys (MountPathExists targetPath);
  match pathErr with
  | Some e => mret (Some (Errorf "Error checking if path exists: %v" [AErr e]))
  | None =>
    if negb pathExists then mret None
    else
      '(notMnt, e) ← sys (IsLikelyNotMountPoint targetPath);
      match e with
      | Some e => mret (Some e)
      | None =>
          e ← (if negb notMnt then sys (Unmount targetPath) else mret None);
          match e with
          | Some e => mret (Some e)
          | None =>
              '(_, cnt, e) ← sys (GetDeviceNameFromMount targetPath);
              match e with
              | Some e => mret (Some e)
              | None =>
                  if bool_decide (0 < cnt)%Z
                  then mret (Some (Errorf
                    "iscsi detach failed: volume still mounted at %q mount paths" [AInt cnt]))
                  else detachLogout d targetPath
              end
          end
      end
  end.

(** UnmountDisk *)
Definition UnmountDisk (targetPath : string) : go err :=
  '(pathExists, pathErr) ← sys (MountPathExists targetPath);
  match pathErr with
  | Some e => mret (Some (Errorf "Error checking if path exists: %v" [AErr e]))
  | None => if negb pathExists then mret None else sys (Unmount targetPath)
  end.

(** ReScan, ResizeExt4, ResizeXFS *)
Definition ReScan (iqn targetPortal : string) : go err :=
  '(_, e) ← sys (Exec "iscsiadm" ["-m"; "node"; "-T"; iqn; "-P"; targetPortal; "--rescan"]); mret e.
Definition ResizeExt4 (path : string) : go err := '(_, e) ← sys (Exec "resize2fs" [path]); mret e.
Definition ResizeXFS (path : string) : go err := '(_, e) ← sys (Exec "xfs_growfs" [path]); mret e.

(** ** mount.go *)

(** UnmountAndDetachDisk *)
Definition UnmountAndDetachDisk (vol : CStorVolumeAttachment) (path : string) : go err :=
  DetachDisk (MkDisk [cva_TargetPortal vol] (cva_Iqn vol) (cva_Lun vol) (cva_IscsiInterface vol)
                false false None "" (cva_VolName vol)) path.

(** Unmount *)
Definition UnmountPath (path : string) : go err := UnmountDisk path.

(** ResizeVolume: the first mount point on the path decides *)
Fixpoint resizeLoop (mounts : list MountPoint) (volumePath : string) (vol : CStorVolumeAttachment) :
    go err :=
  match mounts with
  | [] => mret None
  | mpt :: mounts' =>
      if bool_decide (mp_Path mpt = volumePath) then
        e ← ReScan (cva_Iqn vol) (cva_TargetPortal vol);
        match e with
        | Some e => mret (Some e)
        | None =>
            if bool_decide (cva_FSType vol = "ext4") then ResizeExt4 (mp_Device mpt)
            else if bool_decide (cva_FSType vol = "xfs") then ResizeXFS volumePath
            else mret None
        end
      else resizeLoop mounts' volumePath vol
  end.
Definition ResizeVolume (volumePath : string) (vol : CStorVolumeAttachment) : go err :=
  '(mounts, _) ← sys MountList;
  resizeLoop mounts volumePath vol.

(** ** What the operations touch *)

Lemma only_updateKeys d keys cmd failure : only (kinds [KDisk]) (updateKeys d keys cmd failure).
Proof. induction keys; cbn [updateKeys]; solve_only. Qed.
#[local] Hint Extern 0 (only _ (updateKeys _ _ _ _)) => only_by only_updateKeys : only.

Lemma only_updateISCSIDiscoverydb d tp : only (kinds [KDisk]) (updateISCSIDiscoverydb d tp).
Proof. unfold updateISCSIDiscoverydb. solve_only. Qed.
#[local] Hint Extern 0 (only _ (updateISCSIDiscoverydb _ _)) => only_by only_updateISCSIDiscoverydb : only.

Lemma only_updateISCSINode d tp : only (kinds [KDisk]) (updateISCSINode d tp).
Proof. unfold updateISCSINode. solve_only. Qed.
#[local] Hint Extern 0 (only _ (updateISCSINode _ _)) => only_by only_updateISCSINode : only.

Lemma only_cloneUpdates d i out params : only (kinds [KDisk]) (cloneUpdates d i out params).
Proof. induction params; cbn [cloneUpdates]; solve_only. Qed.
#[local] Hint Extern 0 (only _ (cloneUpdates _ _ _ _)) => only_by only_cloneUpdates : only.

Lemma only_cloneIface d i : only (kinds [KDisk; KClock]) (cloneIface d i).
Proof. unfold cloneIface. solve_only. Qed.
#[local] Hint Extern 0 (only _ (cloneIface _ _)) => only_by only_cloneIface : only.

Lemma only_waitForPathToExist p n t : only (kinds [KLook; KClock]) (waitForPathToExist p n t).
Proof. unfold waitForPathToExist, waitForPathToExistInternal. apply only_bind; [|solve_only].
  apply only_bind; [|solve_only]. revert p. induction n; simpl; solve_only. Qed.
#[local] Hint Extern 0 (only _ (waitForPathToExist _ _ _)) => only_by only_waitForPathToExist : only.

Lemma only_attachPortal d t tp st : only (kinds [KDisk; KLook; KClock]) (attachPortal d t tp st).
Proof. unfold attachPortal. solve_only. Qed.
#[local] Hint Extern 0 (only _ (attachPortal _ _ _ _)) => only_by only_attachPortal : only.

Lemma only_findMultipath paths p : only (kinds [KLook]) (findMultipath paths p).
Proof. induction paths; cbn [findMultipath]; solve_only. Qed.
#[local] Hint Extern 0 (only _ (findMultipath _ _)) => only_by only_findMultipath : only.

Lemma only_attachIface d : only (kinds [KDisk; KClock]) (attachIface d).
Proof. unfold attachIface. solve_only. Qed.
#[local] Hint Extern 0 (only _ (attachIface _)) => only_by only_attachIface : only.

Lemma only_attachMount b d st : only (kinds [KDisk; KLook]) (attachMount b d st).
Proof. unfold attachMount. solve_only. Qed.
#[local] Hint Extern 0 (only _ (attachMount _ _ _)) => only_by only_attachMount : only.

Lemma only_AttachDisk b : only (kinds [KDisk; KLook; KClock]) (AttachDisk b).
Proof. unfold AttachDisk. solve_only. Qed.
#[local] Hint Extern 0 (only _ (AttachDisk _)) => only_by only_AttachDisk : only.

Lemma only_detachPortals portals iqn iface found : only (kinds [KDisk]) (detachPortals portals iqn iface found).
Proof. induction portals; cbn [detachPortals]; solve_only. Qed.
#[local] Hint Extern 0 (only _ (detachPortals _ _ _ _)) => only_by only_detachPortals : only.

Lemma only_detachISCSIDisk portals iqn iface v i found : only (kinds [KDisk]) (detachISCSIDisk portals iqn iface v i found).
Proof. unfold detachISCSIDisk. solve_only. Qed.
#[local] Hint Extern 0 (only _ (detachISCSIDisk _ _ _ _ _ _)) => only_by only_detachISCSIDisk : only.

Lemma only_detachLogout d p : only (kinds [KDisk]) (detachLogout d p).
Proof. unfold detachLogout. solve_only. Qed.
#[local] Hint Extern 0 (only _ (detachLogout _ _)) => only_by only_detachLogout : only.

Lemma only_DetachDisk d p : only (kinds [KDisk; KLook]) (DetachDisk d p).
Proof. unfold DetachDisk. solve_only. Qed.
#[local] Hint Extern 0 (only _ (DetachDisk _ _)) => only_by only_DetachDisk : only.

Lemma only_UnmountDisk p : only (kinds [KDisk; KLook]) (UnmountDisk p).
Proof. unfold UnmountDisk. solve_only. Qed.
#[local] Hint Extern 0 (only _ (UnmountDisk _)) => only_by only_UnmountDisk : only.

Lemma only_ReScan i p : only (kinds [KDisk]) (ReScan i p).
Proof. unfold ReScan. solve_only. Qed.
#[local] Hint Extern 0 (only _ (ReScan _ _)) => only_by only_ReScan : only.

Lemma only_ResizeExt4 p : only (kinds [KDisk]) (ResizeExt4 p).
Proof. unfold ResizeExt4. solve_only. Qed.
#[local] Hint Extern 0 (only _ (ResizeExt4 _)) => only_by only_ResizeExt4 : only.

Lemma only_ResizeXFS p : only (kinds [KDisk]) (ResizeXFS p).
Proof. unfold ResizeXFS. solve_only. Qed.
#[local] Hint Extern 0 (only _ (ResizeXFS _)) => only_by only_ResizeXFS : only.

Lemma only_UnmountAndDetachDisk vol p : only (kinds [KDisk; KLook]) (UnmountAndDetachDisk vol p).
Proof. unfold UnmountAndDetachDisk. solve_only. Qed.
#[local] Hint Extern 0 (only _ (UnmountAndDetachDisk _ _)) => only_by only_UnmountAndDetachDisk : only.

Lemma only_UnmountPath p : only (kinds [KDisk; KLook]) (UnmountPath p).
Proof. unfold UnmountPath. solve_only. Qed.
#[local] Hint Extern 0 (only _ (UnmountPath _)) => only_by only_UnmountPath : only.

Lemma only_resizeLoop mounts p vol : only (kinds [KDisk]) (resizeLoop mounts p vol).
Proof. induction mounts; cbn [resizeLoop]; solve_only. Qed.
#[local] Hint Extern 0 (only _ (resizeLoop _ _ _)) => only_by only_resizeLoop : only.

Lemma only_ResizeVolume p vol : only (kinds [KDisk; KLook]) (ResizeVolume p vol).
Proof. unfold ResizeVolume. solve_only. Qed.
#[local] Hint Extern 0 (only _ (ResizeVolume _ _)) => only_by only_ResizeVolume : only.

End iscsi.
End Iscsi.
#[export] Hint Extern 0 (only _ (Iscsi.updateKeys _ _ _ _)) => only_by Iscsi.only_updateKeys : only.
#[export] Hint Extern 0 (only _ (Iscsi.updateISCSIDiscoverydb _ _)) => only_by Iscsi.only_updateISCSIDiscoverydb : only.
#[export] Hint Extern 0 (only _ (Iscsi.updateISCSINode _ _)) => only_by Iscsi.only_updateISCSINode : only.
#[export] Hint Extern 0 (only _ (Iscsi.cloneUpdates _ _ _ _)) => only_by Iscsi.only_cloneUpdates : only.
#[export] Hint Extern 0 (only _ (Iscsi.cloneIface _ _)) => only_by Iscsi.only_cloneIface : only.
#[export] Hint Extern 0 (only _ (Iscsi.waitForPathToExist _ _ _)) => only_by Iscsi.only_waitForPathToExist : only.
#[export] Hint Extern 0 (only _ (Iscsi.attachPortal _ _ _ _)) => only_by Iscsi.only_attachPortal : only.
#[export] Hint Extern 0 (only _ (Iscsi.findMultipath _ _)) => only_by Iscsi.only_findMultipath : only.
#[export] Hint Extern 0 (only _ (Iscsi.attachIface _)) => only_by Iscsi.only_attachIface : only.
#[export] Hint Extern 0 (only _ (Iscsi.attachMount _ _ _)) => only_by Iscsi.only_attachMount : only.
#[export] Hint Extern 0 (only _ (Iscsi.AttachDisk _)) => only_by Iscsi.only_AttachDisk : only.
#[export] Hint Extern 0 (only _ (Iscsi.detachPortals _ _ _ _)) => only_by Iscsi.only_detachPortals : only.
#[export] Hint Extern 0 (only _ (Iscsi.detachISCSIDisk _ _ _ _ _ _)) => only_by Iscsi.only_detachISCSIDisk : only.
#[export] Hint Extern 0 (only _ (Iscsi.detachLogout _ _)) => only_by Iscsi.only_detachLogout : only.
#[export] Hint Extern 0 (only _ (Iscsi.DetachDisk _ _)) => only_by Iscsi.only_DetachDisk : only.
#[export] Hint Extern 0 (only _ (Iscsi.UnmountDisk _)) => only_by Iscsi.only_UnmountDisk : only.
#[export] Hint Extern 0 (only _ (Iscsi.ReScan _ _)) => only_by Iscsi.only_ReScan : only.
#[export] Hint Extern 0 (only _ (Iscsi.ResizeExt4 _)) => only_by Iscsi.only_ResizeExt4 : only.
#[export] Hint Extern 0 (only _ (Iscsi.ResizeXFS _)) => only_by Iscsi.only_ResizeXFS : only.
#[export] Hint Extern 0 (only _ (Iscsi.UnmountAndDetachDisk _ _)) => only_by Iscsi.only_UnmountAndDetachDisk : only.
#[export] Hint Extern 0 (only _ (Iscsi.UnmountPath _)) => only_by Iscsi.only_UnmountPath : only.
#[export] Hint Extern 0 (only _ (Iscsi.resizeLoop _ _ _)) => only_by Iscsi.only_resizeLoop : only.
#[export] Hint Extern 0 (only _ (Iscsi.ResizeVolume _ _)) => only_by Iscsi.only_ResizeVolume : only.
