(* ===== verification/Maya.v ===== *)
(** * Volumes as claims: src/pkg/utils/maya.go

    Provisioning, deleting, looking up and resizing a volume through its
    CStorVolumeConfig, and fetching its iSCSI target. *)

From S2P Require Export Logic Rounding VolumeConfig VolumeAttachment Volume KNode.
From Stdlib Require Import Ascii.
Local Open Scope go_scope.

(** The package variables of src/pkg/utils set from the process environment. *)
Class Globals := { OpenEBSNamespace : string; NodeIDENV : string }.

Module Maya.
Section maya.
Context {L : ApiLib} {G : Globals}.

Definition OpenebsVolumePolicy : string := "openebs.io/volume-policy".
Definition OpenebsPVC : string := "openebs.io/persistent-volume-claim".
Definition OpenebsVolumeID : string := "openebs.io/volumeID".
Definition OpenebsCSPCName : string := "openebs.io/cstor-pool-cluster".
Definition CVCFinalizer : string := "cvc.openebs.io/finalizer".
Definition TargetLunID : string := "0".
Definition DefaultIscsiInterface : string := "default".
Definition volumeCreatedThrough : string := "openebs.io/created-through".

(** resource.MustParse panics on a string that does not parse. *)
Definition MustParse (s : string) : go quantity :=
  match ParseQuantity s with
  | (q, None) => mret q
  | (_, Some _) => Panic "cannot parse quantity"
  end.

(** [fmt.Sprintf("%dGi", n)] *)
Definition fmtGi (n : Z) : string := Str.Itoa n +:+ "Gi".

(** GetVolumeSourceDetails: [volSrc[1]] panics when there is no separator *)
Definition GetVolumeSourceDetails (snapshotID : string) : go (string * string * err) :=
  let volSrc := Str.Split snapshotID "@"%char in
  if bool_decide (length volSrc = 0)
  then mret ("", "", Some (Errorf "failed to get volumeSource" []))
  else match volSrc !! 0, volSrc !! 1 with
       | Some v0, Some v1 => mret (v0, v1, None)
       | _, _ => Panic "runtime error: index out of range"
       end.

(** The request object of ProvisionVolume: the chain of builder calls. *)
Definition provisionObject (volName replicaCount snapshotID nodeID : string)
    (annotations labels : gmap string string) (sSize : quantity) : res CStorVolumeConfig :=
  Cvc.Build
    (Cvc.WithStatusPhase CVCPhasePending
    (Cvc.WithDependentsUpgraded
    (Cvc.WithProvisionCapacityQty sSize
    (Cvc.WithReplicaCount replicaCount
    (Cvc.WithNodeID nodeID
    (Cvc.WithSource snapshotID
    (Cvc.WithCapacityQty sSize
    (Cvc.WithFinalizers [CVCFinalizer]
    (Cvc.WithLabelsNew labels
    (Cvc.WithAnnotations annotations
    (Cvc.BWithNamespace OpenEBSNamespace
    (Cvc.WithName volName Cvc.NewBuilder)))))))))))).

(** ProvisionVolume *)
Definition ProvisionVolume (size : Z)
    (volName replicaCount cspcName snapshotID nodeID policyName pvcName pvcNamespace : string) :
    go err :=
  let annotations : gmap string string :=
    <[OpenebsVolumeID := volName]> (<[OpenebsVolumePolicy := policyName]> {[OpenebsPVC := pvcName]}) in
  r ← (if negb (bool_decide (pvcName = "")) then
         '(_, (pvcObj, e)) ← Pvc.Get (Pvc.client pvcNamespace) pvcName;
         match e with
         | Some e => fail e
         | None =>
             pvcObj ← deref pvcObj;
             match default ∅ (om_Annotations (pvc_Meta pvcObj)) !! volumeCreatedThrough with
             | Some value => ok (<[volumeCreatedThrough := value]> annotations)
             | None => ok annotations
             end
         end
       else ok annotations);
  match r with
  | inr e => mret (Some e)
  | inl annotations =>
      let labels : gmap string string := {[OpenebsCSPCName := cspcName]} in
      labels ← (if negb (bool_decide (snapshotID = "")) then
                  '(srcVolName, _, _) ← GetVolumeSourceDetails snapshotID;
                  mret (<["openebs.io/source-volume" := srcVolName]> labels)
                else mret labels);
      let requestGIB := Rounding.RoundUpGiB size in
      sSize ← MustParse (fmtGi requestGIB);
      match provisionObject volName replicaCount snapshotID nodeID annotations labels sSize with
      | inr e => mret (Some e)
      | inl cvcObj =>
          '(_, (_, e)) ← Cvc.Create (Cvc.client OpenEBSNamespace) (Some cvcObj);
          mret e
      end
  end.

(** GetVolume, getCVC *)
Definition GetVolume (volumeID : string) : go (option CStorVolumeConfig * err) :=
  '(_, r) ← Cvc.Get (Cvc.client OpenEBSNamespace) volumeID; mret r.
Definition getCVC (cvcName : string) : go (option CStorVolumeConfig * err) :=
  '(_, r) ← Cvc.Get (Cvc.client OpenEBSNamespace) cvcName; mret r.

(** IsSourceAvailable: the object pointer alone decides *)
Definition IsSourceAvailable (snapshotID : string) : go (bool * err) :=
  '(srcVolName, _, e) ← GetVolumeSourceDetails snapshotID;
  match e with
  | Some e => mret (false, Some e)
  | None =>
      '(cvc, e) ← GetVolume srcVolName;
      match cvc with Some _ => mret (true, None) | None => mret (false, e) end
  end.

(** DeleteVolume *)
Definition DeleteVolume (volumeID : string) : go err :=
  '(_, e) ← Cvc.Delete (Cvc.client OpenEBSNamespace) volumeID; mret e.

(** IsCVCBound *)
Definition IsCVCBound (volumeID : string) : go (bool * err) :=
  '(cvcObj, e) ← GetVolume volumeID;
  match e with
  | Some e => mret (false, Some e)
  | None =>
      cvcObj ← deref cvcObj;
      if bool_decide (cvc_Phase cvcObj = CVCPhasePending) then mret (false, None)
      else mret (true, None)
  end.

(** PatchCVCNodeID: a failed build reaches Patch as a nil object *)
Definition PatchCVCNodeID (volumeID nodeID : string) : go err :=
  '(oldCVCObj, e) ← GetVolume volumeID;
  match e with
  | Some e => mret (Some e)
  | None =>
      let newCVCObj :=
        match Cvc.Build (Cvc.WithNodeID nodeID (Cvc.BuildFrom oldCVCObj)) with
        | inl o => Some o | inr _ => None
        end in
      '(_, (_, e)) ← Cvc.Patch (Cvc.client OpenEBSNamespace) oldCVCObj newCVCObj [];
      mret e
  end.

(** FetchAndUpdateISCSIDetails: the attachment as edited in place, and the error *)
Definition FetchAndUpdateISCSIDetails (volumeID : string) (vol : CStorVolumeAttachment) :
    go (CStorVolumeAttachment * err) :=
  '(_, (cstorVolume, e)) ← Cv.Get (Cv.client OpenEBSNamespace) volumeID;
  match e with
  | Some e => mret (vol, Some e)
  | None =>
      cstorVolume ← deref cstorVolume;
      let b := Cva.WithIscsiInterface DefaultIscsiInterface
                 (Cva.WithLun TargetLunID
                 (Cva.WithTargetPortal (cv_TargetPortal cstorVolume)
                 (Cva.WithIQN (cv_Iqn cstorVolume) (Cva.BuildFrom (Some vol))))) in
      mret (Cva.volume b, match Cva.Build b with inl _ => None | inr e => Some e end)
  end.

(** waitAndReverifyResizeStatus *)
Definition waitAndReverifyResizeStatus (cvcName : string) (sSize : quantity) : go err :=
  _ ← sys (Sleep 5);
  '(cvcObj, e) ← getCVC cvcName;
  match e with
  | Some e => mret (Some e)
  | None =>
      cvcObj ← deref cvcObj;
      let cvcActualSize := rl_get (cvc_StatusCapacity cvcObj) ResourceStorage in
      if negb (bool_decide (QtyCmp sSize cvcActualSize = 0%Z))
      then mret (Some (Errorf "ResizeInProgress from: %v to: %v"
             [AStr (FmtQuantity cvcActualSize); AStr (FmtQuantity sSize)]))
      else mret None
  end.

(** updateCVCSize *)
Definition updateCVCSize (oldCVCObj : CStorVolumeConfig) (sSize : quantity) : go err :=
  match Cvc.Build (Cvc.WithCapacityQty sSize (Cvc.BuildFrom (Some oldCVCObj))) with
  | inr e => mret (Some e)
  | inl newCVCObj =>
      '(_, (_, e)) ← Cvc.Patch (Cvc.client OpenEBSNamespace) (Some oldCVCObj) (Some newCVCObj) [];
      mret e
  end.

(** handleResize *)
Definition handleResize (cvc : CStorVolumeConfig) (sSize : quantity) : go err :=
  e ← updateCVCSize cvc sSize;
  match e with
  | Some e => mret (Some e)
  | None =>
      if bool_decide (cvc_NodeID cvc = "") then mret None
      else waitAndReverifyResizeStatus (om_Name (cvc_Meta cvc)) sSize
  end.

(** ResizeVolume *)
Definition ResizeVolume (volumeID : string) (size : Z) : go err :=
  let requestGIB := Rounding.RoundUpGiB size in
  desiredSize ← MustParse (fmtGi requestGIB);
  '(cvc, e) ← getCVC volumeID;
  match e with
  | Some e => mret (Some e)
  | None =>
      cvc ← deref cvc;
      let cvcDesiredSize := rl_get (cvc_Capacity cvc) ResourceStorage in
      if bool_decide (QtyCmp desiredSize cvcDesiredSize < 0)%Z
      then mret (Some (Errorf "Volume shrink not supported from: %v to: %v"
             [AStr (FmtResourceList (cvc_StatusCapacity cvc));
              AStr (FmtResourceList (cvc_Capacity cvc))]))
      else if bool_decide (cvc_Phase cvc = CVCPhasePending) then handleResize cvc desiredSize
      else
        let cvcActualSize := rl_get (cvc_StatusCapacity cvc) ResourceStorage in
        if bool_decide (0 < QtyCmp cvcDesiredSize cvcActualSize)%Z
        then mret (Some (Errorf "ResizeInProgress from: %v to: %v"
               [AStr (FmtQuantity cvcActualSize); AStr (FmtQuantity cvcDesiredSize)]))
        else if bool_decide (QtyCmp desiredSize cvcActualSize = 0)%Z then mret None
        else handleResize cvc desiredSize
  end.

(** GetCStorVolume *)
Definition GetCStorVolume (volName : string) : go (option CStorVolume * err) :=
  '(_, r) ← Cv.Get (Cv.client OpenEBSNamespace) volName; mret r.

(** ** What the operations touch *)

Lemma only_MustParse s : only (kinds []) (MustParse s).
Proof. unfold MustParse. solve_only. Qed.
#[local] Hint Extern 0 (only _ (MustParse _)) => only_by only_MustParse : only.

Lemma only_GetVolumeSourceDetails s : only (kinds []) (GetVolumeSourceDetails s).
Proof. unfold GetVolumeSourceDetails. case_match; [done|]. by repeat case_match. Qed.
#[local] Hint Extern 0 (only _ (GetVolumeSourceDetails _)) => only_by only_GetVolumeSourceDetails : only.

Lemma only_ProvisionVolume size a b c d e f g h : only (kinds [KConfig; KRead; KWrite]) (ProvisionVolume size a b c d e f g h).
Proof. unfold ProvisionVolume. solve_only. Qed.
#[local] Hint Extern 0 (only _ (ProvisionVolume _ _ _ _ _ _ _ _ _)) => only_by only_ProvisionVolume : only.

Lemma only_GetVolume v : only (kinds [KConfig; KRead]) (GetVolume v).
Proof. unfold GetVolume. solve_only. Qed.
#[local] Hint Extern 0 (only _ (GetVolume _)) => only_by only_GetVolume : only.

Lemma only_getCVC v : only (kinds [KConfig; KRead]) (getCVC v).
Proof. unfold getCVC. solve_only. Qed.
#[local] Hint Extern 0 (only _ (getCVC _)) => only_by only_getCVC : only.

Lemma only_IsSourceAvailable s : only (kinds [KConfig; KRead]) (IsSourceAvailable s).
Proof. unfold IsSourceAvailable. solve_only. Qed.
#[local] Hint Extern 0 (only _ (IsSourceAvailable _)) => only_by only_IsSourceAvailable : only.

Lemma only_DeleteVolume v : only (kinds [KConfig; KWrite]) (DeleteVolume v).
Proof. unfold DeleteVolume. solve_only. Qed.
#[local] Hint Extern 0 (only _ (DeleteVolume _)) => only_by only_DeleteVolume : only.

Lemma only_IsCVCBound v : only (kinds [KConfig; KRead]) (IsCVCBound v).
Proof. unfold IsCVCBound. solve_only. Qed.
#[local] Hint Extern 0 (only _ (IsCVCBound _)) => only_by only_IsCVCBound : only.

Lemma only_FetchAndUpdateISCSIDetails v vol : only (kinds [KConfig; KRead]) (FetchAndUpdateISCSIDetails v vol).
Proof. unfold FetchAndUpdateISCSIDetails. solve_only. Qed.
#[local] Hint Extern 0 (only _ (FetchAndUpdateISCSIDetails _ _)) => only_by only_FetchAndUpdateISCSIDetails : only.

Lemma only_GetCStorVolume v : only (kinds [KConfig; KRead]) (GetCStorVolume v).
Proof. unfold GetCStorVolume. solve_only. Qed.
#[local] Hint Extern 0 (only _ (GetCStorVolume _)) => only_by only_GetCStorVolume : only.

End maya.
End Maya.
#[export] Hint Extern 0 (only _ (Maya.MustParse _)) => only_by Maya.only_MustParse : only.
#[export] Hint Extern 0 (only _ (Maya.GetVolumeSourceDetails _)) => only_by Maya.only_GetVolumeSourceDetails : only.
#[export] Hint Extern 0 (only _ (Maya.ProvisionVolume _ _ _ _ _ _ _ _ _)) => only_by Maya.only_ProvisionVolume : only.
#[export] Hint Extern 0 (only _ (Maya.GetVolume _)) => only_by Maya.only_GetVolume : only.
#[export] Hint Extern 0 (only _ (Maya.getCVC _)) => only_by Maya.only_getCVC : only.
#[export] Hint Extern 0 (only _ (Maya.IsSourceAvailable _)) => only_by Maya.only_IsSourceAvailable : only.
#[export] Hint Extern 0 (only _ (Maya.DeleteVolume _)) => only_by Maya.only_DeleteVolume : only.
#[export] Hint Extern 0 (only _ (Maya.IsCVCBound _)) => only_by Maya.only_IsCVCBound : only.
#[export] Hint Extern 0 (only _ (Maya.FetchAndUpdateISCSIDetails _ _)) => only_by Maya.only_FetchAndUpdateISCSIDetails : only.
#[export] Hint Extern 0 (only _ (Maya.GetCStorVolume _)) => only_by Maya.only_GetCStorVolume : only.
