(* ===== verification/Attachments.v ===== *)
(** * Attachments and snapshots: src/pkg/utils/kubernetes.go,
    src/pkg/cstor/snapshot/client.go and the snapshot wrappers of utils.go

    Listing, creating, updating and deleting CStorVolumeAttachments, the status
    of a volume, and the snapshot commands sent to the cStor target. *)

From S2P Require Export Maya Iscsi PersistentVolume.
Local Open Scope go_scope.

Module Attach.
Section attach.
Context {L : ApiLib} {G : Globals}.

Definition NODEID : string := "nodeID".
Definition VOLNAME : string := "Volname".
Definition loopCount : nat := 5.

(** getNodeDetails *)
Definition getNodeDetails (name : string) : go (option Node * err) :=
  '(_, r) ← KNode.Get (KNode.NewKubeClient []) name; mret r.

(** FetchPVDetails *)
Definition FetchPVDetails (name : string) : go (option PersistentVolume * err) :=
  '(_, r) ← Pv.Get (Pv.NewKubeClient []) name; mret r.

(** getVolStatus *)
Definition getVolStatus (volumeID : string) : go (string * err) :=
  let listOptions := "openebs.io/persistent-volume=" +:+ volumeID in
  '(_, (volumeList, e)) ← Cv.List (Cv.client OpenEBSNamespace) listOptions;
  match e with
  | Some e => mret ("", Some e)
  | None =>
      items ← deref volumeList;
      match items with
      | [v] => mret (cv_Phase v, None)
      | _ => mret ("", Some (Errorf "expected single volume got {%d} for selector {%v}"
               [AInt (Z.of_nat (length items)); AStr listOptions]))
      end
  end.

(** GetVolListForNode, GetVolList, GetCStorVolumeAttachment *)
Definition GetVolListForNode : go (option (list CStorVolumeAttachment) * err) :=
  '(_, r) ← Cva.List (Cva.client OpenEBSNamespace) (NODEID +:+ "=" +:+ NodeIDENV); mret r.
Definition GetVolList (volume : string) : go (option (list CStorVolumeAttachment) * err) :=
  '(_, r) ← Cva.List (Cva.client OpenEBSNamespace) (VOLNAME +:+ "=" +:+ volume); mret r.
Definition GetCStorVolumeAttachment (csivol : string) : go (option CStorVolumeAttachment * err) :=
  '(_, r) ← Cva.Get (Cva.client OpenEBSNamespace) csivol; mret r.

(** GetVolumeIP *)
Definition GetVolumeIP (volumeID : string) : go (string * err) :=
  '(_, (cstorvolume, e)) ← Cv.Get (Cv.client OpenEBSNamespace) volumeID;
  match e with
  | Some e => mret ("", Some e)
  | None => match cstorvolume with
            | None => mret ("", None)
            | Some v => mret (cv_TargetIP v, None)
            end
  end.

(** CreateCStorVolumeAttachmentCR: the attachment as edited in place, and the error *)
Definition CreateCStorVolumeAttachmentCR (csivol : CStorVolumeAttachment) (nodeID : string) :
    go (CStorVolumeAttachment * err) :=
  let csivol := cva_set_OwnerNodeID nodeID csivol in
  '(nodeInfo, e) ← getNodeDetails nodeID;
  match e with
  | Some e => mret (csivol, Some e)
  | None =>
      nodeInfo ← deref nodeInfo;
      let owner := MkOwnerReference "v1" "Node" (om_Name (node_Meta nodeInfo))
                     (om_UID (node_Meta nodeInfo)) in
      let csivol := cva_set_Meta (om_set_OwnerReferences [owner] (cva_Meta csivol)) csivol in
      '(_, (_, e)) ← Cva.Create (Cva.client OpenEBSNamespace) (Some csivol);
      mret (csivol, e)
  end.

(** UpdateCStorVolumeAttachmentCR, DeleteCStorVolumeAttachmentCR *)
Definition UpdateCStorVolumeAttachmentCR (csivol : option CStorVolumeAttachment) :
    go (option CStorVolumeAttachment * err) :=
  '(_, r) ← Cva.Update (Cva.client OpenEBSNamespace) csivol; mret r.
Definition DeleteCStorVolumeAttachmentCR (csivolName : string) : go err :=
  '(_, e) ← Cva.Delete (Cva.client OpenEBSNamespace) csivolName; mret e.

(** The deletion loop of DeleteOldCStorVolumeAttachmentCRs: the name of this
    node's attachment, or the error of the first deletion that fails. *)
Fixpoint deleteOldLoop (csivols : list CStorVolumeAttachment) (nodeID nodeCVA : string) :
    go (res string) :=
  match csivols with
  | [] => ok nodeCVA
  | csivol :: csivols' =>
      let name := om_Name (cva_Meta csivol) in
      '(_, e) ← Cva.Delete (Cva.client OpenEBSNamespace) name;
      match e with
      | Some e => fail e
      | None => deleteOldLoop csivols' nodeID (if Str.HasSuffix name nodeID then name else nodeCVA)
      end
  end.

(** The polling loop: [n] attempts are left; its outcome is only logged. *)
Fixpoint waitDeleted (n : nat) (nodeCVA : string) : go () :=
  match n with
  | 0 => mret tt
  | S n' =>
      '(_, (_, e)) ← Cva.Get (Cva.client OpenEBSNamespace) nodeCVA;
      if match e with Some e => IsNotFound e | None => false end then mret tt
      else _ ← sys (Sleep 1); waitDeleted n' nodeCVA
  end.

(** DeleteOldCStorVolumeAttachmentCRs *)
Definition DeleteOldCStorVolumeAttachmentCRs (volumeID nodeID : string) : go err :=
  '(csivols, e) ← GetVolList volumeID;
  match e with
  | Some e => mret (Some e)
  | None =>
      items ← deref csivols;
      r ← deleteOldLoop items nodeID "";
      match r with
      | inr e => mret (Some e)
      | inl nodeCVA =>
          _ ← (if negb (bool_decide (nodeCVA = "")) then waitDeleted loopCount nodeCVA else mret tt);
          mret None
      end
  end.

(** ** Snapshots *)

Definition VolumeGrpcListenPort : Z := 7777.
Definition ProtocolVersion : Z := 1.

(** CreateSnapshot, DestroySnapshot of package snapshot.  A response is the
    status bytes of the reply, [None] for a nil reply. *)
Definition snapshot_CreateSnapshot (ip volName snapName : string) : go (option string * err) :=
  let addr := ip +:+ ":" +:+ Str.Itoa VolumeGrpcListenPort in
  e ← sys (SnapDial addr);
  match e with
  | Some e => mret (None, Some (Errorf "Unable to dial gRPC server on port %d error : %s"
                           [AInt VolumeGrpcListenPort; AErr e]))
  | None =>
      '(response, e) ← sys (SnapCreate addr ProtocolVersion volName snapName);
      match e with
      | Some e => mret (None, Some (Errorf
          "Error when calling RunVolumeSnapCreateCommand: %s" [AErr e]))
      | None =>
          match response with
          | Some st =>
              let r := CommandStatusResponse st in
              if Str.Contains r "ERR"
              then mret (None, Some (Errorf "Snapshot create failed with error : %v" [AStr r]))
              else mret (response, None)
          | None => mret (response, None)
          end
      end
  end.
Definition snapshot_DestroySnapshot (ip volName snapName : string) : go (option string * err) :=
  let addr := ip +:+ ":" +:+ Str.Itoa VolumeGrpcListenPort in
  e ← sys (SnapDial addr);
  match e with
  | Some e => mret (None, Some (Errorf "Unable to dial gRPC server on port error : %s" [AErr e]))
  | None =>
      '(response, e) ← sys (SnapDelete addr ProtocolVersion volName snapName);
      match e with
      | Some e => mret (None, Some (Errorf
          "Error when calling RunVolumeSnapDeleteCommand: %s" [AErr e]))
      | None =>
          match response with
          | Some st =>
              let r := CommandStatusResponse st in
              if Str.Contains r "ERR"
              then mret (None, Some (Errorf "Snapshot deletion failed with error : %v" [AStr r]))
              else mret (response, None)
          | None => mret (response, None)
          end
      end
  end.

(** CreateSnapshot, DeleteSnapshot of package utils *)
Definition CreateSnapshot (volumeName snapName : string) : go err :=
  '(volIP, e) ← GetVolumeIP volumeName;
  match e with
  | Some e => mret (Some e)
  | None => '(_, e) ← snapshot_CreateSnapshot volIP volumeName snapName; mret e
  end.
Definition DeleteSnapshot (volumeName snapName : string) : go err :=
  '(volIP, e) ← GetVolumeIP volumeName;
  match e with
  | Some e => mret (Some e)
  | None => '(_, e) ← snapshot_DestroySnapshot volIP volumeName snapName; mret e
  end.

(** ** What the operations touch *)

Lemma only_getNodeDetails n : only (kinds [KConfig; KRead]) (getNodeDetails n).
Proof. unfold getNodeDetails. solve_only. Qed.
#[local] Hint Extern 0 (only _ (getNodeDetails _)) => only_by only_getNodeDetails : only.

Lemma only_getVolStatus v : only (kinds [KConfig; KRead]) (getVolStatus v).
Proof. unfold getVolStatus. solve_only. Qed.
#[local] Hint Extern 0 (only _ (getVolStatus _)) => only_by only_getVolStatus : only.

Lemma only_GetVolListForNode : only (kinds [KConfig; KRead]) (GetVolListForNode).
Proof. unfold GetVolListForNode. solve_only. Qed.
#[local] Hint Extern 0 (only _ (GetVolListForNode)) => only_by only_GetVolListForNode : only.

Lemma only_GetVolList v : only (kinds [KConfig; KRead]) (GetVolList v).
Proof. unfold GetVolList. solve_only. Qed.
#[local] Hint Extern 0 (only _ (GetVolList _)) => only_by only_GetVolList : only.

Lemma only_GetCStorVolumeAttachment v : only (kinds [KConfig; KRead]) (GetCStorVolumeAttachment v).
Proof. unfold GetCStorVolumeAttachment. solve_only. Qed.
#[local] Hint Extern 0 (only _ (GetCStorVolumeAttachment _)) => only_by only_GetCStorVolumeAttachment : only.

Lemma only_GetVolumeIP v : only (kinds [KConfig; KRead]) (GetVolumeIP v).
Proof. unfold GetVolumeIP. solve_only. Qed.
#[local] Hint Extern 0 (only _ (GetVolumeIP _)) => only_by only_GetVolumeIP : only.

Lemma only_CreateCStorVolumeAttachmentCR vol n : only (kinds [KConfig; KRead; KWrite]) (CreateCStorVolumeAttachmentCR vol n).
Proof. unfold CreateCStorVolumeAttachmentCR. solve_only. Qed.
#[local] Hint Extern 0 (only _ (CreateCStorVolumeAttachmentCR _ _)) => only_by only_CreateCStorVolumeAttachmentCR : only.

Lemma only_UpdateCStorVolumeAttachmentCR vol : only (kinds [KConfig; KWrite]) (UpdateCStorVolumeAttachmentCR vol).
Proof. unfold UpdateCStorVolumeAttachmentCR. destruct vol; [solve_only|exact I]. Qed.
#[local] Hint Extern 0 (only _ (UpdateCStorVolumeAttachmentCR _)) => only_by only_UpdateCStorVolumeAttachmentCR : only.

Lemma only_DeleteCStorVolumeAttachmentCR n : only (kinds [KConfig; KWrite]) (DeleteCStorVolumeAttachmentCR n).
Proof. unfold DeleteCStorVolumeAttachmentCR. solve_only. Qed.
#[local] Hint Extern 0 (only _ (DeleteCStorVolumeAttachmentCR _)) => only_by only_DeleteCStorVolumeAttachmentCR : only.

Lemma only_deleteOldLoop vols n c : only (kinds [KConfig; KWrite]) (deleteOldLoop vols n c).
Proof. revert c. induction vols; cbn [deleteOldLoop]; solve_only. Qed.
#[local] Hint Extern 0 (only _ (deleteOldLoop _ _ _)) => only_by only_deleteOldLoop : only.

Lemma only_waitDeleted n c : only (kinds [KConfig; KRead; KClock]) (waitDeleted n c).
Proof. induction n; cbn [waitDeleted]; solve_only. Qed.
#[local] Hint Extern 0 (only _ (waitDeleted _ _)) => only_by only_waitDeleted : only.

Lemma only_DeleteOldCStorVolumeAttachmentCRs v n : only (kinds [KConfig; KRead; KWrite; KClock]) (DeleteOldCStorVolumeAttachmentCRs v n).
Proof. unfold DeleteOldCStorVolumeAttachmentCRs. solve_only. Qed.
#[local] Hint Extern 0 (only _ (DeleteOldCStorVolumeAttachmentCRs _ _)) => only_by only_DeleteOldCStorVolumeAttachmentCRs : only.

End attach.
End Attach.
#[export] Hint Extern 0 (only _ (Attach.getNodeDetails _)) => only_by Attach.only_getNodeDetails : only.
#[export] Hint Extern 0 (only _ (Attach.getVolStatus _)) => only_by Attach.only_getVolStatus : only.
#[export] Hint Extern 0 (only _ (Attach.GetVolListForNode)) => only_by Attach.only_GetVolListForNode : only.
#[export] Hint Extern 0 (only _ (Attach.GetVolList _)) => only_by Attach.only_GetVolList : only.
#[export] Hint Extern 0 (only _ (Attach.GetCStorVolumeAttachment _)) => only_by Attach.only_GetCStorVolumeAttachment : only.
#[export] Hint Extern 0 (only _ (Attach.GetVolumeIP _)) => only_by Attach.only_GetVolumeIP : only.
#[export] Hint Extern 0 (only _ (Attach.CreateCStorVolumeAttachmentCR _ _)) => only_by Attach.only_CreateCStorVolumeAttachmentCR : only.
#[export] Hint Extern 0 (only _ (Attach.UpdateCStorVolumeAttachmentCR _)) => only_by Attach.only_UpdateCStorVolumeAttachmentCR : only.
#[export] Hint Extern 0 (only _ (Attach.DeleteCStorVolumeAttachmentCR _)) => only_by Attach.only_DeleteCStorVolumeAttachmentCR : only.
#[export] Hint Extern 0 (only _ (Attach.deleteOldLoop _ _ _)) => only_by Attach.only_deleteOldLoop : only.
#[export] Hint Extern 0 (only _ (Attach.waitDeleted _ _)) => only_by Attach.only_waitDeleted : only.
#[export] Hint Extern 0 (only _ (Attach.DeleteOldCStorVolumeAttachmentCRs _ _)) => only_by Attach.only_DeleteOldCStorVolumeAttachmentCRs : only.
