(* ===== verification/Mounts.v ===== *)
(** * Waiting, mounting and monitoring: src/pkg/utils/utils.go and mount.go

    The bounded waits for a volume, the remount of a volume that lost its
    mount, one round of the monitor ([MonitorMounts] repeats it for ever on a
    ticker), the cleanup of attachments marked for deletion, and the
    goroutines both start.  [TransitionVolList] is read and written through
    actions between [Lock] and [Unlock]. *)

From S2P Require Export Attachments.
Local Open Scope go_scope.

Module Mounts.
Section mounts.
Context {L : ApiLib} {G : Globals}.

Definition VolumeWaitTimeout : Z := 2.
Definition VolumeWaitRetryCount : nat := 6.

(** init of package utils; [logrus.Fatalf] is [os.Exit(1)] *)
Definition init : go Globals :=
  ns ← os_Getenv "OPENEBS_NAMESPACE";
  if bool_decide (ns = "") then Exit 1
  else
    node ← os_Getenv "OPENEBS_NODE_ID";
    drv ← (if bool_decide (node = "") then os_Getenv "OPENEBS_NODE_DRIVER" else mret "");
    if bool_decide (node = "") && negb (bool_decide (drv = "")) then Exit 1
    else mret (Build_Globals ns node).

(** parseEndpoint; the two parts are indexed *)
Definition parseEndpoint (ep : string) : go (res (string * string)) :=
  let bad := Errorf "Invalid endpoint: %v" [AStr ep] in
  if Str.HasPrefix (Str.ToLower ep) "unix://" || Str.HasPrefix (Str.ToLower ep) "tcp://" then
    match Str.SplitN2 ep "://" with
    | s0 :: s1 :: _ => if negb (bool_decide (s1 = "")) then ok (s0, s1) else fail bad
    | _ => Panic "runtime error: index out of range"
    end
  else fail bad.

(** The methods whose requests logGRPC does not print. *)
Definition printlog (FullMethod : string) : bool :=
  existsb (Str.Contains FullMethod)
    ["NodeGetCapabilities"; "NodeGetVolumeStats"; "ControllerGetCapabilities";
     "GetPluginInfo"; "GetPluginCapabilities"; "Probe"].

(** ChmodMountPath *)
Definition ChmodMountPath (mountPath : string) : go err := sys (Chmod mountPath 0).

(** WaitForVolumeToBeReachable: [n] attempts are left *)
Fixpoint reachableLoop (n : nat) (volumeID targetPortal : string) : go err :=
  match n with
  | 0 => mret None
  | S n' =>
      e ← sys (NetDial "tcp" targetPortal);
      match e with
      | None => mret None
      | Some e =>
          _ ← sys (Sleep VolumeWaitTimeout);
          match n' with
          | 0 => mret (Some (Errorf "iSCSI Target not reachable for %s, TargetPortal %v, err:%v"
                               [AStr volumeID; AStr targetPortal; AErr e]))
          | S _ => reachableLoop n' volumeID targetPortal
          end
      end
  end.
Definition WaitForVolumeToBeReachable (volumeID targetPortal : string) : go err :=
  reachableLoop VolumeWaitRetryCount volumeID targetPortal.

Definition canServeIO (volStatus : string) : bool :=
  bool_decide (volStatus = "Healthy") || bool_decide (volStatus = "Degraded").

(** WaitForVolumeToBeReady: [n] retries are left *)
Fixpoint readyLoop (n : nat) (volumeID : string) : go err :=
  '(volStatus, e) ← Attach.getVolStatus volumeID;
  match e with
  | Some e => mret (Some e)
  | None =>
      if canServeIO volStatus then mret None
      else match n with
           | 0 => mret (Some (Errorf
               "Volume %s is not ready: Replicas yet to connect to controller" [AStr volumeID]))
           | S n' =>
               _ ← sys Lock;
               _ ← sys (TvlSet volumeID WaitingForVolumeToBeReady);
               _ ← sys Unlock;
               _ ← sys (Sleep VolumeWaitTimeout);
               readyLoop n' volumeID
           end
  end.
Definition WaitForVolumeToBeReady (volumeID : string) : go err :=
  readyLoop VolumeWaitRetryCount volumeID.

(** IsVolumeReachable, IsVolumeReady *)
Definition IsVolumeReachable (volumeID targetPortal : string) : go (bool * err) :=
  e ← sys (NetDial "tcp" targetPortal);
  match e with None => mret (true, None) | Some e => mret (false, Some e) end.
Definition IsVolumeReady (volumeID : string) : go (bool * err) :=
  '(volStatus, e) ← Attach.getVolStatus volumeID;
  match e with
  | Some e => mret (false, Some e)
  | None => mret (canServeIO volStatus, None)
  end.

(** WaitForVolumeReadyAndReachable *)
Definition WaitForVolumeReadyAndReachable (vol : CStorVolumeAttachment) : go err :=
  e ← WaitForVolumeToBeReady (cva_VolName vol);
  match e with
  | Some e => mret (Some e)
  | None => WaitForVolumeToBeReachable (cva_VolName vol) (cva_TargetPortal vol)
  end.

(** listContains, verifyMountOpts *)
Fixpoint listContains (mountPath : string) (l : list MountPoint) : option MountPoint * bool :=
  match l with
  | [] => (None, false)
  | info :: l' =>
      if bool_decide (mp_Path info = mountPath) then (Some info, true)
      else listContains mountPath l'
  end.
Fixpoint verifyMountOpts (opts : list string) (desiredOpt : string) : bool :=
  match opts with
  | [] => false
  | opt :: opts' => if bool_decide (opt = desiredOpt) then true else verifyMountOpts opts' desiredOpt
  end.

(** RemountVolume; the results of the two unmounts are ignored *)
Definition RemountVolume (stagingPathExists targetPathExists : bool) (vol : CStorVolumeAttachment) :
    go err :=
  '(ready, e) ← IsVolumeReady (cva_VolName vol);
  if bool_decide (is_Some e) || negb ready
  then mret (Some (Errorf "Volume %s is not ready" [AStr (cva_VolName vol)]))
  else
    '(reachable, e) ← IsVolumeReachable (cva_VolName vol) (cva_TargetPortal vol);
    if bool_decide (is_Some e) || negb reachable
    then mret (Some (Errorf "Volume %s is not reachable" [AStr (cva_VolName vol)]))
    else
      _ ← (if stagingPathExists then sys (Unmount (cva_StagingTargetPath vol)) else mret None);
      _ ← (if targetPathExists then sys (Unmount (cva_TargetPath vol)) else mret None);
      e ← sys (MountAt (cva_DevicePath vol) (cva_StagingTargetPath vol) "" ["rw"]);
      match e with
      | Some e => mret (Some e)
      | None => sys (MountAt (cva_StagingTargetPath vol) (cva_TargetPath vol) "" ["bind"])
      end.

(** GetMounts *)
Definition GetMounts (volumeID : string) : go (list string * err) :=
  '(mountList, e) ← sys MountList;
  match e with
  | Some e => mret ([], Some e)
  | None => mret (foldl (λ acc mntInfo,
              if Str.Contains (mp_Path mntInfo) volumeID then acc ++ [mp_Path mntInfo] else acc)
              [] mountList, None)
  end.

(** ** The monitor *)

(** One volume of the monitor's scan: whether it asks for cleanup. *)
Definition monitorVol (mountList : list MountPoint) (vol : CStorVolumeAttachment) : go bool :=
  if bool_decide (is_Some (om_DeletionTimestamp (cva_Meta vol))) then mret true
  else if bool_decide (cva_AccessType vol = "block") then mret false
  else if bool_decide (cva_StagingTargetPath vol = "") || bool_decide (cva_TargetPath vol = "")
  then mret false
  else
    let '(stagingMountPoint, stagingPathExists) := listContains (cva_StagingTargetPath vol) mountList in
    let '(_, targetPathExists) := listContains (cva_TargetPath vol) mountList in
    if stagingPathExists && targetPathExists
       && verifyMountOpts (match stagingMountPoint with Some m => mp_Opts m | None => [] end) "rw"
    then mret false
    else
      o ← sys (TvlGet (cva_VolName vol));
      match o with
      | Some _ => mret false
      | None =>
          _ ← sys (TvlSet (cva_VolName vol) RemountUnderProgress);
          _ ← sys (RmlSet (cva_VolName vol) RemountUnderProgress);
          _ ← sys (GoRemount stagingPathExists targetPathExists vol);
          mret false
      end.

(** The scan over the node's volumes. *)
Fixpoint monitorLoop (vols : list CStorVolumeAttachment) (mountList : list MountPoint)
    (cleanupRequired : bool) : go bool :=
  match vols with
  | [] => mret cleanupRequired
  | vol :: vols' =>
      c ← monitorVol mountList vol;
      monitorLoop vols' mountList (c || cleanupRequired)
  end.

(** The retries of Cleanup's listing: [n] failures are left *)
Fixpoint cleanupList (n : nat) : go (res (list CStorVolumeAttachment)) :=
  '(csivolList, e) ← Attach.GetVolListForNode;
  match e with
  | None => items ← deref csivolList; ok items
  | Some e =>
      _ ← sys (Sleep 1);
      match n with
      | 0 | 1 => fail e
      | S n' => cleanupList n'
      end
  end.

(** The scan of Cleanup; the log line reads the map. *)
Fixpoint cleanupLoop (vols : list CStorVolumeAttachment) : go () :=
  match vols with
  | [] => mret tt
  | vol :: vols' =>
      _ ← (if bool_decide (om_DeletionTimestamp (cva_Meta vol) = None) then mret tt
           else
             _ ← sys (TvlSet (cva_VolName vol) UnmountUnderProgress);
             _ ← sys (TvlGet (cva_VolName vol));
             sys (GoCleanup vol));
      cleanupLoop vols'
  end.

(** Cleanup *)
Definition Cleanup : go err :=
  _ ← sys Lock;
  defer (sys Unlock)
    (r ← cleanupList 5;
     match r with
     | inr e => mret (Some e)
     | inl items => _ ← cleanupLoop items; mret None
     end).

(** One tick of MonitorMounts *)
Definition monitorTick : go () :=
  _ ← sys Lock;
  '(mountList, e) ← sys MountList;
  cleanupRequired ←
    match e with
    | Some _ => _ ← sys Unlock; mret false
    | None =>
        '(csivolList, e) ← Attach.GetVolListForNode;
        match e with
        | Some _ => _ ← sys Unlock; mret false
        | None =>
            items ← deref csivolList;
            c ← monitorLoop items mountList false;
            _ ← sys Unlock;
            mret c
        end
    end;
  if cleanupRequired : bool then _ ← Cleanup; mret tt else mret tt.

(** MonitorMounts for [n] ticks. *)
Fixpoint MonitorMounts (n : nat) : go () :=
  match n with 0 => mret tt | S n' => _ ← monitorTick; MonitorMounts n' end.

(** The goroutine MonitorMounts starts for a volume *)
Definition remountGoroutine (stagingPathExists targetPathExists : bool)
    (csivol : CStorVolumeAttachment) : go () :=
  defer (_ ← sys Lock;
         _ ← sys (TvlDelete (cva_VolName csivol));
         _ ← sys (RmlDelete (cva_VolName csivol));
         sys Unlock)
    (_ ← RemountVolume stagingPathExists targetPathExists csivol; mret tt).

(** The goroutine Cleanup starts for a volume: [vol] is overwritten with the
    result of the update *)
Definition cleanupGoroutine (vol : CStorVolumeAttachment) : go () :=
  e ← Iscsi.UnmountAndDetachDisk vol (cva_StagingTargetPath vol);
  vol ← match e with
        | None =>
            let vol := cva_set_Meta (om_set_Finalizers None (cva_Meta vol)) vol in
            '(vol, _) ← Attach.UpdateCStorVolumeAttachmentCR (Some vol); mret vol
        | Some _ => mret (Some vol)
        end;
  _ ← sys Lock;
  vol ← deref vol;
  _ ← sys (TvlDelete (cva_VolName vol));
  sys Unlock.

(** ** mount.go: NodeMounter *)

(** GetDeviceName *)
Definition GetDeviceName (mountPath : string) : go (string * Z * err) :=
  sys (GetDeviceNameFromMount mountPath).

(** MakeFile: a failure other than "exists" is returned *)
Definition MakeFile (pathname : string) : go err :=
  e ← sys (OpenFileCreate pathname 420);
  mret (match e with Some e => if negb (os_IsExist e) then Some e else None | None => None end).

(** MakeDir *)
Definition MakeDir (pathname : string) : go err :=
  e ← sys (MkdirAll pathname 493);
  mret (match e with Some e => if negb (os_IsExist e) then Some e else None | None => None end).

(** ExistsPath *)
Definition ExistsPath (pathname : string) : go (bool * err) := sys (UtilPathExists pathname).

(** ** What the operations touch *)

Lemma only_reachableLoop n v p : only (kinds [KLook; KClock]) (reachableLoop n v p).
Proof. induction n; cbn [reachableLoop]; solve_only. Qed.
#[local] Hint Extern 0 (only _ (reachableLoop _ _ _)) => only_by only_reachableLoop : only.

Lemma only_WaitForVolumeToBeReachable v p : only (kinds [KLook; KClock]) (WaitForVolumeToBeReachable v p).
Proof. unfold WaitForVolumeToBeReachable. solve_only. Qed.
#[local] Hint Extern 0 (only _ (WaitForVolumeToBeReachable _ _)) => only_by only_WaitForVolumeToBeReachable : only.

Lemma only_IsVolumeReachable v p : only (kinds [KLook]) (IsVolumeReachable v p).
Proof. unfold IsVolumeReachable. solve_only. Qed.
#[local] Hint Extern 0 (only _ (IsVolumeReachable _ _)) => only_by only_IsVolumeReachable : only.

Lemma only_IsVolumeReady v : only (kinds [KConfig; KRead]) (IsVolumeReady v).
Proof. unfold IsVolumeReady. solve_only. Qed.
#[local] Hint Extern 0 (only _ (IsVolumeReady _)) => only_by only_IsVolumeReady : only.

Lemma only_RemountVolume a b vol : only (kinds [KConfig; KRead; KLook; KDisk]) (RemountVolume a b vol).
Proof. unfold RemountVolume. solve_only. Qed.
#[local] Hint Extern 0 (only _ (RemountVolume _ _ _)) => only_by only_RemountVolume : only.

Lemma only_GetMounts v : only (kinds [KLook]) (GetMounts v).
Proof. unfold GetMounts. solve_only. Qed.
#[local] Hint Extern 0 (only _ (GetMounts _)) => only_by only_GetMounts : only.

Lemma only_MakeFile p : only (kinds [KDisk]) (MakeFile p).
Proof. unfold MakeFile. solve_only. Qed.
#[local] Hint Extern 0 (only _ (MakeFile _)) => only_by only_MakeFile : only.

Lemma only_MakeDir p : only (kinds [KDisk]) (MakeDir p).
Proof. unfold MakeDir. solve_only. Qed.
#[local] Hint Extern 0 (only _ (MakeDir _)) => only_by only_MakeDir : only.

Lemma only_ExistsPath p : only (kinds [KLook]) (ExistsPath p).
Proof. unfold ExistsPath. solve_only. Qed.
#[local] Hint Extern 0 (only _ (ExistsPath _)) => only_by only_ExistsPath : only.

End mounts.
End Mounts.
#[export] Hint Extern 0 (only _ (Mounts.reachableLoop _ _ _)) => only_by Mounts.only_reachableLoop : only.
#[export] Hint Extern 0 (only _ (Mounts.WaitForVolumeToBeReachable _ _)) => only_by Mounts.only_WaitForVolumeToBeReachable : only.
#[export] Hint Extern 0 (only _ (Mounts.IsVolumeReachable _ _)) => only_by Mounts.only_IsVolumeReachable : only.
#[export] Hint Extern 0 (only _ (Mounts.IsVolumeReady _)) => only_by Mounts.only_IsVolumeReady : only.
#[export] Hint Extern 0 (only _ (Mounts.RemountVolume _ _ _)) => only_by Mounts.only_RemountVolume : only.
#[export] Hint Extern 0 (only _ (Mounts.GetMounts _)) => only_by Mounts.only_GetMounts : only.
#[export] Hint Extern 0 (only _ (Mounts.MakeFile _)) => only_by Mounts.only_MakeFile : only.
#[export] Hint Extern 0 (only _ (Mounts.MakeDir _)) => only_by Mounts.only_MakeDir : only.
#[export] Hint Extern 0 (only _ (Mounts.ExistsPath _)) => only_by Mounts.only_ExistsPath : only.
