(* ===== verification/Controller.v ===== *)
(** * The controller service: src/pkg/driver/controller.go,
    controller_utils.go, the pure helpers of utils.go, and src/pkg/payload

    Volume creation, deletion and expansion, snapshots, and the topology
    choice, as programs over the claim layer of [Maya] and [Attach]. *)

From S2P Require Export Attachments.
Local Open Scope go_scope.

(** ** Response builders (src/pkg/payload) *)

Module Payload.

(** DeleteVolumeResponseBuilder; the response is an empty message *)
Record DeleteVolumeResponseBuilder := { dvr_response : unit }.
Definition NewDeleteVolumeResponseBuilder : DeleteVolumeResponseBuilder := {| dvr_response := tt |}.
Definition DeleteBuild (b : DeleteVolumeResponseBuilder) : unit := dvr_response b.

(** ControllerExpandVolumeResponseBuilder *)
Definition NewControllerExpandVolumeResponseBuilder : ControllerExpandVolumeResponse :=
  {| cer_CapacityBytes := 0; cer_NodeExpansionRequired := false |}.
Definition WithCapacityBytes (capacity : Z) (b : ControllerExpandVolumeResponse) :
    ControllerExpandVolumeResponse :=
  {| cer_CapacityBytes := capacity; cer_NodeExpansionRequired := cer_NodeExpansionRequired b |}.
Definition WithNodeExpansionRequired (r : bool) (b : ControllerExpandVolumeResponse) :
    ControllerExpandVolumeResponse :=
  {| cer_CapacityBytes := cer_CapacityBytes b; cer_NodeExpansionRequired := r |}.
Definition ExpandBuild (b : ControllerExpandVolumeResponse) : ControllerExpandVolumeResponse := b.

(** CreateVolumeResponseBuilder *)
Definition NewCreateVolumeResponseBuilder : Volume :=
  {| CapacityBytes := 0; VolumeId := ""; VolumeContext := ∅; ContentSource := None |}.
Definition VWithName (name : string) (b : Volume) : Volume :=
  {| CapacityBytes := CapacityBytes b; VolumeId := name;
     VolumeContext := VolumeContext b; ContentSource := ContentSource b |}.
Definition VWithCapacity (capacity : Z) (b : Volume) : Volume :=
  {| CapacityBytes := capacity; VolumeId := VolumeId b;
     VolumeContext := VolumeContext b; ContentSource := ContentSource b |}.
Definition VWithContext (ctx : gmap string string) (b : Volume) : Volume :=
  {| CapacityBytes := CapacityBytes b; VolumeId := VolumeId b;
     VolumeContext := ctx; ContentSource := ContentSource b |}.
Definition VBuild (b : Volume) : Volume := b.

(** CreateSnapshotResponseBuilder; [int32(tnsec)] wraps at 32 bits *)
Definition wrap32 (z : Z) : Z := (z + 2 ^ 31) mod 2 ^ 32 - 2 ^ 31.
Definition NewCreateSnapshotResponseBuilder : Snapshot :=
  {| SizeBytes := 0; SnapshotId := ""; SourceVolumeId := "";
     CreationTime := None; ReadyToUse := false |}.
Definition SWithSize (size : Z) (b : Snapshot) : Snapshot :=
  {| SizeBytes := size; SnapshotId := SnapshotId b; SourceVolumeId := SourceVolumeId b;
     CreationTime := CreationTime b; ReadyToUse := ReadyToUse b |}.
Definition SWithSnapshotID (id : string) (b : Snapshot) : Snapshot :=
  {| SizeBytes := SizeBytes b; SnapshotId := id; SourceVolumeId := SourceVolumeId b;
     CreationTime := CreationTime b; ReadyToUse := ReadyToUse b |}.
Definition SWithSourceVolumeID (id : string) (b : Snapshot) : Snapshot :=
  {| SizeBytes := SizeBytes b; SnapshotId := SnapshotId b; SourceVolumeId := id;
     CreationTime := CreationTime b; ReadyToUse := ReadyToUse b |}.
Definition SWithCreationTime (tsec tnsec : Z) (b : Snapshot) : Snapshot :=
  {| SizeBytes := SizeBytes b; SnapshotId := SnapshotId b; SourceVolumeId := SourceVolumeId b;
     CreationTime := Some (tsec, wrap32 tnsec); ReadyToUse := ReadyToUse b |}.
Definition SWithReadyToUse (r : bool) (b : Snapshot) : Snapshot :=
  {| SizeBytes := SizeBytes b; SnapshotId := SnapshotId b; SourceVolumeId := SourceVolumeId b;
     CreationTime := CreationTime b; ReadyToUse := r |}.
Definition SBuild (b : Snapshot) : Snapshot := b.

End Payload.

Module Controller.
Section controller.
Context {L : ApiLib} {G : Globals} {N : CsiNames}.

(** The controller object: its list of capabilities. *)
Record controller := MkController { capabilities : list ControllerCap }.

(** newControllerCapabilities, NewController *)
Definition newControllerCapabilities : list ControllerCap :=
  foldl (λ acc cap, acc ++ [cap]) []
    [CREATE_DELETE_VOLUME; EXPAND_VOLUME; CREATE_DELETE_SNAPSHOT; CLONE_VOLUME;
     GET_VOLUME; CC_VOLUME_CONDITION].
Definition NewController : controller := MkController newControllerCapabilities.

(** ** Validation (controller_utils.go) *)

Definition SupportedVolumeCapabilityAccessModes : list AccessMode := [SINGLE_NODE_WRITER].

(** IsSupportedVolumeCapabilityAccessMode *)
Fixpoint supportedLoop (accessMode : AccessMode) (l : list AccessMode) : bool :=
  match l with
  | [] => false
  | access :: l' => if decide (accessMode = access) then true else supportedLoop accessMode l'
  end.
Definition IsSupportedVolumeCapabilityAccessMode (accessMode : AccessMode) : bool :=
  supportedLoop accessMode SupportedVolumeCapabilityAccessModes.

(** validateCapabilities: [cap.AccessMode.Mode] dereferences a pointer *)
Fixpoint validateCapabilities (caps : list VolumeCapability) : go bool :=
  match caps with
  | [] => mret true
  | cap :: caps' =>
      mode ← deref (vc_AccessMode cap);
      if negb (IsSupportedVolumeCapabilityAccessMode mode) then mret false
      else validateCapabilities caps'
  end.

(** validateRequest *)
Fixpoint validateRequestLoop (c : ControllerCap) (caps : list ControllerCap) : err :=
  match caps with
  | [] => Some (Status InvalidArgument "failed to validate request: {%s} is not supported"
                  [AStr (ControllerCap_String c)])
  | cap :: caps' => if decide (c = cap) then None else validateRequestLoop c caps'
  end.
Definition validateRequest (cs : controller) (c : ControllerCap) : err :=
  validateRequestLoop c (capabilities cs).

(** ValidFSTypes, isValidFStype (utils.go) *)
Definition ValidFSTypes : list string := ["ext4"; "xfs"].
Fixpoint isValidFStypeLoop (fstype : string) (l : list string) : bool :=
  match l with
  | [] => false
  | fs :: l' => if bool_decide (fs = fstype) then true else isValidFStypeLoop fstype l'
  end.
Definition isValidFStype (fstype : string) : bool := isValidFStypeLoop fstype ValidFSTypes.

Definition invalid (msg : string) : error := Status InvalidArgument msg [].
Definition param (req : CreateVolumeRequest) (k : string) : string :=
  default "" (cvr_Parameters req !! k).

(** The loop of validateVolumeCreateReq over the capabilities *)
Fixpoint validateVolCaps (req : CreateVolumeRequest) (caps : list VolumeCapability) : err :=
  match caps with
  | [] => None
  | volcap :: caps' =>
      let mount := GetMount (Some volcap) in
      if bool_decide (is_Some mount) && negb (isValidFStype (GetFsType mount))
      then Some (Status InvalidArgument
             "failed to handle create volume request, invalid fsType : %s"
             [AStr (param req "fsType")])
      else match vc_AccessMode volcap with
           | Some mode =>
               if decide (mode ≠ SINGLE_NODE_WRITER)
               then Some (Status InvalidArgument
                 "only SINGLE_NODE_WRITER supported, unsupported access mode requested: %s"
                 [AStr (VolumeCapability_AccessMode_Mode_name mode)])
               else validateVolCaps req caps'
           | None => validateVolCaps req caps'
           end
  end.

(** validateVolumeCreateReq *)
Definition validateVolumeCreateReq (cs : controller) (req : CreateVolumeRequest) : err :=
  match validateRequest cs CREATE_DELETE_VOLUME with
  | Some e => Some (Wrapf e "failed to handle create volume request for {%s}" [AStr (cvr_Name req)])
  | None =>
      if bool_decide (cvr_Name req = "")
      then Some (invalid "failed to handle create volume request: missing volume name")
      else if bool_decide (param req "cstorPoolCluster" = "")
      then Some (invalid "failed to handle create volume request: missing storage class parameter cstorPoolCluster")
      else if bool_decide (param req "replicaCount" = "")
      then Some (invalid "failed to handle create volume request: missing storage class parameter replicaCount")
      else if bool_decide (param req "cas-type" = "")
      then Some (invalid "failed to handle create volume request: missing storage class parameter cas-type")
      else match cvr_VolumeCapabilities req with
           | None => Some (invalid "failed to handle create volume request: missing volume capabilities")
           | Some volCapabilities => validateVolCaps req volCapabilities
           end
  end.

(** validateDeleteVolumeReq *)
Definition validateDeleteVolumeReq (cs : controller) (volumeID : string) : err :=
  if bool_decide (volumeID = "")
  then Some (invalid "failed to handle delete volume request: missing volume id")
  else match validateRequest cs CREATE_DELETE_VOLUME with
       | Some e => Some (Wrapf e "failed to handle delete volume request for {%s}" [AStr volumeID])
       | None => None
       end.

(** ** Topology *)

(** The loop over a topology's segments, in map order: whether a label of the
    node differs.  A label the node does not have reads as the empty string. *)
Fixpoint segmentsLoop (labels : gmap string string) (segs : list (string * string)) : bool :=
  match segs with
  | [] => false
  | (key, value) :: segs' =>
      if negb (bool_decide (default "" (labels !! key) = value)) then true
      else segmentsLoop labels segs'
  end.

(** The loop over the nodes: the name of the first that is not filtered out. *)
Fixpoint nodesLoop (prf : Topology) (nodes : list Node) : go (option string) :=
  match nodes with
  | [] => mret None
  | node :: nodes' =>
      segs ← sys (RangeMap (Segments prf));
      let nodeFiltered := segmentsLoop (default ∅ (om_Labels (node_Meta node))) segs in
      if Bool.eqb nodeFiltered false then mret (Some (om_Name (node_Meta node)))
      else nodesLoop prf nodes'
  end.

(** The loop over the preferred topologies *)
Fixpoint preferredLoop (prefs : list Topology) (nodes : list Node) : go string :=
  match prefs with
  | [] => mret ""
  | prf :: prefs' =>
      o ← nodesLoop prf nodes;
      match o with
      | Some name => mret name
      | None => preferredLoop prefs' nodes
      end
  end.

(** getNode *)
Definition getNode (topo : TopologyRequirement) : go (string * err) :=
  '(_, (list, e)) ← KNode.List (KNode.NewKubeClient []) 0;
  match e with
  | Some e => mret ("", Some e)
  | None =>
      match Preferred topo with
      | [] => mret ("", None)
      | _ :: _ =>
          items ← deref list;
          name ← preferredLoop (Preferred topo) items;
          mret (name, None)
      end
  end.

(** getAccessibilityRequirements *)
Definition getAccessibilityRequirements (requirement : option TopologyRequirement) :
    go (string * err) :=
  match requirement with
  | None => mret ("", Some (Status Internal "accessibility_requirements not found" []))
  | Some requirement =>
      '(node, e) ← getNode requirement;
      match e with
      | Some e => mret ("", Some (Status Internal
          "failed to get the accessibility_requirements node %v" [AErr e]))
      | None =>
          if bool_decide (String.length node = 0)
          then mret ("", Some (Status Internal "can not find any node" []))
          else mret (node, None)
      end
  end.

(** ** Analytics *)

Definition DefaultCASType : string := "cstor".
Definition Replica : string := "replica:".
Definition DefaultReplicaCount : string := "replica:3".

(** GetVolumeType, GetReplicaCount *)
Definition GetVolumeType (volType method : string) : string :=
  if bool_decide (method = VolumeProvision) && bool_decide (volType = "")
  then DefaultCASType else volType.
Definition GetReplicaCount (count method : string) : string :=
  if bool_decide (method = VolumeProvision) && bool_decide (count = "")
  then DefaultReplicaCount else Replica +:+ count.

(** sendEventOrIgnore *)
Definition sendEventOrIgnore (pvcName pvName capacity replicaCount stgType method : string) : go () :=
  on ← Env.Truthy Env.OpenEBSEnableAnalytics;
  if on : bool then
    sys (AnalyticsSend {| ae_CommonBuild := GetVolumeType stgType method;
                          ae_VolumeName := pvName; ae_VolumeClaimName := pvcName;
                          ae_Action := GetReplicaCount replicaCount method;
                          ae_Category := method; ae_Capacity := capacity |})
  else mret tt.

(** ** Volumes *)

(** The content source of CreateVolume: the snapshot ID to clone from *)
Definition createSource (contentSource : option VolumeContentSource) : go (res string) :=
  match contentSource with
  | Some (VCSSnapshot (Some snapshotID)) =>
      if bool_decide (snapshotID = "")
      then fail (Status InvalidArgument "snapshot ID is empty" [])
      else
        '(isValidSrc, _) ← Maya.IsSourceAvailable snapshotID;
        if negb isValidSrc then fail (Status InvalidArgument "VolumeSrc Not Available" [])
        else ok snapshotID
  | _ => ok ""
  end.

(** CreateVolume *)
Definition CreateVolume (cs : controller) (req : CreateVolumeRequest) : go (res Volume) :=
  match validateVolumeCreateReq cs req with
  | Some e => fail e
  | None =>
      let volName := cvr_Name req in
      range_ ← deref (cvr_CapacityRange req);
      let size := RequiredBytes range_ in
      let rCount := param req "replicaCount" in
      let cspcName := param req "cstorPoolCluster" in
      let policyName := param req "cstorVolumePolicy" in
      let ctx : gmap string string := {["openebs.io/cas-type" := param req "cas-type"]} in
      let pvcName := param req "csi.storage.k8s.io/pvc/name" in
      let pvcNamespace := param req "csi.storage.k8s.io/pvc/namespace" in
      '(nodeID, e) ← getAccessibilityRequirements (cvr_AccessibilityRequirements req);
      match e with
      | Some e => fail e
      | None =>
          let contentSource := cvr_VolumeContentSource req in
          try (createSource contentSource) (λ snapshotID,
          let response := {| CapacityBytes := size; VolumeId := volName;
                             VolumeContext := ctx; ContentSource := contentSource |} in
          '(cvc, e) ← Maya.GetVolume volName;
          if bool_decide (e = None)
             && match cvc with
                | Some cvc => bool_decide (om_DeletionTimestamp (cvc_Meta cvc) = None)
                | None => false
                end
          then ok response
          else
            e ← Maya.ProvisionVolume size volName rCount cspcName snapshotID nodeID policyName
                  pvcName pvcNamespace;
            match e with
            | Some e => fail (internal e)
            | None =>
                _ ← sendEventOrIgnore pvcName volName (Str.Itoa size) rCount "cstor-csi"
                      VolumeProvision;
                ok response
            end)
      end
  end.

(** getCapacity (utils.go) *)
Definition getCapacity (cvc : CStorVolumeConfig) : string :=
  QtyString (rl_get (cvc_Capacity cvc) ResourceStorage).

(** DeleteVolume *)
Definition DeleteVolume (cs : controller) (volumeID : string) : go (res ()) :=
  match validateDeleteVolumeReq cs volumeID with
  | Some e => fail e
  | None =>
      '(cvc, e) ← Maya.GetVolume volumeID;
      if match cvc with
         | Some cvc => bool_decide (is_Some (om_DeletionTimestamp (cvc_Meta cvc)))
         | None => false
         end
      then ok (Payload.DeleteBuild Payload.NewDeleteVolumeResponseBuilder)
      else
        e ← Maya.DeleteVolume volumeID;
        match (match e with Some e => if IsNotFound e then None else Some e | None => None end) with
        | Some e => fail (Wrapf e "failed to handle delete volume request for {%s}" [AStr volumeID])
        | None =>
            cvc ← deref cvc;
            _ ← sendEventOrIgnore (smap_get (om_Annotations (cvc_Meta cvc)) Maya.OpenebsPVC)
                  volumeID (getCapacity cvc) (Str.Itoa (cvc_ReplicaCount cvc)) "cstor-csi"
                  VolumeDeprovision;
            ok (Payload.DeleteBuild Payload.NewDeleteVolumeResponseBuilder)
        end
  end.

(** ControllerExpandVolume *)
Definition ControllerExpandVolume (cs : controller) (volumeId : string)
    (capacityRange : option CapacityRange) : go (res ControllerExpandVolumeResponse) :=
  let updatedSize := GetRequiredBytes capacityRange in
  e ← Maya.ResizeVolume volumeId updatedSize;
  match e with
  | Some e => fail (Status Internal "failed to handle ControllerExpandVolumeRequest for %s, {%s}"
                      [AStr volumeId; AErr e])
  | None => ok (Payload.ExpandBuild
              (Payload.WithNodeExpansionRequired true
              (Payload.WithCapacityBytes updatedSize
                 Payload.NewControllerExpandVolumeResponseBuilder)))
  end.

(** getVolumeCondition (utils.go) *)
Definition getVolumeCondition (vol : CStorVolume) : VolumeCondition :=
  let phase := cv_Phase vol in
  {| Abnormal := negb (bool_decide (phase = CVStatusHealthy));
     Message :=
       if bool_decide (phase = CVStatusHealthy) then "Volume status is Healthy"
       else if bool_decide (phase = CVStatusInit) then
         "Volume is getting initialized, quorum no. of replicas are not yet connected to the target"
       else if bool_decide (phase = CVStatusOffline) then
         "Volume status is offline, No replicas are connected to target"
       else if bool_decide (phase = CVStatusDegraded) then
         "Volume status is degraded, quorum no. of replicas are not in healthy state"
       else "Volume status is unknown" |}.

(** ControllerGetVolume *)
Definition ControllerGetVolume (cs : controller) (volumeId : string) :
    go (res (Volume * VolumeCondition)) :=
  '(volume, e) ← Maya.GetCStorVolume volumeId;
  match e with
  | Some e => fail (Status Internal "failed to get the cstorvolume %v" [AErr e])
  | None =>
      volume ← deref volume;
      ok ({| CapacityBytes := QtyMilliValue (cv_StatusCapacity volume);
             VolumeId := om_Name (cv_Meta volume);
             VolumeContext := ∅; ContentSource := None |},
          getVolumeCondition volume)
  end.

(** ** Snapshots *)

(** CreateSnapshot *)
Definition CreateSnapshot (cs : controller) (sourceVolumeId name : string) : go (res Snapshot) :=
  snapTimeStamp ← sys Now;
  e ← Attach.CreateSnapshot sourceVolumeId name;
  match e with
  | Some e => fail (Status Internal "failed to handle CreateSnapshotRequest for %s: %s, {%s}"
                      [AStr sourceVolumeId; AStr name; AErr e])
  | None => ok (Payload.SBuild
              (Payload.SWithReadyToUse true
              (Payload.SWithCreationTime snapTimeStamp 0
              (Payload.SWithSnapshotID (sourceVolumeId +:+ "@" +:+ name)
              (Payload.SWithSourceVolumeID sourceVolumeId
                 Payload.NewCreateSnapshotResponseBuilder)))))
  end.

(** DeleteSnapshot *)
Definition DeleteSnapshot (cs : controller) (snapshotId : string) : go (res ()) :=
  match Str.Split snapshotId (Ascii.ascii_of_nat 64) with
  | [volume; snap] =>
      e ← Attach.DeleteSnapshot volume snap;
      match e with
      | Some e => fail (Status Internal "failed to handle DeleteSnapshotRequest for %s, {%s}"
                          [AStr snapshotId; AErr e])
      | None => ok tt
      end
  | _ => fail (Status Internal "failed to handle DeleteSnapshotRequest for %s, {%s}"
                 [AStr snapshotId; AStr "Manual intervention required"])
  end.

(** ** The calls that are not implemented *)

(** ValidateVolumeCapabilities, ControllerPublishVolume,
    ControllerUnpublishVolume, ListSnapshots, GetCapacity, ListVolumes *)
Definition unimplemented {A} : go (res A) := fail (Status Unimplemented "" []).
Definition ValidateVolumeCapabilities (cs : controller) : go (res ()) := unimplemented.
Definition ControllerPublishVolume (cs : controller) : go (res ()) := unimplemented.
Definition ControllerUnpublishVolume (cs : controller) : go (res ()) := unimplemented.
Definition ListSnapshots (cs : controller) : go (res ()) := unimplemented.
Definition GetCapacity (cs : controller) : go (res ()) := unimplemented.
Definition ListVolumes (cs : controller) : go (res ()) := unimplemented.

(** ControllerGetCapabilities *)
Definition ControllerGetCapabilities (cs : controller) : go (res (list ControllerCap)) :=
  ok (capabilities cs).

End controller.
End Controller.
