(* ===== verification/NodeSvc.v ===== *)
(** * The node service: src/pkg/driver/node.go, node_utils.go and the
    transition-list and device helpers of utils.go

    Staging, publishing, expanding and measuring a volume on one node.  Every
    handler that changes the node first enters the volume in
    [TransitionVolList] and removes it when it returns or panics. *)

From S2P Require Export Attachments Mounts.
Local Open Scope go_scope.

Module NodeSvc.
Section node.
Context {L : ApiLib} {G : Globals} {T : StatusNames}.

(** The node object: [ns.driver.config.NodeID] and its capabilities. *)
Record node := MkNodeSvc { NodeID : string; capabilities : list NodeCap }.

(** newNodeCapabilities, NewNode *)
Definition newNodeCapabilities : list NodeCap :=
  foldl (λ acc cap, acc ++ [cap]) [] [STAGE_UNSTAGE_VOLUME; NC_EXPAND_VOLUME; GET_VOLUME_STATS].
Definition NewNode (nodeID : string) : node := MkNodeSvc nodeID newNodeCapabilities.

(** ** utils.go *)

(** IsBlockDevice: [st.Mode & S_IFMT == S_IFBLK] *)
Definition S_IFMT : Z := 61440.
Definition S_IFBLK : Z := 24576.
Definition IsBlockDevice (fullPath : string) : go (bool * err) :=
  '(mode, e) ← sys (UnixStat fullPath);
  match e with
  | Some e => mret (false, Some e)
  | None => mret (bool_decide (Z.land mode S_IFMT = S_IFBLK), None)
  end.

(** removeVolumeFromTransitionList *)
Definition removeVolumeFromTransitionList (volumeID : string) : go () :=
  _ ← sys Lock;
  defer (sys Unlock) (sys (TvlDelete volumeID)).

(** addVolumeToTransitionList *)
Definition addVolumeToTransitionList (volumeID : string) (status : CVAStatus) : go err :=
  _ ← sys Lock;
  defer (sys Unlock)
    (o ← sys (TvlGet volumeID);
     match o with
     | Some _ =>
         o ← sys (TvlGet volumeID);
         mret (Some (Errorf "Volume %s Busy, status: %v"
                       [AStr volumeID; AStr (default "" (statusString <$> o))]))
     | None => _ ← sys (TvlSet volumeID status); mret None
     end).

(** [utils.TransitionVolListLock.Lock(); utils.TransitionVolList[v] = s; Unlock()] *)
Definition setTransition (volumeID : string) (s : CVAStatus) : go () :=
  _ ← sys Lock; _ ← sys (TvlSet volumeID s); sys Unlock.
(** The same with a log line that reads the entry back. *)
Definition setTransitionLogged (volumeID : string) (s : CVAStatus) : go () :=
  _ ← sys Lock; _ ← sys (TvlSet volumeID s); _ ← sys (TvlGet volumeID); sys Unlock.

(** ** node_utils.go *)

(** getTargetIP *)
Definition getTargetIP (url : string) : go string :=
  match Str.Split url (Ascii.ascii_of_nat 58) with
  | s0 :: _ => mret s0
  | [] => Panic "runtime error: index out of range"
  end.

(** attachDisk *)
Definition attachDisk (vol : CStorVolumeAttachment) : go (res string) :=
  ip ← getTargetIP (cva_TargetPortal vol);
  '(devicePath, e) ← sys (IscsiConnect
     {| con_VolumeName := cva_VolName vol; con_Iqn := cva_Iqn vol; con_Portal := ip;
        con_Lun := 0; con_Interface := "default"; con_DoDiscovery := true |});
  match e with
  | Some e => fail e
  | None =>
      if bool_decide (devicePath = "")
      then fail (Errorf "connect reported success, but no path returned" [])
      else ok devicePath
  end.

(** formatAndMount: the staging directory is made when the mount-point test
    fails for a reason other than a missing path *)
Definition formatAndMount (req : NodeStageVolumeRequest) (devicePath : string) : go err :=
  let mntPath := nsr_StagingTargetPath req in
  '(notMnt, e) ← sys (IsLikelyNotMountPoint mntPath);
  mk ← (if match e with Some e => negb (os_IsNotExist e) | None => false end
        then sys (MkdirAll mntPath 488) else mret None);
  match mk with
  | Some e => mret (Some e)
  | None =>
      if negb notMnt then mret None
      else
        let m := GetMount (nsr_VolumeCapability req) in
        sys (FormatAndMount devicePath mntPath (GetFsType m) ([] ++ GetMountFlags m))
  end.

(** hasOption, and the loop that adds the mount flags not yet present *)
Fixpoint hasOption (options : list string) (opt : string) : bool :=
  match options with
  | [] => false
  | o :: options' => if bool_decide (o = opt) then true else hasOption options' opt
  end.
Fixpoint addFlags (flags mountOptions : list string) : list string :=
  match flags with
  | [] => mountOptions
  | f :: flags' =>
      addFlags flags' (if negb (hasOption mountOptions f) then mountOptions ++ [f] else mountOptions)
  end.

(** nodePublishVolumeForFileSystem *)
Definition nodePublishVolumeForFileSystem (req : NodePublishVolumeRequest)
    (mountOptions : list string) (mode : option MountVolume) : go err :=
  let target := npr_TargetPath req in
  let source := npr_StagingTargetPath req in
  let mountOptions :=
    match mode with Some m => addFlags (MountFlags m) mountOptions | None => mountOptions end in
  e ← sys (MkdirAll target 0);
  match e with
  | Some e => mret (Some (Status Internal "Could not create dir {%q}, err: %v" [AStr target; AErr e]))
  | None =>
      e ← sys (Chmod target 0);
      match e with
      | Some e => mret (Some (Status Internal "Could not change mode of dir {%q}, err: %v"
                                [AStr target; AErr e]))
      | None =>
          let fsType := GetFsType mode in
          let fsType := if bool_decide (String.length fsType = 0) then "ext4" else fsType in
          e ← sys (MountAt source target fsType mountOptions);
          match e with
          | Some e =>
              r ← sys (OsRemove target);
              match r with
              | Some _ => mret (Some (Status Internal "Could not remove mount target %q: %v"
                                        [AStr target; AErr e]))
              | None => mret (Some (Status Internal "Could not mount %q at %q: %v"
                                      [AStr source; AStr target; AErr e]))
              end
          | None => mret None
          end
      end
  end.

(** GetDevicePath *)
Definition GetDevicePath (devicePath volumeID : string) : go (res string) :=
  '(vol, e) ← Attach.GetCStorVolumeAttachment (volumeID +:+ "-" +:+ NodeIDENV);
  match e with
  | Some e => fail (internal e)
  | None => vol ← deref vol; ok (cva_DevicePath vol)
  end.

(** The two steps of nodePublishVolumeForBlock that remove the target again *)
Definition removeTarget (target : string) (failure : error) : go err :=
  r ← sys (OsRemove target);
  match r with
  | Some e => mret (Some (Status Internal "Could not remove mount target %q: %v" [AStr target; AErr e]))
  | None => mret (Some failure)
  end.

(** nodePublishVolumeForBlock *)
Definition nodePublishVolumeForBlock (req : NodePublishVolumeRequest) (mountOptions : list string) :
    go err :=
  let target := npr_TargetPath req in
  r ← GetDevicePath target (npr_VolumeId req);
  match r with
  | inr e => mret (Some (Status Internal "Failed to find device path %s. %v" [AStr target; AErr e]))
  | inl source =>
      let globalMountPath := Str.path_Dir target in
      '(exists_, e) ← Mounts.ExistsPath globalMountPath;
      match e with
      | Some e => mret (Some (Status Internal "Could not check if path exists %q: %v"
                                [AStr globalMountPath; AErr e]))
      | None =>
          e ← (if negb exists_ then Mounts.MakeDir globalMountPath else mret None);
          match e with
          | Some e => mret (Some (Status Internal "Could not create dir %q: %v"
                                    [AStr globalMountPath; AErr e]))
          | None =>
              e ← Mounts.MakeFile target;
              match e with
              | Some e => removeTarget target (Status Internal "Could not create file %q: %v"
                                                 [AStr target; AErr e])
              | None =>
                  e ← sys (MountAt source target "" mountOptions);
                  match e with
                  | Some e => removeTarget target (Status Internal "Could not mount %q at %q: %v"
                                                     [AStr source; AStr target; AErr e])
                  | None => mret None
                  end
              end
          end
      end
  end.

(** IsUnmountRequired, VerifyIfMountRequired *)
Fixpoint containsPath (mounts : list string) (targetPath : string) : bool :=
  match mounts with
  | [] => false
  | m :: mounts' => if Str.Contains m targetPath then true else containsPath mounts' targetPath
  end.
Definition IsUnmountRequired (volumeID targetPath : string) : go (bool * err) :=
  '(currentMounts, e) ← Mounts.GetMounts volumeID;
  match e with
  | Some e => mret (false, Some e)
  | None =>
      if bool_decide (length currentMounts = 0) then mret (false, None)
      else mret (containsPath currentMounts targetPath, None)
  end.
Definition VerifyIfMountRequired (volumeID targetPath : string) : go (bool * err) :=
  '(currentMounts, e) ← Mounts.GetMounts volumeID;
  match e with
  | Some e => mret (false, Some e)
  | None =>
      match currentMounts with
      | [] => mret (true, None)
      | m0 :: _ =>
          if containsPath currentMounts targetPath then mret (false, None)
          else
            e ← Iscsi.UnmountPath m0;
            match e with
            | Some e => mret (false, Some e)
            | None => mret (true, None)
            end
      end
  end.

(** validateNodeStageReq, validateNodeUnStageReq *)
Definition validateNodeStageReq (req : NodeStageVolumeRequest) : err :=
  if bool_decide (nsr_VolumeCapability req = None)
  then Some (Status InvalidArgument "Volume capability missing in request" [])
  else if bool_decide (String.length (nsr_VolumeId req) = 0)
  then Some (Status InvalidArgument "Volume ID missing in request" [])
  else None.
Definition validateNodeUnStageReq (req : NodeUnstageVolumeRequest) : err :=
  if bool_decide (nur_VolumeId req = "")
  then Some (Status InvalidArgument "Volume ID missing in request" [])
  else if bool_decide (nur_StagingTargetPath req = "")
  then Some (Status InvalidArgument "Target path missing in request" [])
  else None.

(** The loop of prepareVolumeForNode over the existing attachments *)
Fixpoint checkAttachments (volumeID nodeID : string) (csiVols : list CStorVolumeAttachment) : go err :=
  match csiVols with
  | [] => mret None
  | csiVol :: csiVols' =>
      let still n := Some (Errorf "Volume %s still mounted on node: %s" [AStr volumeID; AStr n]) in
      if bool_decide (om_Name (cva_Meta csiVol) = volumeID +:+ "-" +:+ nodeID) then
        if bool_decide (is_Some (om_DeletionTimestamp (cva_Meta csiVol)))
        then mret (still nodeID)
        else checkAttachments volumeID nodeID csiVols'
      else
        let oldNodeName := smap_get (om_Labels (cva_Meta csiVol)) "nodeID" in
        if bool_decide (oldNodeName = nodeID) then mret (still oldNodeName)
        else
          '(isNodeReady, e) ← KNode.IsNodeReady oldNodeName;
          match e with
          | Some e =>
              if negb (IsNotFound e)
              then mret (Some (Wrapf e "failed to get node %s details to know previous mounts"
                                 [AStr oldNodeName]))
              else checkAttachments volumeID nodeID csiVols'
          | None =>
              if isNodeReady : bool
              then mret (Some (Errorf "Volume %s still mounted on node %s"
                                 [AStr volumeID; AStr oldNodeName]))
              else checkAttachments volumeID nodeID csiVols'
          end
  end.

(** The access type of a request *)
Definition accessType (c : option VolumeCapability) : string :=
  match GetAccessType c with ATBlock => "block" | ATMount _ => "mount" | ATNone => "" end.

(** The attachment prepareVolumeForNode builds *)
Definition attachmentFor (req : NodeStageVolumeRequest) (nodeID : string) :
    res CStorVolumeAttachment :=
  let volumeID := nsr_VolumeId req in
  let labels : gmap string string := <["nodeID" := nodeID]> {["Volname" := volumeID]} in
  Cva.Build
    (Cva.WithReadOnly false
    (Cva.WithFSType (GetFsType (GetMount (nsr_VolumeCapability req)))
    (Cva.WithAccessType (accessType (nsr_VolumeCapability req))
    (Cva.WithVolName volumeID
    (Cva.WithLabels labels
    (Cva.WithName (volumeID +:+ "-" +:+ nodeID) Cva.NewBuilder)))))).

(** prepareVolumeForNode *)
Definition prepareVolumeForNode (ns : node) (req : NodeStageVolumeRequest) : go err :=
  let volumeID := nsr_VolumeId req in
  let nodeID := NodeID ns in
  '(existingCSIVols, e) ← Attach.GetVolList volumeID;
  match e with
  | Some e => mret (Some e)
  | None =>
    items ← deref existingCSIVols;
    e ← checkAttachments volumeID nodeID items;
    match e with
    | Some e => mret (Some e)
    | None =>
      match attachmentFor req nodeID with
      | inr e => mret (Some e)
      | inl vol =>
        '(isCVCBound, e) ← Maya.IsCVCBound volumeID;
        match e with
        | Some e => mret (Some (internal e))
        | None =>
          if negb isCVCBound then
            _ ← setTransition volumeID WaitingForCVCBound;
            _ ← sys (Sleep 10);
            mret (Some (Errorf "Waiting for %s's CVC to be bound" [AStr volumeID]))
          else
            '(vol, e) ← Maya.FetchAndUpdateISCSIDetails volumeID vol;
            match e with
            | Some e => mret (Some e)
            | None =>
              e ← Attach.DeleteOldCStorVolumeAttachmentCRs volumeID nodeID;
              match e with
              | Some e => mret (Some (internal e))
              | None =>
                '(_, e) ← Attach.CreateCStorVolumeAttachmentCR vol nodeID;
                match e with
                | Some e => mret (Some (internal e))
                | None => mret None
                end
              end
            end
        end
      end
    end
  end.

(** ** node.go *)

(** NodeGetInfo: the node's labels and the driver's own key.  Assigning into
    a nil map panics. *)
Definition TopologyNodeKey : string := "topology.cstor.openebs.io/nodeName".
Definition NodeGetInfo (ns : node) : go (res (string * gmap string string)) :=
  '(_, (node, e)) ← KNode.Get (KNode.NewKubeClient []) (NodeID ns);
  match e with
  | Some e => fail e
  | None =>
      node ← deref node;
      match om_Labels (node_Meta node) with
      | None => Panic "assignment to entry in nil map"
      | Some topology => ok (NodeID ns, <[TopologyNodeKey := NodeID ns]> topology)
      end
  end.

(** NodeGetCapabilities *)
Definition NodeGetCapabilities (ns : node) : go (res (list NodeCap)) := ok (capabilities ns).

(** The path by which the staged device is known *)
Definition stagedDevice (vol : CStorVolumeAttachment) : string :=
  Str.Join ["/dev/disk/by-path/ip"; cva_TargetPortal vol; "iscsi"; cva_Iqn vol; "lun";
            Str.Itoa 0] "-".

Definition clearFinalizers (vol : CStorVolumeAttachment) : CStorVolumeAttachment :=
  cva_set_Meta (om_set_Finalizers None (cva_Meta vol)) vol.

(** NodeStageVolume, from the attachment being marked as staged *)
Definition stageMount (req : NodeStageVolumeRequest) (vol : CStorVolumeAttachment) : go (res ()) :=
  let volumeID := nsr_VolumeId req in
  let stagingTargetPath := nsr_StagingTargetPath req in
  let vol := cva_set_StagingTargetPath stagingTargetPath vol in
  let vol := cva_set_Meta (om_set_Finalizers (Some [NodeIDENV]) (cva_Meta vol)) vol in
  let vol := cva_set_DevicePath (stagedDevice vol) vol in
  '(vol, e) ← Attach.UpdateCStorVolumeAttachmentCR (Some vol);
  match e with
  | Some e => fail (internal e)
  | None =>
    _ ← setTransition volumeID MountUnderProgress;
    vol ← deref vol;
    r ← attachDisk vol;
    match r with
    | inr e =>
        '(_, e1) ← Attach.UpdateCStorVolumeAttachmentCR (Some (clearFinalizers vol));
        match e1 with
        | Some e1 => fail (internal e1)
        | None => fail (internal e)
        end
    | inl devicePath =>
        match GetAccessType (nsr_VolumeCapability req) with
        | ATBlock => ok tt
        | _ =>
            e ← sys (MkdirAll stagingTargetPath 488);
            match e with
            | Some e => fail (internal e)
            | None =>
                e ← formatAndMount req devicePath;
                match e with
                | Some e =>
                    _ ← Attach.UpdateCStorVolumeAttachmentCR (Some (clearFinalizers vol));
                    fail (internal e)
                | None =>
                    _ ← setTransition volumeID Mounted;
                    ok tt
                end
            end
        end
    end
  end.

(** NodeStageVolume between its entry in and its removal from the list *)
Definition stageBody (ns : node) (req : NodeStageVolumeRequest) : go (res ()) :=
  let volumeID := nsr_VolumeId req in
  e ← prepareVolumeForNode ns req;
  match e with
  | Some e => fail (internal e)
  | None =>
    '(vol, e) ← Attach.GetCStorVolumeAttachment (volumeID +:+ "-" +:+ NodeIDENV);
    match e with
    | Some e => fail (internal e)
    | None =>
      vol ← deref vol;
      e ← Mounts.WaitForVolumeReadyAndReachable vol;
      match e with
      | Some e => fail (internal e)
      | None =>
        '(isMountRequired, e) ← VerifyIfMountRequired volumeID (nsr_StagingTargetPath req);
        match e with
        | Some e => fail (internal e)
        | None => if isMountRequired : bool then stageMount req vol else ok tt
        end
      end
    end
  end.

(** The frame of the handlers: enter the volume or report it busy, run the
    body, remove the volume again. *)
Definition withVolume {A} (volumeID : string) (s : CVAStatus) (busy : error → error)
    (body : go (res A)) : go (res A) :=
  e ← addVolumeToTransitionList volumeID s;
  match e with
  | Some e => fail (busy e)
  | None => defer (removeVolumeFromTransitionList volumeID) body
  end.

(** NodeStageVolume *)
Definition NodeStageVolume (ns : node) (req : NodeStageVolumeRequest) : go (res ()) :=
  match validateNodeStageReq req with
  | Some e => fail e
  | None => withVolume (nsr_VolumeId req) Uninitialized internal (stageBody ns req)
  end.

(** NodeUnstageVolume: its log line reads the list without the lock *)
Definition unstageBody (ns : node) (req : NodeUnstageVolumeRequest) : go (res ()) :=
  let volumeID := nur_VolumeId req in
  let stagingTargetPath := nur_StagingTargetPath req in
  _ ← sys (TvlGet volumeID);
  '(vol, e) ← Attach.GetCStorVolumeAttachment (volumeID +:+ "-" +:+ NodeIDENV);
  match e with
  | Some e => if IsNotFound e then ok tt else fail (internal e)
  | None =>
      vol ← deref vol;
      if bool_decide (cva_StagingTargetPath vol = "") then ok tt
      else
        _ ← setTransitionLogged volumeID UnmountUnderProgress;
        e ← Iscsi.UnmountAndDetachDisk vol stagingTargetPath;
        match e with
        | Some e => fail (internal e)
        | None =>
            _ ← setTransitionLogged volumeID Unmounted;
            let vol := cva_set_StagingTargetPath "" (clearFinalizers vol) in
            '(_, e) ← Attach.UpdateCStorVolumeAttachmentCR (Some vol);
            match e with
            | Some e => fail (internal e)
            | None =>
                e ← Attach.DeleteCStorVolumeAttachmentCR (volumeID +:+ "-" +:+ NodeID ns);
                match e with
                | Some e => fail (internal e)
                | None => ok tt
                end
            end
        end
  end.
Definition NodeUnstageVolume (ns : node) (req : NodeUnstageVolumeRequest) : go (res ()) :=
  match validateNodeUnStageReq req with
  | Some e => fail e
  | None => withVolume (nur_VolumeId req) Uninitialized internal (unstageBody ns req)
  end.

(** NodePublishVolume *)
Definition publishBody (req : NodePublishVolumeRequest) : go (res ()) :=
  let mountOptions := ["bind"] ++ (if npr_Readonly req then ["ro"] else []) in
  '(vol, e) ← Attach.GetCStorVolumeAttachment (npr_VolumeId req +:+ "-" +:+ NodeIDENV);
  match e with
  | Some e => fail (internal e)
  | None =>
      vol ← deref vol;
      let vol := cva_set_TargetPath (npr_TargetPath req) vol in
      '(_, e) ← Attach.UpdateCStorVolumeAttachmentCR (Some vol);
      match e with
      | Some e => fail (internal e)
      | None =>
          e ← match GetAccessType (npr_VolumeCapability req) with
              | ATBlock => nodePublishVolumeForBlock req mountOptions
              | ATMount mode => nodePublishVolumeForFileSystem req mountOptions mode
              | ATNone => mret None
              end;
          match e with
          | Some e => fail e
          | None => ok tt
          end
      end
  end.
Definition NodePublishVolume (ns : node) (req : NodePublishVolumeRequest) : go (res ()) :=
  withVolume (npr_VolumeId req) Uninitialized internal (publishBody req).

(** NodeUnpublishVolume *)
Definition unpublishBody (req : NodeUnpublishVolumeRequest) : go (res ()) :=
  let volumeID := nupr_VolumeId req in
  let target := nupr_TargetPath req in
  '(notMnt, e) ← sys (IsLikelyNotMountPoint target);
  if match e with None => notMnt | Some e => os_IsNotExist e end then ok tt
  else
    e ← sys (Unmount target);
    match e with
    | Some e => fail (Status Internal "Could not unmount %q: %v" [AStr target; AErr e])
    | None =>
        '(vol, e) ← Attach.GetCStorVolumeAttachment (volumeID +:+ "-" +:+ NodeIDENV);
        match e with
        | Some e => if IsNotFound e then ok tt else fail (internal e)
        | None =>
            vol ← deref vol;
            '(_, e) ← Attach.UpdateCStorVolumeAttachmentCR (Some (cva_set_TargetPath "" vol));
            match e with
            | Some e => fail (internal e)
            | None => ok tt
            end
        end
    end.
Definition NodeUnpublishVolume (ns : node) (req : NodeUnpublishVolumeRequest) : go (res ()) :=
  withVolume (nupr_VolumeId req) Uninitialized internal (unpublishBody req).

(** NodeExpandVolume *)
Definition expandFailure (volumeID : string) (e : error) : error :=
  Status Internal "failed to handle NodeExpandVolumeRequest for %s, {%s}" [AStr volumeID; AErr e].
Definition expandBody (req : NodeExpandVolumeRequest) : go (res Z) :=
  let volumeID := ner_VolumeId req in
  '(vol, e) ← Attach.GetCStorVolumeAttachment (volumeID +:+ "-" +:+ NodeIDENV);
  match e with
  | Some e => fail (internal e)
  | None =>
      vol ← deref vol;
      e ← Iscsi.ResizeVolume (ner_VolumePath req) vol;
      match e with
      | Some e => fail (expandFailure volumeID e)
      | None => ok (GetRequiredBytes (ner_CapacityRange req))
      end
  end.
Definition NodeExpandVolume (ns : node) (req : NodeExpandVolumeRequest) : go (res Z) :=
  withVolume (ner_VolumeId req) ResizeInProgress (expandFailure (ner_VolumeId req)) (expandBody req).

(** VolumeStatistics, GetStatistics: conversions and products wrap at 64 bits *)
Record VolumeStatistics := MkStats {
  availableBytes : Z; totalBytes : Z; usedBytes : Z;
  availableInodes : Z; totalInodes : Z; usedInodes : Z
}.
Definition statistics (st : Statfs_t) : VolumeStatistics :=
  let i := wrap64 in
  (MkStats (i (i (Bavail st) * i (Bsize st))) (i (i (Blocks st) * i (Bsize st)))
           (i (i (i (Blocks st) - i (Bfree st)) * i (Bsize st)))
           (i (Ffree st)) (i (Files st)) (i (i (Files st) - i (Ffree st))))%Z.
Definition GetStatistics (volumePath : string) : go (VolumeStatistics * err) :=
  '(st, e) ← sys (Statfs volumePath);
  match e with
  | Some e => mret (MkStats 0 0 0 0 0 0, Some e)
  | None => mret (statistics st, None)
  end.

(** getBlockSizeBytes *)
Definition getBlockSizeBytes (devicePath : string) : go (Z * err) :=
  '(output, e) ← sys (Exec "blockdev" ["--getsize64"; devicePath]);
  match e with
  | Some e => mret ((-1)%Z, Some (Errorf
      "error when getting size of block volume at path %s: output: %s, err: %v"
      [AStr devicePath; AStr output; AErr e]))
  | None =>
      let strOut := Str.TrimSpace output in
      match Str.ParseInt strOut with
      | None => mret ((-1)%Z, Some (Errorf "failed to parse size %s into int size, err: %s"
                                 [AStr strOut]))
      | Some gotSizeBytes => mret (gotSizeBytes, None)
      end
  end.

(** NodeGetVolumeStats *)
Definition NodeGetVolumeStats (ns : node) (req : NodeGetVolumeStatsRequest) : go (res (list VolumeUsage)) :=
  let volumePath := nvs_VolumePath req in
  if bool_decide (nvs_VolumeId req = "")
  then fail (Status InvalidArgument "NodeGetVolumeStats Volume ID must be provided" [])
  else if bool_decide (volumePath = "")
  then fail (Status InvalidArgument "NodeGetVolumeStats Volume Path must be provided" [])
  else
    '(mounted, e) ← Mounts.ExistsPath volumePath;
    match e with
    | Some e => fail (Status Internal "failed to check if volume path %q is mounted: %s"
                        [AStr volumePath; AErr e])
    | None =>
      if negb mounted then fail (Status NotFound "volume path %q is not mounted" [AStr volumePath])
      else
        '(isBlock, e) ← IsBlockDevice volumePath;
        match e with
        | Some e => fail (Status Internal "failed to determine whether %s is block device: %v"
                            [AStr volumePath; AErr e])
        | None =>
          if isBlock : bool then
            '(bcap, e) ← getBlockSizeBytes volumePath;
            match e with
            | Some e => fail (Status Internal "failed to get block capacity on path %s: %v"
                                [AStr volumePath; AErr e])
            | None => ok [{| Available := 0; Total := bcap; Used := 0; Unit := BYTES |}]
            end
          else
            '(stats, e) ← GetStatistics volumePath;
            match e with
            | Some e => fail (Status Internal
                "failed to retrieve capacity statistics for volume path %q: %s"
                [AStr volumePath; AErr e])
            | None =>
                ok [{| Available := availableBytes stats; Total := totalBytes stats;
                       Used := usedBytes stats; Unit := BYTES |};
                    {| Available := availableInodes stats; Total := totalInodes stats;
                       Used := usedInodes stats; Unit := INODES |}]
            end
        end
    end.

End node.
End NodeSvc.
