(* ===== verification/Server.v ===== *)
(** * The gRPC server: src/pkg/utils/server.go and logGRPC of utils.go

    The server of the CSI services at the driver's endpoint, and the interceptor
    through which every request passes.  The server runs in a goroutine of its
    own ([GoServe]); its methods [Start] and [Wait] share a wait group that is
    incremented and never decremented. *)

From S2P Require Export Mounts.
Local Open Scope go_scope.

Module Server.
Section server.
Context {L : ApiLib} {G : Globals}.

(** nonBlockingGRPCServer: its [server] pointer, as the services registered
    with it.  The wait group is reached through the actions [WgAdd] and
    [WgWait]. *)
Record nonBlockingGRPCServer := MkServer { server : option (list service) }.

(** NewNonBlockingGRPCServer *)
Definition NewNonBlockingGRPCServer : nonBlockingGRPCServer := MkServer None.

(** The services registered: those whose implementation is not nil. *)
Definition registered (ids cs ns : bool) : list service :=
  (if ids then [IdentityService] else []) ++ (if cs then [ControllerService] else []) ++
  (if ns then [NodeService] else []).

(** Start, Wait, Stop, ForceStop; a server that was not started has a nil
    pointer *)
Definition Start (endpoint : string) (ids cs ns : bool) : go () :=
  _ ← sys WgAdd; sys (GoServe endpoint (registered ids cs ns)).
Definition Wait : go () := sys WgWait.
Definition Stop (s : nonBlockingGRPCServer) : go () := _ ← deref (server s); sys (StopGrpc true).
Definition ForceStop (s : nonBlockingGRPCServer) : go () :=
  _ ← deref (server s); sys (StopGrpc false).

(** The address to listen at: a unix socket's path is made absolute and a
    stale one removed, a failure of which ends the process. *)
Definition cleanSocket (proto addr : string) : go string :=
  if bool_decide (proto = "unix") then
    let addr := "/" +:+ addr in
    e ← sys (OsRemove addr);
    match e with
    | Some e => if negb (os_IsNotExist e) then Exit 1 else mret addr
    | None => mret addr
    end
  else mret addr.

(** serve, the goroutine; [logrus.Fatal] is [os.Exit(1)] *)
Definition serve (endpoint : string) (services : list service) : go () :=
  r ← Mounts.parseEndpoint endpoint;
  match r with
  | inr _ => Exit 1
  | inl (proto, addr) =>
      addr ← cleanSocket proto addr;
      e ← sys (NetListen proto addr);
      match e with
      | Some _ => Exit 1
      | None => sys (ServeGrpc proto addr services)
      end
  end.

(** logGRPC around a handler; [stripReq] and [stripResp] render a message
    without its secrets (protosanitizer.StripSecrets) *)
Definition logGRPC {Req Resp} (stripReq : Req → string) (stripResp : Resp → string)
    (FullMethod : string) (handler : Req → go (Resp * err)) (req : Req) : go (Resp * err) :=
  id ← sys NewUUID;
  let printlog := Mounts.printlog FullMethod in
  _ ← (if negb printlog
       then sys (LogLine "Req %s: %s %s" [AStr id; AStr FullMethod; AStr (stripReq req)])
       else mret tt);
  '(resp, e) ← handler req;
  _ ← match e with
      | Some e => sys (LogLine "GRPC error: %v" [AErr e])
      | None => if negb printlog
                then sys (LogLine "Resp %s: %s" [AStr id; AStr (stripResp resp)])
                else mret tt
      end;
  mret (resp, e).

End server.
End Server.
