(* ===== verification/Identity.v ===== *)
(** * The process: src/pkg/version/version.go, the identity service and the
    driver object (src/pkg/driver/identity.go, service.go,
    src/pkg/config/config.go), and src/cmd/main.go

    From the command line to the services: [Main.run] builds the driver and
    starts its server. *)

From S2P Require Export Controller NodeSvc Server.
Local Open Scope go_scope.

(** The package variables of src/pkg/version, set by the linker. *)
Class BuildVars := { LinkedGitCommit : string; LinkedVersion : string }.

Module Version.
Section version.
Context {L : ApiLib} {B : BuildVars}.

Definition versionFile : string := "/src/github.com/openebs/cstor-csi/VERSION".

(** Get, Current: the linked version, else the VERSION file below GOPATH.
    [filepath.Join] of one element cleans it. *)
Definition Get : go string :=
  if negb (bool_decide (LinkedVersion = "")) then mret LinkedVersion
  else
    gopath ← os_Getenv "GOPATH";
    '(vBytes, e) ← sys (ReadFile (Str.path_Clean (gopath +:+ versionFile)));
    match e with
    | Some _ => mret ""
    | None => mret (Str.TrimSpace vBytes)
    end.
Definition Current : go string := Get.

(** GetGitCommit *)
Definition GetGitCommit : go string :=
  if negb (bool_decide (LinkedGitCommit = "")) then mret LinkedGitCommit
  else
    '(output, e) ← sys (CmdOutput "git" ["rev-parse"; "--verify"; "HEAD"]);
    match e with
    | Some _ => mret ""
    | None => mret (Str.TrimSpace output)
    end.

(** [s[0:7]] panics on a shorter string *)
Definition slice7 (s : string) : go string :=
  if bool_decide (7 ≤ String.length s) then mret (String.substring 0 7 s)
  else Panic "runtime error: slice bounds out of range".

(** Verbose, GetVersionDetails *)
Definition Verbose : go string :=
  v ← Get; c ← GetGitCommit; c7 ← slice7 c; mret (Str.Join [v; c7] "-").
Definition GetVersionDetails : go string :=
  v ← Get; c ← GetGitCommit; c7 ← slice7 c; mret (Str.Join [v; c7] "-").

End version.
End Version.

Module Driver.
Section driver.
Context {L : ApiLib} {B : BuildVars}.

(** config.Config and Default *)
Record Config := MkConfig {
  DriverName : string; PluginType : string; Version : string;
  Endpoint : string; NodeID : string; RestURL : string
}.
Definition Default : Config := MkConfig "" "" "" "" "" "".

(** ** identity.go *)

Record identity := MkIdentity { config : Config }.
Definition NewIdentity (c : Config) : identity := MkIdentity c.

(** GetPluginInfo: name and version; the version reported is
    [version.Current()], not the configured one. *)
Definition GetPluginInfo (id : identity) : go (res (string * string)) :=
  if bool_decide (DriverName (config id) = "")
  then fail (Status Unavailable "missing driver name" [])
  else if bool_decide (Version (config id) = "")
  then fail (Status Unavailable "missing driver version" [])
  else v ← Version.Current; ok (DriverName (config id), v).

(** Probe, GetPluginCapabilities *)
Definition Probe (id : identity) : go (res ()) := ok tt.
Definition GetPluginCapabilities (id : identity) : go (res (list PluginService)) :=
  ok [CONTROLLER_SERVICE; VOLUME_ACCESSIBILITY_CONSTRAINTS].

(** ** service.go *)

(** GetVolumeCapabilityAccessModes, newVolumeCapabilityAccessMode *)
Definition newVolumeCapabilityAccessMode (mode : AccessMode) : AccessMode := mode.
Definition GetVolumeCapabilityAccessModes : list AccessMode :=
  foldl (λ vcams vcam, vcams ++ [newVolumeCapabilityAccessMode vcam]) [] [SINGLE_NODE_WRITER].

(** CSIDriver: the services a driver registers; nil ones are [None] *)
Record CSIDriver := MkDriver {
  dr_config : Config; ids : identity;
  ns : option NodeSvc.node; cs : option Controller.controller;
  cap : list AccessMode
}.

End driver.

Section new.
Context {L : ApiLib} {G : Globals}.

(** New: a node driver cleans up first, and a failed cleanup ends the process;
    then it starts the monitor if asked to. *)
Definition New (c : Config) : go CSIDriver :=
  let caps := GetVolumeCapabilityAccessModes in
  if bool_decide (PluginType c = "controller")
  then mret (MkDriver c (NewIdentity c) None (Some Controller.NewController) caps)
  else if bool_decide (PluginType c = "node") then
    e ← Mounts.Cleanup;
    match e with
    | Some _ => Exit 1
    | None =>
        remount ← os_Getenv "REMOUNT";
        _ ← (if bool_decide (remount = "true") then sys GoMonitor else mret tt);
        mret (MkDriver c (NewIdentity c) (Some (NodeSvc.NewNode (NodeID c))) None caps)
    end
  else mret (MkDriver c (NewIdentity c) None None caps).

(** Run: the identity service is never nil; a controller registers
    [Version.GetVersionDetails] as the getter of its version, announces its
    installation and starts the ping. When and whether the analytics library calls the getter
    is its own affair: the model registers it and does not run it. *)
Definition Run (d : CSIDriver) : go err :=
  _ ← Server.Start (Endpoint (dr_config d)) true (bool_decide (is_Some (cs d)))
        (bool_decide (is_Some (ns d)));
  _ ← match cs d with
      | None => mret tt
      | Some _ =>
          on ← Env.Truthy Env.OpenEBSEnableAnalytics;
          if on : bool then
            _ ← sys AnalyticsRegister;
            _ ← sys (AnalyticsInstall Controller.DefaultCASType);
            sys (GoPing Controller.DefaultCASType)
          else mret tt
      end;
  _ ← Server.Wait;
  mret None.

End new.
End Driver.

(** ** main.go *)

Module Main.
Section main.
Context {L : ApiLib} {G : Globals} {B : BuildVars}.
Import Driver.

(** The flags main declares: the name, the field bound to it, its default. *)
Record Flag := MkFlag { fl_name : string; fl_set : string → Config → Config; fl_default : string }.
Definition flags : list Flag :=
  [MkFlag "url" (λ v c, MkConfig (DriverName c) (PluginType c) (Version c) (Endpoint c) (NodeID c) v) "";
   MkFlag "nodeid" (λ v c, MkConfig (DriverName c) (PluginType c) (Version c) (Endpoint c) v (RestURL c))
     "node1";
   MkFlag "version" (λ v c, MkConfig (DriverName c) (PluginType c) v (Endpoint c) (NodeID c) (RestURL c)) "";
   MkFlag "endpoint" (λ v c, MkConfig (DriverName c) (PluginType c) (Version c) v (NodeID c) (RestURL c))
     "unix://csi/csi.sock";
   MkFlag "name" (λ v c, MkConfig v (PluginType c) (Version c) (Endpoint c) (NodeID c) (RestURL c))
     "cstor.csi.openebs.io";
   MkFlag "plugin" (λ v c, MkConfig (DriverName c) v (Version c) (Endpoint c) (NodeID c) (RestURL c))
     "csi-plugin"].

(** Declaring a flag sets its field to the default at once. *)
Definition flagDefaults : Config := foldl (λ c f, fl_set f (fl_default f) c) Default flags.

(** A value given to a flag; the other flags (those of glog) are not in the
    configuration. *)
Definition assign (c : Config) (given : string * string) : Config :=
  foldl (λ c f, if bool_decide (fl_name f = given.1) then fl_set f given.2 c else c) c flags.

(** What cobra makes of the arguments: an error, a request for help only, or
    the values given to the flags in their order. *)
Inductive Parsed := ParseError | HelpOnly | Given (l : list (string * string)).

Definition withVersion (v : string) (c : Config) : Config :=
  MkConfig (DriverName c) (PluginType c) v (Endpoint c) (NodeID c) (RestURL c).

(** run: the log line reads the version and the commit; [log.Fatalln] is
    [os.Exit(1)] *)
Definition run (c : Config) : go () :=
  c ← (if bool_decide (Driver.Version c = "") then v ← Version.Current; mret (withVersion v c)
       else mret c);
  _ ← Version.Current;
  _ ← Version.GetGitCommit;
  d ← New c;
  e ← Run d;
  match e with
  | Some _ => Exit 1
  | None => Exit 0
  end.

(** main: cobra runs the command unless the arguments are wrong or ask for help *)
Definition main (p : Parsed) : go () :=
  let config := flagDefaults in
  match p with
  | ParseError => Exit 1
  | HelpOnly => mret tt
  | Given l => run (foldl assign config l)
  end.

End main.
End Main.
