(* ===== verification/Protocol.v ===== *)
(** * The transition-list protocol of the node service

    [TransitionVolList], guarded by [TransitionVolListLock], is how the
    handlers of a node and the mount monitor keep out of each other's way.
    [owner] is the protocol of one thread working for a volume: the list is
    changed only under the lock, an entry is made only after it was seen
    free under the same lock or is already one's own, only one's own entry is
    removed, and disks and Kubernetes objects are changed only while the
    volume is one's own.  Every node handler, the monitor's rounds, the
    remount goroutine and, once its volume is entered, the cleanup goroutine
    follow it ([NodeProtocol]); [Threads] shows what it is worth for any number
    of threads under any interleaving. *)

From S2P Require Export NodeSvc.
Local Open Scope go_scope.

Module Owner.
Section owner.
Context {L : ApiLib} {G : Globals} {T : StatusNames}.

(** The view of one thread: whether it holds the lock, the volumes it has
    entered, and those it has seen free since it took the lock. *)
Record ghost := Ghost { hold : bool; own : gset string; free : gset string }.
Definition idle : ghost := Ghost false ∅ ∅.

(** What the thread does to its view. *)
Definition upd (g : ghost) (a : action) : result a → ghost :=
  match a with
  | Lock => λ _, Ghost true (own g) ∅
  | Unlock => λ _, Ghost false (own g) ∅
  | TvlGet w => λ r,
      if hold g && bool_decide (r = None) then Ghost true (own g) ({[w]} ∪ free g) else g
  | TvlSet w _ => λ _, Ghost (hold g) ({[w]} ∪ own g) (free g ∖ {[w]})
  | TvlDelete w => λ _, Ghost (hold g) (own g ∖ {[w]}) (free g)
  | GoRemount _ _ vol => λ _, Ghost (hold g) (own g ∖ {[cva_VolName vol]}) (free g)
  | _ => λ _, g
  end.

(** The protocol of a thread working for volume [v]. *)
Definition allowed (v : string) (g : ghost) (a : action) : Prop :=
  match a with
  | Lock => hold g = false
  | Unlock => hold g = true
  | TvlSet w _ => hold g = true ∧ (w ∈ own g ∨ w ∈ free g)
  | TvlDelete w => hold g = true ∧ w ∈ own g
  | GoRemount _ _ vol => cva_VolName vol ∈ own g
  | GoCleanup _ => False
  | _ => kind_of a = KDisk ∨ kind_of a = KWrite → v ∈ own g
  end.

(** What the threads may rely on in the control plane's answers: a sane
    configuration; when a read of an attachment of this node succeeds, that it is
    named after its volume (beside an error the pointer may be anything); and
    either ([u] false) that no attachment listed for this node is marked for deletion or
    ([u] true, while the driver cleans up after its start) that an update is
    answered with an attachment of the volume that was updated. *)
Definition answers (u : bool) (h : Host) (a : action) : result a → Prop := λ r,
  sane h a r ∧
  match a return result a → Prop with
  | CvaGet _ _ name => λ r, r.2 = None → ∀ vol w, r.1 = Some vol →
      name = w +:+ "-" +:+ NodeIDENV → cva_VolName vol = w
  | CvaList _ _ sel => λ r, r.2 = None → is_Some r.1 ∧
      ∀ l vol, u = false → sel = Attach.NODEID +:+ "=" +:+ NodeIDENV →
        r.1 = Some l → vol ∈ l → om_DeletionTimestamp (cva_Meta vol) = None
  | CvaUpdate _ _ o => λ r, u = true → ∃ vol, r.1 = Some vol ∧ cva_VolName vol = cva_VolName o
  | _ => λ _, True
  end r.

Definition owner (u : bool) (h : Host) (v : string) : machine ghost := {|
  guard := allowed v;
  next := λ g a r g', g' = upd g a r ∧ answers u h a r ∧
    match a return result a → Prop with
    | TvlGet w => λ r, w ∈ own g → is_Some r
    | _ => λ _, True
    end r
|}.

(** Programs that leave the view of a thread working for [v] as it was. *)
Definition mine (v : string) (g : ghost) : Prop := hold g = false ∧ v ∈ own g ∧ free g = ∅.
Definition keeps (u : bool) (h : Host) (v : string) {A} (p : go A) : Prop :=
  ∀ g, mine v g → wp (mspec (owner u h v)) p g (λ _ g', g' = g).

(** Everything but the lock, the lists and the goroutines. *)
Definition ordinary : list kind :=
  [KConfig; KClock; KRead; KPatch; KWrite; KLook; KDisk; KSnap; KEvent].

Global Instance owner_neutral u h v : Neutral (owner u h v) (kinds ordinary) (λ g, v ∈ own g).
Proof.
  intros a g Ha Hg. unfold kinds in Ha. split.
  - destruct a; first [exact (λ _, Hg) | no_kind Ha].
  - intros r g' [-> _]. destruct a; first [reflexivity | no_kind Ha].
Qed.

(** Without changes of disks or objects, whatever is owned. *)
Definition watching : list kind := [KConfig; KClock; KRead; KLook].
Global Instance owner_watching u h v : Neutral (owner u h v) (kinds watching) (λ _, True).
Proof.
  intros a g Ha _. unfold kinds in Ha. split.
  - destruct a; first [no_kind Ha | by intros [?|?] | idtac].
    simpl in *. destruct (String.eqb _ _); [by intros [?|?]|no_kind Ha].
  - intros r g' [-> _]. destruct a; first [reflexivity | no_kind Ha].
Qed.

Global Instance owner_config u h v : ConfigFree h (mspec (owner u h v)).
Proof.
  intros a g Q Ha HQ. split.
  - destruct a; first [discriminate Ha | by intros [?|?] | idtac].
    simpl in *. by destruct (String.eqb _ _).
  - intros r g' (-> & [Hr _] & _). destruct a; first [discriminate Ha | by apply HQ | idtac].
Qed.

Section keeps.
Context (u : bool) (h : Host) (v : string).

Lemma keeps_only {A} (p : go A) : only (kinds ordinary) p → keeps u h v p.
Proof. intros Hp g (_ & Hv & _). by apply (wp_only _ (kinds ordinary) (λ g, v ∈ own g)). Qed.

Lemma keeps_bind {A B} (p : go A) (f : A → go B) :
  keeps u h v p → (∀ a, keeps u h v (f a)) → keeps u h v (bind p f).
Proof.
  intros Hp Hf g Hg. wp_bind. wp_mono; [|by apply Hp].
  intros [a|m|c] g' ->; simpl; [by apply Hf|done..].
Qed.

Lemma own_again (o : gset string) : v ∈ o → {[v]} ∪ o = o.
Proof. intros. apply subseteq_union_1_L. by apply singleton_subseteq_l. Qed.

Lemma mine_set g s : mine v g →
  upd (upd (upd g Lock tt) (TvlSet v s) tt) Unlock tt = g.
Proof.
  intros (Hh & Hv & Hf). destruct g as [b o f]. simpl in *. subst.
  by rewrite own_again.
Qed.

Lemma keeps_setTransition s : keeps u h v (NodeSvc.setTransition v s).
Proof.
  intros g Hg. pose proof Hg as (Hh & Hv & Hf). unfold NodeSvc.setTransition. simpl.
  split; [done|]. intros [] g1 [-> _]. split; [simpl; auto|]. intros [] g2 [-> _].
  split; [done|]. intros [] g3 [-> _]. by apply mine_set.
Qed.

Lemma keeps_setTransitionLogged s : keeps u h v (NodeSvc.setTransitionLogged v s).
Proof.
  intros g Hg. pose proof Hg as (Hh & Hv & Hf). unfold NodeSvc.setTransitionLogged. simpl.
  split; [done|]. intros [] g1 [-> _]. split; [simpl; auto|]. intros [] g2 [-> _].
  split; [by intros [?|?]|]. intros r g3 (-> & _ & Hr). simpl in *.
  destruct (Hr ltac:(by apply elem_of_union_r)) as [st ->]. simpl. split; [done|].
  intros [] g4 [-> _]. simpl. destruct g as [b o f]. simpl in *. subst.
  by rewrite own_again.
Qed.

(** A read of the list outside the lock. *)
Lemma keeps_TvlGet w : keeps u h v (sys (TvlGet w)).
Proof.
  intros g (Hh & _). simpl. split; [by intros [?|?]|]. intros r g' [-> _]. simpl. by rewrite Hh.
Qed.

(** Fetching the attachment of the volume on this node. *)
Lemma keeps_GetAttachment {B} (f : option CStorVolumeAttachment * err → go B) :
  (∀ o e, keeps u h v (f (o, Some e))) →
  (∀ o, (∀ vol, o = Some vol → cva_VolName vol = v) → keeps u h v (f (o, None))) →
  keeps u h v (bind (Attach.GetCStorVolumeAttachment (v +:+ "-" +:+ NodeIDENV)) f).
Proof.
  intros He Hf g Hg. wp_bind. unfold Attach.GetCStorVolumeAttachment. wp_bind.
  apply (Cva.wp_cvaGet h (mspec (owner u h v))); simpl.
  - intros _ k e. by apply He.
  - intros _ k e. by apply He.
  - intros _ c. split; [by intros [?|?]|]. intros [o [e|]] g' (-> & [_ Hr] & _) k; simpl; [by apply He|].
    apply Hf; [|done]. intros vol ->. by eapply Hr.
Qed.

Lemma keeps_readyLoop n : keeps u h v (Mounts.readyLoop n v).
Proof.
  induction n as [|n IH]; cbn [Mounts.readyLoop]; apply keeps_bind;
    try (apply keeps_only; solve_only; done); intros [st e]; repeat case_match; try done.
  intros g Hg. pose proof Hg as (Hh & Hv & Hf). simpl.
  split; [done|]. intros [] g1 [-> _]. split; [simpl; auto|]. intros [] g2 [-> _].
  split; [done|]. intros [] g3 [-> _]. split; [by intros [?|?]|]. intros [] g4 [-> _].
  rewrite mine_set by done. by apply IH.
Qed.

(** ** The bodies of the handlers *)

Lemma keeps_WaitForVolumeReadyAndReachable vol :
  cva_VolName vol = v → keeps u h v (Mounts.WaitForVolumeReadyAndReachable vol).
Proof.
  intros Hv. unfold Mounts.WaitForVolumeReadyAndReachable, Mounts.WaitForVolumeToBeReady.
  rewrite Hv. apply keeps_bind; [apply keeps_readyLoop|].
  intros [e|]; apply keeps_only; solve_only.
Qed.

Lemma only_checkAttachments vols n :
  only (kinds ordinary) (NodeSvc.checkAttachments v n vols).
Proof. induction vols; cbn [NodeSvc.checkAttachments]; solve_only. Qed.

Lemma keeps_ret {A} (a : A) : keeps u h v (mret a).
Proof. by intros g. Qed.
End keeps.
End owner.
End Owner.

Module NodeProtocol.
Import Owner.
Section handlers.
Context {L : ApiLib} {G : Globals} {T : StatusNames} (u : bool) (h : Host).

Lemma keeps_deref v {A B} (o : option A) (f : A → go B) :
  (∀ a, o = Some a → keeps u h v (f a)) → keeps u h v (bind (deref o) f).
Proof. destruct o; simpl; [auto|]. by intros _ g. Qed.

(** One step through a body: a component with a rule of its own, a program of
    ordinary actions, or a sequence. *)
Ltac solve_keeps_step :=
  match goal with
  | |- keeps _ _ _ (let _ := _ in _) => cbv zeta
  | |- keeps _ _ _ (mret _) => apply keeps_ret
  | |- keeps _ _ _ (ok _) => apply keeps_ret
  | |- keeps _ _ _ (fail _) => apply keeps_ret
  | |- keeps _ _ _ (NodeSvc.setTransition _ _) => apply keeps_setTransition
  | |- keeps _ _ _ (NodeSvc.setTransitionLogged _ _) => apply keeps_setTransitionLogged
  | |- keeps _ _ _ (mbind _ (Act (TvlGet _) Ret)) => apply keeps_bind; [apply keeps_TvlGet|intros]
  | |- keeps _ _ _ (mbind _ (Attach.GetCStorVolumeAttachment _)) =>
      apply keeps_GetAttachment; [intros ?o ?e|intros ?o ?Hname]
  | |- keeps _ _ _ (mbind _ (deref _)) => apply keeps_deref; intros
  | |- keeps _ _ _ (mbind _ (Mounts.WaitForVolumeReadyAndReachable _)) =>
      apply keeps_bind; [apply keeps_WaitForVolumeReadyAndReachable; auto|intros]
  | |- keeps _ _ _ _ => solve [apply keeps_only; solve_only]
  | |- keeps _ _ _ (match ?x with _ => _ end) => destruct x
  | |- keeps _ _ _ (mbind _ _) => apply keeps_bind; [|intros]
  end.
Ltac solve_keeps := repeat solve_keeps_step.

#[local] Hint Extern 0 (only _ (NodeSvc.checkAttachments _ _ _)) =>
  apply only_checkAttachments : only.

(** The components of the node service. *)
Lemma keeps_prepare ns req :
  keeps u h (nsr_VolumeId req) (NodeSvc.prepareVolumeForNode ns req).
Proof. unfold NodeSvc.prepareVolumeForNode. solve_keeps. Qed.

Lemma only_attachDisk vol : only (kinds ordinary) (NodeSvc.attachDisk vol).
Proof. unfold NodeSvc.attachDisk, NodeSvc.getTargetIP. solve_only. Qed.
Lemma only_formatAndMount req d : only (kinds ordinary) (NodeSvc.formatAndMount req d).
Proof. unfold NodeSvc.formatAndMount. solve_only. Qed.
Lemma only_VerifyIfMountRequired v p :
  only (kinds ordinary) (NodeSvc.VerifyIfMountRequired v p).
Proof. unfold NodeSvc.VerifyIfMountRequired. solve_only. Qed.
#[local] Hint Resolve only_attachDisk only_formatAndMount only_VerifyIfMountRequired : only.

Lemma only_publishFileSystem req o m :
  only (kinds ordinary) (NodeSvc.nodePublishVolumeForFileSystem req o m).
Proof. unfold NodeSvc.nodePublishVolumeForFileSystem. solve_only. Qed.
Lemma only_publishBlock req o : only (kinds ordinary) (NodeSvc.nodePublishVolumeForBlock req o).
Proof.
  unfold NodeSvc.nodePublishVolumeForBlock, NodeSvc.GetDevicePath, NodeSvc.removeTarget. solve_only.
Qed.
#[local] Hint Resolve only_publishFileSystem only_publishBlock : only.

Lemma keeps_stageMount req vol :
  keeps u h (nsr_VolumeId req) (NodeSvc.stageMount req vol).
Proof. unfold NodeSvc.stageMount. solve_keeps. Qed.

Lemma keeps_stageBody ns req : keeps u h (nsr_VolumeId req) (NodeSvc.stageBody ns req).
Proof.
  unfold NodeSvc.stageBody. cbv zeta. apply keeps_bind; [apply keeps_prepare|]. intros e.
  solve_keeps. apply keeps_stageMount.
Qed.

Lemma keeps_unstageBody ns req : keeps u h (nur_VolumeId req) (NodeSvc.unstageBody ns req).
Proof. unfold NodeSvc.unstageBody. solve_keeps. Qed.
Lemma keeps_publishBody req : keeps u h (npr_VolumeId req) (NodeSvc.publishBody req).
Proof. unfold NodeSvc.publishBody. solve_keeps. Qed.
Lemma keeps_unpublishBody req : keeps u h (nupr_VolumeId req) (NodeSvc.unpublishBody req).
Proof. unfold NodeSvc.unpublishBody. solve_keeps. Qed.
Lemma keeps_expandBody req : keeps u h (ner_VolumeId req) (NodeSvc.expandBody req).
Proof. unfold NodeSvc.expandBody. solve_keeps. Qed.

(** ** The frame of the handlers *)

(** How a thread leaves: it holds and owns nothing, unless the process ended. *)
Definition released {A} (o : outcome A) (g : ghost) : Prop :=
  match o with OExit _ => True | _ => g = idle end.

Definition with_ (v : string) : ghost := Ghost false {[v]} ∅.

Lemma mine_with v : mine v (with_ v).
Proof. split_and!; [done| |done]. simpl. by apply elem_of_singleton. Qed.

Lemma wp_remove v {A} (f : () → go A) Q :
  wp (mspec (owner u h v)) (f ()) idle Q →
  wp (mspec (owner u h v)) (bind (NodeSvc.removeVolumeFromTransitionList v) f) (with_ v) Q.
Proof.
  intros H. simpl. split; [done|]. intros [] g1 [-> _]. split.
  { split; [done|]. simpl. by apply elem_of_singleton. }
  intros [] g2 [-> _]. split; [done|]. intros [] g3 [-> _]. simpl.
  by rewrite difference_diag_L.
Qed.

(** A handler that is given the volume gives it back, however it ends; one
    that finds the volume busy changes nothing. *)
Lemma wp_withVolume v s busy {A} (body : go (res A)) :
  keeps u h v body →
  wp (mspec (owner u h v)) (NodeSvc.withVolume v s busy body) idle released.
Proof.
  intros Hb. unfold NodeSvc.withVolume, NodeSvc.addVolumeToTransitionList. wp_bind. simpl.
  split; [done|]. intros [] g1 [-> _]. split; [by intros [?|?]|]. intros r g2 (-> & _).
  destruct r as [st|]; simpl.
  - split; [by intros [?|?]|]. intros r g3 (-> & _). split; [by destruct r|].
    intros [] g4 [-> _]. by destruct r.
  - split; [split; [done|]; right; simpl; by apply elem_of_union_l, elem_of_singleton|].
    intros [] g3 [-> _]. split; [done|]. intros [] g4 [-> _]. simpl.
    rewrite (right_id_L ∅ (∪)). change (Ghost false {[v]} ∅) with (with_ v).
    wp_defer. wp_mono; [|apply Hb, mine_with].
    intros o g ->. destruct o as [a|m|c]; [by apply wp_remove..|done].
Qed.

(** ** Threads of the node driver *)

(** A program of observations can run at any time. *)
Lemma wp_watching v {A} (p : go A) g Q :
  only (kinds watching) p → (∀ o, Q o g) → wp (mspec (owner u h v)) p g Q.
Proof. intros Hp HQ. by apply (wp_only _ (kinds watching) (λ _, True)). Qed.

(** The scan of the monitor holds the lock and owns nothing in between. *)
Definition scanning (g : ghost) : Prop := hold g = true ∧ own g = ∅.

Lemma wp_monitorVol v mounts vol g :
  scanning g → om_DeletionTimestamp (cva_Meta vol) = None →
  wp (mspec (owner u h v)) (Mounts.monitorVol mounts vol) g
    (λ o g', o = ORet false ∧ scanning g').
Proof.
  intros [Hh Ho] Hd. unfold Mounts.monitorVol. rewrite Hd. simpl.
  case_match; [done|]. case_match; [done|].
  destruct (Mounts.listContains _ mounts) as [sm se], (Mounts.listContains _ mounts) as [tm te].
  case_match; [done|]. simpl.
  split; [by intros [?|?]|]. intros [st|] g1 (-> & _).
  { simpl. rewrite Hh. by split. }
  simpl. rewrite Hh. simpl. set (w := cva_VolName vol).
  split; [split; [done|]; right; simpl; by apply elem_of_union_l, elem_of_singleton|].
  intros [] g2 [-> _]. split; [by intros [?|?]|]. intros [] g3 [-> _].
  split; [simpl; by apply elem_of_union_l, elem_of_singleton|].
  intros [] g4 [-> _]. simpl. split_and!; [done..|]. simpl. by rewrite Ho, (right_id_L ∅ (∪)), difference_diag_L.
Qed.

Lemma wp_monitorLoop v mounts vols g :
  scanning g → (∀ vol, vol ∈ vols → om_DeletionTimestamp (cva_Meta vol) = None) →
  wp (mspec (owner u h v)) (Mounts.monitorLoop vols mounts false) g
    (λ o g', o = ORet false ∧ scanning g').
Proof.
  revert g. induction vols as [|vol vols IH]; intros g Hg Hd; cbn [Mounts.monitorLoop]; [done|].
  wp_bind. wp_mono; [|apply wp_monitorVol; [done|apply Hd; left]].
  intros o g' [-> Hg']. simpl. apply IH; [done|]. intros y Hy. apply Hd. by right.
Qed.

Lemma wp_unlock v {A} (f : () → go A) g Q :
  scanning g → wp (mspec (owner u h v)) (f ()) idle Q →
  wp (mspec (owner u h v)) (bind (sys Unlock) f) g Q.
Proof.
  intros [Hh Ho] H. simpl. split; [done|]. intros [] g' [-> _]. simpl. by rewrite Ho.
Qed.

Section monitor.
Hypothesis unmarked : u = false.

Lemma wp_GetVolListForNode v {B} (f : option (list CStorVolumeAttachment) * err → go B) g Q :
  (∀ o e, wp (mspec (owner u h v)) (f (o, Some e)) g Q) →
  (∀ l, (∀ vol, vol ∈ l → om_DeletionTimestamp (cva_Meta vol) = None) →
     wp (mspec (owner u h v)) (f (Some l, None)) g Q) →
  wp (mspec (owner u h v)) (bind Attach.GetVolListForNode f) g Q.
Proof.
  intros He Hl. wp_bind. unfold Attach.GetVolListForNode. wp_bind.
  apply (Cva.wp_cvaList h (mspec (owner u h v))); simpl; [by auto|].
  intros c. split; [by intros [?|?]|]. intros [o [e|]] g' (-> & [_ Hr] & _) k; [apply He|].
  destruct (Hr eq_refl) as [[l Hl'] Hd].
  simpl in *. subst. apply Hl. intros vol Hv. by eapply Hd.
Qed.

Lemma wp_monitorTick v : wp (mspec (owner u h v)) Mounts.monitorTick idle (λ o g, o = ORet tt ∧ g = idle).
Proof.
  unfold Mounts.monitorTick. simpl. split; [done|]. intros [] g1 [-> _].
  split; [by intros [?|?]|]. intros [mounts [e|]] g2 [-> _].
  - simpl. split; [done|]. by intros [] g3 [-> _].
  - wp_bind. apply wp_GetVolListForNode; simpl.
    + intros o e. split; [done|]. by intros [] g3 [-> _].
    + intros l Hl. wp_bind. wp_mono; [|by apply wp_monitorLoop].
      intros o g3 [-> [Hh Ho]]. simpl. split; [done|]. intros [] g4 [-> _]. simpl.
      by rewrite Ho.
Qed.

Lemma wp_MonitorMounts v n : wp (mspec (owner u h v)) (Mounts.MonitorMounts n) idle released.
Proof.
  induction n as [|n IH]; cbn [Mounts.MonitorMounts]; [done|].
  wp_bind. wp_mono; [|apply wp_monitorTick]. by intros o g [-> ->].
Qed.

End monitor.

(** The remount goroutine starts with the volume the monitor entered. *)
Lemma wp_remountGoroutine s t vol :
  wp (mspec (owner u h (cva_VolName vol))) (Mounts.remountGoroutine s t vol)
    (with_ (cva_VolName vol)) released.
Proof.
  unfold Mounts.remountGoroutine. wp_defer. wp_mono; [|].
  2: { apply (keeps_only u h (cva_VolName vol)); [solve_only|apply mine_with]. }
  intros o g ->.
  destruct o as [[]|m|c]; simpl; [| |done];
    (split; [done|]; intros [] g1 [-> _]; split;
     [split; [done|]; simpl; by apply elem_of_singleton|]; intros [] g2 [-> _];
     split; [by intros [?|?]|]; intros [] g3 [-> _]; split; [done|]; intros [] g4 [-> _];
     simpl; by rewrite difference_diag_L).
Qed.

(** The cleanup goroutine, in contrast to the handlers, releases its volume only
    if it returns; and only if the update of its attachment is answered with that
    attachment, whose name it removes from the list. *)
Definition retired {A} (o : outcome A) (g : ghost) : Prop :=
  match o with ORet _ => g = idle | _ => True end.

Lemma released_retired {A} (o : outcome A) g : released o g → retired o g.
Proof. by destruct o. Qed.

Lemma wp_leave v vol : cva_VolName vol = v →
  wp (mspec (owner u h v))
    (_ ← sys Lock; vol ← deref (Some vol); _ ← sys (TvlDelete (cva_VolName vol)); sys Unlock)
    (with_ v) retired.
Proof.
  intros <-. simpl. split; [done|]. intros [] g1 [-> _].
  split; [split; [done|]; simpl; by apply elem_of_singleton|]. intros [] g2 [-> _].
  split; [done|]. intros [] g3 [-> _]. simpl. by rewrite difference_diag_L.
Qed.

Lemma wp_cleanupGoroutine vol : u = true →
  wp (mspec (owner u h (cva_VolName vol))) (Mounts.cleanupGoroutine vol)
    (with_ (cva_VolName vol)) retired.
Proof.
  intros Hu. unfold Mounts.cleanupGoroutine. set (v := cva_VolName vol). wp_bind.
  wp_mono; [|apply (keeps_only u h v); [solve_only|apply mine_with]].
  intros [e|m|c] g ->; cbn [then_]; [|done..]. destruct e as [e|].
  { wp_bind. wp_ret (Some vol). by apply wp_leave. }
  wp_bind. wp_bind. unfold Attach.UpdateCStorVolumeAttachmentCR. wp_bind.
  apply (Cva.wp_cvaUpdate h (mspec (owner u h v))).
  - intros k e _. cbn [then_]. wp_ret (None (A := CStorVolumeAttachment), Some e).
    wp_ret (None (A := CStorVolumeAttachment)). simpl. by split.
  - intros c. split; [intros _; simpl; by apply elem_of_singleton|].
    intros [o e] g (-> & [_ Hr] & _) k. destruct (Hr Hu) as (vol' & Ho & Hn). simpl in Ho. subst o.
    cbn [then_]. wp_ret (Some vol', e). wp_ret (Some vol'). by apply wp_leave.
Qed.

(** The programs a node driver runs in a goroutine of their own, with the
    volume they work for: the handlers of the node service, and the monitor. *)
Inductive handled (ns : NodeSvc.node) : string → go () → Prop :=
  | S_stage req : handled ns (nsr_VolumeId req) (_ ← NodeSvc.NodeStageVolume ns req; mret tt)
  | S_unstage req : handled ns (nur_VolumeId req) (_ ← NodeSvc.NodeUnstageVolume ns req; mret tt)
  | S_publish req : handled ns (npr_VolumeId req) (_ ← NodeSvc.NodePublishVolume ns req; mret tt)
  | S_unpublish req :
      handled ns (nupr_VolumeId req) (_ ← NodeSvc.NodeUnpublishVolume ns req; mret tt)
  | S_expand req : handled ns (ner_VolumeId req) (_ ← NodeSvc.NodeExpandVolume ns req; mret tt)
  | S_stats req : handled ns (nvs_VolumeId req) (_ ← NodeSvc.NodeGetVolumeStats ns req; mret tt)
  | S_info : handled ns "" (_ ← NodeSvc.NodeGetInfo ns; mret tt).
Inductive served (ns : NodeSvc.node) : string → go () → Prop :=
  | S_handled v p : handled ns v p → served ns v p
  | S_monitor n : served ns "" (Mounts.MonitorMounts n).

Lemma released_unit v {A} (p : go A) :
  wp (mspec (owner u h v)) p idle released →
  wp (mspec (owner u h v)) (_ ← p; mret tt) idle released.
Proof. intros H. wp_bind. wp_mono; [|exact H]. by intros [a|m|c] g Hg. Qed.

Lemma handled_owner ns v p : handled ns v p → wp (mspec (owner u h v)) p idle released.
Proof.
  intros []; apply released_unit.
  - unfold NodeSvc.NodeStageVolume. case_match; [done|]. apply wp_withVolume, keeps_stageBody.
  - unfold NodeSvc.NodeUnstageVolume. case_match; [done|]. apply wp_withVolume, keeps_unstageBody.
  - apply wp_withVolume, keeps_publishBody.
  - apply wp_withVolume, keeps_unpublishBody.
  - apply wp_withVolume, keeps_expandBody.
  - apply wp_watching; [|by intros [?|?|?]].
    unfold NodeSvc.NodeGetVolumeStats, NodeSvc.IsBlockDevice, NodeSvc.getBlockSizeBytes,
      NodeSvc.GetStatistics. solve_only.
  - apply wp_watching; [|by intros [?|?|?]]. unfold NodeSvc.NodeGetInfo. solve_only.
Qed.

Lemma served_owner ns v p : u = false → served ns v p → wp (mspec (owner u h v)) p idle released.
Proof. intros Hu [w q Hq|n]; [by eapply handled_owner|by apply wp_MonitorMounts]. Qed.

End handlers.
End NodeProtocol.
