(* ===== verification/Threads.v ===== *)
(** * Threads of a node driver, interleaved

    A pool of goroutines sharing the lock and [TransitionVolList], stepping in
    any order; the answers of the rest of the world are arbitrary within
    [Owner.answers].  The pool may begin with the goroutines of the cleanup at the
    driver's start.  The view [gh] of a thread records what it did and does
    not restrict it.  The theorems: a volume is worked on by one thread at a
    time, the list is changed by one thread at a time, and it is empty again
    when the threads have returned. *)

From S2P Require Export Protocol.
Local Open Scope go_scope.

Module Pool.
Import Owner NodeProtocol.
Section pool.
Context {L : ApiLib} {G : Globals} {T : StatusNames} (u : bool) (h : Host).

Record thread := Thread { vol : string; code : go (); gh : ghost }.
Record pool := MkPool {
  lck : option nat;                 (* the thread in the critical section *)
  tvl : gmap string CVAStatus;      (* TransitionVolList *)
  thr : list thread
}.

(** The shared state under one action of thread [i]: the lock blocks while it
    is taken; everything but the lock and the list leaves it alone. *)
Definition shared (i : nat) (l : option nat) (m : gmap string CVAStatus) (a : action) :
    result a → option nat → gmap string CVAStatus → Prop :=
  match a with
  | Lock => λ _ l' m', l = None ∧ l' = Some i ∧ m' = m
  | Unlock => λ _ l' m', is_Some l ∧ l' = None ∧ m' = m
  | TvlGet w => λ r l' m', r = m !! w ∧ l' = l ∧ m' = m
  | TvlSet w s => λ _ l' m', l' = l ∧ m' = <[w := s]> m
  | TvlDelete w => λ _ l' m', l' = l ∧ m' = delete w m
  | _ => λ _ l' m', l' = l ∧ m' = m
  end.

(** The goroutine an action starts. *)
Definition spawned (a : action) : list thread :=
  match a with
  | GoRemount s t v => [Thread (cva_VolName v) (Mounts.remountGoroutine s t v) (with_ (cva_VolName v))]
  | GoCleanup v => [Thread (cva_VolName v) (Mounts.cleanupGoroutine v) idle]
  | _ => []
  end.

(** One step of one thread; [legal] are the answers of the rest of the world. *)
Inductive step (legal : ∀ a : action, result a → Prop) : pool → pool → Prop :=
  | step_thread l m ts i t a k r l' m' :
      ts !! i = Some t → code t = Act a k →
      shared i l m a r l' m' → legal a r →
      step legal (MkPool l m ts)
        (MkPool l' m' (<[i := Thread (vol t) (k r) (upd (gh t) a r)]> ts ++ spawned a)).

(** A goroutine that Cleanup has started. *)
Definition cleaner (a : CStorVolumeAttachment) : thread :=
  Thread (cva_VolName a) (Mounts.cleanupGoroutine a) (with_ (cva_VolName a)).

(** A driver that begins to serve: its start-up cleanup (see
    [DriverSpec.cleanup_exact]) has entered the volumes of some attachments and
    started a goroutine for each; nothing else is inside the list.  The monitor
    rounds are considered only without such goroutines ([u] false). *)
Definition start (ns : NodeSvc.node) (p : pool) : Prop :=
  lck p = None ∧
  ∃ serving cleanups, thr p = serving ++ (cleaner <$> cleanups) ∧
    (∀ t, t ∈ serving → gh t = idle ∧
       (handled ns (vol t) (code t) ∨ u = false ∧ served ns (vol t) (code t))) ∧
    (cleanups = [] ∨ u = true) ∧ NoDup (cva_VolName <$> cleanups) ∧
    dom (tvl p) = list_to_set (cva_VolName <$> cleanups).

(** ** The invariant *)

(** One thread against the shared state. *)
Record thread_ok (l : option nat) (m : gmap string CVAStatus) (i : nat) (t : thread) : Prop := {
  ok_wp : wp (mspec (owner u h (vol t))) (code t) (gh t) retired;
  ok_lock : hold (gh t) = true ↔ l = Some i;
  ok_own : ∀ w, w ∈ own (gh t) → is_Some (m !! w);
  ok_free : ∀ w, w ∈ free (gh t) → hold (gh t) = true ∧ m !! w = None
}.

Record inv (p : pool) : Prop := {
  inv_thread : ∀ i t, thr p !! i = Some t → thread_ok (lck p) (tvl p) i t;
  inv_disjoint : ∀ i j ti tj, i ≠ j → thr p !! i = Some ti → thr p !! j = Some tj →
    own (gh ti) ## own (gh tj);
  inv_cover : ∀ w, is_Some (tvl p !! w) → ∃ i t, thr p !! i = Some t ∧ w ∈ own (gh t);
  inv_lock : ∀ i, lck p = Some i → is_Some (thr p !! i)
}.

Lemma wp_retired v (p : go ()) g :
  wp (mspec (owner u h v)) p g released → wp (mspec (owner u h v)) p g retired.
Proof. intros H. wp_mono; [|exact H]. intros o g'. apply released_retired. Qed.

Lemma start_inv ns p : start ns p → inv p.
Proof.
  intros (Hl & serving & cleanups & Hthr & Hs & Hu & Hnd & Hdom). destruct p as [l m ts]; simpl in *. subst.
  assert (∀ i t, (serving ++ (cleaner <$> cleanups)) !! i = Some t →
    (gh t = idle ∧ wp (mspec (owner u h (vol t))) (code t) idle retired) ∨
    ∃ a, cleanups !! (i - length serving) = Some a ∧ length serving ≤ i ∧ t = cleaner a) as Hcases.
  { intros i t [Hi|[Hi Ht]]%lookup_app_Some.
    - left. apply list_elem_of_lookup_2, Hs in Hi as (Hg & Hsv). split; [done|]. apply wp_retired.
      destruct Hsv as [?|[? ?]]; [by eapply handled_owner|by eapply served_owner].
    - right. apply list_lookup_fmap_Some in Ht as (a & -> & Ha). by exists a. }
  assert (∀ w, is_Some (m !! w) ↔ w ∈ cva_VolName <$> cleanups) as Hm.
  { intros w. rewrite <- elem_of_dom, Hdom. apply elem_of_list_to_set. }
  split; simpl; [| | |done].
  - intros i t [[Hg Hw]|(a & Ha & _ & ->)]%Hcases; split; rewrite ?Hg; simpl.
    + exact Hw.
    + done.
    + by intros w ?%elem_of_empty.
    + by intros w ?%elem_of_empty.
    + apply wp_cleanupGoroutine. destruct Hu as [->|Hu]; [by rewrite lookup_nil in Ha|done].
    + done.
    + intros w ->%elem_of_singleton. apply Hm, list_elem_of_fmap_2. by eapply list_elem_of_lookup_2.
    + by intros w ?%elem_of_empty.
  - intros i j ti tj Hij [[Hg _]|(a & Ha & Hi & ->)]%Hcases [[Hg' _]|(b & Hb & Hj & ->)]%Hcases;
      simpl; rewrite ?Hg, ?Hg'; simpl.
    1, 2: apply disjoint_empty_l.
    { apply disjoint_empty_r. }
    apply disjoint_singleton_l. intros Heq%elem_of_singleton. apply Hij.
    assert (i - length serving = j - length serving); [|lia].
    eapply (NoDup_lookup (cva_VolName <$> cleanups)); [done|by rewrite list_lookup_fmap, Ha|].
    by rewrite list_lookup_fmap, Hb, Heq.
  - intros w Hw%Hm. apply list_elem_of_fmap_1 in Hw as (a & -> & Ha).
    apply list_elem_of_lookup_1 in Ha as [i Hi]. exists (length serving + i), (cleaner a). split.
    + rewrite lookup_app_r by lia. by rewrite Nat.add_comm, Nat.add_sub, list_lookup_fmap, Hi.
    + simpl. by apply elem_of_singleton.
Qed.

(** Actions that do not concern the protocol. *)
Definition private (a : action) : Prop :=
  (∀ i l m r l' m', shared i l m a r l' m' → l' = l ∧ m' = m) ∧
  (∀ g r, upd g a r = g) ∧ spawned a = [].

Lemma action_cases a :
  a = Lock ∨ a = Unlock ∨ (∃ w, a = TvlGet w) ∨ (∃ w s, a = TvlSet w s) ∨
  (∃ w, a = TvlDelete w) ∨ (∃ v, a = GoCleanup v) ∨ (∃ s t v, a = GoRemount s t v) ∨ private a.
Proof. destruct a; first [by eauto 12 | by do 7 right; split_and!; simpl]. Qed.

(** A thread whose lock, list and view are as before stays fine. *)
Lemma thread_ok_frame l m l' m' i t :
  thread_ok l m i t →
  (l' = Some i ↔ l = Some i) →
  (∀ w, w ∈ own (gh t) → is_Some (m !! w) → is_Some (m' !! w)) →
  (∀ w, w ∈ free (gh t) → hold (gh t) = true → m !! w = None → m' !! w = None) →
  thread_ok l' m' i t.
Proof.
  intros [Hw Hl Ho Hf] El Eo Ef. split; [done| | |].
  - by rewrite El.
  - intros w Hw'. by apply Eo, Ho.
  - intros w Hw'. destruct (Hf w Hw'). split; [done|]. by apply Ef.
Qed.

(** What the program of a stepping thread promises. *)
Lemma step_wp l m i t a k r l' m' :
  thread_ok l m i t → code t = Act a k → shared i l m a r l' m' → answers u h a r →
  allowed (vol t) (gh t) a ∧ wp (mspec (owner u h (vol t))) (k r) (upd (gh t) a r) retired.
Proof.
  intros [Hw Hl Ho Hf] Hc Hs Ha. rewrite Hc in Hw. simpl in Hw. destruct Hw as [Hg Hn].
  split; [done|]. apply Hn. split; [done|]. split; [done|].
  destruct a; try done. simpl in *. destruct Hs as (-> & _ & _). by intros ?%Ho.
Qed.

Lemma insert_cases (ts : list thread) i j t' tj :
  <[i := t']> ts !! j = Some tj → (j = i ∧ tj = t') ∨ (j ≠ i ∧ ts !! j = Some tj).
Proof. rewrite list_lookup_insert_Some. intros [(-> & -> & _)|[? ?]]; auto. Qed.

(** Replacing the stepping thread. *)
Lemma inv_insert l m ts i t t' l' m' :
  inv (MkPool l m ts) → ts !! i = Some t →
  thread_ok l' m' i t' →
  (∀ j tj, j ≠ i → ts !! j = Some tj → thread_ok l' m' j tj) →
  (∀ j tj, j ≠ i → ts !! j = Some tj → own (gh t') ## own (gh tj)) →
  (∀ w, is_Some (m' !! w) → w ∈ own (gh t') ∨
     ∃ j tj, j ≠ i ∧ ts !! j = Some tj ∧ w ∈ own (gh tj)) →
  (∀ j, l' = Some j → j = i ∨ l = Some j) →
  inv (MkPool l' m' (<[i := t']> ts)).
Proof.
  intros [I1 I2 I3 I4] Hi Ht' Hj Hd Hc Hl. simpl in *. split; simpl.
  - intros j tj [[-> ->]|[Hne Htj]]%insert_cases; [done|by apply Hj].
  - intros a b ta tb Hab [[-> ->]|[Ha Hta]]%insert_cases [[-> ->]|[Hb Htb]]%insert_cases.
    + done.
    + by apply (Hd b).
    + symmetry. by apply (Hd a).
    + by apply (I2 a b).
  - intros w [Hw|(j & tj & Hne & Htj & Hw)]%Hc.
    + exists i, t'. by rewrite list_lookup_insert_eq by (by eapply lookup_lt_Some).
    + exists j, tj. by rewrite list_lookup_insert_ne by done.
  - intros j Hlj. destruct (decide (j = i)) as [->|Hne].
    + by rewrite list_lookup_insert_eq by (by eapply lookup_lt_Some).
    + rewrite list_lookup_insert_ne by done. destruct (Hl j Hlj); [done|by apply I4].
Qed.

(** The other threads, and the cover, when the list did not change. *)
Lemma inv_cover_other l m ts i t w :
  inv (MkPool l m ts) → ts !! i = Some t → is_Some (m !! w) →
  w ∈ own (gh t) ∨ ∃ j tj, j ≠ i ∧ ts !! j = Some tj ∧ w ∈ own (gh tj).
Proof.
  intros HI Hi Hw. destruct (inv_cover _ HI w Hw) as (j & tj & Hj & Hwj). simpl in *.
  destruct (decide (j = i)) as [->|Hne]; [left; by simplify_eq|right; by eauto].
Qed.

(** No other thread holds the lock of the one that does. *)
Lemma not_hold l m ts i j t tj :
  inv (MkPool l m ts) → ts !! i = Some t → ts !! j = Some tj → j ≠ i →
  hold (gh t) = true → hold (gh tj) = true → False.
Proof.
  intros HI Hi Hj Hne Ht Htj.
  apply (ok_lock _ _ _ _ (inv_thread _ HI i t Hi)) in Ht.
  apply (ok_lock _ _ _ _ (inv_thread _ HI j tj Hj)) in Htj. congruence.
Qed.

(** ** Preservation *)

(** A step that leaves the lock and the list alone and only shrinks or keeps
    the view: the map is unchanged, so the others are. *)
Lemma inv_same l m ts i t t' :
  inv (MkPool l m ts) → ts !! i = Some t → thread_ok l m i t' → own (gh t') = own (gh t) →
  inv (MkPool l m (<[i := t']> ts)).
Proof.
  intros HI Hi Ht' Ho. eapply inv_insert; try done.
  - intros j tj _. apply (inv_thread _ HI).
  - intros j tj Hne Hj. rewrite Ho. by apply (inv_disjoint _ HI i j).
  - intros w Hw. rewrite Ho. by eapply inv_cover_other.
  - auto.
Qed.

(** Taking or giving back the lock. *)
Lemma inv_relock l m ts i t t' l' :
  inv (MkPool l m ts) → ts !! i = Some t → thread_ok l' m i t' → own (gh t') = own (gh t) →
  (∀ j, j ≠ i → l ≠ Some j ∧ l' ≠ Some j) →
  inv (MkPool l' m (<[i := t']> ts)).
Proof.
  intros HI Hi Ht' Ho Hl. eapply inv_insert; try done.
  - intros j tj Hne Hj. apply (thread_ok_frame l m); [by apply (inv_thread _ HI)| |done..].
    destruct (Hl j Hne). done.
  - intros j tj Hne Hj. rewrite Ho. by apply (inv_disjoint _ HI i j).
  - intros w Hw. rewrite Ho. by eapply inv_cover_other.
  - intros j Hj. destruct (decide (j = i)); [by left|]. by destruct (Hl j).
Qed.

Lemma inv_Set l m ts i t t' w s :
  inv (MkPool l m ts) → ts !! i = Some t →
  hold (gh t) = true → w ∈ own (gh t) ∨ w ∈ free (gh t) →
  wp (mspec (owner u h (vol t'))) (code t') (gh t') retired →
  gh t' = Ghost true ({[w]} ∪ own (gh t)) (free (gh t) ∖ {[w]}) →
  inv (MkPool l (<[w := s]> m) (<[i := t']> ts)).
Proof.
  intros HI Hi Hh Hw Hwp Hg. pose proof (inv_thread _ HI i t Hi) as Ht. simpl in *.
  assert (∀ j tj, j ≠ i → ts !! j = Some tj → w ∉ own (gh tj)) as Hnot.
  { intros j tj Hne Hj Hwj. destruct Hw as [Hw|Hw].
    - by apply (inv_disjoint _ HI i j t tj (not_eq_sym Hne) Hi Hj w).
    - destruct (ok_free _ _ _ _ Ht w Hw) as [_ Hm].
      destruct (ok_own _ _ _ _ (inv_thread _ HI j tj Hj) w Hwj) as [? Hm']. simpl in *. congruence. }
  eapply inv_insert; try done.
  - split; [done|..]; rewrite Hg; simpl.
    + by rewrite <- (ok_lock _ _ _ _ Ht), Hh.
    + intros w' [->%elem_of_singleton|Hw']%elem_of_union; [by rewrite lookup_insert_eq|].
      destruct (decide (w = w')) as [->|]; [by rewrite lookup_insert_eq|].
      rewrite lookup_insert_ne by done. by apply (ok_own _ _ _ _ Ht).
    + intros w' [Hf Hne]%elem_of_difference. split; [done|].
      rewrite lookup_insert_ne by (by intros ->; apply Hne, elem_of_singleton).
      by apply (ok_free _ _ _ _ Ht).
  - intros j tj Hne Hj. apply (thread_ok_frame l m); [by apply (inv_thread _ HI)|done|..].
    + intros w' _ Hw'. destruct (decide (w = w')) as [->|]; [by rewrite lookup_insert_eq|].
      by rewrite lookup_insert_ne.
    + intros w' _ Hhj. by destruct (not_hold _ _ _ _ _ _ _ HI Hi Hj Hne Hh Hhj).
  - intros j tj Hne Hj. rewrite Hg. simpl. apply disjoint_union_l. split.
    + apply disjoint_singleton_l. by eapply Hnot.
    + by apply (inv_disjoint _ HI i j).
  - intros w' Hw'. rewrite Hg. simpl. destruct (decide (w = w')) as [->|Hne].
    + left. by apply elem_of_union_l, elem_of_singleton.
    + rewrite lookup_insert_ne in Hw' by done.
      destruct (inv_cover_other _ _ _ _ _ w' HI Hi Hw'); [left|by right].
      by apply elem_of_union_r.
  - auto.
Qed.

Lemma inv_Delete l m ts i t t' w :
  inv (MkPool l m ts) → ts !! i = Some t →
  hold (gh t) = true → w ∈ own (gh t) →
  wp (mspec (owner u h (vol t'))) (code t') (gh t') retired →
  gh t' = Ghost true (own (gh t) ∖ {[w]}) (free (gh t)) →
  inv (MkPool l (delete w m) (<[i := t']> ts)).
Proof.
  intros HI Hi Hh Hw Hwp Hg. pose proof (inv_thread _ HI i t Hi) as Ht. simpl in *.
  eapply inv_insert; try done.
  - split; [done|..]; rewrite Hg; simpl.
    + by rewrite <- (ok_lock _ _ _ _ Ht), Hh.
    + intros w' [Hw' Hne]%elem_of_difference.
      rewrite lookup_delete_ne by (by intros ->; apply Hne, elem_of_singleton).
      by apply (ok_own _ _ _ _ Ht).
    + intros w' Hf. destruct (ok_free _ _ _ _ Ht w' Hf) as [_ Hm]. split; [done|].
      by rewrite lookup_delete_None; right.
  - intros j tj Hne Hj. apply (thread_ok_frame l m); [by apply (inv_thread _ HI)|done|..].
    + intros w' Hw' Hm. rewrite lookup_delete_ne; [done|]. intros ->.
      by apply (inv_disjoint _ HI i j t tj (not_eq_sym Hne) Hi Hj w').
    + intros w' _ Hhj. by destruct (not_hold _ _ _ _ _ _ _ HI Hi Hj Hne Hh Hhj).
  - intros j tj Hne Hj. rewrite Hg. simpl.
    pose proof (inv_disjoint _ HI i j t tj (not_eq_sym Hne) Hi Hj). simpl in *. set_solver.
  - intros w' Hw'. rewrite Hg. simpl.
    destruct (decide (w = w')) as [->|Hne]; [by rewrite lookup_delete_eq in Hw'; destruct Hw'|].
    rewrite lookup_delete_ne in Hw' by done.
    destruct (inv_cover_other _ _ _ _ _ w' HI Hi Hw'); [left|by right].
    apply elem_of_difference. by rewrite elem_of_singleton.
  - auto.
Qed.

(** The threads after one step that starts a goroutine. *)
Lemma spawn_cases (ts : list thread) i j t' n tj :
  (<[i := t']> ts ++ [n]) !! j = Some tj →
  (j = i ∧ tj = t') ∨ (j ≠ i ∧ ts !! j = Some tj) ∨ (j = length ts ∧ tj = n).
Proof.
  intros [Hj|[Hj Htj]]%lookup_app_Some.
  - apply insert_cases in Hj as [?|?]; auto.
  - rewrite length_insert in *. apply list_lookup_singleton_Some in Htj as [? ?].
    right; right. split; [lia|done].
Qed.

(** Handing a volume to a new goroutine. *)
Lemma inv_Spawn l m ts i t t' w p :
  inv (MkPool l m ts) → ts !! i = Some t → w ∈ own (gh t) →
  wp (mspec (owner u h (vol t'))) (code t') (gh t') retired →
  gh t' = Ghost (hold (gh t)) (own (gh t) ∖ {[w]}) (free (gh t)) →
  wp (mspec (owner u h w)) p (with_ w) retired →
  inv (MkPool l m (<[i := t']> ts ++ [Thread w p (with_ w)])).
Proof.
  intros HI Hi Hw Hwp Hg Hp. pose proof (inv_thread _ HI i t Hi) as Ht. simpl in *.
  assert (∀ j, ts !! j ≠ None → j ≠ length ts) as Hlen.
  { intros j Hj ->. apply Hj, lookup_ge_None. lia. }
  assert (∀ j tj, j ≠ i → ts !! j = Some tj → w ∉ own (gh tj)) as Hnot.
  { intros j tj Hne Hj Hwj. by apply (inv_disjoint _ HI i j t tj (not_eq_sym Hne) Hi Hj w). }
  split; simpl.
  - intros j tj [[-> ->]|[[Hne Hj]|[-> ->]]]%spawn_cases.
    + split; [done|..]; rewrite Hg; simpl.
      * apply (ok_lock _ _ _ _ Ht).
      * intros w' [Hw' _]%elem_of_difference. by apply (ok_own _ _ _ _ Ht).
      * intros w'. apply (ok_free _ _ _ _ Ht).
    + by apply (inv_thread _ HI).
    + split; simpl; [done| | |by intros w' ?%elem_of_empty].
      * split; [done|]. intros Hl. by destruct (Hlen (length ts)); [apply not_eq_None_Some, (inv_lock _ HI)|].
      * intros w' ->%elem_of_singleton. by apply (ok_own _ _ _ _ Ht).
  - intros a b ta tb Hab [[-> ->]|[[Ha Hta]|[-> ->]]]%spawn_cases [[-> ->]|[[Hb Htb]|[-> ->]]]%spawn_cases;
      try done; rewrite ?Hg; simpl.
    + pose proof (inv_disjoint _ HI i b t tb (not_eq_sym Hb) Hi Htb). simpl in *. set_solver.
    + set_solver.
    + pose proof (inv_disjoint _ HI i a t ta (not_eq_sym Ha) Hi Hta). simpl in *. set_solver.
    + by apply (inv_disjoint _ HI a b).
    + apply disjoint_singleton_r. by eapply Hnot.
    + set_solver.
    + apply disjoint_singleton_l. by eapply Hnot.
  - intros w' Hw'. destruct (decide (w' = w)) as [->|Hne].
    { exists (length ts), (Thread w p (with_ w)). split; [|simpl; by apply elem_of_singleton].
      rewrite lookup_app_r; rewrite length_insert; [by rewrite Nat.sub_diag|lia]. }
    destruct (inv_cover_other _ _ _ _ _ w' HI Hi Hw') as [Ho|(j & tj & Hji & Hj & Ho)].
    + exists i, t'. rewrite Hg. simpl. split.
      * apply lookup_app_l_Some, list_lookup_insert_eq. by eapply lookup_lt_Some.
      * apply elem_of_difference. by rewrite elem_of_singleton.
    + exists j, tj. split; [|done]. apply lookup_app_l_Some. by rewrite list_lookup_insert_ne.
  - intros j Hj. destruct (inv_lock _ HI j Hj) as [tj Htj]. simpl in *.
    destruct (decide (j = i)) as [->|Hne].
    + eexists. apply lookup_app_l_Some, list_lookup_insert_eq. by eapply lookup_lt_Some.
    + exists tj. apply lookup_app_l_Some. by rewrite list_lookup_insert_ne.
Qed.

Lemma step_inv p q : inv p → step (answers u h) p q → inv q.
Proof.
  intros HI Hst. revert HI. destruct Hst as [l m ts i t a k r l' m' Hi Hc Hs Ha]. intros HI.
  pose proof (inv_thread _ HI i t Hi) as Ht. simpl in *.
  destruct (step_wp _ _ _ _ _ _ _ _ _ Ht Hc Hs Ha) as [Hg Hw].
  destruct (action_cases a) as
    [->|[->|[[w ->]|[(w & s & ->)|[[w ->]|[[v ->]|[(x & y & v & ->)|(P1 & P2 & P3)]]]]]]];
    simpl in *; rewrite ?app_nil_r.
  - (* Lock *) destruct Hs as (-> & -> & ->). eapply inv_relock; try done.
    + split; simpl; [done|done|apply (ok_own _ _ _ _ Ht)|by intros w ?%elem_of_empty].
    + intros j Hne. split; congruence.
  - (* Unlock *) destruct Hs as (Hl & -> & ->). eapply inv_relock; try done.
    + split; simpl; [done|done|apply (ok_own _ _ _ _ Ht)|by intros w ?%elem_of_empty].
    + intros j Hne. apply (ok_lock _ _ _ _ Ht) in Hg. split; congruence.
  - (* TvlGet *) destruct Hs as (-> & -> & ->). eapply inv_same; try done; simpl.
    + destruct (hold (gh t)) eqn:Hh, (bool_decide (m !! w = None)) eqn:Hm; simpl in *;
        try (by destruct Ht; split).
      apply bool_decide_eq_true in Hm. split; simpl; [done| |apply (ok_own _ _ _ _ Ht)|].
      * by rewrite <- (ok_lock _ _ _ _ Ht), Hh.
      * intros w' [->%elem_of_singleton|Hw']%elem_of_union; [done|].
        split; [done|]. by apply (ok_free _ _ _ _ Ht).
    + by destruct (hold (gh t) && _).
  - (* TvlSet *) destruct Hs as [-> ->], Hg as [Hh Hg]. eapply inv_Set; try done. simpl. by rewrite Hh.
  - (* TvlDelete *) destruct Hs as [-> ->], Hg as [Hh Hg]. eapply inv_Delete; try done.
    simpl. by rewrite Hh.
  - done.
  - (* GoRemount *) destruct Hs as [-> ->]. apply (inv_Spawn l m ts i t);
      [exact HI|exact Hi|exact Hg|exact Hw|reflexivity|apply wp_retired, wp_remountGoroutine].
  - (* private *) rewrite P2 in *. rewrite P3, app_nil_r. apply P1 in Hs as [-> ->].
    eapply inv_same; try done. by destruct Ht; split.
Qed.

Lemma reachable_inv ns p q : start ns p → rtc (step (answers u h)) p q → inv q.
Proof. intros Hs Hr. apply start_inv in Hs. induction Hr; eauto using step_inv. Qed.

(** An action that changes the node or a Kubernetes object. *)
Definition changes (a : action) : Prop := kind_of a = KDisk ∨ kind_of a = KWrite.

(** The next action of a thread. *)
Definition doing (t : thread) : option action :=
  match code t with Act a _ => Some a | _ => None end.

Lemma doing_allowed l m i t a :
  thread_ok l m i t → doing t = Some a → allowed (vol t) (gh t) a.
Proof.
  unfold doing. intros [Hw _ _ _]. destruct (code t); intros [= <-]. by destruct Hw.
Qed.

Lemma changes_own l m i t a :
  thread_ok l m i t → doing t = Some a → changes a → vol t ∈ own (gh t).
Proof.
  intros Ht Hd Ha. pose proof (doing_allowed _ _ _ _ _ Ht Hd) as Hg.
  destruct a; simpl in *; try (by apply Hg); by destruct Ha as [Ha|Ha]; discriminate Ha.
Qed.

(** ** Execution of a schedule

    [exec] performs one step of thread [i]; the list and the lock answer for
    themselves and [env] answers for the rest of the world. *)

Definition exec_shared (i : nat) (l : option nat) (m : gmap string CVAStatus) (a : action) :
    option (option nat * gmap string CVAStatus) :=
  match a with
  | Lock => match l with None => Some (Some i, m) | Some _ => None end
  | Unlock => match l with None => None | Some _ => Some (None, m) end
  | TvlSet w s => Some (l, <[w := s]> m)
  | TvlDelete w => Some (l, delete w m)
  | _ => Some (l, m)
  end.

Definition answer (env : ∀ a, result a) (m : gmap string CVAStatus) (a : action) : result a :=
  match a with
  | TvlGet w => m !! w
  | a => env a
  end.

Definition exec (env : ∀ a, result a) (p : pool) (i : nat) : option pool :=
  match thr p !! i with
  | Some t =>
      match code t with
      | Act a k =>
          match exec_shared i (lck p) (tvl p) a with
          | Some (l', m') =>
              let r := answer env (tvl p) a in
              Some (MkPool l' m' (<[i := Thread (vol t) (k r) (upd (gh t) a r)]> (thr p) ++ spawned a))
          | None => None
          end
      | _ => None
      end
  | None => None
  end.

Fixpoint execs (env : ∀ a, result a) (sch : list nat) (p : pool) : option pool :=
  match sch with
  | [] => Some p
  | i :: sch' => match exec env p i with Some q => execs env sch' q | None => None end
  end.

Lemma exec_step (legal : ∀ a : action, result a → Prop) env p i q :
  (∀ m a, legal a (answer env m a)) → exec env p i = Some q → step legal p q.
Proof.
  intros He. unfold exec. destruct p as [l m ts]; simpl.
  destruct (ts !! i) as [t|] eqn:Hi; [|done]. destruct (code t) as [ | | |a k] eqn:Hc; try done.
  destruct (exec_shared i l m a) as [[l' m']|] eqn:Hx; [|done]. intros [= <-].
  eapply step_thread; try done.
  destruct a; simpl in *; simplify_eq; try done; by destruct l; simplify_eq.
Qed.

Lemma execs_steps (legal : ∀ a : action, result a → Prop) env sch p q :
  (∀ m a, legal a (answer env m a)) → execs env sch p = Some q → rtc (step legal) p q.
Proof.
  intros He. revert p. induction sch as [|i sch IH]; intros p; simpl; [by intros [= ->]|].
  destruct (exec env p i) as [p'|] eqn:Hp; [|done]. intros Hq.
  eapply rtc_l; [by eapply exec_step|by apply IH].
Qed.

(** C1: at most one goroutine of a node driver works on a volume: under any
    interleaving of handlers and remounts, together with monitor rounds as long as
    no attachment listed for the node is marked for deletion, or else with the
    goroutines of the cleanup at the driver's start, which entered their volumes
    before it began to serve, as long as every update is answered with the attachment
    of the volume updated (as one that succeeds is): two goroutines that are both about to change the node or
    a Kubernetes object work for different volumes.  Calls may fail, and what comes
    beside an error of a read may be anything; an attachment of this node read
    without an error is named after its volume. *)
Theorem mutual_exclusion ns p q i j ti tj a b :
  start ns p → rtc (step (answers u h)) p q →
  i ≠ j → thr q !! i = Some ti → thr q !! j = Some tj →
  doing ti = Some a → changes a → doing tj = Some b → changes b →
  vol ti ≠ vol tj.
Proof.
  intros Hs Hr Hij Hi Hj Hci Ha Hcj Hb Heq. pose proof (reachable_inv _ _ _ Hs Hr) as HI.
  apply (inv_disjoint _ HI i j ti tj Hij Hi Hj (vol ti)).
  - by apply (changes_own _ _ _ _ _ (inv_thread _ HI i ti Hi) Hci).
  - rewrite Heq. by apply (changes_own _ _ _ _ _ (inv_thread _ HI j tj Hj) Hcj).
Qed.

(** C16: the transition list is changed by one goroutine at a time and no
    goroutine takes over or removes an entry of another (in the executions of
    [mutual_exclusion]): whoever is about to change the list holds the lock, and no
    other goroutine has the volume; one about to enter a volume finds it free or
    has it already, and one about to remove a volume has it. *)
Theorem list_serialised ns p q i t a w :
  start ns p → rtc (step (answers u h)) p q → thr q !! i = Some t → doing t = Some a →
  (∃ s, a = TvlSet w s) ∨ a = TvlDelete w →
  lck q = Some i ∧
  (w ∈ own (gh t) ∨ (∃ s, a = TvlSet w s) ∧ tvl q !! w = None) ∧
  ∀ j tj, j ≠ i → thr q !! j = Some tj → w ∉ own (gh tj).
Proof.
  intros Hs Hr Hi Hc Ha. pose proof (reachable_inv _ _ _ Hs Hr) as HI.
  pose proof (inv_thread _ HI i t Hi) as Ht.
  pose proof (doing_allowed _ _ _ _ _ Ht Hc) as Hg. destruct Ht as [Hw Hl Ho Hf].
  assert (hold (gh t) = true ∧
    (w ∈ own (gh t) ∨ (∃ s, a = TvlSet w s) ∧ tvl q !! w = None)) as [Hh Hown].
  { destruct Ha as [[s ->]| ->]; destruct Hg as [Hh Hg]; (split; [done|]); [|by left].
    destruct Hg as [Hg|Hg]; [by left|right]. split; [by eexists|]. by apply Hf. }
  split_and!; [by apply Hl|done|]. intros j tj Hne Hj Hwj. destruct Hown as [Hown|[_ Hm]].
  - by apply (inv_disjoint _ HI i j t tj (not_eq_sym Hne) Hi Hj w).
  - destruct (ok_own _ _ _ _ (inv_thread _ HI j tj Hj) w Hwj). congruence.
Qed.

(** C17: no volume stays busy: when every goroutine has returned (in the executions
    of [mutual_exclusion]), those of the cleanup at the driver's start included,
    the lock is free and the transition list is empty. *)
Theorem quiescent ns p q :
  start ns p → rtc (step (answers u h)) p q → (∀ t, t ∈ thr q → code t = Ret tt) →
  lck q = None ∧ tvl q = ∅.
Proof.
  intros Hs Hr Hd. pose proof (reachable_inv _ _ _ Hs Hr) as HI.
  assert (∀ i t, thr q !! i = Some t → gh t = idle) as Hidle.
  { intros i t Hi. pose proof (ok_wp _ _ _ _ (inv_thread _ HI i t Hi)) as Hw.
    by rewrite (Hd t (list_elem_of_lookup_2 _ _ _ Hi)) in Hw. }
  split.
  - destruct (lck q) as [i|] eqn:Hl; [|done]. destruct (inv_lock _ HI i Hl) as [t Hi].
    pose proof (ok_lock _ _ _ _ (inv_thread _ HI i t Hi)) as Hk.
    rewrite (Hidle i t Hi) in Hk. by apply Hk in Hl.
  - apply map_empty. intros w. destruct (tvl q !! w) eqn:Hw; [|done].
    destruct (inv_cover _ HI w ltac:(by eexists)) as (i & t & Hi & Ho).
    by rewrite (Hidle i t Hi) in Ho.
Qed.

End pool.

(** ** Examples *)

Section examples.
Import Concrete.

#[local] Instance G0 : Globals := {| OpenEBSNamespace := "openebs"; NodeIDENV := "n1" |}.
Definition h0 : Host := MkHost true (λ _, None).

(** Two volumes being unpublished while the start-up cleanup of a third runs. *)
Definition old1 : CStorVolumeAttachment :=
  cva_set_VolName "v3" (cva_set_StagingTargetPath "/s3"
    (cva_set_Iqn "iqn" (cva_set_TargetPortal "10.0.0.1:3260" (cva_set_IscsiInterface "default"
      (cva_set_Meta (om_set_DeletionTimestamp (Some 1%Z) om_zero) cva_zero))))).
Definition p0 : pool := MkPool None {["v3" := UnmountUnderProgress]}
  [Thread "v1" (_ ← NodeSvc.NodeUnpublishVolume (NodeSvc.NewNode "n1")
     {| nupr_VolumeId := "v1"; nupr_TargetPath := "/t1" |}; mret tt) idle;
   Thread "v2" (_ ← NodeSvc.NodeUnpublishVolume (NodeSvc.NewNode "n1")
     {| nupr_VolumeId := "v2"; nupr_TargetPath := "/t2" |}; mret tt) idle;
   cleaner old1].

Lemma p0_start : start true (NodeSvc.NewNode "n1") p0.
Proof.
  split; [done|]. eexists [_; _], [old1].
  split_and!; [reflexivity| |by right|by apply NoDup_singleton|].
  - intros t [->|[->|[]%elem_of_nil]%elem_of_cons]%elem_of_cons; (split; [done|left]).
    + apply (S_unpublish (NodeSvc.NewNode "n1") {| nupr_VolumeId := "v1"; nupr_TargetPath := "/t1" |}).
    + apply (S_unpublish (NodeSvc.NewNode "n1") {| nupr_VolumeId := "v2"; nupr_TargetPath := "/t2" |}).
  - simpl. by rewrite dom_singleton_L, (right_id_L ∅ (∪)).
Qed.

(** A control plane without attachments to read whose updates succeed. *)
Definition storing (a : action) : result a :=
  match a return result a with
  | CvaUpdate _ _ o => (Some o, None)
  | a => quiet a
  end.
Lemma storing_answers m a : answers true h0 a (answer storing m a).
Proof.
  destruct a; split; simpl; try done; try by eexists.
Qed.

(** Five steps bring a handler to its unmount, the rest to its end. *)
Definition run_to (sch : list nat) : pool := default p0 (execs storing sch p0).
Definition both_unmounting : pool := run_to [0; 0; 0; 0; 0; 2; 2].
Definition all_done : pool := run_to (repeat 0 14 ++ repeat 1 14 ++ repeat 2 15).

Definition runs (sch : list nat) : bool :=
  match execs storing sch p0 with Some _ => true | None => false end.
Lemma run_to_steps sch : runs sch = true → rtc (step (answers true h0)) p0 (run_to sch).
Proof.
  unfold runs. destruct (execs storing sch p0) as [q|] eqn:Hq; [|done]. intros _. 
  apply (execs_steps (answers true h0) storing sch); [apply storing_answers|].
  unfold run_to. by rewrite Hq.
Qed.

(** Thread [i] of a pool in which it exists. *)
Definition at_ (p : pool) (i : nat) : thread :=
  default (Thread "" (mret tt) idle) (thr p !! i).
Lemma at_lookup p i : (i <? length (thr p)) = true → thr p !! i = Some (at_ p i).
Proof.
  intros Hi%Nat.ltb_lt. unfold at_. by destruct (lookup_lt_is_Some_2 _ _ Hi) as [t ->].
Qed.

(** Boolean tests of what a thread is about to do. *)
Definition unmounts (t : thread) (path : string) : bool :=
  match doing t with Some (Unmount p) => bool_decide (p = path) | _ => false end.
Lemma unmounts_doing t path : unmounts t path = true → doing t = Some (Unmount path).
Proof. unfold unmounts. destruct (doing t) as [[]|]; try done. by intros ->%bool_decide_eq_true. Qed.
Definition enters (t : thread) (w : string) : bool :=
  match doing t with Some (TvlSet x Uninitialized) => bool_decide (x = w) | _ => false end.
Lemma enters_doing t w : enters t w = true → doing t = Some (TvlSet w Uninitialized).
Proof.
  unfold enters. destruct (doing t) as [[]|]; try done. destruct s; try done.
  by intros ->%bool_decide_eq_true.
Qed.

Lemma mutual_exclusion_witness :
  vol (at_ both_unmounting 0) ≠ vol (at_ both_unmounting 2).
Proof.
  apply (mutual_exclusion true h0 (NodeSvc.NewNode "n1") p0 both_unmounting 0 2
    (at_ both_unmounting 0) (at_ both_unmounting 2) (Unmount "/t1") (Unmount "/s3")).
  - apply p0_start.
  - apply run_to_steps. vm_compute. reflexivity.
  - done.
  - apply at_lookup. vm_compute. reflexivity.
  - apply at_lookup. vm_compute. reflexivity.
  - apply unmounts_doing. vm_compute. reflexivity.
  - left. reflexivity.
  - apply unmounts_doing. vm_compute. reflexivity.
  - left. reflexivity.
Defined.

Definition finished (t : thread) : bool := match code t with Ret _ => true | _ => false end.

(** One thread about to enter its volume. *)
Lemma list_serialised_witness : lck (run_to [0; 0]) = Some 0.
Proof.
  apply (list_serialised true h0 (NodeSvc.NewNode "n1") p0 (run_to [0; 0]) 0
    (at_ (run_to [0; 0]) 0) (TvlSet "v1" Uninitialized) "v1").
  - apply p0_start.
  - apply run_to_steps. vm_compute. reflexivity.
  - apply at_lookup. vm_compute. reflexivity.
  - apply enters_doing. vm_compute. reflexivity.
  - left. by exists Uninitialized.
Defined.

Lemma quiescent_witness : tvl all_done = ∅.
Proof.
  apply (quiescent true h0 (NodeSvc.NewNode "n1") p0 all_done).
  - apply p0_start.
  - apply run_to_steps. vm_compute. reflexivity.
  - assert (forallb finished (thr all_done) = true) as Hall by (vm_compute; reflexivity).
    intros t Ht. rewrite forallb_forall in Hall. apply list_elem_of_In, Hall in Ht.
    unfold finished in Ht. by destruct (code t) as [[]| | |].
Defined.

(** ** The cleanup *)

(** An attachment of the volume "v1" that is marked for deletion, and the
    environment whose lists hold it. *)
Definition marked1 : CStorVolumeAttachment :=
  cva_set_VolName "v1" (cva_set_StagingTargetPath "/s1"
    (cva_set_Meta (om_set_DeletionTimestamp (Some 1%Z) om_zero) cva_zero)).
Definition deleting (a : action) : result a :=
  match a return result a with
  | CvaList _ _ _ => (Some [marked1], None)
  | a => quiet a
  end.

(** A handler and a monitor round; and the same when the round, which found the
    attachment, has called Cleanup. *)
Definition unpublishing1 : thread :=
  Thread "v1" (_ ← NodeSvc.NodeUnpublishVolume (NodeSvc.NewNode "n1")
     {| nupr_VolumeId := "v1"; nupr_TargetPath := "/t1" |}; mret tt) idle.
Definition p1 : pool :=
  MkPool None ∅ [unpublishing1; Thread "" (Mounts.MonitorMounts 1) idle].
Definition p1_cleanup : pool :=
  MkPool None ∅
    [unpublishing1; Thread "" (_ ← (_ ← Mounts.Cleanup; mret tt); Mounts.MonitorMounts 0) idle].

Lemma deleting_sane m a : sane h0 a (answer deleting m a).
Proof. destruct a; simpl; try done; by eexists. Qed.

Lemma p1_reaches_cleanup : rtc (step (sane h0)) p1 p1_cleanup.
Proof.
  unfold p1, p1_cleanup. generalize unpublishing1. intros t0.
  cbn [Mounts.MonitorMounts]. unfold Mounts.monitorTick.
  with_strategy opaque [Mounts.Cleanup]
    (do 8 (eapply rtc_l; [apply (exec_step _ deleting _ 1); [apply deleting_sane|cbn; reflexivity]|])).
  reflexivity.
Qed.

Definition overtaken (sch : list nat) : pool := default p1 (execs deleting sch p1_cleanup).
Definition cleaning (sch : list nat) : bool :=
  match execs deleting sch p1_cleanup with Some _ => true | None => false end.
Lemma overtaken_steps sch : cleaning sch = true → rtc (step (sane h0)) p1_cleanup (overtaken sch).
Proof.
  unfold cleaning. destruct (execs deleting sch p1_cleanup) as [q|] eqn:Hq; [|done]. intros _.
  apply (execs_steps (sane h0) deleting sch); [apply deleting_sane|]. unfold overtaken. by rewrite Hq.
Qed.

Lemma p1_start : start false (NodeSvc.NewNode "n1") p1.
Proof.
  split; [done|]. eexists [_; _], [].
  split_and!; [reflexivity| |by left|by apply NoDup_nil|by apply dom_empty_L].
  intros t [->|[->|[]%elem_of_nil]%elem_of_cons]%elem_of_cons; (split; [done|right; split; [done|]]).
  - apply S_handled, (S_unpublish (NodeSvc.NewNode "n1") {| nupr_VolumeId := "v1"; nupr_TargetPath := "/t1" |}).
  - apply (S_monitor (NodeSvc.NewNode "n1") 1).
Qed.

Lemma execs_app env sch sch' p q :
  execs env sch p = Some q → execs env (sch ++ sch') p = execs env sch' q.
Proof.
  revert p. induction sch as [|i sch IH]; intros p; simpl; [by intros [= ->]|].
  destruct (exec env p i); [apply IH|done].
Qed.
Lemma overtaken_more sch sch' :
  cleaning sch = true → cleaning (sch ++ sch') = true →
  rtc (step (sane h0)) (overtaken sch) (overtaken (sch ++ sch')).
Proof.
  unfold cleaning, overtaken. destruct (execs deleting sch p1_cleanup) as [q|] eqn:Hq; [|done]. intros _.
  rewrite (execs_app _ _ sch' _ _ Hq). simpl.
  destruct (execs deleting sch' q) as [r|] eqn:Hr; [|done]. intros _.
  by apply (execs_steps (sane h0) deleting sch'); [apply deleting_sane|].
Qed.

(** C18: the exclusion does not extend to a cleanup while the driver serves. Of a
    driver with an unpublish handler of the volume "v1" and one monitor round,
    whose attachment listing holds one marked for deletion, there is this
    interleaving: the monitor calls Cleanup; the handler has entered the volume and
    is about to unmount its target when Cleanup is about to enter it too, although
    it is in the transition list; that done, Cleanup starts the goroutine for the
    attachment, and the goroutine is about to unmount the staging path of the
    volume while the handler still is to unmount the target. *)
Theorem cleanup_overtakes :
  start false (NodeSvc.NewNode "n1") p1 ∧
  rtc (step (sane h0)) p1 p1_cleanup ∧
  ∃ pe pg q,
    rtc (step (sane h0)) p1_cleanup pe ∧
    (thr pe !! 0 ≫= doing = Some (Unmount "/t1")) ∧
    (thr pe !! 1 ≫= doing = Some (TvlSet "v1" UnmountUnderProgress)) ∧
    tvl pe !! "v1" = Some Uninitialized ∧
    rtc (step (sane h0)) pe pg ∧
    thr pg !! 2 = Some (Thread "v1" (Mounts.cleanupGoroutine marked1) idle) ∧
    rtc (step (sane h0)) pg q ∧
    (thr q !! 0 ≫= doing = Some (Unmount "/t1")) ∧
    (thr q !! 2 ≫= doing = Some (Unmount "/s1")).
Proof.
  split; [apply p1_start|]. split; [apply p1_reaches_cleanup|].
  set (e := repeat 0 5 ++ repeat 1 6). set (g := e ++ repeat 1 3). set (z := g ++ repeat 2 2).
  assert (cleaning e = true ∧ cleaning g = true ∧ cleaning z = true) as (He & Hg & Hz)
    by (vm_compute; by split_and!).
  exists (overtaken e), (overtaken g), (overtaken z). split_and!.
  - by apply overtaken_steps.
  - by vm_cast_no_check (eq_refl (Some (Unmount "/t1"))).
  - by vm_cast_no_check (eq_refl (Some (TvlSet "v1" UnmountUnderProgress))).
  - by vm_cast_no_check (eq_refl (Some Uninitialized)).
  - by apply overtaken_more.
  - reflexivity.
  - by apply overtaken_more.
  - by vm_cast_no_check (eq_refl (Some (Unmount "/t1"))).
  - by vm_cast_no_check (eq_refl (Some (Unmount "/s1"))).
Qed.

End examples.
End Pool.
