(* ===== verification/Store.v ===== *)
(** * The API server as the controller service sees it

    [apiserver h] is the environment of the controller's theorems: a map of
    the CStorVolumeConfigs of the driver's namespace, the nodes, the PVCs and the
    analytics events sent.  A call answers from that state; on a flaky host any
    call may fail, and a create that failed may nevertheless have happened.
    Claims outside the driver's namespace, and every kind of object the
    controller has no business with, are out of bounds: the guard forbids
    touching them. *)

From S2P Require Export Controller.
Local Open Scope go_scope.

Module Store.
Section store.
Context {L : ApiLib} {G : Globals}.

Record store := MkStore {
  cvcs : gmap string CStorVolumeConfig;
  nodes : list Node;
  pvcs : gmap (string * string) PersistentVolumeClaim;   (* by namespace and name *)
  sent : list AnalyticsEvent
}.

Definition set_cvcs (f : gmap string CStorVolumeConfig → gmap string CStorVolumeConfig) (s : store) :
    store := MkStore (f (cvcs s)) (nodes s) (pvcs s) (sent s).
Definition add_event (e : AnalyticsEvent) (s : store) : store :=
  MkStore (cvcs s) (nodes s) (pvcs s) (sent s ++ [e]).

Definition name_of (o : CStorVolumeConfig) : string := om_Name (cvc_Meta o).

(** The answer to a read: the object, or an error that says "not found" only
    when there is none; beside an error the pointer is nil or the object the
    answer was to be decoded into. *)
Definition got (h : Host) {A} (zero : A) (o : option A) (r : option A * err) : Prop :=
  match r.2 with
  | None => r.1 = o ∧ is_Some o
  | Some e => (r.1 = None ∨ r.1 = Some zero) ∧
              if IsNotFound e then o = None else flaky h = true
  end.

(** A claim marked for deletion, waiting for its finalizers. *)
Definition marked (o : CStorVolumeConfig) : CStorVolumeConfig :=
  cvc_set_Meta (om_set_DeletionTimestamp (Some 0%Z) (cvc_Meta o)) o.

Definition created (o : CStorVolumeConfig) (s s' : store) : Prop :=
  cvcs s !! name_of o = None ∧ s' = set_cvcs <[name_of o := o]> s.
Definition deleted (name : string) (s s' : store) : Prop :=
  ∃ o, cvcs s !! name = Some o ∧
    (s' = set_cvcs (delete name) s ∨ s' = set_cvcs <[name := marked o]> s).

Definition reacts (h : Host) (s : store) (a : action) : result a → store → Prop :=
  match a with
  | CvcGet _ _ name => λ r s', s' = s ∧ got h cvc_zero (cvcs s !! name) r
  | CvcCreate _ _ o => λ r s',
      match r.2 with
      | None => created o s s'
      | Some _ => (s' = s ∧ (flaky h = true ∨ is_Some (cvcs s !! name_of o))) ∨
                  (flaky h = true ∧ created o s s')
      end
  | CvcDelete _ _ name _ => λ r s',
      match r with
      | None => deleted name s s'
      | Some e => if IsNotFound e then s' = s ∧ cvcs s !! name = None
                  else flaky h = true ∧ (s' = s ∨ deleted name s s')
      end
  | NodeList _ _ => λ r s', s' = s ∧ match r.2 with
                                     | None => r.1 = Some (nodes s)
                                     | Some _ => flaky h = true
                                     end
  | PvcGet _ ns name => λ r s', s' = s ∧ got h pvc_zero (pvcs s !! (ns, name)) r
  | RangeMap m => λ r s', s' = s ∧ r ≡ₚ map_to_list m
  | AnalyticsSend e => λ _ s', s' = add_event e s
  | _ => λ _ s', s' = s
  end.

Definition permits (a : action) : Prop :=
  match a with
  | CvcGet _ ns _ | CvcCreate _ ns _ => ns = OpenEBSNamespace
  | CvcDelete _ ns _ foreground => ns = OpenEBSNamespace ∧ foreground = true
  | NodeList _ _ | PvcGet _ _ _ | RangeMap _ | AnalyticsSend _ => True
  | a => kind_of a = KConfig
  end.

Definition apiserver (h : Host) : machine store := {|
  guard := λ _, permits;
  next := λ s a r s', sane h a r ∧ reacts h s a r s'
|}.

Global Instance apiserver_config h : ConfigFree h (mspec (apiserver h)).
Proof.
  intros a s Q Ha HQ. split.
  - destruct a; first [discriminate Ha | done].
  - intros r s' [Hr Hs]. destruct a; first [discriminate Ha | (simpl in Hs; subst; by apply HQ)].
Qed.

Section rules.
Context (h : Host).
Abbreviation wps := (wp (mspec (apiserver h))).

(** GetVolume: what the server has under the name, or an error. *)
Lemma wp_GetVolume volumeID s Q :
  (∀ o, volumeID ≠ "" → cvcs s !! volumeID = Some o → Q (ORet (Some o, None)) s) →
  (∀ p e, p = None ∨ p = Some cvc_zero →
     cvcs s !! volumeID = None ∨ flaky h = true ∨ volumeID = "" → Q (ORet (p, Some e)) s) →
  wps (Maya.GetVolume volumeID) s Q.
Proof.
  intros H1 H2. unfold Maya.GetVolume. wp_bind. apply (Cvc.wp_cvcGet h (mspec (apiserver h))); simpl.
  - intros -> k e. apply H2; auto.
  - intros k e [Hf Hh]. apply H2; auto.
  - intros Hn c. split; [done|]. intros [p [e|]] s' (_ & -> & Hg) k; unfold got in Hg; simpl in *.
    + destruct Hg as [Hp Hg]. apply H2; [done|]. destruct (IsNotFound e); auto.
    + destruct Hg as [-> [o Ho]]. rewrite Ho. by apply H1.
Qed.

(** Creating a claim. *)
Lemma wp_CreateClaim o s Q :
  (∀ p k s', created o s s' → Q (ORet (k, (p, None))) s') →
  (∀ p k e s', s' = s ∨ (flaky h = true ∧ created o s s') →
     flaky h = true ∨ is_Some (cvcs s !! name_of o) → Q (ORet (k, (p, Some e))) s') →
  wps (Cvc.Create (Cvc.client OpenEBSNamespace) (Some o)) s Q.
Proof.
  intros H1 H2. apply (Cvc.wp_cvcCreate h (mspec (apiserver h))).
  - intros k e [Hf Hh]. apply H2; auto.
  - intros c. split; [done|]. intros [p [e|]] s' (_ & Hr) k; simpl in Hr.
    + apply H2; [|destruct Hr as [[_ ?]|[? _]]; auto]. destruct Hr as [[-> _]|?]; auto.
    + by apply H1.
Qed.

Lemma wp_DeleteVolume volumeID s Q :
  volumeID ≠ "" →
  (∀ s', deleted volumeID s s' → Q (ORet None) s') →
  (∀ e, IsNotFound e = true → cvcs s !! volumeID = None → Q (ORet (Some e)) s) →
  (∀ e s', flaky h = true → IsNotFound e = false → s' = s ∨ deleted volumeID s s' →
     Q (ORet (Some e)) s') →
  wps (Maya.DeleteVolume volumeID) s Q.
Proof.
  intros Hn H1 H2 H3. unfold Maya.DeleteVolume. wp_bind.
  apply (Cvc.wp_cvcDelete h (mspec (apiserver h))); simpl; [done| |].
  - intros k e [Hf Hh]. apply H3; auto. exact (Hh []).
  - intros _ c. split; [done|]. intros [e|] s' (_ & Hr) k; simpl in Hr; simpl; [|by apply H1].
    destruct (IsNotFound e) eqn:He; destruct Hr as [? ?]; subst; auto.
Qed.

Lemma wp_PvcGet ns name s Q :
  (∀ o k, Str.TrimSpace name ≠ "" → pvcs s !! (ns, name) = Some o → Q (ORet (k, (Some o, None))) s) →
  (∀ p k e, pvcs s !! (ns, name) = None ∨ flaky h = true ∨ Str.TrimSpace name = "" →
     Q (ORet (k, (p, Some e))) s) →
  wps (Pvc.Get (Pvc.client ns) name) s Q.
Proof.
  intros H1 H2. apply (Pvc.wp_pvcGet h (mspec (apiserver h))).
  - intros Hn k e. apply H2. auto.
  - intros k e [Hf Hh]. apply H2. auto.
  - intros Hn c. split; [done|]. intros [p [e|]] s' (_ & -> & Hg) k; unfold got in Hg; simpl in *.
    + destruct Hg as [_ Hg]. apply H2. destruct (IsNotFound e); auto.
    + destruct Hg as [-> [o Ho]]. rewrite Ho. by apply H1.
Qed.

Lemma wp_NodeList s Q :
  (∀ k, Q (ORet (k, (Some (nodes s), None))) s) →
  (∀ k p e, flaky h = true → Q (ORet (k, (p, Some e))) s) →
  wps (KNode.List (KNode.NewKubeClient []) 0) s Q.
Proof.
  intros H1 H2. apply (KNode.wp_nodeList h (mspec (apiserver h))).
  - intros k e [Hf Hh]. by apply H2.
  - intros c. split; [done|]. intros [p [e|]] s' (_ & -> & Hg) k; simpl in *; [by apply H2|].
    subst. apply H1.
Qed.

End rules.
End store.
End Store.
