(* ===== verification/ControllerSpec.v ===== *)
(** * What the controller service promises

    Theorems about [Controller] and the claim layer of [Maya]: the node choice,
    the claim a request is turned into, and the refinement of CreateVolume
    and DeleteVolume against the API server of [Store]. *)

From S2P Require Export Store.
From Stdlib Require Import Ascii.
Local Open Scope go_scope.

Module ControllerSpec.
Import Controller Store.
Section spec.
Context {L : ApiLib} {G : Globals} {N : CsiNames} (h : Host).
Abbreviation wps := (wp (mspec (apiserver h))).

(** ** Topology *)

(** A node satisfies a topology when every segment is one of its labels; a
    label it lacks counts as the empty string. *)
Definition satisfies (prf : Topology) (n : Node) : Prop :=
  map_Forall (λ k v, default "" (default ∅ (om_Labels (node_Meta n)) !! k) = v) (Segments prf).
Global Instance satisfies_dec prf n : Decision (satisfies prf n).
Proof. unfold satisfies. apply _. Defined.

(** The nodes in the order in which getNode considers them. *)
Definition candidates (prefs : list Topology) (ns : list Node) : list Node :=
  prefs ≫= λ prf, filter (satisfies prf) ns.
Definition chosen (prefs : list Topology) (ns : list Node) : string :=
  match candidates prefs ns with n :: _ => om_Name (node_Meta n) | [] => "" end.

Lemma segmentsLoop_spec labels segs :
  segmentsLoop labels segs = false ↔
  ∀ k v, (k, v) ∈ segs → default "" (labels !! k) = v.
Proof.
  induction segs as [|[k v] segs IH]; simpl; [split; [by intros _ ? ? ?%elem_of_nil|done]|].
  case_bool_decide as Hv; simpl.
  - rewrite IH. split.
    + intros H k' v' [[= -> ->]|Hin]%elem_of_cons; auto.
    + intros H k' v' Hin. apply H. by right.
  - split; [done|]. intros H. destruct Hv. apply H. left.
Qed.

Lemma wp_nodesLoop prf ns s Q :
  Q (ORet (match filter (satisfies prf) ns with
           | n :: _ => Some (om_Name (node_Meta n)) | [] => None end)) s →
  wps (nodesLoop prf ns) s Q.
Proof.
  induction ns as [|n ns IH]; cbn [nodesLoop]; [done|]. rewrite filter_cons.
  intros HQ. simpl. split; [done|]. intros r s' (_ & -> & Hr).
  assert (segmentsLoop (default ∅ (om_Labels (node_Meta n))) r = false ↔ satisfies prf n) as Hs.
  { rewrite segmentsLoop_spec. unfold satisfies, map_Forall. split.
    - intros H k v Hk. apply H. rewrite Hr. by apply elem_of_map_to_list.
    - intros H k v Hk. apply H. apply elem_of_map_to_list. by rewrite <- Hr. }
  destruct (decide (satisfies prf n)) as [Hp|Hp].
  - apply Hs in Hp. by rewrite Hp.
  - destruct (segmentsLoop _ _); [by apply IH|]. by destruct Hp; apply Hs.
Qed.

Lemma wp_preferredLoop prefs ns s Q :
  Q (ORet (chosen prefs ns)) s → wps (preferredLoop prefs ns) s Q.
Proof.
  unfold chosen, candidates. induction prefs as [|prf prefs IH]; cbn [preferredLoop]; [done|].
  cbn [mbind list_bind]. intros HQ. wp_bind. apply wp_nodesLoop. simpl.
  destruct (filter (satisfies prf) ns) as [|n l]; [|done]. by apply IH.
Qed.

Lemma wp_getNode topo s Q :
  Q (ORet (chosen (Preferred topo) (nodes s), None)) s →
  (flaky h = true → ∀ e, Q (ORet ("", Some e)) s) →
  wps (getNode topo) s Q.
Proof.
  intros H1 H2. unfold getNode. wp_bind. apply wp_NodeList.
  - intros k. cbn [then_]. revert H1. generalize (Preferred topo). intros prefs H1.
    destruct prefs as [|prf prefs]; [done|]. revert H1. generalize (prf :: prefs). intros l H1.
    simpl. wp_bind. by apply wp_preferredLoop.
  - intros k p e Hf. simpl. by apply H2.
Qed.

Lemma wp_getAccessibilityRequirements req s Q :
  (∀ topo, req = Some topo → chosen (Preferred topo) (nodes s) ≠ "" →
     Q (ORet (chosen (Preferred topo) (nodes s), None)) s) →
  (∀ e, flaky h = true ∨ req = None ∨
     (∃ topo, req = Some topo ∧ chosen (Preferred topo) (nodes s) = "") →
     Q (ORet ("", Some e)) s) →
  wps (getAccessibilityRequirements req) s Q.
Proof.
  intros H1 H2. unfold getAccessibilityRequirements. destruct req as [topo|]; [|by apply H2; auto].
  wp_bind. apply wp_getNode; simpl; [|by intros Hf e; apply H2; auto].
  case_bool_decide as Hn; simpl.
  - apply H2. right; right. exists topo. split; [done|]. by destruct (chosen _ _).
  - apply H1; [done|]. intros Hc. by rewrite Hc in Hn.
Qed.

(** C31: the node given to a volume is the first one, in the order of the
    preferred topologies and then of the node list, whose labels satisfy the
    topology; the request fails when it names no topology or no node
    satisfies one, and nothing is changed. *)
Theorem node_for_volume req s :
  flaky h = false →
  wps (getAccessibilityRequirements req) s (λ o s', s' = s ∧
    match req with
    | None => ∃ e, o = ORet ("", Some e)
    | Some topo =>
        match candidates (Preferred topo) (nodes s) with
        | n :: _ => if bool_decide (om_Name (node_Meta n) = "") then ∃ e, o = ORet ("", Some e)
                    else o = ORet (om_Name (node_Meta n), None)
        | [] => ∃ e, o = ORet ("", Some e)
        end
    end).
Proof.
  intros Hf. apply wp_getAccessibilityRequirements.
  - intros topo -> Hc. split; [done|]. unfold chosen in *.
    destruct (candidates _ _) as [|n l]; [done|]. by case_bool_decide.
  - intros e [Hc|[->|(topo & -> & Hc)]]; [congruence|by eauto|]. split; [done|].
    unfold chosen in Hc. destruct (candidates _ _) as [|n l]; [by eauto|].
    case_bool_decide; [by eauto|done].
Qed.

(** ** Validation *)

Lemma isValidFStype_spec fs : isValidFStype fs = true ↔ fs = "ext4" ∨ fs = "xfs".
Proof.
  unfold isValidFStype, ValidFSTypes, isValidFStypeLoop.
  repeat case_bool_decide; subst; split; auto; first [by intros [?|?]|done].
Qed.

(** A capability the controller can provide. *)
Definition providable (c : VolumeCapability) : Prop :=
  (∀ m, GetMount (Some c) = Some m → FsType m = "ext4" ∨ FsType m = "xfs") ∧
  (∀ mode, vc_AccessMode c = Some mode → mode = SINGLE_NODE_WRITER).

Lemma access_mode_guard (mode : AccessMode) (e : error) (x : err) :
  (if decide (mode ≠ SINGLE_NODE_WRITER) then Some e else x) = None ↔
  mode = SINGLE_NODE_WRITER ∧ x = None.
Proof. destruct mode; simpl; split; by intros ?; destruct_and?. Qed.

Lemma validateVolCaps_spec req caps :
  validateVolCaps req caps = None ↔ Forall providable caps.
Proof.
  induction caps as [|c caps IH]; [done|]. rewrite Forall_cons, <- IH. clear IH.
  unfold providable. cbn [validateVolCaps].
  assert (∀ (x : err) (e : AccessMode → error), match vc_AccessMode c with
      | Some mode => if decide (mode ≠ SINGLE_NODE_WRITER) then Some (e mode) else x
      | None => x end = None ↔
    (∀ mode, vc_AccessMode c = Some mode → mode = SINGLE_NODE_WRITER) ∧ x = None) as Hmode.
  { intros x e. destruct (vc_AccessMode c); [rewrite access_mode_guard|]; naive_solver. }
  destruct (GetMount (Some c)) as [m|]; simpl; [|rewrite Hmode; naive_solver].
  destruct (isValidFStype (FsType m)) eqn:Hfs; simpl.
  - apply isValidFStype_spec in Hfs. rewrite Hmode. naive_solver.
  - split; [done|]. intros [[H _] _]. specialize (H m eq_refl).
    apply isValidFStype_spec in H. congruence.
Qed.

Lemma validateRequest_spec cs c : validateRequest cs c = None ↔ c ∈ capabilities cs.
Proof.
  unfold validateRequest. induction (capabilities cs) as [|d l IH]; simpl.
  - split; [done|]. by intros ?%elem_of_nil.
  - case_decide as Hd; [subst|rewrite IH]; rewrite elem_of_cons; naive_solver.
Qed.

(** C30: a creation request is accepted exactly when the controller offers volume
    creation, the name and the storage class's pool cluster, replica count and
    CAS type are given, and capabilities are given, all of which it can provide:
    ext4 or xfs for a mounted volume, and no access mode but single-node writer. *)
Theorem validate_create_exact cs req :
  validateVolumeCreateReq cs req = None ↔
  CREATE_DELETE_VOLUME ∈ capabilities cs ∧ cvr_Name req ≠ "" ∧
  param req "cstorPoolCluster" ≠ "" ∧ param req "replicaCount" ≠ "" ∧
  param req "cas-type" ≠ "" ∧
  ∃ caps, cvr_VolumeCapabilities req = Some caps ∧ Forall providable caps.
Proof.
  unfold validateVolumeCreateReq. rewrite <- validateRequest_spec.
  destruct (validateRequest cs CREATE_DELETE_VOLUME); [naive_solver|].
  repeat (case_bool_decide; [naive_solver|]).
  destruct (cvr_VolumeCapabilities req) as [caps|]; [|naive_solver].
  rewrite validateVolCaps_spec. naive_solver.
Qed.

(** ** The claim of a volume *)

(** The claim the controller creates. *)
Definition claim (volName : string) (count : Z) (snapshotID nodeID : string)
    (annotations labels : gmap string string) (q : quantity) : CStorVolumeConfig :=
  MkCStorVolumeConfig
    (MkObjectMeta volName "" OpenEBSNamespace "" (Some annotations) (Some labels)
       (Some [Maya.CVCFinalizer]) [] None)
    (Some {[ResourceStorage := q]}) snapshotID (Some {[ResourceStorage := q]}) count nodeID
    CVCPhasePending None [] "" "" true.

(** Whether one of the steps records an error. *)
Definition provision_fails (volName rc nodeID : string) (annotations labels : gmap string string) :
    bool :=
  bool_decide (CVCPhasePending = "") || (bool_decide (Str.Atoi rc = None) ||
  (bool_decide (nodeID = "") || (bool_decide (labels = ∅) || (bool_decide (annotations = ∅) ||
  (bool_decide (OpenEBSNamespace = "") || (bool_decide (volName = "") || false)))))).

Lemma provisionObject_inl volName rc snapshotID nodeID annotations labels q o :
  Maya.provisionObject volName rc snapshotID nodeID annotations labels q = inl o ↔
  provision_fails volName rc nodeID annotations labels = false ∧
  o = claim volName (default 0%Z (Str.Atoi rc)) snapshotID nodeID annotations labels q.
Proof.
  unfold Maya.provisionObject. rewrite Cvc.Build_inl.
  assert (∀ b, Cvc.failed (Cvc.WithDependentsUpgraded b) = Cvc.failed b) as HD by done.
  assert (∀ q b, Cvc.failed (Cvc.WithProvisionCapacityQty q b) = Cvc.failed b) as HP by done.
  assert (∀ q b, Cvc.failed (Cvc.WithCapacityQty q b) = Cvc.failed b) as HC by done.
  assert (∀ x b, Cvc.failed (Cvc.WithSource x b) = Cvc.failed b) as HS by done.
  assert (∀ x b, Cvc.failed (Cvc.WithFinalizers [x] b) = Cvc.failed b) as HF.
  { intros x b. unfold Cvc.WithFinalizers, Cvc.WithFinalizersNew. simpl. by case_match. }
  rewrite Cvc.failed_WithStatusPhase, HD, HP, Cvc.failed_WithReplicaCount, Cvc.failed_WithNodeID,
    HS, HC, HF, Cvc.failed_WithLabelsNew, Cvc.failed_WithAnnotations, Cvc.failed_BWithNamespace,
    Cvc.failed_WithName.
  change (Cvc.failed Cvc.NewBuilder) with false. fold (provision_fails volName rc nodeID annotations labels).
  assert (provision_fails volName rc nodeID annotations labels = false →
    Cvc.object (Cvc.WithStatusPhase CVCPhasePending
      (Cvc.WithDependentsUpgraded
      (Cvc.WithProvisionCapacityQty q
      (Cvc.WithReplicaCount rc
      (Cvc.WithNodeID nodeID
      (Cvc.WithSource snapshotID
      (Cvc.WithCapacityQty q
      (Cvc.WithFinalizers [Maya.CVCFinalizer]
      (Cvc.WithLabelsNew labels
      (Cvc.WithAnnotations annotations
      (Cvc.BWithNamespace OpenEBSNamespace
      (Cvc.WithName volName Cvc.NewBuilder)))))))))))) =
    claim volName (default 0%Z (Str.Atoi rc)) snapshotID nodeID annotations labels q) as Hobj.
  { unfold provision_fails. rewrite !orb_false_iff. intros (E1&E2&E3&E4&E5&E6&E7&_).
    unfold Cvc.WithName, Cvc.BWithNamespace, Cvc.WithAnnotations,
      Cvc.WithAnnotationsNew, Cvc.WithLabelsNew, Cvc.WithNodeID, Cvc.WithStatusPhase,
      Cvc.WithReplicaCount.
    rewrite E1, E3, E4, E6, E7, E5. simpl. rewrite !range_assign_empty.
    by destruct (Str.Atoi rc); [|by apply bool_decide_eq_false in E2]. }
  split; intros [Hf ->]; split; [done|by apply Hobj|done|by symmetry; apply Hobj].
Qed.

(** Building the claim succeeds exactly when the name, the namespace, the
    node and the phase are given, the maps are not empty and the replica count
    is a decimal number, and then every field is the request's. *)
Theorem provisionObject_exact volName rc snapshotID nodeID annotations labels q o :
  Maya.provisionObject volName rc snapshotID nodeID annotations labels q = inl o ↔
  volName ≠ "" ∧ OpenEBSNamespace ≠ "" ∧ annotations ≠ ∅ ∧ labels ≠ ∅ ∧ nodeID ≠ "" ∧
  CVCPhasePending ≠ "" ∧
  ∃ count, Str.Atoi rc = Some count ∧
    o = claim volName count snapshotID nodeID annotations labels q.
Proof.
  rewrite provisionObject_inl. unfold provision_fails.
  rewrite !orb_false_iff, !bool_decide_eq_false. split.
  - intros ((?&Hc&?&?&?&?&?&_) & ->). split_and!; try done.
    destruct (Str.Atoi rc) as [count|]; [by exists count|done].
  - intros (?&?&?&?&?&?&count&Hc&->). rewrite Hc. by split_and!.
Qed.

(** ** Provisioning *)

(** The request for a claim, as ProvisionVolume gets it. *)
Record provision := MkProvision {
  pr_size : Z; pr_name : string; pr_count : string; pr_cspc : string; pr_snapshot : string;
  pr_node : string; pr_policy : string; pr_pvc : string; pr_pvcns : string
}.
Definition ProvisionVolume (r : provision) : go err :=
  Maya.ProvisionVolume (pr_size r) (pr_name r) (pr_count r) (pr_cspc r) (pr_snapshot r)
    (pr_node r) (pr_policy r) (pr_pvc r) (pr_pvcns r).

(** The capacity: the least whole number of GiB, as a quantity. *)
Definition pr_quantity (r : provision) : quantity * option error :=
  ParseQuantity (Maya.fmtGi (Rounding.RoundUpGiB (pr_size r))).

(** A claim is the request's when every field is. *)
Definition claim_for (r : provision) (o : CStorVolumeConfig) : Prop :=
  ∃ count annotations labels,
    o = claim (pr_name r) count (pr_snapshot r) (pr_node r) annotations labels (pr_quantity r).1 ∧
    (pr_quantity r).2 = None ∧ Str.Atoi (pr_count r) = Some count ∧
    annotations !! Maya.OpenebsVolumeID = Some (pr_name r) ∧
    annotations !! Maya.OpenebsVolumePolicy = Some (pr_policy r) ∧
    annotations !! Maya.OpenebsPVC = Some (pr_pvc r) ∧
    labels !! Maya.OpenebsCSPCName = Some (pr_cspc r) ∧
    (pr_snapshot r ≠ "" → ∃ snap rest, Str.Split (pr_snapshot r) (Ascii.ascii_of_nat 64) =
       snap :: rest ∧ labels !! "openebs.io/source-volume" = Some snap).

(** What a request needs to be provisioned. *)
Definition can_provision (r : provision) (s : store) : Prop :=
  cvcs s !! pr_name r = None ∧
  (pr_pvc r ≠ "" → Str.TrimSpace (pr_pvc r) ≠ "" ∧ is_Some (pvcs s !! (pr_pvcns r, pr_pvc r))) ∧
  (pr_snapshot r ≠ "" → 2 ≤ length (Str.Split (pr_snapshot r) (Ascii.ascii_of_nat 64))) ∧
  (pr_quantity r).2 = None ∧ pr_name r ≠ "" ∧ OpenEBSNamespace ≠ "" ∧ pr_node r ≠ "" ∧
  CVCPhasePending ≠ "" ∧ is_Some (Str.Atoi (pr_count r)).

(** The claim was created, and nothing else happened. *)
Definition provisioned (r : provision) (s s' : store) : Prop :=
  ∃ o, claim_for r o ∧ created o s s'.

Definition base_annotations (r : provision) : gmap string string :=
  <[Maya.OpenebsVolumeID := pr_name r]>
    (<[Maya.OpenebsVolumePolicy := pr_policy r]> {[Maya.OpenebsPVC := pr_pvc r]}).

(** The annotations after the PVC was looked at. *)
Definition annotations_of (r : provision) (a : gmap string string) : Prop :=
  a = base_annotations r ∨ ∃ v, a = <[Maya.volumeCreatedThrough := v]> (base_annotations r).

Lemma annotations_lookup r a : annotations_of r a →
  a !! Maya.OpenebsVolumeID = Some (pr_name r) ∧
  a !! Maya.OpenebsVolumePolicy = Some (pr_policy r) ∧ a !! Maya.OpenebsPVC = Some (pr_pvc r).
Proof.
  unfold base_annotations, annotations_of.
  intros [->|[v ->]]; split_and!; by repeat first
    [rewrite lookup_insert_eq | rewrite lookup_singleton_eq | rewrite lookup_insert_ne by done].
Qed.

(** The tail of ProvisionVolume, once the annotations are known. *)
Lemma wp_createClaim r a labels q s Q :
  annotations_of r a → labels !! Maya.OpenebsCSPCName = Some (pr_cspc r) →
  (pr_snapshot r ≠ "" → ∃ snap rest, Str.Split (pr_snapshot r) (Ascii.ascii_of_nat 64) =
     snap :: rest ∧ labels !! "openebs.io/source-volume" = Some snap) →
  pr_quantity r = (q, None) →
  (∀ s', provisioned r s s' → Q (ORet None) s') →
  (∀ e s', s' = s ∨ flaky h = true ∧ provisioned r s s' →
     flaky h = true ∨ ¬ can_provision r s → Q (ORet (Some e)) s') →
  wps (match Maya.provisionObject (pr_name r) (pr_count r) (pr_snapshot r) (pr_node r) a labels q with
       | inr e => mret (Some e)
       | inl cvcObj =>
           '(_, (_, e)) ← Cvc.Create (Cvc.client OpenEBSNamespace) (Some cvcObj); mret e
       end) s Q.
Proof.
  intros Ha Hl Hsnap Hq H1 H2. pose proof (annotations_lookup r a Ha) as (A1 & A2 & A3).
  destruct (Maya.provisionObject _ _ _ _ _ _ _) as [o|e] eqn:Ho.
  - apply provisionObject_inl in Ho as [Hf ->]. unfold provision_fails in Hf.
    rewrite !orb_false_iff, !bool_decide_eq_false in Hf. destruct Hf as (_&Hc&_).
    destruct (Str.Atoi (pr_count r)) as [count|] eqn:Hcount; [|done]. cbn [default].
    assert (claim_for r (claim (pr_name r) count (pr_snapshot r) (pr_node r) a labels q)) as Hcl.
    { exists count, a, labels. rewrite Hq. by split_and!. }
    wp_bind. apply wp_CreateClaim; simpl.
    + intros p k s' Hs. apply H1. by eexists.
    + intros p k e s' Hs Hwhy. apply H2.
      * destruct Hs as [->|[? ?]]; [by left|right]. split; [done|by eexists].
      * destruct Hwhy as [?|[? Hx]]; [by left|right]. intros [Hn _]. unfold name_of in Hx.
        simpl in Hx. congruence.
  - apply H2; [by left|right]. intros (_&_&_&_&?&?&?&?&[count Hc]).
    assert (provision_fails (pr_name r) (pr_count r) (pr_node r) a labels = false) as Hf.
    { unfold provision_fails. rewrite !orb_false_iff, !bool_decide_eq_false, Hc.
      split_and!; try done; [intros ->; by rewrite lookup_empty in Hl|].
      intros ->. by rewrite lookup_empty in A1. }
    rewrite (proj2 (provisionObject_inl _ _ _ _ _ _ _ _) (conj Hf eq_refl)) in Ho. done.
Qed.

(** Provisioning a volume creates its claim or nothing; it fails only when the
    host does or the request lacks something. *)
Lemma wp_ProvisionVolume r s Q :
  (∀ s', provisioned r s s' → Q (ORet None) s') →
  (∀ e s', s' = s ∨ flaky h = true ∧ provisioned r s s' →
     flaky h = true ∨ ¬ can_provision r s → Q (ORet (Some e)) s') →
  (∀ m, ¬ can_provision r s → Q (OPanic m) s) →
  wps (ProvisionVolume r) s Q.
Proof.
  intros H1 H2 H3. unfold ProvisionVolume, Maya.ProvisionVolume. cbv zeta.
  set (base := <[_ := _]> _). assert (base = base_annotations r) as Hbase by done.
  wp_bind. set (Q1 := then_ _ _ _).
  assert (∀ a, annotations_of r a → Q1 (ORet (inl a)) s) as HQ1.
  { intros a Ha. unfold Q1. cbn [then_]. wp_bind.
    set (Q2 := then_ _ _ _).
    assert (∀ labels, labels !! Maya.OpenebsCSPCName = Some (pr_cspc r) →
      (pr_snapshot r ≠ "" → ∃ snap rest, Str.Split (pr_snapshot r) (Ascii.ascii_of_nat 64) =
         snap :: rest ∧ labels !! "openebs.io/source-volume" = Some snap) →
      Q2 (ORet labels) s) as HQ2.
    { intros labels Hl Hsnap. unfold Q2. cbn [then_]. unfold Maya.MustParse.
      fold (pr_quantity r). destruct (pr_quantity r) as [q [e|]] eqn:Hq; simpl.
      - apply H3. intros (_&_&_&Hp&_). by rewrite Hq in Hp.
      - by apply (wp_createClaim r a labels q). }
    assert (∀ m, ¬ can_provision r s → Q2 (OPanic m) s) as HQ2p by exact H3.
    clearbody Q2. case_bool_decide as Hs; simpl.
    - apply HQ2; [by rewrite lookup_singleton_eq|done].
    - unfold Maya.GetVolumeSourceDetails. change "@"%char with (Ascii.ascii_of_nat 64).
      destruct (Str.Split (pr_snapshot r) (Ascii.ascii_of_nat 64)) as [|v0 [|v1 l]] eqn:Hsplit; simpl.
      + by destruct (Str.Split_not_nil _ _ Hsplit).
      + apply HQ2p. intros (_&_&Hp&_). specialize (Hp Hs). rewrite Hsplit in Hp. simpl in Hp. lia.
      + apply HQ2; [by rewrite lookup_insert_ne, lookup_singleton_eq by done|].
        intros _. exists v0, (v1 :: l). split; [done|]. by rewrite lookup_insert_eq. }
  assert (∀ e, flaky h = true ∨ ¬ can_provision r s → Q1 (ORet (inr e)) s) as HQ1e.
  { intros e Hwhy. unfold Q1. simpl. apply H2; auto. }
  assert (∀ m, Q1 (OPanic m) s = Q (OPanic m) s) as HQ1p by done.
  clearbody Q1. rewrite Hbase. case_bool_decide as Hp; simpl; [by apply HQ1; left|].
  wp_bind. apply wp_PvcGet.
  - intros o k Ht Ho. simpl. case_match; [|by apply HQ1; left].
    apply HQ1. right. by eexists.
  - intros p k e Hwhy. simpl. apply HQ1e. destruct Hwhy as [Hw|[?|Hw]]; [right|by left|right];
      intros (_&Hc&_); destruct (Hc Hp) as [? [? ?]]; congruence.
Qed.
(** ** CreateVolume *)

(** The snapshot a request clones from. *)
Definition source_of (c : option VolumeContentSource) : string :=
  match c with Some (VCSSnapshot (Some id)) => id | _ => "" end.

(** What the controller asks of the claim layer for a request. *)
Definition request_of (req : CreateVolumeRequest) (size : Z) (node : string) : provision :=
  MkProvision size (cvr_Name req) (param req "replicaCount") (param req "cstorPoolCluster")
    (source_of (cvr_VolumeContentSource req)) node (param req "cstorVolumePolicy")
    (param req "csi.storage.k8s.io/pvc/name") (param req "csi.storage.k8s.io/pvc/namespace").

(** The volume it answers with. *)
Definition response (req : CreateVolumeRequest) (size : Z) : Volume :=
  {| CapacityBytes := size; VolumeId := cvr_Name req;
     VolumeContext := {["openebs.io/cas-type" := param req "cas-type"]};
     ContentSource := cvr_VolumeContentSource req |}.

(** The event of a new volume, sent when analytics are enabled. *)
Definition notify (req : CreateVolumeRequest) (size : Z) (s : store) : store :=
  if truthy (environ h Env.OpenEBSEnableAnalytics) then
    add_event {| ae_CommonBuild := GetVolumeType "cstor-csi" VolumeProvision;
                 ae_VolumeName := cvr_Name req;
                 ae_VolumeClaimName := param req "csi.storage.k8s.io/pvc/name";
                 ae_Action := GetReplicaCount (param req "replicaCount") VolumeProvision;
                 ae_Category := VolumeProvision; ae_Capacity := Str.Itoa size |} s
  else s.

(** A claim with the name exists and is not being deleted. *)
Definition live (name : string) (s : store) : Prop :=
  ∃ o, cvcs s !! name = Some o ∧ om_DeletionTimestamp (cvc_Meta o) = None.

Lemma wp_sendEvent a b c d e f s Q :
  Q (ORet tt) (if truthy (environ h Env.OpenEBSEnableAnalytics) then
    add_event {| ae_CommonBuild := GetVolumeType e f; ae_VolumeName := b; ae_VolumeClaimName := a;
                 ae_Action := GetReplicaCount d f; ae_Category := f; ae_Capacity := c |} s
    else s) →
  wps (sendEventOrIgnore a b c d e f) s Q.
Proof.
  intros HQ. unfold sendEventOrIgnore. wp_bind. apply (wp_Truthy h (mspec (apiserver h))).
  cbn [then_]. destruct (truthy _); [|exact HQ]. split; [done|]. by intros [] s' [_ ->].
Qed.

Lemma wp_createSource c s Q :
  (Q (ORet (inl (source_of c))) s) →
  (∀ x, source_of c ≠ "" ∨ (∃ y, c = Some (VCSSnapshot (Some y))) →
     (∃ e, x = ORet (inr e)) ∨ (∃ m, x = OPanic m) → Q x s) →
  wps (createSource c) s Q.
Proof.
  intros H1 H2. unfold createSource. destruct c as [[|[id|]|]|]; try exact H1. simpl in H1.
  case_bool_decide as Hid; [by apply H2; eauto|].
  assert (∀ b e, wps (let '(isValidSrc, _) := (b, e) : bool * err in
    if negb isValidSrc then fail (Status InvalidArgument "VolumeSrc Not Available" []) else ok id) s Q)
    as Hend. { intros [] e; simpl; [done|]. apply H2; eauto. }
  wp_bind. unfold Maya.IsSourceAvailable, Maya.GetVolumeSourceDetails.
  destruct (Str.Split id "@"%char) as [|v0 [|v1 l]]; simpl; [apply (Hend false None)|by apply H2; eauto|].
  wp_bind. apply wp_GetVolume.
  - intros o _ _. apply (Hend true None).
  - intros [o|] e _ _; [apply (Hend true None)|apply (Hend false (Some e))].
Qed.

(** A request without a snapshot to clone from is ready; one with needs the
    snapshot's identifier to name it and the volume it was taken of. *)
Definition source_ready (c : option VolumeContentSource) (s : store) : Prop :=
  ∀ id, c = Some (VCSSnapshot (Some id)) → id ≠ "" ∧
    ∃ vol snap rest, Str.Split id "@"%char = vol :: snap :: rest ∧ vol ≠ "" ∧ is_Some (cvcs s !! vol).

Lemma wp_createSource_ready c s Q :
  flaky h = false → source_ready c s → Q (ORet (inl (source_of c))) s → wps (createSource c) s Q.
Proof.
  intros Hf Hr HQ. unfold createSource. destruct c as [[|[id|]|]|]; try exact HQ. simpl in HQ.
  destruct (Hr id eq_refl) as (Hid & vol & snap & rest & Hs & Hv & [o Ho]).
  rewrite bool_decide_eq_false_2 by done. wp_bind.
  unfold Maya.IsSourceAvailable, Maya.GetVolumeSourceDetails. rewrite Hs. simpl. wp_bind.
  apply wp_GetVolume; [by intros x _ _|].
  intros p e _ Hx. rewrite Hf, Ho in Hx. by destruct Hx as [Hx|[Hx|Hx]].
Qed.

(** What CreateVolume asks the claim layer for: the capacity of the request,
    on the node chosen for its topology. *)
Definition asked (req : CreateVolumeRequest) (s : store) (c : CapacityRange)
    (topo : TopologyRequirement) : provision :=
  request_of req (RequiredBytes c) (chosen (Preferred topo) (nodes s)).

(** What CreateVolume may do. *)
Definition create_post (cs : controller) (req : CreateVolumeRequest) (s : store)
    (o : outcome (res Volume)) (s' : store) : Prop :=
  match o with
  | ORet (inl v) =>
      ∃ c topo, cvr_CapacityRange req = Some c ∧ cvr_AccessibilityRequirements req = Some topo ∧
      validateVolumeCreateReq cs req = None ∧ chosen (Preferred topo) (nodes s) ≠ "" ∧
      v = response req (RequiredBytes c) ∧
      ((s' = s ∧ live (cvr_Name req) s) ∨
       ∃ s1, provisioned (asked req s c topo) s s1 ∧ s' = notify req (RequiredBytes c) s1)
  | ORet (inr _) =>
      s' = s ∨ flaky h = true ∧ ∃ c topo, cvr_CapacityRange req = Some c ∧
        cvr_AccessibilityRequirements req = Some topo ∧ provisioned (asked req s c topo) s s'
  | OPanic _ | OExit _ => s' = s
  end.

(** C2: CreateVolume against the API server: when it answers with a volume,
    either a claim of that name was there and alive and nothing was changed, or
    exactly the claim the request describes was created (capacity rounded up to
    whole GiB, replica count, pool cluster, policy, PVC, snapshot source and the
    first node that satisfies a preferred topology) and one analytics event sent if enabled; when it
    fails, nothing was changed unless the host lost the answer of that very
    creation; no other claim is ever touched, and a panic changes nothing. *)
Theorem CreateVolume_refines cs req s :
  wps (CreateVolume cs req) s (create_post cs req s).
Proof.
  unfold CreateVolume. destruct (validateVolumeCreateReq cs req) eqn:Hv; [by left|].
  destruct (cvr_CapacityRange req) as [c|] eqn:Hc; [|done]. cbn [deref]. simpl.
  wp_bind. apply wp_getAccessibilityRequirements; [|by intros e _; left].
  intros topo Htopo Hnode. cbn [then_]. unfold try.
  wp_bind. apply wp_createSource; [|by intros x _ [[e ->]|[m ->]]; [left|]]. cbn [then_].
  wp_bind. set (Q1 := then_ _ _ _).
  assert (wps (ProvisionVolume (asked req s c topo)) s
    (then_ (mspec (apiserver h)) (λ e, match e with
       | Some e => fail (internal e)
       | None =>
           _ ← sendEventOrIgnore (param req "csi.storage.k8s.io/pvc/name") (cvr_Name req)
                 (Str.Itoa (RequiredBytes c)) (param req "replicaCount") "cstor-csi" VolumeProvision;
           ok (response req (RequiredBytes c))
       end) (create_post cs req s))) as Hprov.
  { apply wp_ProvisionVolume; [|by intros e s' [->|[? ?]] _; [left|right; eauto 6]|done].
    intros s' Hs'. cbn [then_]. wp_bind. apply wp_sendEvent.
    exists c, topo. split_and!; [done..|]. right. by exists s'. }
  apply wp_GetVolume.
  - intros o Hn Ho. unfold Q1. cbn [then_]. simpl.
    case_bool_decide as Hd; simpl.
    + exists c, topo. split_and!; [done..|]. left. split; [done|by exists o].
    + wp_bind. exact Hprov.
  - intros p e _ _. unfold Q1. cbn [then_]. simpl. wp_bind. exact Hprov.
Qed.

(** What a valid request needs to be answered with its volume. *)
Record grantable (cs : controller) (req : CreateVolumeRequest) (c : CapacityRange)
    (topo : TopologyRequirement) (s : store) : Prop := {
  gr_flaky : flaky h = false;
  gr_valid : validateVolumeCreateReq cs req = None;
  gr_range : cvr_CapacityRange req = Some c;
  gr_topology : cvr_AccessibilityRequirements req = Some topo;
  gr_node : chosen (Preferred topo) (nodes s) ≠ "";
  gr_source : source_ready (cvr_VolumeContentSource req) s;
  gr_name : cvr_Name req ≠ ""
}.

Lemma wp_CreateVolume_granted cs req c topo s :
  grantable cs req c topo s →
  let r := asked req s c topo in
  live (cvr_Name req) s ∨ can_provision r s →
  wps (CreateVolume cs req) s (λ o s',
    o = ORet (inl (response req (RequiredBytes c))) ∧
    (s' = s ∧ live (cvr_Name req) s ∨
     ∃ s1, provisioned r s s1 ∧ s' = notify req (RequiredBytes c) s1)).
Proof.
  intros [Hf Hv Hc Ht Hch Hsrc Hname] r Hok. subst r. unfold CreateVolume. rewrite Hv, Hc. wp_bind.
  wp_ret c.
  wp_bind. rewrite Ht. apply wp_getAccessibilityRequirements.
  2: { intros e [?|[?|(t & Htt & Hn)]]; congruence. }
  intros topo' [= <-] _. cbn [then_]. unfold try.
  wp_bind. apply wp_createSource_ready; [done..|]. cbn [then_].
  wp_bind. apply wp_GetVolume.
  - intros o _ Ho. cbn [then_]. simpl.
    assert (om_DeletionTimestamp (cvc_Meta o) = None) as Hd.
    { destruct Hok as [(o' & Ho' & Hd)|[Hn _]]; [congruence|]. simpl in Hn. congruence. }
    rewrite bool_decide_eq_true_2 by done. simpl. split; [done|left]. split; [done|by exists o].
  - intros p e _ Hwhy. cbn [then_ bool_decide decide_rel andb].
    assert (cvcs s !! cvr_Name req = None) as Hnone by (destruct Hwhy as [?|[?|?]]; congruence).
    assert (can_provision (asked req s c topo) s) as Hcan.
    { destruct Hok as [(o' & Ho' & Hd)|?]; [congruence|done]. }
    wp_bind. apply (wp_ProvisionVolume (asked req s c topo)).
    + intros s' Hs'. cbn [then_]. wp_bind. apply wp_sendEvent.
      split; [done|right]. by exists s'.
    + intros e' s' _ [?|Hno]; [congruence|]. by destruct Hno.
    + intros m Hno. by destruct Hno.
Qed.

(** C24: CreateVolume succeeds: on a host that works, a valid request that gives a
    capacity range and a topology one of whose preferences a node satisfies is
    answered with its volume whenever its claim is already there and alive, or it
    can be provisioned; a clone needs, for both, that the snapshot's identifier
    names its volume and that the claim of that volume is there.  So, on these
    conditions, asking again for a volume that was created gives the same answer. *)
Theorem CreateVolume_total cs req c topo s :
  flaky h = false → validateVolumeCreateReq cs req = None →
  cvr_CapacityRange req = Some c → cvr_AccessibilityRequirements req = Some topo →
  chosen (Preferred topo) (nodes s) ≠ "" → source_ready (cvr_VolumeContentSource req) s →
  cvr_Name req ≠ "" →
  live (cvr_Name req) s ∨ can_provision (asked req s c topo) s →
  wps (CreateVolume cs req) s (λ o s',
    o = ORet (inl (response req (RequiredBytes c))) ∧ live (cvr_Name req) s').
Proof.
  intros Hf Hv Hc Ht Hch Hsrc Hname Hok.
  wp_mono; [|by apply (wp_CreateVolume_granted cs req c topo s)].
  intros o s' [-> [[-> Hl]|(s1 & (x & Hx & Hcr) & ->)]]; (split; [done|]); [done|].
  destruct Hx as (count & a & l & -> & _). destruct Hcr as [_ ->].
  eexists. split; [by unfold notify; case_match; apply lookup_insert_eq|done].
Qed.

(** ** DeleteVolume *)

(** The event of a removed volume; [o] is the claim as it was read. *)
Definition farewell (volumeID : string) (o : CStorVolumeConfig) (s : store) : store :=
  if truthy (environ h Env.OpenEBSEnableAnalytics) then
    add_event {| ae_CommonBuild := GetVolumeType "cstor-csi" VolumeDeprovision;
                 ae_VolumeName := volumeID;
                 ae_VolumeClaimName := smap_get (om_Annotations (cvc_Meta o)) Maya.OpenebsPVC;
                 ae_Action := GetReplicaCount (Str.Itoa (cvc_ReplicaCount o)) VolumeDeprovision;
                 ae_Category := VolumeDeprovision; ae_Capacity := getCapacity o |} s
  else s.

Lemma farewell_cvcs volumeID o s : cvcs (farewell volumeID o s) = cvcs s.
Proof. unfold farewell. by case_match. Qed.

(** The claim is gone, or waits for its finalizers. *)
Definition gone (volumeID : string) (s : store) : Prop := ¬ live volumeID s.

Lemma deleted_gone volumeID s s' : deleted volumeID s s' → gone volumeID s'.
Proof.
  intros (o & Ho & [->| ->]) (o' & Hl & Hd); simpl in Hl.
  - by rewrite lookup_delete_eq in Hl.
  - rewrite lookup_insert_eq in Hl. by injection Hl as <-.
Qed.

Lemma absent_gone volumeID s : cvcs s !! volumeID = None → gone volumeID s.
Proof. intros H (o & Ho & _). congruence. Qed.

(** Deleted, or there was nothing to delete. *)
Definition removed (volumeID : string) (s s' : store) : Prop :=
  deleted volumeID s s' ∨ s' = s ∧ cvcs s !! volumeID = None.

Lemma removed_gone volumeID s s' : removed volumeID s s' → gone volumeID s'.
Proof. intros [?|[-> ?]]; [by eapply deleted_gone|by apply absent_gone]. Qed.

(** What was read of a claim. *)
Definition read_as (volumeID : string) (s : store) (c : option CStorVolumeConfig) : Prop :=
  c = cvcs s !! volumeID ∨
  (c = None ∨ c = Some cvc_zero) ∧ (cvcs s !! volumeID = None ∨ flaky h = true).

(** What DeleteVolume may do. *)
Definition delete_post (cs : controller) (volumeID : string) (s : store)
    (o : outcome (res ())) (s' : store) : Prop :=
  match o with
  | ORet (inl _) =>
      gone volumeID s' ∧
      ((s' = s ∧ is_Some (cvcs s !! volumeID)) ∨
       ∃ c s1, read_as volumeID s (Some c) ∧ removed volumeID s s1 ∧ s' = farewell volumeID c s1)
  | ORet (inr _) =>
      s' = s ∧ (flaky h = true ∨ is_Some (validateDeleteVolumeReq cs volumeID)) ∨
      flaky h = true ∧ deleted volumeID s s'
  | OPanic _ => removed volumeID s s' ∧ read_as volumeID s None
  | OExit _ => False
  end.

(** The tail of DeleteVolume: the claim [c] as it was read. *)
Lemma wp_deleteTail cs volumeID c s :
  volumeID ≠ "" → read_as volumeID s c →
  wps (e ← Maya.DeleteVolume volumeID;
       match (match e with Some e => if IsNotFound e then None else Some e | None => None end) with
       | Some e => fail (Wrapf e "failed to handle delete volume request for {%s}" [AStr volumeID])
       | None =>
           cvc ← deref c;
           _ ← sendEventOrIgnore (smap_get (om_Annotations (cvc_Meta cvc)) Maya.OpenebsPVC)
                 volumeID (getCapacity cvc) (Str.Itoa (cvc_ReplicaCount cvc)) "cstor-csi"
                 VolumeDeprovision;
           ok (Payload.DeleteBuild Payload.NewDeleteVolumeResponseBuilder)
       end) s (delete_post cs volumeID s).
Proof.
  intros Hn Hc. wp_bind. set (Q1 := then_ _ _ _).
  assert (∀ e s1, removed volumeID s s1 → match e with Some e => IsNotFound e = true | None => True end →
    Q1 (ORet e) s1) as Htail.
  { intros e s1 H1 He. unfold Q1. cbn [then_].
    replace (match e with Some _ => _ | None => None end) with (None (A := error))
      by (destruct e; [by rewrite He|done]).
    destruct c as [c|]; [|by split].
    wp_bind. wp_ret c.
    wp_bind. apply wp_sendEvent. split; [|right; by exists c, s1].
    fold (farewell volumeID c s1). unfold gone, live. rewrite farewell_cvcs. by eapply removed_gone. }
  apply wp_DeleteVolume; [done|..].
  - intros s' Hd. apply Htail; [by left|done].
  - intros e He Hno. by apply Htail; [right|].
  - intros e s' Hf He Hs. unfold Q1. cbn [then_]. rewrite He. destruct Hs as [->|?]; [left|right]; auto.
Qed.

Lemma wp_DeleteVolume_handler cs volumeID s :
  wps (DeleteVolume cs volumeID) s (delete_post cs volumeID s).
Proof.
  unfold DeleteVolume. destruct (validateDeleteVolumeReq cs volumeID) as [e|] eqn:Hv.
  { left. rewrite Hv. eauto. }
  assert (volumeID ≠ "") as Hn by (intros ->; discriminate Hv).
  wp_bind. apply wp_GetVolume.
  - intros o _ Ho. cbn [then_]. case_bool_decide as Hd.
    + split; [|left; by split; [|eexists]]. intros (o' & Ho' & Hd'). rewrite Ho in Ho'.
      injection Ho' as <-. by rewrite Hd' in Hd; destruct Hd.
    + apply (wp_deleteTail cs volumeID (Some o)); [done|by left].
  - intros p e Hp Hw. cbn [then_].
    replace (match p with Some _ => _ | None => false end) with false
      by (destruct Hp as [->| ->]; [done|by case_bool_decide as Hx; [destruct Hx|]]).
    apply wp_deleteTail; [done|]. right. split; [done|]. by destruct Hw as [?|[?|?]]; auto.
Qed.

(** C3: DeleteVolume against the API server: it answers success exactly after
    the claim of that name, and no other, was deleted in the foreground (gone, or
    marked until its finalizers are done) or when it was marked already or not
    there; a deprovisioning event with the claim's own data is sent if enabled;
    an error leaves everything as it was unless the host lost the answer of
    that very deletion; the only panic comes after the deletion, when the
    earlier read had returned no object. *)
Theorem DeleteVolume_refines cs volumeID s :
  wps (DeleteVolume cs volumeID) s (delete_post cs volumeID s).
Proof.
  apply wp_DeleteVolume_handler.
Qed.

(** On a host that works, once DeleteVolume has answered, with success or
    an error, the volume's claim is not alive any more and every other claim is
    what it was; and if there was a claim, the answer is success. *)
Theorem DeleteVolume_effective cs volumeID s :
  flaky h = false → validateDeleteVolumeReq cs volumeID = None →
  wps (DeleteVolume cs volumeID) s (λ o s',
    gone volumeID s' ∧ delete volumeID (cvcs s') = delete volumeID (cvcs s) ∧
    (is_Some (cvcs s !! volumeID) → o = ORet (inl tt))).
Proof.
  intros Hf Hv. wp_mono; [|apply wp_DeleteVolume_handler].
  intros o s'.
  assert (∀ s1, removed volumeID s s1 →
    gone volumeID s1 ∧ delete volumeID (cvcs s1) = delete volumeID (cvcs s)) as Hrem.
  { intros s1 [Hd|[-> Hno]]; [|by split; [apply absent_gone|]].
    split; [by eapply deleted_gone|]. destruct Hd as (c & _ & [->| ->]); simpl.
    - by rewrite delete_delete_eq.
    - by rewrite delete_insert_eq. }
  destruct o as [[[]|e]|m|c]; simpl.
  - intros [Hg [[-> _]|(c & s1 & _ & Hr & ->)]]; [done|].
    rewrite farewell_cvcs. by destruct (Hrem s1 Hr).
  - rewrite Hv, Hf. by intros [[_ [?|[? ?]]]|[? _]].
  - intros [Hr Hread]. destruct (Hrem s' Hr). split_and!; [done..|].
    intros [c Hc]. destruct Hread as [?|[_ [?|?]]]; congruence.
  - done.
Qed.

End spec.

(** ** Examples *)

Section examples.
Import Concrete.

#[local] Instance G1 : Globals := {| OpenEBSNamespace := "openebs"; NodeIDENV := "n1" |}.
Definition h1 : Host := MkHost false (λ _, None).
Definition node1 : Node :=
  node_set_Meta (MkObjectMeta "n1" "" "" "" None (Some {["zone" := "a"]}) None [] None) node_zero.
Definition s1 : store := MkStore ∅ [node_zero; node1] ∅ [].
Definition topo1 : TopologyRequirement :=
  {| Requisite := []; Preferred := [{| Segments := {["zone" := "a"]} |}] |}.
Definition range1 : CapacityRange := {| RequiredBytes := 5; LimitBytes := 0 |}.
Definition req1 : CreateVolumeRequest := {|
  cvr_Name := "pvc-1"; cvr_CapacityRange := Some range1;
  cvr_VolumeCapabilities := Some [{| vc_AccessType := ATBlock; vc_AccessMode := Some SINGLE_NODE_WRITER |}];
  cvr_Parameters := list_to_map [("cstorPoolCluster", "cspc"); ("replicaCount", "3"); ("cas-type", "cstor")];
  cvr_VolumeContentSource := None; cvr_AccessibilityRequirements := Some topo1 |}.

Lemma node_for_volume_witness :
  candidates (Preferred topo1) (nodes s1) = [node1] ∧
  wp (mspec (apiserver h1)) (getAccessibilityRequirements (Some topo1)) s1
    (λ o s', s' = s1 ∧ o = ORet ("n1", None)).
Proof. split; [reflexivity|]. exact (node_for_volume h1 (Some topo1) s1 eq_refl). Defined.

Lemma req1_can_provision :
  can_provision (asked req1 s1 range1 topo1) s1.
Proof.
  unfold asked. replace (chosen (Preferred topo1) (nodes s1)) with "n1" by reflexivity.
  by split_and!.
Qed.

Lemma CreateVolume_total_witness :
  wp (mspec (apiserver h1)) (CreateVolume NewController req1) s1 (λ o s',
    o = ORet (inl (response req1 (RequiredBytes range1))) ∧ live (cvr_Name req1) s').
Proof.
  apply (CreateVolume_total h1 NewController req1 range1 topo1 s1);
    [reflexivity|vm_compute; reflexivity|reflexivity|reflexivity|vm_compute; discriminate|done|discriminate|].
  right. exact req1_can_provision.
Defined.

Lemma DeleteVolume_effective_witness :
  wp (mspec (apiserver h1)) (DeleteVolume NewController "pvc-1")
    (set_cvcs (λ _, {["pvc-1" := cvc_zero]}) s1) (λ o s',
    gone "pvc-1" s' ∧ delete "pvc-1" (cvcs s') = delete "pvc-1" {["pvc-1" := cvc_zero]} ∧
    (is_Some (({["pvc-1" := cvc_zero]} : gmap string CStorVolumeConfig) !! "pvc-1") →
       o = ORet (inl tt))).
Proof.
  exact (DeleteVolume_effective h1 NewController "pvc-1" (set_cvcs (λ _, {["pvc-1" := cvc_zero]}) s1)
    eq_refl eq_refl).
Defined.

End examples.
End ControllerSpec.
