(* ===== verification/ExpandSpec.v ===== *)
(** * Growing a volume

    The controller's half of an expansion: [Maya.ResizeVolume] against a
    control plane that holds one claim, serialises objects and computes merge
    patches.  A patch is allowed only where the claim it was computed from
    may grow. *)

From S2P Require Export Store.
Local Open Scope go_scope.

Module ExpandSpec.
Import Maya.

(** The JSON codec of the claims and the merge-patch computation. *)
Record codec {L : ApiLib} := Codec {
  encode : CStorVolumeConfig → string;
  diff : string → string → string
}.

Section spec.
Context {L : ApiLib} {G : Globals} (J : codec) (h : Host).

(** The size asked for, rounded up to whole GiB, as a quantity. *)
Definition desired (size : Z) : quantity * option error :=
  ParseQuantity (fmtGi (Rounding.RoundUpGiB size)).

Definition asked (c : CStorVolumeConfig) : quantity := rl_get (cvc_Capacity c) ResourceStorage.
Definition actual (c : CStorVolumeConfig) : quantity := rl_get (cvc_StatusCapacity c) ResourceStorage.

(** A claim may be given the size [q]: it does not shrink, no earlier growth
    is under way, and there is something to do. *)
Definition growable (c : CStorVolumeConfig) (q : quantity) : Prop :=
  (0 ≤ QtyCmp q (asked c))%Z ∧
  (cvc_Phase c = CVCPhasePending ∨ (QtyCmp (asked c) (actual c) ≤ 0)%Z ∧ QtyCmp q (actual c) ≠ 0%Z).

Definition resized (c : CStorVolumeConfig) (q : quantity) : CStorVolumeConfig :=
  cvc_set_Capacity (Some {[ResourceStorage := q]}) c.

(** The merge patch from a claim to the claim with the new size. *)
Definition patch_to (c : CStorVolumeConfig) (q : quantity) : string :=
  diff J (encode J c) (encode J (resized c q)).

(** The claim on the server and the patch applied to it. *)
Record plane := Plane { stored : option CStorVolumeConfig; patched : option string }.

Definition permits (name : string) (q : quantity) (s : plane) (a : action) : Prop :=
  match a with
  | CvcGet _ ns n => ns = OpenEBSNamespace ∧ n = name
  | CvcPatch _ ns n p sub => ∃ c, stored s = Some c ∧ patched s = None ∧ growable c q ∧
      ns = om_Namespace (cvc_Meta c) ∧ n = om_Name (cvc_Meta c) ∧ p = patch_to c q ∧ sub = []
  | a => kind_of a = KConfig ∨ kind_of a = KClock ∨ kind_of a = KPatch
  end.

Definition reacts (s : plane) (a : action) : result a → plane → Prop :=
  match a with
  | CvcGet _ _ _ => λ r s', s' = s ∧
      match patched s with
      | None => Store.got h cvc_zero (stored s) r
      | Some _ => r.2 = None → is_Some r.1   (* the control plane is at work on it *)
      end
  | CvcPatch _ _ _ p _ => λ r s',
      match r.2 with
      | None => s' = Plane (stored s) (Some p)
      | Some _ => flaky h = true ∧ (s' = s ∨ s' = Plane (stored s) (Some p))
      end
  | JsonMarshalCvc o => λ r s', s' = s ∧ match r with inl x => x = encode J o | inr _ => flaky h = true end
  | TwoWayMergePatch x y => λ r s', s' = s ∧ match r with inl p => p = diff J x y | inr _ => flaky h = true end
  | _ => λ _ s', s' = s
  end.

Definition grower (name : string) (q : quantity) : machine plane := {|
  guard := permits name q;
  next := λ s a r s', sane h a r ∧ reacts s a r s'
|}.

Global Instance grower_config name q : ConfigFree h (mspec (grower name q)).
Proof.
  intros a s Q Ha HQ. split.
  - destruct a; first [discriminate Ha | by left].
  - intros r s' [Hr Hs]. destruct a; first [discriminate Ha | (simpl in Hs; subst; by apply HQ)].
Qed.

Section rules.
Context (name : string) (q : quantity).
Abbreviation wps := (wp (mspec (grower name q))).

Lemma wp_read ns n s Q :
  ns = OpenEBSNamespace → n = name → patched s = None →
  (∀ c, stored s = Some c → n ≠ "" → Q (ORet (Some c, None)) s) →
  (∀ p e, flaky h = true ∨ stored s = None ∨ n = "" → Q (ORet (p, Some e)) s) →
  wps ('(_, r) ← Cvc.Get (Cvc.client ns) n; mret r) s Q.
Proof.
  intros Hns Hn0 Hp H1 H2. wp_bind. apply (Cvc.wp_cvcGet h (mspec (grower name q))); simpl.
  - intros -> k e. apply H2. auto.
  - intros k e [Hf _]. apply H2. auto.
  - intros Hn c. split; [done|]. intros [p [e|]] s' (_ & -> & Hg) k;
      rewrite Hp in Hg; unfold Store.got in Hg; simpl in *.
    + destruct Hg as [_ Hg]. apply H2. destruct (IsNotFound e); auto.
    + destruct Hg as [-> [o Ho]]. rewrite Ho. by apply H1.
Qed.

(** Reading the claim again once it was patched tells nothing for certain. *)
Lemma wp_reread ns n s p Q :
  ns = OpenEBSNamespace → n = name → patched s = Some p →
  (∀ c, Q (ORet (Some c, None)) s) → (∀ o e, Q (ORet (o, Some e)) s) →
  wps ('(_, r) ← Cvc.Get (Cvc.client ns) n; mret r) s Q.
Proof.
  intros Hns Hn0 Hp H1 H2. wp_bind. apply (Cvc.wp_cvcGet h (mspec (grower name q))); simpl; auto.
  intros _ c. split; [done|]. intros [o [e|]] s' (_ & -> & Hg) k; [by apply H2|].
  rewrite Hp in Hg. destruct (Hg eq_refl) as [c' Hc]. simpl in Hc. subst. apply H1.
Qed.

Lemma wp_updateCVCSize c s Q :
  stored s = Some c → patched s = None → growable c q →
  Q (ORet None) (Plane (Some c) (Some (patch_to c q))) →
  (∀ e s', flaky h = true → s' = s ∨ s' = Plane (Some c) (Some (patch_to c q)) →
    Q (ORet (Some e)) s') →
  wps (updateCVCSize c q) s Q.
Proof.
  intros Hs Hp Hg H1 H2. unfold updateCVCSize. simpl Cvc.Build. cbn beta iota.
  fold (resized c q). wp_bind. unfold Cvc.Patch. wp_bind.
  apply (Cvc.wp_cvcgetClientOrCached h (mspec (grower name q))).
  2: { intros e [Hf _]. simpl. by apply H2; auto. }
  intros cli. simpl. split; [simpl; auto|]. intros [x|e] s1 (_ & -> & Hx); simpl; [|by apply H2; auto].
  subst x. split; [simpl; auto|]. intros [y|e] s2 (_ & -> & Hy); simpl; [|by apply H2; auto].
  subst y. split; [simpl; auto|]. intros [p|e] s3 (_ & -> & Hd); simpl; [|by apply H2; auto].
  subst p. split.
  { exists c. by split_and!. }
  intros [o [e|]] s4 (_ & Hr); simpl in *; rewrite Hs in Hr; [|by subst].
  destruct Hr as [Hf Hr]. by apply H2.
Qed.

(** What a call leaves behind: the claim as it was, or the one patch. *)
Definition resize_post (s : plane) (o : outcome err) (s' : plane) : Prop :=
  match o with
  | ORet None => ∃ c, stored s = Some c ∧ (0 ≤ QtyCmp q (asked c))%Z ∧
      (s' = s ∧ QtyCmp q (actual c) = 0%Z ∨
       growable c q ∧ s' = Plane (Some c) (Some (patch_to c q)))
  | ORet (Some _) => s' = s ∨
      ∃ c, stored s = Some c ∧ growable c q ∧ s' = Plane (Some c) (Some (patch_to c q))
  | OPanic _ | OExit _ => False
  end.

Lemma wp_handleResize c s :
  stored s = Some c → om_Name (cvc_Meta c) = name → patched s = None → growable c q →
  wps (handleResize c q) s (resize_post s).
Proof.
  intros Hs Hn Hp Hg. unfold handleResize. wp_bind. apply wp_updateCVCSize; [done..| |].
  - cbn [then_].
    assert (resize_post s (ORet None) (Plane (Some c) (Some (patch_to c q)))) as Hok.
    { exists c. pose proof Hg as [? _]. auto. }
    assert (resize_post s (ORet (Some (Errorf "" []))) (Plane (Some c) (Some (patch_to c q)))) as Herr.
    { right. by exists c. }
    case_bool_decide; [exact Hok|]. unfold waitAndReverifyResizeStatus. wp_bind.
    split; [simpl; auto|]. intros [] s1 [_ ->]. cbn [then_]. wp_bind.
    eapply wp_reread; [done..| |].
    + intros c'. simpl. case_bool_decide; simpl; [exact Hok|exact Herr].
    + intros o e. exact Herr.
  - intros e s' _ Hs'. cbn [then_]. destruct Hs' as [->| ->]; [by left|right]. by exists c.
Qed.

Lemma wp_ResizeVolume size s :
  desired size = (q, None) → patched s = None →
  (∀ c, stored s = Some c → om_Name (cvc_Meta c) = name) →
  wps (ResizeVolume name size) s (resize_post s).
Proof.
  intros Hq Hp Hn. unfold ResizeVolume. cbv zeta. fold (desired size).
  wp_bind. unfold MustParse. fold (desired size). rewrite Hq. cbn [then_].
  wp_bind. apply wp_read; [done..| |].
  - intros c Hs _. cbn [then_]. wp_bind.
    wp_ret c.
    fold (asked c) (actual c). case_bool_decide as H1; [by left|].
    case_bool_decide as H2; [apply wp_handleResize; auto; split; [lia|auto]|].
    case_bool_decide as H3; [by left|].
    case_bool_decide as H4; [exists c; split_and!; [done|lia|auto]|].
    apply wp_handleResize; auto. split; [lia|]. right. split; [lia|done].
  - intros p e _. by left.
Qed.

(** Nothing to wait for: the claim is not published on a node. *)
Lemma wp_ResizeVolume_total size c s :
  flaky h = false → desired size = (q, None) → stored s = Some c → patched s = None →
  name ≠ "" → growable c q → cvc_NodeID c = "" →
  wps (ResizeVolume name size) s (λ o s', o = ORet None ∧ s' = Plane (Some c) (Some (patch_to c q))).
Proof.
  intros Hf Hq Hs Hp Hn Hg Hnode. unfold ResizeVolume. cbv zeta. fold (desired size).
  wp_bind. unfold MustParse. fold (desired size). rewrite Hq. cbn [then_].
  wp_bind. apply wp_read; [done..| |].
  2: { intros p e [?|[?|?]]; congruence. }
  intros c' Hc' _. rewrite Hs in Hc'. injection Hc' as <-. cbn [then_]. wp_bind.
  wp_ret c.
  fold (asked c) (actual c).
  assert (wps (handleResize c q) s
    (λ o s', o = ORet None ∧ s' = Plane (Some c) (Some (patch_to c q)))) as Hr.
  { unfold handleResize. wp_bind. apply wp_updateCVCSize; [done..| |congruence].
    cbn [then_]. rewrite Hnode. by split. }
  pose proof Hg as [Hge Hwhy].
  case_bool_decide as H1; [lia|]. case_bool_decide as H2; [exact Hr|].
  destruct Hwhy as [?|[Hle Hne]]; [done|].
  case_bool_decide as H3; [lia|]. case_bool_decide as H4; [done|exact Hr].
Qed.

End rules.

(** The claims of the driver's namespace are stored under their names. *)
Definition named (name : string) (s : plane) : Prop :=
  patched s = None ∧ ∀ c, stored s = Some c → om_Name (cvc_Meta c) = name.

(** C4: ControllerExpandVolume never shrinks a volume and changes nothing but its
    size: the only write is one merge patch, from the claim as it was read to the
    same claim with the requested size (rounded up to whole GiB), and only when
    that size is not below the claim's and no earlier growth is under way; success
    with the requested bytes means the patch was applied or the volume has that
    size; the only panic is a size that cannot be written as a quantity. *)
Theorem expand_never_shrinks cs name cap s :
  named name s →
  let size := GetRequiredBytes cap in
  let q := (desired size).1 in
  wp (mspec (grower name q)) (Controller.ControllerExpandVolume cs name cap) s (λ o s',
    match o with
    | ORet (inl r) => r = {| cer_CapacityBytes := size; cer_NodeExpansionRequired := true |} ∧
                      resize_post q s (ORet None) s'
    | ORet (inr e) => resize_post q s (ORet (Some e)) s'
    | OPanic _ => s' = s ∧ is_Some (desired size).2
    | OExit _ => False
    end).
Proof.
  intros [Hp Hn]. cbv zeta. unfold Controller.ControllerExpandVolume. cbv zeta.
  generalize (GetRequiredBytes cap). intros size.
  destruct (desired size) as [q [e|]] eqn:Hq; wp_bind.
  - unfold ResizeVolume. cbv zeta. fold (desired size). wp_bind. unfold MustParse. fold (desired size).
    rewrite Hq. by split.
  - wp_mono; [|by apply wp_ResizeVolume].
    intros [[e|]|m|m] s' Hpost; done.
Qed.

(** C25: on a host that works, growing a volume that is not published on a node
    and has no growth under way succeeds, and the claim is patched to exactly the
    requested size rounded up. *)
Theorem expand_total cs name cap c s :
  flaky h = false → (desired (GetRequiredBytes cap)).2 = None → name ≠ "" →
  stored s = Some c → patched s = None → cvc_NodeID c = "" →
  growable c (desired (GetRequiredBytes cap)).1 →
  wp (mspec (grower name (desired (GetRequiredBytes cap)).1))
    (Controller.ControllerExpandVolume cs name cap) s (λ o s',
      o = ORet (inl {| cer_CapacityBytes := GetRequiredBytes cap; cer_NodeExpansionRequired := true |}) ∧
      s' = Plane (Some c) (Some (patch_to c (desired (GetRequiredBytes cap)).1))).
Proof.
  intros Hf Hq Hn Hs Hp Hnode Hg. unfold Controller.ControllerExpandVolume. cbv zeta.
  revert Hq Hg. generalize (GetRequiredBytes cap). intros size Hq Hg. wp_bind.
  wp_mono; [|apply (wp_ResizeVolume_total name (desired size).1 size c s); try done].
  - by intros o s' [-> ->].
  - by destruct (desired size); simpl in *; subst.
Qed.

End spec.

(** ** Examples *)

Section examples.
Import Concrete.

#[local] Instance G1 : Globals := {| OpenEBSNamespace := "openebs"; NodeIDENV := "n1" |}.
Definition h1 : Host := MkHost false (λ _, None).
Definition J1 : codec := Codec _ (λ c, Str.Itoa (asked c)) (λ a b, a +:+ ">" +:+ b).
Definition cap1 : option CapacityRange := Some {| RequiredBytes := 3000000000; LimitBytes := 0 |}.
Definition gi (n : Z) : Z := (n * 1024 * 1024 * 1024)%Z.
Definition claim1 : CStorVolumeConfig :=
  MkCStorVolumeConfig (om_set_Name "pvc-1" om_zero) (Some {["storage" := gi 1]}) "" None 3 "" "Bound"
    (Some {["storage" := gi 1]}) [] "" "" false.
Definition plane1 : plane := Plane (Some claim1) None.

Lemma expand_never_shrinks_witness :
  wp (mspec (grower J1 h1 "pvc-1" (desired (GetRequiredBytes cap1)).1))
    (Controller.ControllerExpandVolume Controller.NewController "pvc-1" cap1) plane1 (λ o s',
    match o with
    | ORet (inl r) => r = {| cer_CapacityBytes := GetRequiredBytes cap1; cer_NodeExpansionRequired := true |} ∧
                      resize_post J1 (desired (GetRequiredBytes cap1)).1 plane1 (ORet None) s'
    | ORet (inr e) => resize_post J1 (desired (GetRequiredBytes cap1)).1 plane1 (ORet (Some e)) s'
    | OPanic _ => s' = plane1 ∧ is_Some (desired (GetRequiredBytes cap1)).2
    | OExit _ => False
    end).
Proof.
  apply (expand_never_shrinks J1 h1 Controller.NewController "pvc-1" cap1 plane1).
  split; [reflexivity|]. intros c [= <-]. reflexivity.
Defined.

Lemma expand_total_witness :
  (desired (GetRequiredBytes cap1)).1 = gi 3 ∧
  wp (mspec (grower J1 h1 "pvc-1" (desired (GetRequiredBytes cap1)).1))
    (Controller.ControllerExpandVolume Controller.NewController "pvc-1" cap1) plane1 (λ o s',
      o = ORet (inl {| cer_CapacityBytes := GetRequiredBytes cap1; cer_NodeExpansionRequired := true |}) ∧
      s' = Plane (Some claim1) (Some (patch_to J1 claim1 (desired (GetRequiredBytes cap1)).1))).
Proof.
  split; [reflexivity|].
  apply (expand_total J1 h1 Controller.NewController "pvc-1" cap1 claim1 plane1);
    try reflexivity; try discriminate.
  split; [vm_compute; discriminate|]. right. split; vm_compute; discriminate.
Defined.

End examples.
End ExpandSpec.
