(* ===== verification/SnapshotSpec.v ===== *)
(** * Snapshots

    Taking and deleting a snapshot against the cStor target: a set of
    snapshots per volume behind the gRPC commands of
    src/pkg/cstor/snapshot/client.go.  The target answers a command with a
    status text; a text that contains "ERR" means the command was refused. *)

From S2P Require Export Store.
Local Open Scope go_scope.

Module SnapshotSpec.
Section spec.
Context {L : ApiLib} {G : Globals} (h : Host).

(** The cStor volumes of the driver's namespace, and the snapshots taken. *)
Record target := Target { volumes : gmap string CStorVolume; snaps : gset (string * string) }.

Definition refused (status : option string) : bool :=
  match status with Some st => Str.Contains (CommandStatusResponse st) "ERR" | None => false end.

(** A command goes to the port of the volume's own target, in the version of
    the protocol the driver speaks. *)
Definition addressed (s : target) (addr : string) (version : Z) (volume : string) : Prop :=
  ∃ v, volumes s !! volume = Some v ∧ addr = cv_TargetIP v +:+ ":7777" ∧ version = 1%Z.

Definition permits (s : target) (a : action) : Prop :=
  match a with
  | CvGet _ ns _ => ns = OpenEBSNamespace
  | SnapDial addr => ∃ volume v, volumes s !! volume = Some v ∧ addr = cv_TargetIP v +:+ ":7777"
  | SnapCreate addr version volume _ | SnapDelete addr version volume _ =>
      addressed s addr version volume
  | a => kind_of a = KConfig ∨ kind_of a = KClock
  end.

(** The effect of a command: done, refused, or lost on the way. *)
Definition commanded (f : gset (string * string) → gset (string * string)) (s : target)
    (r : option string * err) (s' : target) : Prop :=
  let done := Target (volumes s) (f (snaps s)) in
  match r.2 with
  | None => is_Some r.1 ∧ s' = if refused r.1 then s else done
  | Some _ => flaky h = true ∧ (s' = s ∨ s' = done)
  end.

Definition reacts (s : target) (a : action) : result a → target → Prop :=
  match a with
  | CvGet _ _ name => λ r s', s' = s ∧ Store.got h cv_zero (volumes s !! name) r
  | SnapCreate _ _ volume snap => commanded (λ l, {[(volume, snap)]} ∪ l) s
  | SnapDelete _ _ volume snap => commanded (λ l, l ∖ {[(volume, snap)]}) s
  | _ => λ _ s', s' = s
  end.

Definition cstor : machine target := {|
  guard := permits;
  next := λ s a r s', sane h a r ∧ reacts s a r s'
|}.

Global Instance cstor_config : ConfigFree h (mspec cstor).
Proof.
  intros a s Q Ha HQ. split.
  - destruct a; first [discriminate Ha | by left].
  - intros r s' [Hr Hs]. destruct a; first [discriminate Ha | (simpl in Hs; subst; by apply HQ)].
Qed.

Abbreviation wps := (wp (mspec cstor)).

Lemma wp_GetVolumeIP volume s Q :
  (∀ v, volumes s !! volume = Some v → Q (ORet (cv_TargetIP v, None)) s) →
  (∀ e, Q (ORet ("", Some e)) s) →
  wps (Attach.GetVolumeIP volume) s Q.
Proof.
  intros H1 H2. unfold Attach.GetVolumeIP. wp_bind. apply (Cv.wp_cvGet h (mspec cstor)); simpl.
  - intros _ k e. apply H2.
  - intros _ k e. apply H2.
  - intros _ c. split; [done|]. intros [p [e|]] s' (_ & -> & Hg) k; [apply H2|].
    destruct Hg as [Hp [v Hv]]. simpl in Hp. subst p. rewrite Hv. by apply H1.
Qed.

(** What a command leaves: done, or an error and nothing done unless the host
    lost the answer. *)
Definition effect (f : gset (string * string) → gset (string * string)) (s : target)
    (e : err) (s' : target) : Prop :=
  match e with
  | None => s' = Target (volumes s) (f (snaps s))
  | Some _ => s' = s ∨ flaky h = true ∧ s' = Target (volumes s) (f (snaps s))
  end.

Lemma wp_utils_CreateSnapshot volume snap s Q :
  (∀ e s', effect (λ l, {[(volume, snap)]} ∪ l) s e s' → Q (ORet e) s') →
  wps (Attach.CreateSnapshot volume snap) s Q.
Proof.
  intros HQ. unfold Attach.CreateSnapshot. wp_bind.
  apply wp_GetVolumeIP; simpl; [|by intros e; apply HQ; left].
  intros v Hv. split; [by exists volume, v|]. intros [e|] s1 (_ & ->); simpl; [by apply HQ; left|].
  split; [by exists v|]. intros [r [e|]] s2 (_ & Hr); simpl in *; unfold commanded in Hr; simpl in Hr.
  - apply HQ. destruct Hr as [Hf [->| ->]]; [by left|by right].
  - destruct r as [st|]; [|by destruct Hr as [[? ?] _]]. destruct Hr as [_ ->].
    cbn [refused]. case_match; simpl; apply HQ; [by left|done].
Qed.

Lemma wp_utils_DeleteSnapshot volume snap s Q :
  (∀ e s', effect (λ l, l ∖ {[(volume, snap)]}) s e s' → Q (ORet e) s') →
  wps (Attach.DeleteSnapshot volume snap) s Q.
Proof.
  intros HQ. unfold Attach.DeleteSnapshot. wp_bind.
  apply wp_GetVolumeIP; simpl; [|by intros e; apply HQ; left].
  intros v Hv. split; [by exists volume, v|]. intros [e|] s1 (_ & ->); simpl; [by apply HQ; left|].
  split; [by exists v|]. intros [r [e|]] s2 (_ & Hr); simpl in *; unfold commanded in Hr; simpl in Hr.
  - apply HQ. destruct Hr as [Hf [->| ->]]; [by left|by right].
  - destruct r as [st|]; [|by destruct Hr as [[? ?] _]]. destruct Hr as [_ ->].
    cbn [refused]. case_match; simpl; apply HQ; [by left|done].
Qed.

Lemma wp_CreateSnapshot cs volume snap s Q :
  (∀ t s', effect (λ l, {[(volume, snap)]} ∪ l) s None s' →
     Q (ORet (inl {| SizeBytes := 0; SnapshotId := volume +:+ "@" +:+ snap; SourceVolumeId := volume;
                     CreationTime := Some (t, 0%Z); ReadyToUse := true |})) s') →
  (∀ e e' s', effect (λ l, {[(volume, snap)]} ∪ l) s (Some e) s' → Q (ORet (inr e')) s') →
  wps (Controller.CreateSnapshot cs volume snap) s Q.
Proof.
  intros H1 H2. unfold Controller.CreateSnapshot. wp_bind. split; [simpl; auto|].
  intros t s1 (_ & ->). cbn [then_]. wp_bind. apply wp_utils_CreateSnapshot.
  intros [e|] s' He; cbn [then_]; [by eapply H2|]. by apply (H1 t).
Qed.

(** C14: CreateSnapshot answers with a snapshot only when the target of that
    very volume took it: the target's status did not contain "ERR", the set of
    snapshots grew by exactly this one, and the ID is the volume and the name
    joined by "@"; on an error nothing was taken, unless the host lost the
    answer; it never panics and nothing is sent to another volume's target. *)
Theorem CreateSnapshot_refines cs volume snap s :
  wps (Controller.CreateSnapshot cs volume snap) s (λ o s',
    match o with
    | ORet (inl r) => ∃ t, r = {| SizeBytes := 0; SnapshotId := volume +:+ "@" +:+ snap;
                                  SourceVolumeId := volume; CreationTime := Some (t, 0%Z);
                                  ReadyToUse := true |} ∧
        s' = Target (volumes s) ({[(volume, snap)]} ∪ snaps s)
    | ORet (inr _) => s' = s ∨ flaky h = true ∧ s' = Target (volumes s) ({[(volume, snap)]} ∪ snaps s)
    | _ => False
    end).
Proof. apply wp_CreateSnapshot; [by eauto|]. by intros e e' s' He. Qed.

Lemma wp_DeleteSnapshot cs volume snap s Q :
  Str.Contains volume "@" = false → Str.Contains snap "@" = false →
  (∀ s', effect (λ l, l ∖ {[(volume, snap)]}) s None s' → Q (ORet (inl tt)) s') →
  (∀ e e' s', effect (λ l, l ∖ {[(volume, snap)]}) s (Some e) s' → Q (ORet (inr e')) s') →
  wps (Controller.DeleteSnapshot cs (volume +:+ "@" +:+ snap)) s Q.
Proof.
  intros Hv Hs H1 H2. unfold Controller.DeleteSnapshot.
  change ("@" +:+ snap) with (String (Ascii.ascii_of_nat 64) snap).
  rewrite Str.Split_app_sep, Str.Split_fresh by done. wp_bind.
  apply wp_utils_DeleteSnapshot. intros [e|] s' He; cbn [then_]; [by eapply H2|by apply H1].
Qed.

(** C15: the snapshot ID handed out finds the snapshot again: deleting what was
    just created, by the ID of the response, removes exactly that snapshot, so a
    volume that did not have it is back to where it was; provided neither name
    contains an "@". *)
Theorem snapshot_roundtrip cs volume snap s :
  Str.Contains volume "@" = false → Str.Contains snap "@" = false → (volume, snap) ∉ snaps s →
  wps (try (Controller.CreateSnapshot cs volume snap) (λ r,
       try (Controller.DeleteSnapshot cs (SnapshotId r)) (λ _, ok r))) s (λ o s',
    match o with
    | ORet (inl _) => s' = s
    | ORet (inr _) => s' = s ∨ s' = Target (volumes s) ({[(volume, snap)]} ∪ snaps s)
    | _ => False
    end).
Proof.
  intros Hv Hs Hfresh.
  assert (({[(volume, snap)]} ∪ snaps s) ∖ {[(volume, snap)]} = snaps s) as Hback by set_solver.
  unfold try at 1. wp_bind. apply wp_CreateSnapshot.
  - intros t s1 ->. cbn [then_]. unfold try. wp_bind. cbn [SnapshotId].
    apply wp_DeleteSnapshot; [done..| |]; simpl; rewrite Hback; destruct s.
    + by intros s2 ->.
    + intros e e' s2 [->|[_ ->]]; auto.
  - intros e e' s1 [->|[_ ->]]; [left|right]; done.
Qed.

(** A snapshot ID that does not have exactly two parts around "@" is
    refused before anything is contacted. *)
Theorem bad_snapshot_id_refused cs id s :
  (∀ volume snap, Str.Split id (Ascii.ascii_of_nat 64) ≠ [volume; snap]) →
  wps (Controller.DeleteSnapshot cs id) s (λ o s', (∃ e, o = ORet (inr e)) ∧ s' = s).
Proof.
  intros Hid. unfold Controller.DeleteSnapshot.
  destruct (Str.Split id _) as [|v [|n [|x l]]]; try (by split; [eexists|]).
  by destruct (Hid v n).
Qed.

End spec.

(** ** Examples *)

Section examples.
Import Concrete.

#[local] Instance G1 : Globals := {| OpenEBSNamespace := "openebs"; NodeIDENV := "n1" |}.
Definition h1 : Host := MkHost true (λ _, None).
Definition s1 : target := Target {["vol" := cv_zero]} ∅.

Lemma snapshot_roundtrip_witness :
  wp (mspec (cstor h1)) (try (Controller.CreateSnapshot Controller.NewController "vol" "snap") (λ r,
       try (Controller.DeleteSnapshot Controller.NewController (SnapshotId r)) (λ _, ok r))) s1
   (λ o s',
    match o with
    | ORet (inl _) => s' = s1
    | ORet (inr _) => s' = s1 ∨ s' = Target (volumes s1) ({[("vol", "snap")]} ∪ snaps s1)
    | _ => False
    end).
Proof.
  exact (snapshot_roundtrip h1 Controller.NewController "vol" "snap" s1 eq_refl eq_refl
           (not_elem_of_empty _)).
Defined.

Lemma bad_snapshot_id_refused_witness :
  wp (mspec (cstor h1)) (Controller.DeleteSnapshot Controller.NewController "vol@snap@x") s1
    (λ o s', (∃ e, o = ORet (inr e)) ∧ s' = s1).
Proof. apply (bad_snapshot_id_refused h1). intros v n. discriminate. Defined.

End examples.
End SnapshotSpec.
