(* ===== verification/AttachSpec.v ===== *)
(** * A volume is attached to one node at a time

    [NodeSvc.prepareVolumeForNode] against a control plane that holds the
    attachments of one volume and the nodes: an old attachment is removed, and a
    new one made, only when every attachment there is belongs to this node or to
    a node that is gone or not ready. *)

From S2P Require Export NodeSvc Store.
Local Open Scope go_scope.

Module AttachSpec.
Import NodeSvc.
Section spec.
Context {L : ApiLib} {G : Globals} {T : StatusNames} (h : Host).

(** What an attachment says of the node it is for. *)
Definition node_of (a : CStorVolumeAttachment) : string := smap_get (om_Labels (cva_Meta a)) "nodeID".
Definition name_of (a : CStorVolumeAttachment) : string := om_Name (cva_Meta a).

(** The control plane: the attachments of the volume as they were at the
    beginning, the nodes, the volume's target; and what was done: the
    attachments whose deletion was accepted and the attachment made. *)
Record plane := Plane {
  atts : list CStorVolumeAttachment; nodes : gmap string Node; volume : option CStorVolume;
  dropped : list string; made : option CStorVolumeAttachment
}.
Definition set_dropped (l : list string) (s : plane) : plane :=
  Plane (atts s) (nodes s) (volume s) l (made s).
Definition set_made (o : CStorVolumeAttachment) (s : plane) : plane :=
  Plane (atts s) (nodes s) (volume s) (dropped s) (Some o).

(** A node that does not use the volume any more. *)
Definition lost (s : plane) (n : string) : Prop :=
  match nodes s !! n with Some nd => KNode.readyLoop (node_Conditions nd) = false | None => True end.

(** An attachment of volume [v] that node [n] may replace: its own, unless it
    is being deleted, or one of another node that is lost. *)
Definition replaceable (v n : string) (s : plane) (a : CStorVolumeAttachment) : Prop :=
  (name_of a = v +:+ "-" +:+ n ∧ om_DeletionTimestamp (cva_Meta a) = None) ∨
  (name_of a ≠ v +:+ "-" +:+ n ∧ node_of a ≠ n ∧ lost s (node_of a)).

Definition free_for (v n : string) (s : plane) : Prop := Forall (replaceable v n s) (atts s).

(** An attachment of volume [v] to node [n], with the volume's own target. *)
Definition attaches (v n : string) (s : plane) (o : CStorVolumeAttachment) : Prop :=
  name_of o = v +:+ "-" +:+ n ∧ cva_VolName o = v ∧ cva_OwnerNodeID o = n ∧ node_of o = n ∧
  ∃ t, volume s = Some t ∧ cva_Iqn o = cv_Iqn t ∧ cva_TargetPortal o = cv_TargetPortal t ∧
    cva_Lun o = "0" ∧ cva_IscsiInterface o = "default".

Definition permits (v n : string) (s : plane) (a : action) : Prop :=
  match a with
  | CvaList _ ns sel => ns = OpenEBSNamespace ∧ sel = "Volname=" +:+ v
  | CvaDelete _ ns name fg => ns = OpenEBSNamespace ∧ fg = true ∧ free_for v n s ∧
      name ∈ name_of <$> atts s
  | CvaCreate _ ns o => ns = OpenEBSNamespace ∧ made s = None ∧ free_for v n s ∧
      dropped s = name_of <$> atts s ∧ attaches v n s o
  | CvcGet _ ns name | CvGet _ ns name => ns = OpenEBSNamespace ∧ name = v
  | NodeGet _ _ | CvaGet _ _ _ => True
  | Lock | Unlock => True
  | TvlSet w st => w = v ∧ st = WaitingForCVCBound
  | a => kind_of a = KConfig ∨ kind_of a = KClock
  end.

Definition reacts (s : plane) (a : action) : result a → plane → Prop :=
  match a with
  | CvaList _ _ _ => λ r s', s' = s ∧ (r.2 = None → r.1 = Some (atts s))
  | CvaDelete _ _ name _ => λ r s',
      match r with
      | None => s' = set_dropped (dropped s ++ [name]) s
      | Some _ => ∃ l, s' = set_dropped l s
      end
  | CvaCreate _ _ o => λ r s',
      match r.2 with None => s' = set_made o s | Some _ => s' = s ∨ s' = set_made o s end
  | NodeGet _ name => λ r s', s' = s ∧ Store.got h node_zero (nodes s !! name) r
  | CvGet _ _ name => λ r s', s' = s ∧ Store.got h cv_zero (volume s) r
  | CvcGet _ _ _ => λ r s', s' = s ∧ (r.2 = None → is_Some r.1)
  | _ => λ _ s', s' = s
  end.

Definition control (v n : string) : machine plane := {|
  guard := permits v n;
  next := λ s a r s', sane h a r ∧ reacts s a r s'
|}.

Global Instance control_config v n : ConfigFree h (mspec (control v n)).
Proof.
  intros a s Q Ha HQ. split.
  - destruct a; first [discriminate Ha | by left].
  - intros r s' [Hr Hs]. destruct a; first [discriminate Ha | (simpl in Hs; subst; by apply HQ)].
Qed.

Section rules.
Context (v n : string).
Abbreviation wps := (wp (mspec (control v n))).

Lemma wp_GetVolList s Q :
  Q (ORet (Some (atts s), None)) s → (∀ o e, Q (ORet (o, Some e)) s) →
  wps (Attach.GetVolList v) s Q.
Proof.
  intros H1 H2. unfold Attach.GetVolList. wp_bind.
  apply (Cva.wp_cvaList h (mspec (control v n))); [by intros k e _; apply H2|].
  intros c. split; [done|]. intros [o [e|]] s' (_ & -> & Hr) k; [apply H2|].
  simpl in Hr. by rewrite (Hr eq_refl).
Qed.

(** Asking whether a node is ready: a node that does not answer as missing is
    known to be ready or not. *)
Lemma wp_IsNodeReady name s Q :
  name ≠ "" →
  (∀ nd, nodes s !! name = Some nd → Q (ORet (KNode.readyLoop (node_Conditions nd), None)) s) →
  (∀ e, (IsNotFound e = true → nodes s !! name = None) → Q (ORet (false, Some e)) s) →
  wps (KNode.IsNodeReady name) s Q.
Proof.
  intros Hn H1 H2. unfold KNode.IsNodeReady. wp_bind.
  apply (KNode.wp_nodeGet h (mspec (control v n))).
  - by destruct name.
  - intros k e Hb. apply H2. intros Hf. by rewrite (broken_not_found h e Hb) in Hf.
  - intros _ c. split; [done|]. intros [p [e|]] s' (_ & -> & Hg) k; unfold Store.got in Hg; simpl in *.
    + apply H2. intros Hf. rewrite Hf in Hg. by destruct Hg.
    + destruct Hg as [-> [nd Hnd]]. rewrite Hnd. by apply H1.
Qed.

Lemma wp_checkAttachments l s Q :
  Forall (λ a, node_of a ≠ "") l →
  (Forall (replaceable v n s) l → Q (ORet None) s) →
  (∀ e, Q (ORet (Some e)) s) →
  wps (checkAttachments v n l) s Q.
Proof.
  intros Hl. revert Q. induction Hl as [|a l Ha Hl IH]; intros Q H1 H2;
    cbn [checkAttachments]; [by apply H1|].
  cbv zeta. fold (name_of a) (node_of a).
  assert (replaceable v n s a → wps (checkAttachments v n l) s Q) as Hgo.
  { intros Hr. apply IH; [|done]. intros Hrest. apply H1. by constructor. }
  case_bool_decide as Hname.
  - case_bool_decide as Hd; [by apply H2|]. apply Hgo. left. split; [done|].
    by destruct (om_DeletionTimestamp (cva_Meta a)); [destruct Hd|].
  - case_bool_decide as Hnode; [by apply H2|]. wp_bind. apply wp_IsNodeReady; [done| |].
    + intros nd Hnd. cbn [then_]. destruct (KNode.readyLoop _) eqn:Hready; [by apply H2|].
      apply Hgo. right. unfold lost. by rewrite Hnd.
    + intros e He. cbn [then_]. destruct (IsNotFound e) eqn:Hf; [|by apply H2].
      apply Hgo. right. unfold lost. by rewrite (He eq_refl).
Qed.

(** The deletion loop drops the attachments in the order of the list. *)
Lemma wp_deleteOldLoop l c s Q :
  free_for v n s → name_of <$> l ⊆ name_of <$> atts s →
  (∀ c', Q (ORet (inl c')) (set_dropped (dropped s ++ (name_of <$> l)) s)) →
  (∀ e ds, Q (ORet (inr e)) (set_dropped ds s)) →
  wps (Attach.deleteOldLoop l n c) s Q.
Proof.
  revert c s. induction l as [|a l IH]; intros c s Hfree Hl H1 H2; cbn [Attach.deleteOldLoop].
  { specialize (H1 c). simpl in H1. rewrite (right_id_L [] (++)) in H1. by destruct s. }
  cbv zeta. fold (name_of a). wp_bind.
  assert (∀ e s', (∃ l, s' = set_dropped l s) → ∀ k : Cva.Kubeclient,
    then_ (mspec (control v n)) (λ '(_, e), match e with
      | Some e => fail e
      | None => Attach.deleteOldLoop l n (if Str.HasSuffix (name_of a) n then name_of a else c)
      end) Q (ORet (k, Some e)) s') as Herr by (intros e s' [ds ->] k; by apply H2).
  apply (Cva.wp_cvaDelete h (mspec (control v n))).
  - intros _ k e. apply Herr. exists (dropped s). by destruct s.
  - intros k e _. apply Herr. exists (dropped s). by destruct s.
  - intros _ cl. split.
    { split_and!; try done. apply Hl. by left. }
    intros [e|] s' (_ & Hr) k; [by apply Herr|]. simpl in Hr. subst s'. cbn [then_].
    apply IH; simpl.
    + done.
    + intros x Hx. apply Hl. by right.
    + intros c'. specialize (H1 c'). by rewrite <- (assoc_L (++)).
    + intros e ds. apply H2.
Qed.

Lemma wp_waitDeleted k name s Q :
  Q (ORet tt) s → wps (Attach.waitDeleted k name) s Q.
Proof.
  revert s Q. induction k as [|k IH]; intros s Q HQ; cbn [Attach.waitDeleted]; [exact HQ|].
  wp_bind. apply (Cva.wp_cvaGet h (mspec (control v n))).
  1, 2: intros; simpl; case_match; [exact HQ|];
    split; [simpl; auto|]; intros [] s1 (_ & ->); by apply IH.
  intros _ c. split; [done|]. intros [o e] s1 (_ & ->) kc. cbn [then_].
  destruct (match e with Some _ => _ | None => _ end); [apply HQ|].
  wp_bind. split; [simpl; auto|]. intros [] s2 (_ & ->). by apply IH.
Qed.

Lemma wp_DeleteOld s Q :
  free_for v n s → dropped s = [] →
  Q (ORet None) (set_dropped (name_of <$> atts s) s) →
  (∀ e ds, Q (ORet (Some e)) (set_dropped ds s)) →
  wps (Attach.DeleteOldCStorVolumeAttachmentCRs v n) s Q.
Proof.
  intros Hfree Hd H1 H2. unfold Attach.DeleteOldCStorVolumeAttachmentCRs. wp_bind.
  apply wp_GetVolList; cbn [then_].
  2: { intros _ e. specialize (H2 e (dropped s)). by destruct s. }
  wp_bind. wp_ret (atts s). wp_bind. apply wp_deleteOldLoop; [done|done| |by intros e ds; apply H2].
  intros c. rewrite Hd. cbn [then_ app]. wp_bind. case_match; [|exact H1].
  by apply wp_waitDeleted.
Qed.

End rules.

(** The attachment a request is turned into. *)
Lemma attachmentFor_names req n o :
  attachmentFor req n = inl o →
  name_of o = nsr_VolumeId req +:+ "-" +:+ n ∧ cva_VolName o = nsr_VolumeId req ∧ node_of o = n.
Proof.
  unfold attachmentFor. cbv zeta.
  set (labels := <["nodeID" := n]> _).
  unfold Cva.WithName, Cva.setText. rewrite bool_decide_eq_false_2.
  2: { intros Hx. by destruct (nsr_VolumeId req). }
  unfold Cva.WithLabels. rewrite bool_decide_eq_false_2 by apply insert_non_empty.
  simpl. unfold Cva.WithLabelsNew. rewrite bool_decide_eq_false_2 by apply insert_non_empty.
  unfold Cva.WithVolName, Cva.setText. case_bool_decide as Hv.
  { by unfold Cva.WithAccessType, Cva.WithFSType, Cva.setText; repeat case_match. }
  unfold Cva.WithAccessType, Cva.setText. case_bool_decide as Ha.
  { by unfold Cva.WithFSType; repeat case_match. }
  unfold Cva.WithFSType. case_match; [done|]. intros [= <-]. split_and!; [done..|].
  unfold node_of. simpl. rewrite range_assign_empty. unfold labels.
  by rewrite lookup_insert_eq.
Qed.

Section prepare.
Context (ns : node) (req : NodeStageVolumeRequest).
Local Abbreviation v := (nsr_VolumeId req).
Local Abbreviation n := (NodeID ns).
Abbreviation wps := (wp (mspec (control v n))).

Definition prepare_post (s : plane) (o : outcome err) (s' : plane) : Prop :=
  match o with
  | ORet None => free_for v n s ∧ dropped s' = name_of <$> atts s ∧
      ∃ att, made s' = Some att ∧ attaches v n s att
  | ORet (Some _) => made s' = None ∨ ∃ att, made s' = Some att ∧ attaches v n s att
  | OPanic _ | OExit _ => False
  end.

Lemma wp_IsCVCBound s Q :
  (∀ b, Q (ORet (b, None)) s) → (∀ b e, Q (ORet (b, Some e)) s) →
  wps (Maya.IsCVCBound v) s Q.
Proof.
  intros H1 H2. unfold Maya.IsCVCBound, Maya.GetVolume. wp_bind. wp_bind.
  apply (Cvc.wp_cvcGet h (mspec (control v n))); [by intros; apply H2..|].
  intros _ c. split; [done|]. intros [o [e|]] s' (_ & -> & Hr) k; [apply H2|].
  destruct (Hr eq_refl) as [cvc Hcvc]. simpl in Hcvc. subst o. cbn [then_].
  wp_ret (Some cvc, None (A := error)). wp_bind. wp_ret cvc. case_bool_decide; apply H1.
Qed.

Lemma wp_Fetch vol s Q :
  (∀ t vol', volume s = Some t → vol' = cva_set_IscsiInterface "default" (cva_set_Lun "0"
       (cva_set_TargetPortal (cv_TargetPortal t) (cva_set_Iqn (cv_Iqn t) vol))) →
     Q (ORet (vol', None)) s) →
  (∀ vol' e, Q (ORet (vol', Some e)) s) →
  wps (Maya.FetchAndUpdateISCSIDetails v vol) s Q.
Proof.
  intros H1 H2. unfold Maya.FetchAndUpdateISCSIDetails. wp_bind.
  apply (Cv.wp_cvGet h (mspec (control v n))); [by intros; apply H2..|].
  intros _ c. split; [done|]. intros [o [e|]] s' (_ & -> & Hr) k; [apply H2|].
  destruct Hr as [Ho [t Ht]]. simpl in Ho. subst o. rewrite Ht. cbn [then_].
  wp_bind. wp_ret t. cbv zeta.
  unfold Cva.WithIscsiInterface, Cva.WithLun, Cva.WithTargetPortal, Cva.WithIQN, Cva.setText.
  repeat case_bool_decide; try done; simpl; try apply H2. by eapply H1.
Qed.

Lemma wp_CreateCR vol s s0 :
  made s = None → free_for v n s → dropped s = name_of <$> atts s →
  atts s = atts s0 → nodes s = nodes s0 → volume s = volume s0 →
  attaches v n s (cva_set_OwnerNodeID n vol) →
  wps (Attach.CreateCStorVolumeAttachmentCR vol n) s
    (λ o s', match o with ORet (_, e) => prepare_post s0 (ORet e) s' | _ => False end).
Proof.
  intros Hm Hf Hd Ha Hn Hv Hatt. unfold Attach.CreateCStorVolumeAttachmentCR, Attach.getNodeDetails.
  cbv zeta. wp_bind. wp_bind. apply (KNode.wp_nodeGet h (mspec (control v n))); [by intros; left..|].
  intros _ c. split; [done|]. intros [o [e|]] s' (_ & -> & Hr) k; [by left|].
  destruct Hr as [Ho [nd Hnd]]. simpl in Ho. subst o. rewrite Hnd. cbn [then_].
  wp_ret (Some nd, None (A := error)). wp_bind. wp_ret nd. wp_bind.
  set (vol' := cva_set_Meta _ _).
  assert (attaches v n s vol') as Hatt' by done.
  assert (attaches v n s0 vol') as Hatt0 by (unfold attaches in *; by rewrite <- Hv).
  apply (Cva.wp_cvaCreate h (mspec (control v n))); [by intros; left|].
  intros c'. split; [by split_and!|]. intros [o [e|]] s1 (_ & Hr) k'; simpl in Hr; cbn [then_].
  - destruct Hr as [->| ->]; [by left|right]. by exists vol'.
  - subst s1. split_and!; [|simpl; congruence|by exists vol'].
    unfold free_for, replaceable, lost in *. by rewrite <- Ha, <- Hn.
Qed.

(** C5: staging makes an attachment of a volume to a node only when every other
    attachment of the volume belongs to a node that is gone or not ready and the
    node's own old attachment is not being deleted: no attachment is deleted
    and none is made otherwise; success means that all of the old ones were
    deleted and one was made, for this volume and node and with the iSCSI
    target of this volume; preparation never panics. *)
Theorem prepare_attaches_once s :
  made s = None → dropped s = [] → Forall (λ a, node_of a ≠ "") (atts s) →
  wps (prepareVolumeForNode ns req) s (prepare_post s).
Proof.
  intros Hm Hd Hl. unfold prepareVolumeForNode. cbv zeta. wp_bind.
  apply wp_GetVolList; cbn [then_]; [|by intros; left]. wp_bind. wp_ret (atts s). wp_bind.
  apply wp_checkAttachments; cbn [then_]; [done| |by intros; left]. intros Hfree.
  destruct (attachmentFor req n) as [vol|e] eqn:Hvol; [|by left].
  apply attachmentFor_names in Hvol as (N1 & N2 & N3). wp_bind.
  apply wp_IsCVCBound; cbn [then_]; [|by intros; left]. intros [|]; cbn [negb].
  2: { wp_bind. unfold setTransition. simpl. split; [done|]. intros [] s1 (_ & ->).
       split; [done|]. intros [] s2 (_ & ->). split; [done|]. intros [] s3 (_ & ->).
       split; [by right|]. intros [] s4 (_ & ->). by left. }
  wp_bind. apply wp_Fetch; cbn [then_]; [|by intros; left].
  intros t vol' Ht ->. wp_bind. apply wp_DeleteOld; [done|done|..]; cbn [then_]; [|by intros; left].
  wp_bind. wp_mono; [|apply (wp_CreateCR _ _ s); try done].
  - intros [[x [e|]]|m|c] s'; done.
  - split_and!; try done. exists t. by split_and!.
Qed.

End prepare.
End spec.

(** ** Examples *)

Section examples.
Import Concrete.

#[local] Instance G1 : Globals := {| OpenEBSNamespace := "openebs"; NodeIDENV := "n1" |}.
Definition h1 : Host := MkHost true (λ _, None).
(** The volume is still attached to node "n2", which is gone. *)
Definition old1 : CStorVolumeAttachment :=
  cva_set_Meta (MkObjectMeta "vol-n2" "" "" "" None (Some {["nodeID" := "n2"]}) None [] None) cva_zero.
Definition plane1 : plane := Plane [old1] {["n1" := node_zero]} (Some cv_zero) [] None.
Definition req1 : NodeStageVolumeRequest := {|
  nsr_VolumeId := "vol"; nsr_StagingTargetPath := "/staging";
  nsr_VolumeCapability := Some {| vc_AccessType := ATBlock; vc_AccessMode := None |} |}.

Lemma prepare_attaches_once_witness :
  free_for "vol" "n1" plane1 ∧
  wp (mspec (control h1 (nsr_VolumeId req1) (NodeID (NewNode "n1"))))
    (prepareVolumeForNode (NewNode "n1") req1) plane1
    (prepare_post (NewNode "n1") req1 plane1).
Proof.
  split.
  - constructor; [|constructor]. right. split_and!; [discriminate|discriminate|exact I].
  - apply (prepare_attaches_once h1 (NewNode "n1") req1 plane1); [reflexivity|reflexivity|].
    constructor; [discriminate|constructor].
Defined.

End examples.
End AttachSpec.
