(* ===== verification/StageSpec.v ===== *)
(** * The order of the steps of staging and unstaging

    What the node service does to a node's disk and to its attachment record,
    and in which order: [NodeSvc.stageMount] records the volume before it logs
    in and mounts only a connected device that is not mounted yet;
    [NodeSvc.unstageBody] logs out only when nothing is mounted from the
    device, and gives up its record only after that. *)

From S2P Require Export NodeSvc.
Local Open Scope go_scope.

Module StageSpec.
Import NodeSvc.
Section stage.
Context {L : ApiLib} {G : Globals} {T : StatusNames} (h : Host) (req : NodeStageVolumeRequest).

(** The attachment record, the device the target was connected as, the last
    answer about the staging path being free, and whether it was mounted. *)
Record disk := Disk {
  record : option CStorVolumeAttachment; device : option string; vacant : bool; mounted : bool
}.

(** The record says where the volume is staged and keeps itself from being
    removed. *)
Definition recorded (s : disk) : Prop :=
  ∃ o, record s = Some o ∧ cva_StagingTargetPath o = nsr_StagingTargetPath req ∧
    om_Finalizers (cva_Meta o) = Some [NodeIDENV] ∧ cva_DevicePath o = stagedDevice o.

(** Logging in to the target the record names. *)
Definition connects (s : disk) (c : Connector) : Prop :=
  ∃ o, record s = Some o ∧ con_VolumeName c = cva_VolName o ∧ con_Iqn c = cva_Iqn o ∧
    Some (con_Portal c) = head (Str.Split (cva_TargetPortal o) (Ascii.ascii_of_nat 58)) ∧ con_Lun c = 0%Z.

Definition stage_permits (s : disk) (a : action) : Prop :=
  match a with
  | CvaUpdate _ ns o => ns = OpenEBSNamespace ∧
      (om_Finalizers (cva_Meta o) = None → mounted s = false)
  | IscsiConnect c => recorded s ∧ connects s c ∧ device s = None
  | MkdirAll p _ => p = nsr_StagingTargetPath req ∧ is_Some (device s)
  | IsLikelyNotMountPoint p => p = nsr_StagingTargetPath req
  | FormatAndMount d p fs opts => recorded s ∧ device s = Some d ∧ d ≠ "" ∧ vacant s = true ∧
      mounted s = false ∧ p = nsr_StagingTargetPath req ∧
      fs = GetFsType (GetMount (nsr_VolumeCapability req)) ∧
      opts = GetMountFlags (GetMount (nsr_VolumeCapability req))
  | TvlSet w st => w = nsr_VolumeId req ∧ recorded s ∧
      (st = MountUnderProgress ∨ st = Mounted ∧ (mounted s = true ∨ vacant s = false))
  | Lock | Unlock => True
  | a => kind_of a = KConfig
  end.

Definition stage_reacts (s : disk) (a : action) : result a → disk → Prop :=
  match a with
  | CvaUpdate _ _ o => λ r s',
      match r.2 with
      | None => r.1 = Some o ∧ s' = Disk (Some o) (device s) (vacant s) (mounted s)
      | Some _ => s' = s ∨ s' = Disk (Some o) (device s) (vacant s) (mounted s)
      end
  | IscsiConnect _ => λ r s', s' = match r.2 with
      | None => Disk (record s) (Some r.1) (vacant s) (mounted s) | Some _ => s end
  | IsLikelyNotMountPoint _ => λ r s', s' = Disk (record s) (device s) r.1 (mounted s)
  | FormatAndMount _ _ _ _ => λ r s', s' = match r with
      | None => Disk (record s) (device s) (vacant s) true | Some _ => s end
  | _ => λ _ s', s' = s
  end.

Definition stager : machine disk := {|
  guard := stage_permits;
  next := λ s a r s', sane h a r ∧ stage_reacts s a r s'
|}.

Global Instance stager_config : ConfigFree h (mspec stager).
Proof.
  intros a s Q Ha HQ. split.
  - destruct a; first [discriminate Ha | done].
  - intros r s' [Hr Hs]. destruct a; first [discriminate Ha | (simpl in Hs; subst; by apply HQ)].
Qed.

Abbreviation wps := (wp (mspec stager)).

Lemma wp_UpdateCR o s Q :
  (om_Finalizers (cva_Meta o) = None → mounted s = false) →
  Q (ORet (Some o, None)) (Disk (Some o) (device s) (vacant s) (mounted s)) →
  (∀ p e s', s' = s ∨ s' = Disk (Some o) (device s) (vacant s) (mounted s) →
    Q (ORet (p, Some e)) s') →
  wps (Attach.UpdateCStorVolumeAttachmentCR (Some o)) s Q.
Proof.
  intros Hg H1 H2. unfold Attach.UpdateCStorVolumeAttachmentCR. wp_bind.
  apply (Cva.wp_cvaUpdate h (mspec stager)); [intros k e _; apply H2; by left|].
  intros c. split; [done|]. intros [p [e|]] s' (_ & Hr) k; simpl in Hr; cbn [then_].
  - by apply H2.
  - by destruct Hr as [-> ->].
Qed.

Lemma wp_setTransition st s Q :
  recorded s → st = MountUnderProgress ∨ st = Mounted ∧ (mounted s = true ∨ vacant s = false) →
  Q (ORet tt) s → wps (setTransition (nsr_VolumeId req) st) s Q.
Proof.
  intros Hr Hst HQ. unfold setTransition. simpl.
  split; [done|]. intros [] s1 (_ & ->). split; [done|]. intros [] s2 (_ & ->).
  split; [done|]. by intros [] s3 (_ & ->).
Qed.

Lemma wp_attachDisk o s Q :
  recorded s → record s = Some o → device s = None →
  (∀ d, d ≠ "" → Q (ORet (inl d)) (Disk (record s) (Some d) (vacant s) (mounted s))) →
  (∀ e s', record s' = record s → mounted s' = mounted s → Q (ORet (inr e)) s') →
  wps (attachDisk o) s Q.
Proof.
  intros Hrec Ho Hd H1 H2. unfold attachDisk, getTargetIP.
  destruct (Str.Split (cva_TargetPortal o) _) as [|ip l] eqn:Hip; [by destruct (Str.Split_not_nil _ _ Hip)|].
  wp_bind. wp_ret ip. wp_bind. split.
  { split; [done|]. split; [|done]. exists o. by rewrite Hip. }
  intros [d [e|]] s' (_ & Hs'); simpl in Hs'; subst s'; [by apply H2|].
  wp_ret (d, None (A := error)).
  case_bool_decide as Hne; [by apply H2|by apply H1].
Qed.

Lemma wp_formatAndMount d s Q :
  recorded s → device s = Some d → d ≠ "" → mounted s = false →
  (∀ s', record s' = record s → device s' = Some d → mounted s' = true ∨ vacant s' = false →
    Q (ORet None) s') →
  (∀ e s', record s' = record s → mounted s' = false → Q (ORet (Some e)) s') →
  wps (formatAndMount req d) s Q.
Proof.
  intros Hrec Hd Hne Hm H1 H2. unfold formatAndMount. cbv zeta. wp_bind.
  split; [done|]. intros [notMnt e] s1 (_ & ->). wp_ret (notMnt, e). cbn [fst].
  set (s1 := Disk _ _ _ _).
  wp_bind. set (Q1 := then_ _ _ _).
  assert (∀ mk, Q1 (ORet mk) s1) as HQ1.
  { intros [mk|]; unfold Q1; cbn [then_]; [by apply H2|].
    destruct notMnt; cbn [negb]; [|by apply H1; auto].
    split; [by split_and!|]. intros [e1|] s2 (_ & ->); [by apply H2|by apply H1; auto]. }
  destruct (match e with Some _ => _ | None => false end); [|apply HQ1].
  split; [split; [done|by exists d]|]. intros mk s2 (_ & ->). apply HQ1.
Qed.

(** C6: staging a volume: its attachment is first recorded with the staging path,
    the device path and this node's finalizer; only then the target it names is
    logged in to, once; only the device that the login returned is formatted and
    mounted, only at the staging path, with the requested filesystem and flags,
    and only when nothing is mounted there; the finalizer is given up only while
    nothing is mounted.  Success means recorded, logged in and, but for a
    block volume, mounted; after a failure nothing is mounted; it never panics. *)
Theorem stage_order vol s :
  device s = None → mounted s = false →
  wps (stageMount req vol) s (λ o s',
    match o with
    | ORet (inl _) => recorded s' ∧ is_Some (device s') ∧
        (GetAccessType (nsr_VolumeCapability req) = ATBlock ∨ mounted s' = true ∨ vacant s' = false)
    | ORet (inr _) => mounted s' = false
    | _ => False
    end).
Proof.
  intros Hd Hm. unfold stageMount. cbv zeta.
  set (o := cva_set_DevicePath _ _). wp_bind. apply wp_UpdateCR; cbn [then_]; [done| |].
  2: { intros p e s' [->| ->]; done. }
  set (s1 := Disk _ _ _ _).
  assert (recorded s1) as Hrec by (exists o; by split_and!).
  wp_bind. apply wp_setTransition; [done|by left|]. cbn [then_]. wp_bind. wp_ret o.
  wp_bind. apply (wp_attachDisk o); [done..| |]; cbn [then_].
  - intros d Hne. set (s2 := Disk _ _ _ _).
    assert (recorded s2) as Hrec2 by done.
    assert (wps (e ← sys (MkdirAll (nsr_StagingTargetPath req) 488);
      match e with
      | Some e => fail (internal e)
      | None =>
          e ← formatAndMount req d;
          match e with
          | Some e =>
              _ ← Attach.UpdateCStorVolumeAttachmentCR (Some (clearFinalizers o));
              fail (internal e)
          | None => _ ← setTransition (nsr_VolumeId req) Mounted; ok tt
          end
      end) s2 (λ o s',
        match o with
        | ORet (inl _) => recorded s' ∧ is_Some (device s') ∧
            (GetAccessType (nsr_VolumeCapability req) = ATBlock ∨ mounted s' = true ∨ vacant s' = false)
        | ORet (inr _) => mounted s' = false
        | _ => False
        end)) as Hmount.
    { wp_bind. split; [split; [done|by exists d]|]. intros [e|] s3 (_ & ->); [done|].
      wp_ret (None (A := error)). wp_bind. apply wp_formatAndMount; [done..| |]; cbn [then_].
      - intros s4 Hr4 Hd4 Hm4. assert (recorded s4) by (unfold recorded; by rewrite Hr4).
        wp_bind. apply wp_setTransition; [done|by right|]. split_and!; [done|by exists d|by right].
      - intros e s4 Hr4 Hm4. wp_bind. apply wp_UpdateCR; [done|done|].
        by intros p e' s5 [->| ->]. }
    destruct (GetAccessType (nsr_VolumeCapability req)); [exact Hmount| |exact Hmount].
    split_and!; [done|by exists d|by left].
  - intros e s2 Hr2 Hm2. wp_bind. simpl in Hm2. rewrite Hm in Hm2.
    apply wp_UpdateCR; cbn [then_]; [done|done|]. by intros p e' s3 [->| ->].
Qed.

End stage.

(** ** Unstaging *)

Section unstage.
Context {L : ApiLib} {G : Globals} {T : StatusNames} (h : Host) (ns : node) (req : NodeUnstageVolumeRequest).

(** The attachment that was read, and how far the detachment has come: nothing
    is mounted from the device, the session is closed, its record is gone, the
    attachment was given up, and it was deleted; or the API server has answered
    that there is no such attachment. *)
Record undo := Undo {
  att : option CStorVolumeAttachment; missing : bool; unused : bool; out : bool; forgotten : bool;
  freed : bool; dropped : bool; absent : bool
}.

(** The disk is detached, or its staging path did not exist to begin with. *)
Definition detached (s : undo) : Prop := missing s = true ∨ forgotten s = true.

(** iscsiadm's arguments for closing the session and for removing its record *)
Definition logoutArgs (o : CStorVolumeAttachment) : list string :=
  ["-m"; "node"; "-p"; cva_TargetPortal o; "-T"; cva_Iqn o; "--logout"; "-I"; cva_IscsiInterface o].
Definition forgetArgs (o : CStorVolumeAttachment) : list string :=
  ["-m"; "node"; "-p"; cva_TargetPortal o; "-T"; cva_Iqn o; "-o"; "delete"; "-I"; cva_IscsiInterface o].

Definition unstage_permits (s : undo) (a : action) : Prop :=
  match a with
  | CvaGet _ ns' name => ns' = OpenEBSNamespace ∧ name = nur_VolumeId req +:+ "-" +:+ NodeIDENV
  | MountPathExists p | IsLikelyNotMountPoint p | GetDeviceNameFromMount p =>
      p = nur_StagingTargetPath req
  | Unmount p => p = nur_StagingTargetPath req ∧ is_Some (att s)
  | Exec cmd args => cmd = "iscsiadm" ∧ ∃ o, att s = Some o ∧
      (args = logoutArgs o ∧ unused s = true ∨ args = forgetArgs o ∧ out s = true)
  | RemoveAll p => p = nur_StagingTargetPath req ∧ forgotten s = true
  | CvaUpdate _ ns' o => ns' = OpenEBSNamespace ∧ detached s ∧ cva_StagingTargetPath o = "" ∧
      om_Finalizers (cva_Meta o) = None
  | CvaDelete _ ns' name fg => ns' = OpenEBSNamespace ∧ fg = true ∧ freed s = true ∧
      name = nur_VolumeId req +:+ "-" +:+ NodeID ns
  | TvlSet w st => w = nur_VolumeId req ∧
      (st = UnmountUnderProgress ∨ st = Unmounted ∧ detached s)
  | TvlGet w => w = nur_VolumeId req
  | Lock | Unlock => True
  | a => kind_of a = KConfig
  end.

Definition fine (e : err) : bool := match e with None => true | Some _ => false end.

(** A call to iscsiadm counts as done also when there was no such session or
    record. *)
Definition adm_ok (e : err) : bool :=
  fine (Iscsi.ignoreExitCodes e
    [Iscsi.exit_ISCSI_ERR_NO_OBJS_FOUND; Iscsi.exit_ISCSI_ERR_SESS_NOT_FOUND]).

Definition unstage_reacts (s : undo) (a : action) : result a → undo → Prop :=
  match a with
  | CvaGet _ _ _ => λ r s', match r.2 with
      | None => ∃ o, r.1 = Some o ∧
          s' = Undo (Some o) (missing s) (unused s) (out s) (forgotten s) (freed s) (dropped s)
            (absent s)
      | Some e => s' = Undo (att s) (missing s) (unused s) (out s) (forgotten s) (freed s)
          (dropped s) (IsNotFound e) end
  | MountPathExists _ => λ r s', s' = Undo (att s)
      (negb r.1 && fine r.2) (unused s) (out s) (forgotten s) (freed s) (dropped s)
      (absent s)
  | GetDeviceNameFromMount _ => λ r s', s' = Undo (att s) (missing s)
      (fine r.2 && bool_decide (r.1.2 ≤ 0)%Z) (out s) (forgotten s) (freed s) (dropped s)
      (absent s)
  | Exec _ args => λ r s', s' =
      if bool_decide (args !! 6 = Some "--logout")
      then Undo (att s) (missing s) (unused s) (adm_ok r.2) (forgotten s) (freed s) (dropped s)
        (absent s)
      else Undo (att s) (missing s) (unused s) (out s) (adm_ok r.2) (freed s) (dropped s)
        (absent s)
  | CvaUpdate _ _ _ => λ r s', s' = Undo (att s) (missing s) (unused s) (out s) (forgotten s)
      (fine r.2) (dropped s) (absent s)
  | CvaDelete _ _ _ _ => λ r s', s' = Undo (att s) (missing s) (unused s) (out s) (forgotten s)
      (freed s) (fine r) (absent s)
  | _ => λ _ s', s' = s
  end.

Definition unstager : machine undo := {|
  guard := unstage_permits;
  next := λ s a r s', sane h a r ∧ unstage_reacts s a r s'
|}.

Global Instance unstager_config : ConfigFree h (mspec unstager).
Proof.
  intros a s Q Ha HQ. split.
  - destruct a; first [discriminate Ha | done | simpl in Ha; by case_match].
  - intros r s' [Hr Hs]. destruct a; first [discriminate Ha | (simpl in Hs; subst; by apply HQ)
      | simpl in Ha; by case_match].
Qed.

Abbreviation wpu := (wp (mspec unstager)).

Lemma removeDuplicate_one p : Iscsi.removeDuplicate [p] = if bool_decide (p = "") then [] else [p].
Proof.
  unfold Iscsi.removeDuplicate, Iscsi.removeDuplicateLoop. cbn [length seq lookup list_lookup].
  case_bool_decide; [done|]. rewrite (bool_decide_eq_false_2 (p ∈ ∅)) by set_solver. cbn [negb andb].
  by rewrite (right_id_L ∅ (∪)), size_singleton, size_empty.
Qed.

(** Closing the session of the volume that was read. *)
Lemma wp_detachLogout o s Q :
  att s = Some o → unused s = true →
  (∀ e s', forgotten s' = true → att s' = att s → dropped s' = dropped s → Q (ORet e) s') →
  (∀ e s', att s' = att s → dropped s' = dropped s → Q (ORet (Some e)) s') →
  wpu (Iscsi.detachLogout (Iscsi.MkDisk [cva_TargetPortal o] (cva_Iqn o) (cva_Lun o)
         (cva_IscsiInterface o) false false None "" (cva_VolName o)) (nur_StagingTargetPath req)) s Q.
Proof.
  intros Ha Hu H1 H2. unfold Iscsi.detachLogout. cbn [Iscsi.Portals Iscsi.Iqn Iscsi.Iface Iscsi.VolName
    Iscsi.InitiatorName].
  rewrite removeDuplicate_one. cbv zeta.
  destruct (bool_decide (cva_TargetPortal o = "")); [by apply H2|].
  case_bool_decide; [done|]. wp_bind. unfold Iscsi.detachISCSIDisk. wp_bind.
  cbn [Iscsi.detachPortals app]. wp_bind. split; [split; [done|]; exists o; auto|].
  intros [x e] s1 (_ & ->). wp_ret (x, e). rewrite bool_decide_eq_true_2 by done. cbn [snd].
  set (ignored := [Iscsi.exit_ISCSI_ERR_NO_OBJS_FOUND; _]).
  destruct (Iscsi.ignoreExitCodes e ignored) as [e1|] eqn:He; [by apply H2|].
  assert (adm_ok e = true) as Hok by (unfold adm_ok; fold ignored; by rewrite He).
  wp_bind. split; [split; [done|]; exists o; auto|].
  intros [y e2] s2 (_ & ->). wp_ret (y, e2). rewrite bool_decide_eq_false_2 by done. cbn [snd].
  destruct (Iscsi.ignoreExitCodes e2 ignored) as [e3|] eqn:He2; [by apply H2|].
  assert (adm_ok e2 = true) as Hok2 by (unfold adm_ok; fold ignored; by rewrite He2).
  split; [done|]. intros e4 s3 (_ & ->). by apply H1.
Qed.

Lemma wp_UnmountAndDetachDisk o s Q :
  att s = Some o → dropped s = false →
  (∀ s', detached s' → att s' = att s → dropped s' = false → Q (ORet None) s') →
  (∀ e s', dropped s' = false → Q (ORet (Some e)) s') →
  wpu (Iscsi.UnmountAndDetachDisk o (nur_StagingTargetPath req)) s Q.
Proof.
  intros Ha Hd H1 H2. unfold Iscsi.UnmountAndDetachDisk, Iscsi.DetachDisk.
  wp_bind. split; [done|]. intros [ex e] s1 (_ & ->). wp_ret (ex, e).
  destruct e as [e|]; [by apply H2|]. destruct ex; cbn [negb].
  2: { apply H1; [by left|done..]. }
  wp_bind. split; [done|]. intros [nm e] s2 (_ & ->). wp_ret (nm, e).
  destruct e as [e|]; [by apply H2|]. wp_bind. set (Q1 := then_ _ _ _). set (s2 := Undo _ _ _ _ _ _ _ _).
  assert (∀ e, Q1 (ORet e) s2) as HQ1.
  { intros [e|]; unfold Q1; cbn [then_]; [by apply H2|].
    wp_bind. split; [done|]. intros [[x cnt] e] s3 (_ & ->). wp_ret (x, cnt, e).
    destruct e as [e|]; [by apply H2|]. case_bool_decide as Hc; [by apply H2|].
    apply (wp_detachLogout o); cbn [att unused dropped fst snd s2]; [done| | |].
    - by rewrite bool_decide_eq_true_2 by lia.
    - intros [e|] s4 Hf Ha4 Hd4; [apply H2; congruence|]. apply H1; [by right|congruence..].
    - intros e s4 Ha4 Hd4. apply H2. congruence. }
  destruct nm; cbn [negb]; [apply HQ1|]. split; [split; [done|by exists o]|].
  intros e s3 (_ & ->). apply HQ1.
Qed.

Lemma wp_setLogged st s Q :
  st = UnmountUnderProgress ∨ st = Unmounted ∧ detached s →
  Q (ORet tt) s → wpu (setTransitionLogged (nur_VolumeId req) st) s Q.
Proof.
  intros Hst HQ. unfold setTransitionLogged. simpl.
  split; [done|]. intros [] s1 (_ & ->). split; [done|]. intros [] s2 (_ & ->).
  split; [done|]. intros r s3 (_ & ->). split; [done|]. by intros [] s4 (_ & ->).
Qed.

(** C7: unstaging a volume: the target's session is closed only when nothing is
    mounted from the device any more, its record is removed only after the session
    is closed, and the staging directory only after both; the attachment gives
    up its finalizer and staging path only once the disk is detached (or the
    staging path was not there), and is deleted only after that update.  When
    it answers success, the attachment was deleted, or had no staging path, or
    the API server had answered that it does not exist. *)
Theorem unstage_order s :
  att s = None → dropped s = false →
  wpu (unstageBody ns req) s (λ o s',
    match o with
    | ORet (inl _) => (dropped s' = true ∧ freed s' = true) ∨ dropped s' = false ∧
        match att s' with Some a => cva_StagingTargetPath a = "" | None => absent s' = true end
    | ORet (inr _) => dropped s' = false
    | _ => False
    end).
Proof.
  intros Ha Hd. unfold unstageBody. cbv zeta. wp_bind. split; [done|]. intros r s1 (_ & ->).
  wp_ret r. unfold Attach.GetCStorVolumeAttachment. wp_bind. wp_bind.
  apply (Cva.wp_cvaGet h (mspec unstager)).
  { intros Hn. by destruct (nur_VolumeId req). }
  { intros k e Hb. cbn [then_]. wp_ret (None (A := CStorVolumeAttachment), Some e).
    by rewrite (broken_not_found h e Hb). }
  intros _ c. split; [done|]. intros [p e] s1 (_ & Hr) k. cbn [then_]. simpl in Hr.
  destruct e as [e|].
  { subst s1. wp_ret (p, Some e). case_match; [right; simpl; by rewrite Ha|done]. }
  destruct Hr as (o & -> & ->). wp_ret (Some o, None (A := error)). set (s1 := Undo _ _ _ _ _ _ _ _).
  wp_bind. wp_ret o. case_bool_decide as Hst; [by right|].
  wp_bind. apply wp_setLogged; [by left|]. cbn [then_].
  wp_bind. apply (wp_UnmountAndDetachDisk o); cbn [then_]; [done..| |done].
  intros s2 Hdet Ha2 Hd2. wp_bind. apply wp_setLogged; [by right|]. cbn [then_].
  wp_bind. unfold Attach.UpdateCStorVolumeAttachmentCR. wp_bind.
  apply (Cva.wp_cvaUpdate h (mspec unstager)); [by intros|].
  intros c2. split; [by split_and!|]. intros [p2 e2] s3 (_ & ->) k2. cbn [then_].
  wp_ret (p2, e2). destruct e2 as [e2|]; [done|].
  wp_bind. unfold Attach.DeleteCStorVolumeAttachmentCR. wp_bind.
  apply (Cva.wp_cvaDelete h (mspec unstager)); [by intros..|].
  intros _ c3. split; [done|]. intros e3 s4 (_ & ->) k3. cbn [then_]. wp_ret e3.
  destruct e3 as [e3|]; [done|by left].
Qed.

End unstage.

(** ** Examples *)

Section examples.
Import Concrete.

#[local] Instance G1 : Globals := {| OpenEBSNamespace := "openebs"; NodeIDENV := "n1" |}.
Definition h1 : Host := MkHost true (λ _, None).
Definition stage1 : NodeStageVolumeRequest := {|
  nsr_VolumeId := "vol"; nsr_StagingTargetPath := "/staging";
  nsr_VolumeCapability := Some {| vc_AccessType := ATBlock; vc_AccessMode := None |} |}.
Definition unstage1 : NodeUnstageVolumeRequest :=
  {| nur_VolumeId := "vol"; nur_StagingTargetPath := "/staging" |}.
Definition disk0 : disk := Disk None None false false.
Definition undo0 : undo := Undo None false false false false false false false.

Lemma stage_order_witness :
  wp (mspec (stager h1 stage1)) (stageMount stage1 cva_zero) disk0 (λ o s',
    match o with
    | ORet (inl _) => recorded stage1 s' ∧ is_Some (device s') ∧
        (GetAccessType (nsr_VolumeCapability stage1) = ATBlock ∨ mounted s' = true ∨ vacant s' = false)
    | ORet (inr _) => mounted s' = false
    | _ => False
    end).
Proof. exact (stage_order h1 stage1 cva_zero disk0 eq_refl eq_refl). Defined.

Lemma unstage_order_witness :
  wp (mspec (unstager h1 (NewNode "n1") unstage1)) (unstageBody (NewNode "n1") unstage1) undo0 (λ o s',
    match o with
    | ORet (inl _) => (dropped s' = true ∧ freed s' = true) ∨ dropped s' = false ∧
        match att s' with Some a => cva_StagingTargetPath a = "" | None => absent s' = true end
    | ORet (inr _) => dropped s' = false
    | _ => False
    end).
Proof. exact (unstage_order h1 (NewNode "n1") unstage1 undo0 eq_refl eq_refl). Defined.

End examples.
End StageSpec.
