(* ===== verification/Lifecycle.v ===== *)
(** * The life of a volume on a node

    The node service against a healthy node: an API server that holds this
    node's attachment of one volume and honours finalizers, a mount table, a
    disk that can be logged in to, and the transition list.  Every call succeeds
    and its effect is exact, so the handlers can be composed: staging,
    publishing, unpublishing and unstaging a volume, as a filesystem or as a
    block device, leads back to the node as it was; staging it again while it is
    staged does not. *)

From S2P Require Export NodeSvc AttachSpec StageSpec.
Local Open Scope go_scope.

Module Lifecycle.
Import NodeSvc.

(** ** A healthy node *)

Record bench := Bench {
  att : option CStorVolumeAttachment;      (* the attachment of the volume *)
  session : bool;                          (* logged in to its target *)
  mounts : list MountPoint;                (* the mount table *)
  dirs : gset string;                      (* the paths that exist *)
  entries : gmap string CVAStatus          (* TransitionVolList *)
}.
Definition set_att a s := Bench a (session s) (mounts s) (dirs s) (entries s).
Definition set_session b s := Bench (att s) b (mounts s) (dirs s) (entries s).
Definition set_mounts l s := Bench (att s) (session s) l (dirs s) (entries s).
Definition set_dirs d s := Bench (att s) (session s) (mounts s) d (entries s).
Definition set_entries m s := Bench (att s) (session s) (mounts s) (dirs s) m.

(** The device mounted at a path, [""] if none is, and the number of mounts that
    refer to it, as the mount library counts them. *)
Fixpoint device_at (p : string) (l : list MountPoint) : string :=
  match l with
  | [] => ""
  | m :: l' => if bool_decide (mp_Path m = p) then mp_Device m else device_at p l'
  end.
Definition refs (p : string) (l : list MountPoint) : list MountPoint :=
  filter (λ m, mp_Device m = device_at p l ∨ mp_Path m = p) l.
Definition is_mounted (p : string) (l : list MountPoint) : bool :=
  existsb (λ m, bool_decide (mp_Path m = p)) l.
Definition without (p : string) (l : list MountPoint) : list MountPoint :=
  filter (λ m, mp_Path m ≠ p) l.

(** What remains of an object that is stored: one that is being deleted goes
    with its last finalizer. *)
Definition kept (o : CStorVolumeAttachment) : option CStorVolumeAttachment :=
  match om_DeletionTimestamp (cva_Meta o), om_Finalizers (cva_Meta o) with
  | Some _, (None | Some []) => None
  | _, _ => Some o
  end.
Definition mark_deleted (o : CStorVolumeAttachment) : CStorVolumeAttachment :=
  cva_set_Meta (om_set_DeletionTimestamp (Some 1%Z) (cva_Meta o)) o.

Section node.
Context {L : ApiLib} {G : Globals} {T : StatusNames} (h : Host).
(** The control plane's objects for the volume, and the device its target is
    connected as. *)
Context (claim : CStorVolumeConfig) (target : CStorVolume) (nd : Node) (dev : string).

Definition name_of (a : CStorVolumeAttachment) : string := om_Name (cva_Meta a).

(** Logging out: the command and the rule that nothing is mounted from the
    device any more. *)
Definition is_logout (args : list string) : bool := bool_decide (args !! 6 = Some "--logout").
Definition idle_device (s : bench) : Prop := Forall (λ m, mp_Device m ≠ dev) (mounts s).

(** The device behind a bind mount: what is mounted at its source, or the disk
    itself if the source is the device's own path. *)
Definition device_of (src : string) (l : list MountPoint) : string :=
  if is_mounted src l then device_at src l else dev.

Definition bench_permits (s : bench) (a : action) : Prop :=
  match a with
  | IscsiConnect c => con_Iqn c = cv_Iqn target ∧ is_Some (att s)
  | FormatAndMount d p _ _ => d = dev ∧ session s = true ∧ is_mounted p (mounts s) = false
  | MountAt src p _ _ => is_mounted src (mounts s) = true ∨
      session s = true ∧ ∃ a, att s = Some a ∧ src = cva_DevicePath a
  | Exec _ args => is_logout args = true → idle_device s
  | CvaList _ _ _ | CvcGet _ _ _ | CvGet _ _ _ | CvList _ _ _ | NodeGet _ _ | NetDial _ _
  | MountList | CvaGet _ _ _ | CvaCreate _ _ _ | CvaUpdate _ _ _ | CvaDelete _ _ _ _
  | MkdirAll _ _ | Chmod _ _ | IsLikelyNotMountPoint _ | Unmount _ | MountPathExists _
  | GetDeviceNameFromMount _ | RemoveAll _ | UtilPathExists _ | OpenFileCreate _ _ | Lock | Unlock | Sleep _ | TvlGet _ | TvlSet _ _
  | TvlDelete _ => True
  | a => kind_of a = KConfig
  end.

Definition bench_reacts (s : bench) (a : action) : result a → bench → Prop :=
  match a with
  | TvlGet w => λ r s', r = entries s !! w ∧ s' = s
  | TvlSet w st => λ _ s', s' = set_entries (<[w := st]> (entries s)) s
  | TvlDelete w => λ _ s', s' = set_entries (delete w (entries s)) s
  | CvcGet _ _ _ => λ r s', r = (Some claim, None) ∧ s' = s
  | CvGet _ _ _ => λ r s', r = (Some target, None) ∧ s' = s
  | CvList _ _ _ => λ r s', r = (Some [target], None) ∧ s' = s
  | NodeGet _ _ => λ r s', r = (Some nd, None) ∧ s' = s
  | NetDial _ _ => λ r s', r = None ∧ s' = s
  | MountList => λ r s', r = (mounts s, None) ∧ s' = s
  | CvaList _ _ _ => λ r s', r = (Some (option_list (att s)), None) ∧ s' = s
  | CvaGet _ _ name => λ r s', s' = s ∧
      match att s with
      | Some a => if bool_decide (name_of a = name) then r = (Some a, None)
                  else ∃ e, r.2 = Some e ∧ IsNotFound e = true
      | None => ∃ e, r.2 = Some e ∧ IsNotFound e = true
      end
  | CvaCreate _ _ o => λ r s',
      match att s with
      | None => r = (Some o, None) ∧ s' = set_att (Some o) s
      | Some _ => is_Some r.2 ∧ s' = s
      end
  | CvaUpdate _ _ o => λ r s',
      match att s with
      | Some _ => r = (Some o, None) ∧ s' = set_att (kept o) s
      | None => is_Some r.2 ∧ s' = s
      end
  | CvaDelete _ _ name _ => λ r s',
      match att s with
      | Some a => if bool_decide (name_of a = name)
                  then r = None ∧ s' = set_att (kept (mark_deleted a)) s
                  else is_Some r ∧ s' = s
      | None => is_Some r ∧ s' = s
      end
  | IscsiConnect _ => λ r s', r = (dev, None) ∧ s' = set_session true s
  | Exec _ args => λ r s', r.2 = None ∧ s' = if is_logout args then set_session false s else s
  | MkdirAll p _ => λ r s', r = None ∧ s' = set_dirs ({[p]} ∪ dirs s) s
  | RemoveAll p => λ r s', r = None ∧ s' = set_dirs (dirs s ∖ {[p]}) s
  | Chmod _ _ => λ r s', r = None ∧ s' = s
  | OpenFileCreate p _ => λ r s', r = None ∧ s' = set_dirs ({[p]} ∪ dirs s) s
  | MountPathExists p | UtilPathExists p => λ r s', r = (bool_decide (p ∈ dirs s), None) ∧ s' = s
  | IsLikelyNotMountPoint p => λ r s', s' = s ∧
      if bool_decide (p ∈ dirs s) then r = (negb (is_mounted p (mounts s)), None)
      else r.1 = true ∧ ∃ m, r.2 = Some (OsErr ENotExist m)
  | FormatAndMount d p fs opts => λ r s', r = None ∧
      s' = set_mounts (mounts s ++ [MkMountPoint d p fs opts]) s
  | MountAt src p fs opts => λ r s', r = None ∧
      s' = set_mounts (mounts s ++ [MkMountPoint (device_of src (mounts s)) p fs opts]) s
  | Unmount p => λ r s', r = None ∧ s' = set_mounts (without p (mounts s)) s
  | GetDeviceNameFromMount p => λ r s', s' = s ∧
      r = (device_at p (mounts s), Z.of_nat (length (refs p (mounts s))), None)
  | _ => λ _ s', s' = s
  end.

Definition healthy : machine bench := {|
  guard := bench_permits;
  next := λ s a r s', sane h a r ∧ bench_reacts s a r s'
|}.

Global Instance healthy_config : ConfigFree h (mspec healthy).
Proof.
  intros a s Q Ha HQ. split.
  - destruct a; first [discriminate Ha | done | simpl in Ha; by case_match].
  - intros r s' [Hr Hs]. destruct a; first [discriminate Ha | (simpl in Hs; subst; by apply HQ)
      | simpl in Ha; by case_match].
Qed.

Abbreviation wps := (wp (mspec healthy)).

(** No call of this host fails for a reason of its own. *)
Hypothesis steady : flaky h = false.

Lemma not_broken e : ¬ broken h e.
Proof using steady. intros Hb%broken_flaky. by rewrite steady in Hb. Qed.

(** ** The attachment *)

Lemma wp_get_att a s name Q :
  att s = Some a → name_of a = name → name ≠ "" →
  Q (ORet (Some a, None)) s → wps (Attach.GetCStorVolumeAttachment name) s Q.
Proof using steady.
  intros Ha Hn Hne HQ. unfold Attach.GetCStorVolumeAttachment. wp_bind.
  apply (Cva.wp_cvaGet h (mspec healthy)); [done|by intros k e []%not_broken|].
  intros _ c. split; [done|]. intros r s' (_ & -> & Hr) k. rewrite Ha, bool_decide_eq_true_2 in Hr by done.
  by subst r.
Qed.

Lemma wp_update_att a o s Q :
  att s = Some a → Q (ORet (Some o, None)) (set_att (kept o) s) →
  wps (Attach.UpdateCStorVolumeAttachmentCR (Some o)) s Q.
Proof using steady.
  intros Ha HQ. unfold Attach.UpdateCStorVolumeAttachmentCR. wp_bind.
  apply (Cva.wp_cvaUpdate h (mspec healthy)); [by intros k e []%not_broken|].
  intros c. split; [done|]. intros r s' (_ & Hr) k. simpl in Hr. rewrite Ha in Hr.
  by destruct Hr as [-> ->].
Qed.

Lemma wp_delete_att a s name Q :
  att s = Some a → name_of a = name → name ≠ "" →
  Q (ORet None) (set_att (kept (mark_deleted a)) s) →
  wps (Attach.DeleteCStorVolumeAttachmentCR name) s Q.
Proof using steady.
  intros Ha Hn Hne HQ. unfold Attach.DeleteCStorVolumeAttachmentCR. wp_bind.
  apply (Cva.wp_cvaDelete h (mspec healthy)); [done|by intros k e []%not_broken|].
  intros _ c. split; [done|]. intros r s' (_ & Hr) k. simpl in Hr.
  rewrite Ha, bool_decide_eq_true_2 in Hr by done. by destruct Hr as [-> ->].
Qed.

Lemma wp_list_att v s Q :
  Q (ORet (Some (option_list (att s)), None)) s → wps (Attach.GetVolList v) s Q.
Proof using steady.
  intros HQ. unfold Attach.GetVolList. wp_bind.
  apply (Cva.wp_cvaList h (mspec healthy)); [by intros k e []%not_broken|].
  intros c. split; [done|]. by intros r s' (_ & -> & ->) k.
Qed.

(** An attachment of volume [v] to this node, with the volume's target, that is
    not being deleted. *)
Definition fits (v : string) (a : CStorVolumeAttachment) : Prop :=
  name_of a = v +:+ "-" +:+ NodeIDENV ∧ cva_VolName a = v ∧
  cva_Iqn a = cv_Iqn target ∧ cva_TargetPortal a = cv_TargetPortal target ∧
  om_DeletionTimestamp (cva_Meta a) = None.

Lemma kept_live a : om_DeletionTimestamp (cva_Meta a) = None → kept a = Some a.
Proof. unfold kept. by intros ->. Qed.

Lemma kept_marked a f l :
  om_Finalizers (cva_Meta a) = Some (f :: l) → kept (mark_deleted a) = Some (mark_deleted a).
Proof. unfold kept. simpl. by intros ->. Qed.

(** A capability the node service can stage: block access, or mount access
    with a filesystem. *)
Definition stageable (c : option VolumeCapability) : Prop :=
  match GetAccessType c with
  | ATBlock => True | ATMount m => GetFsType m ≠ "" | ATNone => False
  end.

Lemma stageable_mount c : stageable c → accessType c ≠ "" ∧
  (bool_decide (GetFsType (GetMount c) = "") && bool_decide (accessType c = "mount") = false).
Proof.
  unfold stageable, accessType, GetMount. destruct (GetAccessType c); [|intros H..]; try done.
  split; [done|]. by rewrite bool_decide_eq_false_2.
Qed.

Lemma attachmentFor_new req n :
  nsr_VolumeId req ≠ "" → stageable (nsr_VolumeCapability req) →
  ∃ o, attachmentFor req n = inl o ∧ om_Finalizers (cva_Meta o) = None ∧
    om_DeletionTimestamp (cva_Meta o) = None ∧ cva_StagingTargetPath o = "" ∧
    cva_TargetPath o = "" ∧ name_of o = nsr_VolumeId req +:+ "-" +:+ n ∧
    cva_VolName o = nsr_VolumeId req.
Proof.
  intros Hv [Ha Hm]%stageable_mount. unfold attachmentFor. cbv zeta.
  unfold Cva.WithName, Cva.setText. rewrite bool_decide_eq_false_2.
  2: { intros Hx. by destruct (nsr_VolumeId req). }
  unfold Cva.WithLabels. rewrite bool_decide_eq_false_2 by apply insert_non_empty.
  simpl. unfold Cva.WithLabelsNew. rewrite bool_decide_eq_false_2 by apply insert_non_empty.
  unfold Cva.WithVolName, Cva.setText. rewrite bool_decide_eq_false_2 by done.
  unfold Cva.WithAccessType, Cva.setText. rewrite bool_decide_eq_false_2 by done.
  unfold Cva.WithFSType. simpl. rewrite Hm. by eexists.
Qed.

(** The control plane has what staging needs. *)
Hypothesis bound : cvc_Phase claim ≠ CVCPhasePending.
Hypothesis has_iqn : cv_Iqn target ≠ "".
Hypothesis has_portal : cv_TargetPortal target ≠ "".
Hypothesis serving : Mounts.canServeIO (cv_Phase target) = true.
Hypothesis has_device : dev ≠ "".

Lemma wp_bound v s Q : v ≠ "" → Q (ORet (true, None)) s → wps (Maya.IsCVCBound v) s Q.
Proof using bound steady.
  intros Hv HQ. unfold Maya.IsCVCBound, Maya.GetVolume. wp_bind. wp_bind.
  apply (Cvc.wp_cvcGet h (mspec healthy)); [done|by intros k e []%not_broken|].
  intros _ c. split; [done|]. intros r s' (_ & -> & ->) k. cbn [then_].
  wp_ret (Some claim, None (A := error)). wp_bind. wp_ret claim. by rewrite bool_decide_eq_false_2.
Qed.

Lemma wp_fetch v a s Q :
  v ≠ "" → name_of a = v +:+ "-" +:+ NodeIDENV → cva_VolName a = v →
  om_DeletionTimestamp (cva_Meta a) = None →
  (∀ a', fits v a' → cva_Meta a' = cva_Meta a → cva_StagingTargetPath a' = cva_StagingTargetPath a →
     Q (ORet (a', None)) s) →
  wps (Maya.FetchAndUpdateISCSIDetails v a) s Q.
Proof using has_iqn has_portal steady.
  intros Hv Hn HV Hd HQ. unfold Maya.FetchAndUpdateISCSIDetails. wp_bind.
  apply (Cv.wp_cvGet h (mspec healthy)); [done|by intros k e []%not_broken|].
  intros _ c. split; [done|]. intros r s' (_ & -> & ->) k. cbn [then_].
  wp_bind. wp_ret target. cbv zeta.
  unfold Cva.WithIscsiInterface, Cva.WithLun, Cva.WithTargetPortal, Cva.WithIQN, Cva.setText.
  rewrite !bool_decide_eq_false_2 by done. by apply HQ.
Qed.

Lemma wp_create a n s Q :
  att s = None →
  (∀ a', name_of a' = name_of a → cva_VolName a' = cva_VolName a → cva_Iqn a' = cva_Iqn a →
     cva_TargetPortal a' = cva_TargetPortal a → cva_StagingTargetPath a' = cva_StagingTargetPath a →
     om_DeletionTimestamp (cva_Meta a') = om_DeletionTimestamp (cva_Meta a) →
     Q (ORet (a', None)) (set_att (Some a') s)) →
  n ≠ "" → wps (Attach.CreateCStorVolumeAttachmentCR a n) s Q.
Proof using steady.
  intros Ha HQ Hn. unfold Attach.CreateCStorVolumeAttachmentCR, Attach.getNodeDetails. cbv zeta.
  wp_bind. wp_bind. apply (KNode.wp_nodeGet h (mspec healthy)); [by destruct n|by intros k e []%not_broken|].
  intros _ c. split; [done|]. intros r s' (_ & -> & ->) k. cbn [then_].
  wp_ret (Some nd, None (A := error)). wp_bind. wp_ret nd. wp_bind.
  apply (Cva.wp_cvaCreate h (mspec healthy)); [by intros k' e []%not_broken|].
  intros c'. split; [done|]. intros r s' (_ & Hr) k'. simpl in Hr. rewrite Ha in Hr.
  destruct Hr as [-> ->]. by apply HQ.
Qed.

(** Preparation on a node without the attachment makes it. *)
Lemma wp_prepare ns req s Q :
  NodeID ns = NodeIDENV → NodeIDENV ≠ "" → nsr_VolumeId req ≠ "" →
  stageable (nsr_VolumeCapability req) → att s = None →
  (∀ a, fits (nsr_VolumeId req) a → Q (ORet None) (set_att (Some a) s)) →
  wps (prepareVolumeForNode ns req) s Q.
Proof using bound has_iqn has_portal steady.
  intros Hns Hne Hv Hc Ha HQ. unfold prepareVolumeForNode. cbv zeta. rewrite Hns. wp_bind.
  apply wp_list_att. cbn [then_]. rewrite Ha. wp_bind. wp_ret ([] : list CStorVolumeAttachment).
  wp_bind. wp_ret (None : err).
  destruct (attachmentFor_new req NodeIDENV Hv Hc) as (o & -> & Hf & Hd & _ & _ & Hn & HV).
  wp_bind. apply wp_bound; [done|]. cbn [then_]. wp_bind.
  apply wp_fetch; [done..|]. intros a' Hfit Hm _. cbn [then_]. wp_bind.
  unfold Attach.DeleteOldCStorVolumeAttachmentCRs. wp_bind. apply wp_list_att. cbn [then_].
  rewrite Ha. wp_bind. wp_ret ([] : list CStorVolumeAttachment). wp_bind. wp_ret (inl "" : res string).
  wp_bind. wp_ret tt. cbn [then_]. wp_bind. apply wp_create; [done| |done]. cbn [then_].
  intros a2 N1 N2 N3 N4 N5 N6. apply HQ. destruct Hfit as (F1 & F2 & F3 & F4 & F5).
  split_and!; congruence.
Qed.

(** ** The mount table *)

Lemma is_mounted_none p l : is_mounted p l = false ↔ Forall (λ m, mp_Path m ≠ p) l.
Proof.
  unfold is_mounted. induction l as [|m l IH]; simpl; [by split|].
  rewrite orb_false_iff, IH, Forall_cons, bool_decide_eq_false. done.
Qed.

Lemma is_mounted_app p l l' : is_mounted p (l ++ l') = is_mounted p l || is_mounted p l'.
Proof. apply existsb_app. Qed.

Lemma device_at_none p l : is_mounted p l = false → device_at p l = "".
Proof.
  induction l as [|m l IH]; [done|]. simpl. rewrite orb_false_iff. intros [-> H]. by apply IH.
Qed.

Lemma device_at_app p l l' :
  device_at p (l ++ l') = if is_mounted p l then device_at p l else device_at p l'.
Proof.
  induction l as [|m l IH]; [done|]. simpl. case_bool_decide; [done|]. apply IH.
Qed.

Lemma without_none p l : is_mounted p l = false → without p l = l.
Proof.
  rewrite is_mounted_none. unfold without.
  induction 1 as [|m l Hm Hl IH]; [done|]. by rewrite filter_cons_True, IH.
Qed.

Lemma without_snoc p l m : is_mounted p l = false → mp_Path m = p → without p (l ++ [m]) = l.
Proof.
  intros Hl Hm. unfold without. rewrite filter_app. fold (without p l). rewrite without_none by done.
  rewrite filter_cons_False by auto. by rewrite app_nil_r.
Qed.

Lemma refs_none p l :
  is_mounted p l = false → Forall (λ m, mp_Device m ≠ "") l → refs p l = [].
Proof.
  intros Hp Hl. unfold refs. rewrite device_at_none by done. apply is_mounted_none in Hp.
  induction Hl as [|m l Hm Hl IH]; [done|]. apply Forall_cons in Hp as [Hp1 Hp2].
  rewrite filter_cons_False by naive_solver. by apply IH.
Qed.

(** *** Waiting and asking for a mount *)

Lemma wp_waited a s Q :
  Q (ORet None) s → wps (Mounts.WaitForVolumeReadyAndReachable a) s Q.
Proof using serving steady.
  intros HQ. unfold Mounts.WaitForVolumeReadyAndReachable, Mounts.WaitForVolumeToBeReady,
    Mounts.VolumeWaitRetryCount. wp_bind. cbn [Mounts.readyLoop]. wp_bind.
  unfold Attach.getVolStatus. cbv zeta. wp_bind.
  apply (Cv.wp_cvList h (mspec healthy)); [by intros k e []%not_broken|].
  intros c. split; [done|]. intros r s' (_ & -> & ->) k. cbn [then_]. wp_bind. wp_ret [target].
  wp_ret (cv_Phase target, None (A := error)). rewrite serving. wp_ret (None : err).
  unfold Mounts.WaitForVolumeToBeReachable, Mounts.VolumeWaitRetryCount. cbn [Mounts.reachableLoop].
  wp_bind. split; [done|]. by intros r s' (_ & -> & ->).
Qed.

Lemma wp_verify v p s Q :
  Forall (λ m, Str.Contains (mp_Path m) v = false) (mounts s) →
  Q (ORet (true, None)) s → wps (VerifyIfMountRequired v p) s Q.
Proof.
  intros Hm HQ. unfold VerifyIfMountRequired, Mounts.GetMounts. wp_bind. wp_bind.
  split; [done|]. intros r s' (_ & -> & ->). cbn [then_].
  assert (∀ acc, foldl (λ acc m, if Str.Contains (mp_Path m) v then acc ++ [mp_Path m] else acc)
    acc (mounts s) = acc) as Hf.
  { induction Hm as [|m l H Hl IH]; intros acc; [done|]. simpl. rewrite H. apply IH. }
  wp_ret (mounts s, None (A := error)). rewrite Hf. by wp_ret ([] : list string, None (A := error)).
Qed.

(** ** Staging *)

Section volume.
Context (v staging tgt : string) (cap : option VolumeCapability).
Hypothesis has_node : NodeIDENV ≠ "".
Hypothesis has_id : v ≠ "".
Hypothesis has_staging : staging ≠ "".
Hypothesis apart : staging ≠ tgt.
Hypothesis stageable_cap : stageable cap.

(** The path of the disk's device node. *)
Definition disk_path : string :=
  Str.Join ["/dev/disk/by-path/ip"; cv_TargetPortal target; "iscsi"; cv_Iqn target; "lun"; Str.Itoa 0] "-".

(** The mounts of others: they have a device of their own and do not touch the
    paths of the volume. *)
Definition foreign (m : MountPoint) : Prop :=
  Str.Contains (mp_Path m) v = false ∧ mp_Path m ≠ staging ∧ mp_Path m ≠ tgt ∧
  mp_Device m ≠ "" ∧ mp_Device m ≠ dev ∧ mp_Path m ≠ disk_path.

(** The node without the volume. *)
Record unused (s : bench) : Prop := {
  u_att : att s = None;
  u_session : session s = false;
  u_mounts : Forall foreign (mounts s);
  u_entry : entries s !! v = None;
  u_staging : staging ∈ dirs s
}.

(** The attachment of a staged volume. *)
Definition staged_att (a : CStorVolumeAttachment) : Prop :=
  fits v a ∧ cva_StagingTargetPath a = staging ∧ om_Finalizers (cva_Meta a) = Some [NodeIDENV] ∧
  cva_DevicePath a = stagedDevice a.

(** The mounts that staging and publishing add. *)
Definition stage_mounts : list MountPoint :=
  match GetAccessType cap with
  | ATBlock => []
  | _ => [MkMountPoint dev staging (GetFsType (GetMount cap)) (GetMountFlags (GetMount cap))]
  end.

Lemma foreign_staging l : Forall foreign l → is_mounted staging l = false.
Proof. intros H. apply is_mounted_none. eapply Forall_impl; [exact H|]. by intros m (_ & ? & _). Qed.
Lemma foreign_target l : Forall foreign l → is_mounted tgt l = false.
Proof. intros H. apply is_mounted_none. eapply Forall_impl; [exact H|]. by intros m (_ & _ & ? & _). Qed.

Lemma wp_attach a s Q :
  fits v a → is_Some (att s) →
  Q (ORet (inl dev)) (set_session true s) → wps (attachDisk a) s Q.
Proof using has_device.
  intros (_ & _ & Hi & _) Ha HQ. unfold attachDisk, getTargetIP.
  destruct (Str.Split (cva_TargetPortal a) _) as [|ip l] eqn:Hip; [by destruct (Str.Split_not_nil _ _ Hip)|].
  wp_bind. wp_ret ip. wp_bind. split; [by split|]. intros r s' (_ & -> & ->).
  wp_ret (dev, None (A := error)). by rewrite bool_decide_eq_false_2.
Qed.

Lemma wp_enter st s Q :
  Q (ORet tt) (set_entries (<[v := st]> (entries s)) s) → wps (setTransition v st) s Q.
Proof.
  intros HQ. unfold setTransition. wp_bind. split; [done|]. intros r s1 (_ & ->). wp_ret tt.
  wp_bind. split; [done|]. intros r' s2 (_ & ->). wp_ret tt.
  split; [done|]. by intros [] s3 (_ & ->).
Qed.

Lemma wp_formatted req dev' s Q :
  nsr_StagingTargetPath req = staging → nsr_VolumeCapability req = cap → dev' = dev →
  staging ∈ dirs s → session s = true → is_mounted staging (mounts s) = false →
  Q (ORet None) (set_mounts (mounts s ++
    [MkMountPoint dev staging (GetFsType (GetMount cap)) (GetMountFlags (GetMount cap))]) s) →
  wps (formatAndMount req dev') s Q.
Proof.
  intros Hp Hc -> Hd Hs Hm HQ. unfold formatAndMount. cbv zeta. rewrite Hp, Hc. wp_bind.
  split; [done|]. intros r s' (_ & -> & Hr). rewrite bool_decide_eq_true_2 in Hr by done. subst r.
  rewrite Hm. wp_ret (true, None (A := error)). wp_bind. wp_ret (None : err).
  split; [done|]. by intros r s' (_ & -> & ->).
Qed.

(** The node after staging: entered, attached, logged in and mounted. *)
Definition staged_at (s : bench) (a : CStorVolumeAttachment) (d : gset string) : bench :=
  Bench (Some a) true (mounts s ++ stage_mounts) d (entries s).

Lemma wp_stageMount req a s Q :
  nsr_VolumeId req = v → nsr_StagingTargetPath req = staging → nsr_VolumeCapability req = cap →
  fits v a → is_Some (att s) → Forall foreign (mounts s) →
  (∀ a' d m, staged_att a' → staging ∈ dirs s → dirs s ⊆ d → staging ∈ d →
     delete v m = delete v (entries s) →
     Q (ORet (inl tt)) (Bench (Some a') true (mounts s ++ stage_mounts) d m)) →
  staging ∈ dirs s →
  wps (stageMount req a) s Q.
Proof using All.
  intros Hv Hp Hc Hf [a0 Ha] Hm HQ Hd. unfold stageMount. cbv zeta. rewrite Hv, Hp, Hc.
  set (o := cva_set_DevicePath _ _).
  assert (staged_att o) as Ho.
  { split; [|by split_and!]. unfold fits in *. simpl. by destruct Hf as (?&?&?&?&?). }
  wp_bind. apply (wp_update_att a0); [done|].
  rewrite kept_live by apply Ho. cbn [then_]. wp_bind. apply wp_enter. cbn [then_].
  wp_bind. wp_ret o. wp_bind. apply wp_attach; [apply Ho|done|]. cbn [then_].
  assert (GetAccessType cap = ATBlock ∨ ∃ m, GetAccessType cap = ATMount m ∧ stage_mounts =
    [MkMountPoint dev staging (GetFsType (GetMount cap)) (GetMountFlags (GetMount cap))])
    as [Hb|(m & Hb & Hsm)].
  { unfold stageable in stageable_cap. unfold stage_mounts. destruct (GetAccessType cap); eauto; done. }
  - rewrite Hb. specialize (HQ o (dirs s) (<[v := MountUnderProgress]> (entries s)) Ho Hd).
    unfold stage_mounts in HQ. rewrite Hb, app_nil_r in HQ. apply HQ; [done|done|].
    by rewrite delete_insert_eq.
  - rewrite Hb. wp_bind. split; [done|]. intros r s1 (_ & -> & ->). wp_ret (None : err).
    wp_bind. apply wp_formatted; [done|done|done|set_solver|done|by apply foreign_staging|].
    cbn [then_]. wp_bind. apply wp_enter. cbn [then_]. rewrite <- Hsm. apply HQ; try done.
    + set_solver.
    + set_solver.
    + simpl. by rewrite !delete_insert_eq.
Qed.

(** A handler enters its volume and removes it again. *)
Lemma wp_handler st busy {A} (body : go (res A)) s Q :
  entries s !! v = None →
  wps body (set_entries (<[v := st]> (entries s)) s) (λ o s',
    match o with
    | ORet r => Q (ORet r) (set_entries (delete v (entries s')) s')
    | _ => False
    end) →
  wps (withVolume v st busy body) s Q.
Proof.
  intros Hv HQ. unfold withVolume, addVolumeToTransitionList. wp_bind. wp_bind.
  split; [done|]. intros r s1 (_ & ->). wp_ret tt. wp_defer. wp_bind.
  split; [done|]. intros r1 s1 (_ & -> & ->). wp_ret (entries s !! v). rewrite Hv. wp_bind.
  split; [done|]. intros r2 s1 (_ & ->). wp_ret tt. cbn [then_defer]. wp_bind.
  split; [done|]. intros r3 s1 (_ & ->). wp_ret tt. cbn [then_].
  wp_defer. wp_mono; [|exact HQ]. intros [x|m|c] s' H; [|done..]. cbn [then_defer]. wp_bind.
  unfold removeVolumeFromTransitionList. wp_bind. split; [done|]. intros r4 s1 (_ & ->). wp_ret tt.
  wp_defer. split; [done|]. intros r5 s1 (_ & ->). cbn [then_defer].
  wp_bind. split; [done|]. by intros r6 s1 (_ & ->).
Qed.

(** The node with the volume staged. *)
Record staged (s s' : bench) : Prop := {
  g_att : ∃ a, att s' = Some a ∧ staged_att a;
  g_session : session s' = true;
  g_mounts : mounts s' = mounts s ++ stage_mounts;
  g_dirs : staging ∈ dirs s' ∧ dirs s ⊆ dirs s';
  g_entries : entries s' = entries s
}.

Lemma wp_stage ns req s Q :
  NodeID ns = NodeIDENV → nsr_VolumeId req = v → nsr_StagingTargetPath req = staging →
  nsr_VolumeCapability req = cap → unused s →
  (∀ s', staged s s' → Q (ORet (inl tt)) s') →
  wps (NodeStageVolume ns req) s Q.
Proof using All.
  intros Hns Hv Hp Hc [Ha Hs Hm He Hd] HQ. unfold NodeStageVolume, validateNodeStageReq.
  rewrite Hv, Hc. rewrite (bool_decide_eq_false_2 (cap = None)).
  2: { intros ->. exact stageable_cap. }
  rewrite bool_decide_eq_false_2 by by destruct v.
  apply wp_handler; [done|]. unfold stageBody. cbv zeta. wp_bind.
  apply wp_prepare; [done|done|congruence|congruence|done|]. intros a Hfit. rewrite Hv in *.
  cbn [then_]. wp_bind. apply (wp_get_att a); [done|by destruct Hfit|by destruct v|]. cbn [then_].
  wp_bind. wp_ret a. wp_bind. apply wp_waited. cbn [then_]. wp_bind. apply wp_verify.
  { eapply Forall_impl; [exact Hm|]. by intros m [? _]. }
  cbn [then_]. apply wp_stageMount; [done..|by eexists|done| |done].
  intros a' d m Hatt _ Hsub Hin Hdel. apply HQ. split; simpl; [by exists a'|done..| |].
  - done.
  - rewrite Hdel. simpl. by rewrite delete_insert_eq, delete_id.
Qed.

(** ** Publishing *)

(** The node with the volume published: the staged device is mounted at the
    target path as well. *)
Record published (s s' : bench) : Prop := {
  p_att : ∃ a, att s' = Some a ∧ staged_att a ∧ cva_TargetPath a = tgt;
  p_session : session s' = true;
  p_mounts : ∃ m, mounts s' = (mounts s ++ stage_mounts) ++ [m] ∧ mp_Path m = tgt ∧ mp_Device m = dev;
  p_dirs : staging ∈ dirs s' ∧ tgt ∈ dirs s' ∧ dirs s ⊆ dirs s';
  p_entries : entries s' = entries s
}.

Lemma stage_mounts_device : is_mounted tgt stage_mounts = false.
Proof using apart.
  unfold stage_mounts. destruct (GetAccessType cap); try done;
    cbn [is_mounted existsb mp_Path]; by rewrite bool_decide_eq_false_2.
Qed.

Lemma device_of_staging l :
  Forall foreign l → GetAccessType cap ≠ ATBlock → device_of staging (l ++ stage_mounts) = dev.
Proof.
  intros Hl Hb. unfold device_of. rewrite is_mounted_app, device_at_app, (foreign_staging l) by done.
  unfold stage_mounts. destruct (GetAccessType cap); try done;
    cbn [is_mounted existsb mp_Path orb device_at mp_Device]; by rewrite bool_decide_eq_true_2.
Qed.

(** A bind mount onto the target. *)
Lemma wp_bound_mount src fs opts s Q :
  (is_mounted src (mounts s) = true ∨ session s = true ∧ ∃ a, att s = Some a ∧ src = cva_DevicePath a) →
  (Q (ORet None) (set_mounts (mounts s ++ [MkMountPoint (device_of src (mounts s)) tgt fs opts]) s)) →
  wps (sys (MountAt src tgt fs opts)) s Q.
Proof. intros Hg HQ. split; [done|]. by intros r s' (_ & -> & ->). Qed.

Lemma wp_publish_fs req opts m s Q :
  npr_StagingTargetPath req = staging → npr_TargetPath req = tgt →
  GetAccessType cap ≠ ATBlock → (∃ l, Forall foreign l ∧ mounts s = l ++ stage_mounts) →
  (∀ b, mp_Path b = tgt → mp_Device b = dev →
     Q (ORet None) (set_mounts (mounts s ++ [b]) (set_dirs ({[tgt]} ∪ dirs s) s))) →
  wps (nodePublishVolumeForFileSystem req opts m) s Q.
Proof.
  intros Hp Ht Hb (l & Hl & Hm) HQ. unfold nodePublishVolumeForFileSystem. cbv zeta. rewrite Hp, Ht.
  wp_bind. split; [done|]. intros r s1 (_ & -> & ->). wp_ret (None : err).
  wp_bind. split; [done|]. intros r s1 (_ & -> & ->). wp_ret (None : err).
  wp_bind. apply wp_bound_mount.
  - left. simpl. rewrite Hm, is_mounted_app. unfold stage_mounts.
    destruct (GetAccessType cap); try done; cbn [is_mounted existsb mp_Path];
      by rewrite bool_decide_eq_true_2, orb_true_r by done.
  - cbn [then_]. apply HQ; [done|]. simpl. rewrite Hm. by apply device_of_staging.
Qed.

(** The device node of a block volume, its target's directory made first if it is
    missing. *)
Lemma wp_publish_block req opts a s Q :
  npr_VolumeId req = v → npr_TargetPath req = tgt → att s = Some a → staged_att a →
  session s = true → is_mounted (cva_DevicePath a) (mounts s) = false →
  (∀ b d, mp_Path b = tgt → mp_Device b = dev → {[tgt]} ∪ dirs s ⊆ d →
     Q (ORet None) (set_mounts (mounts s ++ [b]) (set_dirs d s))) →
  wps (nodePublishVolumeForBlock req opts) s Q.
Proof using All.
  intros Hv Ht Ha Hsa Hs Hm HQ. unfold nodePublishVolumeForBlock, GetDevicePath. cbv zeta.
  rewrite Hv, Ht. wp_bind. wp_bind.
  apply (wp_get_att a); [done|by destruct Hsa as [[? _] _]|by destruct v|]. cbn [then_].
  wp_bind. wp_ret a. wp_ret (inl (cva_DevicePath a) : res string).
  wp_bind. split; [done|]. intros r s1 (_ & -> & ->). cbn [then_].
  set (there := bool_decide _). wp_ret (there, None (A := error)). wp_bind.
  set (Q1 := then_ _ _ _).
  assert (∀ d, dirs s ⊆ d → Q1 (ORet None) (set_dirs d s)) as HQ1.
  { intros d Hd. unfold Q1; cbn [then_]. wp_bind. wp_bind.
    split; [done|]. intros r s1 (_ & -> & ->). wp_ret (None : err). wp_ret (None : err).
    wp_bind. apply wp_bound_mount.
    - right. split; [done|]. by exists a.
    - cbn [then_]. apply (HQ _ ({[tgt]} ∪ d)); [done| |set_solver].
      simpl. unfold device_of. by rewrite Hm. }
  destruct there; cbn [negb].
  - specialize (HQ1 (dirs s)). destruct s. by apply HQ1.
  - unfold Mounts.MakeDir. wp_bind. split; [done|]. intros r s1 (_ & -> & ->).
    wp_ret (None : err). apply HQ1. set_solver.
Qed.

Lemma staged_disk_path a : staged_att a → cva_DevicePath a = disk_path.
Proof.
  intros ((_ & _ & Hi & Hp & _) & _ & _ & ->). unfold stagedDevice, disk_path. by rewrite Hi, Hp.
Qed.

Lemma foreign_disk l : Forall foreign l → is_mounted disk_path l = false.
Proof.
  intros H. apply is_mounted_none. eapply Forall_impl; [exact H|]. by intros m (_ & _ & _ & _ & _ & ?).
Qed.

Lemma wp_publish ns req s s1 Q :
  npr_VolumeId req = v → npr_StagingTargetPath req = staging → npr_TargetPath req = tgt →
  npr_VolumeCapability req = cap → unused s → staged s s1 →
  (∀ s2, published s s2 → Q (ORet (inl tt)) s2) →
  wps (NodePublishVolume ns req) s1 Q.
Proof using All.
  intros Hv Hp Ht Hc [_ _ Hm He _] [(a & Ha & Hsa) Hs1 Hm1 [Hd1 Hd2] He1] HQ.
  unfold NodePublishVolume. rewrite Hv. apply wp_handler; [congruence|].
  unfold publishBody. cbv zeta. rewrite Hv, Ht, Hc. set (opts := ["bind"] ++ _).
  wp_bind. apply (wp_get_att a); [done|by destruct Hsa as [[? _] _]|by destruct v|]. cbn [then_].
  wp_bind. wp_ret a. wp_bind. apply (wp_update_att a); [done|].
  set (a2 := cva_set_TargetPath _ _).
  assert (staged_att a2) as Hsa2 by done.
  rewrite kept_live by apply Hsa2. cbn [then_]. wp_bind.
  set (s2 := set_att _ _).
  assert (∀ b d, mp_Path b = tgt → mp_Device b = dev → {[tgt]} ∪ dirs s2 ⊆ d →
    Q (ORet (inl ())) (set_entries (delete v (entries s2)) (set_mounts (mounts s2 ++ [b]) (set_dirs d s2))))
    as Hend.
  { intros b d Hb1 Hb2 Hd. apply HQ. simpl in Hd. split; simpl.
    - by exists a2.
    - done.
    - exists b. by rewrite Hm1.
    - set_solver.
    - by rewrite delete_insert_eq, He1, delete_id. }
  assert (GetAccessType cap = ATBlock ∨ ∃ m, GetAccessType cap = ATMount m) as [Hb|[m Hb]].
  { unfold stageable in stageable_cap. destruct (GetAccessType cap); eauto; done. }
  - rewrite Hb. apply (wp_publish_block _ _ a2); [done..| |].
    + rewrite (staged_disk_path a2) by done. simpl. rewrite Hm1. unfold stage_mounts.
      rewrite Hb, app_nil_r. by apply foreign_disk.
    + intros b d Hb1 Hb2 Hd. cbn [then_]. by apply Hend.
  - rewrite Hb. apply wp_publish_fs; [done|done|congruence|by exists (mounts s)|].
    intros b Hb1 Hb2. cbn [then_]. by apply (Hend b ({[tgt]} ∪ dirs s2)).
Qed.

(** ** Unpublishing and unstaging *)

Lemma staged_target s s1 : unused s → staged s s1 → is_mounted tgt (mounts s1) = false.
Proof using apart.
  intros [_ _ Hm _ _] [_ _ -> _ _].
  by rewrite is_mounted_app, foreign_target, stage_mounts_device.
Qed.

Lemma wp_unpublish ns req s s2 Q :
  nupr_VolumeId req = v → nupr_TargetPath req = tgt → unused s → published s s2 →
  (∀ s3, staged s s3 → Q (ORet (inl tt)) s3) →
  wps (NodeUnpublishVolume ns req) s2 Q.
Proof using All.
  intros Hv Ht Hu [(a & Ha & Hsa & _) Hs2 (b & Hm2 & Hb1 & Hb2) (Hd1 & Hd2 & Hd3) He2] HQ.
  assert (is_mounted tgt (mounts s ++ stage_mounts) = false) as Hfree.
  { destruct Hu as [_ _ Hm _ _]. by rewrite is_mounted_app, foreign_target, stage_mounts_device. }
  unfold NodeUnpublishVolume. rewrite Hv. apply wp_handler; [rewrite He2; by destruct Hu|].
  unfold unpublishBody. cbv zeta. rewrite Hv, Ht. wp_bind. split; [done|].
  intros r s' (_ & -> & Hr). simpl in Hr. rewrite bool_decide_eq_true_2 in Hr by done. subst r.
  rewrite Hm2, is_mounted_app. cbn [is_mounted existsb].
  rewrite (bool_decide_eq_true_2 (mp_Path b = tgt)) by done.
  rewrite orb_true_r. wp_ret (false, None (A := error)). wp_bind.
  split; [done|]. intros r s' (_ & -> & ->). wp_ret (None : err). wp_bind.
  apply (wp_get_att a); [done|by destruct Hsa as [[? _] _]|by destruct v|]. cbn [then_].
  wp_bind. wp_ret a. wp_bind. apply (wp_update_att a); [done|].
  rewrite kept_live by apply Hsa. cbn [then_]. apply HQ. split; simpl; try done.
  - by eexists.
  - by rewrite Hm2, without_snoc.
  - by rewrite delete_insert_eq, He2, delete_id by by destruct Hu.
Qed.

(** The node as it was: nothing is left of the volume. *)
Record restored (s s' : bench) : Prop := {
  r_att : att s' = None;
  r_session : session s' = false;
  r_mounts : mounts s' = mounts s;
  r_entries : entries s' = entries s;
  r_dirs : (staging ∉ dirs s') ∧ (dirs s ∖ {[staging]}) ⊆ dirs s'
}.

Lemma foreign_idle s l : Forall foreign l → mounts s = l → idle_device s.
Proof.
  intros H Hs. unfold idle_device. rewrite Hs. eapply Forall_impl; [exact H|].
  by intros m (_ & _ & _ & _ & ? & _).
Qed.

Lemma foreign_devices l : Forall foreign l → Forall (λ m, mp_Device m ≠ "") l.
Proof. intros H. eapply Forall_impl; [exact H|]. by intros m (_ & _ & _ & ? & _). Qed.

(** Logging out once the staging path is clear. *)
Lemma wp_logout a s Q :
  fits v a → Forall foreign (mounts s) →
  Q (ORet None) (set_dirs (dirs s ∖ {[staging]}) (set_session false s)) →
  wps (Iscsi.detachLogout (Iscsi.MkDisk [cva_TargetPortal a] (cva_Iqn a) (cva_Lun a)
         (cva_IscsiInterface a) false false None "" (cva_VolName a)) staging) s Q.
Proof using has_portal.
  intros (_ & _ & _ & Hp & _) Hm HQ. unfold Iscsi.detachLogout.
  cbn [Iscsi.Portals Iscsi.Iqn Iscsi.Iface Iscsi.VolName Iscsi.InitiatorName].
  rewrite StageSpec.removeDuplicate_one, (bool_decide_eq_false_2 (cva_TargetPortal a = "")) by by rewrite Hp.
  cbv zeta.
  rewrite bool_decide_eq_false_2 by done. wp_bind. unfold Iscsi.detachISCSIDisk. wp_bind.
  cbn [Iscsi.detachPortals app]. wp_bind. split; [by intros _; eapply foreign_idle|].
  intros [x e] s1 (_ & He & ->). simpl in He. subst e. wp_ret (x, None (A := error)).
  wp_bind. split; [done|]. intros [y e] s1 (_ & He & ->). simpl in He. subst e.
  wp_ret (y, None (A := error)). rewrite bool_decide_eq_true_2 by done.
  wp_ret (None : err). wp_ret (None : err). split; [done|]. by intros r s1 (_ & -> & ->).
Qed.

Lemma wp_detach a l s1 Q :
  fits v a → Forall foreign l → mounts s1 = l ++ stage_mounts → staging ∈ dirs s1 →
  Q (ORet None) (Bench (att s1) false l (dirs s1 ∖ {[staging]}) (entries s1)) →
  wps (Iscsi.UnmountAndDetachDisk a staging) s1 Q.
Proof using All.
  intros Hfit Hm Hm1 Hd1 HQ.
  unfold Iscsi.UnmountAndDetachDisk, Iscsi.DetachDisk.
  wp_bind. split; [done|]. intros r s' (_ & -> & ->). rewrite bool_decide_eq_true_2 by done.
  wp_ret (true, None (A := error)). wp_bind. split; [done|]. intros r s' (_ & -> & Hr).
  rewrite bool_decide_eq_true_2 in Hr by done. subst r.
  wp_ret (negb (is_mounted staging (mounts s1)), None (A := error)). wp_bind. set (Q1 := then_ _ _ _).
  assert (Q1 (ORet None) (set_mounts l s1)) as HQ1.
  { unfold Q1. cbn [then_]. wp_bind. split; [done|]. intros r s' (_ & -> & ->). cbn [mounts set_mounts].
    rewrite refs_none by (by apply foreign_staging || by apply foreign_devices).
    wp_ret (device_at staging l, 0%Z, None (A := error)).
    by apply wp_logout. }
  rewrite Hm1, is_mounted_app, foreign_staging by done.
  destruct (is_mounted staging stage_mounts) eqn:Hst; cbn [orb negb].
  - split; [done|]. intros r s' (_ & -> & ->). rewrite Hm1.
    assert (without staging (l ++ stage_mounts) = l) as ->; [|exact HQ1].
    unfold stage_mounts in *. destruct (GetAccessType cap); try done;
      apply without_snoc; [by apply foreign_staging|done|by apply foreign_staging|done].
  - assert (stage_mounts = []) as Hn.
    { revert Hst. unfold stage_mounts. destruct (GetAccessType cap); try done;
        cbn [is_mounted existsb mp_Path]; by rewrite bool_decide_eq_true_2. }
    rewrite Hn, app_nil_r in Hm1. destruct s1. simpl in Hm1. subst. exact HQ1.
Qed.

Lemma wp_logged st s Q :
  Q (ORet tt) (set_entries (<[v := st]> (entries s)) s) → wps (setTransitionLogged v st) s Q.
Proof.
  intros HQ. unfold setTransitionLogged. wp_bind. split; [done|]. intros r s1 (_ & ->). wp_ret tt.
  wp_bind. split; [done|]. intros r' s2 (_ & ->). wp_ret tt.
  wp_bind. split; [done|]. intros r2 s2 (_ & -> & ->). cbn [then_].
  split; [done|]. by intros [] s3 (_ & ->).
Qed.

Lemma wp_unstage ns req s s1 Q :
  NodeID ns = NodeIDENV → nur_VolumeId req = v → nur_StagingTargetPath req = staging →
  unused s → staged s s1 →
  (∀ s', restored s s' → Q (ORet (inl tt)) s') →
  wps (NodeUnstageVolume ns req) s1 Q.
Proof using All.
  intros Hns Hv Hp Hu Hs1 HQ. pose proof Hu as [_ _ Hm He _].
  pose proof Hs1 as [(a & Ha & Hsa) Hse Hm1 [Hd1 Hd2] He1].
  unfold NodeUnstageVolume, validateNodeUnStageReq. rewrite Hv, Hp, !bool_decide_eq_false_2 by done.
  apply wp_handler; [congruence|]. unfold unstageBody. cbv zeta. rewrite Hv, Hp, Hns.
  wp_bind. split; [done|]. intros r s' (_ & -> & ->). cbn [then_].
  wp_bind. apply (wp_get_att a); [done|by destruct Hsa as [[? _] _]|by destruct v|]. cbn [then_].
  wp_bind. wp_ret a. destruct Hsa as (Hfit & Hst & Hfin & Hdev). rewrite Hst, bool_decide_eq_false_2 by done.
  wp_bind. apply wp_logged. cbn [then_]. wp_bind. apply (wp_detach a (mounts s)); [done..|].
  cbn [then_]. wp_bind. apply wp_logged. cbn [then_]. wp_bind.
  apply (wp_update_att a); [done|]. set (a2 := cva_set_StagingTargetPath _ _).
  rewrite kept_live by apply Hfit. cbn [then_]. wp_bind.
  apply (wp_delete_att a2); [done|by destruct Hfit|by destruct v|]. cbn [then_].
  apply HQ. split; simpl; [done..| |].
  - by rewrite !delete_insert_eq, He1, delete_id.
  - set_solver.
Qed.

(** C8: the life of a volume on a healthy node. Staging a volume the node does
    not use attaches, logs in and (but for block access) mounts it; publishing
    mounts the staged device at the target as well; unpublishing leads
    back to the staged volume; and unstaging leads back to the node as it was: no
    attachment, no session, the mount table and the transition list
    unchanged, and the staging path gone. Every call answers success, the
    session is never closed under a mount, and the mounts of others are never touched. *)
Theorem node_lifecycle ns rs rp ru rn s :
  NodeID ns = NodeIDENV →
  nsr_VolumeId rs = v → nsr_StagingTargetPath rs = staging → nsr_VolumeCapability rs = cap →
  npr_VolumeId rp = v → npr_StagingTargetPath rp = staging → npr_TargetPath rp = tgt →
  npr_VolumeCapability rp = cap → nupr_VolumeId ru = v → nupr_TargetPath ru = tgt →
  nur_VolumeId rn = v → nur_StagingTargetPath rn = staging →
  unused s →
  ⟪ s ⟫ NodeStageVolume ns rs under healthy ⟪ λ o s1, o = ORet (inl tt) ∧ staged s s1 ∧
    ⟪ s1 ⟫ NodePublishVolume ns rp under healthy ⟪ λ o s2, o = ORet (inl tt) ∧ published s s2 ∧
      ⟪ s2 ⟫ NodeUnpublishVolume ns ru under healthy ⟪ λ o s3, o = ORet (inl tt) ∧ staged s s3 ∧
        ⟪ s3 ⟫ NodeUnstageVolume ns rn under healthy ⟪ λ o s4, o = ORet (inl tt) ∧ restored s s4 ⟫ ⟫ ⟫ ⟫.
Proof using All.
  intros Hns S1 S2 S3 P1 P2 P3 P4 U1 U2 N1 N2 Hu.
  apply wp_stage; [done..|]. intros s1 H1. split_and!; [done|done|].
  apply (wp_publish ns rp s); [done..|]. intros s2 H2. split_and!; [done|done|].
  apply (wp_unpublish ns ru s); [done..|]. intros s3 H3. split_and!; [done|done|].
  apply (wp_unstage ns rn s); [done..|]. by intros s4 H4.
Qed.

(** ** Staging twice *)

Lemma wp_waitDeleted_bench k name s Q : Q (ORet tt) s → wps (Attach.waitDeleted k name) s Q.
Proof using steady.
  revert s. induction k as [|k IH]; intros s HQ; cbn [Attach.waitDeleted]; [exact HQ|].
  assert (wps (_ ← sys (Sleep 1); Attach.waitDeleted k name) s Q) as Hgo.
  { wp_bind. split; [done|]. intros [] s1 (_ & ->). by apply IH. }
  wp_bind. apply (Cva.wp_cvaGet h (mspec healthy)).
  1, 2: intros; cbn [then_]; case_match; [exact HQ|exact Hgo].
  intros _ c. split; [done|]. intros r s' (_ & -> & _) kc. cbn [then_]. destruct r as [o e].
  destruct (match e with Some _ => _ | None => _ end); [exact HQ|exact Hgo].
Qed.

(** Preparation for a volume whose attachment is there: the attachment is marked
    for deletion and, as its finalizer keeps it, no new one can be made. *)
Lemma wp_prepare_again ns req a s Q :
  NodeID ns = NodeIDENV → nsr_VolumeId req = v → nsr_VolumeCapability req = cap →
  att s = Some a → fits v a → om_Finalizers (cva_Meta a) = Some [NodeIDENV] →
  (∀ e, Q (ORet (Some e)) (set_att (Some (mark_deleted a)) s)) →
  wps (prepareVolumeForNode ns req) s Q.
Proof using All.
  intros Hns Hv Hc Ha Hfit Hfin HQ. unfold prepareVolumeForNode. cbv zeta. rewrite Hns. wp_bind.
  apply wp_list_att. cbn [then_]. rewrite Ha. wp_bind. wp_ret [a]. wp_bind.
  cbn [checkAttachments]. cbv zeta. pose proof Hfit as (Hn & _ & _ & _ & Hd).
  rewrite Hv. rewrite (bool_decide_eq_true_2 (om_Name (cva_Meta a) = _)) by done.
  rewrite Hd. wp_ret (None : err).
  destruct (attachmentFor_new req NodeIDENV) as (o & -> & _ & Hd2 & _ & _ & Hn2 & HV2);
    [congruence|congruence|]. rewrite Hv in Hn2, HV2.
  wp_bind. apply wp_bound; [done|]. cbn [then_]. wp_bind.
  apply wp_fetch; [done..|]. intros a' _ _ _. cbn [then_]. wp_bind.
  unfold Attach.DeleteOldCStorVolumeAttachmentCRs. wp_bind. apply wp_list_att. cbn [then_].
  rewrite Ha. wp_bind. wp_ret [a]. wp_bind. cbn [Attach.deleteOldLoop]. cbv zeta. wp_bind.
  fold (name_of a). apply (Cva.wp_cvaDelete h (mspec healthy)).
  { rewrite Hn. by destruct v. }
  { by intros k e []%not_broken. }
  intros _ c. split; [done|]. intros r s' (_ & Hr) k. simpl in Hr.
  rewrite Ha, bool_decide_eq_true_2 in Hr by done. destruct Hr as [-> ->].
  rewrite (kept_marked a NodeIDENV []) by done. cbn [then_].
  set (nm := if Str.HasSuffix _ _ then _ else _). wp_ret (inl nm : res string). wp_bind.
  set (Q1 := then_ _ _ _).
  assert (Q1 (ORet tt) (set_att (Some (mark_deleted a)) s)) as HQ1.
  { unfold Q1. cbn [then_]. wp_ret (None : err). wp_bind.
    unfold Attach.CreateCStorVolumeAttachmentCR, Attach.getNodeDetails. cbv zeta.
    wp_bind. wp_bind. apply (KNode.wp_nodeGet h (mspec healthy));
      [by destruct NodeIDENV|by intros k' e []%not_broken|].
    intros _ c'. split; [done|]. intros r s' (_ & -> & ->) k'. cbn [then_].
    wp_ret (Some nd, None (A := error)). wp_bind. wp_ret nd. wp_bind.
    apply (Cva.wp_cvaCreate h (mspec healthy)); [by intros k2 e []%not_broken|].
    intros c2. split; [done|]. intros [p [e|]] s' (_ & Hr) k2; simpl in Hr; destruct Hr as [Hr ->].
    - cbn [then_]. wp_ret (a', Some e). apply HQ.
    - by destruct Hr. }
  destruct (negb _); [by apply wp_waitDeleted_bench|exact HQ1].
Qed.

(** C10: staging is not idempotent. A second NodeStageVolume for a volume that is
    staged is refused, although nothing about the volume is wrong, and before it
    is refused it has the attachment that is in use marked for deletion; from
    then on every further NodeStageVolume is refused without changing anything. *)
Theorem restage_condemns ns req s s1 a :
  NodeID ns = NodeIDENV → nsr_VolumeId req = v → nsr_VolumeCapability req = cap →
  unused s → staged s s1 → att s1 = Some a →
  ⟪ s1 ⟫ NodeStageVolume ns req under healthy ⟪ λ o s2,
    (∃ e, o = ORet (inr e)) ∧ s2 = set_att (Some (mark_deleted a)) s1 ∧
    ⟪ s2 ⟫ NodeStageVolume ns req under healthy ⟪ λ o s3, (∃ e, o = ORet (inr e)) ∧ s3 = s2 ⟫ ⟫.
Proof using All.
  intros Hns Hv Hc Hu Hs1 Ha. pose proof Hu as [_ _ _ He _].
  pose proof Hs1 as [(a' & Ha' & Hfit & _ & Hfin & _) _ _ _ He1].
  assert (a' = a) as -> by congruence.
  unfold NodeStageVolume, validateNodeStageReq. rewrite Hv, Hc.
  rewrite (bool_decide_eq_false_2 (cap = None)) by (intros ->; exact stageable_cap).
  rewrite bool_decide_eq_false_2 by by destruct v.
  apply wp_handler; [congruence|]. unfold stageBody. cbv zeta. wp_bind.
  apply (wp_prepare_again ns req a); [done..|]. intros e. cbn [then_].
  split_and!; [by eexists|..].
  { unfold set_att, set_entries. simpl. by rewrite delete_insert_eq, He1, delete_id. }
  apply wp_handler; [simpl; by rewrite delete_insert_eq, He1, delete_id|]. wp_bind.
  unfold prepareVolumeForNode. cbv zeta. wp_bind. apply wp_list_att. cbn [then_].
  wp_bind. wp_ret [mark_deleted a]. wp_bind. cbn [checkAttachments]. cbv zeta.
  destruct Hfit as (Hn & _). rewrite Hv, Hns.
  rewrite (bool_decide_eq_true_2 (om_Name _ = _)) by done. simpl.
  split; [by eexists|]. unfold set_entries, set_att. simpl.
  by rewrite !delete_insert_eq, He1, !(delete_id (entries s)) by done.
Qed.

End volume.

End node.
(** ** Examples *)

Section examples.
Import Concrete.

#[local] Instance G1 : Globals := {| OpenEBSNamespace := "openebs"; NodeIDENV := "n1" |}.
Definition h1 : Host := MkHost false (λ _, None).
Definition claim1 : CStorVolumeConfig := cvc_set_Phase "Bound" cvc_zero.
Definition target1 : CStorVolume :=
  cv_set_Iqn "iqn" (cv_set_TargetPortal "10.0.0.1:3260" (cv_set_Phase "Healthy" cv_zero)).
Definition cap1 : option VolumeCapability :=
  Some {| vc_AccessType := ATMount (Some {| FsType := "ext4"; MountFlags := [] |});
          vc_AccessMode := None |}.
Definition stage1 : NodeStageVolumeRequest :=
  {| nsr_VolumeId := "vol"; nsr_StagingTargetPath := "/staging"; nsr_VolumeCapability := cap1 |}.
Definition publish1 : NodePublishVolumeRequest := {|
  npr_VolumeId := "vol"; npr_StagingTargetPath := "/staging"; npr_TargetPath := "/target";
  npr_VolumeCapability := cap1; npr_Readonly := false; npr_VolumeContext := ∅ |}.
Definition unpublish1 : NodeUnpublishVolumeRequest :=
  {| nupr_VolumeId := "vol"; nupr_TargetPath := "/target" |}.
Definition unstage1 : NodeUnstageVolumeRequest :=
  {| nur_VolumeId := "vol"; nur_StagingTargetPath := "/staging" |}.
(** A node with its root filesystem mounted. *)
Definition root1 : MountPoint := MkMountPoint "/dev/sda1" "/" "ext4" [].
Definition bench1 : bench := Bench None false [root1] {["/staging"]} ∅.
Definition att1 : CStorVolumeAttachment :=
  cva_set_VolName "vol" (cva_set_Iqn "iqn" (cva_set_TargetPortal "10.0.0.1:3260"
    (cva_set_StagingTargetPath "/staging" (cva_set_DevicePath
       "/dev/disk/by-path/ip-10.0.0.1:3260-iscsi-iqn-lun-0"
       (cva_set_Meta (om_set_Name "vol-n1" (om_set_Finalizers (Some ["n1"]) om_zero)) cva_zero))))).
Definition bench2 : bench := Bench (Some att1) true
  [root1; MkMountPoint "/dev/sdb" "/staging" "ext4" []] {["/staging"]} ∅.

Lemma unused1 : unused target1 "/dev/sdb" "vol" "/staging" "/target" bench1.
Proof.
  split; try reflexivity; try by apply elem_of_singleton. constructor; [|constructor].
  split_and!; [reflexivity|discriminate..].
Qed.

Lemma staged1 : staged target1 "/dev/sdb" "vol" "/staging" cap1 bench1 bench2.
Proof.
  split; try reflexivity; [|simpl; set_solver].
  exists att1. unfold staged_att, fits. split_and!; try reflexivity; by left.
Qed.

Lemma node_lifecycle_witness :
  ⟪ bench1 ⟫ NodeStageVolume (NewNode "n1") stage1 under healthy h1 claim1 target1 node_zero "/dev/sdb"
  ⟪ λ o s1, o = ORet (inl tt) ∧ staged target1 "/dev/sdb" "vol" "/staging" cap1 bench1 s1 ∧
    ⟪ s1 ⟫ NodePublishVolume (NewNode "n1") publish1 under healthy h1 claim1 target1 node_zero "/dev/sdb"
    ⟪ λ o s2, o = ORet (inl tt) ∧
      published target1 "/dev/sdb" "vol" "/staging" "/target" cap1 bench1 s2 ∧
      ⟪ s2 ⟫ NodeUnpublishVolume (NewNode "n1") unpublish1
        under healthy h1 claim1 target1 node_zero "/dev/sdb"
      ⟪ λ o s3, o = ORet (inl tt) ∧ staged target1 "/dev/sdb" "vol" "/staging" cap1 bench1 s3 ∧
        ⟪ s3 ⟫ NodeUnstageVolume (NewNode "n1") unstage1
          under healthy h1 claim1 target1 node_zero "/dev/sdb"
        ⟪ λ o s4, o = ORet (inl tt) ∧ restored "/staging" bench1 s4 ⟫ ⟫ ⟫ ⟫.
Proof.
  apply (node_lifecycle h1 claim1 target1 node_zero "/dev/sdb");
    try reflexivity; try discriminate; try exact unused1.
Defined.

Lemma restage_condemns_witness :
  ⟪ bench2 ⟫ NodeStageVolume (NewNode "n1") stage1 under healthy h1 claim1 target1 node_zero "/dev/sdb"
  ⟪ λ o s2, (∃ e, o = ORet (inr e)) ∧ s2 = set_att (Some (mark_deleted att1)) bench2 ∧
    ⟪ s2 ⟫ NodeStageVolume (NewNode "n1") stage1 under healthy h1 claim1 target1 node_zero "/dev/sdb"
    ⟪ λ o s3, (∃ e, o = ORet (inr e)) ∧ s3 = s2 ⟫ ⟫.
Proof.
  apply (restage_condemns h1 claim1 target1 node_zero "/dev/sdb" ) with (v := "vol")
    (staging := "/staging") (tgt := "/target") (cap := cap1) (s := bench1);
    try reflexivity; try discriminate; [exact unused1|exact staged1].
Defined.

End examples.
End Lifecycle.
