(* ===== verification/Rely.v ===== *)
(** * Rely and guarantee over a shared state

    A state that several programs work on at once, such as the objects of the
    API server: between any two calls of a program the others may do whatever
    keeps the state's type, and in return every call the program makes must
    keep the type and be a move it is allowed.  [keeps W p R] is the matching
    judgement on programs, with its rules and the tactic [kt] that applies
    them; [stable] says that what the others do in between does not matter,
    and [pool_safe] composes any number of programs. *)

From S2P Require Export Logic.
Local Open Scope go_scope.

Create HintDb kt.

Module Rely.
Section rely.
Context {L : ApiLib}.

(** ** The shared state *)

Record sharing (S : Type) := Sharing {
  typed : S → Prop;                                    (* what everyone keeps *)
  moves : S → S → Prop;                                (* what a call may do *)
  concerns : action → bool;                            (* calls on this state *)
  permits : action → Prop;
  reacts : S → ∀ a : action, result a → S → Prop
}.
Global Arguments Sharing {S} _ _ _ _ _.
Global Arguments typed {S} _ _.
Global Arguments moves {S} _ _ _.
Global Arguments concerns {S} _ _.
Global Arguments permits {S} _ _.
Global Arguments reacts {S} _ _ _ _ _.

(** The other calls are free and leave the state alone; configuration is not
    part of it. *)
Class Aloof {S} (W : sharing S) : Prop := {
  aloof_permits a : concerns W a = false → permits W a;
  aloof_reacts a s r s' t : concerns W a = false → reacts W s a r s' → s' = s ∧ reacts W t a r t;
  aloof_moves s : moves W s s;
  aloof_config a : kind_of a = KConfig → concerns W a = false
}.

(** What a program owes the others: the call keeps the type and is a move, in
    whatever state the call finds the objects. *)
Definition guarantees {S} (W : sharing S) (a : action) : Prop :=
  ∀ s r s', typed W s → reacts W s a r s' → typed W s' ∧ moves W s s'.

(** The others act before each call: they keep the type, and are otherwise free. *)
Definition shared {S} (h : Host) (W : sharing S) : machine S := {|
  guard := λ _ a, permits W a ∧ guarantees W a;
  next := λ s a r s', sane h a r ∧
    ∃ s1, (if concerns W a then typed W s → typed W s1 else s1 = s) ∧ reacts W s1 a r s'
|}.

Lemma guarantees_aloof {S} (W : sharing S) `{!Aloof W} a :
  concerns W a = false → guarantees W a.
Proof.
  intros Ha s r s' Hs Hr. destruct (aloof_reacts a s r s' s Ha Hr) as [-> _].
  split; [done|apply aloof_moves].
Qed.

Global Instance shared_config {S} h (W : sharing S) `{!Aloof W} : ConfigFree h (mspec (shared h W)).
Proof.
  intros a s Q Ha%aloof_config HQ. split.
  { split; [by apply aloof_permits|by apply guarantees_aloof]. }
  intros r s' (Hr & s1 & H1 & Hs). rewrite Ha in H1. subst s1.
  destruct (aloof_reacts a s r s' s Ha Hs) as [-> _]. by apply HQ.
Qed.

(** ** Programs that keep the type *)

Section keeps.
Context {S : Type} (h : Host) (W : sharing S) `{!Aloof W}.
Abbreviation wps := (wp (mspec (shared h W))).

(** [p] keeps the type and makes only its moves, and its result has [R]. *)
Definition keeps {A} (p : go A) (R : A → Prop) : Prop :=
  ∀ s, typed W s → wps p s (λ o s', typed W s' ∧ match o with ORet a => R a | _ => True end).

Lemma kt_ret {A} (a : A) (R : A → Prop) : R a → keeps (mret a) R.
Proof. by intros Ha s Hs. Qed.

Lemma kt_panic {A} m (R : A → Prop) : keeps (Panic m) R.
Proof. by intros s Hs. Qed.

Lemma kt_weaken {A} (p : go A) (R R' : A → Prop) : keeps p R → (∀ a, R a → R' a) → keeps p R'.
Proof.
  intros Hp HR s Hs. wp_mono; [|by apply Hp]. intros [a|m|c] s' [? ?]; split; auto.
Qed.

Lemma kt_true {A} (p : go A) R : keeps p R → keeps p (λ _, True).
Proof. intros Hp. by eapply kt_weaken. Qed.

Lemma kt_bind {A B} (p : go A) (f : A → go B) R R' :
  keeps p R → (∀ a, R a → keeps (f a) R') → keeps (bind p f) R'.
Proof.
  intros Hp Hf s Hs. wp_bind. wp_mono; [|by apply Hp]. intros [a|m|c] s' [? ?]; simpl; [|done..].
  by apply Hf.
Qed.

Lemma kt_defer {A} (d : go ()) (p : go A) R :
  keeps d (λ _, True) → keeps p R → keeps (defer d p) R.
Proof.
  intros Hd Hp s Hs. wp_defer. wp_mono; [|by apply Hp].
  intros [a|m|c] s' [? ?]; cbn [then_defer]; [..|done];
    (wp_bind; wp_mono; [|by apply Hd]; by intros [b|m'|c'] s2 [? _]).
Qed.

Lemma kt_deref {A} (o : option A) (P : A → Prop) : (∀ a, o = Some a → P a) → keeps (deref o) P.
Proof. intros HP s Hs. destruct o; simpl; auto. Qed.

(** A call that does not concern the shared state. *)
Lemma kt_act {A} (a : action) (k : result a → go A) R :
  concerns W a = false → (∀ r, keeps (k r) R) → keeps (Act a k) R.
Proof.
  intros Ha Hk s Hs. split; [split; [by apply aloof_permits|by apply guarantees_aloof]|].
  intros r s' (_ & s1 & H1 & Hr). rewrite Ha in H1. subst s1.
  destruct (aloof_reacts a s r s' s Ha Hr) as [-> _]. by apply Hk.
Qed.

Lemma kt_only {A} (p : go A) : only (λ a, concerns W a = false) p → keeps p (λ _, True).
Proof.
  induction p as [a|m|c|a k IH]; simpl; [by intros _ s Hs..|].
  intros [Ha Hk]. apply kt_act; [done|]. intros r. by apply IH.
Qed.

(** Programs whose kinds of action never concern it. *)
Lemma kt_kinds l {A} (p : go A) :
  only (kinds l) p → (∀ a, concerns W a = true → kind_of a ∉ l) → keeps p (λ _, True).
Proof.
  intros Hp Hl. apply kt_only. eapply only_impl; [|exact Hp].
  intros a Ha. destruct (concerns W a) eqn:Hc; [|done]. by destruct (Hl a Hc).
Qed.

(** What the others do in between does not matter. *)
Lemma stable {A} (p : go A) s1 s2 :
  typed W s2 → wps p s1 (λ _, typed W) → typed W s1 → wps p s2 (λ _, typed W).
Proof.
  intros H2 Hp H1. induction p as [a|m|c|a k IH]; simpl in *; [done..|].
  destruct Hp as [Hg Hn]. split; [done|]. intros r s' (Hr & s3 & H3 & Hs').
  destruct (concerns W a) eqn:Ha.
  - apply Hn. split; [done|]. exists s3. rewrite Ha. split; [by intros _; apply H3|done].
  - subst s3. destruct (aloof_reacts a s2 r s' s1 Ha Hs') as [-> Hs1].
    apply IH, Hn. split; [done|]. exists s1. by rewrite Ha.
Qed.

End keeps.
End rely.

(** ** Automation *)

(** [kt]: walk through a program; components are closed by the hints of the
    database [kt]. *)
Ltac kt_step :=
  match goal with
  | |- keeps _ _ (mret _) _ => apply kt_ret; try done
  | |- keeps _ _ (Ret _) _ => apply kt_ret; try done
  | |- keeps _ _ (ok _) _ => apply kt_ret; try done
  | |- keeps _ _ (fail _) _ => apply kt_ret; try done
  | |- keeps _ _ (Panic _) _ => apply kt_panic
  | |- keeps _ _ (Act _ _) _ => apply kt_act; [apply _|reflexivity|intros]
  | |- keeps _ _ (defer _ _) _ => apply kt_defer
  | |- keeps _ _ (bind (deref ?o) _) _ =>
      eapply (kt_bind _ _ _ _ (λ x, o = Some x)); [by apply kt_deref|intros]
  | |- keeps _ _ (bind _ _) _ => eapply kt_bind; [solve [eauto 4 with kt nocore]|intros]
  | |- keeps _ _ (bind _ _) _ => apply (kt_bind _ _ _ _ (λ _, True)); [|intros]
  | |- keeps _ _ (mbind _ _) _ => unfold mbind, prog_bind
  | |- keeps _ _ (try _ _) _ => unfold try
  | |- keeps _ _ (let _ := _ in _) _ => cbv zeta
  | |- keeps _ _ _ (λ _, True) =>
      solve [eauto 4 with kt nocore | eapply kt_true; eauto 4 with kt nocore]
  | |- keeps _ _ (match ?x with _ => _ end) _ => destruct x eqn:?
  end.
Ltac kt := intros; repeat kt_step.

(** [kt_reads W rule]: a call that does not concern [W], opened by its rule. *)
Ltac kt_reads W rule :=
  intros ? ?; apply rule; [by intros..|]; intros;
  (split; [split; [done|by apply (guarantees_aloof W)]|]);
  intros ? ? (_ & ? & -> & Hreacts) ?;
  first [revert Hreacts; intros ->|destruct Hreacts as [-> Hreacts]]; by split.

(** ** Any number of programs *)

Section pool.
Context {L : ApiLib} {X S A : Type} (h : Host).
(** [X] says whose program it is, [A] is what it ends with; all keep the same type. *)
Context (W : X → sharing S) `{AW : ∀ x, Aloof (W x)} (T : S → Prop) (WT : ∀ x, typed (W x) = T).
(** What an action starts, and what others do to the state. *)
Context (spawn : X → action → list (X * go A)) (others : S → S → Prop).

(** One action of one program. *)
Inductive call : list (X * go A) * S → list (X * go A) * S → Prop :=
  Call ts s i x a k r s' :
    ts !! i = Some (x, Act a k) → sane h a r → reacts (W x) s a r s' →
    call (ts, s) (<[i := (x, k r)]> ts ++ spawn x a, s').

(** The same; or a change by someone else. *)
Inductive step (c : list (X * go A) * S) : list (X * go A) * S → Prop :=
  | step_call c' : call c c' → step c c'
  | step_other s' : others c.2 s' → step c (c.1, s').

(** A program that keeps the type wherever it is started. *)
Definition safe (t : X * go A) : Prop :=
  ∀ s, T s → wp (mspec (shared h (W t.1))) t.2 s (λ _, T).

Lemma keeps_safe x (p : go A) : keeps h (W x) p (λ _, True) → safe (x, p).
Proof using WT.
  intros Hp s Hs. rewrite <- (WT x) in *. wp_mono; [|by apply Hp]. by intros o s' [? _].
Qed.

Hypothesis spawn_safe : ∀ x a, permits (W x) a → Forall safe (spawn x a).

Lemma call_safe ts s ts' s' :
  call (ts, s) (ts', s') → Forall safe ts → T s →
  Forall safe ts' ∧ T s' ∧ ∃ x, moves (W x) s s'.
Proof using AW WT spawn_safe.
  intros Hstep Hts Hs. inversion Hstep as [? ? i x a k r ? Hi Hr Ha]; simplify_eq.
  pose proof (Forall_lookup_1 _ _ _ _ Hts Hi s Hs) as [[Hp Hg] Hk]. simpl in *.
  pose proof Hs as Hs0. rewrite <- (WT x) in Hs0.
  destruct (Hg s r s' Hs0 Ha) as [Hs' Hm]. rewrite (WT x) in Hs'.
  split; [|split; [done|by exists x]]. apply Forall_app. split; [|by apply spawn_safe].
  apply Forall_insert; [done|]. intros s2 Hs2. rewrite <- (WT x) in *.
  apply (stable h (W x) (k r) s' s2); [done| |done].
  apply Hk. split; [done|]. exists s. split; [by destruct (concerns (W x) a)|done].
Qed.

Hypothesis others_typed : ∀ s s', T s → others s s' → T s'.

(** The type is an invariant, and every program keeps it from wherever it is. *)
Lemma pool_safe c c' :
  Forall safe c.1 → T c.2 → rtc step c c' → Forall safe c'.1 ∧ T c'.2.
Proof using All.
  intros Hsafe Hs Hrun. induction Hrun as [c|c c1 c2 Hstep _ IH]; [done|]. apply IH.
  - destruct Hstep as [[ts1 s1] Hc|]; [|done]. destruct c. by eapply call_safe.
  - destruct Hstep as [[ts1 s1] Hc|s1 Ho]; [|by eapply others_typed].
    destruct c as [ts s]. destruct (call_safe ts s ts1 s1 Hc Hsafe Hs) as (_ & ? & _). done.
Qed.

(** ** Runs *)

(** A deterministic environment, and a schedule that says whose turn it is. *)
Context (env : ∀ a : action, S → result a * S).
Hypothesis env_reacts : ∀ x a s, sane h a (env a s).1 ∧ reacts (W x) s a (env a s).1 (env a s).2.

Definition tick (c : list (X * go A) * S) (i : nat) : list (X * go A) * S :=
  match c.1 !! i with
  | Some (x, Act a k) => let '(r, s') := env a c.2 in (<[i := (x, k r)]> c.1 ++ spawn x a, s')
  | _ => c
  end.
Definition ticks (c : list (X * go A) * S) (schedule : list nat) : list (X * go A) * S :=
  foldl tick c schedule.

(** Whether program [i] has an action to do. *)
Definition busy (c : list (X * go A) * S) (i : nat) : bool :=
  match c.1 !! i with Some (_, Act _ _) => true | _ => false end.

Lemma tick_call c i : busy c i = true → call c (tick c i).
Proof using env_reacts.
  unfold busy, tick. destruct c as [ts s]. simpl.
  destruct (ts !! i) as [[x [| | |a k]]|] eqn:Hi; try done. intros _.
  destruct (env_reacts x a s) as [Hr Hs]. destruct (env a s) as [r s'] eqn:E.
  by eapply Call.
Qed.

Lemma ticks_calls schedule c : rtc call c (ticks c schedule).
Proof using env_reacts.
  revert c. induction schedule as [|i schedule IH]; intros c; [done|].
  transitivity (tick c i); [|apply IH]. destruct (busy c i) eqn:Hb.
  - by apply rtc_once, tick_call.
  - unfold busy, tick in *. by destruct (c.1 !! i) as [[x []]|].
Qed.

Lemma calls_steps c c' : rtc call c c' → rtc step c c'.
Proof. intros Hc. eapply rtc_subrel; [|exact Hc]. by constructor. Qed.

End pool.
End Rely.
