(* ===== verification/Claims.v ===== *)
(** * The claims of all volumes under concurrent requests

    The handlers of the controller service, of any number of replicas, at work
    on the same CStorVolumeConfigs: whatever their calls' order, they create
    claims only as the builder makes them, and change nothing of a claim but its
    size and its mark for deletion.  What they do not keep is shown too: of two
    expansions that overlap, one can take back the size the other was granted. *)

From S2P Require Export ControllerSpec ExpandSpec Rely.
From Stdlib Require Import Ascii.
Local Open Scope go_scope.

Module Claims.
Import Controller ControllerSpec Rely.
(** The claims of the driver's namespace, by name. *)
Abbreviation registry := (gmap string CStorVolumeConfig).
(** What a request is answered. *)
Inductive answer :=
  | A_volume (r : res Volume)
  | A_expanded (r : res ControllerExpandVolumeResponse)
  | A_condition (r : res (Volume * VolumeCondition))
  | A_snapshot (r : res Snapshot)
  | A_capabilities (r : res (list ControllerCap))
  | A_done (r : res ()).
(** A request that is being served, and by which replica. *)
Abbreviation request := (controller * go answer)%type.

Section claims.
Context {L : ApiLib} {G : Globals} {N : CsiNames} (h : Host).

(** ** The type of a claim *)

(** A whole number of GiB, as the driver writes it. *)
Definition whole (q : quantity) : Prop := ∃ size, ExpandSpec.desired size = (q, None).

Definition sized (l : ResourceList) : Prop := ∃ q, l = Some {[ResourceStorage := q]} ∧ whole q.
Definition annotation (k : string) (c : CStorVolumeConfig) : option string :=
  default ∅ (om_Annotations (cvc_Meta c)) !! k.
Definition label (k : string) (c : CStorVolumeConfig) : option string :=
  default ∅ (om_Labels (cvc_Meta c)) !! k.

Record well_formed (c : CStorVolumeConfig) : Prop := {
  wf_name : om_Name (cvc_Meta c) ≠ "";
  wf_namespace : om_Namespace (cvc_Meta c) = OpenEBSNamespace;
  wf_size : sized (cvc_Capacity c);
  wf_provisioned : sized (cvc_ProvisionCapacity c);
  wf_volume : annotation Maya.OpenebsVolumeID c = Some (om_Name (cvc_Meta c));
  wf_request : is_Some (annotation Maya.OpenebsVolumePolicy c) ∧ is_Some (annotation Maya.OpenebsPVC c);
  wf_pool : is_Some (label Maya.OpenebsCSPCName c);
  wf_source : cvc_Source c ≠ "" → ∃ snap rest,
    Str.Split (cvc_Source c) (Ascii.ascii_of_nat 64) = snap :: rest ∧
    label "openebs.io/source-volume" c = Some snap
}.

Definition typed (s : registry) : Prop :=
  map_Forall (λ k c, k = Store.name_of c ∧ well_formed c) s.

(** ** What a controller may do to a claim *)

(** As a claim is made: nothing of it is in use yet. *)
Definition fresh (c : CStorVolumeConfig) : Prop :=
  cvc_Capacity c = cvc_ProvisionCapacity c ∧ cvc_Phase c = CVCPhasePending ∧
  cvc_StatusCapacity c = None ∧ om_DeletionTimestamp (cvc_Meta c) = None ∧
  om_Finalizers (cvc_Meta c) = Some [Maya.CVCFinalizer].

(** What becomes of a name in one call: nothing, a new claim, a claim removed
    or marked for removal, or a claim with another size. *)
Definition fate (o o' : option CStorVolumeConfig) : Prop :=
  o' = o ∨
  match o, o' with
  | None, Some c => fresh c
  | Some c, None => True
  | Some c, Some c' => c' = Store.marked c ∨ ∃ q, whole q ∧ c' = ExpandSpec.resized c q
  | None, None => True
  end.
Definition evolves (s s' : registry) : Prop := ∀ name, fate (s !! name) (s' !! name).

(** ** The API server *)

(** Objects are read, created and deleted as in [Store]; a patch is merged into
    the claim as the server has it, which need not be the one it was computed
    from.  Of merge patches this is used: the patch between two claims that
    differ in their size changes at most the size of what it is merged into,
    to the size it was made for. *)
Record merging := Merging {
  json :> ExpandSpec.codec;
  merge : string → CStorVolumeConfig → CStorVolumeConfig;
  merge_size a c qa qc q :
    cvc_Capacity a = Some {[ResourceStorage := qa]} → cvc_Capacity c = Some {[ResourceStorage := qc]} →
    merge (ExpandSpec.patch_to json a q) c = c ∨
    merge (ExpandSpec.patch_to json a q) c = ExpandSpec.resized c q
}.
Context (J : merging).

Definition registry_permits (a : action) : Prop :=
  match a with
  | CvcGet _ ns _ | CvcCreate _ ns _ | CvcDelete _ ns _ _ | CvcPatch _ ns _ _ [] => ns = OpenEBSNamespace
  | CvcList _ _ _ | CvcUpdate _ _ _ | CvcPatch _ _ _ _ _ => False
  | _ => True
  end.

Definition registry_reacts (s : registry) (a : action) : result a → registry → Prop :=
  match a with
  | CvcGet _ _ name => λ r s', s' = s ∧ Store.got h cvc_zero (s !! name) r
  | CvcCreate _ _ o => λ r s',
      (s !! Store.name_of o = None ∧ s' = <[Store.name_of o := o]> s) ∨ (is_Some r.2 ∧ s' = s)
  | CvcDelete _ _ name _ => λ r s',
      s' = delete name s ∨ s' = alter Store.marked name s ∨ (is_Some r ∧ s' = s)
  | CvcPatch _ _ name p _ => λ r s', s' = alter (merge J p) name s ∨ (is_Some r.2 ∧ s' = s)
  | CvcList _ _ _ | CvcUpdate _ _ _ => λ _ _, True
  | JsonMarshalCvc o => λ r s', s' = s ∧ match r with inl x => x = ExpandSpec.encode J o | inr _ => True end
  | TwoWayMergePatch x y => λ r s', s' = s ∧ match r with inl p => p = ExpandSpec.diff J x y | inr _ => True end
  | _ => λ _ s', s' = s
  end.

Definition touches (a : action) : bool :=
  match a with
  | CvcGet _ _ _ | CvcList _ _ _ | CvcCreate _ _ _ | CvcUpdate _ _ _ | CvcDelete _ _ _ _
  | CvcPatch _ _ _ _ _ => true
  | _ => false
  end.

Definition volumes : sharing registry := Sharing typed evolves touches registry_permits registry_reacts.

Lemma evolves_refl s : evolves s s.
Proof. intros name. by left. Qed.

Global Instance volumes_aloof : Aloof volumes.
Proof.
  split.
  - by intros [].
  - intros a s r s' t Ha Hr. destruct a; try discriminate Ha; try done; by destruct Hr as [-> ?].
  - apply evolves_refl.
  - by intros [].
Qed.

(** ** Every call of a controller *)

Lemma wf_deleted c : well_formed c → well_formed (Store.marked c).
Proof. by intros []; split. Qed.

Lemma wf_resized c q : whole q → well_formed c → well_formed (ExpandSpec.resized c q).
Proof. intros Hq []; split; try done. by exists q. Qed.

(** A call that changes the claim of one name. *)
Lemma evolves_at s name o : fate (s !! name) o → evolves s (partial_alter (λ _, o) name s).
Proof.
  intros Hf k. destruct (decide (k = name)) as [->|Hk].
  - by rewrite lookup_partial_alter_eq.
  - rewrite lookup_partial_alter_ne by done. by left.
Qed.

Lemma typed_at s name o :
  typed s → (∀ c, o = Some c → name = Store.name_of c ∧ well_formed c) →
  typed (partial_alter (λ _, o) name s).
Proof.
  intros Hs Ho k c. rewrite lookup_partial_alter_Some. intros [[-> Hc]|[_ Hc]]; auto.
Qed.

Lemma alter_at (f : CStorVolumeConfig → CStorVolumeConfig) name (s : registry) :
  alter f name s = partial_alter (λ _, f <$> s !! name) name s.
Proof. apply partial_alter_ext. by intros x <-. Qed.

Lemma owes_get c ns name : guarantees volumes (CvcGet c ns name).
Proof. intros s r s' Hs [-> _]. split; [done|apply evolves_refl]. Qed.

Lemma owes_create c ns o : well_formed o → fresh o → guarantees volumes (CvcCreate c ns o).
Proof.
  intros Ho Hf s r s' Hs [[Hn ->]|[_ ->]]; [|split; [done|apply evolves_refl]]. split.
  - apply typed_at; [done|]. by intros ? [= <-].
  - apply evolves_at. rewrite Hn. by right.
Qed.

Lemma owes_delete c ns name b : guarantees volumes (CvcDelete c ns name b).
Proof.
  intros s r s' Hs [->|[->|[_ ->]]]; [| |split; [done|apply evolves_refl]].
  - split; [by apply map_Forall_delete|]. apply evolves_at. destruct (s !! name); by right.
  - rewrite alter_at. split.
    + apply typed_at; [done|]. intros o Ho. apply fmap_Some in Ho as (x & Hx & ->).
      apply Hs in Hx as [-> ?]. split; [done|by apply wf_deleted].
    + apply evolves_at. destruct (s !! name); right; [by left|done].
Qed.

Lemma owes_patch c ns name a q sub :
  well_formed a → whole q →
  guarantees volumes (CvcPatch c ns name (ExpandSpec.patch_to J a q) sub).
Proof.
  intros Ha Hq s r s' Hs [->|[_ ->]]; [|split; [done|apply evolves_refl]].
  destruct (wf_size a Ha) as (qa & Hqa & _). rewrite alter_at.
  destruct (s !! name) as [b|] eqn:Hb; simpl.
  - pose proof (Hs _ _ Hb) as [-> Hwf]. destruct (wf_size b Hwf) as (qb & Hqb & _).
    destruct (merge_size J a b qa qb q Hqa Hqb) as [Hm|Hm]; rewrite Hm; (split;
      [apply typed_at; [done|intros ? [= <-]]|apply evolves_at; rewrite Hb]).
    + done.
    + by left.
    + split; [done|by apply wf_resized].
    + right. right. by exists q.
  - split; [by apply typed_at|]. apply evolves_at. rewrite Hb. by left.
Qed.

Abbreviation safely := (keeps h volumes).
Abbreviation rules := (mspec (shared h volumes)).

(** ** The calls *)

(** The claim a successful read has found. *)
Definition found (v : string) (r : option CStorVolumeConfig * err) : Prop :=
  r.2 = None → ∃ c, r.1 = Some c ∧ Store.name_of c = v ∧ well_formed c.

Lemma kt_claimGet v : safely ('(_, r) ← Cvc.Get (Cvc.client OpenEBSNamespace) v; mret r) (found v).
Proof.
  intros s Hs. wp_bind. apply (Cvc.wp_cvcGet h rules); [by intros..|].
  intros _ c. split; [split; [done|apply owes_get]|].
  intros r s' (_ & s1 & H1 & -> & Hr) k. split; [by apply H1|].
  intros He. unfold Store.got in Hr. rewrite He in Hr. destruct Hr as [Hr [a Ha]].
  exists a. split; [congruence|]. by apply H1 in Ha as [-> ?].
Qed.

Lemma kt_GetVolume v : safely (Maya.GetVolume v) (found v).
Proof. apply kt_claimGet. Qed.

Lemma kt_getCVC v : safely (Maya.getCVC v) (found v).
Proof. apply kt_claimGet. Qed.

Lemma kt_cvcCreate o : well_formed o → fresh o →
  safely (Cvc.Create (Cvc.client OpenEBSNamespace) (Some o)) (λ _, True).
Proof.
  intros Ho Hf s Hs. apply (Cvc.wp_cvcCreate h rules); [by intros|].
  intros c. pose proof (owes_create c OpenEBSNamespace o Ho Hf) as Hc. split; [done|].
  intros r s' (_ & s1 & H1 & Hs') k. split; [|done]. exact (proj1 (Hc s1 r s' (H1 Hs) Hs')).
Qed.

Lemma kt_DeleteVolume v : safely (Maya.DeleteVolume v) (λ _, True).
Proof.
  intros s Hs. unfold Maya.DeleteVolume. wp_bind. apply (Cvc.wp_cvcDelete h rules); [by intros..|].
  intros _ c. pose proof (owes_delete c OpenEBSNamespace v true) as Hd. split; [done|].
  intros r s' (_ & s1 & H1 & Hs') k. split; [|done]. exact (proj1 (Hd s1 r s' (H1 Hs) Hs')).
Qed.

Lemma kt_updateCVCSize a q : well_formed a → whole q → safely (Maya.updateCVCSize a q) (λ _, True).
Proof.
  intros Ha Hq s Hs. unfold Maya.updateCVCSize. simpl Cvc.Build. cbn beta iota.
  fold (ExpandSpec.resized a q). wp_bind. unfold Cvc.Patch. wp_bind.
  apply (Cvc.wp_cvcgetClientOrCached h rules); [|by intros].
  intros c. simpl. split; [split; [done|by apply (guarantees_aloof volumes)]|].
  intros [x|e] s1 (_ & ? & -> & -> & Hx); simpl; [subst x|done].
  split; [split; [done|by apply (guarantees_aloof volumes)]|].
  intros [y|e] s2 (_ & ? & -> & -> & Hy); simpl; [subst y|done].
  split; [split; [done|by apply (guarantees_aloof volumes)]|].
  intros [p|e] s3 (_ & ? & -> & -> & Hp); simpl; [subst p|done].
  pose proof (owes_patch c OpenEBSNamespace (Store.name_of a) a q [] Ha Hq) as Hg.
  rewrite (wf_namespace a Ha). split; [done|].
  intros [o [e|]] s4 (_ & s5 & H5 & Hr); simpl; (split; [|done]); exact (proj1 (Hg s5 _ s4 (H5 Hs) Hr)).
Qed.

(** ** Reads of other objects *)

Lemma kt_nodeList : safely (KNode.List (KNode.NewKubeClient []) 0) (λ _, True).
Proof. kt_reads volumes (KNode.wp_nodeList h rules). Qed.

Lemma kt_pvcGet ns name : safely (Pvc.Get (Pvc.client ns) name) (λ _, True).
Proof. kt_reads volumes (Pvc.wp_pvcGet h rules). Qed.

Lemma kt_volumeGet name : safely (Cv.Get (Cv.client OpenEBSNamespace) name) (λ _, True).
Proof. kt_reads volumes (Cv.wp_cvGet h rules). Qed.

Lemma kt_volumeList sel : safely (Cv.List (Cv.client OpenEBSNamespace) sel) (λ _, True).
Proof. kt_reads volumes (Cv.wp_cvList h rules). Qed.

Lemma kt_truthy k : safely (Env.Truthy k) (λ _, True).
Proof. eapply kt_kinds; [apply _|apply only_Truthy|]. intros a Ha Hk. destruct a; first [discriminate Ha|no_kind Hk]. Qed.

Lemma kt_sendEvent a b c d e f : safely (sendEventOrIgnore a b c d e f) (λ _, True).
Proof. unfold sendEventOrIgnore. apply (kt_bind _ _ _ _ (λ _, True)); [apply kt_truthy|]. kt. Qed.
#[local] Hint Resolve kt_GetVolume kt_getCVC kt_DeleteVolume kt_updateCVCSize kt_nodeList kt_pvcGet
  kt_volumeGet kt_volumeList kt_truthy kt_sendEvent : kt.

(** ** Provisioning and resizing *)

Lemma quantity_whole size : (ExpandSpec.desired size).2 = None → whole (ExpandSpec.desired size).1.
Proof. intros H. exists size. destruct (ExpandSpec.desired size). simpl in *. congruence. Qed.

(** What the builder makes of a request is of the type, and new. *)
Lemma built_wf r a l q o :
  annotations_of r a → l !! Maya.OpenebsCSPCName = Some (pr_cspc r) →
  (pr_snapshot r ≠ "" → ∃ snap rest, Str.Split (pr_snapshot r) (Ascii.ascii_of_nat 64) =
     snap :: rest ∧ l !! "openebs.io/source-volume" = Some snap) →
  pr_quantity r = (q, None) →
  Maya.provisionObject (pr_name r) (pr_count r) (pr_snapshot r) (pr_node r) a l q = inl o →
  well_formed o ∧ fresh o.
Proof.
  intros (A1 & A2 & A3)%annotations_lookup Hl Hs Hq (Hf & ->)%provisionObject_inl.
  assert (whole q) as Hw by by exists (pr_size r).
  assert (pr_name r ≠ "") as Hn.
  { unfold provision_fails in Hf. rewrite !orb_false_iff, !bool_decide_eq_false in Hf. naive_solver. }
  split; [|done]. split; simpl; try done; by eexists.
Qed.

Lemma kt_ProvisionVolume size volName rc cspc snap node policy pvc pvcns :
  safely (Maya.ProvisionVolume size volName rc cspc snap node policy pvc pvcns) (λ _, True).
Proof.
  set (r := MkProvision size volName rc cspc snap node policy pvc pvcns).
  unfold Maya.ProvisionVolume. cbv zeta.
  apply (kt_bind _ _ _ _ (λ x, match x with inl a => annotations_of r a | inr _ => True end)).
  { case_bool_decide; simpl; [by apply kt_ret; left|]. kt; [by right; eexists|by left]. }
  intros [a|e] Ha; [|by apply kt_ret].
  apply (kt_bind _ _ _ _ (λ l, l !! Maya.OpenebsCSPCName = Some (pr_cspc r) ∧
    (pr_snapshot r ≠ "" → ∃ snap rest, Str.Split (pr_snapshot r) (Ascii.ascii_of_nat 64) =
       snap :: rest ∧ l !! "openebs.io/source-volume" = Some snap))).
  { case_bool_decide as Hsnap; simpl; [by apply kt_ret; rewrite lookup_singleton_eq|].
    unfold Maya.GetVolumeSourceDetails. change "@"%char with (Ascii.ascii_of_nat 64).
    destruct (Str.Split snap (Ascii.ascii_of_nat 64)) as [|v0 [|v1 l]] eqn:Hsplit; simpl.
    - by destruct (Str.Split_not_nil _ _ Hsplit).
    - apply kt_panic.
    - apply kt_ret. split; [by rewrite lookup_insert_ne, lookup_singleton_eq by done|].
      intros _. exists v0, (v1 :: l). split; [done|]. by rewrite lookup_insert_eq. }
  intros l [Hl Hs]. unfold Maya.MustParse.
  destruct (ParseQuantity _) as [q [e|]] eqn:Hq; [apply kt_panic|].
  apply (kt_bind _ _ _ _ (λ x, x = q)); [by apply kt_ret|]. intros ? ->.
  destruct (Maya.provisionObject _ _ _ _ _ _ _) as [o|e] eqn:Ho; [|by apply kt_ret].
  destruct (built_wf r a l q o Ha Hl Hs Hq Ho).
  apply (kt_bind _ _ _ _ (λ _, True)); [by apply kt_cvcCreate|]. kt.
Qed.

Lemma kt_waitResize name q : safely (Maya.waitAndReverifyResizeStatus name q) (λ _, True).
Proof. unfold Maya.waitAndReverifyResizeStatus. kt. Qed.
#[local] Hint Resolve kt_ProvisionVolume kt_waitResize : kt.

Lemma kt_handleResize a q : well_formed a → whole q → safely (Maya.handleResize a q) (λ _, True).
Proof. intros Ha Hq. unfold Maya.handleResize. kt. Qed.

Lemma kt_ResizeVolume v size : safely (Maya.ResizeVolume v size) (λ _, True).
Proof.
  unfold Maya.ResizeVolume, Maya.MustParse. cbv zeta. fold (ExpandSpec.desired size).
  destruct (ExpandSpec.desired size) as [q [e|]] eqn:Hq; [apply kt_panic|].
  apply (kt_bind _ _ _ _ (λ x, x = q)); [by apply kt_ret|]. intros ? ->.
  assert (whole q) as Hw by by exists size.
  eapply kt_bind; [apply kt_getCVC|]. intros [o [e|]] Ho; [by apply kt_ret|].
  destruct (Ho eq_refl) as (a & Ha & _ & Hwf). simpl in Ha. subst o.
  apply (kt_bind _ _ _ _ (λ x, x = a)); [by apply kt_deref; intros ? [= ->]|]. intros ? ->.
  pose proof (kt_handleResize a q Hwf Hw). kt.
Qed.
#[local] Hint Resolve kt_ResizeVolume : kt.

(** ** The handlers *)

Lemma kt_segments topo ns : safely (nodesLoop topo ns) (λ _, True).
Proof. induction ns; cbn [nodesLoop]; kt. Qed.
#[local] Hint Resolve kt_segments : kt.

Lemma kt_preferred prefs ns : safely (preferredLoop prefs ns) (λ _, True).
Proof. induction prefs; cbn [preferredLoop]; kt. Qed.
#[local] Hint Resolve kt_preferred : kt.

Lemma kt_accessibility req : safely (getAccessibilityRequirements req) (λ _, True).
Proof. unfold getAccessibilityRequirements, getNode. kt. Qed.

Lemma kt_createSource c : safely (createSource c) (λ _, True).
Proof. unfold createSource, Maya.IsSourceAvailable, Maya.GetVolumeSourceDetails. kt. Qed.
#[local] Hint Resolve kt_accessibility kt_createSource : kt.

Lemma kt_volumeIP v : safely (Attach.GetVolumeIP v) (λ _, True).
Proof. unfold Attach.GetVolumeIP. kt. Qed.

Lemma kt_snapCreate ip v name : safely (Attach.snapshot_CreateSnapshot ip v name) (λ _, True).
Proof. unfold Attach.snapshot_CreateSnapshot. kt. Qed.

Lemma kt_snapDestroy ip v name : safely (Attach.snapshot_DestroySnapshot ip v name) (λ _, True).
Proof. unfold Attach.snapshot_DestroySnapshot. kt. Qed.
#[local] Hint Resolve kt_volumeIP kt_snapCreate kt_snapDestroy : kt.

(** A request to the controller service of one replica: its handler, and then
    its answer. *)
Inductive served (cs : controller) : go answer → Prop :=
  | S_create req : served cs (r ← CreateVolume cs req; mret (A_volume r))
  | S_delete v : served cs (r ← DeleteVolume cs v; mret (A_done r))
  | S_expand v cap : served cs (r ← ControllerExpandVolume cs v cap; mret (A_expanded r))
  | S_get v : served cs (r ← ControllerGetVolume cs v; mret (A_condition r))
  | S_snapshot v name : served cs (r ← CreateSnapshot cs v name; mret (A_snapshot r))
  | S_unsnapshot id : served cs (r ← DeleteSnapshot cs id; mret (A_done r))
  | S_capabilities : served cs (r ← ControllerGetCapabilities cs; mret (A_capabilities r))
  | S_unimplemented : served cs (r ← unimplemented; mret (A_done r)).

Lemma served_safely cs p : served cs p → safely p (λ _, True).
Proof.
  intros []; (apply (kt_bind _ _ _ _ (λ _, True)); [|kt]).
  - unfold CreateVolume. kt.
  - unfold DeleteVolume. kt.
  - unfold ControllerExpandVolume. kt.
  - unfold ControllerGetVolume, Maya.GetCStorVolume. kt.
  - unfold CreateSnapshot, Attach.CreateSnapshot. kt.
  - unfold DeleteSnapshot, Attach.DeleteSnapshot. kt.
  - unfold ControllerGetCapabilities. kt.
  - unfold unimplemented. kt.
Qed.

(** ** Every controller at once *)

Definition serving (t : request) : Prop := served t.1 t.2.

(** The rest of the system changes claims as it likes, within the type. *)
Definition elsewhere (s s' : registry) : Prop := typed s'.

(** A call of a handler; or that, or a change by the rest of the system. *)
Definition hcall : list request * registry → list request * registry → Prop :=
  call h (λ _, volumes) (λ _ _, []).
Definition hstep : list request * registry → list request * registry → Prop :=
  step h (λ _, volumes) (λ _ _, []) elsewhere.

(** C12: the type of claims is an invariant, and controllers change little. A
    well-formed claim is in the driver's namespace, records its own name, its
    policy, PVC and pool, names the volume it is cloned from, and asks for a
    whole number of GiB. If every claim is well formed, then in every execution of any
    number of requests to any number of replicas, interleaved in any order,
    with calls that fail or fail after having happened, and with the rest of the
    system at work within the type, every claim stays so; and each call of a
    handler at most makes a new claim (its size the provisioned size, pending,
    with its finalizer), removes one or marks it for removal, or gives one
    another whole size: everything else of a claim, a controller never changes. *)
Theorem claims_evolve c c1 c2 :
  Forall serving c.1 → typed c.2 → rtc hstep c c1 → hcall c1 c2 →
  typed c2.2 ∧ evolves c1.2 c2.2.
Proof.
  intros Hts Hs Hrun Hcall.
  assert (∀ (cs : controller) a, permits volumes a →
    Forall (safe (A := answer) h (λ _ : controller, volumes) typed) []) as Hno by done.
  destruct (pool_safe h (λ _, volumes) typed (λ _, eq_refl) (λ _ _, []) elsewhere Hno
    (λ s s' _ Hs', Hs') c c1) as [Hsafe Hs1]; [|done..|].
  { eapply Forall_impl; [exact Hts|]. intros [cs p] Hp.
    by eapply (keeps_safe h (λ _, volumes) typed (λ _, eq_refl)), served_safely. }
  destruct c1 as [ts1 s1], c2 as [ts2 s2].
  destruct (call_safe h (λ _, volumes) typed (λ _, eq_refl) (λ _ _, []) Hno
    ts1 s1 ts2 s2 Hcall Hsafe Hs1) as (_ & ? & _ & ?). done.
Qed.

End claims.

(** ** Two expansions that overlap *)

Section examples.
Import Concrete.

#[local] Instance G1 : Globals := {| OpenEBSNamespace := "openebs"; NodeIDENV := "n1" |}.
Definition h1 : Host := MkHost false (λ _, None).
Definition gi (n : Z) : Z := (n * 1024 * 1024 * 1024)%Z.

(** Claims differ in their size only; a patch is the new size. *)
Definition J1 : ExpandSpec.codec :=
  ExpandSpec.Codec _ (λ c, let q := ExpandSpec.asked c in if decide (is_int64 q) then Str.Itoa q else "")
    (λ _ b, b).
Definition merge1 (p : string) (c : CStorVolumeConfig) : CStorVolumeConfig :=
  match Str.ParseInt p with Some q => ExpandSpec.resized c q | None => c end.

Lemma merge1_patch (a c : CStorVolumeConfig) (q : quantity) :
  merge1 (ExpandSpec.patch_to J1 a q) c = if decide (is_int64 q) then ExpandSpec.resized c q else c.
Proof.
  unfold merge1, ExpandSpec.patch_to. simpl.
  replace (ExpandSpec.asked (ExpandSpec.resized a q)) with q by reflexivity.
  destruct (decide (is_int64 q)) as [Hq|]; [by rewrite Str.ParseInt_Itoa|done].
Qed.

Lemma merge1_size (a c : CStorVolumeConfig) (qa qc q : quantity) :
  cvc_Capacity a = Some {[ResourceStorage := qa]} → cvc_Capacity c = Some {[ResourceStorage := qc]} →
  merge1 (ExpandSpec.patch_to J1 a q) c = c ∨
  merge1 (ExpandSpec.patch_to J1 a q) c = ExpandSpec.resized c q.
Proof. intros _ _. rewrite merge1_patch. case_decide; auto. Qed.
Definition M1 : merging := Merging J1 merge1 merge1_size.

(** The API server, which answers every call. *)
Definition server1 (a : action) (s : registry) : result a * registry :=
  match a return result a * registry with
  | CvcGet _ _ name =>
      (match s !! name with Some o => (Some o, None) | None => (None, Some notFound) end, s)
  | CvcCreate _ _ o =>
      match s !! Store.name_of o with
      | Some _ => ((None, Some notFound), s)
      | None => ((Some o, None), <[Store.name_of o := o]> s)
      end
  | CvcDelete _ _ name _ => (None, alter Store.marked name s)
  | CvcPatch _ _ name p _ => ((None, None), alter (merge1 p) name s)
  | JsonMarshalCvc o => (inl (ExpandSpec.encode J1 o), s)
  | TwoWayMergePatch x y => (inl (ExpandSpec.diff J1 x y), s)
  | a => (quiet a, s)
  end.

Lemma server1_answers (cs : controller) a s :
  sane h1 a (server1 a s).1 ∧ reacts (volumes h1 M1) s a (server1 a s).1 (server1 a s).2.
Proof.
  destruct a; try (split; [done|reflexivity]); try (split; [by eexists|reflexivity]);
    (split; [done|]); simpl; try done.
  - split; [done|]. unfold Store.got. destruct (s !! _); simpl; [by split|]. split; [by left|done].
  - auto.
  - destruct (s !! Store.name_of o) eqn:Ho; simpl; [right; split; [by eexists|done]|by left].
  - by left.
Qed.

(** A volume of 1Gi, staged on a node; one request for 2Gi and one for 3Gi. *)
Definition volume1 : CStorVolumeConfig :=
  cvc_set_StatusCapacity (Some {["storage" := gi 1]}) (cvc_set_Phase "Bound"
    (claim "pvc-1" 3 "" "n1"
      (list_to_map [(Maya.OpenebsVolumeID, "pvc-1"); (Maya.OpenebsVolumePolicy, ""); (Maya.OpenebsPVC, "data")])
      {[Maya.OpenebsCSPCName := "cspc"]} (gi 1))).
Definition claims1 : registry := {["pvc-1" := volume1]}.
Definition expand1 (n : Z) : go answer :=
  r ← ControllerExpandVolume NewController "pvc-1" (Some {| RequiredBytes := gi n; LimitBytes := 0 |});
  mret (A_expanded r).
Definition requests1 : list request := [(NewController, expand1 2); (NewController, expand1 3)].

Abbreviation ticks1 := (ticks (λ (_ : controller) (_ : action), []) server1).

(** The first request has read the claim and is about to patch it when the
    second is served: the claim is patched, the volume grown, the request
    answered.  Then the first goes on. *)
Definition granted1 : list request * registry :=
  ticks1 (requests1, claims1) (repeat 0 12 ++ repeat 1 13).
Definition grow1 (s : registry) : registry :=
  alter (cvc_set_StatusCapacity (Some {["storage" := gi 3]})) "pvc-1" s.
Definition answered1 : list request * registry :=
  ticks1 (granted1.1, grow1 granted1.2) (repeat 1 6).
Definition overtaken1 : list request * registry := ticks1 answered1 [0].

Lemma requests1_serving : Forall serving requests1.
Proof.
  repeat (constructor; [exact (S_expand NewController "pvc-1" _)|]). constructor.
Qed.

Lemma whole_gi n : parseGi (Maya.fmtGi (Rounding.RoundUpGiB (gi n))) = (gi n, None) → whole (gi n).
Proof. intros H. by exists (gi n). Qed.

Lemma volume1_sized n l :
  parseGi (Maya.fmtGi (Rounding.RoundUpGiB (gi n))) = (gi n, None) → l = Some {["storage" := gi n]} → sized l.
Proof. intros Hn ->. exists (gi n). split; [done|by apply whole_gi]. Qed.

Lemma volume1_well_formed : well_formed volume1.
Proof.
  split; try done; try (by apply (volume1_sized 1)); try (by eexists).
Qed.

Lemma claims1_typed : typed claims1.
Proof. apply map_Forall_singleton. split; [done|exact volume1_well_formed]. Qed.

(** The claim as the volume has grown to 3Gi, and as it is left at last. *)
Definition grown1 : CStorVolumeConfig :=
  cvc_set_StatusCapacity (Some {["storage" := gi 3]}) (ExpandSpec.resized volume1 (gi 3)).
Definition shrunk1 : CStorVolumeConfig := ExpandSpec.resized grown1 (gi 2).

Lemma granted1_claims : granted1.2 = {["pvc-1" := ExpandSpec.resized volume1 (gi 3)]}.
Proof. vm_cast_no_check (eq_refl granted1.2). Qed.

Lemma answered1_claims : answered1.2 = {["pvc-1" := grown1]}.
Proof. vm_cast_no_check (eq_refl answered1.2). Qed.

Lemma overtaken1_claims : overtaken1.2 = {["pvc-1" := shrunk1]}.
Proof. vm_cast_no_check (eq_refl overtaken1.2). Qed.

Lemma grow1_typed : typed (grow1 granted1.2).
Proof.
  rewrite granted1_claims. unfold grow1. rewrite alter_singleton_eq.
  apply map_Forall_singleton. split; [done|].
  split; try done; try (by apply (volume1_sized 3)); try (by apply (volume1_sized 1)); by eexists.
Qed.

Lemma answered1_steps : rtc (hstep h1 M1) (requests1, claims1) answered1.
Proof.
  transitivity granted1.
  { apply calls_steps, (ticks_calls h1 (λ _, volumes h1 M1) _ server1 server1_answers). }
  transitivity (granted1.1, grow1 granted1.2).
  { apply rtc_once, (step_other h1 (λ _, volumes h1 M1) _ elsewhere granted1). exact grow1_typed. }
  apply calls_steps, (ticks_calls h1 (λ _, volumes h1 M1) _ server1 server1_answers).
Qed.

Lemma overtaken1_call : hcall h1 M1 answered1 overtaken1.
Proof.
  apply (tick_call h1 (λ _, volumes h1 M1) (λ _ _, []) server1 server1_answers).
  vm_compute. reflexivity.
Qed.

Lemma claims_evolve_witness : typed overtaken1.2 ∧ evolves answered1.2 overtaken1.2.
Proof.
  exact (claims_evolve h1 M1 (requests1, claims1) answered1 overtaken1
    requests1_serving claims1_typed answered1_steps overtaken1_call).
Defined.

(** What program [i] of a pool is about to do, and for which replica. *)
Definition about_to (c : list request * registry) (i : nat) : option (controller * action) :=
  match c.1 !! i with Some (cs, Act a _) => Some (cs, a) | _ => None end.

Lemma tick_about_to c i cs a :
  about_to c i = Some (cs, a) →
  ∃ k, c.1 !! i = Some (cs, Act a k) ∧
    ticks1 c [i] = (<[i := (cs, k (server1 a c.2).1)]> c.1, (server1 a c.2).2).
Proof.
  unfold about_to, ticks, tick. simpl. destruct (c.1 !! i) as [[cs' [| | |b k]]|]; try done.
  intros [= -> ->]. exists k. split; [done|]. destruct (server1 a c.2). by rewrite app_nil_r.
Qed.

(** C13: expansions of one volume that overlap can take a granted size back. Of
    two requests for a well-formed claim of 1Gi, one to 2Gi and one to 3Gi, there
    is this execution: calls of the two lead to a state in which the volume is
    grown as its claim asks; further calls lead to one in which the request for
    3Gi has been answered with that size and the claim asks for it and has it,
    while the request for 2Gi is about to send the patch it made from the claim of
    1Gi; its call leaves the claim asking for 2Gi, below the size granted: the
    check against shrinking is made on the claim as it was read, and the patch
    does not say which version it is for. *)
Theorem expansions_overtake :
  Forall serving requests1 ∧ typed claims1 ∧
  ∃ c0 c1 c2 cli k r,
    rtc (hcall h1 M1) (requests1, claims1) c0 ∧
    elsewhere c0.2 (grow1 c0.2) ∧ rtc (hcall h1 M1) (c0.1, grow1 c0.2) c1 ∧
    c1.1 !! 1 = Some (NewController, mret (A_expanded
      (inl {| cer_CapacityBytes := gi 3; cer_NodeExpansionRequired := true |}))) ∧
    c1.2 = {["pvc-1" := grown1]} ∧ ExpandSpec.asked grown1 = gi 3 ∧ ExpandSpec.actual grown1 = gi 3 ∧
    c1.1 !! 0 = Some (NewController,
      Act (CvcPatch cli "openebs" "pvc-1" (ExpandSpec.patch_to J1 volume1 (gi 2)) []) k) ∧
    hcall h1 M1 c1 c2 ∧ c2.1 = <[0 := (NewController, k r)]> c1.1 ∧
    c2.2 = {["pvc-1" := shrunk1]} ∧ ExpandSpec.asked shrunk1 = gi 2 ∧ ExpandSpec.actual shrunk1 = gi 3.
Proof.
  split; [exact requests1_serving|]. split; [exact claims1_typed|].
  destruct (tick_about_to answered1 0 NewController
    (CvcPatch (tt : @clientset L0) "openebs" "pvc-1" (ExpandSpec.patch_to J1 volume1 (gi 2)) [])) as (k & Hk & Ht).
  { vm_cast_no_check (eq_refl (about_to answered1 0)). }
  assert (∀ c sch, rtc (hcall h1 M1) c (ticks1 c sch)) as Hcalls
    by (intros; apply (ticks_calls h1 (λ _, volumes h1 M1) _ server1 server1_answers)).
  exists granted1, answered1, overtaken1, tt, k. eexists.
  split; [apply Hcalls|]. split; [exact grow1_typed|]. split; [apply Hcalls|].
  split; [vm_cast_no_check (eq_refl (answered1.1 !! 1))|].
  split; [exact answered1_claims|]. split; [reflexivity|]. split; [reflexivity|].
  split; [exact Hk|]. split; [exact overtaken1_call|]. 
  split; [unfold overtaken1; rewrite Ht; cbn [fst]; reflexivity|].
  split; [exact overtaken1_claims|]. by split.
Qed.

End examples.
End Claims.
