(* ===== verification/VolumeLife.v ===== *)
(** * The life of a volume in the control plane

    The controller service against a healthy API server with the operator at
    work behind it: creating a volume, creating it again, expanding it and
    deleting it.  Creation and deletion are carried over from [ControllerSpec]
    by refinement of machines, the expansion is run here, and the handlers
    compose. *)

From S2P Require Export ControllerSpec ExpandSpec Claims.
Local Open Scope go_scope.

Module VolumeLife.
Import Controller Store ControllerSpec.
Section life.
Context {L : ApiLib} {G : Globals} {N : CsiNames} (h : Host) (J : Claims.merging) (bound : string).

(** ** The control plane *)

(** What the operator makes of a claim: the volume has the size asked for. *)
Definition operated (c : CStorVolumeConfig) : CStorVolumeConfig :=
  cvc_set_StatusCapacity (cvc_Capacity c) (cvc_set_Phase bound c).

(** The server of [Store], which also takes merge patches; while a handler
    sleeps, the operator deals with the claim [name]. *)
Definition plane_permits (a : action) : Prop :=
  match a with
  | CvcPatch _ ns _ _ sub => ns = OpenEBSNamespace ∧ sub = []
  | JsonMarshalCvc _ | TwoWayMergePatch _ _ | Sleep _ => True
  | a => permits a
  end.
Definition plane_reacts (name : string) (s : store) (a : action) : result a → store → Prop :=
  match a with
  | CvcPatch _ _ n p _ => λ r s',
      match cvcs s !! n with
      | Some c => r.2 = None ∧ s' = set_cvcs <[n := Claims.merge J p c]> s
      | None => is_Some r.2 ∧ s' = s
      end
  | JsonMarshalCvc o => λ r s', s' = s ∧ r = inl (ExpandSpec.encode (Claims.json J) o)
  | TwoWayMergePatch x y => λ r s', s' = s ∧ r = inl (ExpandSpec.diff (Claims.json J) x y)
  | Sleep _ => λ _ s', s' = set_cvcs (alter operated name) s
  | a => reacts h s a
  end.
Definition plane (name : string) : machine store := {|
  guard := λ _, plane_permits;
  next := λ s a r s', sane h a r ∧ plane_reacts name s a r s'
|}.

Global Instance plane_config name : ConfigFree h (mspec (plane name)).
Proof.
  intros a s Q Ha HQ. split.
  - destruct a; first [discriminate Ha | done].
  - intros r s' [Hr Hs]. destruct a; first [discriminate Ha | (simpl in Hs; subst; by apply HQ)].
Qed.

(** The plane does what [apiserver] does wherever that permits a call. *)
Lemma wp_on_plane name {A} (p : go A) s Q :
  wp (mspec (apiserver h)) p s Q → wp (mspec (plane name)) p s Q.
Proof.
  apply wp_refine. intros t a Ha. split; [destruct a; try done; discriminate Ha|].
  intros r t' [Hr Ht]. split; [done|]. destruct a; try done; discriminate Ha.
Qed.

(** ** Growing a claim *)

(** A claim of the driver's that may grow to [q]. *)
Record growing (name : string) (q : quantity) (c : CStorVolumeConfig) : Prop := {
  gw_name : om_Name (cvc_Meta c) = name;
  gw_namespace : om_Namespace (cvc_Meta c) = OpenEBSNamespace;
  gw_size : ExpandSpec.growable c q;
  gw_node : cvc_NodeID c ≠ ""
}.

Section grow.
Context (Hf : flaky h = false) (name : string) (q : quantity) (c : CStorVolumeConfig).
Context (Hname : name ≠ "") (Hc : growing name q c).
(** The patch from a claim to the resized claim makes the one of the other;
    quantities compare equal to themselves. *)
Context (Hmerge : Claims.merge J (ExpandSpec.patch_to (Claims.json J) c q) c = ExpandSpec.resized c q).
Context (Hrefl : QtyCmp q q = 0%Z).
Abbreviation wpp := (wp (mspec (plane name))).

Lemma wp_getCVC o s Q :
  cvcs s !! name = Some o → Q (ORet (Some o, None)) s → wpp (Maya.getCVC name) s Q.
Proof using Hf Hname.
  intros Ho HQ. unfold Maya.getCVC. wp_bind. apply (Cvc.wp_cvcGet h (mspec (plane name))); [done|..].
  - intros k e [Hb _]. congruence.
  - intros _ k. split; [done|]. intros [p e] s' (_ & -> & Hg) ?. simpl in *.
    unfold got in Hg. rewrite Ho in Hg. destruct e as [e|]; simpl in Hg.
    + destruct Hg as [_ Hg]. destruct (IsNotFound e); congruence.
    + by destruct Hg as [-> _].
Qed.

Lemma wp_patch_size s Q :
  cvcs s !! name = Some c → Q (ORet None) (set_cvcs <[name := ExpandSpec.resized c q]> s) →
  wpp (Maya.updateCVCSize c q) s Q.
Proof using Hf Hc Hmerge.
  intros Hs HQ. unfold Maya.updateCVCSize. simpl Cvc.Build. cbn beta iota.
  fold (ExpandSpec.resized c q). wp_bind. unfold Cvc.Patch. wp_bind.
  apply (Cvc.wp_cvcgetClientOrCached h (mspec (plane name))).
  2: { intros e [Hb _]. congruence. }
  intros cli. simpl. split; [done|]. intros x s1 (_ & -> & ->). simpl. split; [done|].
  intros y s2 (_ & -> & ->). simpl. split; [done|]. intros z s3 (_ & -> & ->). simpl.
  rewrite (gw_name _ _ _ Hc), (gw_namespace _ _ _ Hc). split; [done|].
  intros [p e] s4 (_ & Hr). simpl in Hr. rewrite Hs in Hr. destruct Hr as [-> ->].
  replace (Claims.merge J _ c) with (ExpandSpec.resized c q) by (symmetry; exact Hmerge). exact HQ.
Qed.

(** The claim is patched, the operator grows the volume, the handler sees it. *)
Definition grown (s : store) : store :=
  set_cvcs (alter operated name) (set_cvcs <[name := ExpandSpec.resized c q]> s).

Lemma grown_lookup s : cvcs (grown s) !! name = Some (operated (ExpandSpec.resized c q)).
Proof. unfold grown. simpl. by rewrite lookup_alter_eq, lookup_insert_eq. Qed.

Lemma wp_resize_grown size s Q :
  ExpandSpec.desired size = (q, None) → cvcs s !! name = Some c →
  Q (ORet None) (grown s) → wpp (Maya.ResizeVolume name size) s Q.
Proof using All.
  intros Hq Hs HQ. unfold Maya.ResizeVolume, Maya.MustParse. cbv zeta.
  fold (ExpandSpec.desired size). rewrite Hq. wp_bind. wp_ret q. wp_bind.
  apply (wp_getCVC c); [done|]. cbn [then_]. wp_bind. wp_ret c.
  fold (ExpandSpec.asked c) (ExpandSpec.actual c).
  assert (wpp (Maya.handleResize c q) s Q) as Hr.
  { unfold Maya.handleResize. wp_bind. apply wp_patch_size; [done|]. cbn [then_].
    rewrite bool_decide_eq_false_2 by (apply (gw_node _ _ _ Hc)).
    unfold Maya.waitAndReverifyResizeStatus. wp_bind. split; [done|]. intros [] s1 (_ & ->).
    cbn [then_]. rewrite (gw_name _ _ _ Hc). wp_bind. eapply wp_getCVC; [apply grown_lookup|].
    cbn [then_]. wp_bind. wp_ret (operated (ExpandSpec.resized c q)).
    replace (rl_get _ _) with q by (unfold rl_get; simpl; by rewrite lookup_singleton_eq).
    rewrite bool_decide_eq_true_2 by done. exact HQ. }
  destruct (gw_size _ _ _ Hc) as [Hge Hwhy].
  case_bool_decide as H1; [lia|]. case_bool_decide as H2; [exact Hr|].
  destruct Hwhy as [?|[Hle Hne]]; [done|].
  case_bool_decide as H3; [lia|]. case_bool_decide as H4; [done|exact Hr].
Qed.

End grow.

(** ** Deleting a claim *)

Lemma wp_DeleteVolume_live cs name o s :
  flaky h = false → validateDeleteVolumeReq cs name = None →
  cvcs s !! name = Some o → om_DeletionTimestamp (cvc_Meta o) = None →
  wp (mspec (apiserver h)) (DeleteVolume cs name) s (λ x s',
    x = ORet (inl tt) ∧ ∃ s1, deleted name s s1 ∧ s' = farewell h name o s1).
Proof.
  intros Hf Hv Ho Hd. wp_mono; [|apply wp_DeleteVolume_handler].
  assert (live name s) as Hl by by exists o.
  assert (∀ r s1, read_as h name s r → removed name s s1 → r = Some o ∧ deleted name s s1) as Hread.
  { intros r s1 [->|[_ [?|?]]] [?|[_ ?]]; by try congruence. }
  intros [[[]|e]|m|x] s'; simpl.
  - intros [Hg [[-> _]|(r & s1 & Hr & Hs1 & ->)]]; [by destruct Hg|].
    destruct (Hread _ _ Hr Hs1) as [[= ->] ?]. split; [done|by exists s1].
  - rewrite Hv, Hf. by intros [[_ [?|[? ?]]]|[? _]].
  - intros [Hs1 Hr]. by destruct (Hread _ _ Hr Hs1).
  - done.
Qed.

Lemma valid_create_delete cs req :
  validateVolumeCreateReq cs req = None → validateDeleteVolumeReq cs (cvr_Name req) = None.
Proof.
  unfold validateVolumeCreateReq, validateDeleteVolumeReq.
  destruct (validateRequest cs CREATE_DELETE_VOLUME); [done|]. by case_bool_decide.
Qed.

(** What [Store]'s handlers leave alone. *)
Definition aside (s s' : store) : Prop := nodes s' = nodes s ∧ pvcs s' = pvcs s.

Lemma notify_aside req size s : cvcs (notify h req size s) = cvcs s ∧ aside s (notify h req size s).
Proof. unfold notify. by case_match. Qed.

Lemma farewell_aside name o s : aside s (farewell h name o s).
Proof. unfold farewell. by case_match. Qed.

(** ** The life of a volume *)

Definition life (cs : controller) (req : CreateVolumeRequest) (cap : option CapacityRange) :
    go (res Volume * res Volume * res ControllerExpandVolumeResponse * res ()) :=
  v1 ← CreateVolume cs req;
  v2 ← CreateVolume cs req;
  e ← ControllerExpandVolume cs (cvr_Name req) cap;
  d ← DeleteVolume cs (cvr_Name req);
  mret (v1, v2, e, d).

(** Nothing is left of the volume, or its claim waits for the finalizer with
    the last size asked for. *)
Definition departed (name : string) (q : quantity) (s s' : store) : Prop :=
  aside s s' ∧
  (cvcs s' = cvcs s ∨
   ∃ o, cvcs s' = <[name := marked o]> (cvcs s) ∧ ExpandSpec.asked o = q ∧ ExpandSpec.actual o = q).

Lemma deleted_departed name q o s0 s s1 :
  cvcs s0 !! name = None → delete name (cvcs s) = cvcs s0 → aside s0 s →
  cvcs s !! name = Some o → ExpandSpec.asked o = q → ExpandSpec.actual o = q →
  deleted name s s1 → departed name q s0 (farewell h name o s1).
Proof.
  intros Hn Hs [Ha1 Ha2] Ho Hq1 Hq2 (o' & Ho' & Hs1).
  destruct (farewell_aside name o s1) as [Hf1 Hf2]. unfold departed, aside.
  rewrite farewell_cvcs, Hf1, Hf2.
  destruct Hs1 as [->| ->]; simpl; (split; [done|]); [by left|right].
  exists o'. replace o' with o by congruence. split; [|done].
  by rewrite <- Hs, insert_delete_eq.
Qed.

(** A claim as CreateVolume makes it. *)
Record newborn (name : string) (size : Z) (c : CStorVolumeConfig) : Prop := {
  nb_name : om_Name (cvc_Meta c) = name;
  nb_namespace : om_Namespace (cvc_Meta c) = OpenEBSNamespace;
  nb_alive : om_DeletionTimestamp (cvc_Meta c) = None;
  nb_asked : ExpandSpec.asked c = (ExpandSpec.desired size).1;
  nb_phase : cvc_Phase c = CVCPhasePending;
  nb_node : cvc_NodeID c ≠ ""
}.

Lemma wp_create_new n cs req c topo s :
  grantable h cs req c topo s →
  can_provision (asked req s c topo) s →
  wp (mspec (plane n)) (CreateVolume cs req) s (λ o s', o = ORet (inl (response req (RequiredBytes c))) ∧
    aside s s' ∧ ∃ x, cvcs s' = <[cvr_Name req := x]> (cvcs s) ∧ newborn (cvr_Name req) (RequiredBytes c) x).
Proof.
  intros Hgr Hcan. pose proof Hcan as (Hnone & _). simpl in Hnone. pose proof Hgr as [_ _ _ _ Hnode _ _].
  apply wp_on_plane. wp_mono; [|apply (wp_CreateVolume_granted h cs req c topo s Hgr); by right].
  intros o s' [-> Hs']. split; [done|].
  destruct Hs' as [[_ (x & Hx & _)]|(sp & (x & Hx & Hcr) & ->)]; [congruence|].
  destruct Hx as (count & a & l & -> & _). destruct Hcr as [_ ->].
  edestruct notify_aside as [Hs1 Ha1]. rewrite Hs1. split; [exact Ha1|].
  eexists. split; [reflexivity|]. split; try done.
  unfold ExpandSpec.asked, rl_get. simpl. by rewrite lookup_singleton_eq.
Qed.

Lemma wp_create_again n cs req c topo s :
  grantable h cs req c topo s → live (cvr_Name req) s →
  wp (mspec (plane n)) (CreateVolume cs req) s (λ o s',
    o = ORet (inl (response req (RequiredBytes c))) ∧ s' = s).
Proof.
  intros Hgr Hl. apply wp_on_plane.
  wp_mono; [|apply (wp_CreateVolume_granted h cs req c topo s Hgr); by left].
  intros o s' [-> Hs']. split; [done|]. destruct Hs' as [[-> _]|(sp & (x & Hx & Hcr) & _)]; [done|].
  destruct Hcr as [Hno _], Hx as (? & ? & ? & -> & _), Hl as (y & Hy & _).
  unfold name_of in Hno. simpl in Hno. congruence.
Qed.

Lemma grantable_aside cs req c topo s s' :
  grantable h cs req c topo s → aside s s' →
  (∀ v, is_Some (cvcs s !! v) → is_Some (cvcs s' !! v)) → grantable h cs req c topo s'.
Proof.
  intros [? ? ? ? ? Hsrc ?] [Hn _] Hs. split; rewrite ?Hn; try done.
  intros id Hid. destruct (Hsrc id Hid) as (? & v & sn & rest & ? & ? & ?). eauto 10.
Qed.

(** C9: the life of a volume in the control plane. On an API server that works,
    with an operator that grows volumes as their claims ask, take a valid request
    that gives a capacity range and a topology one of whose preferences a node
    satisfies, for a volume that is not there and can be provisioned (a clone:
    whose source volume is there). It is answered with its volume, repeating it
    gives the same answer, an expansion to a
    size not below it is answered with that size once the volume has it, and
    deleting the volume succeeds; then the claims are what they were, or the
    volume's claim waits, marked, for its finalizer with the size it was expanded
    to; no other claim, node or PVC has changed. *)
Theorem volume_lifecycle cs req c topo cap q s :
  grantable h cs req c topo s →
  can_provision (asked req s c topo) s →
  ExpandSpec.desired (GetRequiredBytes cap) = (q, None) →
  (0 ≤ QtyCmp q (ExpandSpec.desired (RequiredBytes c)).1)%Z → QtyCmp q q = 0%Z →
  (∀ a, Claims.merge J (ExpandSpec.patch_to (Claims.json J) a q) a = ExpandSpec.resized a q) →
  wp (mspec (plane (cvr_Name req))) (life cs req cap) s (λ o s',
    o = ORet (inl (response req (RequiredBytes c)), inl (response req (RequiredBytes c)),
          inl {| cer_CapacityBytes := GetRequiredBytes cap; cer_NodeExpansionRequired := true |},
          inl tt) ∧
    departed (cvr_Name req) q s s').
Proof.
  intros Hgr Hcan Hq Hge Hrefl Hmerge. pose proof Hgr as [Hf Hv _ _ _ _ Hname].
  pose proof Hcan as (Hnone & _). simpl in Hnone.
  unfold life. wp_bind. wp_mono; [|by apply (wp_create_new _ cs req c topo s)].
  intros o1 s1 (-> & Ha1 & x & Hs1 & Hx). cbn [then_].
  assert (cvcs s1 !! cvr_Name req = Some x) as Hx1 by (rewrite Hs1; apply lookup_insert_eq).
  wp_bind. wp_mono; [|apply (wp_create_again _ cs req c topo s1); [|exists x; split; [done|apply Hx]]].
  2: { eapply grantable_aside; [done..|]. intros v Hv'. rewrite Hs1.
       destruct (decide (cvr_Name req = v)) as [->|]; [by rewrite lookup_insert_eq|].
       by rewrite lookup_insert_ne. }
  intros o2 s2 [-> ->]. cbn [then_]. wp_bind. unfold ControllerExpandVolume. cbv zeta. wp_bind.
  assert (growing (cvr_Name req) q x) as Hgrow.
  { destruct Hx as [? ? _ Hasked ? ?]. split; [done..| |done]. split; [by rewrite Hasked|by left]. }
  apply (wp_resize_grown Hf (cvr_Name req) q x Hname Hgrow (Hmerge x) Hrefl (GetRequiredBytes cap));
    [done|done|].
  cbn [then_]. simpl. wp_bind. set (s3 := grown _ _ _ _).
  pose proof (grown_lookup (cvr_Name req) q x s1) as Hx3. fold s3 in Hx3.
  wp_mono; [|apply wp_on_plane, (wp_DeleteVolume_live cs (cvr_Name req)
    (operated (ExpandSpec.resized x q)) s3 Hf (valid_create_delete cs req Hv) Hx3), Hx].
  intros o4 s4 [-> (s5 & Hd & ->)]. split; [done|].
  eapply (deleted_departed _ _ _ s s3 s5); [done| |exact Ha1|exact Hx3| | |exact Hd].
  - subst s3. unfold grown. simpl. rewrite Hs1. by rewrite delete_alter_eq, !delete_insert_eq, delete_id.
  - unfold ExpandSpec.asked, rl_get. simpl. by rewrite lookup_singleton_eq.
  - unfold ExpandSpec.actual, rl_get. simpl. by rewrite lookup_singleton_eq.
Qed.

End life.

(** ** Examples *)

Section examples.
Import Concrete.

#[local] Instance G1 : Globals := {| OpenEBSNamespace := "openebs"; NodeIDENV := "n1" |}.

(** A volume of 5 bytes, which is one GiB, expanded to 3 GiB. *)
Definition cap1 : option CapacityRange := Some {| RequiredBytes := 3000000000; LimitBytes := 0 |}.

Lemma req1_grantable :
  grantable ControllerSpec.h1 NewController ControllerSpec.req1 ControllerSpec.range1
    ControllerSpec.topo1 ControllerSpec.s1.
Proof. split; [done|vm_compute; reflexivity|done|done|vm_compute; discriminate|done|done]. Qed.

Lemma volume_lifecycle_witness :
  wp (mspec (plane ControllerSpec.h1 Claims.M1 "Bound" "pvc-1"))
    (life NewController ControllerSpec.req1 cap1) ControllerSpec.s1 (λ o s',
    o = ORet (inl (response ControllerSpec.req1 5), inl (response ControllerSpec.req1 5),
          inl {| cer_CapacityBytes := 3000000000; cer_NodeExpansionRequired := true |}, inl tt) ∧
    departed "pvc-1" (Claims.gi 3) ControllerSpec.s1 s').
Proof.
  apply (volume_lifecycle ControllerSpec.h1 Claims.M1 "Bound" NewController ControllerSpec.req1
    ControllerSpec.range1 ControllerSpec.topo1 cap1 (Claims.gi 3) ControllerSpec.s1).
  - exact req1_grantable.
  - exact ControllerSpec.req1_can_provision.
  - reflexivity.
  - vm_compute. discriminate.
  - reflexivity.
  - intros a. exact (Claims.merge1_patch a a (Claims.gi 3)).
Defined.

End examples.
End VolumeLife.
