(* ===== verification/Attached.v ===== *)
(** * Every attachment in the cluster is well formed

    The type of a CStorVolumeAttachment that the node plugin lives by: its name,
    labels and owner agree with its volume and node, its target is complete, and
    a finalizer or a staging path comes only with the device it protects.  The
    environment is the API server shared by the plugins of all nodes: between any
    two calls the others may do whatever keeps the type.  The theorem is the
    matching guarantee: no program of this plugin ever breaks it. *)

From S2P Require Export Protocol AttachSpec Rely.
Local Open Scope go_scope.

Module Attached.
Import NodeSvc NodeProtocol Rely.
(** The attachments of the driver's namespace, by name. *)
Abbreviation cluster := (gmap string CStorVolumeAttachment).

Section cluster.
Context {L : ApiLib} {G : Globals} {T : StatusNames} (h : Host).

(** ** The type *)

Definition name_of (a : CStorVolumeAttachment) : string := om_Name (cva_Meta a).
Definition label (k : string) (a : CStorVolumeAttachment) : string := smap_get (om_Labels (cva_Meta a)) k.

Record well_formed (a : CStorVolumeAttachment) : Prop := {
  wf_volume : cva_VolName a ≠ "";
  wf_name : name_of a = cva_VolName a +:+ "-" +:+ cva_OwnerNodeID a;
  wf_labels : label "Volname" a = cva_VolName a ∧ label "nodeID" a = cva_OwnerNodeID a;
  wf_owner : ∃ uid, om_OwnerReferences (cva_Meta a) =
    [MkOwnerReference "v1" "Node" (cva_OwnerNodeID a) uid];
  wf_access : cva_AccessType a ∈ ["block"; "mount"];
  wf_target : cva_Iqn a ≠ "" ∧ cva_TargetPortal a ≠ "" ∧ cva_Lun a = "0" ∧
    cva_IscsiInterface a = "default";
  wf_staged : cva_StagingTargetPath a ≠ "" → cva_DevicePath a = stagedDevice a;
  wf_finalizers : match default [] (om_Finalizers (cva_Meta a)) with
    | [] => True
    | [f] => (∃ v, name_of a = v +:+ "-" +:+ f) ∧ cva_DevicePath a = stagedDevice a
    | _ => False
    end
}.

(** ** The API server *)

Definition typed (s : cluster) : Prop := map_Forall (λ k a, k = name_of a ∧ well_formed a) s.

(** An object that is being deleted, waiting for its finalizers. *)
Definition condemned (a : CStorVolumeAttachment) : CStorVolumeAttachment :=
  cva_set_Meta (om_set_DeletionTimestamp (Some 0%Z) (cva_Meta a)) a.

Definition cluster_permits (a : action) : Prop :=
  match a with
  | CvaGet _ ns _ | CvaList _ ns _ | CvaCreate _ ns _ | CvaUpdate _ ns _ | CvaDelete _ ns _ _ =>
      ns = OpenEBSNamespace
  | GoCleanup a => well_formed a
  | _ => True
  end.

(** Its answers.  A call that fails may have happened all the same. *)
Definition cluster_reacts (s : cluster) (a : action) : result a → cluster → Prop :=
  match a with
  | CvaGet _ _ name => λ r s', s' = s ∧ Store.got h cva_zero (s !! name) r
  | CvaList _ _ _ => λ r s', s' = s ∧
      (r.2 = None → ∃ l, r.1 = Some l ∧ Forall (λ a, s !! name_of a = Some a) l)
  | CvaCreate _ _ o => λ r s',
      (s !! name_of o = None ∧ s' = <[name_of o := o]> s) ∨ (is_Some r.2 ∧ s' = s)
  | CvaUpdate _ _ o => λ r s', (r.2 = None → r.1 = Some o) ∧
      (s' = <[name_of o := o]> s ∨ s' = delete (name_of o) s ∨ (is_Some r.2 ∧ s' = s))
  | CvaDelete _ _ name _ => λ r s',
      s' = delete name s ∨ s' = alter condemned name s ∨ (is_Some r ∧ s' = s)
  | NodeGet _ name => λ r s', s' = s ∧
      (r.2 = None → ∃ n, r.1 = Some n ∧ om_Name (node_Meta n) = name)
  | _ => λ _ s', s' = s
  end.

(** Whether an action reads, changes or passes on attachments. *)
Definition concerns (a : action) : bool :=
  match a with
  | CvaGet _ _ _ | CvaList _ _ _ | CvaCreate _ _ _ | CvaUpdate _ _ _ | CvaDelete _ _ _ _
  | GoCleanup _ => true
  | _ => false
  end.

(** The attachments as the plugins of all nodes share them. *)
Definition attachments : sharing cluster :=
  Sharing typed (λ _ _, True) concerns cluster_permits cluster_reacts.

Global Instance attachments_aloof : Aloof attachments.
Proof.
  split.
  - by intros [].
  - intros a s r s' t Ha Hr. destruct a; try discriminate Ha; try done; by destruct Hr as [-> ?].
  - done.
  - by intros [].
Qed.

Lemma typed_insert s a : typed s → well_formed a → typed (<[name_of a := a]> s).
Proof. intros Hs Ha. by apply map_Forall_insert_2. Qed.

Lemma typed_delete s k : typed s → typed (delete k s).
Proof. apply map_Forall_delete. Qed.

Lemma wf_condemned a : well_formed a → well_formed (condemned a).
Proof. by intros []; split. Qed.

Lemma typed_condemn s k : typed s → typed (alter condemned k s).
Proof.
  intros Hs k' a. rewrite lookup_alter_Some. intros [(-> & b & Hb & ->)|[_ Ha]]; [|by apply Hs].
  apply Hs in Hb as [-> ?]. split; [done|by apply wf_condemned].
Qed.

Lemma guarantees_typed a :
  (∀ s r s', typed s → cluster_reacts s a r s' → typed s') → guarantees attachments a.
Proof. intros H s r s' Hs Hr. split; [by eapply H|done]. Qed.

Lemma guarantees_get c ns name : guarantees attachments (CvaGet c ns name).
Proof. apply guarantees_typed. by intros s r s' Hs [-> _]. Qed.

Lemma guarantees_list c ns sel : guarantees attachments (CvaList c ns sel).
Proof. apply guarantees_typed. by intros s r s' Hs [-> _]. Qed.

Lemma guarantees_create c ns a : well_formed a → guarantees attachments (CvaCreate c ns a).
Proof.
  intros Ha. apply guarantees_typed. intros s r s' Hs [[_ ->]|[_ ->]]; [by apply typed_insert|done].
Qed.

Lemma guarantees_update c ns a : well_formed a → guarantees attachments (CvaUpdate c ns a).
Proof.
  intros Ha. apply guarantees_typed.
  intros s r s' Hs (_ & [->|[->|[_ ->]]]); [by apply typed_insert|by apply typed_delete|done].
Qed.

Lemma guarantees_delete c ns name b : guarantees attachments (CvaDelete c ns name b).
Proof.
  apply guarantees_typed.
  intros s r s' Hs [->|[->|[_ ->]]]; [by apply typed_delete|by apply typed_condemn|done].
Qed.

Abbreviation keeps_type := (keeps h attachments).
Abbreviation config := (shared_config h attachments).

(** ** The calls on attachments *)

(** The result of a read that succeeded. *)
Definition object (P : CStorVolumeAttachment → Prop) (r : option CStorVolumeAttachment * err) : Prop :=
  r.2 = None → ∃ a, r.1 = Some a ∧ P a.

Lemma kt_get name :
  keeps_type (Attach.GetCStorVolumeAttachment name) (object (λ a, name_of a = name ∧ well_formed a)).
Proof.
  intros s Hs. unfold Attach.GetCStorVolumeAttachment. wp_bind.
  apply (Cva.wp_cvaGet h (mspec (shared h attachments))); [by intros..|].
  intros _ c. split; [split; [done|apply guarantees_get]|]. intros r s' (_ & s1 & H1 & -> & Hr) k. split; [by apply H1|].
  intros He. unfold Store.got in Hr. rewrite He in Hr. destruct Hr as [Hr [a Ha]].
  exists a. split; [congruence|]. by apply H1 in Ha as [-> ?].
Qed.

(** The result of a listing that succeeded. *)
Definition objects (r : option (list CStorVolumeAttachment) * err) : Prop :=
  r.2 = None → ∃ l, r.1 = Some l ∧ Forall well_formed l.

Lemma kt_list sel : keeps_type ('(_, r) ← Cva.List (Cva.client OpenEBSNamespace) sel; mret r) objects.
Proof.
  intros s Hs. wp_bind. apply (Cva.wp_cvaList h (mspec (shared h attachments))); [by intros|].
  intros c. split; [split; [done|apply guarantees_list]|]. intros r s' (_ & s1 & H1 & -> & Hr) k. split; [by apply H1|].
  intros He. destruct (Hr He) as (l & Hl & Hf). exists l. split; [done|].
  eapply Forall_impl; [exact Hf|]. intros a Ha. by apply H1 in Ha as [_ ?].
Qed.

Lemma kt_update a :
  well_formed a → keeps_type (Attach.UpdateCStorVolumeAttachmentCR (Some a)) (object (eq a)).
Proof.
  intros Ha s Hs. unfold Attach.UpdateCStorVolumeAttachmentCR. wp_bind.
  apply (Cva.wp_cvaUpdate h (mspec (shared h attachments))); [by intros|].
  intros c. pose proof (guarantees_update c OpenEBSNamespace a Ha) as Hu. split; [done|]. intros r s' (_ & s1 & H1 & Hr & Hs') k. split.
  - exact (proj1 (Hu s1 r s' (H1 Hs) (conj Hr Hs'))).
  - intros He. exists a. auto.
Qed.

Lemma kt_cvaDelete name : keeps_type (Cva.Delete (Cva.client OpenEBSNamespace) name) (λ _, True).
Proof.
  intros s Hs. apply (Cva.wp_cvaDelete h (mspec (shared h attachments))); [by intros..|].
  intros _ c. pose proof (guarantees_delete c OpenEBSNamespace name true) as Hd. split; [done|].
  intros r s' (_ & s1 & H1 & Hs') k. split; [|done]. exact (proj1 (Hd s1 r s' (H1 Hs) Hs')).
Qed.

Lemma kt_cvaGet name : keeps_type (Cva.Get (Cva.client OpenEBSNamespace) name) (λ _, True).
Proof.
  intros s Hs. apply (Cva.wp_cvaGet h (mspec (shared h attachments))); [by intros..|].
  intros _ c. split; [split; [done|apply guarantees_get]|]. intros r s' (_ & s1 & H1 & -> & Hr) k. split; [by apply H1|done].
Qed.

(** ** Automation *)

(** Kinds of actions that leave the attachments alone. *)
Definition aloof : list kind :=
  [KConfig; KClock; KPatch; KLook; KDisk; KSnap; KEvent; KLock; KList; KServe].

Lemma kt_aloof l {A} (p : go A) :
  only (kinds l) p → subkinds l aloof = true → keeps_type p (λ _, True).
Proof.
  intros Hp Hl. eapply kt_kinds; [apply _|exact (only_sub _ _ _ Hp Hl)|].
  intros a Ha Hk. destruct a; first [discriminate Ha | no_kind Hk].
Qed.
Ltac kt_only_by H := eapply kt_aloof; [apply H|reflexivity].

(** ** Reads of other objects *)

Lemma kt_nodeGet name : keeps_type (KNode.Get (KNode.NewKubeClient []) name)
  (λ r, r.2.2 = None → ∃ n, r.2.1 = Some n ∧ om_Name (node_Meta n) = name).
Proof. kt_reads attachments (KNode.wp_nodeGet h (mspec (shared h attachments))). Qed.

Lemma kt_cvGet name : keeps_type (Cv.Get (Cv.client OpenEBSNamespace) name) (λ _, True).
Proof. kt_reads attachments (Cv.wp_cvGet h (mspec (shared h attachments))). Qed.

Lemma kt_cvList sel : keeps_type (Cv.List (Cv.client OpenEBSNamespace) sel) (λ _, True).
Proof. kt_reads attachments (Cv.wp_cvList h (mspec (shared h attachments))). Qed.

Lemma kt_cvcGet name : keeps_type (Cvc.Get (Cvc.client OpenEBSNamespace) name) (λ _, True).
Proof. kt_reads attachments (Cvc.wp_cvcGet h (mspec (shared h attachments))). Qed.
#[local] Hint Resolve kt_get kt_cvaDelete kt_cvaGet kt_nodeGet kt_cvGet kt_cvList kt_cvcGet : kt.

Lemma kt_listNode : keeps_type Attach.GetVolListForNode objects.
Proof. apply kt_list. Qed.

Lemma kt_listVol v : keeps_type (Attach.GetVolList v) objects.
Proof. apply kt_list. Qed.

Lemma kt_status v : keeps_type (Attach.getVolStatus v) (λ _, True).
Proof. unfold Attach.getVolStatus. kt. Qed.

Lemma kt_nodeReady n : keeps_type (KNode.IsNodeReady n) (λ _, True).
Proof. unfold KNode.IsNodeReady. kt. Qed.

Lemma kt_bound v : keeps_type (Maya.IsCVCBound v) (λ _, True).
Proof. unfold Maya.IsCVCBound, Maya.GetVolume. kt. Qed.

Lemma kt_reachable v p : keeps_type (Mounts.WaitForVolumeToBeReachable v p) (λ _, True).
Proof. kt_only_by Mounts.only_WaitForVolumeToBeReachable. Qed.

Lemma kt_unmountPath p : keeps_type (Iscsi.UnmountPath p) (λ _, True).
Proof. kt_only_by Iscsi.only_UnmountPath. Qed.

Lemma kt_unmountAndDetach a p : keeps_type (Iscsi.UnmountAndDetachDisk a p) (λ _, True).
Proof. kt_only_by Iscsi.only_UnmountAndDetachDisk. Qed.

Lemma kt_resize p a : keeps_type (Iscsi.ResizeVolume p a) (λ _, True).
Proof. kt_only_by Iscsi.only_ResizeVolume. Qed.
#[local] Hint Resolve kt_listNode kt_listVol kt_status kt_nodeReady kt_bound kt_reachable
  kt_unmountPath kt_unmountAndDetach kt_resize : kt.

Lemma kt_readyLoop n v : keeps_type (Mounts.readyLoop n v) (λ _, True).
Proof. induction n; cbn [Mounts.readyLoop]; kt. Qed.
#[local] Hint Resolve kt_readyLoop : kt.

Lemma kt_wait a : keeps_type (Mounts.WaitForVolumeReadyAndReachable a) (λ _, True).
Proof. unfold Mounts.WaitForVolumeReadyAndReachable, Mounts.WaitForVolumeToBeReady. kt. Qed.

Lemma kt_remount a b vol : keeps_type (Mounts.RemountVolume a b vol) (λ _, True).
Proof. unfold Mounts.RemountVolume, Mounts.IsVolumeReady, Mounts.IsVolumeReachable. kt. Qed.

Lemma kt_verify v p : keeps_type (VerifyIfMountRequired v p) (λ _, True).
Proof. unfold VerifyIfMountRequired, Mounts.GetMounts. kt. Qed.

(** ** Making an attachment *)

(** What the builder of an attachment guarantees when it reports no error. *)
Definition draft (v n : string) (a : CStorVolumeAttachment) : Prop :=
  v ≠ "" ∧ cva_VolName a = v ∧ name_of a = v +:+ "-" +:+ n ∧ label "Volname" a = v ∧
  label "nodeID" a = n ∧ cva_AccessType a ∈ ["block"; "mount"] ∧
  cva_StagingTargetPath a = "" ∧ om_Finalizers (cva_Meta a) = None.

Lemma accessType_cases c : accessType c ≠ "" → accessType c ∈ ["block"; "mount"].
Proof. unfold accessType. case_match; set_solver. Qed.

Lemma attachmentFor_draft req n a : attachmentFor req n = inl a → draft (nsr_VolumeId req) n a.
Proof.
  intros Ha. pose proof (AttachSpec.attachmentFor_names _ _ _ Ha) as (N1 & N2 & N3).
  revert Ha. unfold attachmentFor. cbv zeta. set (labels := <["nodeID" := n]> _).
  unfold Cva.WithName, Cva.setText. rewrite bool_decide_eq_false_2.
  2: { intros Hx. by destruct (nsr_VolumeId req). }
  unfold Cva.WithLabels. rewrite bool_decide_eq_false_2 by apply insert_non_empty.
  simpl. unfold Cva.WithLabelsNew. rewrite bool_decide_eq_false_2 by apply insert_non_empty.
  unfold Cva.WithVolName, Cva.setText. case_bool_decide as Hv.
  { by unfold Cva.WithAccessType, Cva.WithFSType, Cva.setText; repeat case_match. }
  unfold Cva.WithAccessType, Cva.setText. case_bool_decide as Hacc.
  { by unfold Cva.WithFSType; repeat case_match. }
  unfold Cva.WithFSType. case_match; [done|]. intros Heq%(inj inl). subst a.
  split_and!; [exact Hv|exact N2|exact N1| |exact N3|by apply accessType_cases|done|done].
  unfold label. simpl. rewrite range_assign_empty. unfold labels.
  by rewrite lookup_insert_ne, lookup_singleton_eq.
Qed.

Definition targeted (a : CStorVolumeAttachment) : Prop :=
  cva_Iqn a ≠ "" ∧ cva_TargetPortal a ≠ "" ∧ cva_Lun a = "0" ∧ cva_IscsiInterface a = "default".

Lemma kt_fetch w v n a : draft v n a →
  keeps_type (Maya.FetchAndUpdateISCSIDetails w a) (λ r, r.2 = None → draft v n r.1 ∧ targeted r.1).
Proof.
  intros Ha. unfold Maya.FetchAndUpdateISCSIDetails. kt.
  unfold Cva.WithIscsiInterface, Cva.WithLun, Cva.WithTargetPortal, Cva.WithIQN, Cva.setText.
  repeat case_bool_decide; done.
Qed.

Lemma kt_nodeDetails n : keeps_type (Attach.getNodeDetails n)
  (λ r, r.2 = None → ∃ nd, r.1 = Some nd ∧ om_Name (node_Meta nd) = n).
Proof.
  unfold Attach.getNodeDetails. eapply kt_bind; [apply kt_nodeGet|].
  intros [k r] Hr. by apply kt_ret.
Qed.

Lemma kt_cvaCreate a : well_formed a →
  keeps_type (Cva.Create (Cva.client OpenEBSNamespace) (Some a)) (λ _, True).
Proof.
  intros Ha s Hs. apply (Cva.wp_cvaCreate h (mspec (shared h attachments))); [by intros|].
  intros c. pose proof (guarantees_create c OpenEBSNamespace a Ha) as Hc. split; [done|].
  intros r s' (_ & s1 & H1 & Hs') k. split; [|done]. exact (proj1 (Hc s1 r s' (H1 Hs) Hs')).
Qed.

Lemma kt_create v n a : draft v n a → targeted a →
  keeps_type (Attach.CreateCStorVolumeAttachmentCR a n) (λ _, True).
Proof.
  intros (D1 & D2 & D3 & D4 & D5 & D6 & D7 & D8) Ht.
  unfold Attach.CreateCStorVolumeAttachmentCR. cbv zeta.
  eapply kt_bind; [apply kt_nodeDetails|]. intros [o [e|]] Hr; [by apply kt_ret|].
  destruct (Hr eq_refl) as (nd & Ho & Hnd). simpl in Ho. subst o.
  apply (kt_bind _ _ _ _ (λ x, x = nd)); [by apply kt_deref; intros ? [= ->]|]. intros ? ->.
  eapply kt_bind; [|intros; kt]. apply kt_cvaCreate. split; simpl.
  - congruence.
  - by rewrite D2.
  - split; [exact (eq_trans D4 (eq_sym D2))|exact D5].
  - exists (om_UID (node_Meta nd)). by rewrite Hnd.
  - done.
  - done.
  - congruence.
  - by rewrite D8.
Qed.

Lemma kt_deleteOldLoop l n c : keeps_type (Attach.deleteOldLoop l n c) (λ _, True).
Proof. revert c. induction l; cbn [Attach.deleteOldLoop]; kt. Qed.

Lemma kt_waitDeleted k c : keeps_type (Attach.waitDeleted k c) (λ _, True).
Proof. induction k; cbn [Attach.waitDeleted]; kt. Qed.
#[local] Hint Resolve kt_deleteOldLoop kt_waitDeleted : kt.

Lemma kt_deleteOld v n : keeps_type (Attach.DeleteOldCStorVolumeAttachmentCRs v n) (λ _, True).
Proof. unfold Attach.DeleteOldCStorVolumeAttachmentCRs. kt. Qed.

Lemma kt_checkAttachments v n l : keeps_type (checkAttachments v n l) (λ _, True).
Proof. induction l; cbn [checkAttachments]; cbv zeta; kt. Qed.
#[local] Hint Resolve kt_deleteOld kt_checkAttachments : kt.

Lemma kt_setTransition v st : keeps_type (setTransition v st) (λ _, True).
Proof. unfold setTransition. kt. Qed.

Lemma kt_setTransitionLogged v st : keeps_type (setTransitionLogged v st) (λ _, True).
Proof. unfold setTransitionLogged. kt. Qed.
#[local] Hint Resolve kt_setTransition kt_setTransitionLogged : kt.

Lemma kt_prepare ns req : keeps_type (prepareVolumeForNode ns req) (λ _, True).
Proof.
  unfold prepareVolumeForNode. cbv zeta.
  repeat first
    [ eapply kt_bind; [eapply kt_fetch, attachmentFor_draft; eassumption|intros]
    | kt_step ].
  match goal with H : _ → draft _ _ _ ∧ _ |- _ => destruct H as [? ?]; [done|] end.
  by eapply kt_create.
Qed.
#[local] Hint Resolve kt_prepare kt_wait kt_verify : kt.

(** ** The handlers *)

Lemma wf_cleared a : well_formed a → well_formed (clearFinalizers a).
Proof. by intros []; split. Qed.

Lemma wf_unstaged a : well_formed a → well_formed (cva_set_StagingTargetPath "" (clearFinalizers a)).
Proof. by intros []; split. Qed.

Lemma wf_targetPath p a : well_formed a → well_formed (cva_set_TargetPath p a).
Proof. by intros []; split. Qed.

(** What staging writes: its finalizer names the node the attachment is for. *)
Lemma wf_marked p v f a :
  well_formed a → name_of a = v +:+ "-" +:+ f →
  let a := cva_set_StagingTargetPath p a in
  let a := cva_set_Meta (om_set_Finalizers (Some [f]) (cva_Meta a)) a in
  well_formed (cva_set_DevicePath (stagedDevice a) a).
Proof. intros [] Hf. split; try done. split; [by exists v|done]. Qed.

Lemma kt_updated a : well_formed a →
  keeps_type (Attach.UpdateCStorVolumeAttachmentCR (Some a)) (object well_formed).
Proof.
  intros Ha. eapply kt_weaken; [by apply kt_update|].
  intros r Hr He. destruct (Hr He) as (b & Hb & <-). by exists a.
Qed.

Lemma kt_stageMount req v a : well_formed a → name_of a = v +:+ "-" +:+ NodeIDENV →
  keeps_type (stageMount req a) (λ _, True).
Proof.
  intros Ha Hn. unfold stageMount, attachDisk, getTargetIP, formatAndMount. cbv zeta.
  eapply kt_bind; [eapply kt_updated, wf_marked; done|]. intros [o [e|]] Ho; [by apply kt_ret|].
  destruct (Ho eq_refl) as (b & Hb & Hw). simpl in Hb. subst o. apply wf_cleared in Hw.
  pose proof (kt_true _ _ _ _ (kt_updated _ Hw)) as Hup. kt.
  all: match goal with H : Some _ = Some _ |- _ => injection H as <- end; exact Hup.
Qed.

#[local] Hint Resolve wf_cleared wf_unstaged wf_targetPath : kt.

(** The opening of the handlers: the attachment is read, its absence handled. *)
Lemma kt_fetched {B} name (f : error → go B) (g : CStorVolumeAttachment → go B) R :
  (∀ e, keeps_type (f e) R) →
  (∀ a, name_of a = name → well_formed a → keeps_type (g a) R) →
  keeps_type ('(vol, e) ← Attach.GetCStorVolumeAttachment name;
              match e with Some e => f e | None => vol ← deref vol; g vol end) R.
Proof.
  intros Hf Hg. eapply kt_bind; [apply kt_get|]. intros [o [e|]] Ho; [apply Hf|].
  destruct (Ho eq_refl) as (a & Ha & Hn & Hw). simpl in Ha. subst o.
  apply (kt_bind _ _ _ _ (λ x, x = a)); [by apply kt_deref; intros ? [= ->]|]. intros ? ->. by apply Hg.
Qed.

Lemma kt_updating a : well_formed a →
  keeps_type (Attach.UpdateCStorVolumeAttachmentCR (Some a)) (λ _, True).
Proof. intros Ha. eapply kt_true. by apply kt_update. Qed.
#[local] Hint Resolve kt_updating : kt.

Lemma kt_stageBody ns req : keeps_type (stageBody ns req) (λ _, True).
Proof.
  unfold stageBody. cbv zeta. eapply kt_bind; [apply kt_prepare|]. intros [e|] _; [by apply kt_ret|].
  apply kt_fetched; [by intros; apply kt_ret|]. intros a Hn Ha.
  pose proof (kt_stageMount req _ a Ha Hn). kt.
Qed.

Lemma kt_unstageBody ns req : keeps_type (unstageBody ns req) (λ _, True).
Proof.
  unfold unstageBody, Attach.DeleteCStorVolumeAttachmentCR. cbv zeta.
  apply (kt_bind _ _ _ _ (λ _, True)); [kt|intros o _].
  apply kt_fetched; [kt|]. kt.
Qed.

Lemma kt_publishBlock req opts : keeps_type (nodePublishVolumeForBlock req opts) (λ _, True).
Proof.
  unfold nodePublishVolumeForBlock, GetDevicePath, removeTarget, Mounts.ExistsPath, Mounts.MakeDir,
    Mounts.MakeFile. cbv zeta. kt.
Qed.

Lemma kt_publishFilesystem req opts mode :
  keeps_type (nodePublishVolumeForFileSystem req opts mode) (λ _, True).
Proof. unfold nodePublishVolumeForFileSystem. cbv zeta. kt. Qed.
#[local] Hint Resolve kt_publishBlock kt_publishFilesystem : kt.

Lemma kt_publishBody req : keeps_type (publishBody req) (λ _, True).
Proof.
  unfold publishBody. cbv zeta. apply kt_fetched; [kt|]. kt.
Qed.

Lemma kt_unpublishBody req : keeps_type (unpublishBody req) (λ _, True).
Proof.
  unfold unpublishBody. cbv zeta. apply (kt_bind _ _ _ _ (λ _, True)); [kt|intros [b o] _].
  destruct (match o with Some _ => _ | None => _ end); [kt|].
  apply (kt_bind _ _ _ _ (λ _, True)); [kt|intros [e|] _]; [kt|]. apply kt_fetched; kt.
Qed.

Lemma kt_expandBody req : keeps_type (expandBody req) (λ _, True).
Proof. unfold expandBody. cbv zeta. apply kt_fetched; kt. Qed.

#[local] Hint Resolve kt_stageBody kt_unstageBody kt_publishBody kt_unpublishBody kt_expandBody : kt.

Lemma kt_withVolume {A} v st busy (body : go (res A)) :
  keeps_type body (λ _, True) → keeps_type (withVolume v st busy body) (λ _, True).
Proof.
  intros Hb. unfold withVolume, addVolumeToTransitionList, removeVolumeFromTransitionList. kt.
Qed.

(** ** The monitor and the cleanup *)

Lemma kt_monitorLoop l vols c : keeps_type (Mounts.monitorLoop vols l c) (λ _, True).
Proof. revert c. induction vols; cbn [Mounts.monitorLoop]; unfold Mounts.monitorVol; kt. Qed.

Lemma kt_cleanupList n : keeps_type (Mounts.cleanupList n)
  (λ r, match r with inl l => Forall well_formed l | inr _ => True end).
Proof.
  induction n as [|n IH]; cbn [Mounts.cleanupList];
    (eapply kt_bind; [apply kt_listNode|]; intros [o [e|]] Ho;
     [apply (kt_bind _ _ _ _ (λ _, True)); [kt|intros _ _]; first [exact IH|by apply kt_ret|idtac]
     |destruct (Ho eq_refl) as (l & Hl & Hf); simpl in Hl; subst o;
      apply (kt_bind _ _ _ _ (λ x, x = l)); [by apply kt_deref; intros ? [= ->]|];
      intros ? ->; by apply kt_ret]).
  destruct n; [by apply kt_ret|exact IH].
Qed.

Lemma kt_cleanupLoop l : Forall well_formed l → keeps_type (Mounts.cleanupLoop l) (λ _, True).
Proof.
  induction 1 as [|a l Ha Hl IH]; cbn [Mounts.cleanupLoop]; [kt|].
  apply (kt_bind _ _ _ _ (λ _, True)); [|intros; exact IH]. case_bool_decide; [kt|].
  do 2 (apply (kt_bind _ _ _ _ (λ _, True)); [kt|intros _ _]).
  intros s Hs. split; [split; [exact Ha|apply guarantees_typed; by intros s1 r s' Hs1 ->]|].
  intros r s' (_ & s1 & H1 & ->). split; [exact (H1 Hs)|done].
Qed.

Lemma kt_Cleanup : keeps_type Mounts.Cleanup (λ _, True).
Proof.
  unfold Mounts.Cleanup. apply (kt_bind _ _ _ _ (λ _, True)); [kt|intros _ _]. apply kt_defer; [kt|].
  eapply kt_bind; [apply kt_cleanupList|]. intros [l|e] Hl; [|kt].
  eapply kt_bind; [by apply kt_cleanupLoop|]. kt.
Qed.
#[local] Hint Resolve kt_monitorLoop kt_Cleanup kt_remount : kt.

Lemma kt_MonitorMounts n : keeps_type (Mounts.MonitorMounts n) (λ _, True).
Proof. induction n; cbn [Mounts.MonitorMounts]; [kt|]. unfold Mounts.monitorTick. kt. Qed.

Lemma kt_cleanupGoroutine a : well_formed a → keeps_type (Mounts.cleanupGoroutine a) (λ _, True).
Proof.
  intros Ha%wf_cleared. unfold clearFinalizers in Ha. unfold Mounts.cleanupGoroutine. kt.
Qed.

(** Every program of the plugin keeps the type, with each call it makes. *)
Lemma programs_keep_type ns v p : served ns v p → keeps_type p (λ _, True).
Proof.
  intros [w q []|]; [..|apply kt_MonitorMounts]; (apply (kt_bind _ _ _ _ (λ _, True)); [|kt]).
  - unfold NodeStageVolume. case_match; [kt|]. apply kt_withVolume. kt.
  - unfold NodeUnstageVolume. case_match; [kt|]. apply kt_withVolume. kt.
  - apply kt_withVolume. kt.
  - apply kt_withVolume. kt.
  - apply kt_withVolume. kt.
  - unfold NodeGetVolumeStats, IsBlockDevice, getBlockSizeBytes, GetStatistics, Mounts.ExistsPath. kt.
  - unfold NodeGetInfo. kt.
Qed.

Lemma kt_remountGoroutine b c a : keeps_type (Mounts.remountGoroutine b c a) (λ _, True).
Proof. unfold Mounts.remountGoroutine. kt. Qed.

End cluster.

(** ** The plugins of all nodes together *)

Section plugins.
Context {L : ApiLib} {T : StatusNames} (h : Host).

(** A goroutine of the plugin of some node, with the plugin's globals. *)
Abbreviation goroutine := (Globals * go ())%type.

Inductive runs : goroutine → Prop :=
  | R_served (g : Globals) ns v p : served ns v p → runs (g, p)
  | R_cleanup (g : Globals) : runs (g, (_ ← Mounts.Cleanup; mret tt)).

(** What an action of a plugin starts. *)
Definition started (g : Globals) (a : action) : list goroutine :=
  match a with
  | GoRemount b c vol => [(g, Mounts.remountGoroutine b c vol)]
  | GoCleanup vol => [(g, Mounts.cleanupGoroutine vol)]
  | _ => []
  end.

(** Someone else deletes an attachment. *)
Inductive deletes (s : cluster) : cluster → Prop :=
  | D_delete k : deletes s (delete k s)
  | D_condemn k : deletes s (alter condemned k s).

Lemma deletes_typed s s' : typed s → deletes s s' → typed s'.
Proof. intros Hs [k|k]; [by apply typed_delete|by apply typed_condemn]. Qed.

(** The plugin of one node in the cluster. *)
Definition plugin (g : Globals) : sharing cluster := attachments (G := g) h.

(** One action of one goroutine; or someone else deletes an attachment. *)
Definition cstep : list goroutine * cluster → list goroutine * cluster → Prop :=
  step h plugin started deletes.

Abbreviation unharmed := (safe h plugin typed).

Lemma runs_safe t : runs t → unharmed t.
Proof.
  intros [g ns v p Hp|g]; apply (keeps_safe h plugin typed (λ _, eq_refl)).
  { by eapply (programs_keep_type (G := g)). }
  eapply kt_bind; [apply kt_Cleanup|]. intros; by apply kt_ret.
Qed.

Lemma started_safe g a : permits (plugin g) a → Forall unharmed (started g a).
Proof.
  intros Ha. destruct a; simpl; try done; (constructor; [|done]);
    apply (keeps_safe h plugin typed (λ _, eq_refl)).
  - by apply kt_cleanupGoroutine.
  - apply kt_remountGoroutine.
Qed.

(** C11: the type of attachments is an invariant of the cluster. A well-formed
    attachment is named after its volume and node, its labels and its owner say
    the same, its target is complete, its access type is block or mount, and it
    has a staging path or a finalizer only together with the path of the device,
    the finalizer naming the node in its name. If every attachment is well
    formed, it stays so in every execution of any number of goroutines of the
    plugins of any nodes (the handlers, the monitor, the cleanup and the
    goroutines these start), however their calls interleave, succeed, fail or
    fail after having happened, and whatever others delete meanwhile. *)
Theorem attachments_well_formed ts s ts' s' :
  Forall runs ts → typed s → rtc cstep (ts, s) (ts', s') → typed s'.
Proof.
  intros Hts Hs Hrun.
  refine (proj2 (pool_safe h plugin typed (λ _, eq_refl) started deletes started_safe deletes_typed
    (ts, s) (ts', s') _ Hs Hrun)).
  eapply Forall_impl; [exact Hts|exact runs_safe].
Qed.

End plugins.

(** ** Examples *)

Section examples.
Import Concrete.

Definition h1 : Host := MkHost true (λ _, None).
Definition g1 : Globals := {| OpenEBSNamespace := "openebs"; NodeIDENV := "n1" |}.
Definition g2 : Globals := {| OpenEBSNamespace := "openebs"; NodeIDENV := "n2" |}.

(** An API server that honours finalizers and does not list attachments. *)
Definition finalized (a : CStorVolumeAttachment) : bool :=
  bool_decide (default [] (om_Finalizers (cva_Meta a)) ≠ []).
Definition server1 (a : action) (s : cluster) : result a * cluster :=
  match a return result a * cluster with
  | CvaGet _ _ name =>
      (match s !! name with Some o => (Some o, None) | None => (None, Some notFound) end, s)
  | CvaList _ _ _ => ((None, Some notFound), s)
  | CvaCreate _ _ o =>
      match s !! name_of o with
      | Some _ => ((None, Some notFound), s)
      | None => ((Some o, None), <[name_of o := o]> s)
      end
  | CvaUpdate _ _ o => ((Some o, None), <[name_of o := o]> s)
  | CvaDelete _ _ name _ =>
      (None, if from_option finalized false (s !! name) then alter condemned name s else delete name s)
  | a => (quiet a, s)
  end.

Lemma server1_reacts a s :
  sane h1 a (server1 a s).1 ∧ cluster_reacts h1 s a (server1 a s).1 (server1 a s).2.
Proof.
  destruct a; try (split; [done|reflexivity]); try (split; [by eexists|reflexivity]);
    (split; [done|]); simpl.
  - split; [done|]. unfold Store.got. destruct (s !! _); simpl; [by split|]. split; [by left|done].
  - done.
  - case_match; auto.
  - destruct (s !! name_of o) eqn:Ho; simpl; [right; split; [by eexists|done]|by left].
  - split; [done|by left].
  - done.
Qed.

(** An attachment that is staged and published on its node. *)
Definition att1 (v n : string) : CStorVolumeAttachment :=
  let a := MkCStorVolumeAttachment
    (om_set_Name (v +:+ "-" +:+ n) (om_set_Finalizers (Some [n])
       (om_set_Labels (Some {["nodeID" := n; "Volname" := v]})
       (om_set_OwnerReferences [MkOwnerReference "v1" "Node" n "uid"] om_zero))))
    v "mount" "" "ext4" false "/staging" "/target" "" None n "iqn" "10.0.0.1:3260" "default" "0" in
  cva_set_DevicePath (NodeSvc.stagedDevice a) a.

Lemma att1_well_formed v n : v ≠ "" → well_formed (att1 v n).
Proof.
  intros Hv. split; try done.
  - by exists "uid".
  - simpl. set_solver.
  - split; [by exists v|done].
Qed.

Lemma plugin1_reacts (g : Globals) a s :
  sane h1 a (server1 a s).1 ∧ reacts (plugin h1 g) s a (server1 a s).1 (server1 a s).2.
Proof. exact (server1_reacts a s). Qed.

(** One volume is unstaged on one node while another is unpublished on a second. *)
Definition cluster1 : cluster := {["vol-n1" := att1 "vol" "n1"; "data-n2" := att1 "data" "n2"]}.
Definition unstage1 : go () :=
  _ ← NodeUnstageVolume (G := g1) (NewNode "n1")
        {| nur_VolumeId := "vol"; nur_StagingTargetPath := "/staging" |}; mret tt.
Definition unpublish1 : go () :=
  _ ← NodeUnpublishVolume (G := g2) (NewNode "n2")
        {| nupr_VolumeId := "data"; nupr_TargetPath := "/target" |}; mret tt.
Definition plugins1 : list (Globals * go ()) := [(g1, unstage1); (g2, unpublish1)].
Definition cluster2 : cluster := {["data-n2" := cva_set_TargetPath "" (att1 "data" "n2")]}.

Lemma cluster1_typed : typed cluster1.
Proof.
  apply map_Forall_insert_2; [split; [done|by apply att1_well_formed]|].
  apply map_Forall_singleton. split; [done|by apply att1_well_formed].
Qed.

(** First the one, then the other. *)
Definition schedule1 : list nat := repeat 0 60 ++ repeat 1 60.
Definition plugins2 : list (Globals * go ()) :=
  (ticks started server1 (plugins1, cluster1) schedule1).1.

Lemma plugins1_end : (ticks started server1 (plugins1, cluster1) schedule1).2 = cluster2.
Proof. vm_compute. reflexivity. Qed.

Lemma plugins1_run : rtc (cstep h1) (plugins1, cluster1) (plugins2, cluster2).
Proof.
  rewrite <- plugins1_end. unfold plugins2. rewrite <- surjective_pairing.
  apply calls_steps, (ticks_calls h1 (plugin h1) started server1 plugin1_reacts).
Qed.

Lemma attachments_well_formed_witness : typed cluster1 ∧ typed cluster2.
Proof.
  split; [exact cluster1_typed|].
  refine (attachments_well_formed h1 plugins1 cluster1 plugins2 cluster2 _ cluster1_typed plugins1_run).
  constructor; [|constructor; [|constructor]].
  - apply R_served with (ns := NewNode "n1") (v := "vol").
    apply S_handled. exact (S_unstage (G := g1) (NewNode "n1") {| nur_VolumeId := "vol"; nur_StagingTargetPath := "/staging" |}).
  - apply R_served with (ns := NewNode "n2") (v := "data").
    apply S_handled. exact (S_unpublish (G := g2) (NewNode "n2") {| nupr_VolumeId := "data"; nupr_TargetPath := "/target" |}).
Defined.

End examples.
End Attached.
