(* ===== verification/NodeSpec.v ===== *)
(** * The node service: waiting, mounting, monitoring and measuring

    What a busy volume is answered, the bounded waits for a volume, the order
    of a remount and of a filesystem publish, the exact outcome of one scan of
    the mount monitor, and the arithmetic of the volume statistics. *)

From S2P Require Export NodeSvc.
Local Open Scope go_scope.

Module NodeSpec.
Import NodeSvc.

(** ** Busy volumes *)

Section busy.
Context {L : ApiLib} {G : Globals} {T : StatusNames}.

(** An environment in which the volume is being worked on. *)
Definition taken (v : string) (a : action) : result a → Prop :=
  match a with TvlGet w => λ r, w = v → is_Some r | _ => λ _, True end.

(** Turned away: an error, after nothing but two looks at the list under the
    lock. *)
Definition bounced (v : string) {A} (o : outcome (res A)) (tr : list (event result)) : Prop :=
  (∃ e, o = ORet (inr e)) ∧ map (@projT1 _ _) tr = [Lock; TvlGet v; TvlGet v; Unlock].

Lemma withVolume_busy v s busy {A} (body : go (res A)) :
  wp (any (taken v)) (withVolume v s busy body) [] (bounced v).
Proof.
  unfold withVolume, addVolumeToTransitionList. simpl.
  intros [] _ [st|] H; [|by destruct (H eq_refl)]. simpl.
  intros [st'|] _ [] _; simpl; split; eauto.
Qed.

(** C29: a volume that another thread has entered in the transition list is
    refused by every handler that changes the node: the request gets an error,
    and nothing is touched but the lock and the list, which is only read. *)
Theorem busy_volume_refused ns v (rs : NodeStageVolumeRequest) (ru : NodeUnstageVolumeRequest)
    (rp : NodePublishVolumeRequest) (rt : NodeUnpublishVolumeRequest) (re : NodeExpandVolumeRequest) :
  nsr_VolumeId rs = v → nur_VolumeId ru = v → npr_VolumeId rp = v → nupr_VolumeId rt = v →
  ner_VolumeId re = v →
  (validateNodeStageReq rs = None → wp (any (taken v)) (NodeStageVolume ns rs) [] (bounced v)) ∧
  (validateNodeUnStageReq ru = None → wp (any (taken v)) (NodeUnstageVolume ns ru) [] (bounced v)) ∧
  wp (any (taken v)) (NodePublishVolume ns rp) [] (bounced v) ∧
  wp (any (taken v)) (NodeUnpublishVolume ns rt) [] (bounced v) ∧
  wp (any (taken v)) (NodeExpandVolume ns re) [] (bounced v).
Proof.
  intros H1 H2 H3 H4 H5. unfold NodeStageVolume, NodeUnstageVolume, NodePublishVolume,
    NodeUnpublishVolume, NodeExpandVolume. rewrite H1, H2, H3, H4, H5.
  split_and!; try apply withVolume_busy.
  - intros ->. apply withVolume_busy.
  - intros ->. apply withVolume_busy.
Qed.
End busy.

(** ** Waiting for a volume *)

Section wait.
Context {L : ApiLib} {G : Globals} (h : Host) (v portal : string).

(** How often the volume's status was read and the target dialled, and
    the last answers: whether the status lets the volume serve, whether the
    target answered. *)
Record watch := Watch { polls : nat; dials : nat; serving : bool; answered : bool }.

Definition serves (r : option (list CStorVolume) * err) : bool :=
  match r with (Some [o], None) => Mounts.canServeIO (cv_Phase o) | _ => false end.

Definition wait_permits (s : watch) (a : action) : Prop :=
  match a with
  | CvList _ ns sel => ns = OpenEBSNamespace ∧ sel = "openebs.io/persistent-volume=" +:+ v ∧
      polls s < 7 ∧ serving s = false ∧ dials s = 0
  | NetDial net addr => net = "tcp" ∧ addr = portal ∧ dials s < 6 ∧ serving s = true ∧ answered s = false
  | Sleep t => t = 2%Z
  | TvlSet w st => w = v ∧ st = WaitingForVolumeToBeReady ∧ serving s = false
  | Lock | Unlock => True
  | a => kind_of a = KConfig
  end.

Definition wait_reacts (s : watch) (a : action) : result a → watch → Prop :=
  match a with
  | CvList _ _ _ => λ r s', (r.2 = None → is_Some r.1) ∧
      s' = Watch (S (polls s)) (dials s) (serves r) (answered s)
  | NetDial _ _ => λ r s', s' = Watch (polls s) (S (dials s)) (serving s)
      match r with None => true | Some _ => false end
  | _ => λ _ s', s' = s
  end.

Definition waiter : machine watch := {|
  guard := wait_permits;
  next := λ s a r s', sane h a r ∧ wait_reacts s a r s'
|}.

Global Instance waiter_config : ConfigFree h (mspec waiter).
Proof.
  intros a s Q Ha HQ. split.
  - destruct a; first [discriminate Ha | done].
  - intros r s' [Hr Hs]. destruct a; first [discriminate Ha | (simpl in Hs; subst; by apply HQ)].
Qed.

Abbreviation wps := (wp (mspec waiter)).

Lemma wp_getVolStatus s Q :
  polls s < 7 → serving s = false → dials s = 0 →
  (∀ st b, b = Mounts.canServeIO st →
     Q (ORet (st, None)) (Watch (S (polls s)) 0 b (answered s))) →
  (∀ st e s', serving s' = false → dials s' = 0 → Q (ORet (st, Some e)) s') →
  wps (Attach.getVolStatus v) s Q.
Proof.
  intros Hp Hs Hd H1 H2. unfold Attach.getVolStatus. cbv zeta. wp_bind.
  apply (Cv.wp_cvList h (mspec waiter)); [by intros; apply H2|].
  intros c. split; [by split_and!|]. intros [l [e|]] s' (_ & Hl & ->) k; cbn [then_].
  - apply H2; [by destruct l as [[|? []]|]|done].
  - destruct (Hl eq_refl) as [l' Hl']. simpl in Hl'. subst l. wp_bind. wp_ret l'.
    destruct l' as [|o [|o' l']]; try (by apply H2).
    rewrite Hd. by apply H1.
Qed.

(** [n] retries left: [7 - (n + 1)] polls are done. *)
Lemma wp_readyLoop n s Q :
  polls s + n = 6 → serving s = false → dials s = 0 → answered s = false →
  (∀ s', serving s' = true → dials s' = 0 → answered s' = false → Q (ORet None) s') →
  (∀ e s', serving s' = false → dials s' = 0 → Q (ORet (Some e)) s') →
  wps (Mounts.readyLoop n v) s Q.
Proof.
  revert s. induction n as [|n IH]; intros s Hn Hs Hd Ha H1 H2; cbn [Mounts.readyLoop]; wp_bind;
    (apply wp_getVolStatus; [lia|done|done| |by intros; apply H2]); intros st b Hb; cbn [then_].
  - destruct (Mounts.canServeIO st); [apply H1; simpl; congruence|apply H2; simpl; congruence].
  - destruct (Mounts.canServeIO st); [apply H1; simpl; congruence|].
    wp_bind. split; [done|]. intros [] s1 (_ & ->). wp_ret tt.
    wp_bind. split; [by subst b|]. intros [] s2 (_ & ->). wp_ret tt.
    wp_bind. split; [done|]. intros [] s3 (_ & ->). wp_ret tt.
    wp_bind. split; [done|]. intros [] s4 (_ & ->). wp_ret tt.
    apply IH; simpl; [lia|congruence|done|done|done|done].
Qed.

Lemma wp_reachableLoop n w s Q :
  dials s + S n = 6 → serving s = true → answered s = false →
  (∀ s', serving s' = true → answered s' = true → Q (ORet None) s') →
  (∀ e s', serving s' = true → answered s' = false → dials s' = 6 → Q (ORet (Some e)) s') →
  wps (Mounts.reachableLoop (S n) w portal) s Q.
Proof.
  revert s. induction n as [|n IH]; intros s Hn Hs Ha H1 H2; cbn [Mounts.reachableLoop];
    wp_bind; (split; [split_and!; [done|done|lia|done|done]|]); intros [e|] s1 (_ & ->);
    try (by apply H1); wp_ret (Some e); wp_bind; (split; [done|]); intros [] s2 (_ & ->); wp_ret tt.
  - apply H2; simpl; [done|done|lia].
  - apply IH; simpl; [lia|done..].
Qed.

End wait.

(** ** Remounting *)

Section remount.
Context {L : ApiLib} {G : Globals} (h : Host) (staged targeted : bool) (vol : CStorVolumeAttachment).

(** The last status and dial, and the mounts made: device or source, and place. *)
Record again := Again { healthy : bool; reached : bool; mounts : list (string * string * list string) }.

(** The two mounts of a volume, in order. *)
Definition both : list (string * string * list string) :=
  [(cva_DevicePath vol, cva_StagingTargetPath vol, ["rw"]);
   (cva_StagingTargetPath vol, cva_TargetPath vol, ["bind"])].

Definition remount_permits (s : again) (a : action) : Prop :=
  match a with
  | CvList _ ns sel => ns = OpenEBSNamespace ∧ sel = "openebs.io/persistent-volume=" +:+ cva_VolName vol
  | NetDial net addr => net = "tcp" ∧ addr = cva_TargetPortal vol ∧ healthy s = true
  | Unmount p => healthy s = true ∧ reached s = true ∧ mounts s = [] ∧
      (staged = true ∧ p = cva_StagingTargetPath vol ∨ targeted = true ∧ p = cva_TargetPath vol)
  | MountAt src p fs opts => healthy s = true ∧ reached s = true ∧ fs = "" ∧
      both !! length (mounts s) = Some (src, p, opts) ∧ mounts s `prefix_of` both
  | a => kind_of a = KConfig
  end.

Definition remount_reacts (s : again) (a : action) : result a → again → Prop :=
  match a with
  | CvList _ _ _ => λ r s', (r.2 = None → is_Some r.1) ∧ s' = Again (serves r) (reached s) (mounts s)
  | NetDial _ _ => λ r s', s' = Again (healthy s)
      match r with None => true | Some _ => false end (mounts s)
  | MountAt src p _ opts => λ r s', s' = match r with
      | None => Again (healthy s) (reached s) (mounts s ++ [(src, p, opts)]) | Some _ => s end
  | _ => λ _ s', s' = s
  end.

Definition remounter : machine again := {|
  guard := remount_permits;
  next := λ s a r s', sane h a r ∧ remount_reacts s a r s'
|}.

Global Instance remounter_config : ConfigFree h (mspec remounter).
Proof.
  intros a s Q Ha HQ. split.
  - destruct a; first [discriminate Ha | done].
  - intros r s' [Hr Hs]. destruct a; first [discriminate Ha | (simpl in Hs; subst; by apply HQ)].
Qed.

Abbreviation wps := (wp (mspec remounter)).

Lemma wp_IsVolumeReady s Q :
  (∀ b, Q (ORet (b, None)) (Again b (reached s) (mounts s))) →
  (∀ b e s', mounts s' = mounts s → Q (ORet (b, Some e)) s') →
  wps (Mounts.IsVolumeReady (cva_VolName vol)) s Q.
Proof.
  intros H1 H2. unfold Mounts.IsVolumeReady, Attach.getVolStatus. cbv zeta. wp_bind. wp_bind.
  apply (Cv.wp_cvList h (mspec remounter)); [by intros; apply H2|].
  intros c. split; [done|]. intros [l [e|]] s' (_ & Hl & ->) k; cbn [then_].
  - wp_ret ("", Some e). by apply H2.
  - destruct (Hl eq_refl) as [l' Hl']. simpl in Hl'. subst l. wp_bind. wp_ret l'.
    destruct l' as [|o [|o' l']]; [by apply H2|apply H1|by apply H2].
Qed.

(** C22: the monitor remounts a volume only when its status is healthy or degraded
    and its target answers: before that it neither unmounts nor mounts anything;
    it unmounts only a path that was found mounted, and then mounts the
    device at the staging path for writing and binds that to the target path,
    in this order; success means both mounts were made. *)
Theorem remount_safe s :
  mounts s = [] →
  wps (Mounts.RemountVolume staged targeted vol) s (λ o s',
    match o with
    | ORet None => mounts s' = both
    | ORet (Some _) => mounts s' = take (length (mounts s')) both ∧ length (mounts s') < 2
    | _ => False
    end).
Proof.
  intros Hm. unfold Mounts.RemountVolume. wp_bind.
  apply wp_IsVolumeReady; cbn [then_].
  2: { intros b e s' Hs'. rewrite bool_decide_eq_true_2 by (by eexists). cbn [orb]. simpl. rewrite Hs', Hm. split; [done|simpl; lia]. }
  intros b. rewrite bool_decide_eq_false_2 by (by intros [? ?]). cbn [orb].
  destruct b; cbn [negb]; [|simpl; rewrite Hm; split; [done|simpl; lia]].
  wp_bind. unfold Mounts.IsVolumeReachable. wp_bind. split; [done|].
  intros [e|] s1 (_ & ->); cbn [healthy mounts reached]; rewrite Hm.
  { wp_ret (Some e). wp_ret (false, Some e). rewrite bool_decide_eq_true_2 by (by eexists). split; [done|simpl; lia]. }
  wp_ret (None (A := error)). wp_ret (true, None (A := error)).
  rewrite bool_decide_eq_false_2 by (by intros [? ?]). cbn [orb negb].
  set (s2 := Again true true []). change (Again _ _ _) with s2.
  wp_bind. set (Q1 := then_ _ _ _).
  assert (∀ x, Q1 (ORet x) s2) as HQ1; [|destruct staged eqn:Est; [|apply HQ1]; split; [simpl; split_and!; auto|];
    intros x s3 (_ & ->); apply HQ1].
  intros x. unfold Q1. cbn [then_]. wp_bind. set (Q2 := then_ _ _ _).
  assert (∀ x, Q2 (ORet x) s2) as HQ2; [|destruct targeted eqn:Etg; [|apply HQ2]; split; [simpl; split_and!; auto|];
    intros y s3 (_ & ->); apply HQ2].
  intros y. unfold Q2. cbn [then_]. wp_bind. split.
  { split_and!; try done. apply prefix_nil. }
  intros [e|] s3 (_ & ->); [split; [done|simpl; lia]|]. wp_ret (None (A := error)).
  split.
  { split_and!; try done. by exists [(cva_StagingTargetPath vol, cva_TargetPath vol, ["bind"])]. }
  intros [e|] s4 (_ & ->); [split; [done|simpl; lia]|done].
Qed.
End remount.

(** ** The monitor's scan *)

Section monitor.
Context {L : ApiLib} {G : Globals} (mountList : list MountPoint).

(** The list of volumes in transition, that of the mounts required, and the
    remounts started. *)
Record scan := Scan {
  tvl : gmap string CVAStatus; rml : gmap string CVAStatus; started : list CStorVolumeAttachment
}.

(** A volume needs a remount when it is a filesystem volume that is staged and
    published, not being deleted, and one of its paths is not mounted or the
    staging path is not mounted for writing. *)
Definition mounted_at (p : string) : option MountPoint :=
  list_find (λ m, mp_Path m = p) mountList ≫= λ x, Some x.2.
Definition needs_remount (vol : CStorVolumeAttachment) : bool :=
  bool_decide (om_DeletionTimestamp (cva_Meta vol) = None) &&
  negb (bool_decide (cva_AccessType vol = "block")) &&
  negb (bool_decide (cva_StagingTargetPath vol = "")) && negb (bool_decide (cva_TargetPath vol = "")) &&
  negb (match mounted_at (cva_StagingTargetPath vol), mounted_at (cva_TargetPath vol) with
        | Some m, Some _ => bool_decide ("rw" ∈ mp_Opts m)
        | _, _ => false
        end).

(** One volume of the scan: it is entered in both lists and started unless it is
    in transition. *)
Definition enter_one (s : scan) (vol : CStorVolumeAttachment) : scan :=
  Scan (<[cva_VolName vol := RemountUnderProgress]> (tvl s))
    (<[cva_VolName vol := RemountUnderProgress]> (rml s)) (started s ++ [vol]).
Definition scan_one (s : scan) (vol : CStorVolumeAttachment) : scan :=
  if needs_remount vol && bool_decide (tvl s !! cva_VolName vol = None) then enter_one s vol else s.

(** What may be done: a volume is entered in the transition list only when it is
    not there, in the other list only once it is, and its goroutine is started
    only once it is in both, told which of its paths are mounted. *)

Definition scanner : machine scan := {|
  guard := λ s a, match a with
    | TvlGet _ => True
    | TvlSet w st => tvl s !! w = None ∧ st = RemountUnderProgress
    | RmlSet w st => tvl s !! w = Some RemountUnderProgress ∧ st = RemountUnderProgress
    | GoRemount staged targeted vol =>
        tvl s !! cva_VolName vol = Some RemountUnderProgress ∧
        rml s !! cva_VolName vol = Some RemountUnderProgress ∧
        staged = bool_decide (is_Some (mounted_at (cva_StagingTargetPath vol))) ∧
        targeted = bool_decide (is_Some (mounted_at (cva_TargetPath vol)))
    | _ => False
    end;
  next := λ s a, match a return result a → scan → Prop with
    | TvlGet w => λ r s', s' = s ∧ r = tvl s !! w
    | TvlSet w st => λ _ s', s' = Scan (<[w := st]> (tvl s)) (rml s) (started s)
    | RmlSet w st => λ _ s', s' = Scan (tvl s) (<[w := st]> (rml s)) (started s)
    | GoRemount _ _ vol => λ _ s', s' = Scan (tvl s) (rml s) (started s ++ [vol])
    | _ => λ _ s', s' = s
    end
|}.

Lemma listContains_spec p : Mounts.listContains p mountList =
  (mounted_at p, bool_decide (is_Some (mounted_at p))).
Proof.
  unfold mounted_at. induction mountList as [|m l IH]; [done|]. cbn [Mounts.listContains].
  cbn [list_find]. destruct (decide (mp_Path m = p)) as [Hm|Hm].
  - rewrite bool_decide_eq_true_2 by done. done.
  - rewrite bool_decide_eq_false_2, IH by done. by destruct (list_find _ l).
Qed.

Lemma verifyMountOpts_spec opts x : Mounts.verifyMountOpts opts x = bool_decide (x ∈ opts).
Proof.
  induction opts as [|o opts IH]; cbn [Mounts.verifyMountOpts].
  { by rewrite bool_decide_eq_false_2 by apply not_elem_of_nil. }
  destruct (decide (o = x)) as [Ho|Ho].
  - by rewrite !bool_decide_eq_true_2 by (subst; try apply elem_of_cons; auto).
  - rewrite bool_decide_eq_false_2, IH by done. apply bool_decide_ext. rewrite elem_of_cons.
    naive_solver.
Qed.

Lemma wp_scanVol vol s :
  wp (mspec scanner) (Mounts.monitorVol mountList vol) s (λ o s',
    o = ORet (bool_decide (is_Some (om_DeletionTimestamp (cva_Meta vol)))) ∧ s' = scan_one s vol).
Proof.
  unfold Mounts.monitorVol, scan_one, needs_remount. rewrite !listContains_spec.
  destruct (om_DeletionTimestamp (cva_Meta vol)) as [ts|]; [done|].
  rewrite (bool_decide_eq_false_2 (is_Some None)) by (by intros [? ?]).
  rewrite (bool_decide_eq_true_2 (None = None)) by done. cbn [andb].
  case_bool_decide; cbn [andb negb]; [done|].
  case_bool_decide; cbn [andb negb orb]; [done|].
  case_bool_decide; cbn [andb negb orb]; [done|].
  rewrite verifyMountOpts_spec.
  assert (wp (mspec scanner) (o ← sys (TvlGet (cva_VolName vol));
      match o with
      | Some _ => mret false
      | None =>
          _ ← sys (TvlSet (cva_VolName vol) RemountUnderProgress);
          _ ← sys (RmlSet (cva_VolName vol) RemountUnderProgress);
          _ ← sys (GoRemount (bool_decide (is_Some (mounted_at (cva_StagingTargetPath vol))))
                     (bool_decide (is_Some (mounted_at (cva_TargetPath vol)))) vol);
          mret false
      end) s (λ o s', o = ORet false ∧ s' = if bool_decide (tvl s !! cva_VolName vol = None)
        then enter_one s vol else s))
    as Hstart.
  { simpl. split; [done|]. intros r s1 (-> & ->).
    destruct (tvl s !! cva_VolName vol) eqn:Ht; simpl; [done|].
    split; [done|]. intros [] s2 ->. split; [by simpl; rewrite lookup_insert_eq|]. intros [] s3 ->.
    split; [by simpl; rewrite !lookup_insert_eq|]. by intros [] s4 ->. }
  destruct (mounted_at (cva_StagingTargetPath vol)) as [m|]; [|exact Hstart].
  destruct (mounted_at (cva_TargetPath vol)) as [m'|]; [|exact Hstart].
  rewrite !(bool_decide_eq_true_2 (is_Some (Some _))) in * by done. cbn [andb].
  destruct (bool_decide ("rw" ∈ _)); cbn [negb andb]; [done|exact Hstart].
Qed.

(** C23: one scan of the mount monitor starts a remount of exactly the filesystem
    volumes that are staged and published on the node, not being deleted, and
    have lost a mount or the staging mount's writability, and only of those not
    in transition, each at most once per scan; a volume's goroutine is started
    after it was entered in the transition list and in the list of required
    mounts, and is told which of its paths are mounted; the scan asks for a cleanup exactly when an attachment is marked for deletion. *)
Theorem monitor_scan_exact vols s b :
  wp (mspec scanner) (Mounts.monitorLoop vols mountList b) s (λ o s',
    o = ORet (b || existsb (λ vol, bool_decide (is_Some (om_DeletionTimestamp (cva_Meta vol)))) vols) ∧
    s' = foldl scan_one s vols).
Proof.
  revert s b. induction vols as [|vol vols IH]; intros s b; cbn [Mounts.monitorLoop].
  { split; [by rewrite orb_false_r|done]. }
  wp_bind. wp_mono; [|apply wp_scanVol]. intros o s1 [-> ->]. cbn [then_].
  wp_mono; [|apply IH]. intros o s2 [-> ->]. split; [|done].
  simpl. f_equal. destruct b, (bool_decide (is_Some (om_DeletionTimestamp (cva_Meta vol)))); done.
Qed.
End monitor.

(** ** Mount options *)

Section flags.
Context {L : ApiLib}.

Lemma hasOption_spec opts x : hasOption opts x = true ↔ x ∈ opts.
Proof.
  induction opts as [|o opts IH]; simpl; [split; [done|by intros ?%elem_of_nil]|].
  rewrite elem_of_cons. case_bool_decide; [naive_solver|]. rewrite IH. naive_solver.
Qed.

(** The mount flags of a request are appended to the options once each: the
    options come first and unchanged, nothing is lost or invented, and nothing
    is repeated that was not repeated before. *)
Theorem addFlags_spec flags opts :
  (∃ more, addFlags flags opts = opts ++ more) ∧
  (∀ x, x ∈ addFlags flags opts ↔ x ∈ opts ∨ x ∈ flags) ∧
  (NoDup opts → NoDup (addFlags flags opts)).
Proof.
  revert opts. induction flags as [|f flags IH]; intros opts; cbn [addFlags].
  { split_and!; [exists []; by rewrite (right_id_L [] (++))| |done]. intros x. set_solver. }
  destruct (hasOption opts f) eqn:Hf; cbn [negb].
  - apply hasOption_spec in Hf. destruct (IH opts) as (I1 & I2 & I3). split_and!; [done| |done].
    intros x. rewrite I2. set_solver.
  - assert (f ∉ opts) as Hnot by (rewrite <- hasOption_spec, Hf; done).
    destruct (IH (opts ++ [f])) as ([more I1] & I2 & I3). split_and!.
    + exists (f :: more). rewrite I1, <- (assoc_L (++)). done.
    + intros x. rewrite I2. set_solver.
    + intros Hd. apply I3. apply NoDup_app. split_and!; [done| |apply NoDup_singleton].
      set_solver.
Qed.
End flags.

(** ** Statistics *)

(** C34: the statistics of a volume are exact: when the filesystem's counts are
    consistent and its size in bytes fits 64 bits, none of the conversions and
    products overflows, total, used and available bytes are the counts times
    the block size, and used and available together do not exceed the total. *)
Theorem statistics_exact st :
  (0 ≤ Bsize st ≤ int64_max → 0 ≤ Bavail st ≤ Bfree st → Bfree st ≤ Blocks st →
   Blocks st * Bsize st ≤ int64_max → Blocks st ≤ int64_max → 0 ≤ Ffree st ≤ Files st → Files st ≤ int64_max →
   let s := statistics st in
   totalBytes s = Blocks st * Bsize st ∧ usedBytes s = (Blocks st - Bfree st) * Bsize st ∧
   availableBytes s = Bavail st * Bsize st ∧ usedBytes s + availableBytes s ≤ totalBytes s ∧
   totalInodes s = Files st ∧ usedInodes s = Files st - Ffree st ∧ availableInodes s = Ffree st)%Z.
Proof.
  intros Hb Ha Hf Hm Hk Hi Hj. cbv zeta. unfold statistics.
  cbn [totalBytes usedBytes availableBytes totalInodes usedInodes availableInodes].
  assert (int64_min ≤ 0)%Z as Hmin by (unfold int64_min; lia).
  assert (∀ x, 0 ≤ x ≤ int64_max → wrap64 x = x)%Z as W.
  { intros x Hx. apply wrap64_small. unfold is_int64. lia. }
  assert ((Bavail st * Bsize st ≤ Blocks st * Bsize st)%Z ∧
    ((Blocks st - Bfree st) * Bsize st ≤ Blocks st * Bsize st)%Z) as [M1 M2].
  { split; apply Z.mul_le_mono_nonneg_r; lia. }
  assert (0 ≤ Bavail st * Bsize st ∧ 0 ≤ (Blocks st - Bfree st) * Bsize st)%Z as [P1 P2].
  { split; apply Z.mul_nonneg_nonneg; lia. }
  assert (Bavail st * Bsize st ≤ Bfree st * Bsize st)%Z as M3 by (apply Z.mul_le_mono_nonneg_r; lia).
  rewrite !(W (Bavail st)), !(W (Bsize st)), !(W (Blocks st)), !(W (Bfree st)), !(W (Ffree st)),
    !(W (Files st)) by lia.
  rewrite !(W (Blocks st - Bfree st)%Z), !(W (Files st - Ffree st)%Z) by lia.
  rewrite !W by lia. split_and!; lia.
Qed.

(** ** Examples *)

Section examples.
Import Concrete.

#[local] Instance G1 : Globals := {| OpenEBSNamespace := "openebs"; NodeIDENV := "n1" |}.
Definition h1 : Host := MkHost true (λ _, None).
Definition stage1 : NodeStageVolumeRequest := {|
  nsr_VolumeId := "vol"; nsr_StagingTargetPath := "/staging";
  nsr_VolumeCapability := Some {| vc_AccessType := ATBlock; vc_AccessMode := None |} |}.
Definition unstage1 : NodeUnstageVolumeRequest :=
  {| nur_VolumeId := "vol"; nur_StagingTargetPath := "/staging" |}.

Lemma busy_volume_refused_witness :
  wp (any (taken "vol")) (NodeStageVolume (NewNode "n1") stage1) [] (bounced "vol").
Proof.
  exact (proj1 (busy_volume_refused (NewNode "n1") "vol" stage1 unstage1
    {| npr_VolumeId := "vol"; npr_StagingTargetPath := "/staging"; npr_TargetPath := "/target";
       npr_VolumeCapability := None; npr_Readonly := false; npr_VolumeContext := ∅ |}
    {| nupr_VolumeId := "vol"; nupr_TargetPath := "/target" |}
    {| ner_VolumeId := "vol"; ner_VolumePath := "/target"; ner_CapacityRange := None |}
    eq_refl eq_refl eq_refl eq_refl eq_refl) eq_refl).
Defined.

Lemma remount_safe_witness :
  wp (mspec (remounter h1 true false cva_zero)) (Mounts.RemountVolume true false cva_zero)
    (Again false false []) (λ o s',
    match o with
    | ORet None => mounts s' = both cva_zero
    | ORet (Some _) => mounts s' = take (length (mounts s')) (both cva_zero) ∧ length (mounts s') < 2
    | _ => False
    end).
Proof. exact (remount_safe h1 true false cva_zero (Again false false []) eq_refl). Defined.

Lemma statistics_exact_witness :
  statistics {| Bavail := 30; Blocks := 100; Bfree := 40; Bsize := 4096; Files := 10; Ffree := 3 |}
    = MkStats 122880 409600 245760 3 10 7 ∧
  (usedBytes (statistics {| Bavail := 30; Blocks := 100; Bfree := 40; Bsize := 4096; Files := 10; Ffree := 3 |}) = (100 - 40) * 4096)%Z.
Proof.
  split; [vm_compute; reflexivity|].
  pose proof (statistics_exact {| Bavail := 30; Blocks := 100; Bfree := 40; Bsize := 4096; Files := 10; Ffree := 3 |}) as H.
  simpl in H. unfold int64_max in H.
  apply H; lia.
Defined.


End examples.
End NodeSpec.
