(* ===== verification/PublishSpec.v ===== *)
(** * Publishing a volume

    [NodeSvc.publishBody]: the target path is recorded before anything is
    mounted, then one mount is made, and a target whose mount failed is removed
    again.  For mount access the staging path is bound to the target, a
    directory; for block access the device recorded in the attachment is, to a
    file. *)

From S2P Require Export NodeSvc.
Local Open Scope go_scope.

Module PublishSpec.
Import NodeSvc.
Section spec.
Context {L : ApiLib} {G : Globals} {T : StatusNames} (h : Host) (req : NodePublishVolumeRequest)
  (mode : option MountVolume).

(** How far the publish has come: the path recorded in the attachment, the
    directory made and its mode cleared, the mount tried, made, and the target
    removed again. *)
Record progress := Progress {
  noted : bool; dir : bool; cleared : bool; tried : bool; bound : bool; undone : bool
}.

(** The filesystem and the options of the bind mount *)
Definition filesystem : string :=
  if bool_decide (GetFsType mode = "") then "ext4" else GetFsType mode.
Definition options : list string :=
  addFlags (GetMountFlags mode) (if npr_Readonly req then ["bind"; "ro"] else ["bind"]).

Definition permits (s : progress) (a : action) : Prop :=
  match a with
  | CvaGet _ ns name => ns = OpenEBSNamespace ∧ name = npr_VolumeId req +:+ "-" +:+ NodeIDENV
  | CvaUpdate _ ns o => ns = OpenEBSNamespace ∧ cva_TargetPath o = npr_TargetPath req ∧ tried s = false
  | MkdirAll p _ => p = npr_TargetPath req ∧ noted s = true
  | Chmod p m => p = npr_TargetPath req ∧ m = 0%Z ∧ dir s = true
  | MountAt src p fs opts => src = npr_StagingTargetPath req ∧ p = npr_TargetPath req ∧
      fs = filesystem ∧ opts = options ∧ noted s = true ∧ cleared s = true ∧ tried s = false
  | OsRemove p => p = npr_TargetPath req ∧ tried s = true ∧ bound s = false
  | a => kind_of a = KConfig
  end.

Definition reacts (s : progress) (a : action) : result a → progress → Prop :=
  match a with
  | CvaGet _ _ _ => λ r s', s' = s ∧ (r.2 = None → is_Some r.1)
  | CvaUpdate _ _ _ => λ r s', s' = match r.2 with
      | None => Progress true (dir s) (cleared s) (tried s) (bound s) (undone s) | Some _ => s end
  | MkdirAll _ _ => λ r s', s' = match r with
      | None => Progress (noted s) true (cleared s) (tried s) (bound s) (undone s) | Some _ => s end
  | Chmod _ _ => λ r s', s' = match r with
      | None => Progress (noted s) (dir s) true (tried s) (bound s) (undone s) | Some _ => s end
  | MountAt _ _ _ _ => λ r s', s' = Progress (noted s) (dir s) (cleared s) true
      match r with None => true | Some _ => false end (undone s)
  | OsRemove _ => λ _ s', s' = Progress (noted s) (dir s) (cleared s) (tried s) (bound s) true
  | _ => λ _ s', s' = s
  end.

Definition publisher : machine progress := {|
  guard := permits;
  next := λ s a r s', sane h a r ∧ reacts s a r s'
|}.

Global Instance publisher_config : ConfigFree h (mspec publisher).
Proof.
  intros a s Q Ha HQ. split.
  - destruct a; first [discriminate Ha | done].
  - intros r s' [Hr Hs]. destruct a; first [discriminate Ha | (simpl in Hs; subst; by apply HQ)].
Qed.

Abbreviation wps := (wp (mspec publisher)).

Lemma fs_default : (if bool_decide (String.length (GetFsType mode) = 0) then "ext4" else GetFsType mode)
  = filesystem.
Proof. unfold filesystem. by destruct (GetFsType mode). Qed.

Lemma mount_options : match mode with
    | Some m => addFlags (MountFlags m) (["bind"] ++ (if npr_Readonly req then ["ro"] else []))
    | None => ["bind"] ++ (if npr_Readonly req then ["ro"] else []) end = options.
Proof. unfold options. by destruct mode, (npr_Readonly req). Qed.

Definition post {A} (good : A → Prop) (o : outcome A) (s' : progress) : Prop :=
  match o with
  | ORet a => if bound s' then good a ∧ noted s' = true ∧ undone s' = false
              else ¬ good a ∧ (tried s' = true → undone s' = true)
  | _ => False
  end.

Lemma wp_publishFileSystem s :
  s = Progress true false false false false false →
  wps (nodePublishVolumeForFileSystem req (["bind"] ++ (if npr_Readonly req then ["ro"] else [])) mode) s
    (post (λ e : err, e = None)).
Proof.
  intros ->. unfold nodePublishVolumeForFileSystem. cbv zeta. rewrite mount_options, fs_default.
  wp_bind. split; [done|]. intros e s1 (_ & ->). wp_ret e. destruct e as [e|]; [done|].
  wp_bind. split; [done|]. intros e s2 (_ & ->). wp_ret e. destruct e as [e|]; [done|].
  wp_bind. split; [done|]. intros e s3 (_ & ->). wp_ret e. destruct e as [e|]; [|done].
  wp_bind. split; [done|]. intros r s4 (_ & ->). wp_ret r. by destruct r.
Qed.

(** C19: publishing a filesystem volume: the target path is recorded in the
    volume's attachment first; then the directory is made and the staging path is
    bound to it, once, with "bind" (and "ro" for a read-only request) and the
    request's flags, under the requested filesystem or ext4; success is answered
    exactly when the mount was made, and after a failed mount the target is
    removed; a made mount is never removed, and nothing panics. *)
Theorem publish_filesystem :
  GetAccessType (npr_VolumeCapability req) = ATMount mode →
  wps (publishBody req) (Progress false false false false false false)
    (post (λ r : res (), r = inl tt)).
Proof.
  intros Hmode. unfold publishBody. cbv zeta. wp_bind.
  unfold Attach.GetCStorVolumeAttachment. wp_bind.
  set (s0 := Progress _ _ _ _ _ _).
  apply (Cva.wp_cvaGet h (mspec publisher)); [by intros..|].
  intros _ c. split; [done|]. intros [p e] s1 (_ & -> & Hp) k. cbn [then_]. wp_ret (p, e).
  destruct e as [e|]; [done|]. destruct (Hp eq_refl) as [vol Hvol]. simpl in Hvol. subst p.
  wp_bind. wp_ret vol. wp_bind. unfold Attach.UpdateCStorVolumeAttachmentCR. wp_bind.
  apply (Cva.wp_cvaUpdate h (mspec publisher)); [by intros|].
  intros c2. split; [done|]. intros [p e] s2 (_ & ->) k2. cbn [then_]. wp_ret (p, e).
  destruct e as [e|]; [done|]. wp_bind. rewrite Hmode.
  wp_mono; [|by apply wp_publishFileSystem].
  intros [[e|]|m|x] s3; [..|done|done]; simpl; destruct (bound s3); naive_solver.
Qed.
End spec.

(** ** Block access *)

Section block.
Context {L : ApiLib} {G : Globals} {T : StatusNames} (h : Host) (req : NodePublishVolumeRequest).

(** How far it has come: the path recorded; the device the attachment had when
    it was last read; the directory above the target there, the target's file
    there; the mount tried, made, and the target removed. *)
Record steps := Steps {
  bnoted : bool; device : option string; parent : bool; file : bool;
  btried : bool; bbound : bool; bundone : bool
}.

Definition block_options : list string := if npr_Readonly req then ["bind"; "ro"] else ["bind"].
Local Abbreviation target := (npr_TargetPath req).

Definition block_permits (s : steps) (a : action) : Prop :=
  match a with
  | CvaGet _ ns name => ns = OpenEBSNamespace ∧ name = npr_VolumeId req +:+ "-" +:+ NodeIDENV
  | CvaUpdate _ ns o => ns = OpenEBSNamespace ∧ cva_TargetPath o = target ∧ bnoted s = false
  | UtilPathExists p => p = Str.path_Dir target ∧ bnoted s = true
  | MkdirAll p _ => p = Str.path_Dir target ∧ bnoted s = true ∧ parent s = false
  | OpenFileCreate p _ => p = target ∧ parent s = true
  | MountAt src p fs opts => device s = Some src ∧ p = target ∧ fs = "" ∧ opts = block_options ∧
      file s = true ∧ btried s = false
  | OsRemove p => p = target ∧ parent s = true ∧ bbound s = false ∧ (file s = true → btried s = true)
  | a => kind_of a = KConfig
  end.

(** A directory or a file that exists already is as good as made. *)
Definition there (r : err) : bool := match r with None => true | Some e => os_IsExist e end.

Definition block_reacts (s : steps) (a : action) : result a → steps → Prop :=
  match a with
  | CvaGet _ _ _ => λ r s',
      match r with
      | (Some o, None) => s' = Steps (bnoted s) (Some (cva_DevicePath o)) (parent s) (file s)
                                 (btried s) (bbound s) (bundone s)
      | (None, None) => False
      | _ => s' = s
      end
  | CvaUpdate _ _ _ => λ r s', s' = match r.2 with
      | None => Steps true None (parent s) (file s) (btried s) (bbound s) (bundone s)
      | Some _ => s end
  | UtilPathExists _ => λ r s', s' = match r.2 with
      | None => Steps (bnoted s) (device s) r.1 (file s) (btried s) (bbound s) (bundone s)
      | Some _ => s end
  | MkdirAll _ _ => λ r s',
      s' = Steps (bnoted s) (device s) (there r) (file s) (btried s) (bbound s) (bundone s)
  | OpenFileCreate _ _ => λ r s',
      s' = Steps (bnoted s) (device s) (parent s) (there r) (btried s) (bbound s) (bundone s)
  | MountAt _ _ _ _ => λ r s', s' = Steps (bnoted s) (device s) (parent s) (file s) true
      match r with None => true | Some _ => false end (bundone s)
  | OsRemove _ => λ _ s', s' = Steps (bnoted s) (device s) (parent s) (file s) (btried s) (bbound s) true
  | _ => λ _ s', s' = s
  end.

Definition block_publisher : machine steps := {|
  guard := block_permits;
  next := λ s a r s', sane h a r ∧ block_reacts s a r s'
|}.

Global Instance block_config : ConfigFree h (mspec block_publisher).
Proof.
  intros a s Q Ha HQ. split.
  - destruct a; first [discriminate Ha | done].
  - intros r s' [Hr Hs]. destruct a; first [discriminate Ha | (simpl in Hs; subst; by apply HQ)].
Qed.

Local Abbreviation wps := (wp (mspec block_publisher)).

Definition block_post {A} (good : A → Prop) (o : outcome A) (s' : steps) : Prop :=
  match o with
  | ORet a => if bbound s' then good a ∧ bnoted s' = true ∧ bundone s' = false
              else ¬ good a ∧ (btried s' = true → bundone s' = true)
  | _ => False
  end.

Lemma wp_removeTarget f s :
  parent s = true → bbound s = false → (file s = true → btried s = true) →
  wps (removeTarget target f) s (block_post (λ e : err, e = None)).
Proof.
  intros H1 H2 H3. unfold removeTarget. wp_bind. split; [done|]. intros r s1 (_ & ->). wp_ret r.
  destruct r; simpl; rewrite H2; (split; [intros ?; discriminate|done]).
Qed.

(** The attachment is read: its device is the one that will be mounted. *)
Lemma wp_readDevice s Q :
  (∀ o, Q (ORet (Some o, None)) (Steps (bnoted s) (Some (cva_DevicePath o)) (parent s) (file s)
                                   (btried s) (bbound s) (bundone s))) →
  (∀ o e, Q (ORet (o, Some e)) s) →
  wps (Attach.GetCStorVolumeAttachment (npr_VolumeId req +:+ "-" +:+ NodeIDENV)) s Q.
Proof.
  intros H1 H2. unfold Attach.GetCStorVolumeAttachment. wp_bind.
  apply (Cva.wp_cvaGet h (mspec block_publisher)); [by intros; apply H2..|].
  intros _ c. split; [done|]. intros [[o|] [e|]] s1 (_ & Hs) k; simpl in Hs; subst; try done; first [apply H1|apply H2].
Qed.

Lemma wp_mountBlock d s :
  s = Steps true (Some d) true true false false false →
  wps (e ← sys (MountAt d target "" (["bind"] ++ (if npr_Readonly req then ["ro"] else [])));
       match e with
       | Some e => removeTarget target (Status Internal "Could not mount %q at %q: %v"
                                          [AStr d; AStr target; AErr e])
       | None => mret None
       end) s (block_post (λ e : err, e = None)).
Proof.
  intros ->. wp_bind. split.
  - split_and!; try done. unfold block_options. by destruct (npr_Readonly req).
  - intros r s1 (_ & ->). wp_ret r. destruct r; [by apply wp_removeTarget|done].
Qed.

Lemma wp_publishBlock d :
  wps (nodePublishVolumeForBlock req (["bind"] ++ (if npr_Readonly req then ["ro"] else [])))
    (Steps true d false false false false false) (block_post (λ e : err, e = None)).
Proof.
  unfold nodePublishVolumeForBlock, GetDevicePath. cbv zeta. wp_bind. wp_bind.
  apply wp_readDevice; [|by intros]. intros o. cbn [then_ bnoted parent file btried bbound bundone].
  wp_bind. wp_ret o. wp_ret (inl (cva_DevicePath o) : res string).
  assert (∀ s1, s1 = Steps true (Some (cva_DevicePath o)) true false false false false →
    wps (e ← Mounts.MakeFile target;
         match e with
         | Some e => removeTarget target (Status Internal "Could not create file %q: %v"
                                            [AStr target; AErr e])
         | None =>
             e ← sys (MountAt (cva_DevicePath o) target ""
                        (["bind"] ++ (if npr_Readonly req then ["ro"] else [])));
             match e with
             | Some e => removeTarget target (Status Internal "Could not mount %q at %q: %v"
                                                [AStr (cva_DevicePath o); AStr target; AErr e])
             | None => mret None
             end
         end) s1 (block_post (λ e : err, e = None))) as Hfile.
  { intros s1 ->. unfold Mounts.MakeFile. wp_bind. wp_bind. split; [done|].
    intros r s2 (_ & ->). wp_ret r. destruct r as [e|]; simpl; [|by apply wp_mountBlock].
    destruct (os_IsExist e); simpl; [by apply wp_mountBlock|by apply wp_removeTarget]. }
  wp_bind. unfold Mounts.ExistsPath. split; [done|]. intros [b [e|]] s1 (_ & ->); [done|].
  cbn [then_]. wp_bind. destruct b; cbn [negb].
  - wp_ret (None : err). by apply Hfile.
  - unfold Mounts.MakeDir. wp_bind. split; [done|]. intros r s2 (_ & ->). wp_ret r.
    destruct r as [e|]; simpl; [|by apply Hfile]. destruct (os_IsExist e); simpl; [by apply Hfile|done].
Qed.

(** C20: publishing a block volume: the target path is recorded in the volume's
    attachment first; the device that is mounted is the one the attachment names
    when it is read again after that, it is mounted once, without a filesystem,
    with "bind" (and "ro" for a read-only request), and only once the directory
    above the target and the target's file are there; success is answered exactly
    when the mount was made; the target is removed after a failed mount and is
    never removed before the directory was found or after the mount was made, and
    nothing panics. *)
Theorem publish_block :
  GetAccessType (npr_VolumeCapability req) = ATBlock →
  ⟪ Steps false None false false false false false ⟫ publishBody req under block_publisher
  ⟪ block_post (λ r : res (), r = inl tt) ⟫.
Proof.
  intros Hblock. unfold publishBody. cbv zeta. wp_bind.
  apply wp_readDevice; [|by intros]. intros o.
  cbn [then_ bnoted parent file btried bbound bundone]. wp_bind. wp_ret o.
  wp_bind. unfold Attach.UpdateCStorVolumeAttachmentCR. wp_bind.
  apply (Cva.wp_cvaUpdate h (mspec block_publisher)); [by intros|].
  intros c. split; [done|]. intros [p e] s2 (_ & ->) k. cbn [then_]. wp_ret (p, e).
  destruct e as [e|]; [done|]. wp_bind. rewrite Hblock.
  wp_mono; [|by apply wp_publishBlock].
  intros [[e|]|m|x] s3; [..|done|done]; simpl; destruct (bbound s3); naive_solver.
Qed.
End block.

(** ** Examples *)

Section examples.
Import Concrete.

#[local] Instance G1 : Globals := {| OpenEBSNamespace := "openebs"; NodeIDENV := "n1" |}.
Definition h1 : Host := MkHost true (λ _, None).
Definition req1 : NodePublishVolumeRequest := {|
  npr_VolumeId := "vol"; npr_StagingTargetPath := "/staging"; npr_TargetPath := "/target";
  npr_VolumeCapability := Some {| vc_AccessType := ATMount None; vc_AccessMode := None |};
  npr_Readonly := true; npr_VolumeContext := ∅ |}.

Lemma publish_filesystem_witness :
  options req1 None = ["bind"; "ro"] ∧
  wp (mspec (publisher h1 req1 None)) (publishBody req1) (Progress false false false false false false)
    (post (λ r : res (), r = inl tt)).
Proof. split; [reflexivity|]. exact (publish_filesystem h1 req1 None eq_refl). Defined.

Definition req2 : NodePublishVolumeRequest := {|
  npr_VolumeId := "vol"; npr_StagingTargetPath := "/staging"; npr_TargetPath := "/pods/target";
  npr_VolumeCapability := Some {| vc_AccessType := ATBlock; vc_AccessMode := None |};
  npr_Readonly := false; npr_VolumeContext := ∅ |}.

Lemma publish_block_witness :
  ⟪ Steps false None false false false false false ⟫ publishBody req2 under block_publisher h1 req2
  ⟪ block_post (λ r : res (), r = inl tt) ⟫.
Proof. exact (publish_block h1 req2 eq_refl). Defined.

End examples.
End PublishSpec.
