(* ===== verification/GrowSpec.v ===== *)
(** * Growing a volume on its node

    [NodeSvc.expandBody]: the commands that NodeExpandVolume runs are those of a
    plan that depends on the volume's attachment and on the mount table alone, in
    the plan's order, up to the first that fails. *)

From S2P Require Export NodeSvc.
Local Open Scope go_scope.

Module GrowSpec.
Import NodeSvc.
Section spec.
Context {L : ApiLib} {G : Globals} {T : StatusNames} (h : Host).
Context (req : NodeExpandVolumeRequest) (a : CStorVolumeAttachment) (table : list MountPoint).
Local Abbreviation path := (ner_VolumePath req).

(** What it takes to grow the filesystem mounted at the path: the session is
    rescanned, then the filesystem grown by its own tool, on the device of the
    first mount at the path (ext4) or on the path (xfs).  Nothing if nothing is
    mounted there. *)
Definition plan (l : list MountPoint) : list (string * list string) :=
  match list_find (λ m, mp_Path m = path) l with
  | None => []
  | Some (_, m) =>
      ("iscsiadm", ["-m"; "node"; "-T"; cva_Iqn a; "-P"; cva_TargetPortal a; "--rescan"]) ::
      (if decide (cva_FSType a = "ext4") then [("resize2fs", [mp_Device m])]
       else if decide (cva_FSType a = "xfs") then [("xfs_growfs", [path])] else [])
  end.

(** The mounts that were listed, the commands run, whether the last one failed. *)
Record growth := Growth { listed : option (list MountPoint); ran : list (string * list string); failed : bool }.

Definition grow_permits (s : growth) (x : action) : Prop :=
  match x with
  | CvaGet _ ns name => ns = OpenEBSNamespace ∧ name = ner_VolumeId req +:+ "-" +:+ NodeIDENV
  | MountList => listed s = None
  | Exec cmd args => failed s = false ∧ ∃ l rest, listed s = Some l ∧ plan l = ran s ++ (cmd, args) :: rest
  | x => kind_of x = KConfig
  end.

(** A failed listing yields no mounts. *)
Definition grow_reacts (s : growth) (x : action) : result x → growth → Prop :=
  match x with
  | CvaGet _ _ _ => λ r s', s' = s ∧ (r.2 = None → r.1 = Some a)
  | MountList => λ r s', r.1 = (if r.2 is Some _ then [] else table) ∧ s' = Growth (Some r.1) (ran s) (failed s)
  | Exec cmd args => λ r s', s' = Growth (listed s) (ran s ++ [(cmd, args)]) (bool_decide (is_Some r.2))
  | _ => λ _ s', s' = s
  end.

Definition grower : machine growth := {|
  guard := grow_permits;
  next := λ s x r s', sane h x r ∧ grow_reacts s x r s'
|}.

Global Instance grower_config : ConfigFree h (mspec grower).
Proof.
  intros x s Q Ha HQ. split.
  - destruct x; try discriminate Ha; try done. simpl in Ha. by case_match.
  - intros r s' [Hr Hs]. destruct x; try discriminate Ha; try (simpl in Hs; subst; by apply HQ).
    simpl in Ha. by case_match.
Qed.

Local Abbreviation wps := (wp (mspec grower)).

Lemma wp_run cmd args l rest s Q :
  failed s = false → listed s = Some l → plan l = ran s ++ (cmd, args) :: rest →
  (∀ out, Q (ORet (out, None)) (Growth (Some l) (ran s ++ [(cmd, args)]) false)) →
  (∀ out e, Q (ORet (out, Some e)) (Growth (Some l) (ran s ++ [(cmd, args)]) true)) →
  wps (sys (Exec cmd args)) s Q.
Proof.
  intros Hf Hl Hp H1 H2. split; [split; [done|by exists l, rest]|].
  intros [out [e|]] s' (_ & ->); rewrite Hl; [apply H2|apply H1].
Qed.

(** The plan for [l] was carried out, or up to a command that failed. *)
Definition grown (l : list MountPoint) (r : err) (s : growth) : Prop :=
  listed s = Some l ∧
  match r with
  | None => failed s = false ∧ ran s = plan l
  | Some _ => failed s = true ∧ ran s ≠ [] ∧ ran s `prefix_of` plan l
  end.

Lemma plan_cons m l :
  plan (m :: l) = if decide (mp_Path m = path) then
      ("iscsiadm", ["-m"; "node"; "-T"; cva_Iqn a; "-P"; cva_TargetPortal a; "--rescan"]) ::
      (if decide (cva_FSType a = "ext4") then [("resize2fs", [mp_Device m])]
       else if decide (cva_FSType a = "xfs") then [("xfs_growfs", [path])] else [])
    else plan l.
Proof. unfold plan. cbn [list_find]. case_decide; [done|]. by destruct (list_find _ l) as [[]|]. Qed.

(** The tool of the filesystem, the last command. *)
Lemma wp_tool cmd arg l c :
  plan l = [c; (cmd, [arg])] →
  wps ('(_, e) ← sys (Exec cmd [arg]); mret e) (Growth (Some l) [c] false)
    (λ o s, match o with ORet r => grown l r s | _ => False end).
Proof.
  intros Hp. wp_bind. apply (wp_run _ _ l []); [done..| |]; intros out; [|intros e];
    (split; [done|]); simpl; rewrite Hp; by repeat split.
Qed.

Lemma wp_resizeLoop l l' :
  plan l' = plan l →
  wps (Iscsi.resizeLoop l path a) (Growth (Some l') [] false)
    (λ o s, match o with ORet r => grown l' r s | _ => False end).
Proof.
  induction l as [|m l IH]; intros Hp; cbn [Iscsi.resizeLoop]; [by split|].
  rewrite plan_cons in Hp. case_bool_decide as Hm; [|rewrite decide_False in Hp by done; by apply IH].
  rewrite decide_True in Hp by done. unfold Iscsi.ReScan. wp_bind. wp_bind.
  eapply (wp_run _ _ l'); [done|done|exact Hp|..]; intros out; [|intros e]; cbn [then_].
  - wp_ret (None : err). unfold Iscsi.ResizeExt4, Iscsi.ResizeXFS.
    case_bool_decide; [rewrite decide_True in Hp by done; by apply wp_tool|].
    rewrite decide_False in Hp by done.
    case_bool_decide; [rewrite decide_True in Hp by done; by apply wp_tool|].
    rewrite decide_False in Hp by done. by split.
  - wp_ret (Some e). split; [done|]. simpl. rewrite Hp. split_and!; [done|done|by eexists].
Qed.

(** C21: growing a volume on its node runs, in order, exactly the commands of the
    plan for the mounts that were listed: a rescan of the volume's session and
    then the tool of its filesystem, ext4 or xfs, or nothing when nothing is
    mounted at the volume path. Success answers the required size and means that
    every command of the plan succeeded; an error that a command caused ends the
    plan there; any other error means that the attachment could not be read and
    nothing was run. A listing that fails counts as a table without mounts, so
    success is answered then too, without anything having been grown. *)
Theorem node_expand_exact :
  ⟪ Growth None [] false ⟫ expandBody req under grower ⟪ λ o s,
    match o with
    | ORet (inl n) => n = GetRequiredBytes (ner_CapacityRange req) ∧ (grown table None s ∨ grown [] None s)
    | ORet (inr e) => grown table (Some e) s ∨ s = Growth None [] false
    | _ => False
    end ⟫.
Proof.
  unfold expandBody. cbv zeta. wp_bind. unfold Attach.GetCStorVolumeAttachment. wp_bind.
  apply (Cva.wp_cvaGet h (mspec grower)); [by intros; right..|].
  intros _ c. split; [done|]. intros [o [e|]] s (_ & -> & Ho) k; [by right|]. simpl in Ho.
  rewrite (Ho eq_refl). cbn [then_]. wp_ret (Some a, None : err). wp_bind. wp_ret a. wp_bind.
  unfold Iscsi.ResizeVolume. wp_bind. split; [done|]. intros [l e] s (_ & Hl & ->). simpl in Hl.
  wp_ret (l, e). wp_mono; [|by apply wp_resizeLoop].
  assert (l = table ∨ l = []) as [->| ->] by (destruct e; auto).
  - intros [[e'|]|m|x] s Hs; [..|done|done]; cbn [then_]; [|split; [done|by left]].
    left. exact Hs.
  - intros [[e'|]|m|x] s Hs; [..|done|done]; cbn [then_]; [|split; [done|by right]].
    destruct Hs as (_ & _ & Hne & Hp). by apply prefix_nil_inv in Hp.
Qed.
End spec.
End GrowSpec.
