(* ===== verification/IscsiSpec.v ===== *)
(** * iSCSI: the helpers and the attach loop

    The in-place deduplication of the portals, the description of a disk, the
    bounded wait for a device path, what the file that records a disk keeps of
    it, and the order of the steps with which [Iscsi.attachPortal] brings a
    portal up. *)

From S2P Require Export Iscsi.
Local Open Scope go_scope.

Module IscsiSpec.
Import Iscsi.

(** ** Deduplication in place *)

Section dedup.
Context {L : ApiLib}.

(** The reference: keep the first occurrence of every non-empty string. *)
Fixpoint firsts (l : list string) (seen : gset string) : list string :=
  match l with
  | [] => []
  | v :: l' => if decide (v ≠ "" ∧ v ∉ seen) then v :: firsts l' ({[v]} ∪ seen) else firsts l' seen
  end.

(** The slice while the loop runs: what was written, cells passed over, and
    what is still to be read.  Writing never overtakes reading. *)
Lemma removeDuplicateLoop_spec rest : ∀ i written junk m,
  i = length written + length junk → size m = length written →
  ∃ junk', removeDuplicateLoop (seq i (length rest)) (written ++ junk ++ rest) m =
    (written ++ firsts rest m ++ junk', list_to_set (firsts rest m) ∪ m).
Proof.
  induction rest as [|v rest IH]; intros i written junk m Hi Hm.
  { exists junk. simpl. by rewrite (right_id_L [] (++)), (left_id_L ∅ (∪)). }
  cbn [length seq removeDuplicateLoop firsts].
  rewrite (lookup_app_r written), (lookup_app_r junk) by lia.
  replace (i - length written - length junk) with 0 by lia. cbn [lookup list_lookup].
  destruct (decide (v ≠ "" ∧ v ∉ m)) as [[Hv1 Hv2]|Hno].
  - rewrite !bool_decide_eq_false_2 by done. cbn [negb andb].
    rewrite insert_app_r_alt by lia. replace (size m - length written) with 0 by lia.
    assert (<[0:=v]> (junk ++ v :: rest) = [v] ++ tail (junk ++ [v]) ++ rest) as ->.
    { destruct junk as [|x junk]; [done|]. simpl. by rewrite <- (assoc_L (++)). }
    rewrite (assoc_L (++) written).
    destruct (IH (S i) (written ++ [v]) (tail (junk ++ [v])) ({[v]} ∪ m)) as [junk' ->].
    + destruct junk; simpl in *; rewrite !length_app; simpl; lia.
    + rewrite size_union, size_singleton, length_app by set_solver. simpl. lia.
    + exists junk'. rewrite <- !(assoc_L (++)). cbn [list_to_set app]. f_equal. set_solver.
  - assert (negb (bool_decide (v = "")) && negb (bool_decide (v ∈ m)) = false) as ->.
    { apply andb_false_iff. rewrite !negb_false_iff, !bool_decide_eq_true.
      destruct (decide (v = "")), (decide (v ∈ m)); naive_solver. }
    replace (written ++ junk ++ v :: rest) with (written ++ (junk ++ [v]) ++ rest)
      by (by rewrite <- !(assoc_L (++))).
    apply IH; [rewrite length_app; simpl; lia|done].
Qed.

Lemma size_firsts l seen : size (list_to_set (firsts l seen) : gset string) = length (firsts l seen)
  ∧ list_to_set (firsts l seen) ## seen.
Proof.
  revert seen. induction l as [|v l IH]; intros seen; cbn [firsts]; [by split|].
  destruct (decide (v ≠ "" ∧ v ∉ seen)) as [[_ Hv]|_]; [|apply IH].
  destruct (IH ({[v]} ∪ seen)) as [IH1 IH2]. cbn [list_to_set length]. split; [|set_solver].
  rewrite size_union, size_singleton, IH1 by set_solver. done.
Qed.

(** Removing duplicates in place gives the first occurrence of every
    non-empty string, in order, although the loop writes into the slice it is
    reading. *)
Theorem removeDuplicate_correct l : removeDuplicate l = firsts l ∅.
Proof.
  unfold removeDuplicate.
  destruct (removeDuplicateLoop_spec l 0 [] [] ∅ eq_refl size_empty) as [junk H].
  cbn [app] in H. rewrite H, (right_id_L ∅ (∪)). destruct (size_firsts l ∅) as [-> _].
  by rewrite take_app_length.
Qed.
End dedup.

(** ** Disks *)

Section disks.
Context {L : ApiLib}.

Lemma portalMounter_port p : Str.Contains (portalMounter p) ":" = true.
Proof.
  unfold portalMounter. destruct (Str.Contains p ":") eqn:Hp; [done|]. simpl.
  apply Str.Contains_spec. by exists p, "3260".
Qed.

(** C35: a publish request describes a disk exactly when it names the target
    portal, the IQN and the LUN; the disk then has that one portal, with a port
    (3260 when none is given), and the request's other settings. *)
Theorem disk_of_request_exact req d :
  let ctx k := default "" (npr_VolumeContext req !! k) in
  getISCSIInfoFromPV req = inl d ↔
  ctx "targetPortal" ≠ "" ∧ ctx "iqn" ≠ "" ∧ ctx "lun" ≠ "" ∧
  ∃ portal, Str.Contains portal ":" = true ∧
    (portal = ctx "targetPortal" ∨
     Str.Contains (ctx "targetPortal") ":" = false ∧ portal = ctx "targetPortal" +:+ ":3260") ∧
    d = MkDisk [portal] (ctx "iqn") (ctx "lun") (ctx "iscsiInterface")
          (bool_decide (ctx "discoveryCHAPAuth" = "true")) (bool_decide (ctx "sessionCHAPAuth" = "true"))
          (parseSecret (ctx "secret")) (ctx "initiatorName") (npr_VolumeId req).
Proof.
  cbv zeta. unfold getISCSIInfoFromPV. cbv zeta.
  repeat (case_bool_decide; cbn [orb]; [split; [done|naive_solver]|]).
  split.
  - intros [= <-]. split_and!; [done..|]. exists (portalMounter (default "" (npr_VolumeContext req !! "targetPortal"))).
    split_and!; [apply portalMounter_port| |done]. unfold portalMounter.
    destruct (Str.Contains _ ":") eqn:Hc; cbn [negb]; auto.
  - intros (_&_&_&portal&Hport&[->|[Hno ->]]&->); unfold portalMounter.
    + by rewrite Hport.
    + by rewrite Hno.
Qed.
End disks.

(** ** Waiting for a device *)

Section waiting.
Context {L : ApiLib} (path transport : string) (budget : nat).

(** How often the path was looked for and slept over, what was found, and
    whether a look failed with another error than "does not exist". *)
Record looks := Looks { looked : nat; slept : nat; seen : option string; hopeless : bool }.

(** The next look or pause is due: every look so far found nothing. *)
Definition on (s : looks) : Prop := looked s < budget ∧ seen s = None ∧ hopeless s = false.

(** [Glob] answers nil, never an empty slice, when nothing matches; the code
    takes that for "does not exist". *)
Definition looker : machine looks := {|
  guard := λ s a, match a with
    | OsStat p => transport = "tcp" ∧ p = path ∧ slept s = looked s ∧ on s
    | Glob p => transport ≠ "tcp" ∧ p = path ∧ slept s = looked s ∧ on s
    | Sleep t => t = 1%Z ∧ S (slept s) = looked s ∧ on s
    | _ => False
    end;
  next := λ s a, match a return result a → looks → Prop with
    | OsStat p => λ r s', s' = match r with
        | None => Looks (S (looked s)) (slept s) (Some p) false
        | Some e => Looks (S (looked s)) (slept s) None (negb (os_IsNotExist e))
        end
    | Glob _ => λ r s', r.1 ≠ Some [] ∧ s' = Looks (S (looked s)) (slept s) (r.1 ≫= head) false
    | Sleep _ => λ _ s', s' = Looks (looked s) (S (slept s)) (seen s) (hopeless s)
    | _ => λ _ s', s' = s
    end
|}.

Lemma wp_waitLoop n s Q :
  looked s + n = budget → slept s = looked s → seen s = None → hopeless s = false →
  (∀ p s', seen s' = Some p → looked s' ≤ budget → Q (ORet (p, true)) s') →
  (∀ s', seen s' = None → looked s' ≤ budget → hopeless s' = true ∨ looked s' = budget →
     Q (ORet (path, false)) s') →
  wp (mspec looker) (waitLoop (λ p, sys (OsStat p)) (λ p, sys (Glob p)) n path transport) s Q.
Proof.
  revert s. induction n as [|n IH]; intros s Hn Hsl Hseen Hhope H1 H2; [apply H2; auto; lia|].
  cbn [waitLoop]. wp_bind.
  assert (∀ e : error, ∀ s', s' = Looks (S (looked s)) (slept s) None (negb (os_IsNotExist e)) →
    wp (mspec looker) (if negb (os_IsNotExist e) then mret (path, false)
      else match n with
           | 0 => mret (path, false)
           | S _ => _ ← sys (Sleep 1);
               waitLoop (λ p, sys (OsStat p)) (λ p, sys (Glob p)) n path transport
           end) s' Q) as Hmiss.
  { intros e s' ->. destruct (os_IsNotExist e); cbn [negb]; [|apply H2; simpl; auto; lia].
    destruct n as [|n]; [apply H2; simpl; auto; lia|]. wp_bind. split.
    { split; [done|]. split; [simpl; lia|]. split_and!; simpl; [lia|done..]. }
    intros [] s2 ->. wp_ret tt. apply IH; simpl; [lia|lia|done..]. }
  case_bool_decide as Ht.
  - wp_bind. split; [split_and!; [done..|]; split_and!; [lia|done..]|]. intros e s1 Hs1. wp_ret e.
    wp_ret (path, e). simpl in Hs1. subst s1. destruct e as [e|]; [by apply Hmiss|apply H1; [done|simpl; lia]].
  - wp_bind. split; [split_and!; [done..|]; split_and!; [lia|done..]|].
    intros [[[|p l]|] e] s1 [Hne ->]; [done|..].
    + wp_ret (Some (p :: l), e). wp_ret (p, None (A := error)). apply H1; [done|simpl; lia].
    + wp_ret (None (A := list string), e). wp_ret (path, Some (OsErr ENotExist "file does not exist")).
      by apply Hmiss.
Qed.

(** C28: the wait for a device path looks for it at most as often as it was told,
    once per second, and stops at the first success and at the first error other
    than "does not exist"; it reports success exactly when the last look found the
    path, and then the path found; it reports failure only when all the looks it
    may take found nothing or the last met such an error, and never panics. *)
Theorem device_wait_bounded :
  wp (mspec looker) (waitForPathToExist path budget transport) (Looks 0 0 None false) (λ o s',
    looked s' ≤ budget ∧
    match o with
    | ORet (p, true) => seen s' = Some p
    | ORet (p, false) => seen s' = None ∧ p = path ∧ (hopeless s' = true ∨ looked s' = budget)
    | _ => False
    end).
Proof.
  unfold waitForPathToExist, waitForPathToExistInternal. wp_bind. wp_bind.
  by apply wp_waitLoop; simpl.
Qed.
End waiting.

(** ** The file of a disk *)

Section disk_file.
Context {L : ApiLib} (h : Host).

(** The files by name; [None] is a file without a document. *)
Abbreviation files := (gmap string (option DiskDoc)).

Definition whole (d : DiskDoc) : DiskFields :=
  MkDiskFields (Some (doc_Portals d)) (Some (doc_Iqn d)) (Some (doc_Iface d))
    (Some (doc_InitiatorName d)) (Some (doc_VolName d)).

(** Creating truncates; a decoder that fails may have set some fields. *)
Definition drive : machine files := {|
  guard := λ s a, match a with
    | OsCreate _ | OsOpen _ => True
    | EncodeDisk f _ | DecodeDisk f | CloseFile f => is_Some (s !! f)
    | _ => False
    end;
  next := λ s a, match a return result a → files → Prop with
    | OsCreate f => λ r s',
        match r with None => s' = <[f := None]> s | Some _ => flaky h = true ∧ s' = s end
    | EncodeDisk f d => λ r s',
        match r with None => s' = <[f := Some d]> s | Some _ => flaky h = true ∧ s' = <[f := None]> s end
    | OsOpen f => λ r s', s' = s ∧
        match r with None => is_Some (s !! f) | Some _ => flaky h = true ∨ s !! f = None end
    | DecodeDisk f => λ r s', s' = s ∧
        match r.2 with
        | None => ∃ d, s !! f = Some (Some d) ∧ r.1 = whole d
        | Some _ => flaky h = true ∨ s !! f = Some None
        end
    | _ => λ _ s', s' = s
    end
|}.

(** What the file of a disk does not hold is not restored: reading a disk back
    gives what was written for the portals, the name, the interface, the
    initiator and the volume, but the unit number, the two CHAP switches and
    the CHAP secret are those of the disk read into. Nothing else goes wrong: the
    write and the read return, and on a host whose calls do not fail they
    succeed. *)
Theorem disk_file_partial conf conf0 mnt s :
  VolName conf0 = VolName conf →
  ⟪ s ⟫ persistISCSI conf mnt under drive ⟪ λ o s1,
    match o with
    | ORet None =>
        ⟪ s1 ⟫ loadISCSI conf0 mnt under drive ⟪ λ o _,
          match o with
          | ORet (d, None) =>
              d = MkDisk (Portals conf) (Iqn conf) (lun conf0) (Iface conf) (chapDiscovery conf0)
                    (chapSession conf0) (secret conf0) (InitiatorName conf) (VolName conf)
          | ORet (_, Some _) => flaky h = true
          | _ => False
          end ⟫
    | ORet (Some _) => flaky h = true
    | _ => False
    end ⟫.
Proof.
  intros Hv. unfold persistISCSI. cbv zeta. set (file := Str.path_Join _). wp_bind.
  split; [done|]. intros [e|] s1 Hs1; [by destruct Hs1|]. simpl in Hs1. subst s1. cbn [then_].
  wp_defer. wp_bind. split; [simpl; by rewrite lookup_insert_eq|].
  intros [e|] s1 Hs1; simpl in Hs1; cbn [then_].
  { destruct Hs1 as [Hf ->]. cbn [then_defer]. wp_bind. split; [simpl; by rewrite lookup_insert_eq|]. by intros [] s1 ->. }
  subst s1. cbn [then_defer]. wp_bind. split; [simpl; by rewrite lookup_insert_eq|]. intros [] s1 ->.
  wp_ret tt. unfold loadISCSI. rewrite Hv. cbv zeta. fold file. wp_bind.
  split; [done|]. intros [e|] s1 [-> Hr]; cbn [then_].
  { destruct Hr as [Hr|Hr]; [done|by rewrite lookup_insert_eq in Hr]. }
  wp_defer. wp_bind. split; [simpl; by rewrite lookup_insert_eq|]. intros [f [e|]] s1 [-> Hd]; cbn [then_].
  - cbn [then_defer]. wp_bind. split; [simpl; by rewrite lookup_insert_eq|]. intros [] s1 ->.
    wp_ret tt. rewrite lookup_insert_eq in Hd. by destruct Hd.
  - destruct Hd as (d & Hd & Hf). rewrite lookup_insert_eq in Hd. simpl in Hf. simplify_eq.
    cbn [then_defer]. wp_bind. split; [simpl; by rewrite lookup_insert_eq|]. by intros [] s1 ->.
Qed.
End disk_file.

(** ** Bringing a portal up *)

Section portal.
Context {L : ApiLib} (d : iscsiDisk) (tp : string).

(** The iscsiadm commands of one portal. *)
Definition discoverydb : list string := ["-m"; "discoverydb"; "-t"; "sendtargets"; "-p"; tp; "-I"; Iface d].
Definition dbUpdate (k x : string) : list string := discoverydb ++ ["-o"; "update"; "-n"; k; "-v"; x].
Definition discover : list string := discoverydb ++ ["--discover"].
Definition nodeUpdate (k x : string) : list string :=
  ["-m"; "node"; "-p"; tp; "-T"; Iqn d; "-I"; Iface d; "-o"; "update"; "-n"; k; "-v"; x].
Definition login : list string := ["-m"; "node"; "-p"; tp; "-T"; Iqn d; "-I"; Iface d; "--login"].

(** Where the device of the portal will show up. *)
Definition by_path (transport : string) : string :=
  if bool_decide (transport = "tcp")
  then Str.Join ["/dev/disk/by-path/ip"; tp; "iscsi"; Iqn d; "lun"; lun d] "-"
  else Str.Join ["/dev/disk/by-path/pci"; "*"; "ip"; tp; "iscsi"; Iqn d; "lun"; lun d] "-".
Context (transport : string).

(** What has succeeded and what has failed: CHAP enabled for the discovery, the
    discovery, CHAP enabled for the session, the login; and the device when it
    is there. *)
Record up := Up {
  dbauth : bool; discovered : bool; dfailed : bool; nodeauth : bool; loggedin : bool; lfailed : bool;
  present : option string
}.
Definition set_present (p : option string) (s : up) : up :=
  Up (dbauth s) (discovered s) (dfailed s) (nodeauth s) (loggedin s) (lfailed s) p.

(** Nothing has failed yet and the device is not there. *)
Definition going (s : up) : Prop := present s = None ∧ dfailed s = false ∧ lfailed s = false.

Definition adm_permits (s : up) (args : list string) : Prop :=
  present s = None ∧
  (args = ["-m"; "node"; "-p"; tp; "-T"; Iqn d; "-R"] ∨
   args = discoverydb ++ ["-o"; "new"] ∨
   (∃ k x, args = dbUpdate k x ∧ chapDiscovery d = true ∧ discovered s = false) ∨
   args = discover ∧ dfailed s = false ∧ (chapDiscovery d = true → dbauth s = true) ∨
   args = discoverydb ++ ["-o"; "delete"] ∧ dfailed s = true ∨
   (∃ k x, args = nodeUpdate k x ∧ chapSession d = true ∧ discovered s = true) ∨
   args = login ∧ discovered s = true ∧ lfailed s = false ∧ (chapSession d = true → nodeauth s = true) ∨
   args = ["-m"; "node"; "-p"; tp; "-I"; Iface d; "-T"; Iqn d; "-o"; "delete"] ∧ lfailed s = true).

Definition adm_reacts (s : up) (args : list string) (e : err) : up :=
  let ok := bool_decide (e = None) in
  if decide (args = dbUpdate "discovery.sendtargets.auth.authmethod" "CHAP")
  then Up (ok || dbauth s) (discovered s) (dfailed s) (nodeauth s) (loggedin s) (lfailed s) (present s)
  else if decide (args = discover)
  then Up (dbauth s) ok (negb ok) (nodeauth s) (loggedin s) (lfailed s) (present s)
  else if decide (args = nodeUpdate "node.session.auth.authmethod" "CHAP")
  then Up (dbauth s) (discovered s) (dfailed s) (ok || nodeauth s) (loggedin s) (lfailed s) (present s)
  else if decide (args = login)
  then Up (dbauth s) (discovered s) (dfailed s) (nodeauth s) ok (negb ok) (present s)
  else s.

Definition bringer : machine up := {|
  guard := λ s a, match a with
    | Exec cmd args => cmd = "iscsiadm" ∧ adm_permits s args
    | OsStat p => transport = "tcp" ∧ p = by_path transport ∧ going s
    | Glob p => transport ≠ "tcp" ∧ p = by_path transport ∧ going s
    | Sleep _ => going s
    | _ => False
    end;
  next := λ s a, match a return result a → up → Prop with
    | Exec _ args => λ r s', s' = adm_reacts s args r.2
    | OsStat p => λ r s', s' = set_present match r with None => Some p | Some _ => None end s
    | Glob _ => λ r s', r.1 ≠ Some [] ∧ s' = set_present (r.1 ≫= head) s
    | _ => λ _ s', s' = s
    end
|}.

Abbreviation wps := (wp (mspec bringer)).

Lemma set_present_none s : present s = None → set_present None s = s.
Proof. destruct s. simpl. by intros ->. Qed.

(** Waiting changes nothing but the knowledge of the device. *)
Lemma wp_wait n s Q :
  going s →
  (∀ p, Q (ORet (p, true)) (set_present (Some p) s)) →
  Q (ORet (by_path transport, false)) s →
  wps (waitForPathToExist (by_path transport) n transport) s Q.
Proof.
  intros Hp H1 H2. unfold waitForPathToExist, waitForPathToExistInternal. wp_bind. wp_bind.
  set (Q1 := then_ _ _ _). set (path := by_path transport) in *.
  assert (∀ p, Q1 (ORet (p, true)) (set_present (Some p) s)) as HQ1 by (intros p; apply H1).
  assert (Q1 (ORet (path, false)) s) as HQ2 by apply H2.
  clearbody Q1. clear H1 H2. induction n as [|n IH]; [apply HQ2|].
  assert (∀ e, wps (if negb (os_IsNotExist e) then mret (path, false)
      else match n with
           | 0 => mret (path, false)
           | S _ => _ ← sys (Sleep 1);
               waitLoop (λ p, sys (OsStat p)) (λ p, sys (Glob p)) n path transport
           end) s Q1) as Hmiss.
  { intros e. destruct (os_IsNotExist e); cbn [negb]; [|apply HQ2].
    destruct n as [|n]; [apply HQ2|]. wp_bind. split; [done|]. intros [] s2 ->. wp_ret tt. apply IH. }
  pose proof (set_present_none s (proj1 Hp)) as Hs.
  cbn [waitLoop]. wp_bind. case_bool_decide as Ht.
  - wp_bind. split; [done|]. intros e s1 ->. wp_ret e. wp_ret (path, e).
    destruct e as [e|]; [rewrite Hs; apply Hmiss|apply HQ1].
  - wp_bind. split; [done|]. intros [[[|p l]|] e] s1 [Hne ->]; [done|..].
    + wp_ret (Some (p :: l), e). wp_ret (p, None (A := error)). apply HQ1.
    + wp_ret (None (A := list string), e). wp_ret (path, Some (OsErr ENotExist "file does not exist")).
      cbn [fst mbind option_bind]. rewrite Hs. apply Hmiss.
Qed.

(** The secrets are set one by one; setting them forgets nothing. *)
Lemma wp_updateKeys keys cmd failure s Q :
  (∀ k x, guard bringer s (Exec "iscsiadm" (cmd k x))) →
  (∀ k x e, k ∈ keys → adm_reacts s (cmd k x) e = s) →
  (∀ e, Q (ORet e) s) → wps (updateKeys d keys cmd failure) s Q.
Proof.
  intros Hg Hr HQ. induction keys as [|k keys IH]; cbn [updateKeys]; [apply HQ|].
  assert (wps (updateKeys d keys cmd failure) s Q) as Hrest.
  { apply IH. intros k' x e Hk. apply Hr. by right. }
  cbv zeta. case_bool_decide; [|exact Hrest]. wp_bind. split; [apply Hg|].
  intros [o e] s1 Hs1. simpl in Hs1. rewrite Hr in Hs1 by left. subst s1. wp_ret (o, e).
  destruct e; [apply HQ|exact Hrest].
Qed.
Lemma keys_not_authmethod k :
  k ∈ chapSt ++ chapSess →
  k ≠ "discovery.sendtargets.auth.authmethod" ∧ k ≠ "node.session.auth.authmethod".
Proof. intros H. by repeat (apply elem_of_cons in H as [->|H]; [done|]); apply elem_of_nil in H. Qed.

(** Two commands that differ. *)
Ltac differ := first [done | unfold dbUpdate, nodeUpdate, login, discover, discoverydb; cbn [app]; congruence].

(** The command is none of the four that count. *)
Ltac other_command :=
  repeat (let E := fresh in case_decide as E;
    [exfalso; unfold dbUpdate, nodeUpdate, login, discover, discoverydb in E; cbn [app] in E; congruence|]);
  done.

Lemma adm_dbUpdate s k x e : k ∈ chapSt → adm_reacts s (dbUpdate k x) e = s.
Proof.
  intros Hk. assert (k ∈ chapSt ++ chapSess) as Hk' by (apply elem_of_app; by left).
  apply keys_not_authmethod in Hk' as [Hk' _]. unfold adm_reacts. cbv zeta. other_command.
Qed.

Lemma adm_nodeUpdate s k x e : k ∈ chapSess → adm_reacts s (nodeUpdate k x) e = s.
Proof.
  intros Hk. assert (k ∈ chapSt ++ chapSess) as Hk' by (apply elem_of_app; by right).
  apply keys_not_authmethod in Hk' as [_ Hk']. unfold adm_reacts. cbv zeta. other_command.
Qed.

(** The four commands that count. *)
Lemma adm_db s e : adm_reacts s (dbUpdate "discovery.sendtargets.auth.authmethod" "CHAP") e =
  Up (bool_decide (e = None) || dbauth s) (discovered s) (dfailed s) (nodeauth s) (loggedin s)
    (lfailed s) (present s).
Proof. unfold adm_reacts. by rewrite decide_True. Qed.
Lemma adm_discover s e : adm_reacts s discover e =
  Up (dbauth s) (bool_decide (e = None)) (negb (bool_decide (e = None))) (nodeauth s) (loggedin s)
    (lfailed s) (present s).
Proof. unfold adm_reacts. by rewrite decide_False, decide_True by differ. Qed.
Lemma adm_node s e : adm_reacts s (nodeUpdate "node.session.auth.authmethod" "CHAP") e =
  Up (dbauth s) (discovered s) (dfailed s) (bool_decide (e = None) || nodeauth s) (loggedin s)
    (lfailed s) (present s).
Proof. unfold adm_reacts. by rewrite decide_False, decide_False, decide_True by differ. Qed.
Lemma adm_login s e : adm_reacts s login e =
  Up (dbauth s) (discovered s) (dfailed s) (nodeauth s) (bool_decide (e = None))
    (negb (bool_decide (e = None))) (present s).
Proof. unfold adm_reacts. by rewrite decide_False, decide_False, decide_False, decide_True by differ. Qed.

(** Enabling CHAP for the discovery. *)
Lemma wp_discoverydb s Q :
  going s → discovered s = false →
  (∀ s', going s' → discovered s' = false → (chapDiscovery d = true → dbauth s' = true) → Q (ORet None) s') →
  (∀ e s', present s' = None → Q (ORet (Some e)) s') →
  wps (updateISCSIDiscoverydb d tp) s Q.
Proof.
  intros Hp Hd H1 H2. unfold updateISCSIDiscoverydb. destruct (chapDiscovery d) eqn:Hc; cbn [negb].
  2: { by apply H1. }
  cbv zeta. wp_bind. split.
  { split; [done|]. split; [apply Hp|]. right; right; left. by eexists _, _. }
  intros [o e] s1 Hs1. wp_ret (o, e).
  change (s1 = adm_reacts s (dbUpdate "discovery.sendtargets.auth.authmethod" "CHAP") e) in Hs1.
  rewrite adm_db in Hs1. subst s1. destruct e as [e|]; [apply H2, Hp|].
  set (s1 := Up _ _ _ _ _ _ _). assert (present s1 = None) as Hp1 by apply Hp.
  apply (wp_updateKeys chapSt dbUpdate).
  - intros k x. split; [done|]. split; [done|]. right; right; left. by exists k, x.
  - intros k x e Hk. by apply adm_dbUpdate.
  - intros [e|]; [by apply H2|by apply H1].
Qed.

(** Enabling CHAP for the session. *)
Lemma wp_node s Q :
  going s → discovered s = true →
  (∀ s', going s' → discovered s' = true → (chapSession d = true → nodeauth s' = true) → Q (ORet None) s') →
  (∀ e s', present s' = None → Q (ORet (Some e)) s') →
  wps (updateISCSINode d tp) s Q.
Proof.
  intros Hp Hd H1 H2. unfold updateISCSINode. destruct (chapSession d) eqn:Hc; cbn [negb].
  2: { by apply H1. }
  cbv zeta. wp_bind. split.
  { split; [done|]. split; [apply Hp|]. do 5 right. left. by eexists _, _. }
  intros [o e] s1 Hs1. wp_ret (o, e).
  change (s1 = adm_reacts s (nodeUpdate "node.session.auth.authmethod" "CHAP") e) in Hs1.
  rewrite adm_node in Hs1. subst s1. destruct e as [e|]; [apply H2, Hp|].
  set (s1 := Up _ _ _ _ _ _ _). assert (present s1 = None) as Hp1 by apply Hp.
  apply (wp_updateKeys chapSess nodeUpdate).
  - intros k x. split; [done|]. split; [done|]. do 5 right. left. by exists k, x.
  - intros k x e Hk. by apply adm_nodeUpdate.
  - intros [e|]; [by apply H2|by apply H1].
Qed.

(** What bringing up a portal leaves: with the device there, its path after
    those of the portals before; else an error, and the same paths. *)
Definition portal_post (st : attachState) (o : outcome (string * err + attachState)) (s' : up) : Prop :=
  match o with
  | ORet (inl _) => transport = "" ∧ present s' = None
  | ORet (inr st') => transport ≠ "" ∧
      match present s' with
      | Some path => devicePaths st' = devicePaths st ++ [path] ∧ lastErr st' = lastErr st
      | None => devicePaths st' = devicePaths st ∧ is_Some (lastErr st')
      end
  | _ => False
  end.

Lemma portal_skip st e s : transport ≠ "" → present s = None →
  portal_post st (ORet (inr (MkAttach (devicePaths st) (Some e)))) s.
Proof. intros Ht Hp. split; [done|]. rewrite Hp. by split; [|eexists]. Qed.

End portal.

End IscsiSpec.
