(* ===== verification/DriverSpec.v ===== *)
(** * The process

    From the command line to the services: the configuration that the flags give,
    the cleanup of a node driver, the construction and the start of the driver ([Main.run]), the endpoint its server
    listens at and the interceptor around every request. *)

From S2P Require Export Identity.
Local Open Scope go_scope.

Module DriverSpec.

(** ** The interceptor *)

Section interceptor.
Context {L : ApiLib}.

(** The interceptor of the gRPC server is transparent: whatever the handler
    does and however it ends, the request ends the same way with the same
    answer and the same effects; around them stand only a request identifier and
    the log, where the probes and capability queries leave nothing but their
    errors and every other request is logged without its secrets. *)
Theorem interceptor_transparent {Req Resp W} (stripReq : Req → string) (stripResp : Resp → string)
    method (handler : Req → go (Resp * err)) req (env : ∀ a : action, W → result a * W) w :
  (∀ w, (env NewUUID w).2 = w) → (∀ fmt args w, env (LogLine fmt args) w = (tt, w)) →
  let quiet := existsb (Str.Contains method)
    ["NodeGetCapabilities"; "NodeGetVolumeStats"; "ControllerGetCapabilities";
     "GetPluginInfo"; "GetPluginCapabilities"; "Probe"] in
  let id := (env NewUUID w).1 in
  let '(o, tr, w') := run env (handler req) w in
  run env (Server.logGRPC stripReq stripResp method handler req) w =
    (o,
     ev NewUUID id ::
     (if quiet then []
      else [ev (LogLine "Req %s: %s %s" [AStr id; AStr method; AStr (stripReq req)]) tt]) ++
     tr ++
     match o with
     | ORet (_, Some e) => [ev (LogLine "GRPC error: %v" [AErr e]) tt]
     | ORet (resp, None) =>
         if quiet then [] else [ev (LogLine "Resp %s: %s" [AStr id; AStr (stripResp resp)]) tt]
     | _ => []
     end, w').
Proof.
  intros Hid Hlog quiet id. unfold Server.logGRPC, Mounts.printlog. cbv zeta. fold quiet.
  destruct (run env (handler req) w) as [[o tr] w'] eqn:Hr.
  assert (env NewUUID w = (id, w)) as Henv.
  { unfold id. specialize (Hid w). destruct (env NewUUID w); simpl in *; by subst. }
  cbn [mbind prog_bind bind run]. rewrite Henv. cbn [mbind prog_bind bind run].
  destruct quiet; cbn [negb mbind prog_bind mret prog_ret bind run];
    rewrite ?Hlog; cbn [mbind prog_bind mret prog_ret bind run]; unfold mbind, prog_bind;
    rewrite run_bind, Hr; (destruct o as [[resp [e|]]|m|c]; simpl; rewrite ?Hlog, ?app_nil_r; done).
Qed.

End interceptor.

(** ** The endpoint *)

Section endpoint.
Context {L : ApiLib}.

Lemma lower_fixed (c d : Ascii.ascii) :
  Str.lower c = d → (Ascii.nat_of_ascii d < 97)%nat → c = d.
Proof.
  unfold Str.lower. intros <-.
  destruct ((65 <=? Ascii.nat_of_ascii c) && (Ascii.nat_of_ascii c <=? 90))%nat eqn:E; [|done].
  apply andb_true_iff in E as [E1 E2]. apply Nat.leb_le in E1, E2.
  rewrite Ascii.nat_ascii_embedding by lia. lia.
Qed.

Lemma str_app_assoc s t u : (s +:+ t) +:+ u = s +:+ (t +:+ u).
Proof. induction s as [|c s IH]; [done|]. exact (f_equal (String c) IH). Qed.

Lemma ToLower_app s t : Str.ToLower (s +:+ t) = Str.ToLower s +:+ Str.ToLower t.
Proof.
  induction s as [|c s IH]; [done|]. exact (f_equal (String (Str.lower c)) IH).
Qed.

(** A text whose lower-case form has a prefix [q] starts with a text whose
    lower-case form is [q]. *)
Lemma HasPrefix_ToLower s q :
  Str.HasPrefix (Str.ToLower s) q = true ↔ ∃ p t, s = p +:+ t ∧ Str.ToLower p = q.
Proof.
  split.
  - revert s. induction q as [|c q IH]; intros s H; [by exists "", s|].
    destruct s as [|d s]; [done|]. simpl in H. apply andb_true_iff in H as [Hc H].
    apply bool_decide_eq_true in Hc. destruct (IH s H) as (p & t & -> & Hp).
    exists (String d p), t. simpl. by rewrite Hc, Hp.
  - intros (p & t & -> & <-). rewrite ToLower_app.
    induction (Str.ToLower p) as [|c q IH]; simpl; [by destruct (Str.ToLower t)|].
    by rewrite bool_decide_eq_true_2, IH.
Qed.

Lemma ToLower_split p q1 q2 :
  Str.ToLower p = q1 +:+ q2 →
  ∃ p1 p2, p = p1 +:+ p2 ∧ Str.ToLower p1 = q1 ∧ Str.ToLower p2 = q2.
Proof.
  revert p. induction q1 as [|c q IH]; intros p H; [by exists "", p|].
  destruct p as [|d p]; [done|]. injection H as Hc H. destruct (IH p H) as (p1 & p2 & -> & <- & <-).
  exists (String d p1), p2. simpl. by rewrite Hc.
Qed.

Lemma separator_fixed r : Str.ToLower r = "://" → r = "://".
Proof.
  do 3 (destruct r as [|? r]; [done|]). destruct r as [|? ?]; [|done]. intros [= H1 H2 H3].
  by rewrite (lower_fixed _ _ H1), (lower_fixed _ _ H2), (lower_fixed _ _ H3)
    by (vm_compute; repeat constructor).
Qed.

(** The two schemes as prefixes of the lower-case endpoint. *)
Lemma scheme_prefix ep q :
  Str.HasPrefix (Str.ToLower ep) (q +:+ "://") = true ↔
  ∃ p a, ep = p +:+ "://" +:+ a ∧ Str.ToLower p = q.
Proof.
  rewrite HasPrefix_ToLower. split.
  - intros (p & t & -> & Hp). apply ToLower_split in Hp as (p1 & p2 & -> & Hp1 & Hp2).
    rewrite (separator_fixed p2 Hp2). exists p1, t. by rewrite !str_app_assoc.
  - intros (p & a & -> & <-). exists (p +:+ "://"), a.
    by rewrite ToLower_app, !str_app_assoc.
Qed.

(** A scheme has no colon, so the first separator is the one behind it. *)
Lemma scheme_no_colon p : Str.Contains (Str.ToLower p) ":" = false → Str.Contains p ":" = false.
Proof.
  induction p as [|c p IH]; [done|]. simpl. rewrite !orb_false_iff.
  intros [Hc Hp]. split; [|by apply IH]. rewrite andb_true_r in *.
  apply bool_decide_eq_false in Hc. apply bool_decide_eq_false. intros <-. by apply Hc.
Qed.

Lemma SplitN2_scheme p a :
  Str.Contains p ":" = false → Str.SplitN2 (p +:+ "://" +:+ a) "://" = [p; a].
Proof.
  induction p as [|c p IH]; intros H; [by destruct a|].
  simpl in H. rewrite orb_false_iff, andb_true_r in H. destruct H as [Hc Hp].
  change (String c p +:+ "://" +:+ a) with (String c (p +:+ "://" +:+ a)).
  cbn [Str.SplitN2 Str.HasPrefix]. by rewrite Hc, IH.
Qed.

Definition scheme (p : string) : Prop := Str.ToLower p = "unix" ∨ Str.ToLower p = "tcp".

Lemma parse_scheme p a :
  scheme p → Mounts.parseEndpoint (p +:+ "://" +:+ a) =
    if bool_decide (a = "") then fail (Errorf "Invalid endpoint: %v" [AStr (p +:+ "://" +:+ a)])
    else ok (p, a).
Proof.
  intros Hp. unfold Mounts.parseEndpoint.
  assert (Str.HasPrefix (Str.ToLower (p +:+ "://" +:+ a)) "unix://" ||
          Str.HasPrefix (Str.ToLower (p +:+ "://" +:+ a)) "tcp://" = true) as ->.
  { apply orb_true_iff. destruct Hp as [Hp|Hp]; [left|right];
      [apply (scheme_prefix _ "unix")|apply (scheme_prefix _ "tcp")]; by exists p, a. }
  rewrite SplitN2_scheme by (apply scheme_no_colon; by destruct Hp as [-> | ->]).
  by case_bool_decide.
Qed.

(** C39: an endpoint is accepted exactly when it is a unix or tcp scheme, in any
    case, "://" and a non-empty address, and is taken apart at that separator, the
    scheme as it was written; every other text is refused with an error, and
    no text panics the parser.  Case is that of the ASCII letters; Go's ToLower
    also maps the letter U+0130 to "i", so that the program accepts a scheme
    written with it. *)
Theorem endpoint_exact ep :
  (∀ p a, Mounts.parseEndpoint ep = ok (p, a) ↔
     ep = p +:+ "://" +:+ a ∧ a ≠ "" ∧ (Str.ToLower p = "unix" ∨ Str.ToLower p = "tcp")) ∧
  ((∃ p a, Mounts.parseEndpoint ep = ok (p, a)) ∨
   Mounts.parseEndpoint ep = fail (Errorf "Invalid endpoint: %v" [AStr ep])).
Proof.
  destruct (Str.HasPrefix (Str.ToLower ep) "unix://" || Str.HasPrefix (Str.ToLower ep) "tcp://") eqn:E.
  - assert (∃ p a, ep = p +:+ "://" +:+ a ∧ scheme p) as (p & a & -> & Hp).
    { apply orb_true_iff in E as [E|E];
        [apply (scheme_prefix ep "unix") in E|apply (scheme_prefix ep "tcp") in E];
        destruct E as (p & a & -> & Hp); exists p, a; unfold scheme; auto. }
    rewrite parse_scheme by done. split.
    + intros p' a'. split.
      * case_bool_decide; [done|]. by intros [= <- <-].
      * intros (Heq & Ha & Hp'). assert (Mounts.parseEndpoint (p' +:+ "://" +:+ a') = ok (p', a')) as H.
        { rewrite parse_scheme by done. by rewrite bool_decide_eq_false_2. }
        rewrite <- Heq, parse_scheme in H by done. exact H.
    + case_bool_decide; [by right|left; by exists p, a].
  - assert (Mounts.parseEndpoint ep = fail (Errorf "Invalid endpoint: %v" [AStr ep])) as Hf.
    { unfold Mounts.parseEndpoint. by rewrite E. }
    rewrite Hf. split; [|by right]. intros p a. split; [done|]. intros (-> & Ha & Hp).
    rewrite parse_scheme, bool_decide_eq_false_2 in Hf by done. done.
Qed.

End endpoint.

(** ** The start of the process *)

(** The main thread's attempts to list the attachments: how often it has slept,
    whether it has listed since, and how often it has listed in all. *)
Record tries := Tries { naps : nat; asked : bool; listed : nat }.

(** The process as it starts: whether the lock of the transition list is held,
    the attempts, the attachments listed, the volume
    last entered in the transition list, the cleanups begun, whether the monitor
    runs, what is served and where, how many of the three steps of the
    announcement are done, and the count of the wait group. *)
Record proc := Proc {
  locked : bool; attempts : tries; found : option (list CStorVolumeAttachment);
  marked : option string; begun : list CStorVolumeAttachment; watching : bool;
  offered : option (string * list service); announced : nat; group : nat
}.
Definition untried : tries := Tries 0 false 0.
Definition fresh : proc := Proc false untried None None [] false None 0 0.

(** The attachments whose deletion is pending: those the cleanup is for. *)
Definition due (l : list CStorVolumeAttachment) : list CStorVolumeAttachment :=
  filter (λ vol, om_DeletionTimestamp (cva_Meta vol) ≠ None) l.

Section start.
Context {L : ApiLib} {G : Globals} {B : BuildVars} (h : Host) (c : Driver.Config).

(** The services of a plugin of the configured type. *)
Definition services : list service :=
  if bool_decide (Driver.PluginType c = "controller") then [IdentityService; ControllerService]
  else if bool_decide (Driver.PluginType c = "node") then [IdentityService; NodeService]
  else [IdentityService].

(** A node driver that listed its attachments begins the cleanup of exactly
    those due; no other driver lists or cleans up. *)
Definition cleaned (s : proc) : Prop :=
  if bool_decide (Driver.PluginType c = "node") then
    ∃ l, found s = Some l ∧ begun s = due l
  else found s = None ∧ begun s = [].

(** A controller with analytics enabled announces itself. *)
Definition announces : bool :=
  bool_decide (Driver.PluginType c = "controller") && truthy (environ h Env.OpenEBSEnableAnalytics).

Definition monitored : bool :=
  bool_decide (Driver.PluginType c = "node") &&
  bool_decide (environ h "REMOUNT" = Some "true").

Definition may (s : proc) (a : action) : Prop :=
  match a with
  | Lock => locked s = false
  | Unlock => locked s = true
  | CvaList _ ns sel => ns = OpenEBSNamespace ∧ sel = "nodeID=" +:+ NodeIDENV ∧
      locked s = true ∧ found s = None ∧ naps (attempts s) < 5 ∧ asked (attempts s) = false
  | Sleep t => t = 1%Z ∧ found s = None ∧ naps (attempts s) < 5 ∧
      (asked (attempts s) = true ∨ flaky h = true)
  | TvlSet v st => st = UnmountUnderProgress ∧ locked s = true ∧ is_Some (found s)
  | TvlGet v => locked s = true
  | GoCleanup vol => locked s = true ∧ marked s = Some (cva_VolName vol) ∧
      om_DeletionTimestamp (cva_Meta vol) ≠ None ∧ offered s = None
  | GoMonitor => monitored = true ∧ watching s = false ∧ locked s = false ∧ cleaned s
  | WgAdd => group s = 0
  | GoServe ep l => ep = Driver.Endpoint c ∧ l = services ∧ offered s = None ∧
      locked s = false ∧ cleaned s ∧ watching s = monitored
  | AnalyticsRegister => announces = true ∧ is_Some (offered s) ∧ announced s = 0
  | AnalyticsInstall app => app = "cstor" ∧ announces = true ∧ announced s = 1
  | GoPing app => app = "cstor" ∧ announces = true ∧ announced s = 2
  | WgWait => offered s = Some (Driver.Endpoint c, services) ∧
      announced s = if announces then 3 else 0
  | ReadFile _ | CmdOutput _ _ => True
  | a => kind_of a = KConfig
  end.

Definition moves (s : proc) (a : action) : result a → proc → Prop :=
  let '(Proc lk n f m b w o a' g) := s in
  match a with
  | Lock => λ _ s', s' = Proc true n f m b w o a' g
  | Unlock => λ _ s', s' = Proc false n f m b w o a' g
  | CvaList _ _ _ => λ r s', (r.2 = None → is_Some r.1) ∧
      s' = Proc lk (Tries (naps n) true (S (listed n)))
             (match r with (r1, None) => r1 | _ => None end) m b w o a' g
  | Sleep _ => λ _ s', s' = Proc lk (Tries (S (naps n)) false (listed n)) f m b w o a' g
  | TvlSet v _ => λ _ s', s' = Proc lk n f (Some v) b w o a' g
  | GoCleanup vol => λ _ s', s' = Proc lk n f None (b ++ [vol]) w o a' g
  | GoMonitor => λ _ s', s' = Proc lk n f m b true o a' g
  | GoServe ep l => λ _ s', s' = Proc lk n f m b w (Some (ep, l)) a' g
  | AnalyticsRegister | AnalyticsInstall _ | GoPing _ => λ _ s', s' = Proc lk n f m b w o (S a') g
  | WgAdd => λ _ s', s' = Proc lk n f m b w o a' (S g)
  (* sync.WaitGroup.Wait returns only when the count is zero *)
  | WgWait => λ _ s', g = 0 ∧ s' = s
  | _ => λ _ s', s' = s
  end.

Definition starting : machine proc := {|
  guard := may; next := λ s a r s', sane h a r ∧ moves s a r s'
|}.

Global Instance starting_config : ConfigFree h (mspec starting).
Proof.
  intros a s Q Ha HQ. split.
  - destruct a; first [discriminate Ha | done].
  - intros r s' [Hr Hs]. destruct s, a; first [discriminate Ha | (simpl in Hs; subst; by apply HQ)].
Qed.

Abbreviation wps := (wp (mspec starting)).

(** *** The cleanup *)

(** After [n] pauses, before the next listing: one listing for each, unless the
    client could not be opened. *)
Definition paused (n : nat) (t : tries) : Prop :=
  naps t = n ∧ asked t = false ∧ listed t ≤ n ∧ (flaky h = false → listed t = n).
(** After the listing. *)
Definition tried (n : nat) (t : tries) : Prop :=
  naps t = n ∧ (asked t = true ∨ flaky h = true) ∧ listed t ≤ S n ∧ (flaky h = false → listed t = S n).

Lemma wp_listing n t m b w o g Q :
  n < 5 → paused n t →
  (∀ l t', tried n t' → Q (ORet (Some l, None)) (Proc true t' (Some l) m b w o 0 g)) →
  (∀ r e t', tried n t' → Q (ORet (r, Some e)) (Proc true t' None m b w o 0 g)) →
  wps Attach.GetVolListForNode (Proc true t None m b w o 0 g) Q.
Proof.
  intros Hn (Ht1 & Ht2 & Ht3 & Ht4) H1 H2. unfold Attach.GetVolListForNode. wp_bind.
  assert (tried n (Tries (naps t) true (S (listed t)))) as Hnext.
  { split_and!; simpl; [done|by left|lia|]. intros Hf. by rewrite Ht4. }
  apply (Cva.wp_cvaList h (mspec starting)).
  { intros k e [Hf _]. apply H2. split_and!; [done|by right|lia|congruence]. }
  intros k. split; [split_and!; simpl; try done; lia|].
  intros [l [e|]] s' (_ & Hl & ->) k'; cbn [then_].
  - destruct l; by apply H2.
  - destruct (Hl eq_refl) as [l' Hl']. simpl in Hl'. subst l. by apply H1.
Qed.

Lemma wp_cleanupList n k t m b w o g Q :
  n + S k = 5 → paused n t →
  (∀ l n' t', n' < 5 → tried n' t' → Q (ORet (inl l)) (Proc true t' (Some l) m b w o 0 g)) →
  (∀ e t', paused 5 t' → Q (ORet (inr e)) (Proc true t' None m b w o 0 g)) →
  wps (Mounts.cleanupList (S k)) (Proc true t None m b w o 0 g) Q.
Proof.
  revert n t. induction k as [|k IH]; intros n t Hn Ht H1 H2; cbn [Mounts.cleanupList]; wp_bind;
    (apply (wp_listing n); [lia|done| |]; cbn [then_];
     [intros l t' Ht'; wp_bind; wp_ret l; apply (H1 l n); [lia|done]|]);
    intros _ e t' (N1 & N2 & N3 & N4);
    wp_bind; (split; [split_and!; simpl; [done|done|lia|done]|]); intros [] s' [_ ->]; wp_ret tt.
  - apply H2. split_and!; simpl; [lia|done|lia|]. intros Hf. rewrite N4 by done. lia.
  - apply (IH (S n)); [lia| |done|done].
    split_and!; simpl; [lia|done|lia|]. intros Hf. by rewrite N4.
Qed.

Lemma wp_cleanupLoop n l l' m b w g Q :
  (∀ m', Q (ORet tt) (Proc true n (Some l) m' (b ++ due l') w None 0 g)) →
  wps (Mounts.cleanupLoop l') (Proc true n (Some l) m b w None 0 g) Q.
Proof.
  revert m b. induction l' as [|vol l' IH]; intros m b HQ; cbn [Mounts.cleanupLoop].
  - wp_ret tt. rewrite <- (app_nil_r b). apply HQ.
  - unfold due in HQ. rewrite filter_cons in HQ. wp_bind.
    destruct (decide (om_DeletionTimestamp (cva_Meta vol) = None)) as [E|E].
    + rewrite bool_decide_eq_true_2 by done. wp_ret tt. apply IH. by rewrite decide_False in HQ by auto.
    + rewrite bool_decide_eq_false_2 by done. rewrite decide_True in HQ by done.
      wp_bind. split; [by split_and!|]. intros [] s1 [_ ->]. wp_ret tt.
      wp_bind. split; [done|]. intros r s2 [_ ->]. cbn [then_].
      split; [by split_and!|]. intros [] s3 [_ ->]. cbn [then_].
      apply IH. intros m'. rewrite <- (assoc_L (++)). apply HQ.
Qed.

Lemma wp_Cleanup w g Q :
  (∀ l n t m, n < 5 → tried n t → Q (ORet None) (Proc false t (Some l) m (due l) w None 0 g)) →
  (∀ e t, paused 5 t → Q (ORet (Some e)) (Proc false t None None [] w None 0 g)) →
  wps Mounts.Cleanup (Proc false untried None None [] w None 0 g) Q.
Proof.
  intros H1 H2. unfold Mounts.Cleanup. wp_bind. split; [done|]. intros [] s1 [_ ->].
  cbn [then_]. wp_defer. wp_bind. apply (wp_cleanupList 0); [done|by split_and!|..]; cbn [then_].
  - intros l n t Hn Ht. wp_bind. apply wp_cleanupLoop. intros m. cbn [then_]. wp_ret (None : err).
    cbn [then_defer]. split; [done|]. intros [] s2 [_ ->]. by apply (H1 l n).
  - intros e t Ht. split; [done|]. intros [] s2 [_ ->]. by apply H2.
Qed.

(** C37: the cleanup holds the lock of the transition list throughout and
    releases it however it ends. It asks for the attachments of this node once
    between two pauses of a second, and at most five times (exactly as often as it
    tried, unless the client could not be opened). If a listing succeeds, the cleanup of exactly the
    attachments marked for deletion is begun, in the order of the list, each with
    its volume entered in the transition list first; if all five attempts fail, the
    error is returned and no cleanup is begun. *)
Theorem cleanup_exact :
  ⟪ fresh ⟫ Mounts.Cleanup under starting
  ⟪ λ o s,
    locked s = false ∧
    match o with
    | ORet None => ∃ l, found s = Some l ∧ begun s = due l ∧
        ∃ n, n < 5 ∧ tried n (attempts s)
    | ORet (Some _) => found s = None ∧ begun s = [] ∧ paused 5 (attempts s)
    | _ => False
    end ⟫.
Proof.
  apply wp_Cleanup; simpl.
  - intros l n t m Hn Ht. split; [done|]. exists l. split_and!; [done..|]. by exists n.
  - by intros e t Ht.
Qed.

(** *** From the command line to the server *)

Lemma wp_Current s Q : (∀ v, Q (ORet v) s) → wps Version.Current s Q.
Proof.
  intros HQ. unfold Version.Current, Version.Get. case_bool_decide; [|apply HQ].
  unfold os_Getenv. wp_bind. wp_bind. apply (spec_env h (mspec starting)). cbn [then_].
  wp_ret (default "" (environ h "GOPATH")). wp_bind. split; [done|].
  destruct s. intros [v [e|]] s' [_ ->]; apply HQ.
Qed.

Lemma wp_GetGitCommit s Q : (∀ v, Q (ORet v) s) → wps Version.GetGitCommit s Q.
Proof.
  intros HQ. unfold Version.GetGitCommit. case_bool_decide; [|apply HQ].
  wp_bind. split; [done|]. destruct s. intros [v [e|]] s' [_ ->]; apply HQ.
Qed.

(** A driver built for the configuration, in the state its server starts in. *)
Definition ready (d : Driver.CSIDriver) (s : proc) : Prop :=
  Driver.Endpoint (Driver.dr_config d) = Driver.Endpoint c ∧
  Server.registered true (bool_decide (is_Some (Driver.cs d)))
    (bool_decide (is_Some (Driver.ns d))) = services ∧
  (is_Some (Driver.cs d) ↔ Driver.PluginType c = "controller") ∧
  locked s = false ∧ cleaned s ∧ watching s = monitored ∧ offered s = None ∧ announced s = 0 ∧
  group s = 0.

(** The only way to end: a node driver that could not list its attachments. *)
Definition given_up (o : outcome ()) (s : proc) : Prop :=
  o = OExit 1 ∧ Driver.PluginType c = "node" ∧
  found s = None ∧ paused 5 (attempts s) ∧ begun s = [] ∧ offered s = None ∧ locked s = false.

Lemma wp_New c' Q :
  Driver.PluginType c' = Driver.PluginType c → Driver.Endpoint c' = Driver.Endpoint c →
  (∀ d s, ready d s → Q (ORet d) s) →
  (∀ s, given_up (OExit 1) s → Q (OExit 1) s) →
  wps (Driver.New c') fresh Q.
Proof.
  intros Ht He H1 H2. unfold Driver.New. cbv zeta. rewrite Ht.
  destruct (decide (Driver.PluginType c = "controller")) as [Hc|Hc].
  { rewrite bool_decide_eq_true_2 by done. apply H1.
    unfold ready, services, cleaned, monitored. by rewrite Hc. }
  rewrite bool_decide_eq_false_2 by done.
  destruct (decide (Driver.PluginType c = "node")) as [Hn|Hn].
  - rewrite bool_decide_eq_true_2 by done. wp_bind. apply wp_Cleanup; cbn [then_].
    + intros l n t m _ _. unfold os_Getenv. wp_bind. wp_bind.
      apply (spec_env h (mspec starting)). cbn [then_].
      wp_ret (default "" (environ h "REMOUNT")).
      assert (bool_decide (default "" (environ h "REMOUNT") = "true") = monitored) as ->.
      { unfold monitored. rewrite Hn. simpl. apply bool_decide_ext.
        destruct (environ h "REMOUNT"); simpl; naive_solver. }
      wp_bind. destruct monitored eqn:Hm.
      * split; [split_and!; try done; unfold cleaned; rewrite Hn; by exists l|].
        intros [] s1 [_ ->]. cbn [then_]. apply H1.
        unfold ready, services, cleaned. rewrite Hn, Hm. split_and!; try done; try (by split; [intros [? ?]|]); by exists l.
      * wp_ret tt. apply H1. unfold ready, services, cleaned. rewrite Hn, Hm.
        split_and!; try done; try (by split; [intros [? ?]|]); by exists l.
    + intros e t Hp. by apply H2.
  - rewrite bool_decide_eq_false_2 by done. apply H1.
    unfold ready, services, cleaned, monitored.
    rewrite !(bool_decide_eq_false_2 _ Hc), !(bool_decide_eq_false_2 _ Hn).
    split_and!; try done; by split; [intros [? ?]|].
Qed.

(** Nothing adds to the wait group after the start, and nothing takes from it:
    the main thread never gets past its wait. *)
Lemma wp_Run d s Q : ready d s → wps (Driver.Run d) s Q.
Proof.
  intros (He & Hs & Hcs & Hl & Hc & Hw & Ho & Ha & Hg). destruct s as [lk n f m b w o a g].
  simpl in Hl, Hw, Ho, Ha, Hg; subst lk w o a g.
  unfold Driver.Run, Server.Start, Server.Wait. rewrite He, Hs.
  wp_bind. wp_bind. split; [done|]. intros [] s1 [_ ->]. cbn [then_].
  split; [by split_and!|]. intros [] s2 [_ ->]. cbn [then_].
  assert (∀ a Q', a = (if announces then 3 else 0) → wps (sys WgWait) (Proc false n f m b monitored
    (Some (Driver.Endpoint c, services)) a 1) Q') as Hwait.
  { intros a Q' Ha. split; [done|]. by intros [] s3 (_ & ? & _). }
  wp_bind. destruct (Driver.cs d) as [x|].
  2: { wp_ret tt. wp_bind. apply Hwait. unfold announces.
       rewrite bool_decide_eq_false_2; [done|]. intros Hct. by apply Hcs in Hct as [? ?]. }
  assert (announces = truthy (environ h Env.OpenEBSEnableAnalytics)) as Han.
  { unfold announces. by rewrite (bool_decide_eq_true_2 (Driver.PluginType c = _)) by (apply Hcs; by eexists). }
  wp_bind. apply (wp_Truthy h (mspec starting)). cbn [then_]. rewrite <- Han.
  destruct announces eqn:Ht; [|wp_ret tt; wp_bind; by apply Hwait].
  wp_bind. split; [by split_and!|]. intros [] s3 [_ ->]. cbn [then_].
  wp_bind. split; [by split_and!|]. intros [] s4 [_ ->]. cbn [then_].
  split; [by split_and!|]. intros [] s5 [_ ->]. cbn [then_]. wp_bind. by apply Hwait.
Qed.

(** C36: the driver starts in order, whatever the environment answers. A node
    driver begins the cleanup of its attachments marked for deletion, then the
    monitor if REMOUNT is "true"; then the server is started, once, at the configured
    endpoint with the services of the plugin's type; a controller with
    analytics enabled, and no other driver, then registers its version getter, announces itself and
    starts the ping, and does so before it waits. The main thread exits with status 1
    before serving if, and only if, a node driver's five attempts to list its
    attachments, a second apart, fail;
    otherwise it waits for ever on a wait group that nothing decrements. *)
Theorem driver_starts : ⟪ fresh ⟫ Main.run c under starting ⟪ given_up ⟫.
Proof.
  unfold Main.run. wp_bind.
  assert (∀ c', Driver.PluginType c' = Driver.PluginType c →
    Driver.Endpoint c' = Driver.Endpoint c →
    wps (_ ← Version.Current; _ ← Version.GetGitCommit; d ← Driver.New c';
         e ← Driver.Run d; match e with Some _ => Exit 1 | None => Exit 0 end) fresh given_up) as H.
  { intros c' Ht He. wp_bind. apply wp_Current. intros v. cbn [then_].
    wp_bind. apply wp_GetGitCommit. intros v2. cbn [then_].
    wp_bind. apply wp_New; [done|done| |done]. intros d s Hd. cbn [then_].
    wp_bind. by apply wp_Run. }
  case_bool_decide; [|by apply H].
  wp_bind. apply wp_Current. intros v. cbn [then_]. wp_ret (Main.withVersion v c). by apply H.
Qed.

End start.

(** ** The command line *)

(** The last value given to a flag, its default if none was. *)
Definition given (name dflt : string) (l : list (string * string)) : string :=
  from_option snd dflt (last (filter (λ x, x.1 = name) l)).

Lemma given_snoc name dflt l k v :
  given name dflt (l ++ [(k, v)]) = if bool_decide (name = k) then v else given name dflt l.
Proof.
  unfold given. rewrite filter_app. case_bool_decide as Hk.
  - rewrite filter_cons_True by done. change (filter _ []) with (@nil (string * string)). by rewrite last_snoc.
  - rewrite filter_cons_False by (simpl; congruence). change (filter _ []) with (@nil (string * string)).
    by rewrite app_nil_r.
Qed.

(** A value reaches the field of its flag only. *)
Lemma assign_fields c k v :
  Main.assign c (k, v) =
  Driver.MkConfig (if bool_decide ("name" = k) then v else Driver.DriverName c)
    (if bool_decide ("plugin" = k) then v else Driver.PluginType c)
    (if bool_decide ("version" = k) then v else Driver.Version c)
    (if bool_decide ("endpoint" = k) then v else Driver.Endpoint c)
    (if bool_decide ("nodeid" = k) then v else Driver.NodeID c)
    (if bool_decide ("url" = k) then v else Driver.RestURL c).
Proof.
  destruct c.
  destruct (decide ("url" = k)) as [<-|]; [reflexivity|].
  destruct (decide ("nodeid" = k)) as [<-|]; [reflexivity|].
  destruct (decide ("version" = k)) as [<-|]; [reflexivity|].
  destruct (decide ("endpoint" = k)) as [<-|]; [reflexivity|].
  destruct (decide ("name" = k)) as [<-|]; [reflexivity|].
  destruct (decide ("plugin" = k)) as [<-|]; [reflexivity|].
  unfold Main.assign, Main.flags. cbn [foldl]. by rewrite !bool_decide_eq_false_2.
Qed.

(** The driver's configuration is, field by field, the last value given to the
    flag that is bound to the field, or the flag's default: no flag touches the
    field of another. *)
Theorem flag_values l :
  foldl Main.assign Main.flagDefaults l =
  Driver.MkConfig (given "name" "cstor.csi.openebs.io" l) (given "plugin" "csi-plugin" l)
    (given "version" "" l) (given "endpoint" "unix://csi/csi.sock" l)
    (given "nodeid" "node1" l) (given "url" "" l).
Proof.
  induction l as [|[k v] l IH] using rev_ind; [done|].
  rewrite foldl_app, IH, !given_snoc. apply assign_fields.
Qed.

(** ** Examples *)

Import Concrete.

#[local] Instance B1 : BuildVars := {| LinkedGitCommit := "0123456789"; LinkedVersion := "2.0.0" |}.

(** A handler that touches the node and fails. *)
Definition handler1 (path : string) : go (string * err) :=
  e ← sys (OsRemove path); mret (path, Some (Errorf "done" [])).

Lemma interceptor_transparent_witness :
  run quiet_env (Server.logGRPC id id "/csi.v1.Node/NodeUnpublishVolume" handler1 "/mnt") tt =
    (ORet ("/mnt", Some (Errorf "done" [])),
     [ev NewUUID "";
      ev (LogLine "Req %s: %s %s" [AStr ""; AStr "/csi.v1.Node/NodeUnpublishVolume"; AStr "/mnt"]) tt;
      ev (OsRemove "/mnt") None;
      ev (LogLine "GRPC error: %v" [AErr (Errorf "done" [])]) tt], tt).
Proof.
  exact (interceptor_transparent id id "/csi.v1.Node/NodeUnpublishVolume" handler1 "/mnt"
           quiet_env tt (λ w, eq_refl) (λ fmt args w, eq_refl)).
Defined.

Example endpoint1 : Mounts.parseEndpoint "Unix://csi/csi.sock" = ok ("Unix", "csi/csi.sock").
Proof. reflexivity. Qed.
Example endpoint2 : Mounts.parseEndpoint "/csi/csi.sock" =
  fail (Errorf "Invalid endpoint: %v" [AStr "/csi/csi.sock"]).
Proof. reflexivity. Qed.

End DriverSpec.
