(* ===== verification/HelperSpec.v ===== *)
(** * Configuration, filtered lists and collections

    The source a client loads its configuration from, the filtering list builders
    of the object packages, and the creation of a collection of claims. *)

From S2P Require Export Env VolumeConfig VolumeAttachment Volume KNode PersistentVolume.
Local Open Scope go_scope.

Module HelperSpec.

(** ** Configuration *)

Section config.
Context {L : ApiLib}.

(** C38: a client loads its configuration with exactly one call, from the
    first source that applies: the kubeconfig path it was given; the cluster, if
    it was told that it runs there; the two environment variables, if one of
    them holds more than blanks; else the cluster. Nothing but environment
    variables is read around that call, and its result is the client's. *)
Theorem config_precedence {W} (env : ∀ a : action, W → result a * W)
    (environ : string → option string) inCluster path w :
  (∀ k w, env (LookupEnv k) w = (environ k, w)) →
  let var k := Str.TrimSpace (default "" (environ k)) in
  let '(o, _, w') :=
    run env (KClient.GetConfig (Some (KClient.New (KClient.clientOpts inCluster path)))) w in
  let '(r, w1) :=
    if negb (bool_decide (path = "")) then env (BuildConfigFromFlags "" path) w
    else if inCluster then env InClusterConfig w
    else if bool_decide (var "OPENEBS_IO_K8S_MASTER" = "" ∧ var "OPENEBS_IO_KUBE_CONFIG" = "")
    then env InClusterConfig w
    else env (BuildConfigFromFlags (var "OPENEBS_IO_K8S_MASTER") (var "OPENEBS_IO_KUBE_CONFIG")) w in
  (o, w') = (ORet r, w1).
Proof.
  intros Henv var.
  set (step := if negb (bool_decide (path = "")) then _ else _).
  apply (wp_det env _ w (λ o w', let '(r, w1) := step in (o, w') = (ORet r, w1))).
  apply (KClient.wp_GetConfig_source (det env) environ).
  { intros k s Q. unfold det. by rewrite Henv. }
  apply wp_det. unfold step, KClient.configSource, KClient.trimmed, Env.KubeMaster, Env.KubeConfig.
  fold (var "OPENEBS_IO_K8S_MASTER"). fold (var "OPENEBS_IO_KUBE_CONFIG").
  rewrite bool_decide_and.
  destruct (bool_decide (path = "")), inCluster,
    (bool_decide (var "OPENEBS_IO_K8S_MASTER" = "")),
    (bool_decide (var "OPENEBS_IO_KUBE_CONFIG" = "")); cbn [negb orb andb run];
    (match goal with |- context [env ?a w] => by destruct (env a w) end).
Qed.
End config.

(** ** Filtered lists *)

Section lists.
Context {L : ApiLib}.

(** The selection of a list: the objects every predicate accepts. *)
Definition select {A} (preds : list (A → bool)) (l : list A) : list A :=
  filter (λ x, Forall (λ p, p x = true) preds) l.

Lemma select_all {A} (preds : list (A → bool)) (all : A → bool) l :
  (∀ x, all x = true ↔ Forall (λ p, p x = true) preds) →
  filter (λ x, all x = true) l = select preds l.
Proof. intros H. apply list_filter_iff. intros x. apply H. Qed.

(** The predicate lists of the packages: each one's [all] is a conjunction. *)
Ltac solve_all :=
  match goal with |- _ ↔ Forall _ ?l =>
    induction l as [|p l IH]; simpl; [by split|]; rewrite Forall_cons, <- IH;
    match goal with |- context [p ?c] => destruct (p c) end; simpl; naive_solver
  end.

Lemma cvc_all preds c : Cvc.all preds c = true ↔ Forall (λ p, p c = true) preds.
Proof. solve_all. Qed.
Lemma cv_all preds c : Cv.all preds c = true ↔ Forall (λ p, p c = true) preds.
Proof. solve_all. Qed.
Lemma node_all preds c : KNode.all preds c = true ↔ Forall (λ p, p c = true) preds.
Proof. solve_all. Qed.
Lemma cva_all preds c : Cva.all preds c = true ↔ Forall (λ p, p c = true) preds.
Proof. solve_all. Qed.

(** The label predicate of attachments accepts exactly the attachments
    whose labels include every pair asked for, whatever the order in which the
    pairs are visited; a nil attachment, or one without labels, has none. *)
Lemma HasLabels_spec kv (v : option CStorVolumeAttachment) :
  Cva.HasLabels kv v = true ↔
  kv ⊆ match v with Some o => default ∅ (om_Labels (cva_Meta o)) | None => ∅ end.
Proof.
  change (match v with Some o => default ∅ (om_Labels (cva_Meta o)) | None => ∅ end)
    with (Cva.labels_of v).
  unfold Cva.HasLabels. rewrite map_subseteq_spec.
  assert (∀ k x, Cva.hasLabel v k x = true ↔ Cva.labels_of v !! k = Some x) as Hl.
  { intros k x. unfold Cva.hasLabel. destruct (Cva.labels_of v !! k); [|naive_solver].
    rewrite bool_decide_eq_true. naive_solver. }
  apply (map_fold_weak_ind (λ b m, b = true ↔ ∀ k x, m !! k = Some x → Cva.labels_of v !! k = Some x)).
  - split; [|done]. intros _ k x. by rewrite lookup_empty.
  - intros k x m b Hk IH. rewrite andb_true_iff, IH, Hl. split.
    + intros [H1 H2] k' x' H. apply lookup_insert_Some in H as [[<- <-]|[_ H]]; eauto.
    + intros H. split; [|apply H, lookup_insert_eq]. intros k' x' H'.
      apply H. apply lookup_insert_Some. right. split; [congruence|done].
Qed.
(** C40: the filtering list builders of the volume configurations, volumes,
    attachments and nodes return exactly the objects of the API list that every
    predicate accepts, in their order and with their repetitions; without a
    predicate, the list itself. A list of attachments filtered by labels holds
    exactly those whose labels include every pair asked for. *)
Theorem filtered_lists :
  (∀ l preds, Cvc.ListOf (Cvc.WithFilter preds (Cvc.WithAPIList (Some l) Cvc.NewListBuilder))
     = select preds l) ∧
  (∀ l preds, Cv.ListOf (Cv.WithFilter preds (Cv.WithAPIList (Some l) Cv.NewListBuilder))
     = select preds l) ∧
  (∀ l preds, Cva.ListOf (Cva.WithFilter preds (Cva.ListBuilderFrom l))
     = select (map (λ p v, p (Some v)) preds) l) ∧
  (∀ l preds, KNode.ListOf (KNode.WithFilter preds (KNode.WithAPIList (Some l) KNode.NewListBuilder))
     = select preds l) ∧
  (∀ l kv, Cva.ListOf (Cva.WithFilter [Cva.HasLabels kv] (Cva.ListBuilderFrom l))
     = filter (λ v, kv ⊆ default ∅ (om_Labels (cva_Meta v))) l).
Proof.
  assert (∀ l preds, Cva.ListOf (Cva.WithFilter preds (Cva.ListBuilderFrom l))
     = select (map (λ p v, p (Some v)) preds) l) as Hcva.
  { intros l preds. unfold Cva.ListOf, Cva.WithFilter.
    replace (Cva.filters (Cva.ListBuilderFrom l) ++ preds) with preds by by destruct l.
    replace (Cva.items (Cva.ListBuilderFrom l)) with l by by destruct l.
    rewrite <- (select_all _ (λ v, Cva.all preds (Some v))).
    2:{ intros x. rewrite cva_all, Forall_map. done. }
    destruct preds; [by rewrite filter_all|apply (foldl_filter (λ v, Cva.all _ (Some v)))]. }
  split_and!; intros l preds.
  - unfold Cvc.ListOf, Cvc.WithFilter, Cvc.WithAPIList, Cvc.NewListBuilder. simpl.
    rewrite foldl_snoc. rewrite <- (select_all preds (Cvc.all preds)) by apply cvc_all.
    destruct preds; [by rewrite filter_all|apply foldl_filter].
  - unfold Cv.ListOf, Cv.WithFilter, Cv.WithAPIList, Cv.NewListBuilder. simpl.
    rewrite foldl_snoc. rewrite <- (select_all preds (Cv.all preds)) by apply cv_all.
    destruct preds; [by rewrite filter_all|apply foldl_filter].
  - apply Hcva.
  - unfold KNode.ListOf, KNode.WithFilter, KNode.WithAPIList, KNode.WithAPIObject, KNode.NewListBuilder.
    simpl. rewrite foldl_snoc. rewrite <- (select_all preds (KNode.all preds)) by apply node_all.
    destruct preds; simpl; [by rewrite filter_all|apply foldl_filter].
  - rewrite Hcva. apply list_filter_iff. intros v. simpl.
    by rewrite Forall_singleton, HasLabels_spec.
Qed.

End lists.

(** ** Collections of claims *)

Section claims.
Context {L : ApiLib} (h : Host) (ns : string) (items : list PersistentVolumeClaim).

(** The claims asked for so far with the server's answers, and whether a
    creation failed. *)
Record progress := Progress { made : list PersistentVolumeClaim;
  answers : list PersistentVolumeClaim; stopped : bool }.

Definition collects (s : progress) (a : action) : Prop :=
  match a with
  | PvcCreate _ ns' o => ns' = ns ∧ stopped s = false ∧ items !! length (made s) = Some o
  | a => kind_of a = KConfig
  end.

Definition collected (s : progress) (a : action) : result a → progress → Prop :=
  match a with
  | PvcCreate _ _ o => λ r s', match r with
      | (Some x, None) => s' = Progress (made s ++ [o]) (answers s ++ [x]) false
      | (_, Some _) => s' = Progress (made s) (answers s) true
      | (None, None) => False
      end
  | _ => λ _ s', s' = s
  end.

Definition collection : machine progress := {|
  guard := collects; next := λ s a r s', sane h a r ∧ collected s a r s'
|}.

Global Instance collection_config : ConfigFree h (mspec collection).
Proof.
  intros a s Q Ha HQ. split.
  - destruct a; first [discriminate Ha | done].
  - intros r s' [Hr Hs]. destruct a; first [discriminate Ha | (simpl in Hs; subst; by apply HQ)].
Qed.

(** The client of a namespace, before and after it has cached its clientset. *)
Definition cached (c : option kclientset) : Pvc.Kubeclient :=
  let k := Pvc.client ns in
  Pvc.MkKubeclient c (Pvc.namespace k) (Pvc.kubeConfigPath k) (Pvc.getClientset k)
    (Pvc.getClientsetForPath k) (Pvc.list_ k) (Pvc.get_ k) (Pvc.create_ k) (Pvc.update_ k)
    (Pvc.del_ k) (Pvc.delCollection_ k).

Lemma wp_pvcCreate {S} (spec : ∀ a, S → (result a → S → Prop) → Prop)
    `{!MonoSpec spec, !ConfigFree h spec} c o s Q :
  (∀ k e, broken h e → Q (ORet (k, (None, Some e))) s) →
  (∀ cs, spec (PvcCreate cs ns o) s (λ r s', Q (ORet (cached (Some cs), r)) s')) →
  wp spec (Pvc.Create (cached c) (Some o)) s Q.
Proof.
  intros H1 H2. unfold Pvc.Create, Pvc.getClientsetOrCached. destruct c as [c|].
  - wp_bind. wp_ret (cached (Some c), (Some c, None : err)). apply H2.
  - rewrite (eq_refl : Pvc.clientset_ (cached None) = None).
    change (Pvc.getClientsetForPathOrDirect (cached None)) with (KClient.Clientset (KClient.New [])).
    wp_bind. wp_bind. apply (wp_kGetClientset h spec). split.
    + intros c. cbn [then_]. wp_ret (cached (Some c), (Some c, None : err)). apply H2.
    + intros r e He. cbn [then_].
      wp_ret (cached None, (None : option kclientset, Some (Wrapf e "failed to get clientset" []))).
      apply H1. eauto using broken_wrap.
Qed.

Lemma wp_createLoop todo c done_ out :
  items = done_ ++ todo → length out = length done_ →
  wp (mspec collection) (Pvc.createLoop (cached c) todo out) (Progress done_ out false)
    (λ o s, match o with
            | ORet (_, (Some l, None)) => made s = items ∧ answers s = l ∧ length l = length items
            | ORet (_, (None, Some e)) =>
                (stopped s = true ∨ broken h e) ∧ ∃ o rest, items = made s ++ o :: rest
            | _ => False
            end).
Proof.
  revert c done_ out. induction todo as [|o todo IH]; intros c done_ out Hi Hl; cbn [Pvc.createLoop].
  - rewrite app_nil_r in Hi. by subst done_.
  - wp_bind. apply (wp_pvcCreate (mspec collection)).
    + intros k e He. cbn [then_]. split; eauto.
    + intros cs. split.
      * split_and!; [done|done|]. simpl. rewrite Hi. by rewrite list_lookup_middle.
      * intros [[x|] [e|]] s' [_ Hs]; cbn [then_]; simpl in Hs; try done; subst s';
          try (by split; eauto).
        wp_bind. wp_ret x. apply IH; [by rewrite <- (assoc_L (++))|]. rewrite !length_app. simpl. lia.
Qed.

(** A collection of claims is created in the order given and in the
    client's namespace, each claim once, up to the first failure. It is
    reported as created, with the server's answers in order, exactly when every
    claim was; an error means that a creation failed, and every claim before it,
    and none after it, was created, or that no clientset could be had. An empty
    collection is refused. *)
Theorem collection_created :
  ⟪ Progress [] [] false ⟫ Pvc.CreateCollection (Pvc.client ns) (Some items) under collection
  ⟪ λ o s, match o with
            | ORet (_, (Some l, None)) =>
                items ≠ [] ∧ made s = items ∧ answers s = l ∧ length l = length items
            | ORet (_, (None, Some e)) =>
                items = [] ∨
                (stopped s = true ∨ broken h e) ∧ ∃ o rest, items = made s ++ o :: rest
            | _ => False
            end ⟫.
Proof.
  unfold Pvc.CreateCollection. destruct items as [|o l] eqn:Hi; [by left|].
  rewrite <- Hi. change (Pvc.client ns) with (cached None).
  wp_mono; [|by apply wp_createLoop]. intros [[k [[x|] [e|]]]|m|c] s; simpl; try done.
  - intros (H1 & H2 & H3). split_and!; [congruence|done..].
  - by right.
Qed.
End claims.

(** ** Examples *)

Import Concrete.

(** A host on which one variable names the API server; it records its calls. *)
Definition environ1 (k : string) : option string :=
  if bool_decide (k = "OPENEBS_IO_K8S_MASTER") then Some " 10.0.0.1 " else None.
Definition env1 (a : action) (w : list action) : result a * list action :=
  match a return result a * list action with
  | LookupEnv k => (environ1 k, w)
  | a => (quiet a, w ++ [a])
  end.

Lemma config_precedence_witness :
  let '(o, _, w) := run env1 (KClient.GetConfig (Some (KClient.New (KClient.clientOpts false "")))) [] in
  (o, w) = (ORet (Some tt, None), [BuildConfigFromFlags "10.0.0.1" ""]).
Proof.
  exact (config_precedence env1 environ1 false "" [] (λ k w, eq_refl)).
Defined.

Example labels1 :
  Cva.HasLabels {[ "nodeID" := "n1" ]}
    (Some (cva_set_Meta (om_set_Labels (Some {[ "nodeID" := "n1"; "x" := "y" ]}) om_zero) cva_zero)) = true.
Proof. reflexivity. Qed.

End HelperSpec.
